(* ===== verification/_CoqProject ===== *)
-Q . S2P
Prelude.v
GoStrings.v
GoPath.v
GoTime.v
GoFlag.v
GoJson.v
GoJsonProps.v
Types.v
Policy.v
TargetSchemas.v
Metrics.v
Readiness.v
UploadQueue.v
LocalDB.v
UploadSystem.v
Interfaces.v
Store.v
Worker.v
WorkerProps.v
SupervisorWorkers.v
Supervisor.v
SupervisorProps.v
DesiredState.v
DesiredStateProps.v
Relay.v
RelayProps.v
Updater.v
UpdaterProps.v
EvidenceBundle.v
EvidenceBundleProps.v
BrocadeCli.v
BrocadeCliProps.v
BrocadeExport.v
BrocadeExportProps.v
TargetConfig.v
TargetProbe.v
TargetConfigProps.v
TargetProbeProps.v
AgentEvidence.v
AgentEvidenceProps.v
EvidenceWiring.v
EvidenceWiringProps.v
NetAddr.v
LocalAPI.v
LocalAPIProps.v
Backend.v
BackendProps.v
Enrollment.v
EnrollmentProps.v
Bootstrap.v
BootstrapProps.v
BrocadeRest.v
BrocadeRestProps.v
BrocadeSnapshot.v
BrocadeAdapter.v
BrocadeAdapterProps.v
BrocadeSnapshotProps.v
WizardTerminal.v
WizardTerminalProps.v
Wizard.v
WizardProps.v
WizardKeyProps.v
Capabilities.v
CapabilitiesProps.v
Daemon.v
DaemonProps.v
AuditLog.v
AuditLogProps.v
CommandLine.v
CommandLineProps.v
Diagnostics.v
LanOnly.v
Lifecycle.v
HostReport.v
UploadBounds.v
