(* ===== verification/Prelude.v ===== *)
(** * The FilterREX connector agent

    A development about the connector agent under [src/]: a Go daemon that
    collects snapshots from LAN targets (Brocade switches), keeps them in an
    encrypted local store, uploads them to a control plane, is configured,
    queried and updated from there, and collects evidence bundles over SSH.

    ** The program and its model

    - A process start ([main.go]) dispatches local subcommands, opens the
      encrypted store ([store.go], [crypto.go]), enrolls the host once
      ([enrollment.go]) and initialises the supervisor.  All exchanges with the
      control plane go through one client ([backend.go]).
    - A supervisor ([supervisor.go]) holds the host state (targets and
      configuration) and one worker per active target.  Workers ([worker.go])
      poll their target, escalate errors, send heartbeats and hand snapshots to
      the upload queue ([upload_queue.go]) and the local database
      ([local_db.go]).
    - The sync manager ([desired_state.go]) fetches the desired state, validates
      it ([validation.go]), stores credentials, applies it through the
      supervisor and acknowledges it.  It hands relay commands to the relay
      handler ([relay.go], [system_commands.go], [probe_handler.go]), which is
      gated by the change policy ([change_policy.go]).  The local HTTP API
      ([local_api.go]) serves snapshots and runs commands for LAN clients.
    - The update manager ([updater.go]) verifies, stages, activates and rolls
      back new versions of the agent.
    - The Brocade adapter ([adapter_brocade.go]) reads a switch through a REST
      client of its own ([brocaderest]) and turns the answers into snapshots
      with signals; the outcome of every cycle is an input of the worker.
    - Target configuration ([targetconfigure]) keeps identities, credentials
      and SSH readiness of Brocade targets in files that operators write with
      an interactive wizard and the daemon reads; probes and the doctor check
      them.
    - Evidence: a handler of server-initiated jobs ([agentevidence],
      [agent_evidence_wiring.go]) checks readiness, runs a fixed profile of
      read-only commands over SSH ([brocadecli]), builds a bundle
      ([evidencebundle]), writes it as an artifact ([brocadeexport]) and
      uploads it.

    The files, in dependency order:

    - [Prelude]: results, 64-bit integers, time, the state monad and its
      automation; [GoStrings], [GoPath], [GoTime]: the parts of Go's [strings],
      [path/filepath], [regexp]-like matching and [time] in use; [GoFlag]: the
      flag package; [GoJson], [GoJsonProps]: the JSON encoder on flat objects
      and a reader for it; [Types]: [types.go] and dynamic JSON values.
    - [Policy]: the change policy, profile validation and TLS policies
      ([httputil.go]); [TargetSchemas]: the configuration schemas of target
      types and what typed guardrails become for the validation.
    - [Metrics]: metrics registry and the sub-collection runner ([metrics.go],
      [collector.go]).
    - [Readiness]: Brocade REST and SSH readiness ([brocade_rest_readiness.go],
      [brocade_ssh_readiness_merge.go]).
    - [UploadQueue], [LocalDB]: the two data structures; [UploadSystem]: upload
      workers, probe loop, replay and producers as interleaved steps over them.
    - [Interfaces]: what the supervisor relies on from workers and the store, as
      classes of operations with their laws, and a reference store in memory.
    - [Store]: files with failing and partial writes, encryption, key file, key
      pair; it implements the store interface.
    - [Worker], [WorkerProps]: the worker and its properties;
      [SupervisorWorkers]: the worker implements the worker interface.
    - [Supervisor], [SupervisorProps]: reconciliation, target management and
      watchdog, proved against the two interfaces.
    - [DesiredState], [DesiredStateProps]: synchronisation, acknowledgements,
      host configuration and wipe.
    - [Relay], [RelayProps]: relay commands, with a supervisor that other
      goroutines may change between any two looks at it.
    - [Updater], [UpdaterProps]: self-update.
    - [EvidenceBundle], [EvidenceBundleProps]: the bundle format and its
      construction; [BrocadeCli], [BrocadeCliProps]: the command profile, the
      SSH runner and a collection; [BrocadeExport], [BrocadeExportProps]: the
      artifact, its directory and the audit record.
    - [TargetConfig], [TargetConfigProps]: target identities, managed
      artifacts, inventory, locks, the readiness sidecar, published and
      effective readiness; [TargetProbe], [TargetProbeProps]: SSH probes and
      the doctor.
    - [AgentEvidence], [AgentEvidenceProps]: the handler of evidence jobs over
      an interface of readiness check and producer; [EvidenceWiring],
      [EvidenceWiringProps]: the instance of that interface, the capability
      report and the single-flight runner.
    - [NetAddr]: IP addresses and ranges of Go's [net]; [LocalAPI],
      [LocalAPIProps]: the local HTTP API.
    - [Backend], [BackendProps]: the control-plane client; [Enrollment],
      [EnrollmentProps]: enrollment over the encrypted store; [Bootstrap],
      [BootstrapProps]: the process start.
    - [BrocadeRest], [BrocadeRestProps]: the REST client; [BrocadeSnapshot],
      [BrocadeSnapshotProps]: the normalised snapshot, its signals and alerts;
      [BrocadeAdapter], [BrocadeAdapterProps]: requests, sessions, verification
      and collection of the adapter.
    - [WizardTerminal], [WizardTerminalProps]: prompts over a terminal;
      [Wizard], [WizardProps], [WizardKeyProps]: the interactive configuration
      of a target and what its key summary says.
    - [Capabilities], [CapabilitiesProps]: the capability manifest; [Daemon],
      [DaemonProps]: the loops of the process and the order in which its parts
      start and stop.
    - [AuditLog], [AuditLogProps]: the audit log; [CommandLine], [CommandLineProps]:
      the flags of the commands and the export command; [Diagnostics]: mounts,
      metrics summary and TLS policies in words.
    - [UploadBounds]: bounds of the uploader in every interleaving.
    - [Lifecycle]: the database file over successive runs of the process, the
      draining of the workers and a requested restart; [HostReport]: what a start reports, server names
      and the construction of the sync manager.
    - [LanOnly]: LAN-only mode across supervisor, synchronisation, workers and
      manifest.

    ** Conventions

    Go's 64-bit integers are [Z] with [wrap64] where they may overflow; a
    [time.Time] counts nanoseconds from the zero time; maps are [gmap]s, and
    where a loop over a map depends on the order of the keys, that order is an
    argument.  Errors are values of [result]; error texts are shortened where
    they would only add a path or the text of a lower error.  State is passed explicitly or through
    the monad [M].  Effects on the outside world (requests, posts, audit-relevant
    actions) are lists of events; answers of the outside world (clock, random
    numbers, disk, network, backend, adapters) are functions of a step counter,
    so that every theorem holds for all of them.  Cryptography and JSON of the
    standard library are parameters, with their documented laws as hypotheses
    where a theorem needs them; only the flat objects of the audit log are
    encoded in full.  The log calls inside the other parts are left out.

    A call that may block for ever returns [None] in the worker and supervisor
    models, and the theorems about them show that it does not; in [Enrollment]
    and [Backend] [None] is a panic.  Loops are structural recursions or bounded
    by an explicit measure; the fuel is the number of retries, waits or digits
    at hand, which is exact, the number of bytes left for the JSON reader (every
    element takes at least one), and two more rounds than there are lines of
    input for a prompt of the wizard (every round but the last reads a line;
    [wizard_ends] shows that the fuel never runs out).

    ** The theorems

    - Synchronisation: [sync_converges] (whole handler, every branch); lemmas
      [ack_hard_rule], [applyHostConfig_spec], [wipe_spec].
    - Supervisor: [Reconcile_converges]; lemmas [Reconcile_persisted],
      [Reconcile_worker_cap], [RemoveTarget_complete],
      [UpdateTarget_clears_pause], [watchdog_verdict_spec], [retry_delay].
    - LAN-only mode: [lan_only_confined], over every history of a host, and
      [worker_discreet] for one worker; lemma [lan_only_replay_leaks] shows what
      a restart still sends.
    - Workers: [error_escalation]; lemmas [Restart_lifecycle],
      [collect_success_recovers], [run_tick_watchdog].
    - Upload: [upload_conservation] by induction on interleaved steps, and
      [restarts_forget_nothing] over any number of runs of the process; lemmas
      [synced_only_if_delivered], [no_lost_wakeup], [upload_accounting],
      [reconnect_exactly_on_edge], [Enqueue_spec], [drain_sorted];
      [upload_bounded] for its resources; lemmas [localdb_invariant] (while the
      database enforces foreign keys), [buildSummary_spec],
      [LatestSnapshot_text_order]; lemma [concurrent_equals_sequential] for the
      collection runner.
    - Brocade adapter: [adapter_contained] (what one cycle sends, writes and
      records), [signals_report] (when a signal is raised), [rest_call_contained].
    - Storage and identity: [secret_crash_safe], [enrollment_once],
      [startup_complete]; lemmas [key_is_stable], [keypair_roundtrip],
      [checkWritable_files], [force_reset_forgets].
    - Process: [trigger_served], [process_order]; [audit_line_faithful] for the
      log; lemmas [restart_ends], [watchdog_outlives], [failing_polls_stay_fast],
      [text_line_forged].
    - Security of the remote interfaces: [change_policy_fail_closed],
      [relay_gate], [relay_results], [api_access], [backend_confined]; lemmas
      [Validate_spec], [validateGenericHTTP_wire].
    - Updates: [canonical_injective], [installed_is_signed],
      [update_reversible]; lemma [CheckForUpdate_spec].
    - Readiness: [rest_ready_is_fresh], [readiness_agrees] (what the heartbeat
      publishes is what a collection decides on), [manifest_coherent],
      [published_canonical], [artifact_contained], [lock_terminates]; lemmas
      [sidecar_roundtrip], [sidecar_probe_spec], [merge_ownership],
      [accepted_is_advertised].
    - Wizard: [host_key_vouched] (no key is trusted without the answer to its
      challenge), [wizard_saves], [wizard_ends], [key_described].
    - Evidence: [evidence_protocol] (every poll follows an exchange protocol
      given as a monitor), [evidence_gates], [collect_runs_profile],
      [bundle_faithful], [export_command]; lemmas [single_flight],
      [export_safe], [bundle_refusals], [collect_bundle_outcome],
      [artifact_dir_safe].

    ** Not modelled

    Timers and tickers (the times are inputs of the steps), the SQLite engine (its
    statements act on lists of rows), the HTTP and SSH transports and the JSON codecs of nested values
    (parameters), the random number generator, the terminal driver, and the
    texts of log lines and usage messages outside [AuditLog] and [Diagnostics].
    A collection whose watchdog fired is taken to hang in its adapter: what it
    would still do if the adapter answered after all is not modelled.  The hooks
    for vendor transports, authentication and AI probes are nil in this build
    and have no model. *)
From stdpp Require Export base tactics list gmap strings sorting pretty.
From Stdlib Require Export ZArith Lia.
From Stdlib Require Import Ascii.

Local Open Scope Z_scope.

(** ** Results of fallible operations *)

(** A Go function that returns [(T, error)] is a function into [result E T]. *)
Inductive result (E A : Type) : Type :=
| Ok (a : A)
| Err (e : E).
Arguments Ok {E A} a.
Arguments Err {E A} e.

#[global] Instance result_bind E : MBind (result E) := fun A B f r =>
  match r with Ok a => f a | Err e => Err e end.
#[global] Instance result_ret E : MRet (result E) := fun A a => Ok a.
#[global] Instance result_fmap E : FMap (result E) := fun A B f r =>
  match r with Ok a => Ok (f a) | Err e => Err e end.

Definition is_ok {E A} (r : result E A) : bool :=
  match r with Ok _ => true | Err _ => false end.

(** Wrapping an error, [fmt.Errorf("ctx: %w", err)]. *)
Definition wrap_err {E E' A} (f : E -> E') (r : result E A) : result E' A :=
  match r with Ok a => Ok a | Err e => Err (f e) end.

(** [for _, x := range l { b, err = f(b, x); if err != nil { return err } }]. *)
Fixpoint fold_result {E A B} (f : B -> A -> result E B) (b : B) (l : list A) : result E B :=
  match l with
  | [] => Ok b
  | x :: rest => match f b x with Ok b' => fold_result f b' rest | Err e => Err e end
  end.

(** An invariant indexed by what has been passed is kept by the loop. *)
Lemma fold_result_ind {E A B} (P : list A -> B -> Prop) (f : B -> A -> result E B) :
  (forall l b x b', P l b -> f b x = Ok b' -> P (l ++ [x]) b') ->
  forall l done b b', P done b -> fold_result f b l = Ok b' -> P (done ++ l) b'.
Proof.
  intros Hstep l. induction l as [|x l IH]; intros done b b' Hb; simpl.
  - intros [= <-]. by rewrite app_nil_r.
  - destruct (f b x) as [b1|e] eqn:E1; [|done]. intros Hl.
    rewrite cons_middle, app_assoc. eapply IH; [|exact Hl]. by eapply Hstep.
Qed.

(** ** Machine integers *)

Definition int64_min : Z := - 2 ^ 63.
Definition int64_max : Z := 2 ^ 63 - 1.

(** Two's complement wrap-around of a 64-bit signed integer ([int], [int64]
    and [time.Duration] are all 64 bits wide on the supported platforms). *)
Definition wrap64 (z : Z) : Z := (z + 2 ^ 63) mod 2 ^ 64 - 2 ^ 63.

Definition in_int64 (z : Z) : Prop := int64_min <= z <= int64_max.

Lemma wrap64_id z : in_int64 z -> wrap64 z = z.
Proof.
  unfold in_int64, wrap64, int64_min, int64_max. intros H.
  rewrite Z.mod_small; lia.
Qed.

Lemma wrap64_range z : in_int64 (wrap64 z).
Proof.
  unfold in_int64, wrap64, int64_min, int64_max.
  pose proof (Z.mod_pos_bound (z + 2 ^ 63) (2 ^ 64)). lia.
Qed.

(** ** Time *)

(** A [time.Time] is the number of nanoseconds since Go's zero time, so the
    zero value is [0]; a [time.Duration] is a number of nanoseconds. *)
Abbreviation GoTime := Z (only parsing).
Abbreviation Duration := Z (only parsing).

Definition Nanosecond : Duration := 1.
Definition Millisecond : Duration := 1000 * 1000.
Definition Second : Duration := 1000 * Millisecond.
Definition Minute : Duration := 60 * Second.

Definition IsZero (t : GoTime) : bool := t =? 0.
Definition Before (t u : GoTime) : bool := t <? u.
Definition After (t u : GoTime) : bool := u <? t.

(** [t.Sub(u)] saturates at the ends of the [Duration] range. *)
Definition Sub (t u : GoTime) : Duration := Z.max int64_min (Z.min int64_max (t - u)).
Definition Since (now t : GoTime) : Duration := Sub now t.

Lemma Sub_small t u : in_int64 (t - u) -> Sub t u = t - u.
Proof. unfold in_int64, Sub. lia. Qed.

(** ** Lists *)

Lemma take_take_app {A} n (l k : list A) : take n (take n l ++ k) = take n (l ++ k).
Proof.
  revert l. induction n as [|n IH]; intros [|x l]; simpl; [done..|]. by rewrite IH.
Qed.

Lemma list_delete_insert {A} (i : nat) (x : A) (l : list A) : delete i (<[i := x]> l) = delete i l.
Proof. revert i. induction l as [|y l IH]; intros [|i]; simpl; [done..|]. f_equal. apply IH. Qed.

(** ** Stateful code *)

(** A method that reads and writes the state [S] and returns an [A]. *)
Definition M (S A : Type) : Type := S -> A * S.
#[global] Instance M_ret S : MRet (M S) := fun A a s => (a, s).
#[global] Instance M_bind S : MBind (M S) := fun A B f m s => let '(a, s') := m s in f a s'.

Definition gets {S A} (f : S -> A) : M S A := fun s => (f s, s).
Definition modify {S} (f : S -> S) : M S unit := fun s => (tt, f s).
(** [for _, x := range l { body(x) }]. *)
Fixpoint for_each {S A} (l : list A) (body : A -> M S unit) : M S unit :=
  match l with
  | [] => mret tt
  | x :: rest => body x ;; for_each rest body
  end.
Definition exec {S A} (m : M S A) (s : S) : S := snd (m s).
Definition when {S} (b : bool) (m : M S unit) : M S unit := if b then m else mret tt.

Lemma exec_bind {S A B} (m : M S A) (f : A -> M S B) s :
  exec (m ≫= f) s = exec (f (fst (m s))) (exec m s).
Proof. unfold exec, mbind, M_bind. by destruct (m s). Qed.

Lemma fst_bind {S A B} (m : M S A) (f : A -> M S B) s :
  fst ((m ≫= f) s) = fst (f (fst (m s)) (exec m s)).
Proof. unfold exec, mbind, M_bind. by destruct (m s). Qed.

(** A relation between the states before and after that is reflexive and
    transitive is kept by sequencing. *)
Definition keeps {S} (R : relation S) {A} (m : M S A) : Prop := forall s, R s (exec m s).

Lemma keeps_ret {S} (R : relation S) `{!Reflexive R} {A} (a : A) : keeps R (mret a).
Proof. intros s. unfold exec. simpl. reflexivity. Qed.
Lemma keeps_bind {S} (R : relation S) `{!Transitive R} {A B} (m : M S A) (f : A -> M S B) :
  keeps R m -> (forall a, keeps R (f a)) -> keeps R (m ≫= f).
Proof. intros Hm Hf s. rewrite exec_bind. etransitivity; [apply Hm|apply Hf]. Qed.
Lemma keeps_modify {S} (R : relation S) (f : S -> S) :
  (forall s, R s (f s)) -> keeps R (modify f).
Proof. intros H s. apply H. Qed.
Lemma keeps_gets {S} (R : relation S) `{!Reflexive R} {A} (f : S -> A) : keeps R (gets f).
Proof. intros s. unfold exec. simpl. reflexivity. Qed.
Lemma keeps_when {S} (R : relation S) `{!Reflexive R} b (m : M S unit) :
  keeps R m -> keeps R (when b m).
Proof. intros H. destruct b; [exact H|apply keeps_ret; done]. Qed.
Lemma keeps_for_each {S} (R : relation S) `{!PreOrder R} {A} (l : list A) (body : A -> M S unit) :
  (forall x, keeps R (body x)) -> keeps R (for_each l body).
Proof.
  intros H. induction l as [|x l IH]; simpl; [apply keeps_ret; apply _|].
  apply keeps_bind; [apply _|apply H|intros _; apply IH].
Qed.

Create HintDb keeps.
#[export] Hint Resolve keeps_ret keeps_bind keeps_modify keeps_gets keeps_when keeps_for_each
  : keeps.
