(* ===== verification/GoStrings.v ===== *)
(** Go's [strings] package on byte strings.

    A Go string is a sequence of bytes, here a [string] of [ascii] bytes.  The
    functions below are the ones the connector calls.  Case mapping and white
    space are those of the ASCII range; bytes of multi-byte runes are neither
    case-mapped nor trimmed. *)
From S2P Require Import Prelude.
From Stdlib Require Import Strings.Byte Ascii.

Local Open Scope Z_scope.

(** ** Bytes *)

Definition byte_of (c : ascii) : Z := Z.of_N (N_of_ascii c).
Definition in_range (lo hi : Z) (c : ascii) : bool := (lo <=? byte_of c) && (byte_of c <=? hi).

Definition is_upper (c : ascii) : bool := in_range 65 90 c.
Definition is_lower (c : ascii) : bool := in_range 97 122 c.
Definition is_digit (c : ascii) : bool := in_range 48 57 c.

(** '\t', '\n', '\v', '\f', '\r' and ' '. *)
Definition is_space (c : ascii) : bool := in_range 9 13 c || (byte_of c =? 32).

Definition lower_byte (c : ascii) : ascii :=
  if is_upper c then ascii_of_N (N_of_ascii c + 32) else c.
Definition upper_byte (c : ascii) : ascii :=
  if is_lower c then ascii_of_N (N_of_ascii c - 32) else c.

(** ** Strings as lists of bytes *)

Definition bytes (s : string) : list ascii := String.list_ascii_of_string s.
Definition str (l : list ascii) : string := String.string_of_list_ascii l.

Lemma str_bytes s : str (bytes s) = s.
Proof. apply String.string_of_list_ascii_of_string. Qed.

Lemma bytes_str l : bytes (str l) = l.
Proof. apply String.list_ascii_of_string_of_list_ascii. Qed.

Lemma bytes_inj s t : bytes s = bytes t -> s = t.
Proof. intros H. by rewrite <- (str_bytes s), H, str_bytes. Qed.

Lemma bytes_app s t : bytes (s +:+ t) = bytes s ++ bytes t.
Proof. induction s as [|c s IH]; simpl; [done|]. by rewrite <- IH. Qed.

(** ** Case mapping *)

Fixpoint map_bytes (f : ascii -> ascii) (s : string) : string :=
  match s with
  | EmptyString => EmptyString
  | String c s' => String (f c) (map_bytes f s')
  end.

Definition ToLower (s : string) : string := map_bytes lower_byte s.
Definition ToUpper (s : string) : string := map_bytes upper_byte s.
Definition EqualFold (s t : string) : bool := String.eqb (ToLower s) (ToLower t).

(** ** Prefixes, suffixes, substrings *)

Fixpoint HasPrefix (s p : string) {struct p} : bool :=
  match p, s with
  | EmptyString, _ => true
  | String c p', String d s' => Ascii.eqb c d && HasPrefix s' p'
  | String _ _, EmptyString => false
  end.

Definition TrimPrefix (s p : string) : string :=
  if HasPrefix s p then String.substring (String.length p) (String.length s) s else s.

Definition rev_string (s : string) : string := str (reverse (bytes s)).
Definition HasSuffix (s p : string) : bool := HasPrefix (rev_string s) (rev_string p).

Fixpoint Contains (s sub : string) : bool :=
  HasPrefix s sub
  || match s with EmptyString => false | String _ s' => Contains s' sub end.

(** ** Trimming *)

Fixpoint TrimLeftFunc (f : ascii -> bool) (s : string) : string :=
  match s with
  | String c s' => if f c then TrimLeftFunc f s' else s
  | EmptyString => EmptyString
  end.
Definition TrimRightFunc (f : ascii -> bool) (s : string) : string :=
  rev_string (TrimLeftFunc f (rev_string s)).
Definition TrimFunc (f : ascii -> bool) (s : string) : string :=
  TrimRightFunc f (TrimLeftFunc f s).

Definition TrimSpace (s : string) : string := TrimFunc is_space s.

Definition in_cutset (cut : string) (c : ascii) : bool := bool_decide (c ∈ bytes cut).
Definition TrimRight (s cut : string) : string := TrimRightFunc (in_cutset cut) s.
Definition Trim (s cut : string) : string := TrimFunc (in_cutset cut) s.

(** ** Splitting and joining at a one-byte separator *)

Fixpoint Split (s : string) (sep : ascii) : list string :=
  match s with
  | EmptyString => [EmptyString]
  | String c s' =>
      if Ascii.eqb c sep then EmptyString :: Split s' sep
      else match Split s' sep with
           | [] => [String c EmptyString]
           | w :: ws => String c w :: ws
           end
  end.

Fixpoint Join (l : list string) (sep : string) : string :=
  match l with
  | [] => EmptyString
  | [w] => w
  | w :: ws => w +:+ sep +:+ Join ws sep
  end.

(** ** Numbers and raw bytes *)

(** [strings.SplitN] for a positive [n]. *)
Definition SplitN (s : string) (sep : ascii) (n : nat) : list string :=
  let parts := Split s sep in
  if (length parts <=? n)%nat then parts
  else take (n - 1) parts ++ [Join (drop (n - 1) parts) (String sep "")].

Fixpoint digits (acc : Z) (l : list ascii) : option Z :=
  match l with
  | [] => Some acc
  | c :: rest => if is_digit c then digits (acc * 10 + (byte_of c - 48)) rest else None
  end.
(** [strconv.Atoi]: an optional sign, at least one digit, within 64 bits. *)
Definition Atoi (s : string) : option Z :=
  let '(neg, l) := match bytes s with
                   | "-"%char :: l => (true, l)
                   | "+"%char :: l => (false, l)
                   | l => (false, l)
                   end in
  match l with
  | [] => None
  | _ => n ← digits 0 l;
         let z := if neg : bool then - n else n in
         if (int64_min <=? z) && (z <=? int64_max) then Some z else None
  end.

Definition hex_digit (n : Z) : ascii :=
  ascii_of_N (Z.to_N (if n <? 10 then 48 + n else 87 + n)).
Definition hex_byte (n : Z) : list ascii := [hex_digit (n / 16); hex_digit (n mod 16)].
Definition chr (n : N) : ascii := ascii_of_N n.

(** [strconv.Quote], the verb [%q]: exact for ASCII; a byte of a longer rune is
    kept, as Go keeps the bytes of a printable rune. *)
Definition dquote : string := str [chr 34].
Definition quote_byte (c : ascii) : list ascii :=
  let esc (d : N) := [chr 92; chr d] in
  match Z.to_N (byte_of c) with
  | 7%N => esc 97%N | 8%N => esc 98%N | 9%N => esc 116%N | 10%N => esc 110%N
  | 11%N => esc 118%N | 12%N => esc 102%N | 13%N => esc 114%N
  | 34%N => esc 34%N | 92%N => esc 92%N
  | n => if (n <? 32)%N || (n =? 127)%N then [chr 92; chr 120] ++ hex_byte (byte_of c) else [c]
  end.
Definition Quote (s : string) : string := dquote +:+ str (mjoin (map quote_byte (bytes s))) +:+ dquote.

(** Raw contents of a file or a stream, [[]byte]. *)
Abbreviation buf := (list byte).
(** The conversion [string(b)]. *)
Definition text_of (b : buf) : string := str (map ascii_of_byte b).
Definition buf_of (s : string) : buf := map byte_of_ascii (bytes s).

(** [hex.EncodeToString]. *)
Definition hex (b : buf) : string :=
  str (mjoin (map (fun x => hex_byte (Z.of_N (Byte.to_N x))) b)).

(** ** Lemmas *)

Lemma bytes_hex_cons x b : bytes (hex (x :: b)) = hex_byte (Z.of_N (Byte.to_N x)) ++ bytes (hex b).
Proof. unfold hex. rewrite !bytes_str. reflexivity. Qed.

Lemma hex_length b : String.length (hex b) = (2 * length b)%nat.
Proof.
  induction b as [|x b IH]; [done|].
  rewrite <- (str_bytes (hex (x :: b))), bytes_hex_cons. cbn [hex_byte app str String.string_of_list_ascii].
  fold (str (bytes (hex b))). rewrite str_bytes. cbn [String.length length]. rewrite IH. lia.
Qed.

Lemma hex_byte_inj x y :
  hex_byte (Z.of_N (Byte.to_N x)) = hex_byte (Z.of_N (Byte.to_N y)) -> x = y.
Proof.
  assert (H : forall z, option_map Byte.to_N (Byte.of_N (Byte.to_N z)) = Some (Byte.to_N z))
    by (intros z; by rewrite Byte.of_to_N).
  set (val := fun l => match l with
     | [a; b] => let d c := let n := byte_of c in if n <? 58 then n - 48 else n - 87 in d a * 16 + d b
     | _ => 0 end).
  assert (Hv : forall z, val (hex_byte (Z.of_N (Byte.to_N z))) = Z.of_N (Byte.to_N z)) by (intros z; by destruct z).
  intros E%(f_equal val). rewrite !Hv in E. apply N2Z.inj in E.
  apply (f_equal Byte.of_N) in E. rewrite !Byte.of_to_N in E. congruence.
Qed.

Lemma hex_inj a b : hex a = hex b -> a = b.
Proof.
  revert b. induction a as [|x a IH]; intros [|y b] E; [done|discriminate E..|].
  apply (f_equal bytes) in E. rewrite !bytes_hex_cons in E.
  apply app_inj_1 in E as [E1 E2]; [|done]. apply hex_byte_inj in E1 as ->.
  f_equal. apply IH. by apply bytes_inj.
Qed.

Lemma HasPrefix_spec s p : HasPrefix s p = true <-> exists t, s = p +:+ t.
Proof.
  revert s. induction p as [|c p IH]; intros s; simpl.
  - split; [intros _; by exists s|done].
  - destruct s as [|d s]; simpl.
    + split; [done|]. intros [t Ht]. discriminate.
    + rewrite andb_true_iff, Ascii.eqb_eq, IH. split.
      * intros [-> [t ->]]. by exists t.
      * intros [t Ht]. injection Ht as -> ->. eauto.
Qed.

Lemma Contains_spec s sub : Contains s sub = true <-> exists a b, s = a +:+ sub +:+ b.
Proof.
  induction s as [|c s IH]; cbn [Contains].
  - rewrite orb_false_r, HasPrefix_spec. split.
    + intros [t Ht]. by exists "", t.
    + intros (a & b & Hab). exists b. destruct a; [done|discriminate].
  - rewrite orb_true_iff, HasPrefix_spec, IH. split.
    + intros [[t Ht]|(a & b & ->)]; [by exists "", t|by exists (String c a), b].
    + intros ([|d a] & b & Hab); [left; by exists b|].
      right. injection Hab as -> ->. by exists a, b.
Qed.

Lemma Split_nonempty s sep : Split s sep <> [].
Proof. destruct s; simpl; [done|]. repeat case_match; done. Qed.

Lemma Join_Split s sep : Join (Split s sep) (String sep "") = s.
Proof.
  induction s as [|c s IH]; simpl; [done|].
  destruct (Ascii.eqb_spec c sep) as [->|Hne].
  - destruct (Split s sep) eqn:E; [by apply Split_nonempty in E|].
    by rewrite <- IH.
  - destruct (Split s sep) as [|w [|w' ws]] eqn:E; [by apply Split_nonempty in E| |];
      rewrite <- IH; done.
Qed.

Lemma byte_of_inj c d : byte_of c = byte_of d -> c = d.
Proof.
  unfold byte_of. intros H. apply N2Z.inj in H.
  by rewrite <- (ascii_N_embedding c), H, ascii_N_embedding.
Qed.

(** *** Decimal numbers *)

Lemma pretty_N_go_chars x s c :
  c ∈ bytes (pretty_N_go x s) -> c ∈ bytes s \/ is_digit c = true.
Proof.
  revert s. induction (N.lt_wf_0 x) as [x _ IH]; intros s Hc.
  destruct (decide (x = 0%N)) as [->|Hx]; [by left|].
  rewrite pretty_N_go_step in Hc by lia. apply IH in Hc as [Hc|]; [|by right|by apply N.div_lt; lia].
  simpl in Hc. apply elem_of_cons in Hc as [->|]; [right|by left].
  unfold pretty_N_char. by repeat case_match.
Qed.

Lemma digits_pretty_go x : forall s, exists k, 0 <= k /\ forall acc,
  digits acc (bytes (pretty_N_go x s)) = digits (acc * 10 ^ k + Z.of_N x) (bytes s).
Proof.
  induction (N.lt_wf_0 x) as [x _ IH]; intros s. destruct (decide (x = 0)%N) as [->|Hx].
  { exists 0. split; [lia|]. intros acc. rewrite pretty_N_go_0. f_equal. lia. }
  rewrite pretty_N_go_step by lia. assert (Hm : (x mod 10 < 10)%N) by (apply N.mod_lt; lia).
  destruct (IH (x / 10)%N (N.div_lt x 10 ltac:(lia) ltac:(lia)) (String (pretty_N_char (x mod 10)) s)) as (k & Hk & E).
  exists (k + 1). split; [lia|]. intros acc. rewrite E, Z.pow_add_r by lia.
  assert (Hc : is_digit (pretty_N_char (x mod 10)) = true /\ byte_of (pretty_N_char (x mod 10)) - 48 = Z.of_N (x mod 10)).
  { clear IH E. set (y := (x mod 10)%N) in *. clearbody y. assert (y = 0 \/ y = 1 \/ y = 2 \/ y = 3 \/ y = 4 \/ y = 5
            \/ y = 6 \/ y = 7 \/ y = 8 \/ y = 9)%N as H by lia.
    destruct H as [->|[->|[->|[->|[->|[->|[->|[->|[->| ->]]]]]]]]]; by split. }
  destruct Hc as [Hc1 Hc2]. simpl. rewrite Hc1, Hc2. f_equal.
  pose proof (N.div_mod x 10 ltac:(lia)). lia.
Qed.

Lemma pretty_N_digits (n : N) : Forall (fun c => is_digit c = true) (bytes (pretty n)).
Proof.
  apply Forall_forall. intros c Hc. unfold pretty, pretty_N in Hc. destruct (decide (n = 0%N)).
  - by apply list_elem_of_singleton in Hc as ->.
  - apply pretty_N_go_chars in Hc as [Hc|Hc]; [by apply elem_of_nil in Hc|done].
Qed.

Lemma digits_pretty_N (n : N) : digits 0 (bytes (pretty n)) = Some (Z.of_N n).
Proof.
  unfold pretty, pretty_N. destruct (decide (n = 0%N)) as [->|Hn]; [done|].
  by destruct (digits_pretty_go n "") as (k & _ & ->).
Qed.

Lemma pretty_N_nonempty (n : N) : bytes (pretty n) <> [].
Proof.
  intros H. pose proof (digits_pretty_N n) as E. rewrite H in E. injection E as E.
  destruct n; [discriminate H|discriminate E].
Qed.
