(* ===== verification/GoPath.v ===== *)
(** Slash-separated paths ([path/filepath] on Unix), textual substitution and the
    byte-wise order of [sort.Strings]. *)
From S2P Require Import Prelude GoStrings.
From Stdlib Require Import Ascii.

Local Open Scope Z_scope.

(** ** Substitution *)

(** [strings.ReplaceAll] for a non-empty [old]; [skip] counts the bytes of the
    last match that are still to be passed over. *)
Fixpoint replace_from (old new : string) (skip : nat) (s : string) : string :=
  match s with
  | EmptyString => EmptyString
  | String c s' =>
      match skip with
      | S k => replace_from old new k s'
      | O => if HasPrefix s old then new +:+ replace_from old new (String.length old - 1) s'
             else String c (replace_from old new 0 s')
      end
  end.
Definition ReplaceAll (s old new : string) : string := replace_from old new 0 s.

(** [strings.IndexAny(s, cut) >= 0]. *)
Definition ContainsAny (s cut : string) : bool := existsb (in_cutset cut) (bytes s).

(** The bytes of [s] that satisfy [f]. *)
Definition keep_bytes (f : ascii -> bool) (s : string) : string :=
  str (List.filter f (bytes s)).

(** Replacing each maximal run of bytes in [f] by [new]; [inside] tells whether
    the byte before was in a run. *)
Fixpoint squeeze_from (f : ascii -> bool) (new : string) (inside : bool) (s : string) : string :=
  match s with
  | EmptyString => EmptyString
  | String c s' =>
      if f c then (if inside then "" else new) +:+ squeeze_from f new true s'
      else String c (squeeze_from f new false s')
  end.

(** ** The order of [sort.Strings] *)

Definition string_le (s t : string) : Prop := String.leb s t = true.
#[global] Instance string_le_dec : RelDecision string_le.
Proof. intros s t. unfold string_le. apply _. Defined.

Lemma ascii_compare_trans a b c x :
  Ascii.compare a b = x -> Ascii.compare b c = x -> Ascii.compare a c = x.
Proof.
  unfold Ascii.compare. destruct x; intros H1 H2.
  - apply N.compare_eq in H1, H2. by rewrite H1, H2, N.compare_refl.
  - rewrite N.compare_lt_iff in *. lia.
  - rewrite N.compare_gt_iff in *. lia.
Qed.

Lemma ascii_compare_eq a b : Ascii.compare a b = Eq -> a = b.
Proof.
  unfold Ascii.compare. intros H%N.compare_eq.
  by rewrite <- (ascii_N_embedding a), <- (ascii_N_embedding b), H.
Qed.

Lemma string_lt_trans s t u :
  String.compare s t <> Gt -> String.compare t u <> Gt -> String.compare s u <> Gt.
Proof.
  revert t u. induction s as [|a s IH]; intros [|b t] [|c u]; simpl; try done.
  destruct (Ascii.compare a b) eqn:E1; intros H1; try done.
  - apply ascii_compare_eq in E1 as ->. destruct (Ascii.compare b c) eqn:E2; intros H2; try done.
    by apply (IH t u).
  - destruct (Ascii.compare b c) eqn:E2; intros H2; try done.
    + apply ascii_compare_eq in E2 as ->. by rewrite E1.
    + by rewrite (ascii_compare_trans _ _ _ _ E1 E2).
Qed.

Lemma string_le_alt s t : string_le s t <-> String.compare s t <> Gt.
Proof. unfold string_le, String.leb. destruct (String.compare s t); naive_solver. Qed.

#[global] Instance string_le_trans : Transitive string_le.
Proof. intros s t u. rewrite !string_le_alt. apply string_lt_trans. Qed.
#[global] Instance string_le_total : Total string_le.
Proof.
  intros s t. rewrite !string_le_alt. rewrite (String.compare_antisym t s).
  destruct (String.compare s t); simpl; auto.
Qed.

Definition sort_Strings (l : list string) : list string := merge_sort string_le l.

Lemma sort_Strings_perm l : sort_Strings l ≡ₚ l.
Proof. apply merge_sort_Permutation. Qed.
Lemma sort_Strings_sorted l : StronglySorted string_le (sort_Strings l).
Proof. apply (StronglySorted_merge_sort string_le). Qed.

(** ** Paths *)

Definition slash : ascii := "/"%char.

(** One segment of [filepath.Clean], on the reversed list of kept segments. *)
Definition clean_step (rooted : bool) (stack : list string) (seg : string) : list string :=
  if String.eqb seg "" || String.eqb seg "." then stack
  else if String.eqb seg ".." then
    match stack with
    | top :: rest => if String.eqb top ".." then seg :: stack else rest
    | [] => if rooted then [] else [seg]
    end
  else seg :: stack.

Definition IsAbs (p : string) : bool := HasPrefix p "/".
Definition clean_segments (p : string) : list string :=
  reverse (foldl (clean_step (IsAbs p)) [] (Split p slash)).
Definition Clean (p : string) : string :=
  match IsAbs p, clean_segments p with
  | true, segs => "/" +:+ Join segs "/"
  | false, [] => "."
  | false, segs => Join segs "/"
  end.

(** [filepath.Join]: empty leading elements are ignored. *)
Fixpoint JoinPath (l : list string) : string :=
  match l with
  | [] => ""
  | "" :: rest => JoinPath rest
  | _ => Clean (Join l "/")
  end.

(** [filepath.Dir] and [filepath.Base]. *)
Definition Dir (p : string) : string :=
  match reverse (Split p slash) with
  | [] | [_] => "."
  | _ :: before => Clean (Join (reverse before) "/" +:+ "/")
  end.
Definition Base (p : string) : string :=
  if String.eqb p "" then "."
  else match reverse (Split (TrimRight p "/") slash) with
       | last :: _ => if String.eqb last "" then "/" else last
       | [] => "/"
       end.

Example clean_examples :
  Clean "/var/../tmp//x/." = "/tmp/x" /\ Clean "a/../../b" = "../b" /\ Clean "" = "."
  /\ Clean "/.." = "/" /\ JoinPath [""; "a"; ""; "../b"] = "b"
  /\ Dir "/a/b.zip" = "/a" /\ Dir "x" = "." /\ Base "/a/b.zip/" = "b.zip" /\ Base "//" = "/".
Proof. repeat split. Qed.

(** ** Lemmas on segments *)

Lemma eqb_slash_false c : c <> slash -> Ascii.eqb c slash = false.
Proof. intros H. by apply Ascii.eqb_neq. Qed.

(** A segment without separator is kept in one piece. *)
Definition slashless (s : string) : Prop := slash ∉ bytes s.
#[global] Instance plain_dec s : Decision (slashless s).
Proof. unfold slashless. apply _. Defined.

Lemma Split_plain s : slashless s -> Split s slash = [s].
Proof.
  unfold slashless. induction s as [|c s IH]; simpl; [done|]. intros [Hc Hs]%not_elem_of_cons.
  rewrite eqb_slash_false by done. by rewrite IH.
Qed.

Lemma Split_app s t : slashless s -> Split (s +:+ "/" +:+ t) slash = s :: Split t slash.
Proof.
  unfold slashless. induction s as [|c s IH]; simpl; [done|]. intros [Hc Hs]%not_elem_of_cons.
  rewrite eqb_slash_false by done. by rewrite IH.
Qed.

Lemma Split_Join l : l <> [] -> Forall slashless l -> Split (Join l "/") slash = l.
Proof.
  intros Hne Hl. induction Hl as [|s l Hs Hl IH]; [done|]. destruct l as [|t l].
  - by apply Split_plain.
  - change (Join (s :: t :: l) "/") with (s +:+ "/" +:+ Join (t :: l) "/").
    rewrite Split_app by done. by rewrite IH.
Qed.

Lemma Split_all_plain s : Forall slashless (Split s slash).
Proof.
  induction s as [|c s IH]; simpl; [by repeat constructor; apply not_elem_of_nil|].
  destruct (Ascii.eqb_spec c slash) as [->|Hc]; [by constructor; [apply not_elem_of_nil|]|].
  destruct (Split s slash) as [|w ws]; inversion_clear IH as [|? ? Hw Hws];
    (constructor; [|done]); unfold slashless; simpl; apply not_elem_of_cons; split; auto;
    apply not_elem_of_nil.
Qed.

(** ** Cleaned paths *)

(** What [Clean] keeps: no empty or "." segment, and ".." only at the front of
    a relative path. *)
Definition seg_ok (s : string) : Prop := s <> "" /\ s <> "." /\ slashless s.
Fixpoint stack_ok (rooted : bool) (stack : list string) : Prop :=
  match stack with
  | [] => True
  | top :: rest =>
      seg_ok top /\ stack_ok rooted rest
      /\ (top = ".." -> rooted = false /\ Forall (fun s => s = "..") rest)
  end.

Lemma clean_step_ok rooted stack seg :
  slashless seg -> stack_ok rooted stack -> stack_ok rooted (clean_step rooted stack seg).
Proof.
  intros Hp Hs. unfold clean_step.
  destruct (String.eqb_spec seg ""), (String.eqb_spec seg "."); simpl; [done..|].
  destruct (String.eqb_spec seg "..") as [->|]; [|simpl; unfold seg_ok; naive_solver].
  destruct stack as [|top rest]; [destruct rooted; simpl; unfold seg_ok; naive_solver|].
  destruct (String.eqb_spec top "..") as [->|]; [|by apply Hs].
  destruct Hs as (H1 & H2 & H3). specialize (H3 eq_refl) as [-> Hall]. simpl.
  repeat split; auto.
Qed.

Lemma foldl_clean_ok rooted segs stack :
  Forall slashless segs -> stack_ok rooted stack -> stack_ok rooted (foldl (clean_step rooted) stack segs).
Proof.
  revert stack. induction segs as [|s segs IH]; intros stack Hp Hs; simpl; [done|].
  inversion_clear Hp. apply IH; [done|]. by apply clean_step_ok.
Qed.

Lemma stack_ok_plain rooted stack : stack_ok rooted stack -> Forall slashless stack.
Proof. induction stack as [|s l IH]; simpl; [done|]. unfold seg_ok. intros. constructor; naive_solver. Qed.

(** Pushing a well-formed stack back through [clean_step] rebuilds it. *)
Lemma clean_step_stack rooted stack :
  stack_ok rooted stack -> foldl (clean_step rooted) [] (reverse stack) = stack.
Proof.
  induction stack as [|top rest IH]; [done|]. intros ((H1 & H2 & H3) & Hr & Hd).
  rewrite reverse_cons, foldl_app, (IH Hr). simpl. unfold clean_step.
  destruct (String.eqb_spec top ""), (String.eqb_spec top "."); simpl; [done..|].
  destruct (String.eqb_spec top "..") as [->|]; [|done].
  destruct (Hd eq_refl) as [-> Hall]. destruct rest as [|s rest]; [done|].
  inversion_clear Hall as [|? ? Hs Hrest]. by rewrite Hs.
Qed.

Lemma clean_segments_ok p : stack_ok (IsAbs p) (reverse (clean_segments p)).
Proof.
  unfold clean_segments. rewrite reverse_involutive.
  apply foldl_clean_ok; [apply Split_all_plain|done].
Qed.

Lemma IsAbs_plain s t : s <> "" -> slashless s -> IsAbs (s +:+ t) = false.
Proof.
  destruct s as [|c s]; [done|]. intros _ [Hc _]%not_elem_of_cons. unfold IsAbs.
  change (Ascii.eqb slash c && HasPrefix (s +:+ t) "" = false).
  by rewrite (proj2 (Ascii.eqb_neq slash c) Hc).
Qed.

Lemma Join_cons_head s l : exists t, Join (s :: l) "/" = s +:+ t.
Proof. destruct l as [|u l]; [exists ""|exists ("/" +:+ Join (u :: l) "/")]; [|done]. apply bytes_inj.
  by rewrite bytes_app, app_nil_r. Qed.

Lemma clean_segments_plain p : Forall slashless (clean_segments p).
Proof. exact (proj1 (Forall_reverse _ _) (stack_ok_plain _ _ (clean_segments_ok p))). Qed.

Lemma clean_segments_nonempty p s : s ∈ clean_segments p -> s <> "".
Proof.
  intros Hin. apply (proj2 (elem_of_reverse _ _)) in Hin. revert Hin.
  generalize (clean_segments_ok p). generalize (reverse (clean_segments p)).
  induction l as [|x l IH]; [by intros _ ?%elem_of_nil|].
  intros ((Hx & _) & Hr & _) [->|Hin]%elem_of_cons; auto.
Qed.

(** Running the kept segments again keeps them. *)
Lemma clean_segments_again p :
  foldl (clean_step (IsAbs p)) [] (clean_segments p) = reverse (clean_segments p).
Proof.
  rewrite <- (reverse_involutive (clean_segments p)) at 1.
  apply clean_step_stack, clean_segments_ok.
Qed.

(** A cleaned path is rooted as before and has the same segments. *)
Lemma Clean_segments p : IsAbs (Clean p) = IsAbs p /\ clean_segments (Clean p) = clean_segments p.
Proof.
  pose proof (clean_segments_plain p) as Hpl. pose proof (clean_segments_again p) as Hrun.
  unfold Clean. destruct (IsAbs p) eqn:Ha.
  - split; [done|]. unfold clean_segments at 1.
    replace (IsAbs ("/" +:+ Join (clean_segments p) "/")) with true by done.
    change (Split ("/" +:+ Join (clean_segments p) "/") slash)
      with ("" :: Split (Join (clean_segments p) "/") slash). cbn [foldl].
    change (clean_step true [] "") with (@nil string).
    destruct (clean_segments p) as [|s l] eqn:E; [done|].
    rewrite Split_Join, Hrun by done. apply reverse_involutive.
  - destruct (clean_segments p) as [|s l] eqn:E; [done|].
    assert (Hrel : IsAbs (Join (s :: l) "/") = false).
    { destruct (Join_cons_head s l) as [t ->]. inversion_clear Hpl.
      apply IsAbs_plain; [|done]. apply (clean_segments_nonempty p). rewrite E. left. }
    split; [done|]. unfold clean_segments at 1. rewrite Hrel, Split_Join, Hrun by done.
    apply reverse_involutive.
Qed.

(** Cleaning is idempotent. *)
Lemma Clean_idem p : Clean (Clean p) = Clean p.
Proof.
  destruct (Clean_segments p) as [H1 H2]. unfold Clean at 1. rewrite H1, H2. done.
Qed.

(** A cleaned absolute path has no ".." segment. *)
Lemma Clean_abs p :
  IsAbs p = true -> IsAbs (Clean p) = true /\ ~ ".." ∈ Split (Clean p) slash.
Proof.
  intros Ha. pose proof (clean_segments_ok p) as Hok. rewrite Ha in Hok.
  unfold Clean. rewrite Ha. split; [done|].
  change (Split ("/" +:+ Join (clean_segments p) "/") slash)
    with ("" :: Split (Join (clean_segments p) "/") slash).
  destruct (clean_segments p) as [|s l] eqn:E; [set_solver|].
  assert (Hpl : Forall slashless (s :: l)).
  { exact (proj1 (Forall_reverse _ _) (stack_ok_plain _ _ Hok)). }
  rewrite Split_Join by done. intros [?|Hin]%elem_of_cons; [done|].
  apply elem_of_reverse in Hin. revert Hok Hin. generalize (reverse (s :: l)).
  induction l0 as [|x l0 IH]; [by intros _ ?%elem_of_nil|].
  intros (_ & Hr & Hd) [<-|Hin]%elem_of_cons; [|auto]. by destruct (Hd eq_refl).
Qed.

(** ** Joining a plain name *)

Lemma Split_slash s t : Split (s +:+ "/" +:+ t) slash = Split s slash ++ Split t slash.
Proof.
  induction s as [|c s IH]; [done|]. simpl. simpl in IH.
  rewrite IH. destruct (Ascii.eqb c slash); [done|].
  destruct (Split s slash) as [|w ws] eqn:E; [by apply Split_nonempty in E|done].
Qed.

Lemma Join_snoc l s : exists p, Join (l ++ [s]) "/" = p +:+ s.
Proof.
  induction l as [|w l [p IH]]; [by exists ""|]. destruct (l ++ [s]) as [|u k] eqn:E.
  { by destruct l. }
  rewrite <- app_comm_cons, E. change (Join (w :: u :: k) "/") with (w +:+ "/" +:+ Join (u :: k) "/").
  rewrite IH. exists (w +:+ "/" +:+ p). apply bytes_inj. by rewrite !bytes_app, !app_assoc.
Qed.

(** A joined path ends in the last name. *)
Lemma JoinPath_name dir name :
  dir <> "" -> slashless name -> name <> "" -> name <> "." -> name <> ".." ->
  exists p, JoinPath [dir; name] = p +:+ name.
Proof.
  intros Hd Hp H1 H2 H3. destruct dir as [|c dir]; [done|]. set (d := String c dir).
  change (JoinPath [d; name]) with (Clean (d +:+ "/" +:+ name)). unfold Clean.
  assert (Hs : clean_segments (d +:+ "/" +:+ name)
    = reverse (foldl (clean_step (IsAbs (d +:+ "/" +:+ name))) [] (Split d slash)) ++ [name]).
  { unfold clean_segments. rewrite Split_slash, (Split_plain name) by done.
    rewrite foldl_app. cbn [foldl]. unfold clean_step at 1.
    rewrite (proj2 (String.eqb_neq name "")), (proj2 (String.eqb_neq name ".")),
      (proj2 (String.eqb_neq name "..")) by done. cbn [orb]. by rewrite reverse_cons. }
  rewrite Hs. destruct (Join_snoc (reverse (foldl (clean_step (IsAbs (d +:+ "/" +:+ name))) []
    (Split d slash))) name) as [p Hj].
  destruct (IsAbs _).
  - exists ("/" +:+ p). apply bytes_inj. by rewrite Hj, !bytes_app, app_assoc.
  - destruct (reverse _ ++ [name]) eqn:E; [by apply app_nil in E as [_ ?]|]. exists p. exact Hj.
Qed.

Lemma last_suffix p s c : last (bytes s) = Some c -> last (bytes (p +:+ s)) = Some c.
Proof.
  intros H. rewrite bytes_app, last_app. by rewrite H.
Qed.

(** ** The bytes of a cleaned path *)

Lemma Join_bytes c l : c ∈ bytes (Join l "/") -> c = slash \/ exists s, s ∈ l /\ c ∈ bytes s.
Proof.
  induction l as [|s [|u l] IH]; [by intros ?%elem_of_nil|intros ?; right; exists s; split; [left|done]|].
  change (Join (s :: u :: l) "/") with (s +:+ "/" +:+ Join (u :: l) "/").
  rewrite !bytes_app, !elem_of_app. intros [H|[->%list_elem_of_singleton|H]]; [|by left|].
  - right. exists s. split; [left|done].
  - destruct (IH H) as [->|(v & ? & ?)]; [by left|]. right. exists v. split; [by right|done].
Qed.

Lemma Split_bytes s seg c : seg ∈ Split s slash -> c ∈ bytes seg -> c ∈ bytes s.
Proof.
  revert seg. induction s as [|d s IH]; intros seg; cbn [Split].
  { by intros ->%list_elem_of_singleton. }
  change (bytes (String d s)) with (d :: bytes s). rewrite elem_of_cons.
  destruct (Ascii.eqb d slash).
  { intros [->|Hin]%elem_of_cons Hc; [by apply elem_of_nil in Hc|]. right. by apply (IH seg). }
  destruct (Split s slash) as [|w ws] eqn:E; [by apply Split_nonempty in E|].
  intros [->|Hin]%elem_of_cons Hc.
  - apply elem_of_cons in Hc as [->|Hc]; [by left|]. right. apply (IH w); [left|done].
  - right. apply (IH seg); [by right|done].
Qed.

Lemma clean_step_sub rooted stack seg s : s ∈ clean_step rooted stack seg -> s ∈ stack \/ s = seg.
Proof.
  unfold clean_step. repeat case_match; subst; rewrite ?elem_of_cons, ?elem_of_nil; tauto.
Qed.

Lemma clean_segments_sub p s : s ∈ clean_segments p -> s ∈ Split p slash.
Proof.
  unfold clean_segments. rewrite elem_of_reverse.
  assert (H : forall segs stack, s ∈ foldl (clean_step (IsAbs p)) stack segs -> s ∈ stack \/ s ∈ segs).
  { induction segs as [|x segs IH]; intros stack; simpl; [auto|].
    intros [[?| ->]%clean_step_sub|?]%IH; [by left|right; left|by right; right]. }
  intros [?%elem_of_nil|]%H; done.
Qed.

Lemma Clean_bytes p c : c ∈ bytes (Clean p) -> c = slash \/ c = "."%char \/ c ∈ bytes p.
Proof.
  assert (H : c ∈ bytes (Join (clean_segments p) "/") -> c = slash \/ c ∈ bytes p).
  { intros [->|(s & Hs & Hc)]%Join_bytes; [by left|]. right.
    eapply Split_bytes; [by apply clean_segments_sub|done]. }
  unfold Clean. destruct (IsAbs p).
  - rewrite bytes_app, elem_of_app. intros [->%list_elem_of_singleton|Hc]; [by left|].
    destruct (H Hc); auto.
  - destruct (clean_segments p) eqn:E; [by intros ->%list_elem_of_singleton; right; left|].
    intros Hc. destruct (H Hc); auto.
Qed.

(** ** Joined paths and their directory *)

Lemma JoinPath_segments dir name :
  dir <> "" -> slashless name -> name <> "" -> name <> "." -> name <> ".." ->
  IsAbs (JoinPath [dir; name]) = IsAbs dir
  /\ clean_segments (JoinPath [dir; name]) = clean_segments dir ++ [name].
Proof.
  intros Hd Hp H1 H2 H3. destruct dir as [|c dir]; [done|]. set (d := String c dir).
  change (JoinPath [d; name]) with (Clean (d +:+ "/" +:+ name)).
  destruct (Clean_segments (d +:+ "/" +:+ name)) as [-> ->].
  assert (Ha : IsAbs (d +:+ "/" +:+ name) = IsAbs d) by done. split; [done|].
  unfold clean_segments. rewrite Ha, Split_slash, (Split_plain name) by done.
  rewrite foldl_app. cbn [foldl]. unfold clean_step at 1.
  rewrite (proj2 (String.eqb_neq name "")), (proj2 (String.eqb_neq name ".")),
    (proj2 (String.eqb_neq name "..")) by done. cbn [orb]. by rewrite reverse_cons.
Qed.

(** A file is not its own directory, and two names in a directory are two files. *)
Lemma JoinPath_neq_dir dir name :
  dir <> "" -> slashless name -> name <> "" -> name <> "." -> name <> ".." -> JoinPath [dir; name] <> dir.
Proof.
  intros Hd Hp H1 H2 H3 E. destruct (JoinPath_segments dir name Hd Hp H1 H2 H3) as [_ Hs].
  rewrite E in Hs. apply (f_equal length) in Hs. rewrite length_app in Hs. simpl in Hs. lia.
Qed.

(** A relative path that does not start upwards has no ".." at all. *)
Lemma stack_ok_dots rooted stack :
  stack_ok rooted stack -> ".." ∈ stack -> last stack = Some "..".
Proof.
  induction stack as [|top rest IH]; [by intros _ ?%elem_of_nil|].
  intros (_ & Hr & Hd) [<-|Hin]%elem_of_cons.
  - destruct (Hd eq_refl) as [_ Hall]. destruct rest as [|x rest]; [done|].
    rewrite last_cons_cons. clear -Hall. revert x Hall. induction rest as [|y rest IH]; intros x Hall.
    + by apply Forall_singleton in Hall as ->.
    + rewrite last_cons_cons. apply IH. by apply Forall_cons in Hall as [_ ?].
  - destruct rest as [|x rest]; [by apply elem_of_nil in Hin|]. rewrite last_cons_cons. by apply IH.
Qed.

Lemma Clean_no_dots p :
  HasPrefix (Clean p) "../" = false -> Clean p <> ".." -> ".." ∉ Split (Clean p) slash.
Proof.
  intros Hpre Hne. destruct (IsAbs p) eqn:Ha; [by apply Clean_abs|].
  unfold Clean in *. rewrite Ha in *. pose proof (clean_segments_ok p) as Hok. rewrite Ha in Hok.
  destruct (clean_segments p) as [|s l] eqn:E.
  { change (Split "." slash) with ["."]. by intros ?%list_elem_of_singleton. }
  assert (Hpl : Forall slashless (s :: l)) by (rewrite <- E; apply clean_segments_plain).
  rewrite Split_Join by done. intros Hin. apply (proj2 (elem_of_reverse _ _)) in Hin.
  apply (stack_ok_dots false) in Hin; [|done]. rewrite last_reverse in Hin. cbn in Hin. injection Hin as ->.
  destruct l as [|u l]; [done|].
  change (Join (".." :: u :: l) "/") with ("../" +:+ Join (u :: l) "/") in Hpre.
  assert (HasPrefix ("../" +:+ Join (u :: l) "/") "../" = true) by (apply HasPrefix_spec; eauto).
  congruence.
Qed.

Lemma TrimPrefix_none s p : HasPrefix s p = false -> TrimPrefix s p = s.
Proof. intros H. unfold TrimPrefix. by rewrite H. Qed.

Lemma Clean_no_dot_prefix p : HasPrefix (Clean p) "./" = false.
Proof.
  unfold Clean. destruct (IsAbs p) eqn:Ha; [done|].
  destruct (clean_segments p) as [|s l] eqn:E; [done|].
  pose proof (clean_segments_plain p) as Hpl. rewrite E in Hpl. apply Forall_cons in Hpl as [Hs _].
  destruct (Join_cons_head s l) as [t Ht].
  pose proof (clean_segments_ok p) as Hok. rewrite E, Ha, reverse_cons in Hok.
  assert (Hdot : s <> ".").
  { revert Hok. generalize (reverse l). induction l0 as [|x k IH]; simpl; unfold seg_ok; naive_solver. }
  apply not_true_iff_false. intros (u & Hu)%HasPrefix_spec.
  apply (f_equal (fun x => Split x slash)) in Hu. change ("./" +:+ u) with ("." +:+ "/" +:+ u) in Hu.
  rewrite Split_app in Hu by (apply (bool_decide_unpack _); by vm_compute).
  rewrite Split_Join in Hu; [by injection Hu|done|]. rewrite <- E. apply clean_segments_plain.
Qed.
