(* ===== verification/GoTime.v ===== *)
(** Formatting of [time.Time] as the connector uses it: the proleptic Gregorian
    calendar and the [time.RFC3339] layout in UTC. *)
From S2P Require Import Prelude GoStrings.
From Stdlib Require Import Ascii.

Local Open Scope Z_scope.

(** Decimal digits of [z], left-padded with zeros to [width]. *)
Fixpoint pad_digits (width : nat) (z : Z) : string :=
  match width with
  | O => ""
  | S w => pad_digits w (z / 10)
           +:+ String (Ascii.ascii_of_N (48 + Z.to_N (z mod 10))) ""
  end.

Record civil : Type := { cv_year : Z; cv_month : Z; cv_day : Z }.

(** The date [days] days after January 1 of year 1.  Years start in March
    inside the computation, so that the leap day is the last of its year. *)
Definition civil_of_days (days : Z) : civil :=
  let z := days + 306 in
  let era := z / 146097 in
  let doe := z mod 146097 in
  let yoe := (doe - doe / 1460 + doe / 36524 - doe / 146096) / 365 in
  let doy := doe - (365 * yoe + yoe / 4 - yoe / 100) in
  let mp := (5 * doy + 2) / 153 in
  let m := if mp <? 10 then mp + 3 else mp - 9 in
  {| cv_year := yoe + era * 400 + (if m <=? 2 then 1 else 0);
     cv_month := m;
     cv_day := doy - (153 * mp + 2) / 5 + 1 |}.

(** [t.UTC().Format(time.RFC3339)] for years up to 9999. *)
Definition FormatRFC3339 (t : GoTime) : string :=
  let secs := t / Second in
  let c := civil_of_days (secs / 86400) in
  let s := secs mod 86400 in
  pad_digits 4 (cv_year c) +:+ "-" +:+ pad_digits 2 (cv_month c) +:+ "-"
  +:+ pad_digits 2 (cv_day c) +:+ "T" +:+ pad_digits 2 (s / 3600) +:+ ":"
  +:+ pad_digits 2 (s / 60 mod 60) +:+ ":" +:+ pad_digits 2 (s mod 60) +:+ "Z".

(** The Unix epoch on the clock of the model. *)
Definition UnixEpoch : GoTime := 62135596800 * Second.

Example epoch_text : FormatRFC3339 UnixEpoch = "1970-01-01T00:00:00Z".
Proof. reflexivity. Qed.
Example leap_day_text :
  FormatRFC3339 (UnixEpoch + 1709164799 * Second) = "2024-02-28T23:59:59Z"
  /\ FormatRFC3339 (UnixEpoch + 1709164800 * Second) = "2024-02-29T00:00:00Z".
Proof. split; reflexivity. Qed.

(** ** Parsing *)

(** Days from January 1 of year 1 to a date. *)
Definition days_of_civil (c : civil) : Z :=
  let y := cv_year c - (if cv_month c <=? 2 then 1 else 0) in
  let era := y / 400 in
  let yoe := y mod 400 in
  let mp := if 2 <? cv_month c then cv_month c - 3 else cv_month c + 9 in
  let doy := (153 * mp + 2) / 5 + cv_day c - 1 in
  era * 146097 + yoe * 365 + yoe / 4 - yoe / 100 + doy - 306.

(** ** The RFC 3339 reader *)

(** [n] decimal digits at the front of a byte list. *)
Fixpoint take_digits (n : nat) (acc : Z) (l : list ascii) : option (Z * list ascii) :=
  match n with
  | O => Some (acc, l)
  | S n' =>
      match l with
      | c :: rest =>
          let v := Z.of_N (N_of_ascii c) - 48 in
          if (0 <=? v) && (v <=? 9) then take_digits n' (acc * 10 + v) rest else None
      | [] => None
      end
  end.

Definition take_char (c : ascii) (l : list ascii) : option (list ascii) :=
  match l with
  | x :: rest => if Ascii.eqb x c then Some rest else None
  | [] => None
  end.

(** Up to nine fraction digits as nanoseconds; [weight] is the value of the next
    digit, later digits are read and ignored. *)
Fixpoint take_fraction (fuel : nat) (weight acc : Z) (l : list ascii) : Z * list ascii :=
  match fuel, l with
  | S f, c :: rest =>
      let v := Z.of_N (N_of_ascii c) - 48 in
      if (0 <=? v) && (v <=? 9) then take_fraction f (weight / 10) (acc + v * weight) rest
      else (acc, l)
  | _, _ => (acc, l)
  end.

Definition is_leap (y : Z) : bool :=
  (y mod 4 =? 0) && (negb (y mod 100 =? 0) || (y mod 400 =? 0)).
Definition days_in (y m : Z) : Z :=
  if m =? 2 then (if is_leap y then 29 else 28)
  else if (m =? 4) || (m =? 6) || (m =? 9) || (m =? 11) then 30 else 31.

(** The zone suffix: [Z] or a signed hour and minute offset, in seconds. *)
Definition take_zone (l : list ascii) : option Z :=
  match l with
  | [c] => if Ascii.eqb c "Z" then Some 0 else None
  | c :: rest =>
      let sign := if Ascii.eqb c "+" then Some 1 else if Ascii.eqb c "-" then Some (-1) else None in
      s ← sign;
      '(h, r1) ← take_digits 2 0 rest;
      r2 ← take_char ":" r1;
      '(m, r3) ← take_digits 2 0 r2;
      match r3 with
      | [] => if (h <=? 24) && (m <? 60) then Some (s * (h * 3600 + m * 60)) else None
      | _ => None
      end
  | [] => None
  end.

(** [time.Parse(time.RFC3339, s)]. *)
Definition ParseRFC3339 (text : string) : option GoTime :=
  let l := bytes text in
  '(y, l) ← take_digits 4 0 l; l ← take_char "-" l;
  '(mo, l) ← take_digits 2 0 l; l ← take_char "-" l;
  '(d, l) ← take_digits 2 0 l; l ← take_char "T" l;
  '(h, l) ← take_digits 2 0 l; l ← take_char ":" l;
  '(mi, l) ← take_digits 2 0 l; l ← take_char ":" l;
  '(se, l) ← take_digits 2 0 l;
  let '(nanos, l) := match l with
                     | c :: rest =>
                         if Ascii.eqb c "." then take_fraction (length rest) 100000000 0 rest
                         else (0, l)
                     | [] => (0, l)
                     end in
  zone ← take_zone l;
  if (1 <=? mo) && (mo <=? 12) && (1 <=? d) && (d <=? days_in y mo) && (h <? 24) && (mi <? 60)
     && (se <? 60)
  then Some ((days_of_civil (Build_civil y mo d) * 86400 + h * 3600 + mi * 60 + se - zone) * Second
             + nanos)
  else None.

Example parse_samples :
  ParseRFC3339 "2024-02-29T23:59:58Z" = Some (UnixEpoch + 1709251198 * Second)
  /\ ParseRFC3339 "2024-03-01T01:00:00.25+01:00"
     = Some (UnixEpoch + 1709251200 * Second + 250 * Millisecond)
  /\ ParseRFC3339 "2023-02-29T00:00:00Z" = None
  /\ ParseRFC3339 "yesterday" = None.
Proof. vm_compute. by split_and!. Qed.
