(* ===== verification/GoFlag.v ===== *)
(** Package [flag]: the parsing of a command line by a [FlagSet] with
    [ContinueOnError], for flags that hold strings and booleans. *)
From S2P Require Import Prelude GoStrings.
From Stdlib Require Import Ascii.

Local Open Scope Z_scope.

Inductive flag_kind : Type := StringFlag | BoolFlag.
#[global] Instance flag_kind_eq_dec : EqDecision flag_kind.
Proof. solve_decision. Defined.
(** The flags that are defined, and the values that were set. *)
Abbreviation FlagSet := (gmap string flag_kind).
Abbreviation FlagValues := (gmap string string).

Inductive FlagError : Type :=
| BadSyntax (arg : string)
| NotDefined (name : string)
| HelpRequested
| NeedsArgument (name : string)
| InvalidBool (value name : string).

Definition dash : ascii := "-"%char.

(** The argument as a flag: [None] when it is not one, else what follows the
    dashes; two dashes alone end the flags. *)
Inductive flag_arg : Type := NotFlag | EndOfFlags | FlagText (name : string).
Definition flag_of (arg : string) : flag_arg :=
  match arg with
  | String c (String d rest) =>
      if Ascii.eqb c dash then
        if Ascii.eqb d dash then match rest with EmptyString => EndOfFlags | _ => FlagText rest end
        else FlagText (String d rest)
      else NotFlag
  | _ => NotFlag
  end.

(** The text before and after the first equals sign that is not the first byte. *)
Fixpoint cut_equals (s : string) : string * option string :=
  match s with
  | EmptyString => ("", None)
  | String c rest =>
      if Ascii.eqb c "="%char then ("", Some rest)
      else let '(n, v) := cut_equals rest in (String c n, v)
  end.
Definition split_flag (s : string) : string * option string :=
  match s with
  | EmptyString => ("", None)
  | String c rest => let '(n, v) := cut_equals rest in (String c n, v)
  end.
Definition bad_name (s : string) : bool :=
  match s with
  | EmptyString => true
  | String c _ => Ascii.eqb c dash || Ascii.eqb c "="%char
  end.

(** [strconv.ParseBool]. *)
Definition ParseBool (s : string) : option bool :=
  if existsb (String.eqb s) ["1"; "t"; "T"; "true"; "TRUE"; "True"] then Some true
  else if existsb (String.eqb s) ["0"; "f"; "F"; "false"; "FALSE"; "False"] then Some false
  else None.

Definition undefined (name : string) : FlagError :=
  if String.eqb name "help" || String.eqb name "h" then HelpRequested else NotDefined name.

(** [Parse]: the values that were set, and the arguments after the flags.  A
    later value of a flag replaces an earlier one. *)
Fixpoint parse_from (defined : FlagSet) (vals : FlagValues) (args : list string)
    : result FlagError (FlagValues * list string) :=
  match args with
  | [] => Ok (vals, [])
  | arg :: rest =>
      match flag_of arg with
      | NotFlag => Ok (vals, args)
      | EndOfFlags => Ok (vals, rest)
      | FlagText text =>
          if bad_name text then Err (BadSyntax arg)
          else
          let '(name, value) := split_flag text in
          match defined !! name, value with
          | None, _ => Err (undefined name)
          | Some BoolFlag, None => parse_from defined (<[name := "true"]> vals) rest
          | Some BoolFlag, Some v =>
              match ParseBool v with
              | Some b => parse_from defined (<[name := if b then "true" else "false"]> vals) rest
              | None => Err (InvalidBool v name)
              end
          | Some StringFlag, Some v => parse_from defined (<[name := v]> vals) rest
          | Some StringFlag, None =>
              match rest with
              | v :: rest' => parse_from defined (<[name := v]> vals) rest'
              | [] => Err (NeedsArgument name)
              end
          end
      end
  end.
Definition Parse (defined : FlagSet) (args : list string) : result FlagError (FlagValues * list string) :=
  parse_from defined ∅ args.

(** The value of a flag, or its default. *)
Definition string_flag (vals : FlagValues) (name def : string) : string := default def (vals !! name).
Definition bool_flag (vals : FlagValues) (name : string) : bool := String.eqb (default "false" (vals !! name)) "true".

(** ** Lemmas *)

(** A name that a flag can have. *)
Definition plain_name (name : string) : Prop :=
  bad_name name = false /\ "="%char ∉ bytes name.

Definition plain_check (name : string) : bool :=
  negb (bad_name name) && negb (existsb (Ascii.eqb "="%char) (bytes name)).
Lemma plain_checked name : plain_check name = true -> plain_name name.
Proof.
  unfold plain_check. rewrite andb_true_iff, !negb_true_iff. intros [H1 H2]. split; [done|].
  intros H. rewrite (proj2 (existsb_exists _ _)) in H2; [done|]. exists "="%char.
  by rewrite <- list_elem_of_In.
Qed.

Lemma cut_equals_app n v : "="%char ∉ bytes n -> cut_equals (n +:+ String "="%char v) = (n, Some v).
Proof.
  induction n as [|c n IH]; intros Hn; [done|]. simpl. destruct (Ascii.eqb_spec c "="%char) as [->|_].
  - exfalso. apply Hn. simpl. by left.
  - rewrite IH; [done|]. intros H. apply Hn. simpl. by right.
Qed.

Lemma split_given name v : plain_name name -> split_flag (name +:+ String "="%char v) = (name, Some v).
Proof.
  intros [Hb Hn]. destruct name as [|c n]; [discriminate Hb|]. simpl. rewrite cut_equals_app; [done|].
  intros H. apply Hn. simpl. by right.
Qed.

(** A flag as an argument of its own. *)
Definition given (e : string * string) : string :=
  String dash (String dash (fst e +:+ String "="%char (snd e))).

Lemma flag_of_given name v : plain_name name -> flag_of (given (name, v)) = FlagText (name +:+ String "="%char v).
Proof. intros [Hb _]. destruct name as [|c n]; [discriminate Hb|]. done. Qed.

Lemma bad_name_given name v : plain_name name -> bad_name (name +:+ String "="%char v) = false.
Proof. intros [Hb _]. destruct name as [|c n]; [discriminate Hb|]. exact Hb. Qed.

(** What [Set] keeps of a value. *)
Definition accepts (k : flag_kind) (v : string) : Prop :=
  match k with StringFlag => True | BoolFlag => v = "true" \/ v = "false" end.

Lemma parse_given defined l vals :
  Forall (fun e => plain_name (fst e) /\ exists k, defined !! fst e = Some k /\ accepts k (snd e)) l ->
  parse_from defined vals (map given l) = Ok (foldl (fun m e => <[fst e := snd e]> m) vals l, []).
Proof.
  intros Hl. revert vals. induction Hl as [|[name v] l [Hp (k & Hd & Ha)] Hl IH]; intros vals; [done|].
  cbn [map parse_from]. rewrite flag_of_given, bad_name_given by exact Hp. rewrite split_given by exact Hp.
  simpl in Hd, Ha. rewrite Hd. destruct k; [apply IH|]. by destruct Ha as [-> | ->]; apply IH.
Qed.

(** Only defined flags are set. *)
Lemma parse_defined defined args : forall vals vals' rest,
  parse_from defined vals args = Ok (vals', rest) ->
  forall name, is_Some (vals' !! name) -> is_Some (vals !! name) \/ is_Some (defined !! name).
Proof.
  remember (length args) as n eqn:Hn. revert args Hn. induction (Nat.lt_wf_0 n) as [n _ IH].
  intros args -> vals vals' rest. destruct args as [|arg args]; [intros [= <- <-]; auto|]. cbn [parse_from].
  assert (Hset : forall name v args', (length args' < length (arg :: args))%nat -> is_Some (defined !! name) ->
    parse_from defined (<[name := v]> vals) args' = Ok (vals', rest) ->
    forall x, is_Some (vals' !! x) -> is_Some (vals !! x) \/ is_Some (defined !! x)).
  { intros name v args' Hlt Hd E x Hx. destruct (IH _ Hlt args' eq_refl _ _ _ E x Hx) as [H|H]; [|auto].
    destruct (decide (name = x)) as [->|Hne]; [auto|]. rewrite lookup_insert_ne in H by done. auto. }
  destruct (flag_of arg) as [| |text]; [intros [= <- <-]; auto..|]. destruct (bad_name text); [discriminate|].
  destruct (split_flag text) as [name value]. destruct (defined !! name) as [[]|] eqn:Hd; [| |discriminate].
  - destruct value as [v|]; [|destruct args as [|v args]; [discriminate|]];
      apply Hset; rewrite ?Hd; eauto; simpl; lia.
  - destruct value as [v|]; [destruct (ParseBool v) as [b|]; [|discriminate]|];
      apply Hset; rewrite ?Hd; eauto; simpl; lia.
Qed.

Example parse_forms :
  let defined : FlagSet := {[ "config" := StringFlag; "y" := BoolFlag ]} in
  Parse defined ["-config"; "a"; "--y"; "rest"] = Ok ({[ "config" := "a"; "y" := "true" ]}, ["rest"])
  /\ Parse defined ["--config"] = Err (NeedsArgument "config")
  /\ Parse defined ["-h"] = Err HelpRequested /\ Parse defined ["-=x"] = Err (BadSyntax "-=x")
  /\ Parse defined ["-y=no"] = Err (InvalidBool "no" "y").
Proof. vm_compute. split_and!; reflexivity. Qed.
