(* ===== verification/GoJson.v ===== *)
(** [encoding/json] for flat objects: [json.Marshal] of a map from names to
    strings, numbers, booleans and lists of strings, byte for byte, with a reader
    that stands for whoever consumes the output. *)
From S2P Require Import Prelude GoStrings GoPath.
From Stdlib Require Import Ascii.

Local Open Scope Z_scope.

(** ** Runes *)

(** [utf8.DecodeRune]: the length of the rune at the front, 0 when the bytes
    there are not valid UTF-8. *)
Definition is_cont (c : ascii) : bool := in_range 128 191 c.
Definition rune_len (l : list ascii) : nat :=
  match l with
  | [] => 0
  | c :: r1 =>
      if byte_of c <? 128 then 1
      else match r1 with
      | [] => 0
      | d :: r2 =>
          if in_range 194 223 c then if is_cont d then 2 else 0
          else match r2 with
          | [] => 0
          | e :: r3 =>
              if in_range 224 239 c then
                if (if byte_of c =? 224 then in_range 160 191 d
                    else if byte_of c =? 237 then in_range 128 159 d else is_cont d) && is_cont e
                then 3 else 0
              else match r3 with
              | [] => 0
              | f :: _ =>
                  if in_range 240 244 c
                     && (if byte_of c =? 240 then in_range 144 191 d
                         else if byte_of c =? 244 then in_range 128 143 d else is_cont d)
                     && is_cont e && is_cont f
                  then 4 else 0
              end
          end
      end
  end.

(** The runes of a string in order, a byte that starts none on its own;
    [skip] bytes belong to the rune before. *)
Fixpoint runes_from (skip : nat) (l : list ascii) : list (list ascii) :=
  match l with
  | [] => []
  | c :: rest =>
      match skip with
      | S k => runes_from k rest
      | O => take (Nat.max 1 (rune_len l)) l :: runes_from (rune_len l - 1) rest
      end
  end.
Definition runes (l : list ascii) : list (list ascii) := runes_from 0 l.

(** What a reader of the output gets for a rune: U+FFFD for an invalid byte. *)
Definition rune_error : list ascii := [chr 239; chr 191; chr 189].
Definition rune_text (u : list ascii) : list ascii :=
  match u with
  | [c] => if byte_of c <? 128 then [c] else rune_error
  | _ => u
  end.
(** The string with every invalid byte replaced. *)
Definition valid_text (s : string) : string := str (mjoin (map rune_text (runes (bytes s)))).

(** ** Strings *)

Definition json_byte (c : ascii) : list ascii :=
  let n := byte_of c in
  if n =? 34 then [chr 92; chr 34]
  else if n =? 92 then [chr 92; chr 92]
  else if n =? 8 then bytes "\b" else if n =? 12 then bytes "\f"
  else if n =? 10 then bytes "\n" else if n =? 13 then bytes "\r"
  else if n =? 9 then bytes "\t"
  else if (n <? 32) || (n =? 60) || (n =? 62) || (n =? 38) then bytes "\u00" ++ hex_byte n
  else [c].
Definition rune_code (u : list ascii) : list ascii :=
  match u with
  | [c] => if byte_of c <? 128 then json_byte c else bytes "\ufffd"
  | [c; d; e] =>
      if (byte_of c =? 226) && (byte_of d =? 128) && ((byte_of e =? 168) || (byte_of e =? 169))
      then bytes "\u202" ++ [hex_digit (byte_of e - 160)]
      else u
  | _ => u
  end.
Definition json_string (s : string) : list ascii :=
  [chr 34] ++ mjoin (map rune_code (runes (bytes s))) ++ [chr 34].

(** ** Values and objects *)

Inductive jvalue : Type :=
| JNull
| JBool (b : bool)
| JInt (z : Z)
| JString (s : string)
| JStrings (l : list string).
#[global] Instance jvalue_eq_dec : EqDecision jvalue.
Proof. solve_decision. Defined.

Fixpoint comma_separated (l : list (list ascii)) : list ascii :=
  match l with
  | [] => []
  | [x] => x
  | x :: rest => x ++ [","%char] ++ comma_separated rest
  end.
Definition json_value (v : jvalue) : list ascii :=
  match v with
  | JNull => bytes "null"
  | JBool true => bytes "true"
  | JBool false => bytes "false"
  | JInt z => bytes (pretty z)
  | JString s => json_string s
  | JStrings l => ["["%char] ++ comma_separated (map json_string l) ++ ["]"%char]
  end.

(** The members in the order in which [json.Marshal] writes a map. *)
Definition members (m : gmap string jvalue) : list (string * jvalue) :=
  map (fun k => (k, default JNull (m !! k))) (sort_Strings (map fst (map_to_list m))).
Definition json_member (e : string * jvalue) : list ascii := json_string (fst e) ++ [":"%char] ++ json_value (snd e).
Definition Marshal (m : gmap string jvalue) : string :=
  str (["{"%char] ++ comma_separated (map json_member (members m)) ++ ["}"%char]).

(** ** Reading *)

Definition unhex (c : ascii) : Z := let n := byte_of c in if n <? 58 then n - 48 else n - 87.
Definition byte_chr (n : Z) : ascii := ascii_of_N (Z.to_N n).
(** The UTF-8 form of a code point of the basic plane. *)
Definition utf8 (n : Z) : list ascii :=
  if n <? 128 then [byte_chr n]
  else if n <? 2048 then [byte_chr (192 + n / 64); byte_chr (128 + n mod 64)]
  else [byte_chr (224 + n / 4096); byte_chr (128 + n / 64 mod 64); byte_chr (128 + n mod 64)].

(** The rest of a string after its opening quote. *)
Fixpoint read_body (l : list ascii) : option (list ascii * list ascii) :=
  match l with
  | [] => None
  | c :: rest =>
      if byte_of c =? 34 then Some ([], rest)
      else if byte_of c =? 92 then
        match rest with
        | [] => None
        | d :: rest1 =>
            let n := byte_of d in
            let plain x := '(s, r) ← read_body rest1; Some (x :: s, r) in
            if n =? 98 then plain (chr 8) else if n =? 102 then plain (chr 12)
            else if n =? 110 then plain (chr 10) else if n =? 114 then plain (chr 13)
            else if n =? 116 then plain (chr 9)
            else if n =? 117 then
              match rest1 with
              | a :: b :: x :: y :: rest2 =>
                  '(s, r) ← read_body rest2;
                  Some (utf8 (4096 * unhex a + 256 * unhex b + 16 * unhex x + unhex y) ++ s, r)
              | _ => None
              end
            else plain d
        end
      else if byte_of c <? 32 then None
      else '(s, r) ← read_body rest; Some (c :: s, r)
  end.
Definition read_string (l : list ascii) : option (string * list ascii) :=
  match l with
  | c :: rest => if byte_of c =? 34 then '(s, r) ← read_body rest; Some (str s, r) else None
  | [] => None
  end.

(** The digits at the front. *)
Fixpoint span_digits (l : list ascii) : list ascii * list ascii :=
  match l with
  | c :: rest => if is_digit c then let '(d, r) := span_digits rest in (c :: d, r) else ([], l)
  | [] => ([], [])
  end.
Definition read_digits (l : list ascii) : option (Z * list ascii) :=
  let '(d, r) := span_digits l in
  match d with [] => None | _ => n ← digits 0 d; Some (n, r) end.
Definition read_int (l : list ascii) : option (Z * list ascii) :=
  match l with
  | "-"%char :: rest => '(n, r) ← read_digits rest; Some (- n, r)
  | _ => read_digits l
  end.

Definition expect (c : ascii) (l : list ascii) : option (list ascii) :=
  match l with
  | d :: rest => if Ascii.eqb c d then Some rest else None
  | [] => None
  end.
Fixpoint expect_all (cs l : list ascii) : option (list ascii) :=
  match cs with
  | [] => Some l
  | c :: cs => r ← expect c l; expect_all cs r
  end.

(** Elements separated by commas, up to the closing byte; one unit of fuel for
    each. *)
Fixpoint read_elements {A} (element : list ascii -> option (A * list ascii)) (close : ascii) (fuel : nat) (l : list ascii)
    : option (list A * list ascii) :=
  match fuel with
  | O => None
  | S fuel =>
      '(x, r) ← element l;
      match r with
      | c :: r =>
          if Ascii.eqb c close then Some ([x], r)
          else if Ascii.eqb c ","%char then '(xs, r) ← read_elements element close fuel r; Some (x :: xs, r)
          else None
      | [] => None
      end
  end.
Definition read_sequence {A} (element : list ascii -> option (A * list ascii)) (close : ascii) (l : list ascii)
    : option (list A * list ascii) :=
  match expect close l with
  | Some r => Some ([], r)
  | None => read_elements element close (S (length l)) l
  end.

Definition read_value (l : list ascii) : option (jvalue * list ascii) :=
  match l with
  | "n"%char :: _ => r ← expect_all (bytes "null") l; Some (JNull, r)
  | "t"%char :: _ => r ← expect_all (bytes "true") l; Some (JBool true, r)
  | "f"%char :: _ => r ← expect_all (bytes "false") l; Some (JBool false, r)
  | "["%char :: rest => '(xs, r) ← read_sequence read_string "]"%char rest; Some (JStrings xs, r)
  | c :: _ => if byte_of c =? 34 then '(s, r) ← read_string l; Some (JString s, r)
              else '(z, r) ← read_int l; Some (JInt z, r)
  | [] => None
  end.
Definition read_member (l : list ascii) : option ((string * jvalue) * list ascii) :=
  '(k, r) ← read_string l; r ← expect ":"%char r; '(v, r) ← read_value r; Some ((k, v), r).
Definition read_object (s : string) : option (list (string * jvalue)) :=
  r ← expect "{"%char (bytes s); '(ms, r) ← read_sequence read_member "}"%char r;
  match r with [] => Some ms | _ => None end.

(** What a reader gets for a value. *)
Definition read_back (v : jvalue) : jvalue :=
  match v with
  | JString s => JString (valid_text s)
  | JStrings l => JStrings (map valid_text l)
  | v => v
  end.
