(* ===== verification/GoJsonProps.v ===== *)
(** The JSON encoder of [GoJson] is read back: every object it writes is one
    line without control bytes, and a reader gets its members in order, with
    invalid UTF-8 replaced. *)
From S2P Require Import Prelude GoStrings GoPath GoJson.
From Stdlib Require Import Ascii.

Local Open Scope Z_scope.

(** ** Runes *)

Definition high (c : ascii) : Prop := byte_of c <? 128 = false.
Inductive rune : list ascii -> Prop :=
| rune_byte c : rune [c]
| rune_high c d u : Forall high (c :: d :: u) -> rune (c :: d :: u).

Lemma in_range_high lo hi c : 128 <= lo -> in_range lo hi c = true -> high c.
Proof. unfold in_range, high. rewrite andb_true_iff, Z.leb_le. intros ? []. lia. Qed.

Lemma rune_len_take l : l <> [] ->
  (rune_len l <= length l)%nat /\ rune (take (Nat.max 1 (rune_len l)) l).
Proof.
  intros Hl. assert (Hone : forall c r, rune (take 1 (c :: r))) by (intros; apply rune_byte).
  destruct l as [|c [|d [|e [|f r]]]]; [done|..]; unfold rune_len; repeat case_match; simplify_eq/=;
    (split; [lia|]); try apply rune_byte; apply rune_high;
    repeat match goal with H : _ && _ = true |- _ => apply andb_true_iff in H as [? ?] end;
    unfold is_cont in *; repeat constructor;
    repeat match goal with
           | H : in_range _ _ _ = true |- high _ => apply in_range_high in H; [exact H|lia]
           | |- high _ => assumption
           end.
Qed.

Lemma runes_from_drop k l : runes_from k l = runes (drop k l).
Proof. revert k. induction l as [|c l IH]; intros [|k]; try done. simpl. apply IH. Qed.

Lemma runes_cons l : l <> [] -> exists u r, l = u ++ r /\ rune u /\ runes l = u :: runes r /\ (length r < length l)%nat.
Proof.
  intros Hl. destruct (rune_len_take l Hl) as [Hn Hu]. set (n := Nat.max 1 (rune_len l)) in *.
  exists (take n l), (drop n l). split; [by rewrite take_drop|]. split; [done|].
  destruct l as [|c l]; [done|]. split; [|rewrite length_drop; simpl; lia].
  unfold runes at 1. cbn [runes_from]. fold n. f_equal. rewrite runes_from_drop.
  f_equal. subst n. destruct (rune_len (c :: l)) as [|k]; [done|]. simpl. by rewrite Nat.sub_0_r.
Qed.

(** Induction along the runes of a string. *)
Lemma runes_ind (P : list ascii -> Prop) :
  P [] -> (forall u r, rune u -> runes (u ++ r) = u :: runes r -> P r -> P (u ++ r)) -> forall l, P l.
Proof.
  intros H0 Hs l. remember (length l) as n eqn:Hn. revert l Hn.
  induction (Nat.lt_wf_0 n) as [n _ IH]. intros l ->. destruct (decide (l = [])) as [->|Hl]; [done|].
  destruct (runes_cons l Hl) as (u & r & -> & Hu & Hr & Hlt). apply Hs; [done..|]. by apply (IH (length r)).
Qed.

(** ** Strings *)

Lemma read_high c x : high c -> read_body (c :: x) = '(s, r) ← read_body x; Some (c :: s, r).
Proof.
  unfold high. intros H. cbn [read_body].
  repeat case_match; try done; lia.
Qed.

Lemma bind_body (x : option (list ascii * list ascii)) a b :
  ('(s, r) ← ('(s, r) ← x; Some (b ++ s, r)); Some (a ++ s, r)) = '(s, r) ← x; Some ((a ++ b) ++ s, r).
Proof. destruct x as [[s r]|]; [|done]. unfold mbind, option_bind. by rewrite <- app_assoc. Qed.

Lemma read_highs u x : Forall high u -> read_body (u ++ x) = '(s, r) ← read_body x; Some (u ++ s, r).
Proof.
  induction 1 as [|c u Hc Hu IH]; simpl app; [by destruct (read_body x) as [[]|]|].
  rewrite read_high, IH by done. apply (bind_body (read_body x) [c] u).
Qed.

Lemma read_rune u x : rune u -> read_body (rune_code u ++ x) = '(s, r) ← read_body x; Some (rune_text u ++ s, r).
Proof.
  intros [c|c d [|e [|f w]] Hh]; [|by apply read_highs| |by apply read_highs].
  - destruct c as [[] [] [] [] [] [] [] []]; reflexivity.
  - unfold rune_code, rune_text. case_match eqn:E; [|by apply read_highs].
    rewrite !andb_true_iff, orb_true_iff, !Z.eqb_eq in E. destruct E as [[Hc Hd] He].
    rewrite (byte_of_inj c (chr 226) Hc), (byte_of_inj d (chr 128) Hd).
    destruct He as [He|He]; rewrite He.
    + rewrite (byte_of_inj e (chr 168) He). reflexivity.
    + rewrite (byte_of_inj e (chr 169) He). reflexivity.
Qed.

Lemma join_map_cons (f : list ascii -> list ascii) u l : mjoin (map f (u :: l)) = f u ++ mjoin (map f l).
Proof. done. Qed.

Lemma read_runes l x :
  read_body (mjoin (map rune_code (runes l)) ++ chr 34 :: x) = Some (mjoin (map rune_text (runes l)), x).
Proof.
  induction l as [|u r Hu Hr IH] using runes_ind; [done|].
  rewrite Hr. rewrite !join_map_cons, <- app_assoc, read_rune, IH by done. done.
Qed.

Lemma read_json_string s x : read_string (json_string s ++ x) = Some (valid_text s, x).
Proof.
  unfold json_string, read_string, valid_text. simpl app. rewrite <- app_assoc. simpl.
  by rewrite read_runes.
Qed.

(** Text without control bytes. *)
Definition printable (l : list ascii) : Prop := Forall (fun c => byte_of c <? 32 = false) l.

Lemma rune_printable u : rune u -> printable (rune_code u).
Proof.
  assert (Hh : forall u, Forall high u -> printable u).
  { intros u' H. eapply Forall_impl; [exact H|]. unfold high. simpl. intros. lia. }
  intros [c|c d [|e [|f w]] H]; [|by apply Hh| |by apply Hh].
  - destruct c as [[] [] [] [] [] [] [] []]; repeat constructor.
  - unfold rune_code. case_match eqn:E; [|by apply Hh].
    rewrite !andb_true_iff, orb_true_iff, !Z.eqb_eq in E. destruct E as [_ [He|He]]; rewrite He; repeat constructor.
Qed.

Lemma json_string_printable s : printable (json_string s).
Proof.
  unfold json_string, printable. rewrite !Forall_app. split; [repeat constructor|]. split; [|repeat constructor].
  induction (bytes s) as [|u r Hu Hr IH] using runes_ind; [constructor|].
  rewrite Hr. rewrite join_map_cons, Forall_app. split; [by apply rune_printable|done].
Qed.

(** ** Numbers *)

Definition no_digit (x : list ascii) : Prop := match x with c :: _ => is_digit c = false | [] => True end.

Lemma span_digits_app l x : Forall (fun c => is_digit c = true) l -> no_digit x -> span_digits (l ++ x) = (l, x).
Proof.
  intros Hl Hx. induction Hl as [|c l Hc Hl IH]; simpl.
  - destruct x as [|c x]; [done|]. simpl in *. by rewrite Hx.
  - by rewrite Hc, IH.
Qed.

Lemma read_pretty_N (n : N) x : no_digit x -> read_digits (bytes (pretty n) ++ x) = Some (Z.of_N n, x).
Proof.
  intros Hx. unfold read_digits. rewrite span_digits_app by auto using pretty_N_digits.
  pose proof (pretty_N_nonempty n) as Hn. pose proof (digits_pretty_N n) as Hd.
  destruct (bytes (pretty n)); [done|]. by rewrite Hd.
Qed.

(** A number starts with a digit or a minus sign. *)
Lemma pretty_Z_head (z : Z) : exists c r, bytes (pretty z) = c :: r /\ (c = "-"%char \/ is_digit c = true).
Proof.
  assert (HN : forall n : N, exists c r, bytes (pretty n) = c :: r /\ is_digit c = true).
  { intros n. pose proof (pretty_N_digits n) as H. pose proof (pretty_N_nonempty n).
    destruct (bytes (pretty n)) as [|c r]; [done|]. inversion H; eauto. }
  destruct z as [|p|p]; [by exists "0"%char, []; split; [|right]| |by eexists _, _; split; [|left]].
  destruct (HN (Npos p)) as (c & r & E & H). exists c, r. auto.
Qed.

Lemma read_pretty_Z (z : Z) x : no_digit x -> read_int (bytes (pretty z) ++ x) = Some (z, x).
Proof.
  intros Hx. destruct z as [|p|p].
  - apply (read_pretty_N 0 x Hx).
  - destruct (pretty_Z_head (Z.pos p)) as (c & r & E & _).
    assert (E' : bytes (pretty (N.pos p)) = c :: r) by exact E.
    pose proof (read_pretty_N (Npos p) x Hx) as H. rewrite E' in H. rewrite E. simpl app in *. unfold read_int.
    assert (Hm : c <> "-"%char).
    { intros ->. pose proof (pretty_N_digits (Npos p)) as Hd. rewrite E' in Hd. by inversion Hd. }
    rewrite H. by destruct c as [[] [] [] [] [] [] [] []].
  - change (bytes (pretty (Z.neg p))) with ("-"%char :: bytes (pretty (Npos p))). simpl app. unfold read_int.
    by rewrite read_pretty_N.
Qed.

Lemma pretty_Z_printable (z : Z) : printable (bytes (pretty z)).
Proof.
  assert (HN : forall n : N, printable (bytes (pretty n))).
  { intros n. eapply Forall_impl; [apply pretty_N_digits|]. unfold is_digit, in_range. simpl. intros c.
    rewrite andb_true_iff, Z.leb_le. lia. }
  destruct z as [|p|p]; [repeat constructor|apply (HN (Npos p))|]. constructor; [done|apply (HN (Npos p))].
Qed.

(** ** Sequences *)

Section Sequences.
Context {A B : Type} (enc : A -> list ascii) (element : list ascii -> option (B * list ascii)) (back : A -> B).
Context (close : ascii).
Context (Hread : forall a c x, c = ","%char \/ c = close -> element (enc a ++ c :: x) = Some (back a, c :: x)).
Context (Hclose : forall a x, expect close (enc a ++ x) = None) (Hcomma : close <> ","%char).

Lemma read_elements_app a l fuel x : (length l < fuel)%nat ->
  read_elements element close fuel (comma_separated (map enc (a :: l)) ++ close :: x) = Some (map back (a :: l), x).
Proof using Hread Hcomma.
  revert a fuel. induction l as [|b l IH]; intros a [|fuel] Hf; try (simpl in Hf; lia).
  - cbn [map comma_separated read_elements]. rewrite Hread by auto. unfold mbind, option_bind. cbv beta iota.
    by rewrite Ascii.eqb_refl.
  - change (comma_separated (map enc (a :: b :: l))) with
      (enc a ++ [","%char] ++ comma_separated (map enc (b :: l))).
    set (w := comma_separated (map enc (b :: l))). rewrite <- !app_assoc. cbn [read_elements]. simpl app. rewrite Hread by auto. unfold mbind, option_bind. cbv beta iota.
    destruct (Ascii.eqb_spec ","%char close) as [E|_]; [by destruct (Hcomma (eq_sym E))|].
    rewrite Ascii.eqb_refl. unfold w. rewrite IH by (simpl in Hf; lia). done.
Qed.

Lemma comma_length (l : list (list ascii)) : (length l <= S (length (comma_separated l)))%nat.
Proof.
  induction l as [|x [|y l] IH]; [simpl; lia..|].
  change (comma_separated (x :: y :: l)) with (x ++ [","%char] ++ comma_separated (y :: l)).
  rewrite !length_app. simpl in *. lia.
Qed.

Lemma read_sequence_app l x :
  read_sequence element close (comma_separated (map enc l) ++ close :: x) = Some (map back l, x).
Proof using Hread Hclose Hcomma.
  unfold read_sequence. destruct l as [|a l].
  { simpl. by rewrite Ascii.eqb_refl. }
  assert (He : expect close (comma_separated (map enc (a :: l)) ++ close :: x) = None).
  { destruct l as [|b l]; [apply Hclose|].
    change (comma_separated (map enc (a :: b :: l))) with (enc a ++ [","%char] ++ comma_separated (map enc (b :: l))).
    rewrite <- !app_assoc. apply Hclose. }
  rewrite He. apply read_elements_app.
  pose proof (comma_length (map enc (a :: l))) as H. rewrite length_map in H. rewrite length_app. simpl in *. lia.
Qed.
End Sequences.

Lemma comma_printable l : Forall printable l -> printable (comma_separated l).
Proof.
  induction 1 as [|x l Hx Hl IH]; [constructor|]. destruct l as [|y l]; [done|].
  change (comma_separated (x :: y :: l)) with (x ++ [","%char] ++ comma_separated (y :: l)).
  unfold printable. rewrite !Forall_app. split_and!; [done|by repeat constructor|done].
Qed.

(** ** Values and objects *)

Definition closing (c : ascii) : Prop := c = ","%char \/ c = "}"%char.

Lemma read_json_value v c x : closing c -> read_value (json_value v ++ c :: x) = Some (read_back v, c :: x).
Proof.
  intros Hc. destruct v as [|[]|z|s|l]; cbn [json_value read_back].
  - by destruct Hc as [-> | ->].
  - by destruct Hc as [-> | ->].
  - by destruct Hc as [-> | ->].
  - assert (Hx : no_digit (c :: x)) by (by destruct Hc as [-> | ->]).
    pose proof (read_pretty_Z z (c :: x) Hx) as H. destruct (pretty_Z_head z) as (d & r & E & Hd).
    rewrite E in *. simpl app in *. unfold read_value.
    assert (Hq : (byte_of d =? 34) = false /\ d <> "n"%char /\ d <> "t"%char /\ d <> "f"%char /\ d <> "["%char).
    { destruct Hd as [->|Hd]; [done|]. by destruct d as [[] [] [] [] [] [] [] []]. }
    destruct Hq as (Hq & H1 & H2 & H3 & H4). rewrite Hq, H.
    by destruct d as [[] [] [] [] [] [] [] []].
  - pose proof (read_json_string s (c :: x)) as H. unfold json_string in *. simpl app in *.
    unfold read_value. rewrite H. done.
  - simpl app. unfold read_value. rewrite <- app_assoc. simpl app.
    rewrite (read_sequence_app json_string read_string valid_text); [done|..].
    + intros a d y _. apply read_json_string.
    + intros a y. done.
    + done.
Qed.

Lemma json_value_printable v : printable (json_value v).
Proof.
  destruct v as [|[]|z|s|l]; [repeat constructor..|apply pretty_Z_printable|apply json_string_printable|].
  unfold json_value, printable. rewrite !Forall_app. split_and!; [repeat constructor| |repeat constructor].
  apply comma_printable, Forall_map, Forall_true. intros s. apply json_string_printable.
Qed.

Lemma read_json_member e c x : closing c ->
  read_member (json_member e ++ c :: x) = Some ((valid_text (fst e), read_back (snd e)), c :: x).
Proof.
  intros Hc. unfold json_member, read_member. rewrite <- !app_assoc, read_json_string. simpl.
  by rewrite read_json_value.
Qed.

(** The reader gets what was written. *)
Lemma read_Marshal m :
  read_object (Marshal m) = Some (map (fun e => (valid_text (fst e), read_back (snd e))) (members m)).
Proof.
  unfold Marshal, read_object. rewrite bytes_str. simpl.
  rewrite (read_sequence_app json_member read_member (fun e => (valid_text (fst e), read_back (snd e)))); [done|..].
  - intros e c x Hc. by apply read_json_member.
  - intros e x. done.
  - done.
Qed.

(** An object is written on one line. *)
Lemma Marshal_printable m : printable (bytes (Marshal m)).
Proof.
  unfold Marshal, printable. rewrite bytes_str, !Forall_app. split_and!; [repeat constructor| |repeat constructor].
  apply comma_printable, Forall_map, Forall_true. intros e. unfold json_member, printable. rewrite !Forall_app.
  split_and!; [apply json_string_printable|repeat constructor|apply json_value_printable].
Qed.

Lemma members_spec m k v : (k, v) ∈ members m <-> m !! k = Some v.
Proof.
  unfold members. rewrite list_elem_of_fmap. split.
  - intros (k' & [= -> ->] & Hk). rewrite (sort_Strings_perm _), list_elem_of_fmap in Hk.
    destruct Hk as ([k2 v2] & -> & Hk). apply elem_of_map_to_list in Hk. simpl. by rewrite Hk.
  - intros Hk. exists k. rewrite Hk. split; [done|]. rewrite (sort_Strings_perm _), list_elem_of_fmap.
    exists (k, v). split; [done|]. by apply elem_of_map_to_list.
Qed.

Lemma members_nodup m : NoDup (map fst (members m)).
Proof.
  unfold members. rewrite map_map. simpl. rewrite map_id, (sort_Strings_perm _). apply NoDup_fst_map_to_list.
Qed.

(** ASCII text is valid. *)
Lemma valid_ascii s : Forall (fun c => byte_of c <? 128 = true) (bytes s) -> valid_text s = s.
Proof.
  intros H. unfold valid_text. rewrite <- (str_bytes s) at 2. f_equal. induction H as [|c l Hc Hl IH]; [done|].
  assert (E : runes (c :: l) = [c] :: runes l).
  { unfold runes. cbn [runes_from]. unfold rune_len. by rewrite Hc. }
  rewrite E, join_map_cons, IH. unfold rune_text. by rewrite Hc.
Qed.
