(* ===== verification/Types.v ===== *)
(** Core data types of the connector host ([src/types.go]) and the dynamic
    values ([interface{}]) that payloads and target configurations hold. *)
From S2P Require Import Prelude.
From Stdlib Require Import QArith.

Local Open Scope Z_scope.

(** ** Dynamic values *)

#[local] Set Warnings "-register-all".

(** A Go [interface{}] as the connector's maps hold it.  JSON numbers decode
    to [float64]; a finite [float64] is a rational, so [VFloat] carries a [Q].
    [VStrings] is a [[]string], [VList] a [[]interface{}], [VMaps] a
    [[]map[string]interface{}]; [VOther] stands for a value of any other
    dynamic type. *)
Inductive value : Type :=
| VNil
| VBool (b : bool)
| VInt (n : Z)
| VInt64 (n : Z)
| VFloat (q : Q)
| VString (s : string)
| VStrings (l : list string)
| VList (l : list value)
| VMap (m : gmap string value)
| VMaps (l : list (gmap string value))
| VOther.

(** [map[string]interface{}]: a snapshot or heartbeat payload. *)
Abbreviation payload := (gmap string value).
(** [map[string]string]: the decrypted credentials of one target. *)
Abbreviation Creds := (gmap string string).

(** [m[k].(string)] with the two-value form: the zero value on failure. *)
Definition get_string (m : payload) (k : string) : option string :=
  match m !! k with Some (VString s) => Some s | _ => None end.
Definition get_string_or_empty (m : payload) (k : string) : string :=
  default "" (get_string m k).
Definition get_map (m : payload) (k : string) : option payload :=
  match m !! k with Some (VMap o) => Some o | _ => None end.

(** ** Target profile *)

Inductive TargetStatus : Type :=
| TargetStatusUnset       (* the empty string *)
| TargetStatusPending
| TargetStatusActive
| TargetStatusPaused
| TargetStatusDegraded
| TargetStatusRevoked
| TargetStatusError
| TargetStatusUnknown (s : string).  (* any other string sent by the backend *)

#[global] Instance TargetStatus_eq_dec : EqDecision TargetStatus.
Proof. solve_decision. Defined.

Record TLSConfig : Type := {
  tls_InsecureSkipVerify : bool;
  tls_CACertPath : string;
  tls_ClientCertPath : string;
  tls_ClientKeyPath : string;
  tls_Policy : string;
}.

Record ResourceLimits : Type := {
  rl_MaxMemoryMB : Z;
  rl_MaxResponseMB : Z;
  rl_TimeoutSecs : Z;
}.

Record ProxyConfig : Type := {
  px_HTTPProxy : string;
  px_HTTPSProxy : string;
  px_NoProxy : string;
}.

Record TargetProfile : Type := {
  tp_TargetID : string;
  tp_Name : string;
  tp_TargetType : string;
  tp_Mode : string;
  tp_Enabled : bool;
  tp_Status : TargetStatus;
  tp_Endpoint : string;
  tp_TLS : TLSConfig;
  tp_Proxy : ProxyConfig;
  tp_AuthType : string;
  tp_Labels : gmap string string;
  tp_Capabilities : list string;
  tp_PollIntervalSecs : Z;
  tp_ResourceLimits : ResourceLimits;
  tp_Paused : bool;
  tp_MaintenanceReason : string;
  tp_CredentialRef : string;
  tp_CredentialRotationDays : Z;
  tp_ConfigVersion : Z;
  tp_UpdatedAt : GoTime;
  tp_TargetConfig : payload;
}.

Definition zeroTLS : TLSConfig := Build_TLSConfig false "" "" "" "".
Definition zeroProxy : ProxyConfig := Build_ProxyConfig "" "" "".
Definition zeroLimits : ResourceLimits := Build_ResourceLimits 0 0 0.

(** Field assignment on a profile, [t.Status = s] and the like. *)
Definition set_tp_Status (s : TargetStatus) (t : TargetProfile) : TargetProfile :=
  Build_TargetProfile (tp_TargetID t) (tp_Name t) (tp_TargetType t) (tp_Mode t)
    (tp_Enabled t) s (tp_Endpoint t) (tp_TLS t) (tp_Proxy t) (tp_AuthType t)
    (tp_Labels t) (tp_Capabilities t) (tp_PollIntervalSecs t) (tp_ResourceLimits t)
    (tp_Paused t) (tp_MaintenanceReason t) (tp_CredentialRef t)
    (tp_CredentialRotationDays t) (tp_ConfigVersion t) (tp_UpdatedAt t) (tp_TargetConfig t).
Definition set_tp_Paused (p : bool) (t : TargetProfile) : TargetProfile :=
  Build_TargetProfile (tp_TargetID t) (tp_Name t) (tp_TargetType t) (tp_Mode t)
    (tp_Enabled t) (tp_Status t) (tp_Endpoint t) (tp_TLS t) (tp_Proxy t) (tp_AuthType t)
    (tp_Labels t) (tp_Capabilities t) (tp_PollIntervalSecs t) (tp_ResourceLimits t)
    p (tp_MaintenanceReason t) (tp_CredentialRef t)
    (tp_CredentialRotationDays t) (tp_ConfigVersion t) (tp_UpdatedAt t) (tp_TargetConfig t).
Definition set_tp_CredentialRef (r : string) (t : TargetProfile) : TargetProfile :=
  Build_TargetProfile (tp_TargetID t) (tp_Name t) (tp_TargetType t) (tp_Mode t)
    (tp_Enabled t) (tp_Status t) (tp_Endpoint t) (tp_TLS t) (tp_Proxy t) (tp_AuthType t)
    (tp_Labels t) (tp_Capabilities t) (tp_PollIntervalSecs t) (tp_ResourceLimits t)
    (tp_Paused t) (tp_MaintenanceReason t) r
    (tp_CredentialRotationDays t) (tp_ConfigVersion t) (tp_UpdatedAt t) (tp_TargetConfig t).
Definition set_tp_UpdatedAt (u : GoTime) (t : TargetProfile) : TargetProfile :=
  Build_TargetProfile (tp_TargetID t) (tp_Name t) (tp_TargetType t) (tp_Mode t)
    (tp_Enabled t) (tp_Status t) (tp_Endpoint t) (tp_TLS t) (tp_Proxy t) (tp_AuthType t)
    (tp_Labels t) (tp_Capabilities t) (tp_PollIntervalSecs t) (tp_ResourceLimits t)
    (tp_Paused t) (tp_MaintenanceReason t) (tp_CredentialRef t)
    (tp_CredentialRotationDays t) (tp_ConfigVersion t) u (tp_TargetConfig t).

(** ** Host identity, configuration and state *)

Record HostIdentity : Type := {
  hi_HostID : string;
  hi_Label : string;
  hi_EnrolledAt : GoTime;
  hi_ConnectorToken : string;
  hi_BackendURL : string;
  hi_PublicKey : string;
}.

Record HostConfig : Type := {
  hc_LogLevel : string;
  hc_MaxConcurrentWorkers : Z;
  hc_WatchdogTimeoutSecs : Z;
  hc_AutoUpdatePolicy : string;
  hc_PinnedPublicKey : string;
  hc_InsecureSkipVerify : bool;
  hc_SyncIntervalSecs : Z;
  hc_LocalRetentionDays : Z;
  hc_LanOnly : bool;
  hc_RemoteLiveQueryEnabled : bool;
  hc_RemoteRestartEnabled : bool;
}.

Definition DefaultHostConfig : HostConfig := {|
  hc_LogLevel := "info";
  hc_MaxConcurrentWorkers := 0;
  hc_WatchdogTimeoutSecs := 300;
  hc_AutoUpdatePolicy := "disabled";
  hc_PinnedPublicKey := "";
  hc_InsecureSkipVerify := false;
  hc_SyncIntervalSecs := 60;
  hc_LocalRetentionDays := 0;
  hc_LanOnly := false;
  hc_RemoteLiveQueryEnabled := false;
  hc_RemoteRestartEnabled := false;
|}.

Record UpdateState : Type := {
  us_CurrentVersion : string;
  us_AvailableVersion : string;
  us_LastCheckedAt : string;
  us_LastUpdateAt : string;
  us_RollbackVersion : string;
  us_UpdatePolicy : string;
}.

Definition zeroUpdate : UpdateState := Build_UpdateState "" "" "" "" "" "".

Record HostState : Type := {
  hs_Identity : HostIdentity;
  hs_Config : HostConfig;
  hs_Targets : list TargetProfile;
  hs_Update : UpdateState;
  hs_Version : Z;
  hs_LastSyncRevision : Z;
  hs_LastSyncAt : GoTime;
  hs_LastAckStatus : string;
}.

Definition set_hs_Targets (l : list TargetProfile) (h : HostState) : HostState :=
  Build_HostState (hs_Identity h) (hs_Config h) l (hs_Update h) (hs_Version h)
    (hs_LastSyncRevision h) (hs_LastSyncAt h) (hs_LastAckStatus h).
Definition set_hs_Config (c : HostConfig) (h : HostState) : HostState :=
  Build_HostState (hs_Identity h) c (hs_Targets h) (hs_Update h) (hs_Version h)
    (hs_LastSyncRevision h) (hs_LastSyncAt h) (hs_LastAckStatus h).
Definition set_hs_Sync (rev : Z) (at_ : GoTime) (ack : string) (h : HostState) : HostState :=
  Build_HostState (hs_Identity h) (hs_Config h) (hs_Targets h) (hs_Update h) (hs_Version h)
    rev at_ ack.

(** ** Worker status and retry policy *)

Inductive WorkerStatus : Type :=
| WorkerStatusIdle
| WorkerStatusStarting
| WorkerStatusRunning
| WorkerStatusStopped
| WorkerStatusDegraded
| WorkerStatusPaused
| WorkerStatusFailed
| WorkerStatusStuck.

#[global] Instance WorkerStatus_eq_dec : EqDecision WorkerStatus.
Proof. solve_decision. Defined.

(** The wire strings of the status constants. *)
Definition WorkerStatus_string (s : WorkerStatus) : string :=
  match s with
  | WorkerStatusIdle => "idle"
  | WorkerStatusStarting => "starting"
  | WorkerStatusRunning => "running"
  | WorkerStatusStopped => "stopped"
  | WorkerStatusDegraded => "degraded"
  | WorkerStatusPaused => "paused"
  | WorkerStatusFailed => "failed"
  | WorkerStatusStuck => "stuck"
  end.

Definition TargetStatus_string (s : TargetStatus) : string :=
  match s with
  | TargetStatusUnset => ""
  | TargetStatusPending => "pending"
  | TargetStatusActive => "active"
  | TargetStatusPaused => "paused"
  | TargetStatusDegraded => "degraded"
  | TargetStatusRevoked => "revoked"
  | TargetStatusError => "error"
  | TargetStatusUnknown s => s
  end.

Record WorkerState : Type := {
  ws_TargetID : string;
  ws_Status : WorkerStatus;
  ws_LastCollectionAt : GoTime;
  ws_LastErrorAt : GoTime;
  ws_LastError : string;
  ws_ConsecutiveErrors : Z;
  ws_TotalCollections : Z;
  ws_StartedAt : GoTime;
  ws_CurrentStage : string;
  ws_LastProgressAt : GoTime;
  ws_NextScheduledAt : GoTime;
  ws_RestartCount : Z;
  ws_LastRestartAt : GoTime;
  ws_CycleStartedAt : GoTime;
}.

(** The multiplier is a [float64] in the source, here the rational it denotes. *)
Record RetryPolicy : Type := {
  rp_MaxConsecutiveErrors : Z;
  rp_InitialBackoff : Duration;
  rp_MaxBackoff : Duration;
  rp_BackoffMultiplier : Q;
  rp_FailedAfterErrors : Z;
  rp_WatchdogTimeoutSecs : Z;
}.

Definition DefaultRetryPolicy : RetryPolicy := {|
  rp_MaxConsecutiveErrors := 5;
  rp_InitialBackoff := 10 * Second;
  rp_MaxBackoff := 60 * Second;
  rp_BackoffMultiplier := 2;
  rp_FailedAfterErrors := 20;
  rp_WatchdogTimeoutSecs := 300;
|}.

(** ** Supported target types ([src/supported_types_gen.go]) *)

Definition SupportedTargetTypes : list string := ["brocade"].

Definition IsValidTargetType (t : string) : bool :=
  existsb (String.eqb t) SupportedTargetTypes.
