(* ===== verification/Policy.v ===== *)
(** Policies and guardrails: the change-operation policy
    ([src/change_policy.go]), profile validation ([src/validation.go],
    [src/validation_registry.go]) and the TLS policies ([src/httputil.go]). *)
From S2P Require Import Prelude GoStrings Types.
From Stdlib Require Import QArith Ascii.

Local Open Scope Z_scope.

(** ** Change operations *)

(** The zero value of the type is none of the three constants. *)
Inductive ChangePolicy : Type :=
| ChangePolicyDeny
| ChangePolicyExplicit
| ChangePolicyAll
| ChangePolicyOther (s : string).

Record ChangePolicyConfig : Type := {
  cp_Policy : ChangePolicy;
  cp_AllowedOps : gset string;
  cp_AllowedOpsSlice : list string;
}.

Definition DefaultChangePolicyConfig : ChangePolicyConfig :=
  Build_ChangePolicyConfig ChangePolicyDeny ∅ [].

(** The loop over the comma-separated operations. *)
Fixpoint add_ops (ops : list string) (seen : gset string) (slice : list string)
    : gset string * list string :=
  match ops with
  | [] => (seen, slice)
  | op :: rest =>
      let op := TrimSpace op in
      if negb (String.eqb op "") && negb (bool_decide (op ∈ seen))
      then add_ops rest ({[op]} ∪ seen) (slice ++ [op])
      else add_ops rest seen slice
  end.

(** The two environment variables as arguments. *)
Definition ParseChangePolicyFromEnv (envPolicy envOps : string) : ChangePolicyConfig :=
  let p := ToLower (TrimSpace envPolicy) in
  let policy := if String.eqb p "explicit" then ChangePolicyExplicit
                else if String.eqb p "all" then ChangePolicyAll
                else ChangePolicyDeny in
  let '(ops, slice) := if String.eqb envOps "" then (∅, [])
                       else add_ops (Split envOps ",") ∅ [] in
  Build_ChangePolicyConfig policy ops slice.

Definition IsChangeOpAllowed (c : ChangePolicyConfig) (operationID : string) : bool * string :=
  match cp_Policy c with
  | ChangePolicyDeny => (false, "remote change operations disabled by policy (FILTERREX_REMOTE_CHANGE_POLICY=deny)")
  | ChangePolicyAll => (true, "")
  | ChangePolicyExplicit =>
      if String.eqb operationID "" then
        (false, "change operation has no operation ID — cannot authorize against allowlist")
      else if bool_decide (operationID ∈ cp_AllowedOps c) then (true, "")
      else (false, "change operation " +:+ dquote +:+ operationID +:+ dquote
                   +:+ " not allowlisted on agent (FILTERREX_REMOTE_ALLOWED_CHANGE_OPS)")
  | ChangePolicyOther _ => (false, "unknown change policy")
  end.

(** ** Desired target profiles as the backend sends them *)

Record CredentialEnvelope : Type := {
  env_Format : string;
  env_TargetID : string;
  env_Algorithm : string;
  env_SenderPublicKey : string;
  env_Nonce : string;
  env_Ciphertext : string;
}.
Record CredentialPayload : Type := {
  cr_EncryptionMethod : string;
  cr_Credentials : Creds;
  cr_EncryptedBlob : string;
  cr_Envelope : option CredentialEnvelope;
}.
Record DesiredTargetProfile : Type := {
  dt_TargetID : string;
  dt_Name : string;
  dt_TargetType : string;
  dt_Mode : string;
  dt_Enabled : bool;
  dt_Status : TargetStatus;
  dt_Endpoint : string;
  dt_TLS : TLSConfig;
  dt_PollIntervalSecs : Z;
  dt_Labels : gmap string string;
  dt_Capabilities : list string;
  dt_ResourceLimits : ResourceLimits;
  dt_Paused : bool;
  dt_MaintenanceReason : string;
  dt_AuthType : string;
  dt_CredentialPayload : option CredentialPayload;
  dt_CredentialRotationDays : Z;
  dt_TargetConfig : option payload;
  dt_ConfigVersion : Z;
}.

(** ** Validation *)

Definition ProfileModeReadOnly : string := "readonly".
Definition ProfileModeOpsEnabled : string := "ops-enabled".
Definition IsValidProfileMode (mode : string) : bool :=
  String.eqb mode ProfileModeReadOnly || String.eqb mode ProfileModeOpsEnabled.

Record TargetAuthSpec : Type := {
  as_TargetType : string;
  as_AllowedAuthTypes : list string;
  as_RequiredCredKeys : list string;
  as_DefaultMode : string;
}.
Definition targetAuthRegistry : gmap string TargetAuthSpec :=
  {["brocade" := Build_TargetAuthSpec "brocade" ["username_password"; "api_token"] []
                   ProfileModeReadOnly]}.
Definition GetTargetAuthSpec (t : string) : option TargetAuthSpec := targetAuthRegistry !! t.

Definition isAuthTypeAllowed (spec : TargetAuthSpec) (authType : string) : bool :=
  existsb (String.eqb authType) (as_AllowedAuthTypes spec).

(** All elements must be strings. *)
Fixpoint all_strings (l : list value) : option (list string) :=
  match l with
  | [] => Some []
  | VString s :: rest => match all_strings rest with Some r => Some (s :: r) | None => None end
  | _ :: _ => None
  end.
Definition toStringSlice (v : value) : option (list string) :=
  match v with VList l => all_strings l | VStrings l => Some l | _ => None end.
(** [json.Number] does not occur: the payloads are decoded without it. *)
Definition toFloat64 (v : value) : option Q :=
  match v with
  | VFloat q => Some q
  | VInt n => Some (inject_Z n)
  | VInt64 n => Some (inject_Z n)
  | _ => None
  end.

Definition safe_method (m : string) : bool :=
  let m := ToUpper m in String.eqb m "GET" || String.eqb m "HEAD" || String.eqb m "OPTIONS".
(** The first element that satisfies [f], for the text of an error. *)
Definition first_where (f : string -> bool) (l : list string) : string := default "" (List.find f l).
Definition wildcard_all (p : string) : bool :=
  String.eqb p "*" || String.eqb p "/**" || String.eqb p "/*".

(** A numeric cap on an optional guardrail; the value met is left out of the
    text. *)
Definition check_cap (g : payload) (key : string) (cap : Z) : result string unit :=
  match g !! key with
  | None => Ok tt
  | Some v => match toFloat64 v with
              | None => Err (key +:+ " must be a number")
              | Some q => if Qle_bool q (inject_Z cap) then Ok tt
                          else Err (key +:+ " must be <= " +:+ pretty cap)
              end
  end.

Definition validateGenericHTTP (p : DesiredTargetProfile) : result string unit :=
  match dt_TargetConfig p with
  | None => Err "target_config with guardrails is required"
  | Some tc =>
      match tc !! "guardrails" with
      | None => Err "guardrails block is required in target_config"
      | Some (VMap g) =>
          match g !! "allowed_methods" with
          | None => Err "allowed_methods is required in guardrails"
          | Some methods =>
              match toStringSlice methods with
              | None => Err "allowed_methods must be a string array"
              | Some ms =>
                  if negb (forallb safe_method ms) then 
                    Err ("method '" +:+ ToUpper (first_where (fun m => negb (safe_method m)) ms)
                         +:+ "' is not allowed (only GET, HEAD, OPTIONS)")
                  else match g !! "allowed_paths" with
                  | None => Err "allowed_paths is required in guardrails"
                  | Some paths =>
                      match toStringSlice paths with
                      | None => Err "allowed_paths must be a string array"
                      | Some [] => Err "allowed_paths must not be empty (deny-by-default)"
                      | Some ps =>
                          if existsb wildcard_all ps then 
                            Err ("wildcard-all path '" +:+ first_where wildcard_all ps +:+ "' is not allowed")
                          else check_cap g "timeout_secs" 10 ;;
                               check_cap g "max_response_bytes" 1048576
                      end
                  end
              end
          end
      | Some _ => Err "guardrails must be an object"
      end
  end.

Definition Validate (p : DesiredTargetProfile) : result string unit :=
  let mode := if String.eqb (dt_Mode p) "" then ProfileModeReadOnly else dt_Mode p in
  if String.eqb (dt_TargetID p) "" then Err "target_id is required"
  else if String.eqb (dt_Name p) "" then Err "name is required"
  else if String.eqb (dt_TargetType p) "" then Err "target_type is required"
  else if negb (IsValidTargetType (dt_TargetType p)) then
    Err ("unsupported target_type: " +:+ dt_TargetType p)
  else if negb (IsValidProfileMode mode) then 
    Err ("invalid mode: " +:+ mode +:+ " (must be 'readonly' or 'ops-enabled')")
  else if String.eqb mode ProfileModeOpsEnabled then
    Err "ops-enabled mode is not yet supported (Phase 3)"
  else if String.eqb (dt_Endpoint p) "" && negb (String.eqb (dt_TargetType p) "ollama") then
    Err ("endpoint is required for target type " +:+ dt_TargetType p)
  else if negb (String.eqb (dt_AuthType p) "")
          && match GetTargetAuthSpec (dt_TargetType p) with
             | Some spec => negb (isAuthTypeAllowed spec (dt_AuthType p))
             | None => false
             end then
    Err ("auth_type '" +:+ dt_AuthType p +:+ "' not allowed for target type '" +:+ dt_TargetType p
         +:+ "' (allowed: [" +:+ Join (match GetTargetAuthSpec (dt_TargetType p) with
                                     | Some spec => as_AllowedAuthTypes spec
                                     | None => []
                                     end) " " +:+ "])")
  else if (0 <? dt_PollIntervalSecs p) && (dt_PollIntervalSecs p <? 10) then
    Err ("poll_interval_secs must be >= 10 (got " +:+ pretty (dt_PollIntervalSecs p) +:+ ")")
  else if String.eqb (dt_TargetType p) "generic-http" then
    wrap_err (fun m => "generic-http guardrail violation: " +:+ m) (validateGenericHTTP p)
  else Ok tt.

(** ** TLS policies *)

Definition TLSPolicyModern : string := "modern".
Definition TLSPolicyFOS82Legacy : string := "fos82-legacy".
Definition NormalizeTLSPolicy (policy : string) : string :=
  if String.eqb policy TLSPolicyFOS82Legacy then TLSPolicyFOS82Legacy else TLSPolicyModern.

(** [tls.Config]: version numbers and suite identifiers of [crypto/tls], zero
    and nil for the library's defaults. *)
Record tls_config : Type := {
  tc_MinVersion : Z;
  tc_MaxVersion : Z;
  tc_InsecureSkipVerify : bool;
  tc_CipherSuites : list Z;
}.
Definition VersionTLS12 : Z := 0x0303.

Definition tlsConfigForPolicy (policy : string) (insecure : bool) : result string tls_config :=
  let n := NormalizeTLSPolicy policy in
  if String.eqb n TLSPolicyModern then Ok (Build_tls_config VersionTLS12 0 insecure [])
  else if String.eqb n TLSPolicyFOS82Legacy then
    Ok (Build_tls_config VersionTLS12 VersionTLS12 insecure
          [0xc013; 0xc014; 0xc027; 0x003c; 0x002f; 0x0035])
  else Err ("unknown tls policy: " +:+ policy).

(** The TLS configuration [NewHTTPClient] installs; [None] is a nil argument. *)
Definition client_tls (cfg : option TLSConfig) : tls_config :=
  let policy := match cfg with Some c => NormalizeTLSPolicy (tls_Policy c)
                | None => TLSPolicyModern end in
  let insecure := match cfg with Some c => tls_InsecureSkipVerify c | None => false end in
  match tlsConfigForPolicy policy insecure with
  | Ok c => c
  | Err _ => Build_tls_config VersionTLS12 0 insecure []
  end.

(** The proxy override of [NewHTTPClient]: the URL text it tries to use. *)
Definition client_proxy (proxy : option ProxyConfig) : option string :=
  match proxy with
  | None => None
  | Some p => let u := if String.eqb (px_HTTPSProxy p) "" then px_HTTPProxy p
                       else px_HTTPSProxy p in
              if String.eqb u "" then None else Some u
  end.

Record effectiveTLSConfig : Type := {
  ef_Policy : string;
  ef_ServerName : string;
  ef_MinVersion : Z;
  ef_MaxVersion : Z;
  ef_CipherIDs : list Z;
  ef_TrustRef : string;
  ef_InsecureSkipVerify : bool;
}.
#[global] Instance effectiveTLSConfig_eq_dec : EqDecision effectiveTLSConfig.
Proof. solve_decision. Defined.

Section EffectiveTLS.
(** [tlsServerNameFromEndpoint]: the URL parser of the standard library. *)
Context (server_name : string -> string).

Definition effectiveTLSConfigFromProfile (p : TargetProfile) : effectiveTLSConfig :=
  let policy := NormalizeTLSPolicy (tls_Policy (tp_TLS p)) in
  let c := client_tls (Some (tp_TLS p)) in
  {| ef_Policy := policy;
     ef_ServerName := server_name (tp_Endpoint p);
     ef_MinVersion := tc_MinVersion c;
     ef_MaxVersion := tc_MaxVersion c;
     ef_CipherIDs := merge_sort Z.le (tc_CipherSuites c);
     ef_TrustRef := Join [tls_CACertPath (tp_TLS p); tls_ClientCertPath (tp_TLS p);
                          tls_ClientKeyPath (tp_TLS p)] (String "000" EmptyString);
     ef_InsecureSkipVerify := tc_InsecureSkipVerify c |}.

Definition effectiveTLSConfigsEqual (a b : effectiveTLSConfig) : bool := bool_decide (a = b).
End EffectiveTLS.

(** ** Facts *)

Lemma add_ops_spec ops seen slice op :
  op ∈ fst (add_ops ops seen slice) <-> op ∈ seen \/ op <> "" /\ op ∈ map TrimSpace ops.
Proof.
  revert seen slice. induction ops as [|o ops IH]; intros seen slice; cbn [add_ops map].
  { simpl. set_solver. }
  destruct (String.eqb_spec (TrimSpace o) "") as [He|Hne]; simpl; [rewrite IH, He; set_solver|].
  case_bool_decide; simpl; rewrite IH; set_solver.
Qed.

Lemma brocade_auth_spec :
  GetTargetAuthSpec "brocade" = Some (Build_TargetAuthSpec "brocade"
    ["username_password"; "api_token"] [] ProfileModeReadOnly).
Proof. reflexivity. Qed.

Lemma auth_type_check a :
  negb (String.eqb a "")
  && match GetTargetAuthSpec "brocade" with
     | Some spec => negb (isAuthTypeAllowed spec a)
     | None => false
     end = false <-> a ∈ [""; "username_password"; "api_token"].
Proof.
  rewrite brocade_auth_spec. unfold isAuthTypeAllowed. cbn [as_AllowedAuthTypes existsb].
  rewrite !elem_of_cons, elem_of_nil.
  destruct (String.eqb_spec a ""), (String.eqb_spec a "username_password"),
    (String.eqb_spec a "api_token"); simpl; split; try done; tauto.
Qed.

Lemma mode_check m :
  let mode := if String.eqb m "" then ProfileModeReadOnly else m in
  IsValidProfileMode mode = true /\ String.eqb mode ProfileModeOpsEnabled = false
  <-> m = "" \/ m = "readonly".
Proof.
  unfold IsValidProfileMode. destruct (String.eqb_spec m "") as [->|Hm]; simpl; [tauto|].
  destruct (String.eqb_spec m ProfileModeReadOnly) as [->|]; [simpl; tauto|].
  destruct (String.eqb_spec m ProfileModeOpsEnabled); simpl; naive_solver.
Qed.

Lemma poll_check n : (0 <? n) && (n <? 10) = false <-> n <= 0 \/ 10 <= n.
Proof. destruct (Z.ltb_spec 0 n), (Z.ltb_spec n 10); simpl; split; try done; lia. Qed.

(** ** Properties *)

(** C21: the change-operation policy fails closed.  With the two environment
    variables as given, an operation is allowed exactly when the policy reads
    "all", or it reads "explicit" and the non-empty operation id is one of the
    trimmed entries of the allowlist; any other policy text, the empty one
    included, allows nothing. *)
Theorem change_policy_fail_closed (envPolicy envOps op : string) :
  fst (IsChangeOpAllowed (ParseChangePolicyFromEnv envPolicy envOps) op) = true
  <-> ToLower (TrimSpace envPolicy) = "all"
      \/ ToLower (TrimSpace envPolicy) = "explicit" /\ op <> ""
         /\ op ∈ map TrimSpace (Split envOps ",").
Proof.
  unfold ParseChangePolicyFromEnv.
  assert (Hops : forall P, op <> "" -> op ∈ cp_AllowedOps (let '(ops, slice) :=
      if String.eqb envOps "" then (∅, []) else add_ops (Split envOps ",") ∅ [] in
    Build_ChangePolicyConfig P ops slice) <-> op ∈ map TrimSpace (Split envOps ",")).
  { intros P Hop. pose proof (add_ops_spec (Split envOps ",") ∅ [] op) as Ha.
    destruct (String.eqb_spec envOps "") as [->|]; simpl.
    - split; [set_solver|]. simpl. intros Hin%list_elem_of_singleton. done.
    - destruct (add_ops _ _ _) as [ops slice]. simpl in *. set_solver. }
  set (p := ToLower (TrimSpace envPolicy)).
  destruct (String.eqb_spec p "explicit") as [->|Hne]; [|destruct (String.eqb_spec p "all") as [->|Hna]].
  - specialize (Hops ChangePolicyExplicit).
    destruct (if String.eqb envOps "" then _ else _) as [ops slice]. unfold IsChangeOpAllowed.
    cbn [cp_Policy cp_AllowedOps] in *. destruct (String.eqb_spec op "") as [->|Hop].
    + simpl. split; [done|]. intros [?|(_ & ? & _)]; done.
    + case_bool_decide as Hin; simpl; rewrite Hops in Hin by done; split; try done; naive_solver.
  - destruct (if String.eqb envOps "" then _ else _) as [ops slice]. simpl. naive_solver.
  - destruct (if String.eqb envOps "" then _ else _) as [ops slice]. simpl. naive_solver.
Qed.

(** A profile passes validation exactly when its id and name are present,
    its type is supported by this build, it is read-only, it has an endpoint,
    its authentication method (if given) is registered for the type, and its
    poll interval is unset or at least ten seconds.  In particular no
    operations-enabled and no generic-http profile ever passes. *)
Theorem Validate_spec (p : DesiredTargetProfile) :
  Validate p = Ok tt
  <-> dt_TargetID p <> "" /\ dt_Name p <> "" /\ dt_TargetType p = "brocade"
      /\ (dt_Mode p = "" \/ dt_Mode p = "readonly") /\ dt_Endpoint p <> ""
      /\ dt_AuthType p ∈ [""; "username_password"; "api_token"]
      /\ (dt_PollIntervalSecs p <= 0 \/ 10 <= dt_PollIntervalSecs p).
Proof.
  unfold Validate, IsValidTargetType, SupportedTargetTypes. cbn [existsb].
  rewrite <- (auth_type_check (dt_AuthType p)), <- (mode_check (dt_Mode p)),
    <- (poll_check (dt_PollIntervalSecs p)).
  destruct (String.eqb_spec (dt_TargetID p) ""); [naive_solver|].
  destruct (String.eqb_spec (dt_Name p) ""); [naive_solver|].
  destruct (String.eqb_spec (dt_TargetType p) "") as [->|]; [naive_solver|].
  destruct (String.eqb_spec (dt_TargetType p) "brocade") as [Ht|]; [|naive_solver].
  rewrite Ht. cbn [orb negb].
  change (String.eqb "brocade" "ollama") with false.
  change (String.eqb "brocade" "generic-http") with false. cbn [negb]. rewrite andb_true_r.
  destruct (IsValidProfileMode _); cbn [negb]; [|naive_solver].
  destruct (String.eqb _ ProfileModeOpsEnabled); [naive_solver|].
  destruct (String.eqb_spec (dt_Endpoint p) ""); [naive_solver|].
  destruct (negb (String.eqb (dt_AuthType p) "") && _); [naive_solver|].
  destruct ((0 <? _) && _); naive_solver.
Qed.
