(* ===== verification/TargetSchemas.v ===== *)
(** The target-specific configuration schemas of [src/types.go], and what the
    guardrails of a generic HTTP target become on the way through the wire
    format to the profile validation ([src/validation.go]). *)
From S2P Require Import Prelude GoStrings Types Policy.
From Stdlib Require Import QArith.

Local Open Scope Z_scope.

(** ** The schemas *)

Record ProxmoxTargetConfig : Type := { px_Username : string; px_TokenID : string; px_Node : string }.
Record NutanixTargetConfig : Type := { nx_Username : string; nx_ClusterID : string }.
Record PrometheusTargetConfig : Type := { pm_ScrapeJobFilter : string }.
Record GrafanaTargetConfig : Type := { gf_DashboardTag : string; gf_DashboardUID : string }.
Record NetAppONTAPTargetConfig : Type := { na_Username : string }.
Record PowerMaxTargetConfig : Type := { pw_SymmetrixID : string }.

(** A slice that is nil, or its elements. *)
Record GenericHTTPGuardrails : Type := {
  gr_AllowedMethods : option (list string);
  gr_AllowedPaths : option (list string);
  gr_MaxResponseBytes : Z;
  gr_TimeoutSecs : Z;
  gr_DenyPaths : option (list string);
}.
Record GenericHTTPTargetConfig : Type := {
  gc_Guardrails : GenericHTTPGuardrails;
  gc_Headers : option (gmap string string);
}.

Definition DefaultGenericHTTPGuardrails : GenericHTTPGuardrails :=
  {| gr_AllowedMethods := Some ["GET"; "HEAD"; "OPTIONS"]; gr_AllowedPaths := Some [];
     gr_MaxResponseBytes := 1 * 1024 * 1024; gr_TimeoutSecs := 10; gr_DenyPaths := Some [] |}.

(** ** The wire form *)

(** What [json.Unmarshal] into a map reads back from [json.Marshal]: null for a
    nil slice, an array of strings, a float for an integer; fields without
    [omitempty] are always there. *)
Definition wire_strings (l : option (list string)) : value :=
  match l with None => VNil | Some l => VList (map VString l) end.
Definition wire_int (n : Z) : value := VFloat (inject_Z n).
Definition wire_guardrails (g : GenericHTTPGuardrails) : payload :=
  list_to_map [("allowed_methods", wire_strings (gr_AllowedMethods g));
               ("allowed_paths", wire_strings (gr_AllowedPaths g));
               ("max_response_bytes", wire_int (gr_MaxResponseBytes g));
               ("timeout_secs", wire_int (gr_TimeoutSecs g));
               ("deny_paths", wire_strings (gr_DenyPaths g))].
Definition wire_config (c : GenericHTTPTargetConfig) : payload :=
  let base : payload := {["guardrails" := VMap (wire_guardrails (gc_Guardrails c))]} in
  match gc_Headers c with
  | None => base
  | Some m => if bool_decide (m = ∅) then base else <["headers" := VMap (VString <$> m)]> base
  end.

(** What the validation asks of typed guardrails. *)
Definition guardrails_ok (g : GenericHTTPGuardrails) : bool :=
  match gr_AllowedMethods g, gr_AllowedPaths g with
  | Some ms, Some (p :: ps) =>
      forallb safe_method ms && negb (existsb wildcard_all (p :: ps))
      && (gr_TimeoutSecs g <=? 10) && (gr_MaxResponseBytes g <=? 1048576)
  | _, _ => false
  end.

(** ** Lemmas *)

Lemma all_strings_map l : all_strings (map VString l) = Some l.
Proof. induction l as [|s l IH]; simpl; [done|]. by rewrite IH. Qed.

Lemma check_cap_wire g key n cap : g !! key = Some (wire_int n) ->
  check_cap g key cap = if n <=? cap then Ok tt else Err (key +:+ " must be <= " +:+ pretty cap).
Proof.
  intros E. unfold check_cap. rewrite E. cbn [wire_int toFloat64].
  destruct (Qle_bool _ _) eqn:Eq; destruct (Z.leb_spec n cap) as [H|H]; try done; exfalso.
  - rewrite Qle_bool_iff, <- Zle_Qle in Eq. lia.
  - assert (Qle_bool (inject_Z n) (inject_Z cap) = true) as E2; [|congruence].
    rewrite Qle_bool_iff, <- Zle_Qle. done.
Qed.

Lemma wire_config_guardrails c : wire_config c !! "guardrails" = Some (VMap (wire_guardrails (gc_Guardrails c))).
Proof.
  unfold wire_config. destruct (gc_Headers c) as [m|]; [case_bool_decide|];
    rewrite ?lookup_insert_ne by done; by rewrite lookup_singleton_eq.
Qed.

(** Typed guardrails pass the validation of the wire form exactly if their
    methods are safe, they allow at least one path and no wildcard for all, and
    their timeout and response size are within the hard limits. *)
Lemma validateGenericHTTP_wire p c : dt_TargetConfig p = Some (wire_config c) ->
  validateGenericHTTP p = Ok tt <-> guardrails_ok (gc_Guardrails c) = true.
Proof.
  intros Hp. unfold validateGenericHTTP, guardrails_ok. rewrite Hp, wire_config_guardrails.
  destruct c as [g headers]. cbn [gc_Guardrails]. destruct g as [methods paths size timeout deny].
  cbn [gr_AllowedMethods gr_AllowedPaths gr_TimeoutSecs gr_MaxResponseBytes].
  set (g := wire_guardrails _).
  change (g !! "allowed_methods") with (Some (wire_strings methods)).
  change (g !! "allowed_paths") with (Some (wire_strings paths)).
  destruct methods as [ms|]; [|by destruct paths as [[]|]]. cbn [wire_strings toStringSlice]. rewrite all_strings_map.
  destruct (forallb safe_method ms) eqn:Em; cbn [negb andb]; [|by destruct paths as [[|]|]].
  destruct paths as [ps|]; [|done]. cbn [wire_strings toStringSlice]. rewrite all_strings_map.
  destruct ps as [|q ps]; [done|]. destruct (existsb wildcard_all (q :: ps)); [done|].
  rewrite (check_cap_wire g "timeout_secs" timeout 10 eq_refl).
  rewrite (check_cap_wire g "max_response_bytes" size 1048576 eq_refl).
  destruct (timeout <=? 10), (size <=? 1048576); cbn; split; done.
Qed.

(** The defaults deny everything: a profile that carries them unchanged is
    refused, for want of an allowed path. *)
Lemma default_guardrails_refused p headers :
  dt_TargetConfig p = Some (wire_config (Build_GenericHTTPTargetConfig DefaultGenericHTTPGuardrails headers)) ->
  validateGenericHTTP p = Err "allowed_paths must not be empty (deny-by-default)".
Proof. intros Hp. unfold validateGenericHTTP. by rewrite Hp, wire_config_guardrails. Qed.

(** With one path that is no wildcard for all, they are accepted. *)
Lemma default_guardrails_with_path path : wildcard_all path = false ->
  guardrails_ok (Build_GenericHTTPGuardrails (gr_AllowedMethods DefaultGenericHTTPGuardrails) (Some [path])
    (gr_MaxResponseBytes DefaultGenericHTTPGuardrails) (gr_TimeoutSecs DefaultGenericHTTPGuardrails) (Some [])) = true.
Proof. intros H. unfold guardrails_ok. simpl. by rewrite H. Qed.
