(* ===== verification/Metrics.v ===== *)
(** Metrics registry and sub-collection runner ([src/metrics.go],
    [src/collector.go]): per-target collection statistics, upload counters,
    partial collection results, and the bounded-concurrency runner. *)
From S2P Require Import Prelude Types.

Local Open Scope Z_scope.

(** ** Sub-call metrics *)

Record SubCallMetric : Type := {
  sc_Name : string;
  sc_Duration : Duration;
  sc_Status : string;
  sc_Error : string;
  sc_Bytes : Z;
}.

Record CollectionMetrics : Type := {
  cm_TargetID : string;
  cm_TargetType : string;
  cm_TargetName : string;
  cm_LastDuration : Duration;
  cm_LastPayloadBytes : Z;
  cm_LastStatus : string;
  cm_LastCollectedAt : GoTime;
  cm_SubCalls : list SubCallMetric;
  cm_TotalCycles : Z;
  cm_TotalErrors : Z;
  cm_TotalPartial : Z;
  cm_ConsecutiveErrors : Z;
  cm_AvgDuration : Duration;
  cm_durationSum : Duration;
}.

Record MetricsRegistry : Type := {
  mr_collections : gmap string CollectionMetrics;
  mr_uploadsTotal : Z;
  mr_uploadsSuccess : Z;
  mr_uploadsFailed : Z;
  mr_uploadsDropped : Z;
  mr_uploadBytesTotal : Z;
  mr_queueDepth : Z;
}.

Definition NewMetricsRegistry : MetricsRegistry :=
  Build_MetricsRegistry ∅ 0 0 0 0 0 0.

Definition new_CollectionMetrics (id typ name : string) : CollectionMetrics :=
  Build_CollectionMetrics id typ name 0 0 "" 0 [] 0 0 0 0 0 0.

(** One collection cycle folded into a target's statistics. *)
Definition record_cycle (now : GoTime) (duration : Duration) (payloadBytes : Z)
    (status : string) (subCalls : list SubCallMetric) (cm : CollectionMetrics)
    : CollectionMetrics :=
  let cycles := cm_TotalCycles cm + 1 in
  let is_err := bool_decide (status = "error") in
  let is_partial := bool_decide (status = "partial") in
  let sum := wrap64 (cm_durationSum cm + duration) in
  {| cm_TargetID := cm_TargetID cm;
     cm_TargetType := cm_TargetType cm;
     cm_TargetName := cm_TargetName cm;
     cm_LastDuration := duration;
     cm_LastPayloadBytes := payloadBytes;
     cm_LastStatus := status;
     cm_LastCollectedAt := now;
     cm_SubCalls := subCalls;
     cm_TotalCycles := cycles;
     cm_TotalErrors := if is_err then cm_TotalErrors cm + 1 else cm_TotalErrors cm;
     cm_TotalPartial := if is_partial then cm_TotalPartial cm + 1 else cm_TotalPartial cm;
     cm_ConsecutiveErrors := if is_err then cm_ConsecutiveErrors cm + 1 else 0;
     cm_AvgDuration := Z.quot sum cycles;
     cm_durationSum := sum |}.

Definition set_mr_collections (c : gmap string CollectionMetrics) (m : MetricsRegistry)
    : MetricsRegistry :=
  Build_MetricsRegistry c (mr_uploadsTotal m) (mr_uploadsSuccess m) (mr_uploadsFailed m)
    (mr_uploadsDropped m) (mr_uploadBytesTotal m) (mr_queueDepth m).

Definition RecordCollection (now : GoTime) (targetID targetType targetName : string)
    (duration : Duration) (payloadBytes : Z) (status : string)
    (subCalls : list SubCallMetric) (m : MetricsRegistry) : MetricsRegistry :=
  let cm := default (new_CollectionMetrics targetID targetType targetName)
              (mr_collections m !! targetID) in
  set_mr_collections
    (<[targetID := record_cycle now duration payloadBytes status subCalls cm]>
       (mr_collections m)) m.

(** ** Upload counters *)

Definition RecordUploadSuccess (bytes : Z) (m : MetricsRegistry) : MetricsRegistry :=
  Build_MetricsRegistry (mr_collections m) (mr_uploadsTotal m + 1) (mr_uploadsSuccess m + 1)
    (mr_uploadsFailed m) (mr_uploadsDropped m) (mr_uploadBytesTotal m + bytes) (mr_queueDepth m).

Definition RecordUploadFailure (m : MetricsRegistry) : MetricsRegistry :=
  Build_MetricsRegistry (mr_collections m) (mr_uploadsTotal m + 1) (mr_uploadsSuccess m)
    (mr_uploadsFailed m + 1) (mr_uploadsDropped m) (mr_uploadBytesTotal m) (mr_queueDepth m).

Definition RecordUploadDropped (m : MetricsRegistry) : MetricsRegistry :=
  Build_MetricsRegistry (mr_collections m) (mr_uploadsTotal m) (mr_uploadsSuccess m)
    (mr_uploadsFailed m) (mr_uploadsDropped m + 1) (mr_uploadBytesTotal m) (mr_queueDepth m).

Definition SetQueueDepth (depth : Z) (m : MetricsRegistry) : MetricsRegistry :=
  Build_MetricsRegistry (mr_collections m) (mr_uploadsTotal m) (mr_uploadsSuccess m)
    (mr_uploadsFailed m) (mr_uploadsDropped m) (mr_uploadBytesTotal m) depth.

(** ** Partial collection results *)

(** The data handed to [AddSection] has type [interface{}].  [None] is the nil
    interface; [Some None] is a nil map stored in an interface, which compares
    different from nil; [Some (Some m)] is a map. *)
Abbreviation section_data := (option (option payload)).

Record PartialCollectionResult : Type := {
  pc_Sections : gmap string section_data;
  pc_SubCalls : list SubCallMetric;
  pc_FailedSections : list string;
  pc_TotalSections : Z;
  pc_OKSections : Z;
}.

Definition NewPartialCollectionResult : PartialCollectionResult :=
  Build_PartialCollectionResult ∅ [] [] 0 0.

Definition AddSection (name : string) (data : section_data) (metric : SubCallMetric)
    (p : PartialCollectionResult) : PartialCollectionResult :=
  let total := pc_TotalSections p + 1 in
  let subs := pc_SubCalls p ++ [metric] in
  if bool_decide (sc_Status metric = "ok") && bool_decide (is_Some data) then
    Build_PartialCollectionResult (<[name := data]> (pc_Sections p)) subs
      (pc_FailedSections p) total (pc_OKSections p + 1)
  else
    Build_PartialCollectionResult (pc_Sections p) subs
      (pc_FailedSections p ++ [name]) total (pc_OKSections p).

Definition PartialStatus (p : PartialCollectionResult) : string :=
  if pc_OKSections p =? 0 then "error"
  else if bool_decide (pc_FailedSections p = []) then "ok" else "partial".

Definition DegradedMarker (p : PartialCollectionResult) : option payload :=
  if bool_decide (pc_FailedSections p = []) then None
  else Some (list_to_map [
    ("degraded", VBool true);
    ("failed_sections", VStrings (pc_FailedSections p));
    ("ok_sections", VInt (pc_OKSections p));
    ("total_sections", VInt (pc_TotalSections p));
    ("message", VString (pretty (pc_OKSections p) +:+ "/" +:+ pretty (pc_TotalSections p)
                           +:+ " sections collected successfully"))]).

(** ** Sub-collection tasks *)

(** A task is its name and what its function returns when it runs: a map
    (possibly nil), an error message if it failed, and how long it took. *)
Record SubCollectionTask : Type := {
  tk_Name : string;
  tk_data : option payload;
  tk_err : option string;
  tk_duration : Duration;
}.

Section Runner.
(** Length of the JSON encoding of a map, [None] when it does not encode. *)
Context (json_len : payload -> option Z).

Definition TimeSubCall (t : SubCollectionTask) : option payload * SubCallMetric :=
  (tk_data t,
   {| sc_Name := tk_Name t;
      sc_Duration := tk_duration t;
      sc_Status := match tk_err t with None => "ok" | Some _ => "error" end;
      sc_Error := default "" (tk_err t);
      sc_Bytes := match tk_data t with
                  | Some m => default 0 (json_len m)
                  | None => 0
                  end |}).

(** The loop body of the sequential runner.  The map is passed as an
    [interface{}], so even a nil map arrives as a non-nil interface. *)
Definition add_task (p : PartialCollectionResult) (t : SubCollectionTask)
    : PartialCollectionResult :=
  let '(data, metric) := TimeSubCall t in AddSection (tk_Name t) (Some data) metric p.

Definition RunSequentialCollection (tasks : list SubCollectionTask)
    : PartialCollectionResult :=
  foldl add_task NewPartialCollectionResult tasks.

(** One slot of the results array the concurrent runner's goroutines fill. *)
Record indexedResult : Type := {
  ir_index : nat;
  ir_name : string;
  ir_data : option payload;
  ir_metric : SubCallMetric;
}.

Definition run_goroutine (idx : nat) (t : SubCollectionTask) : indexedResult :=
  let '(data, metric) := TimeSubCall t in
  Build_indexedResult idx (tk_Name t) data metric.

Definition zero_slot : indexedResult :=
  Build_indexedResult 0 "" None (Build_SubCallMetric "" 0 "" "" 0).

(** The goroutines write their slots in the order [sched] in which they
    finish; [wg.Wait()] returns when all have written. *)
Definition fill_slots (tasks : list SubCollectionTask) (sched : list nat)
    (results : list indexedResult) : list indexedResult :=
  foldl (fun rs i => match tasks !! i with
                     | Some t => <[i := run_goroutine i t]> rs
                     | None => rs
                     end) results sched.

Definition RunConcurrentCollection (tasks : list SubCollectionTask) (sched : list nat)
    : PartialCollectionResult :=
  let results := fill_slots tasks sched (replicate (length tasks) zero_slot) in
  foldl (fun p r => AddSection (ir_name r) (Some (ir_data r)) (ir_metric r) p)
    NewPartialCollectionResult results.
End Runner.

(** The concurrency bound chosen for the semaphore. *)
Definition effective_concurrency (maxConcurrency ntasks : Z) : Z :=
  let m := if maxConcurrency <=? 0 then 4 else maxConcurrency in
  if ntasks <? m then ntasks else m.

(** ** Lemmas *)

Section RunnerFacts.
Context (json_len : payload -> option Z).

Lemma fill_slots_length tasks sched rs :
  length (fill_slots json_len tasks sched rs) = length rs.
Proof.
  revert rs. induction sched as [|i sched IH]; intros rs; simpl; [done|].
  rewrite IH. case_match; [apply length_insert|done].
Qed.

(** A slot holds the result of its own task once its goroutine has written. *)
Lemma fill_slots_lookup tasks sched rs i t :
  length rs = length tasks -> tasks !! i = Some t ->
  (i ∈ sched \/ rs !! i = Some (run_goroutine json_len i t)) ->
  fill_slots json_len tasks sched rs !! i = Some (run_goroutine json_len i t).
Proof.
  revert rs. induction sched as [|j sched IH]; intros rs Hlen Ht Hin; simpl.
  - destruct Hin as [Hin|Hin]; [by apply elem_of_nil in Hin|done].
  - assert (Hi : (i < length tasks)%nat) by by eapply lookup_lt_Some.
    destruct (decide (i = j)) as [<-|Hne].
    + rewrite Ht. apply IH; [by rewrite length_insert|done|].
      right. apply list_lookup_insert_eq. lia.
    + apply IH; [case_match; by rewrite ?length_insert|done|].
      rewrite elem_of_cons in Hin. destruct Hin as [[?|?]|Hr]; [done|by left|right].
      case_match; [|done]. by rewrite list_lookup_insert_ne.
Qed.

Lemma fill_slots_all tasks sched :
  (forall i, (i < length tasks)%nat -> i ∈ sched) ->
  fill_slots json_len tasks sched (replicate (length tasks) zero_slot)
  = imap (run_goroutine json_len) tasks.
Proof.
  intros Hall. apply list_eq. intros i. rewrite list_lookup_imap.
  destruct (tasks !! i) as [t|] eqn:Ht; simpl.
  - apply fill_slots_lookup; [by rewrite length_replicate|done|].
    left. apply Hall. by eapply lookup_lt_Some.
  - apply lookup_ge_None. rewrite fill_slots_length, length_replicate.
    by apply lookup_ge_None.
Qed.

Lemma foldl_imap_goroutine tasks n p :
  foldl (fun p r => AddSection (ir_name r) (Some (ir_data r)) (ir_metric r) p) p
    (imap (fun i => run_goroutine json_len (n + i)) tasks)
  = foldl (add_task json_len) p tasks.
Proof.
  revert n p. induction tasks as [|t tasks IH]; intros n p; simpl; [done|].
  rewrite <- (IH (S n)). f_equal.
  apply imap_ext. intros i x _. unfold compose. f_equal. lia.
Qed.
End RunnerFacts.

(** Section bookkeeping of a partial result. *)
Definition partial_ok (p : PartialCollectionResult) : Prop :=
  pc_TotalSections p = pc_OKSections p + Z.of_nat (length (pc_FailedSections p)) /\
  Z.of_nat (length (pc_SubCalls p)) = pc_TotalSections p /\
  0 <= pc_OKSections p.

Lemma NewPartial_ok : partial_ok NewPartialCollectionResult.
Proof. by unfold partial_ok. Qed.

Lemma AddSection_ok name data metric p :
  partial_ok p -> partial_ok (AddSection name data metric p).
Proof.
  unfold partial_ok, AddSection. intros (H1 & H2 & H3).
  case_match; simpl; rewrite ?length_app; simpl; lia.
Qed.

(** ** Folding a history of cycles *)

Record cycle : Type := {
  cy_now : GoTime; cy_duration : Duration; cy_bytes : Z; cy_status : string;
  cy_subs : list SubCallMetric;
}.

Definition record_history (cm : CollectionMetrics) (h : list cycle) : CollectionMetrics :=
  foldl (fun c y => record_cycle (cy_now y) (cy_duration y) (cy_bytes y)
                      (cy_status y) (cy_subs y) c) cm h.

Definition count_status (s : string) (h : list cycle) : Z :=
  Z.of_nat (length (filter (fun y => cy_status y = s) h)).

(** Length of the run of errors at the end of a history. *)
Definition trailing_errors (h : list cycle) : Z :=
  foldl (fun n y => if bool_decide (cy_status y = "error") then n + 1 else 0) 0 h.

Lemma count_status_cons s y h :
  count_status s (y :: h) = (if bool_decide (cy_status y = s) then 1 else 0) + count_status s h.
Proof.
  unfold count_status. rewrite filter_cons. case_decide; case_bool_decide; try done;
    simpl length; lia.
Qed.

Lemma record_history_counts h cm :
  let r := record_history cm h in
  cm_TotalCycles r = cm_TotalCycles cm + Z.of_nat (length h) /\
  cm_TotalErrors r = cm_TotalErrors cm + count_status "error" h /\
  cm_TotalPartial r = cm_TotalPartial cm + count_status "partial" h.
Proof.
  unfold record_history. revert cm. induction h as [|y h IH]; intros cm; simpl.
  - unfold count_status. simpl. lia.
  - destruct (IH (record_cycle (cy_now y) (cy_duration y) (cy_bytes y)
                    (cy_status y) (cy_subs y) cm)) as (H1 & H2 & H3).
    rewrite H1, H2, H3, !count_status_cons. unfold record_cycle; simpl.
    repeat case_bool_decide; lia.
Qed.

Lemma record_history_trailing h cm :
  cm_ConsecutiveErrors (record_history cm h)
  = foldl (fun n y => if bool_decide (cy_status y = "error") then n + 1 else 0)
      (cm_ConsecutiveErrors cm) h.
Proof.
  unfold record_history. revert cm. induction h as [|y h IH]; intros cm; simpl; [done|].
  rewrite IH. unfold record_cycle. simpl. by case_bool_decide.
Qed.

(** ** Properties *)

(** However the goroutines of the concurrent runner interleave (any order
    [sched] in which every task's goroutine finishes), the collected result is
    the one the sequential runner produces: same sections, same sub-call
    metrics in task order, same failed sections and counts. *)
Theorem concurrent_equals_sequential (json_len : payload -> option Z)
    (tasks : list SubCollectionTask) (sched : list nat)
    (Hsched : sched ≡ₚ seq 0 (length tasks)) :
  RunConcurrentCollection json_len tasks sched = RunSequentialCollection json_len tasks.
Proof.
  unfold RunConcurrentCollection, RunSequentialCollection.
  rewrite fill_slots_all.
  - apply (foldl_imap_goroutine json_len tasks 0).
  - intros i Hi. rewrite Hsched. apply elem_of_seq. lia.
Qed.

Lemma concurrent_equals_sequential_witness :
  let t1 := Build_SubCollectionTask "chassis" (Some ∅) None 5 in
  let t2 := Build_SubCollectionTask "media" None (Some "timeout") 9 in
  RunConcurrentCollection (fun _ => Some 2) [t1; t2] [1%nat; 0%nat]
  = RunSequentialCollection (fun _ => Some 2) [t1; t2] /\
  PartialStatus (RunSequentialCollection (fun _ => Some 2) [t1; t2]) = "partial".
Proof.
  split; [|reflexivity].
  apply (concurrent_equals_sequential (fun _ => Some 2)). simpl. apply Permutation_swap.
Defined.

(** The statistics of a target after any history of collection cycles:
    the cycle, error and partial counters count exactly the cycles with that
    status, and [ConsecutiveErrors] is the length of the run of errors at the
    end of the history. *)
Theorem record_history_spec (id typ name : string) (h : list cycle) :
  let r := record_history (new_CollectionMetrics id typ name) h in
  cm_TotalCycles r = Z.of_nat (length h) /\
  cm_TotalErrors r = count_status "error" h /\
  cm_TotalPartial r = count_status "partial" h /\
  cm_ConsecutiveErrors r = trailing_errors h.
Proof.
  simpl. destruct (record_history_counts h (new_CollectionMetrics id typ name))
    as (H1 & H2 & H3). simpl in *.
  rewrite H1, H2, H3, record_history_trailing. repeat split; lia.
Qed.
