(* ===== verification/Readiness.v ===== *)
(** Brocade readiness published in the heartbeat manifest
    ([src/brocade_rest_readiness.go], [src/brocade_ssh_readiness_merge.go]):
    the registry of REST observations with its time to live, and the merge with
    the persisted SSH readiness. *)
From S2P Require Import Prelude GoStrings GoTime Types.

Local Open Scope Z_scope.

(** ** Data *)

(** The fields of [PerTargetReadiness], grouped by owner. *)
Record RESTFields : Type := {
  rf_RESTReady : bool;
  rf_RESTReason : string;
  rf_RESTSecurityState : string;
  rf_TLSPolicy : string;
  rf_LastRESTErrorCode : string;
  rf_LastRESTErrorAt : string;
}.
Record SSHFields : Type := {
  sf_SSHReady : bool;
  sf_SSHReason : string;
  sf_SSHProbeStage : string;
  sf_SSHKeyAlgorithm : string;
  sf_SSHKeyBits : Z;
  sf_SSHKeyOrigin : string;
  sf_SSHKeyFingerprintSHA256 : string;
  sf_SSHUsername : string;
  sf_SwitchHostKeyFingerprint : string;
  sf_LastProbeAt : string;
  sf_LastSuccessfulProbeAt : string;
}.
Record PerTargetReadiness : Type := {
  ptr_rest : RESTFields;
  ptr_ssh : SSHFields;
}.

Definition zeroREST : RESTFields := Build_RESTFields false "" "" "" "" "".
Definition zeroSSH : SSHFields := Build_SSHFields false "" "" "" 0 "" "" "" "" "" "".

Record brocadeRESTObservation : Type := {
  ob_Readiness : RESTFields;
  ob_LastOKAt : GoTime;
}.
Definition zeroObservation : brocadeRESTObservation := Build_brocadeRESTObservation zeroREST 0.

(** [BrocadeRESTReadinessRegistry]: its observations by target. *)
Abbreviation Registry := (gmap string brocadeRESTObservation).

Definition brocadeRESTReadinessTTL : Duration := 5 * Minute.
Definition sshFreshnessTTL : Duration := 10 * Minute.

(** ** The registry *)

Definition RecordSuccess (now : GoTime) (id securityState tlsPolicy : string) (r : Registry)
    : Registry :=
  if String.eqb id "" then r
  else <[id := {| ob_Readiness := Build_RESTFields true "" securityState tlsPolicy "" "";
                  ob_LastOKAt := now |}]> r.

Definition RecordFailure (now : GoTime) (id code reason : string) (r : Registry) : Registry :=
  if String.eqb id "" then r
  else
    let prev := default zeroObservation (r !! id) in
    <[id := {| ob_Readiness :=
                 Build_RESTFields false reason (rf_RESTSecurityState (ob_Readiness prev))
                   (rf_TLSPolicy (ob_Readiness prev)) code (FormatRFC3339 now);
               ob_LastOKAt := ob_LastOKAt prev |}]> r.

Definition Delete (id : string) (r : Registry) : Registry :=
  if String.eqb id "" then r else delete id r.

Definition or_stale (s : string) : string :=
  if String.eqb s "" then "rest_readiness_stale" else s.

(** One entry of the snapshot: a success past its time to live flips. *)
Definition expire (now : GoTime) (obs : brocadeRESTObservation) : RESTFields :=
  let rd := ob_Readiness obs in
  if rf_RESTReady rd
     && (IsZero (ob_LastOKAt obs) || (brocadeRESTReadinessTTL <? Sub now (ob_LastOKAt obs)))
  then Build_RESTFields false (or_stale (rf_RESTReason rd)) (rf_RESTSecurityState rd)
         (rf_TLSPolicy rd) (or_stale (rf_LastRESTErrorCode rd)) (rf_LastRESTErrorAt rd)
  else rd.

(** [nil] for an empty registry is the empty map here. *)
Definition Snapshot (now : GoTime) (r : Registry) : gmap string PerTargetReadiness :=
  (fun obs => Build_PerTargetReadiness (expire now obs) zeroSSH) <$> r.

Definition brocadeRESTSecurityState (baseURL : string) (insecureSkipVerify : bool) : string :=
  if HasPrefix baseURL "http://" then "lab_http_cleartext"
  else if insecureSkipVerify then "lab_tls_unverified"
  else "production_verified".

(** ** The merge *)

Definition parseRFC3339 (s : string) : option GoTime :=
  if String.eqb s "" then None else ParseRFC3339 s.

(** Freshness of the SSH side, recomputed when it is published. *)
Definition ssh_publish (now : GoTime) (s : SSHFields) : SSHFields :=
  if sf_SSHReady s && String.eqb (sf_SSHProbeStage s) "command_succeeded" then
    let stale := match parseRFC3339 (sf_LastSuccessfulProbeAt s) with
                 | None => true
                 | Some lastOK => sshFreshnessTTL <? Sub now lastOK
                 end in
    if stale then
      Build_SSHFields false
        (if String.eqb (sf_SSHReason s) "" then "probe_stale" else sf_SSHReason s)
        (sf_SSHProbeStage s) (sf_SSHKeyAlgorithm s) (sf_SSHKeyBits s) (sf_SSHKeyOrigin s)
        (sf_SSHKeyFingerprintSHA256 s) (sf_SSHUsername s) (sf_SwitchHostKeyFingerprint s)
        (sf_LastProbeAt s) (sf_LastSuccessfulProbeAt s)
    else s
  else s.

(** The loop over the SSH snapshot, on top of the REST entries. *)
Definition merge_ssh (now : GoTime) (id : string) (s : SSHFields)
    (out : gmap string PerTargetReadiness) : gmap string PerTargetReadiness :=
  let p := default (Build_PerTargetReadiness zeroREST zeroSSH) (out !! id) in
  <[id := Build_PerTargetReadiness (ptr_rest p) (ssh_publish now s)]> out.

Definition mergeBrocadePerTargetReadiness (restSnapshot : gmap string PerTargetReadiness)
    (sshSnapshot : gmap string SSHFields) (now : GoTime) : gmap string PerTargetReadiness :=
  map_fold (merge_ssh now) restSnapshot sshSnapshot.

(** ** Facts *)

Lemma merge_lookup rest ssh now id :
  mergeBrocadePerTargetReadiness rest ssh now !! id
  = match ssh !! id with
    | None => rest !! id
    | Some s => Some (Build_PerTargetReadiness
                  (default zeroREST (ptr_rest <$> (rest !! id))) (ssh_publish now s))
    end.
Proof.
  unfold mergeBrocadePerTargetReadiness.
  apply (map_fold_weak_ind (fun out (m : gmap string SSHFields) => out !! id
    = match m !! id with
      | None => rest !! id
      | Some s => Some (Build_PerTargetReadiness
                    (default zeroREST (ptr_rest <$> (rest !! id))) (ssh_publish now s))
      end)).
  - by rewrite lookup_empty.
  - intros k s m out Hk IH. unfold merge_ssh.
    destruct (decide (id = k)) as [->|Hne].
    + rewrite !lookup_insert_eq. rewrite Hk in IH. rewrite IH. by destruct (rest !! k).
    + by rewrite !lookup_insert_ne by done.
Qed.

(** Operations on the registry as a history. *)
Inductive reg_op : Type :=
| OpSuccess (now : GoTime) (id sec pol : string)
| OpFailure (now : GoTime) (id code reason : string)
| OpDelete (id : string).
Definition reg_apply (r : Registry) (o : reg_op) : Registry :=
  match o with
  | OpSuccess now id sec pol => RecordSuccess now id sec pol r
  | OpFailure now id code reason => RecordFailure now id code reason r
  | OpDelete id => Delete id r
  end.
Definition op_target (o : reg_op) : string :=
  match o with OpSuccess _ id _ _ => id | OpFailure _ id _ _ => id | OpDelete id => id end.

(** The last operation of a history on a target. *)
Definition last_op (id : string) (h : list reg_op) : option reg_op :=
  last (filter (fun o => op_target o = id) h).

Lemma reg_apply_other r o id : op_target o <> id -> reg_apply r o !! id = r !! id.
Proof.
  destruct o as [now k s p|now k c re|k]; simpl; intros Hne;
    unfold RecordSuccess, RecordFailure, Delete; destruct (String.eqb k ""); try done.
  - by rewrite lookup_insert_ne.
  - by rewrite lookup_insert_ne.
  - by rewrite lookup_delete_ne.
Qed.

Lemma registry_no_empty_id h : foldl reg_apply ∅ h !! "" = None.
Proof.
  induction h as [|o h IH] using rev_ind; [apply lookup_empty|]. rewrite foldl_snoc.
  destruct (decide (op_target o = "")) as [Ht|Hne]; [|by rewrite reg_apply_other].
  by destruct o; simpl in Ht |- *; subst;
    unfold RecordSuccess, RecordFailure, Delete; rewrite String.eqb_refl.
Qed.

(** A ready observation of the registry comes from a success that was the last
    operation on its target. *)
Lemma ready_last_success h id obs :
  foldl reg_apply ∅ h !! id = Some obs -> rf_RESTReady (ob_Readiness obs) = true ->
  exists sec pol, last_op id h = Some (OpSuccess (ob_LastOKAt obs) id sec pol).
Proof.
  induction h as [|o h IH] using rev_ind; intros Hl Hr; [simpl in Hl; by rewrite lookup_empty in Hl|].
  assert (Hid : id <> "") by (intros ->; by rewrite registry_no_empty_id in Hl).
  rewrite foldl_snoc in Hl. unfold last_op in *. rewrite filter_app, filter_cons, filter_nil.
  destruct (decide (op_target o = id)) as [Ht|Hne].
  - rewrite last_snoc. destruct o as [now k s p|now k c re|k]; simpl in *; subst k;
      unfold RecordSuccess, RecordFailure, Delete in Hl;
      rewrite (proj2 (String.eqb_neq _ _) Hid) in Hl.
    + rewrite lookup_insert_eq in Hl. simplify_eq/=. by eexists _, _.
    + rewrite lookup_insert_eq in Hl. by simplify_eq/=.
    + by rewrite lookup_delete_eq in Hl.
  - rewrite app_nil_r. apply IH; [|done]. by rewrite reg_apply_other in Hl.
Qed.

Lemma expire_ready now obs :
  rf_RESTReady (expire now obs) = true ->
  rf_RESTReady (ob_Readiness obs) = true /\ ob_LastOKAt obs <> 0
  /\ Sub now (ob_LastOKAt obs) <= brocadeRESTReadinessTTL.
Proof.
  unfold expire, IsZero. destruct (rf_RESTReady (ob_Readiness obs)) eqn:E; simpl; [|by rewrite E].
  destruct (Z.eqb_spec (ob_LastOKAt obs) 0); simpl; [done|].
  destruct (Z.ltb_spec brocadeRESTReadinessTTL (Sub now (ob_LastOKAt obs))); simpl; [done|].
  intros _. by split_and!.
Qed.

(** ** Properties *)

(** C39: whatever was recorded before, a target is published as REST-ready only
    if the last thing recorded for it was a successful probe no older than the
    five-minute time to live; deletion, a later failure or mere heartbeats
    never leave or renew it. *)
Theorem rest_ready_is_fresh (h : list reg_op) (now : GoTime) (id : string)
    (p : PerTargetReadiness)
    (Hp : Snapshot now (foldl reg_apply ∅ h) !! id = Some p)
    (Hready : rf_RESTReady (ptr_rest p) = true) :
  exists t sec pol, last_op id h = Some (OpSuccess t id sec pol)
    /\ Sub now t <= brocadeRESTReadinessTTL.
Proof.
  unfold Snapshot in Hp. rewrite lookup_fmap in Hp.
  destruct (foldl reg_apply ∅ h !! id) as [obs|] eqn:E; [|done]. simplify_eq/=.
  apply expire_ready in Hready as (Hr & _ & Hage).
  destruct (ready_last_success h id obs E Hr) as (sec & pol & Hlast). by exists (ob_LastOKAt obs), sec, pol.
Qed.

Lemma rest_ready_is_fresh_witness :
  let h := [OpFailure 5 "t" "rest_auth_failed" "x"; OpSuccess (3 * Minute) "t" "production_verified" "modern"] in
  exists t sec pol, last_op "t" h = Some (OpSuccess t "t" sec pol)
    /\ Sub (7 * Minute) t <= brocadeRESTReadinessTTL.
Proof.
  intros h. eapply (rest_ready_is_fresh h (7 * Minute) "t"); vm_compute; reflexivity.
Defined.

(** Field ownership of the merge.  A target's REST fields are those of
    the REST snapshot and its SSH fields those of the SSH snapshot, never
    invented from the other side; a target in neither is absent; SSH readiness
    is never gained, its history fields are kept, and a completed probe is
    published as ready only within the freshness window. *)
Theorem merge_ownership (rest : gmap string PerTargetReadiness) (ssh : gmap string SSHFields)
    (now : GoTime) (id : string)
    (Hrest : forall i p, rest !! i = Some p -> ptr_ssh p = zeroSSH) :
  match mergeBrocadePerTargetReadiness rest ssh now !! id with
  | None => rest !! id = None /\ ssh !! id = None
  | Some p =>
      ptr_rest p = default zeroREST (ptr_rest <$> (rest !! id))
      /\ match ssh !! id with
         | None => ptr_ssh p = zeroSSH
         | Some s =>
             sf_LastSuccessfulProbeAt (ptr_ssh p) = sf_LastSuccessfulProbeAt s
             /\ sf_LastProbeAt (ptr_ssh p) = sf_LastProbeAt s
             /\ sf_SSHProbeStage (ptr_ssh p) = sf_SSHProbeStage s
             /\ (sf_SSHReady (ptr_ssh p) = true ->
                 sf_SSHReady s = true
                 /\ (sf_SSHProbeStage s = "command_succeeded" ->
                     exists t, parseRFC3339 (sf_LastSuccessfulProbeAt s) = Some t
                       /\ Sub now t <= sshFreshnessTTL))
         end
  end.
Proof.
  rewrite merge_lookup. destruct (ssh !! id) as [s|] eqn:Es; simpl.
  - split; [done|]. unfold ssh_publish.
    destruct (sf_SSHReady s) eqn:Er; simpl; [|by rewrite Er].
    destruct (String.eqb_spec (sf_SSHProbeStage s) "command_succeeded"); simpl; [|by split_and!].
    destruct (parseRFC3339 _) as [t|]; simpl; [|by split_and!].
    destruct (Z.ltb_spec sshFreshnessTTL (Sub now t)); simpl; split_and!; try done.
    intros _. split; [done|]. intros _. by exists t.
  - destruct (rest !! id) as [p|] eqn:Er; [|done]. simpl. split; [done|]. by eapply Hrest.
Qed.

Lemma merge_ownership_witness :
  let rest := {["a" := Build_PerTargetReadiness (Build_RESTFields true "" "s" "p" "" "") zeroSSH]}
    : gmap string PerTargetReadiness in
  let ssh := {["b" := Build_SSHFields true "" "command_succeeded" "" 0 "" "" "" "" ""
                        "2024-02-29T23:59:58Z"]} : gmap string SSHFields in
  exists p, mergeBrocadePerTargetReadiness rest ssh (UnixEpoch + 1709251918 * Second) !! "b" = Some p
    /\ ptr_rest p = zeroREST /\ sf_SSHReady (ptr_ssh p) = false.
Proof.
  intros rest ssh.
  pose proof (merge_ownership rest ssh (UnixEpoch + 1709251918 * Second) "b") as H.
  eexists. split; [vm_compute; reflexivity|]. split; [|reflexivity].
  refine (proj1 (H _)). intros i p Hi.
  apply lookup_singleton_Some in Hi as [_ <-]. reflexivity.
Defined.
