(* ===== verification/UploadQueue.v ===== *)
(** Snapshot upload queue ([src/upload_queue.go]): a bounded in-memory queue
    with priority-based eviction, priority dequeue, retry backoff, and the
    backend-online tracking that drives replay after an outage. *)
From S2P Require Import Prelude Types Metrics.

Local Open Scope Z_scope.

(** ** Data *)

(** [UploadPriority] is an [int]; a smaller number is more urgent. *)
Abbreviation UploadPriority := Z (only parsing).
Definition PriorityHigh : UploadPriority := 0.
Definition PriorityMedium : UploadPriority := 1.
Definition PriorityLow : UploadPriority := 2.

(** The queue holds pointers to snapshots; [qs_ptr] is the identity of the
    allocation, which the retry path keeps when it increments [Retries]. *)
Record QueuedSnapshot : Type := {
  qs_ptr : positive;
  qs_Token : string;
  qs_Payload : payload;
  qs_Priority : UploadPriority;
  qs_TargetID : string;
  qs_TargetType : string;
  qs_EnqueuedAt : GoTime;
  qs_Retries : Z;
  qs_SizeBytes : Z;
}.

Definition incr_Retries (s : QueuedSnapshot) : QueuedSnapshot :=
  {| qs_ptr := qs_ptr s; qs_Token := qs_Token s; qs_Payload := qs_Payload s;
     qs_Priority := qs_Priority s; qs_TargetID := qs_TargetID s;
     qs_TargetType := qs_TargetType s; qs_EnqueuedAt := qs_EnqueuedAt s;
     qs_Retries := qs_Retries s + 1; qs_SizeBytes := qs_SizeBytes s |}.

(** [notifyCh] has capacity one: [uq_notify] says whether it holds a token.
    [uq_onReconnect] says whether a callback is installed and [uq_hasLocalDB]
    whether hybrid mode gave the queue a local database. *)
Record UploadQueue : Type := {
  uq_items : list QueuedSnapshot;
  uq_maxSize : Z;
  uq_maxRetries : Z;
  uq_hasLocalDB : bool;
  uq_notify : bool;
  uq_workerCount : Z;
  uq_retryBackoff : Duration;
  uq_maxBackoff : Duration;
  uq_backendOnline : bool;
  uq_offlineSince : GoTime;
  uq_onReconnect : bool;
  uq_connectorToken : string;
}.

Record UploadQueueConfig : Type := {
  cfg_MaxSize : Z;
  cfg_MaxRetries : Z;
  cfg_WorkerCount : Z;
  cfg_RetryBackoff : Duration;
  cfg_MaxBackoff : Duration;
  cfg_LocalDB : bool;
}.

Definition DefaultUploadQueueConfig : UploadQueueConfig := {|
  cfg_MaxSize := 100;
  cfg_MaxRetries := 3;
  cfg_WorkerCount := 2;
  cfg_RetryBackoff := 5 * Second;
  cfg_MaxBackoff := 60 * Second;
  cfg_LocalDB := false;
|}.

Definition or_default (z d : Z) : Z := if z <=? 0 then d else z.

Definition NewUploadQueue (cfg : UploadQueueConfig) : UploadQueue := {|
  uq_items := [];
  uq_maxSize := or_default (cfg_MaxSize cfg) 100;
  uq_maxRetries := or_default (cfg_MaxRetries cfg) 3;
  uq_hasLocalDB := cfg_LocalDB cfg;
  uq_notify := false;
  uq_workerCount := or_default (cfg_WorkerCount cfg) 2;
  uq_retryBackoff := or_default (cfg_RetryBackoff cfg) (5 * Second);
  uq_maxBackoff := or_default (cfg_MaxBackoff cfg) (60 * Second);
  uq_backendOnline := false;
  uq_offlineSince := 0;
  uq_onReconnect := false;
  uq_connectorToken := "";
|}.

Definition set_uq_items (l : list QueuedSnapshot) (q : UploadQueue) : UploadQueue :=
  Build_UploadQueue l (uq_maxSize q) (uq_maxRetries q) (uq_hasLocalDB q) (uq_notify q)
    (uq_workerCount q) (uq_retryBackoff q) (uq_maxBackoff q) (uq_backendOnline q)
    (uq_offlineSince q) (uq_onReconnect q) (uq_connectorToken q).
Definition set_uq_notify (b : bool) (q : UploadQueue) : UploadQueue :=
  Build_UploadQueue (uq_items q) (uq_maxSize q) (uq_maxRetries q) (uq_hasLocalDB q) b
    (uq_workerCount q) (uq_retryBackoff q) (uq_maxBackoff q) (uq_backendOnline q)
    (uq_offlineSince q) (uq_onReconnect q) (uq_connectorToken q).
Definition set_uq_online (on : bool) (since : GoTime) (q : UploadQueue) : UploadQueue :=
  Build_UploadQueue (uq_items q) (uq_maxSize q) (uq_maxRetries q) (uq_hasLocalDB q)
    (uq_notify q) (uq_workerCount q) (uq_retryBackoff q) (uq_maxBackoff q) on
    since (uq_onReconnect q) (uq_connectorToken q).
Definition set_uq_onReconnect (b : bool) (q : UploadQueue) : UploadQueue :=
  Build_UploadQueue (uq_items q) (uq_maxSize q) (uq_maxRetries q) (uq_hasLocalDB q)
    (uq_notify q) (uq_workerCount q) (uq_retryBackoff q) (uq_maxBackoff q)
    (uq_backendOnline q) (uq_offlineSince q) b (uq_connectorToken q).

(** ** Eviction *)

(** The scan of [evictLowestPriority]: [lowest] is [None] for index -1, else
    the index and the item it points at. *)
Fixpoint evict_scan (items : list QueuedSnapshot) (i : nat)
    (lowest : option (nat * QueuedSnapshot)) (lowestPri : UploadPriority)
    : option (nat * QueuedSnapshot) :=
  match items with
  | [] => lowest
  | item :: rest =>
      if lowestPri <? qs_Priority item then
        evict_scan rest (S i) (Some (i, item)) (qs_Priority item)
      else
        match lowest with
        | Some (_, cur) =>
            if (qs_Priority item =? lowestPri)
               && Before (qs_EnqueuedAt item) (qs_EnqueuedAt cur)
            then evict_scan rest (S i) (Some (i, item)) lowestPri
            else evict_scan rest (S i) lowest lowestPri
        | None => evict_scan rest (S i) lowest lowestPri
        end
  end.

(** [Some (evicted, q')] when an item was evicted, [None] for [return false]. *)
Definition evictLowestPriority (incomingPriority : UploadPriority) (q : UploadQueue)
    : option (QueuedSnapshot * UploadQueue) :=
  match evict_scan (uq_items q) 0 None incomingPriority with
  | None => None
  | Some (idx, item) => Some (item, set_uq_items (delete idx (uq_items q)) q)
  end.

(** ** Enqueue *)

(** What [Enqueue] did with the snapshot it was given. *)
Inductive enqueue_outcome : Type :=
| Rejected                                    (* dropped, returns false *)
| Accepted (evicted : option QueuedSnapshot). (* returns true *)

Section Enqueue.
(** Length of the JSON encoding of a payload ([0] when it does not encode). *)
Context (json_len : payload -> Z).

Definition new_snapshot (ptr : positive) (token : string) (p : payload)
    (priority : UploadPriority) (now : GoTime) : QueuedSnapshot :=
  {| qs_ptr := ptr; qs_Token := token; qs_Payload := p; qs_Priority := priority;
     qs_TargetID := get_string_or_empty p "targetId";
     qs_TargetType := get_string_or_empty p "targetType";
     qs_EnqueuedAt := now; qs_Retries := 0; qs_SizeBytes := json_len p |}.

Definition Enqueue (ptr : positive) (token : string) (p : payload)
    (priority : UploadPriority) (now : GoTime) (q : UploadQueue) (m : MetricsRegistry)
    : enqueue_outcome * UploadQueue * MetricsRegistry :=
  let item := new_snapshot ptr token p priority now in
  let append_item ev q m :=
    let items := uq_items q ++ [item] in
    (Accepted ev, set_uq_notify true (set_uq_items items q),
     SetQueueDepth (Z.of_nat (length items)) m) in
  if uq_maxSize q <=? Z.of_nat (length (uq_items q)) then
    match evictLowestPriority priority q with
    | None => (Rejected, q, RecordUploadDropped m)
    | Some (evicted, q') => append_item (Some evicted) q' (RecordUploadDropped m)
    end
  else append_item None q m.
End Enqueue.

(** ** Dequeue *)

(** The scan of [dequeue]: the best index so far and its item. *)
Fixpoint best_scan (items : list QueuedSnapshot) (i bestIdx : nat) (best : QueuedSnapshot)
    : nat * QueuedSnapshot :=
  match items with
  | [] => (bestIdx, best)
  | item :: rest =>
      if qs_Priority item <? qs_Priority best then best_scan rest (S i) i item
      else if (qs_Priority item =? qs_Priority best)
              && Before (qs_EnqueuedAt item) (qs_EnqueuedAt best)
      then best_scan rest (S i) i item
      else best_scan rest (S i) bestIdx best
  end.

Definition dequeue (q : UploadQueue) (m : MetricsRegistry)
    : option (QueuedSnapshot * UploadQueue * MetricsRegistry) :=
  match uq_items q with
  | [] => None
  | first :: rest =>
      let '(bestIdx, item) := best_scan rest 1 0 first in
      let items := delete bestIdx (uq_items q) in
      Some (item, set_uq_items items q, SetQueueDepth (Z.of_nat (length items)) m)
  end.

Definition Depth (q : UploadQueue) : Z := Z.of_nat (length (uq_items q)).

(** ** Retry backoff *)

(** [backoff *= 2] repeated [n] times, at the width of a [Duration]. *)
Fixpoint double_n (n : nat) (b : Duration) : Duration :=
  match n with O => b | S n' => double_n n' (wrap64 (b * 2)) end.

Definition calculateRetryBackoff (q : UploadQueue) (retries : Z) : Duration :=
  let backoff := double_n (Z.to_nat (retries - 1)) (uq_retryBackoff q) in
  if uq_maxBackoff q <? backoff then uq_maxBackoff q else backoff.

(** ** Backend reachability *)

Definition SetOnReconnect (q : UploadQueue) : UploadQueue := set_uq_onReconnect true q.

(** The boolean says whether the reconnect callback is started. *)
Definition markOnline (q : UploadQueue) : bool * UploadQueue :=
  let wasOffline := negb (uq_backendOnline q) in
  (wasOffline && uq_onReconnect q, set_uq_online true 0 q).

Definition markOffline (now : GoTime) (q : UploadQueue) : UploadQueue :=
  set_uq_online false (if uq_backendOnline q then now else uq_offlineSince q) q.

Definition IsBackendOnline (q : UploadQueue) : bool := uq_backendOnline q.

(** ** Priority classification *)

Section Classify.
Context (json_len : payload -> option Z).

Definition ClassifySnapshotPriority (p : payload) : UploadPriority :=
  if bool_decide (get_string_or_empty p "type" = "heartbeat") then PriorityHigh
  else if match p !! "alerts" with
          | Some (VMaps (_ :: _)) => true
          | Some (VList (_ :: _)) => true
          | _ => false
          end then PriorityHigh
  else if match get_map p "snapshotData" with
          | Some sd => bool_decide (is_Some (sd !! "_collection_status"))
          | None => false
          end then PriorityHigh
  else match json_len p with
       | Some n => if 500 * 1024 <? n then PriorityLow else PriorityMedium
       | None => PriorityMedium
       end.
End Classify.

(** ** The probe loop *)

Definition probeInitialBackoff : Duration := 30 * Second.
Definition maxProbeBackoff : Duration := 5 * Minute.
Definition transportResetThreshold : Duration := 2 * Minute.

Definition probe_backoff_next (backoff : Duration) : Duration :=
  if backoff <? maxProbeBackoff then
    let b := wrap64 (backoff * 2) in if maxProbeBackoff <? b then maxProbeBackoff else b
  else backoff.

(** What one turn of the loop body of [probeLoop] does: whether the transport
    was replaced, whether the reconnect callback was started, and how long the
    loop sleeps before its next turn.  [probe_ok] is whether
    [backend.Probe] returned nil, asked only while offline. *)
Record probe_turn : Type := {
  pt_reset : bool;
  pt_fired : bool;
  pt_sleep : Duration;
  pt_backoff : Duration;
  pt_queue : UploadQueue;
}.

Definition probeLoop_turn (now : GoTime) (probe_ok : bool) (backoff : Duration)
    (q : UploadQueue) : probe_turn :=
  if uq_backendOnline q then
    {| pt_reset := false; pt_fired := false; pt_sleep := 15 * Second;
       pt_backoff := probeInitialBackoff; pt_queue := q |}
  else
    let since := uq_offlineSince q in
    let reset := negb (IsZero since) && (transportResetThreshold <? Since now since) in
    if probe_ok then
      let '(fired, q') := markOnline q in
      {| pt_reset := reset; pt_fired := fired; pt_sleep := probeInitialBackoff;
         pt_backoff := probeInitialBackoff; pt_queue := q' |}
    else
      let b := probe_backoff_next backoff in
      {| pt_reset := reset; pt_fired := false; pt_sleep := b; pt_backoff := b;
         pt_queue := q |}.

(** ** Order of urgency *)

(** [a] leaves the queue no later than [b]: lower priority number, and among
    equal priorities no later arrival. *)
Definition key_le (a b : QueuedSnapshot) : Prop :=
  qs_Priority a < qs_Priority b
  \/ qs_Priority a = qs_Priority b /\ qs_EnqueuedAt a <= qs_EnqueuedAt b.

#[global] Instance key_le_dec : RelDecision key_le.
Proof. intros a b. unfold key_le. apply _. Defined.

#[global] Instance key_le_preorder : PreOrder key_le.
Proof. split; unfold Reflexive, Transitive, key_le; lia. Qed.

Lemma key_le_total a b : key_le a b \/ key_le b a.
Proof. unfold key_le. lia. Qed.

(** [v] is the right item to sacrifice: least urgent class first, and within
    that class the one that has waited longest. *)
Definition evict_first (v x : QueuedSnapshot) : Prop :=
  qs_Priority x < qs_Priority v
  \/ qs_Priority x = qs_Priority v /\ qs_EnqueuedAt v <= qs_EnqueuedAt x.

#[global] Instance evict_first_preorder : PreOrder evict_first.
Proof. split; unfold Reflexive, Transitive, evict_first; lia. Qed.

(** Once a candidate [cur] is held, the scan keeps the best victim. *)
Lemma evict_scan_some items i k cur :
  exists idx it, evict_scan items i (Some (k, cur)) (qs_Priority cur) = Some (idx, it)
    /\ ((idx, it) = (k, cur) \/ exists j, idx = (i + j)%nat /\ items !! j = Some it)
    /\ evict_first it cur /\ Forall (evict_first it) items.
Proof.
  revert i k cur. induction items as [|x items IH]; intros i k cur; simpl.
  { exists k, cur. split_and!; [done|by left|done|done]. }
  assert (Hkeep : evict_first cur x ->
    exists idx it, evict_scan items (S i) (Some (k, cur)) (qs_Priority cur) = Some (idx, it)
      /\ ((idx, it) = (k, cur) \/ exists j, idx = (i + j)%nat /\ (x :: items) !! j = Some it)
      /\ evict_first it cur /\ Forall (evict_first it) (x :: items)).
  { intros Hx. destruct (IH (S i) k cur) as (idx & it & -> & Hw & Hc & Hall).
    exists idx, it. split_and!; [done| |done|constructor; [by etrans|done]].
    destruct Hw as [?|(j & -> & Hj)]; [by left|right; exists (S j); split; [lia|done]]. }
  assert (Htake : evict_first x cur ->
    exists idx it, evict_scan items (S i) (Some (i, x)) (qs_Priority x) = Some (idx, it)
      /\ ((idx, it) = (k, cur) \/ exists j, idx = (i + j)%nat /\ (x :: items) !! j = Some it)
      /\ evict_first it cur /\ Forall (evict_first it) (x :: items)).
  { intros Hx. destruct (IH (S i) i x) as (idx & it & -> & Hw & Hc & Hall).
    exists idx, it. split_and!; [done| |by etrans|by constructor].
    right. destruct Hw as [[= -> ->]|(j & -> & Hj)];
      [exists 0%nat|exists (S j)]; (split; [lia|done]). }
  unfold Before, evict_first in Hkeep, Htake.
  destruct (Z.ltb_spec (qs_Priority cur) (qs_Priority x)); [apply Htake; lia|].
  destruct (Z.eqb_spec (qs_Priority x) (qs_Priority cur)) as [Heq|]; simpl; [|apply Hkeep; lia].
  unfold Before. destruct (Z.ltb_spec (qs_EnqueuedAt x) (qs_EnqueuedAt cur)).
  - rewrite <- Heq. apply Htake; lia.
  - apply Hkeep; lia.
Qed.

Lemma evict_scan_none items i pri :
  match evict_scan items i None pri with
  | None => Forall (fun x => qs_Priority x <= pri) items
  | Some (idx, it) => exists j, idx = (i + j)%nat /\ items !! j = Some it
      /\ pri < qs_Priority it /\ Forall (evict_first it) items
  end.
Proof.
  revert i. induction items as [|x items IH]; intros i; simpl; [done|].
  destruct (Z.ltb_spec pri (qs_Priority x)) as [Hlt|Hge].
  - destruct (evict_scan_some items (S i) i x) as (idx & it & -> & Hw & Hc & Hall).
    assert (pri < qs_Priority it) by (unfold evict_first in Hc; lia).
    destruct Hw as [[= -> ->]|(j & -> & Hj)]; [exists 0%nat|exists (S j)];
      (split_and!; [lia|done|done|by constructor]).
  - specialize (IH (S i)). destruct (evict_scan items (S i) None pri) as [[idx it]|].
    + destruct IH as (j & -> & Hj & Hp & Hall). exists (S j).
      split_and!; [lia|done|done|constructor; [unfold evict_first; lia|done]].
    + by constructor.
Qed.

Lemma best_scan_spec items i k cur :
  let '(idx, it) := best_scan items i k cur in
  ((idx, it) = (k, cur) \/ exists j, idx = (i + j)%nat /\ items !! j = Some it)
  /\ key_le it cur /\ Forall (key_le it) items.
Proof.
  revert i k cur. induction items as [|x items IH]; intros i k cur; simpl.
  { split_and!; [by left|done|done]. }
  assert (Hkeep : key_le cur x ->
    let '(idx, it) := best_scan items (S i) k cur in
    ((idx, it) = (k, cur) \/ exists j, idx = (i + j)%nat /\ (x :: items) !! j = Some it)
    /\ key_le it cur /\ Forall (key_le it) (x :: items)).
  { intros Hx. specialize (IH (S i) k cur). destruct (best_scan items (S i) k cur) as [idx it].
    destruct IH as (Hw & Hc & Hall). split_and!; [|done|constructor; [by etrans|done]].
    destruct Hw as [?|(j & -> & Hj)]; [by left|right; exists (S j); split; [lia|done]]. }
  assert (Htake : key_le x cur ->
    let '(idx, it) := best_scan items (S i) i x in
    ((idx, it) = (k, cur) \/ exists j, idx = (i + j)%nat /\ (x :: items) !! j = Some it)
    /\ key_le it cur /\ Forall (key_le it) (x :: items)).
  { intros Hx. specialize (IH (S i) i x). destruct (best_scan items (S i) i x) as [idx it].
    destruct IH as (Hw & Hc & Hall). split_and!; [|by etrans|by constructor].
    right. destruct Hw as [[= -> ->]|(j & -> & Hj)];
      [exists 0%nat|exists (S j)]; (split; [lia|done]). }
  unfold key_le in Hkeep, Htake. unfold Before.
  destruct (Z.ltb_spec (qs_Priority x) (qs_Priority cur)); [apply Htake; lia|].
  destruct (Z.eqb_spec (qs_Priority x) (qs_Priority cur)); simpl; [|apply Hkeep; lia].
  destruct (Z.ltb_spec (qs_EnqueuedAt x) (qs_EnqueuedAt cur)); [apply Htake|apply Hkeep]; lia.
Qed.

(** ** Lemmas on the operations *)

Lemma evict_lookup prio q v q' :
  evictLowestPriority prio q = Some (v, q') ->
  exists idx, uq_items q !! idx = Some v /\ q' = set_uq_items (delete idx (uq_items q)) q
    /\ prio < qs_Priority v /\ Forall (evict_first v) (uq_items q).
Proof.
  unfold evictLowestPriority. pose proof (evict_scan_none (uq_items q) 0 prio) as Hs.
  destruct (evict_scan _ _ _ _) as [[idx it]|]; [|done]. intros [= <- <-].
  destruct Hs as (j & -> & Hj & Hp & Hall). exists j. by split_and!.
Qed.

Lemma evict_refuses prio q :
  evictLowestPriority prio q = None -> Forall (fun x => qs_Priority x <= prio) (uq_items q).
Proof.
  unfold evictLowestPriority. pose proof (evict_scan_none (uq_items q) 0 prio) as Hs.
  by destruct (evict_scan _ _ _ _) as [[idx it]|].
Qed.

Lemma evict_length prio q v q' :
  evictLowestPriority prio q = Some (v, q') ->
  S (length (uq_items q')) = length (uq_items q).
Proof.
  intros (idx & Hl & -> & _)%evict_lookup. simpl.
  pose proof (lookup_lt_Some _ _ _ Hl). rewrite length_delete by done. lia.
Qed.

Lemma evict_permutation prio q v q' :
  evictLowestPriority prio q = Some (v, q') -> uq_items q ≡ₚ v :: uq_items q'.
Proof. intros (idx & Hl & -> & _)%evict_lookup. simpl. by apply delete_Permutation. Qed.

Lemma dequeue_spec q m it q' m' :
  dequeue q m = Some (it, q', m') ->
  uq_items q ≡ₚ it :: uq_items q' /\ Forall (key_le it) (uq_items q)
  /\ q' = set_uq_items (uq_items q') q
  /\ m' = SetQueueDepth (Depth q') m.
Proof.
  unfold dequeue. destruct (uq_items q) as [|x rest] eqn:Ei; [done|].
  pose proof (best_scan_spec rest 1 0 x) as Hb.
  destruct (best_scan rest 1 0 x) as [idx best]. intros [= <- <- <-].
  destruct Hb as (Hw & Hc & Hall). simpl. split_and!; [|by constructor|done|done].
  apply delete_Permutation.
  destruct Hw as [[= -> ->]|(j & -> & Hj)]; done.
Qed.

Lemma dequeue_None q m : dequeue q m = None -> uq_items q = [].
Proof. unfold dequeue. destruct (uq_items q); [done|]. by destruct (best_scan _ _ _ _). Qed.

Lemma double_n_exact n b :
  0 <= b -> b * 2 ^ Z.of_nat n <= int64_max -> double_n n b = b * 2 ^ Z.of_nat n.
Proof.
  revert b. induction n as [|n IH]; intros b Hb Hm; [simpl; lia|].
  rewrite Nat2Z.inj_succ, Z.pow_succ_r in Hm by lia. cbn [double_n].
  pose proof (Z.pow_pos_nonneg 2 (Z.of_nat n) ltac:(lia) ltac:(lia)).
  rewrite wrap64_id by (unfold in_int64, int64_min; nia).
  rewrite IH by nia. rewrite Nat2Z.inj_succ, Z.pow_succ_r by lia. lia.
Qed.

(** Emptying the queue one [dequeue] at a time. *)
Fixpoint drain (fuel : nat) (q : UploadQueue) (m : MetricsRegistry) : list QueuedSnapshot :=
  match fuel with
  | O => []
  | S f => match dequeue q m with
           | None => []
           | Some (it, q', m') => it :: drain f q' m'
           end
  end.

Lemma drain_spec fuel q m :
  (length (uq_items q) <= fuel)%nat ->
  drain fuel q m ≡ₚ uq_items q /\ StronglySorted key_le (drain fuel q m).
Proof.
  revert q m. induction fuel as [|f IH]; intros q m Hf; simpl.
  { destruct (uq_items q); simpl in Hf; [split; [done|constructor]|lia]. }
  destruct (dequeue q m) as [[[it q'] m']|] eqn:E.
  - apply dequeue_spec in E as (Hp & Hle & _ & _).
    assert (Hlen : (length (uq_items q') <= f)%nat)
      by (apply Permutation_length in Hp; simpl in Hp; lia).
    destruct (IH q' m' Hlen) as [Hperm Hsort]. split; [by rewrite Hp, Hperm|].
    constructor; [done|]. rewrite Hp in Hle. apply Forall_cons in Hle as [_ Hle].
    by rewrite Hperm.
  - apply dequeue_None in E. rewrite E. split; [done|constructor].
Qed.

(** ** Properties *)

(** What [Enqueue] does on every branch.  Below capacity the snapshot is
    appended.  At capacity it is refused exactly when no queued snapshot is
    strictly less urgent than it; otherwise the evicted one is strictly less
    urgent than the newcomer, belongs to the least urgent class present and is
    the longest waiting of that class, and everything else stays queued. *)
Theorem Enqueue_spec (json_len : payload -> Z) (ptr : positive) (token : string)
    (p : payload) (priority : Z) (now : GoTime) (q : UploadQueue) (m : MetricsRegistry) :
  let item := new_snapshot json_len ptr token p priority now in
  let '(out, q', m') := Enqueue json_len ptr token p priority now q m in
  match out with
  | Accepted None =>
      Depth q < uq_maxSize q /\ uq_items q' = uq_items q ++ [item]
      /\ mr_uploadsDropped m' = mr_uploadsDropped m
  | Accepted (Some v) =>
      uq_maxSize q <= Depth q /\ priority < qs_Priority v
      /\ Forall (evict_first v) (uq_items q)
      /\ v :: uq_items q' ≡ₚ uq_items q ++ [item] /\ Depth q' = Depth q
      /\ mr_uploadsDropped m' = mr_uploadsDropped m + 1
  | Rejected =>
      uq_maxSize q <= Depth q /\ q' = q
      /\ Forall (fun x => qs_Priority x <= priority) (uq_items q)
      /\ mr_uploadsDropped m' = mr_uploadsDropped m + 1
  end.
Proof.
  unfold Enqueue, Depth. simpl.
  destruct (Z.leb_spec (uq_maxSize q) (Z.of_nat (length (uq_items q)))); [|simpl; auto].
  destruct (evictLowestPriority priority q) as [[v q1]|] eqn:E; simpl.
  - pose proof (evict_permutation _ _ _ _ E) as Hp. pose proof (evict_length _ _ _ _ E).
    apply evict_lookup in E as (idx & _ & -> & Hlt & Hall). simpl in *.
    split_and!; [done|done|done| |rewrite length_app; simpl; lia|done].
    rewrite app_comm_cons. apply Permutation_app_tail. by symmetry.
  - apply evict_refuses in E. auto.
Qed.

(** The queue never holds more than [maxSize] snapshots: [Enqueue] keeps
    the bound whatever the priority mix, and a dequeue only shrinks it. *)
Theorem Enqueue_bounded (json_len : payload -> Z) (ptr : positive) (token : string)
    (p : payload) (priority : Z) (now : GoTime) (q : UploadQueue) (m : MetricsRegistry)
    (Hq : Depth q <= uq_maxSize q) :
  let '(_, q', m') := Enqueue json_len ptr token p priority now q m in
  Depth q' <= uq_maxSize q' /\ uq_maxSize q' = uq_maxSize q /\ Depth q <= Depth q'.
Proof.
  unfold Enqueue, Depth in *.
  destruct (Z.leb_spec (uq_maxSize q) (Z.of_nat (length (uq_items q)))); simpl.
  - destruct (evictLowestPriority priority q) as [[v q1]|] eqn:E; simpl; [|lia].
    pose proof (evict_length _ _ _ _ E). apply evict_lookup in E as (? & _ & -> & _).
    simpl in *. rewrite length_app. simpl. lia.
  - rewrite length_app. simpl. lia.
Qed.

Lemma Enqueue_bounded_witness :
  let q := NewUploadQueue (Build_UploadQueueConfig 1 0 0 0 0 false) in
  let '(_, q1, m1) := Enqueue (fun _ => 2) 1 "tok" ∅ PriorityLow 10 q NewMetricsRegistry in
  let '(_, q2, _) := Enqueue (fun _ => 2) 2 "tok" ∅ PriorityHigh 11 q1 m1 in
  map qs_ptr (uq_items q2) = [2%positive] /\ Depth q2 <= uq_maxSize q2.
Proof.
  cbn -[Enqueue]. split; [vm_compute; reflexivity|].
  pose proof (Enqueue_bounded (fun _ => 2) 2 "tok" ∅ PriorityHigh 11
    (snd (fst (Enqueue (fun _ => 2) 1 "tok" ∅ PriorityLow 10
       (NewUploadQueue (Build_UploadQueueConfig 1 0 0 0 0 false)) NewMetricsRegistry)))
    NewMetricsRegistry ltac:(vm_compute; discriminate)) as H.
  vm_compute in H. vm_compute. tauto.
Defined.

(** Emptying the queue by repeated [dequeue] yields every queued snapshot
    exactly once, sorted by priority and, within a priority, by arrival time:
    the linear scan refines a priority queue. *)
Theorem drain_sorted (q : UploadQueue) (m : MetricsRegistry) :
  drain (length (uq_items q)) q m ≡ₚ uq_items q
  /\ StronglySorted key_le (drain (length (uq_items q)) q m).
Proof. apply drain_spec. lia. Qed.

(** The retry delay is [min(retryBackoff * 2^(retries-1), maxBackoff)] as
    long as the doubled delay fits a 64-bit duration; with the default
    configuration that holds for the first 31 retries, and the 32nd wraps to a
    negative delay (the default [maxRetries] of 3 never gets there). *)
Theorem retry_backoff_exact (q : UploadQueue) (retries : Z)
    (Hr : 1 <= retries) (Hb : 0 <= uq_retryBackoff q)
    (Hfit : uq_retryBackoff q * 2 ^ (retries - 1) <= int64_max) :
  calculateRetryBackoff q retries
    = Z.min (uq_retryBackoff q * 2 ^ (retries - 1)) (uq_maxBackoff q)
  /\ calculateRetryBackoff (NewUploadQueue DefaultUploadQueueConfig) 32 < 0.
Proof.
  split; [|vm_compute; reflexivity].
  unfold calculateRetryBackoff.
  rewrite double_n_exact; rewrite ?Z2Nat.id by lia; [|lia..].
  destruct (Z.ltb_spec (uq_maxBackoff q) (uq_retryBackoff q * 2 ^ (retries - 1))); lia.
Qed.

Lemma retry_backoff_exact_witness :
  calculateRetryBackoff (NewUploadQueue DefaultUploadQueueConfig) 3 = 20 * Second
  /\ calculateRetryBackoff (NewUploadQueue DefaultUploadQueueConfig) 31 = 60 * Second.
Proof.
  split.
  - exact (proj1 (retry_backoff_exact (NewUploadQueue DefaultUploadQueueConfig) 3
      ltac:(lia) ltac:(vm_compute; discriminate) ltac:(vm_compute; discriminate))).
  - exact (proj1 (retry_backoff_exact (NewUploadQueue DefaultUploadQueueConfig) 31
      ltac:(lia) ltac:(vm_compute; discriminate) ltac:(vm_compute; discriminate))).
Defined.
