(* ===== verification/LocalDB.v ===== *)
(** The local database of hybrid mode ([src/local_db.go]): encrypted snapshot
    rows, the signals derived from them, sync marks, retention, and the
    summary builder.  The SQL statements are modelled on lists of rows. *)
From S2P Require Import Prelude GoTime Types.

Local Open Scope Z_scope.

(** ** Signals and summaries *)

Record SnapshotSignal : Type := {
  sig_Key : string;
  sig_Severity : string;
  sig_Label : string;
  sig_Entity : string;
  sig_Value : string;
}.

Record SnapshotSummary : Type := {
  sum_Verdict : string;
  sum_SignalCount : Z;
  sum_BlockerCount : Z;
  sum_CautionCount : Z;
  sum_TopSignals : list SnapshotSignal;
}.

Definition is_blocker (s : SnapshotSignal) : bool :=
  bool_decide (sig_Severity s = "critical") || bool_decide (sig_Severity s = "error").
Definition is_caution (s : SnapshotSignal) : bool :=
  bool_decide (sig_Severity s = "warning").

(** The counting loop: a [switch] on the severity. *)
Fixpoint count_signals (signals : list SnapshotSignal) (blockers cautions : Z) : Z * Z :=
  match signals with
  | [] => (blockers, cautions)
  | s :: rest =>
      if is_blocker s then count_signals rest (blockers + 1) cautions
      else if is_caution s then count_signals rest blockers (cautions + 1)
      else count_signals rest blockers cautions
  end.

(** First loop over the signals: append blockers, leave at ten. *)
Fixpoint top_blockers (signals top : list SnapshotSignal) : list SnapshotSignal :=
  match signals with
  | [] => top
  | s :: rest =>
      if is_blocker s then
        let top' := top ++ [s] in
        if (10 <=? length top')%nat then top' else top_blockers rest top'
      else top_blockers rest top
  end.

(** Second loop: fill up with warnings, leave when already at ten. *)
Fixpoint top_cautions (signals top : list SnapshotSignal) : list SnapshotSignal :=
  match signals with
  | [] => top
  | s :: rest =>
      if (10 <=? length top)%nat then top
      else if is_caution s then top_cautions rest (top ++ [s])
      else top_cautions rest top
  end.

Definition buildSummary (signals : list SnapshotSignal) : SnapshotSummary :=
  let '(blockers, cautions) := count_signals signals 0 0 in
  {| sum_Verdict := if 0 <? blockers then "critical"
                    else if 0 <? cautions then "warning" else "healthy";
     sum_SignalCount := Z.of_nat (length signals);
     sum_BlockerCount := blockers;
     sum_CautionCount := cautions;
     sum_TopSignals := top_cautions signals (top_blockers signals []) |}.

(** ** Stored timestamps *)

(** [collected_at] is stored as the text of the time in RFC3339Nano.  The text
    is a fixed-width date and time down to the second, whose order is that of
    the second, followed by the fraction with its trailing zeros removed (no
    fraction at all when it is zero) and "Z".  [ts_secs] stands for the
    fixed-width part; rows are compared as text. *)
Record stamp : Type := { ts_secs : Z; ts_frac : string }.

#[global] Instance stamp_eq_dec : EqDecision stamp.
Proof. solve_decision. Defined.

Fixpoint strip_zeros (n : nat) (width : nat) (z : Z) : Z * nat :=
  match n with
  | O => (z, width)
  | S n' => if (z mod 10 =? 0)%Z then strip_zeros n' (pred width) (z / 10) else (z, width)
  end.

Definition frac_text (nanos : Z) : string :=
  if nanos =? 0 then "Z"
  else let '(z, w) := strip_zeros 9 9 nanos in "." +:+ pad_digits w z +:+ "Z".

Definition format_nano (t : GoTime) : stamp :=
  {| ts_secs := t / Second; ts_frac := frac_text (t mod Second) |}.

(** Text order of two stored timestamps. *)
Definition stamp_ltb (a b : stamp) : bool :=
  (ts_secs a <? ts_secs b)
  || ((ts_secs a =? ts_secs b) && String.ltb (ts_frac a) (ts_frac b)).
Definition stamp_le (a b : stamp) : Prop := stamp_ltb b a = false.

(** ** Rows *)

Record signal_row : Type := {
  sr_snapshot_id : string;
  sr_target_id : string;
  sr_signal : SnapshotSignal;
  sr_detected_at : stamp;
}.

Section DB.
(** The store's encryption of the JSON of a payload, and its inverse.  Sealing
    fails when the payload does not encode or the cipher fails; opening fails
    on a corrupted blob. *)
Context {blob : Type} (seal : payload -> option blob) (open_blob : blob -> option payload).

Record snapshot_row : Type := {
  row_id : string;
  row_target_id : string;
  row_target_type : string;
  row_collected_at : stamp;
  row_payload_enc : blob;
  row_summary : SnapshotSummary;
  row_synced_at : option GoTime;
}.

(** [ldb_cascade] says whether the database enforces the [ON DELETE CASCADE]
    of the signals table (foreign keys switched on for the connection). *)
Record LocalDB : Type := {
  ldb_snapshots : list snapshot_row;
  ldb_signals : list signal_row;
  ldb_enabled : bool;
  ldb_cascade : bool;
}.

Record UnsyncedSnapshot : Type := {
  un_ID : string;
  un_TargetID : string;
  un_TargetType : string;
  un_CollectedAt : stamp;
  un_Payload : payload;
}.

Definition set_ldb_snapshots (l : list snapshot_row) (d : LocalDB) : LocalDB :=
  Build_LocalDB l (ldb_signals d) (ldb_enabled d) (ldb_cascade d).

(** ** Write *)

(** [commit] is whether the transaction could be opened and committed.  An
    insert with an id that is already a key fails; nothing is written unless
    the transaction commits. *)
Definition WriteSnapshot (commit : bool) (snapshotID targetID targetType : string)
    (collectedAt : GoTime) (p : payload) (signals : list SnapshotSignal) (d : LocalDB)
    : result string LocalDB :=
  if negb (ldb_enabled d) then Ok d
  else match seal p with
  | None => Err "local_db: encrypt payload"
  | Some enc =>
      let row := Build_snapshot_row snapshotID targetID targetType (format_nano collectedAt)
                   enc (buildSummary signals) None in
      let sigs := map (fun s => Build_signal_row snapshotID targetID s (format_nano collectedAt))
                    signals in
      if existsb (fun r => String.eqb (row_id r) snapshotID) (ldb_snapshots d)
      then Err "local_db: insert snapshot"
      else if negb commit then Err "local_db: commit"
      else Ok (Build_LocalDB (ldb_snapshots d ++ [row]) (ldb_signals d ++ sigs)
                 (ldb_enabled d) (ldb_cascade d))
  end.

(** ** Read *)

(** [ORDER BY collected_at DESC LIMIT 1] over the rows of one target. *)
Definition newest (a b : snapshot_row) : snapshot_row :=
  if stamp_ltb (row_collected_at a) (row_collected_at b) then b else a.
Definition latest_row (targetID : string) (d : LocalDB) : option snapshot_row :=
  match filter (fun r => row_target_id r = targetID) (ldb_snapshots d) with
  | [] => None
  | r :: rs => Some (foldl newest r rs)
  end.

Definition LatestSnapshot (targetID : string) (d : LocalDB)
    : result string (option (payload * stamp)) :=
  if negb (ldb_enabled d) then Ok None
  else match latest_row targetID d with
  | None => Ok None
  | Some r => match open_blob (row_payload_enc r) with
              | None => Err "local_db: decrypt"
              | Some p => Ok (Some (p, row_collected_at r))
              end
  end.

(** ** Sync *)

Definition mark_row (now : GoTime) (id : string) (r : snapshot_row) : snapshot_row :=
  if String.eqb (row_id r) id then
    Build_snapshot_row (row_id r) (row_target_id r) (row_target_type r) (row_collected_at r)
      (row_payload_enc r) (row_summary r) (Some now)
  else r.

Definition MarkSynced (now : GoTime) (snapshotID : string) (d : LocalDB) : LocalDB :=
  if negb (ldb_enabled d) then d
  else set_ldb_snapshots (map (mark_row now snapshotID) (ldb_snapshots d)) d.

Definition is_unsynced (r : snapshot_row) : Prop := row_synced_at r = None.
#[global] Instance is_unsynced_dec r : Decision (is_unsynced r).
Proof. unfold is_unsynced. destruct (row_synced_at r); [right; done|left; done]. Defined.

Definition row_le (a b : snapshot_row) : Prop :=
  stamp_le (row_collected_at a) (row_collected_at b).
#[global] Instance row_le_dec : RelDecision row_le.
Proof. intros a b. unfold row_le, stamp_le. apply _. Defined.

(** Rows that do not decrypt or decode are skipped. *)
Definition unsynced_of_row (r : snapshot_row) : option UnsyncedSnapshot :=
  match open_blob (row_payload_enc r) with
  | None => None
  | Some p => Some (Build_UnsyncedSnapshot (row_id r) (row_target_id r) (row_target_type r)
                      (row_collected_at r) p)
  end.

Definition UnsyncedSnapshots (limit : Z) (d : LocalDB) : list UnsyncedSnapshot :=
  if negb (ldb_enabled d) then []
  else
    let lim := if limit <=? 0 then 50 else limit in
    omap unsynced_of_row
      (take (Z.to_nat lim) (merge_sort row_le (filter is_unsynced (ldb_snapshots d)))).

Definition UnsyncedCount (d : LocalDB) : Z :=
  if negb (ldb_enabled d) then 0
  else Z.of_nat (length (filter is_unsynced (ldb_snapshots d))).

Definition GetSnapshotSummary (snapshotID : string) (d : LocalDB) : option SnapshotSummary :=
  if negb (ldb_enabled d) then None
  else row_summary <$> find (fun r => String.eqb (row_id r) snapshotID) (ldb_snapshots d).

(** ** Retention *)

Definition Day : Duration := 24 * 60 * Minute.

Definition RunRetention (now : GoTime) (maxAgeDays : Z) (d : LocalDB) : Z * LocalDB :=
  if negb (ldb_enabled d) then (0, d)
  else
    let days := if maxAgeDays <=? 0 then 7 else maxAgeDays in
    let cutoff := format_nano (now - days * Day) in
    let keep r := stamp_ltb (row_collected_at r) cutoff = false in
    let kept := filter keep (ldb_snapshots d) in
    let gone := filter (fun r => stamp_ltb (row_collected_at r) cutoff = true)
                  (ldb_snapshots d) in
    let sigs := if ldb_cascade d
                then filter (fun s => Forall (fun r => row_id r <> sr_snapshot_id s) gone)
                       (ldb_signals d)
                else ldb_signals d in
    (Z.of_nat (length gone), Build_LocalDB kept sigs (ldb_enabled d) (ldb_cascade d)).
End DB.

Arguments snapshot_row : clear implicits.
Arguments LocalDB : clear implicits.

(** ** Lemmas on the summary *)

Abbreviation blockers := (filter (fun s => is_blocker s = true)).
Abbreviation cautions := (filter (fun s => is_caution s = true)).

Lemma blocker_not_caution s : is_blocker s = true -> is_caution s = false.
Proof. unfold is_blocker, is_caution. repeat case_bool_decide; simpl; congruence. Qed.

Lemma count_signals_spec l b c :
  count_signals l b c
  = (b + Z.of_nat (length (blockers l)), c + Z.of_nat (length (cautions l))).
Proof.
  revert b c. induction l as [|s l IH]; intros b c; simpl; [f_equal; lia|].
  rewrite !filter_cons. destruct (is_blocker s) eqn:Eb.
  - rewrite (blocker_not_caution s Eb), IH. simpl. f_equal; lia.
  - destruct (is_caution s) eqn:Ec; rewrite IH; simpl; f_equal; lia.
Qed.

Lemma take_full {A} n (l k : list A) : length l = n -> take n (l ++ k) = l.
Proof. intros <-. apply take_app_length. Qed.

Lemma top_blockers_spec l top :
  (length top < 10)%nat -> top_blockers l top = take 10 (top ++ blockers l).
Proof.
  revert top. induction l as [|s l IH]; intros top Htop; cbn [top_blockers].
  - rewrite app_nil_r, take_ge; [done|lia].
  - rewrite filter_cons. destruct (is_blocker s);
      [rewrite decide_True by done|rewrite decide_False by done; by apply IH].
    rewrite (cons_middle s top (blockers l)), app_assoc.
    destruct (Nat.leb_spec 10 (length (top ++ [s]))) as [Hge|Hlt].
    + rewrite take_full; [done|]. rewrite length_app in *. simpl in *. lia.
    + by apply IH.
Qed.

Lemma top_cautions_spec l top :
  (length top <= 10)%nat -> top_cautions l top = take 10 (top ++ cautions l).
Proof.
  revert top. induction l as [|s l IH]; intros top Htop; cbn [top_cautions].
  - rewrite app_nil_r, take_ge; [done|lia].
  - destruct (Nat.leb_spec 10 (length top)) as [Hge|Hlt].
    + rewrite take_full; [done|lia].
    + rewrite filter_cons. destruct (is_caution s);
        [rewrite decide_True by done|rewrite decide_False by done; by apply IH].
      rewrite (cons_middle s top (cautions l)), app_assoc. apply IH. rewrite length_app. simpl. lia.
Qed.

(** ** Lemmas on stored timestamps *)

Lemma stamp_order_by_second (t u : GoTime) :
  t / Second < u / Second ->
  stamp_ltb (format_nano t) (format_nano u) = true
  /\ stamp_ltb (format_nano u) (format_nano t) = false.
Proof.
  intros H. unfold stamp_ltb, format_nano. cbn [ts_secs ts_frac].
  destruct (Z.ltb_spec (t / Second) (u / Second)); [|lia].
  destruct (Z.ltb_spec (u / Second) (t / Second)); [lia|].
  destruct (Z.eqb_spec (u / Second) (t / Second)); [lia|done].
Qed.

(** ** Well-formedness of the database *)

Section Facts.
Context {blob : Type} (seal : payload -> option blob) (open_blob : blob -> option payload).

(** Snapshot ids are a key, and every signal belongs to a stored snapshot. *)
Definition ldb_wf (d : LocalDB blob) : Prop :=
  NoDup (map row_id (ldb_snapshots d))
  /\ Forall (fun s => sr_snapshot_id s ∈ map row_id (ldb_snapshots d)) (ldb_signals d).

Lemma map_mark_row_id now id (l : list (snapshot_row blob)) :
  map row_id (map (mark_row now id) l) = map row_id l.
Proof.
  rewrite map_map. apply map_ext. intros r. unfold mark_row. by destruct (String.eqb _ _).
Qed.

Lemma existsb_row_id id (l : list (snapshot_row blob)) :
  existsb (fun r => String.eqb (row_id r) id) l = false -> id ∉ map row_id l.
Proof.
  intros H Hin. apply list_elem_of_In, in_map_iff in Hin as (r & <- & Hr).
  assert (existsb (fun r' => String.eqb (row_id r') (row_id r)) l = true); [|congruence].
  apply existsb_exists. exists r. split; [done|apply String.eqb_refl].
Qed.

Lemma WriteSnapshot_wf commit id tid tty at_ p sigs d d' :
  ldb_wf d -> WriteSnapshot seal commit id tid tty at_ p sigs d = Ok d' -> ldb_wf d'.
Proof.
  intros [Hnd Hsig]. unfold WriteSnapshot.
  destruct (ldb_enabled d); simpl; [|by intros [= <-]].
  destruct (seal p) as [enc|]; [|done].
  destruct (existsb _ _) eqn:E; [done|]. apply existsb_row_id in E.
  destruct commit; simpl; [|done]. intros [= <-]. unfold ldb_wf. simpl. split.
  - rewrite map_app. simpl. apply NoDup_app. split_and!; [done| |apply NoDup_singleton].
    intros x Hx ->%list_elem_of_singleton. done.
  - rewrite map_app, Forall_app. split.
    + eapply Forall_impl; [exact Hsig|]. intros s Hs. apply elem_of_app. by left.
    + apply Forall_map, Forall_true. intros s. simpl. apply elem_of_app. right.
      by apply list_elem_of_singleton.
Qed.

Lemma MarkSynced_wf now id (d : LocalDB blob) : ldb_wf d -> ldb_wf (MarkSynced now id d).
Proof.
  unfold MarkSynced, ldb_wf. destruct (ldb_enabled d); simpl; [|done].
  by rewrite map_mark_row_id.
Qed.

Lemma map_filter_NoDup (P : snapshot_row blob -> Prop) `{!forall r, Decision (P r)} l :
  NoDup (map row_id l) -> NoDup (map row_id (filter P l)).
Proof.
  induction l as [|r l IH]; simpl; [done|]. intros [Hr Hl]%NoDup_cons.
  rewrite filter_cons. case_decide; simpl; [|by apply IH].
  apply NoDup_cons. split; [|by apply IH]. intros Hin. apply Hr.
  apply list_elem_of_In, in_map_iff in Hin as (r' & <- & Hr').
  apply list_elem_of_In, list_elem_of_filter in Hr' as [_ Hr'].
  apply list_elem_of_In, in_map. by apply list_elem_of_In.
Qed.

Lemma RunRetention_wf now days (d : LocalDB blob) :
  ldb_cascade d = true -> ldb_wf d -> ldb_wf (snd (RunRetention now days d)).
Proof.
  intros Hc [Hnd Hsig]. unfold RunRetention. destruct (ldb_enabled d); simpl; [|done].
  rewrite Hc. unfold ldb_wf. simpl. split; [by apply map_filter_NoDup|].
  apply Forall_forall. intros s [Hgone Hs]%list_elem_of_filter.
  rewrite Forall_forall in Hsig. specialize (Hsig s Hs).
  apply list_elem_of_In, in_map_iff in Hsig as (r & Hid & Hr%list_elem_of_In).
  apply list_elem_of_In, in_map_iff. exists r. split; [done|].
  apply list_elem_of_In, list_elem_of_filter. split; [|done].
  destruct (stamp_ltb _ _) eqn:E; [|done]. rewrite Forall_forall in Hgone.
  exfalso. apply (Hgone r); [|done]. apply list_elem_of_filter. done.
Qed.

(** The ids still to be replayed. *)
Definition unsynced_ids (d : LocalDB blob) : list string :=
  map row_id (filter is_unsynced (ldb_snapshots d)).

Lemma mark_row_hit now (r : snapshot_row blob) : ~ is_unsynced (mark_row now (row_id r) r).
Proof. unfold mark_row, is_unsynced. by rewrite String.eqb_refl. Qed.

Lemma mark_row_miss now id (r : snapshot_row blob) : row_id r <> id -> mark_row now id r = r.
Proof. intros H. unfold mark_row. by destruct (String.eqb_spec (row_id r) id). Qed.

Lemma unsynced_ids_mark now id (d : LocalDB blob) :
  ldb_enabled d = true ->
  unsynced_ids (MarkSynced now id d) = filter (fun i => i <> id) (unsynced_ids d).
Proof.
  intros He. unfold unsynced_ids, MarkSynced. rewrite He. simpl.
  induction (ldb_snapshots d) as [|r l IH]; simpl; [done|].
  rewrite !filter_cons. destruct (decide (row_id r = id)) as [<-|Hne].
  - rewrite decide_False by apply mark_row_hit. rewrite IH.
    destruct (decide (is_unsynced r)); simpl; [|done].
    rewrite filter_cons, decide_False by (intros HH; by apply HH). done.
  - rewrite mark_row_miss by done. destruct (decide (is_unsynced r)); simpl; [|done].
    rewrite filter_cons, decide_True by done. by rewrite IH.
Qed.
End Facts.

(** ** Properties *)

(** The summary of a snapshot counts the blocking and warning signals,
    its verdict is the worst severity present, and its top signals are the
    first ten of the blocking signals followed by the warnings, in order. *)
Theorem buildSummary_spec (signals : list SnapshotSignal) :
  let s := buildSummary signals in
  sum_SignalCount s = Z.of_nat (length signals)
  /\ sum_BlockerCount s = Z.of_nat (length (blockers signals))
  /\ sum_CautionCount s = Z.of_nat (length (cautions signals))
  /\ sum_TopSignals s = take 10 (blockers signals ++ cautions signals)
  /\ (sum_Verdict s = "critical" <-> blockers signals <> [])
  /\ (sum_Verdict s = "healthy" <-> blockers signals = [] /\ cautions signals = []).
Proof.
  unfold buildSummary. rewrite count_signals_spec. simpl sum_SignalCount.
  rewrite top_blockers_spec by (cbn [length]; lia).
  rewrite top_cautions_spec by (rewrite length_take; lia).
  cbn [sum_SignalCount sum_BlockerCount sum_CautionCount sum_TopSignals sum_Verdict].
  split_and!; [done|lia|lia| | |].
  - rewrite app_nil_l. apply take_take_app.
  - destruct (blockers signals); simpl; [|done].
    destruct (0 <? _) eqn:E; done.
  - destruct (blockers signals); simpl; [|split; [done|intros [? _]; done]].
    destruct (cautions signals); simpl; split; done || (by intros [_ ?]).
Qed.

(** Snapshot ids stay a key and every stored signal keeps its snapshot
    through any write, sync mark or retention run; a write that reports an
    error leaves the database as it was, because nothing is committed. *)
Theorem localdb_invariant {blob : Type} (seal : payload -> option blob) (d : LocalDB blob)
    (Hwf : ldb_wf d) (Hc : ldb_cascade d = true) :
  (forall commit id tid tty at_ p sigs d',
     WriteSnapshot seal commit id tid tty at_ p sigs d = Ok d' -> ldb_wf d')
  /\ (forall now id, ldb_wf (MarkSynced now id d))
  /\ (forall now days, ldb_wf (snd (RunRetention now days d))).
Proof.
  split_and!; intros.
  - by eapply WriteSnapshot_wf.
  - by apply MarkSynced_wf.
  - by apply RunRetention_wf.
Qed.

Lemma localdb_invariant_witness :
  let d := Build_LocalDB (blob:=unit) [] [] true true in
  exists d', WriteSnapshot (fun _ => Some tt) true "s1" "t1" "brocade" 5 ∅
    [Build_SnapshotSignal "k" "error" "" "" ""] d = Ok d' /\ ldb_wf d'
    /\ length (ldb_signals d') = 1%nat.
Proof.
  eexists. split; [vm_compute; reflexivity|]. split; [|reflexivity].
  refine (proj1 (localdb_invariant (fun _ => Some tt) (Build_LocalDB (blob:=unit) [] [] true true)
    _ eq_refl) true "s1" "t1" "brocade" 5 ∅ [Build_SnapshotSignal "k" "error" "" "" ""] _ _).
  - split; constructor.
  - vm_compute. reflexivity.
Defined.

(** A sync mark removes exactly its snapshot from the replay set. *)
Theorem MarkSynced_spec {blob : Type} (now : GoTime) (id : string) (d : LocalDB blob)
    (He : ldb_enabled d = true) :
  unsynced_ids (MarkSynced now id d) = filter (fun i => i <> id) (unsynced_ids d)
  /\ map row_id (ldb_snapshots (MarkSynced now id d)) = map row_id (ldb_snapshots d).
Proof.
  split; [by apply unsynced_ids_mark|]. unfold MarkSynced. rewrite He. apply map_mark_row_id.
Qed.

Lemma MarkSynced_spec_witness :
  let row i := Build_snapshot_row (blob:=unit) i "t" "brocade" (format_nano 5) tt (buildSummary []) None in
  let d := Build_LocalDB (blob:=unit) [row "a"; row "b"] [] true true in
  unsynced_ids (MarkSynced 9 "a" d) = ["b"].
Proof.
  intros row d. etransitivity; [exact (proj1 (MarkSynced_spec 9 "a" d eq_refl))|].
  vm_compute. reflexivity.
Defined.

(** The latest snapshot is found by comparing timestamps as text, which
    follows time as long as the two times fall in different seconds; within
    one second the removed trailing zeros break it, and the older of two
    snapshots is returned as the latest (100 ms and 120 ms past the second). *)
Theorem LatestSnapshot_text_order :
  (forall t u : GoTime, t / Second < u / Second ->
     stamp_ltb (format_nano t) (format_nano u) = true
     /\ stamp_ltb (format_nano u) (format_nano t) = false)
  /\ (let seal (p : payload) := Some p in
      let d0 := Build_LocalDB (blob:=payload) [] [] true true in
      let older := {["n" := VInt 1]} : payload in
      let newer := {["n" := VInt 2]} : payload in
      match WriteSnapshot seal true "a" "t" "brocade" (1000 * Second + 100 * Millisecond)
              older [] d0 with
      | Ok d1 =>
          match WriteSnapshot seal true "b" "t" "brocade" (1000 * Second + 120 * Millisecond)
                  newer [] d1 with
          | Ok d2 => LatestSnapshot Some "t" d2
                     = Ok (Some (older, format_nano (1000 * Second + 100 * Millisecond)))
          | Err _ => False
          end
      | Err _ => False
      end).
Proof. split; [apply stamp_order_by_second|]. vm_compute. reflexivity. Qed.
