(* ===== verification/UploadSystem.v ===== *)
(** The upload system at run time ([src/upload_queue.go]: [Start], [Stop],
    [uploadWorker], [probeLoop], [ReplayUnsynced]): several upload workers, the
    probe loop, replays and producers that interleave on one queue, the metrics
    registry and the local database.  A goroutine's program counter is data, and
    [step] executes one atomic section of one goroutine. *)
From S2P Require Import Prelude Types Metrics UploadQueue LocalDB.

Local Open Scope Z_scope.

(** ** State *)

(** Where an upload worker is: at the top of its loop, about to dequeue, in the
    [select] on an empty queue, inside [backend.Post], after a success and
    before the local database is marked, sleeping before a retry, returned. *)
Inductive worker_pc : Type :=
| WTop
| WDequeue
| WWait
| WPost (item : QueuedSnapshot)
| WMark (item : QueuedSnapshot)
| WBackoff (item : QueuedSnapshot) (d : Duration)
| WExit.

(** What happened so far: every snapshot offered to the queue (by pointer),
    and where the snapshots that left it went.  [h_fired] counts the starts of
    the reconnect callback. *)
Record history : Type := {
  h_submitted : list positive;
  h_delivered : list QueuedSnapshot;
  h_deferred : list QueuedSnapshot;
  h_dropped : list QueuedSnapshot;
  h_abandoned : list QueuedSnapshot;
  h_fired : nat;
}.

Record sys (blob : Type) : Type := {
  s_queue : UploadQueue;
  s_metrics : MetricsRegistry;
  s_db : LocalDB blob;
  s_workers : list worker_pc;
  s_stop : bool;
  s_replays : list (list UnsyncedSnapshot);
  s_probe : Duration;
  s_next : positive;
  s_hist : history;
}.
Arguments Build_sys {blob}.
Arguments s_queue {blob}.
Arguments s_metrics {blob}.
Arguments s_db {blob}.
Arguments s_workers {blob}.
Arguments s_stop {blob}.
Arguments s_replays {blob}.
Arguments s_probe {blob}.
Arguments s_next {blob}.
Arguments s_hist {blob}.

Definition hist_submit (p : positive) (h : history) : history :=
  Build_history (p :: h_submitted h) (h_delivered h) (h_deferred h) (h_dropped h)
    (h_abandoned h) (h_fired h).
Definition hist_deliver (it : QueuedSnapshot) (h : history) : history :=
  Build_history (h_submitted h) (it :: h_delivered h) (h_deferred h) (h_dropped h)
    (h_abandoned h) (h_fired h).
Definition hist_defer (it : QueuedSnapshot) (h : history) : history :=
  Build_history (h_submitted h) (h_delivered h) (it :: h_deferred h) (h_dropped h)
    (h_abandoned h) (h_fired h).
Definition hist_drop (it : QueuedSnapshot) (h : history) : history :=
  Build_history (h_submitted h) (h_delivered h) (h_deferred h) (it :: h_dropped h)
    (h_abandoned h) (h_fired h).
Definition hist_abandon (it : QueuedSnapshot) (h : history) : history :=
  Build_history (h_submitted h) (h_delivered h) (h_deferred h) (h_dropped h)
    (it :: h_abandoned h) (h_fired h).
Definition hist_fire (fired : bool) (h : history) : history :=
  Build_history (h_submitted h) (h_delivered h) (h_deferred h) (h_dropped h)
    (h_abandoned h) (if fired then S (h_fired h) else h_fired h).

(** ** Steps *)

(** [backend.Post]: nil, an [*AuthError] (401/403), or any other error. *)
Inductive post_outcome : Type := PostOk | PostAuth | PostFail.

Inductive action : Type :=
| AEnqueue (token : string) (p : payload) (priority : UploadPriority) (now : GoTime)
| AWriteSnapshot (commit : bool) (id tid tty : string) (at_ : GoTime) (p : payload)
    (signals : list SnapshotSignal)
| ARetention (now : GoTime) (days : Z)
| ATop (i : nat)
| ADequeue (i : nat)
| AWakeNotify (i : nat)
| AWakeStop (i : nat)
| APost (i : nat) (o : post_outcome) (now : GoTime)
| AMark (i : nat) (db_ok : bool) (now : GoTime)
| ABackoffDone (i : nat)
| ABackoffStop (i : nat)
| AStop
| AProbe (probe_ok : bool) (now : GoTime)
| ASetOnReconnect
| AReplayStart
| AReplayOne (k : nat) (now : GoTime).

Section System.
Context {blob : Type} (seal : payload -> option blob) (open_blob : blob -> option payload).
Context (json_len : payload -> Z).

Definition set_core (q : UploadQueue) (m : MetricsRegistry) (h : history) (s : sys blob)
    : sys blob :=
  Build_sys q m (s_db s) (s_workers s) (s_stop s) (s_replays s) (s_probe s) (s_next s) h.
Definition set_db (d : LocalDB blob) (s : sys blob) : sys blob :=
  Build_sys (s_queue s) (s_metrics s) d (s_workers s) (s_stop s) (s_replays s) (s_probe s)
    (s_next s) (s_hist s).
Definition set_worker (i : nat) (pc : worker_pc) (s : sys blob) : sys blob :=
  Build_sys (s_queue s) (s_metrics s) (s_db s) (<[i := pc]> (s_workers s)) (s_stop s)
    (s_replays s) (s_probe s) (s_next s) (s_hist s).
Definition set_stop (s : sys blob) : sys blob :=
  Build_sys (s_queue s) (s_metrics s) (s_db s) (s_workers s) true (s_replays s) (s_probe s)
    (s_next s) (s_hist s).
Definition set_replays (r : list (list UnsyncedSnapshot)) (s : sys blob) : sys blob :=
  Build_sys (s_queue s) (s_metrics s) (s_db s) (s_workers s) (s_stop s) r (s_probe s)
    (s_next s) (s_hist s).
Definition set_probe (b : Duration) (s : sys blob) : sys blob :=
  Build_sys (s_queue s) (s_metrics s) (s_db s) (s_workers s) (s_stop s) (s_replays s) b
    (s_next s) (s_hist s).
Definition bump_next (s : sys blob) : sys blob :=
  Build_sys (s_queue s) (s_metrics s) (s_db s) (s_workers s) (s_stop s) (s_replays s)
    (s_probe s) (Pos.succ (s_next s)) (s_hist s).

(** A call of [Enqueue]: allocates the item, and a refused or evicted snapshot
    is dropped. *)
Definition do_enqueue (token : string) (p : payload) (priority : UploadPriority)
    (now : GoTime) (s : sys blob) : sys blob :=
  let ptr := s_next s in
  let '(out, q', m') := Enqueue json_len ptr token p priority now (s_queue s) (s_metrics s) in
  let h := hist_submit ptr (s_hist s) in
  let h' := match out with
            | Rejected => hist_drop (new_snapshot json_len ptr token p priority now) h
            | Accepted (Some victim) => hist_drop victim h
            | Accepted None => h
            end in
  bump_next (set_core q' m' h' s).

(** The error branch after [backend.Post]. *)
Definition post_failed (i : nat) (auth : bool) (now : GoTime) (item : QueuedSnapshot)
    (s : sys blob) : sys blob :=
  let m := RecordUploadFailure (s_metrics s) in
  let q := if auth then s_queue s else markOffline now (s_queue s) in
  let item' := incr_Retries item in
  if uq_maxRetries q <=? qs_Retries item' then
    set_worker i WTop (set_core q m (hist_defer item' (s_hist s)) s)
  else
    set_worker i (WBackoff item' (calculateRetryBackoff q (qs_Retries item')))
      (set_core q m (s_hist s) s).

(** Putting a snapshot back after its backoff, if there is room. *)
Definition requeue (i : nat) (item : QueuedSnapshot) (s : sys blob) : sys blob :=
  let q := s_queue s in
  if Z.of_nat (length (uq_items q)) <? uq_maxSize q then
    let items := uq_items q ++ [item] in
    set_worker i WTop
      (set_core (set_uq_items items q) (SetQueueDepth (Z.of_nat (length items)) (s_metrics s))
         (s_hist s) s)
  else
    set_worker i WTop
      (set_core q (RecordUploadDropped (s_metrics s)) (hist_drop item (s_hist s)) s).

(** The local snapshot id a payload carries, if it is a non-empty string. *)
Definition local_id (p : payload) : option string :=
  match p !! "_localSnapshotId" with
  | Some (VString id) => if String.eqb id "" then None else Some id
  | _ => None
  end.

Definition mark_synced (db_ok : bool) (now : GoTime) (item : QueuedSnapshot) (s : sys blob)
    : sys blob :=
  if uq_hasLocalDB (s_queue s) then
    match local_id (qs_Payload item) with
    | Some id => if db_ok then set_db (MarkSynced now id (s_db s)) s else s
    | None => s
    end
  else s.

(** One snapshot of a replay: the payload keys it sets before [Enqueue]. *)
Definition replay_payload (u : UnsyncedSnapshot) : payload :=
  <["targetType" := VString (un_TargetType u)]>
    (<["targetId" := VString (un_TargetID u)]>
       (<["type" := VString "snapshot"]>
          (<["_localSnapshotId" := VString (un_ID u)]> (un_Payload u)))).

(** One atomic section of one goroutine; [None] when it is not enabled. *)
Definition step (a : action) (s : sys blob) : option (sys blob) :=
  match a with
  | AEnqueue token p priority now => Some (do_enqueue token p priority now s)
  | AWriteSnapshot commit id tid tty at_ p signals =>
      match WriteSnapshot seal commit id tid tty at_ p signals (s_db s) with
      | Ok d => Some (set_db d s)
      | Err _ => Some s
      end
  | ARetention now days => Some (set_db (snd (RunRetention now days (s_db s))) s)
  | ATop i =>
      match s_workers s !! i with
      | Some WTop => Some (set_worker i (if s_stop s then WExit else WDequeue) s)
      | _ => None
      end
  | ADequeue i =>
      match s_workers s !! i with
      | Some WDequeue =>
          match dequeue (s_queue s) (s_metrics s) with
          | None => Some (set_worker i WWait s)
          | Some (item, q', m') => Some (set_worker i (WPost item) (set_core q' m' (s_hist s) s))
          end
      | _ => None
      end
  | AWakeNotify i =>
      match s_workers s !! i with
      | Some WWait =>
          if uq_notify (s_queue s) then
            Some (set_worker i WTop
                    (set_core (set_uq_notify false (s_queue s)) (s_metrics s) (s_hist s) s))
          else None
      | _ => None
      end
  | AWakeStop i =>
      match s_workers s !! i with
      | Some WWait => if s_stop s then Some (set_worker i WExit s) else None
      | _ => None
      end
  | APost i o now =>
      match s_workers s !! i with
      | Some (WPost item) =>
          match o with
          | PostOk =>
              let m := RecordUploadSuccess (qs_SizeBytes item) (s_metrics s) in
              let '(fired, q) := markOnline (s_queue s) in
              Some (set_worker i (WMark item)
                      (set_core q m (hist_deliver item (hist_fire fired (s_hist s))) s))
          | PostAuth => Some (post_failed i true now item s)
          | PostFail => Some (post_failed i false now item s)
          end
      | _ => None
      end
  | AMark i db_ok now =>
      match s_workers s !! i with
      | Some (WMark item) => Some (set_worker i WTop (mark_synced db_ok now item s))
      | _ => None
      end
  | ABackoffDone i =>
      match s_workers s !! i with
      | Some (WBackoff item _) => Some (requeue i item s)
      | _ => None
      end
  | ABackoffStop i =>
      match s_workers s !! i with
      | Some (WBackoff item _) =>
          if s_stop s then
            Some (set_worker i WExit
                    (set_core (s_queue s) (s_metrics s) (hist_abandon item (s_hist s)) s))
          else None
      | _ => None
      end
  | AStop => if s_stop s then None else Some (set_stop s)
  | AProbe probe_ok now =>
      if s_stop s then None else
      let t := probeLoop_turn now probe_ok (s_probe s) (s_queue s) in
      Some (set_probe (pt_backoff t)
              (set_core (pt_queue t) (s_metrics s) (hist_fire (pt_fired t) (s_hist s)) s))
  | ASetOnReconnect =>
      Some (set_core (SetOnReconnect (s_queue s)) (s_metrics s) (s_hist s) s)
  | AReplayStart =>
      if uq_hasLocalDB (s_queue s) then
        Some (set_replays (UnsyncedSnapshots open_blob 50 (s_db s) :: s_replays s) s)
      else Some s
  | AReplayOne k now =>
      match s_replays s !! k with
      | Some (u :: rest) =>
          Some (set_replays (<[k := rest]> (s_replays s))
                  (do_enqueue (uq_connectorToken (s_queue s)) (replay_payload u) PriorityLow
                     now s))
      | _ => None
      end
  end.

Fixpoint run (l : list action) (s : sys blob) : option (sys blob) :=
  match l with
  | [] => Some s
  | a :: rest => match step a s with Some s' => run rest s' | None => None end
  end.

(** [Start] on a queue just built by [NewUploadQueue]. *)
Definition Start (cfg : UploadQueueConfig) (d : LocalDB blob) : sys blob :=
  let q := NewUploadQueue cfg in
  Build_sys q NewMetricsRegistry d (replicate (Z.to_nat (uq_workerCount q)) WTop) false []
    probeInitialBackoff 1 (Build_history [] [] [] [] [] 0).

Inductive reachable (cfg : UploadQueueConfig) (d : LocalDB blob) : sys blob -> Prop :=
| reach_start : reachable cfg d (Start cfg d)
| reach_step s a s' : reachable cfg d s -> step a s = Some s' -> reachable cfg d s'.
End System.

(** ** Where the snapshots are *)

(** The snapshot a worker holds outside the queue. *)
Definition carried (pc : worker_pc) : list QueuedSnapshot :=
  match pc with WPost it | WBackoff it _ => [it] | _ => [] end.
Definition inflight (ws : list worker_pc) : list QueuedSnapshot := ws ≫= carried.

Definition everywhere {blob} (s : sys blob) : list QueuedSnapshot :=
  uq_items (s_queue s) ++ inflight (s_workers s) ++ h_delivered (s_hist s)
  ++ h_deferred (s_hist s) ++ h_dropped (s_hist s) ++ h_abandoned (s_hist s).

Lemma inflight_split ws i pc :
  ws !! i = Some pc -> inflight ws ≡ₚ carried pc ++ inflight (delete i ws).
Proof. intros H. unfold inflight. rewrite (delete_Permutation _ _ _ H) at 1. done. Qed.

Lemma inflight_insert ws i pc pc' :
  ws !! i = Some pc -> inflight (<[i := pc']> ws) ≡ₚ carried pc' ++ inflight (delete i ws).
Proof.
  intros H. assert (Hi : (i < length ws)%nat) by by eapply lookup_lt_Some.
  rewrite (inflight_split (<[i := pc']> ws) i pc') by by apply list_lookup_insert_eq.
  by rewrite list_delete_insert.
Qed.

(** The parts of the queue that never change after [NewUploadQueue]. *)
Definition same_limits (q q' : UploadQueue) : Prop :=
  uq_maxSize q' = uq_maxSize q /\ uq_maxRetries q' = uq_maxRetries q
  /\ uq_hasLocalDB q' = uq_hasLocalDB q.

(** Upload counters other than drops agree. *)
Definition same_posts (m m' : MetricsRegistry) : Prop :=
  mr_uploadsTotal m' = mr_uploadsTotal m /\ mr_uploadsSuccess m' = mr_uploadsSuccess m
  /\ mr_uploadsFailed m' = mr_uploadsFailed m.

Lemma Enqueue_effect json_len ptr token p pri now q m out q' m' :
  Enqueue json_len ptr token p pri now q m = (out, q', m') ->
  same_limits q q' /\ same_posts m m' /\
  match out with
  | Rejected => q' = q /\ mr_uploadsDropped m' = mr_uploadsDropped m + 1
  | Accepted v => uq_notify q' = true
      /\ mr_uploadsDropped m' = mr_uploadsDropped m + (if v is Some _ then 1 else 0)
      /\ exists rest, uq_items q' = rest ++ [new_snapshot json_len ptr token p pri now]
           /\ uq_items q ≡ₚ option_list v ++ rest
           /\ Z.of_nat (length rest) < Z.max 1 (Z.max (uq_maxSize q) (Depth q))
  end.
Proof.
  unfold Enqueue. destruct (Z.leb_spec (uq_maxSize q) (Z.of_nat (length (uq_items q)))).
  - destruct (evictLowestPriority pri q) as [[v qe]|] eqn:Ev; intros [= <- <- <-].
    + pose proof (evict_permutation _ _ _ _ Ev) as Hp. pose proof (evict_length _ _ _ _ Ev).
      apply evict_lookup in Ev as (idx & _ & -> & _ & _). simpl in *.
      split_and!; [done|done|done|done|]. eexists. split_and!; [done|done|].
      unfold Depth. lia.
    + by split_and!.
  - intros [= <- <- <-]. split_and!; [done|done|done|simpl; lia|].
    exists (uq_items q). split_and!; [done|done|]. lia.
Qed.

(** ** How one step moves snapshots *)

(** Either snapshots only change place, or a new one enters, or one comes back
    from a failed post with its retry counter incremented. *)
Inductive movement {blob} (s s' : sys blob) : Prop :=
| move_only :
    everywhere s' ≡ₚ everywhere s ->
    h_submitted (s_hist s') = h_submitted (s_hist s) -> s_next s' = s_next s ->
    mr_uploadsFailed (s_metrics s') = mr_uploadsFailed (s_metrics s) -> movement s s'
| move_submit it :
    everywhere s' ≡ₚ it :: everywhere s -> qs_ptr it = s_next s -> qs_Retries it = 0 ->
    h_submitted (s_hist s') = s_next s :: h_submitted (s_hist s) ->
    s_next s' = Pos.succ (s_next s) ->
    mr_uploadsFailed (s_metrics s') = mr_uploadsFailed (s_metrics s) -> movement s s'
| move_failed it rest :
    everywhere s ≡ₚ it :: rest -> everywhere s' ≡ₚ incr_Retries it :: rest ->
    h_submitted (s_hist s') = h_submitted (s_hist s) -> s_next s' = s_next s ->
    mr_uploadsFailed (s_metrics s') = mr_uploadsFailed (s_metrics s) + 1 -> movement s s'.

Section Movement.
Context {blob : Type} (seal : payload -> option blob) (open_blob : blob -> option payload).
Context (json_len : payload -> Z).

Lemma do_enqueue_moves token p pri now (s : sys blob) :
  movement s (do_enqueue json_len token p pri now s).
Proof.
  unfold do_enqueue. destruct (Enqueue _ _ _ _ _ _ _ _) as [[out q'] m'] eqn:E.
  apply Enqueue_effect in E as (_ & (_ & _ & Hf) & Hout).
  apply (move_submit _ _ (new_snapshot json_len (s_next s) token p pri now)); try done;
    [|by destruct out as [|[]]..].
  unfold everywhere. destruct out as [|v]; simpl.
  - destruct Hout as [-> _]. solve_Permutation.
  - destruct Hout as (_ & _ & rest & -> & -> & _). destruct v; simpl; solve_Permutation.
Qed.

Lemma post_failed_moves i auth now item (s : sys blob) :
  s_workers s !! i = Some (WPost item) -> movement s (post_failed i auth now item s).
Proof.
  intros Hi.
  apply (move_failed _ _ item (uq_items (s_queue s) ++ inflight (delete i (s_workers s))
    ++ h_delivered (s_hist s) ++ h_deferred (s_hist s) ++ h_dropped (s_hist s)
    ++ h_abandoned (s_hist s))).
  - unfold everywhere. rewrite (inflight_split _ _ _ Hi). simpl. solve_Permutation.
  - unfold everywhere, post_failed. destruct auth; simpl; case_match; simpl;
      rewrite (inflight_insert _ _ _ _ Hi); simpl; solve_Permutation.
  - unfold post_failed. by case_match.
  - unfold post_failed. by case_match.
  - unfold post_failed. by case_match.
Qed.

Lemma dequeue_moves i item q' m' (s : sys blob) :
  s_workers s !! i = Some WDequeue ->
  dequeue (s_queue s) (s_metrics s) = Some (item, q', m') ->
  movement s (set_worker i (WPost item) (set_core q' m' (s_hist s) s)).
Proof.
  intros Hi (Hp & _ & _ & ->)%dequeue_spec. apply move_only; [|done..].
  unfold everywhere. simpl. rewrite (inflight_insert _ _ _ _ Hi), Hp.
  rewrite (inflight_split _ _ _ Hi). simpl. solve_Permutation.
Qed.

Lemma requeue_moves i item d (s : sys blob) :
  s_workers s !! i = Some (WBackoff item d) -> movement s (requeue i item s).
Proof.
  intros Hi. unfold requeue. case_match; (apply move_only; [|done..]);
    unfold everywhere; simpl; rewrite (inflight_insert _ _ _ _ Hi),
      (inflight_split _ _ _ Hi); simpl; solve_Permutation.
Qed.

(** The probe loop only touches reachability. *)
Lemma probe_same now ok b q :
  uq_items (pt_queue (probeLoop_turn now ok b q)) = uq_items q
  /\ same_limits q (pt_queue (probeLoop_turn now ok b q))
  /\ uq_notify (pt_queue (probeLoop_turn now ok b q)) = uq_notify q.
Proof. unfold probeLoop_turn. by destruct (uq_backendOnline q), ok. Qed.

(** A worker changes its program counter and hands what it carried over. *)
Ltac worker_moves Hi :=
  apply move_only; [unfold everywhere; simpl; rewrite (inflight_insert _ _ _ _ Hi);
    rewrite (inflight_split _ _ _ Hi); simpl; solve_Permutation|done..].

Lemma step_moves a (s s' : sys blob) :
  step seal open_blob json_len a s = Some s' -> movement s s'.
Proof.
  destruct a; cbn [step markOnline]; intros H; repeat case_match; simplify_eq;
    try (by apply do_enqueue_moves); try (by apply post_failed_moves);
    try (by apply move_only); try (by apply dequeue_moves);
    try (by eapply requeue_moves).
  all: try match goal with Hi : s_workers _ !! _ = Some _ |- _ => solve [worker_moves Hi] end.
  - unfold mark_synced. repeat case_match; worker_moves H0.
  - apply move_only; [|done..]. unfold everywhere. simpl.
    by rewrite (proj1 (probe_same _ _ _ _)).
  - destruct (do_enqueue_moves (uq_connectorToken (s_queue s)) (replay_payload u) PriorityLow
      now s); [by apply move_only|by eapply move_submit|by eapply move_failed].
Qed.
End Movement.

(** ** Invariants *)

Definition total_retries (l : list QueuedSnapshot) : Z := foldr (fun it n => qs_Retries it + n) 0 l.

#[global] Instance total_retries_perm : Proper ((≡ₚ) ==> (=)) total_retries.
Proof. induction 1; simpl; lia. Qed.

(** Every submitted snapshot is in exactly one place, and the failure counter
    is the sum of the retry counters. *)
Record places_inv {blob} (s : sys blob) : Prop := {
  pi_places : map qs_ptr (everywhere s) ≡ₚ h_submitted (s_hist s);
  pi_nodup : NoDup (h_submitted (s_hist s));
  pi_fresh : Forall (fun p => (p < s_next s)%positive) (h_submitted (s_hist s));
  pi_failed : mr_uploadsFailed (s_metrics s) = total_retries (everywhere s);
}.

Lemma movement_places {blob} (s s' : sys blob) : movement s s' -> places_inv s -> places_inv s'.
Proof.
  intros Hm [Hp Hn Hf Hr]. destruct Hm as
    [He Hs Hx Hm|it He Hptr Hret Hs Hx Hm|it rest He He' Hs Hx Hm].
  - split; rewrite ?Hs, ?Hx, ?Hm, ?He; done.
  - split; rewrite ?Hs, ?Hx, ?Hm, ?He; simpl.
    + by rewrite Hptr, Hp.
    + apply NoDup_cons. split; [|done]. intros Hin. rewrite Forall_forall in Hf.
      specialize (Hf _ Hin). lia.
    + constructor; [lia|]. eapply Forall_impl; [exact Hf|]. simpl. lia.
    + lia.
  - rewrite He in Hp, Hr. split; rewrite ?Hs, ?Hx, ?Hm, ?He'; simpl in *; [done..|]. lia.
Qed.

Definition busy (pc : worker_pc) : bool :=
  match pc with WWait | WExit => false | _ => true end.

(** What the workers may rely on: the bounds of the queue, a retry counter
    below the limit for every live snapshot, the counters of the registry, and
    no lost wake-up: a snapshot waits only while a worker is on its way. *)
Record live_inv {blob} (s : sys blob) : Prop := {
  li_pos : 0 < uq_maxSize (s_queue s) /\ 0 < uq_maxRetries (s_queue s);
  li_depth : Depth (s_queue s) <= uq_maxSize (s_queue s);
  li_retries : Forall (fun it => 0 <= qs_Retries it < uq_maxRetries (s_queue s))
                 (uq_items (s_queue s) ++ inflight (s_workers s));
  li_success : mr_uploadsSuccess (s_metrics s) = Z.of_nat (length (h_delivered (s_hist s)));
  li_dropped : mr_uploadsDropped (s_metrics s) = Z.of_nat (length (h_dropped (s_hist s)));
  li_total : mr_uploadsTotal (s_metrics s)
             = mr_uploadsSuccess (s_metrics s) + mr_uploadsFailed (s_metrics s);
  li_wakeup : uq_items (s_queue s) = [] \/ uq_notify (s_queue s) = true \/ s_stop s = true
              \/ Exists busy (s_workers s);
}.

Section Live.
Context {blob : Type} (seal : payload -> option blob) (open_blob : blob -> option payload).
Context (json_len : payload -> Z).

Lemma busy_insert i pc pc' ws :
  ws !! i = Some pc -> busy pc' = true -> Exists busy (<[i := pc']> ws).
Proof.
  intros Hi Hb. apply Exists_exists. exists pc'. split; [|by rewrite Hb].
  apply list_elem_of_lookup. exists i. apply list_lookup_insert_eq. by eapply lookup_lt_Some.
Qed.

Lemma do_enqueue_live token p pri now (s : sys blob) :
  live_inv s -> live_inv (do_enqueue json_len token p pri now s).
Proof.
  intros [[H1 H2] Hd Hr Hs Hdr Ht Hw].
  unfold do_enqueue. destruct (Enqueue _ _ _ _ _ _ _ _) as [[out q'] m'] eqn:E.
  apply Enqueue_effect in E as ((L1 & L2 & _) & (M1 & M2 & M3) & Hout).
  destruct out as [|v]; simpl in Hout.
  - destruct Hout as [-> Hm]. split; simpl; rewrite ?M1, ?M2, ?M3, ?Hm; [done..|lia| |]; done || lia.
  - destruct Hout as (Hn & Hm & rest & Hq' & Hq & Hlen). unfold Depth in *.
    rewrite Hq in Hr.
    split; simpl; rewrite ?L1, ?L2, ?M1, ?M2, ?M3, ?Hm, ?Hn; unfold Depth; rewrite ?Hq'.
    + done.
    + rewrite length_app. simpl. lia.
    + rewrite <- !app_assoc in Hr. rewrite <- app_assoc.
      apply Forall_app in Hr as [_ [Hr1 Hr2]%Forall_app]. apply Forall_app; split; [done|].
      constructor; [simpl; lia|done].
    + destruct v; done.
    + destruct v; simpl; lia.
    + done.
    + auto.
Qed.

Lemma post_failed_live i auth now item (s : sys blob) :
  s_workers s !! i = Some (WPost item) -> live_inv s -> live_inv (post_failed i auth now item s).
Proof.
  intros Hi [[H1 H2] Hd Hr Hs Hdr Ht Hw].
  rewrite (inflight_split _ _ _ Hi) in Hr. simpl in Hr.
  apply Forall_app in Hr as [Hr1 [Hr2 Hr3]%Forall_cons].
  assert (Hlim : uq_maxRetries (if auth then s_queue s else markOffline now (s_queue s))
    = uq_maxRetries (s_queue s)) by by destruct auth.
  unfold post_failed. rewrite Hlim.
  destruct (Z.leb_spec (uq_maxRetries (s_queue s)) (qs_Retries (incr_Retries item))) as [Hge|Hlt].
  - split; simpl; rewrite ?Hlim; [by destruct auth|by destruct auth| |done|done|lia|].
    + rewrite (inflight_insert _ _ _ _ Hi). simpl. destruct auth; by apply Forall_app.
    + right. right. right. by eapply busy_insert.
  - split; simpl; rewrite ?Hlim; [by destruct auth|by destruct auth| |done|done|lia|].
    + rewrite (inflight_insert _ _ _ _ Hi). simpl.
      destruct auth; (apply Forall_app; split; [done|constructor; [simpl in *; lia|done]]).
    + right. right. right. by eapply busy_insert.
Qed.

Lemma dequeue_live i item q' m' (s : sys blob) :
  s_workers s !! i = Some WDequeue ->
  dequeue (s_queue s) (s_metrics s) = Some (item, q', m') ->
  live_inv s -> live_inv (set_worker i (WPost item) (set_core q' m' (s_hist s) s)).
Proof.
  intros Hi (Hp & _ & Hq & ->)%dequeue_spec [[H1 H2] Hd Hr Hs Hdr Ht Hw].
  rewrite Hq. split; simpl; [done| | |done|done|done|].
  - unfold Depth in *. apply Permutation_length in Hp. simpl in *. lia.
  - rewrite (inflight_insert _ _ _ _ Hi). rewrite Hp, (inflight_split _ _ _ Hi) in Hr.
    simpl in *. by rewrite <- Permutation_middle.
  - right. right. right. by eapply busy_insert.
Qed.

Lemma requeue_live i item d (s : sys blob) :
  s_workers s !! i = Some (WBackoff item d) -> live_inv s -> live_inv (requeue i item s).
Proof.
  intros Hi [[H1 H2] Hd Hr Hs Hdr Ht Hw].
  rewrite (inflight_split _ _ _ Hi) in Hr. simpl in Hr.
  assert (Hb : Exists busy (<[i := WTop]> (s_workers s))) by by eapply busy_insert.
  unfold requeue. destruct (Z.ltb_spec (Z.of_nat (length (uq_items (s_queue s))))
    (uq_maxSize (s_queue s))); split; simpl; try done; try tauto.
  - unfold Depth. simpl. rewrite length_app. simpl. lia.
  - rewrite (inflight_insert _ _ _ _ Hi). simpl. by rewrite <- app_assoc.
  - rewrite (inflight_insert _ _ _ _ Hi). simpl.
    apply Forall_app in Hr as [? [? ?]%Forall_cons]. by apply Forall_app.
  - lia.
Qed.

(** A worker that carries nothing new moves to another program counter. *)
Lemma set_worker_live i pc pc' (s : sys blob) :
  s_workers s !! i = Some pc -> carried pc' = carried pc \/ carried pc' = [] ->
  busy pc' = true \/ s_stop s = true \/ uq_items (s_queue s) = [] ->
  live_inv s -> live_inv (set_worker i pc' s).
Proof.
  intros Hi Hc Hb [[H1 H2] Hd Hr Hs Hdr Ht Hw]. split; simpl; try done.
  - rewrite (inflight_insert _ _ _ _ Hi). rewrite (inflight_split _ _ _ Hi) in Hr.
    destruct Hc as [->| ->]; [done|]. simpl.
    apply Forall_app in Hr as [? [_ ?]%Forall_app]. by apply Forall_app.
  - destruct Hb as [Hb|[Hb|Hb]]; [|tauto..]. right. right. right. by eapply busy_insert.
Qed.

(** The live invariant looks only at these parts of the state. *)
Lemma live_ext (s s' : sys blob) :
  uq_items (s_queue s') = uq_items (s_queue s) -> same_limits (s_queue s) (s_queue s') ->
  uq_notify (s_queue s') = uq_notify (s_queue s) -> s_metrics s' = s_metrics s ->
  s_workers s' = s_workers s -> (s_stop s = true -> s_stop s' = true) ->
  h_delivered (s_hist s') = h_delivered (s_hist s) ->
  h_dropped (s_hist s') = h_dropped (s_hist s) -> live_inv s -> live_inv s'.
Proof.
  intros Hi (L1 & L2 & _) Hn Hm Hws Hst Hd Hdr [? Hde ? ? ? ? Hw].
  unfold Depth in Hde.
  split; unfold Depth; rewrite ?Hi, ?L1, ?L2, ?Hn, ?Hm, ?Hws, ?Hd, ?Hdr; try done.
  destruct Hw as [?|[?|[?|?]]]; auto.
Qed.

Lemma step_live a (s s' : sys blob) :
  step seal open_blob json_len a s = Some s' -> live_inv s -> live_inv s'.
Proof.
  destruct a; cbn [step markOnline]; intros H HL; repeat case_match; simplify_eq;
    try (by apply do_enqueue_live); try (by apply post_failed_live); try done;
    try (by apply dequeue_live); try (by eapply requeue_live);
    try (by apply (live_ext s)).
  all: try (by eapply set_worker_live; eauto).
  - eapply set_worker_live; [done|by left| |done]. right. right. by eapply dequeue_None.
  - destruct HL as [[Hp1 Hp2] Hd Hr Hs Hdr Ht Hw]. split; simpl; try done.
    + rewrite (inflight_insert _ _ _ _ H0). by rewrite (inflight_split _ _ _ H0) in Hr.
    + right. right. right. by eapply busy_insert.
  - destruct HL as [[Hp1 Hp2] Hd Hr Hs Hdr Ht Hw]. split; simpl; try done; try lia.
    + rewrite (inflight_insert _ _ _ _ H0). rewrite (inflight_split _ _ _ H0) in Hr.
      simpl in *. apply Forall_app in Hr as [? [? ?]%Forall_cons]. by apply Forall_app.
    + right. right. right. by eapply busy_insert.
  - eapply (set_worker_live i (WMark item)); [|by left|by left|].
    + unfold mark_synced. by repeat case_match.
    + unfold mark_synced. repeat case_match; try done; by apply (live_ext s).
  - eapply (set_worker_live i (WBackoff item d)); [done|by right|by right; left|].
    by apply (live_ext s).
  - apply (live_ext s); try done; apply probe_same.
  - eapply live_ext; [..|apply (do_enqueue_live (uq_connectorToken (s_queue s))
      (replay_payload u) PriorityLow now s HL)]; done.
Qed.

Lemma Start_inv cfg (d : LocalDB blob) :
  places_inv (Start cfg d) /\ live_inv (Start cfg d).
Proof.
  assert (Hin : forall n, inflight (replicate n WTop) = []) by (induction n; done).
  assert (Hdef : forall z dflt, 0 < dflt -> 0 < or_default z dflt)
    by (intros z dflt ?; unfold or_default; destruct (Z.leb_spec z 0); lia).
  split; split; unfold everywhere; simpl; rewrite ?Hin; try done; try (by constructor);
    try (by left).
  - split; apply Hdef; lia.
  - unfold Depth. simpl. pose proof (Hdef (cfg_MaxSize cfg) 100). lia.
Qed.

Lemma reachable_inv cfg d (s : sys blob) :
  reachable seal open_blob json_len cfg d s -> places_inv s /\ live_inv s.
Proof.
  induction 1 as [|s a s' Hr [IH1 IH2] Hs]; [apply Start_inv|]. split.
  - eapply movement_places; [by eapply step_moves|done].
  - by eapply step_live.
Qed.

Lemma run_reachable_from cfg d l (s s' : sys blob) :
  reachable seal open_blob json_len cfg d s -> run seal open_blob json_len l s = Some s' ->
  reachable seal open_blob json_len cfg d s'.
Proof.
  revert s. induction l as [|a l IH]; simpl; intros s Hr Hrun; [by simplify_eq|].
  destruct (step _ _ _ a s) as [s1|] eqn:E; [|done].
  eapply IH; [|done]. by eapply reach_step.
Qed.

(** ** Sync marks *)

(** Rows are marked synced only for ids in [pre] (marked before the start) or
    for snapshots that were delivered. *)
Definition delivered_id (h : history) (id : string) : Prop :=
  exists it, it ∈ h_delivered h /\ local_id (qs_Payload it) = Some id.
Record sync_inv (pre : list string) (s : sys blob) : Prop := {
  si_rows : Forall (fun r => is_unsynced r \/ row_id r ∈ pre \/ delivered_id (s_hist s) (row_id r))
              (ldb_snapshots (s_db s));
  si_mark : forall i it, s_workers s !! i = Some (WMark it) -> it ∈ h_delivered (s_hist s);
}.

Lemma delivered_id_mono (s s' : sys blob) id :
  (forall it, it ∈ h_delivered (s_hist s) -> it ∈ h_delivered (s_hist s')) ->
  delivered_id (s_hist s) id -> delivered_id (s_hist s') id.
Proof. intros H (it & Hi & Hl). exists it. auto. Qed.

Lemma sync_ext pre (s s' : sys blob) :
  ldb_snapshots (s_db s') ⊆ ldb_snapshots (s_db s) ->
  (forall it, it ∈ h_delivered (s_hist s) -> it ∈ h_delivered (s_hist s')) ->
  (forall i it, s_workers s' !! i = Some (WMark it) ->
     s_workers s !! i = Some (WMark it) \/ it ∈ h_delivered (s_hist s')) ->
  sync_inv pre s -> sync_inv pre s'.
Proof.
  intros Hdb Hd Hw [Hr Hm]. split.
  - rewrite Forall_forall in Hr |- *. intros r Hin. apply Hdb in Hin.
    destruct (Hr r Hin) as [?|[?|?]]; eauto using delivered_id_mono.
  - intros i it Hi. destruct (Hw i it Hi); eauto.
Qed.

Lemma set_worker_mark i pc' (s : sys blob) :
  match pc' with WMark _ => false | _ => true end = true ->
  forall j it, s_workers (set_worker i pc' s) !! j = Some (WMark it) ->
  s_workers s !! j = Some (WMark it).
Proof.
  intros Hpc j it. simpl. destruct (decide (i = j)) as [<-|Hne].
  - intros H. assert (i < length (s_workers s))%nat.
    { apply lookup_lt_Some in H. by rewrite length_insert in H. }
    rewrite list_lookup_insert_eq in H by done. by simplify_eq.
  - by rewrite list_lookup_insert_ne.
Qed.

Lemma WriteSnapshot_rows commit id tid tty at_ p sigs (d d' : LocalDB blob) r :
  WriteSnapshot seal commit id tid tty at_ p sigs d = Ok d' ->
  r ∈ ldb_snapshots d' -> r ∈ ldb_snapshots d \/ is_unsynced r.
Proof.
  unfold WriteSnapshot. repeat case_match; intros; simplify_eq; [by left|]. simpl in *.
  match goal with H : r ∈ _ ++ _ |- _ => apply elem_of_app in H as [?|Hr] end; [by left|].
  apply list_elem_of_singleton in Hr as ->. by right.
Qed.

Lemma MarkSynced_rows now id (d : LocalDB blob) r :
  r ∈ ldb_snapshots (MarkSynced now id d) -> r ∈ ldb_snapshots d \/ row_id r = id.
Proof.
  unfold MarkSynced. destruct (negb (ldb_enabled d)); [by left|]. simpl.
  intros (r0 & -> & Hr0)%list_elem_of_fmap. unfold mark_row.
  destruct (String.eqb_spec (row_id r0) id); [by right|by left].
Qed.

Lemma RunRetention_rows now days (d : LocalDB blob) :
  ldb_snapshots (snd (RunRetention now days d)) ⊆ ldb_snapshots d.
Proof.
  unfold RunRetention. destruct (negb (ldb_enabled d)); [done|]. simpl.
  intros r Hr. by apply list_elem_of_filter in Hr as [_ Hr].
Qed.

Lemma mark_synced_sync pre i db_ok now item (s : sys blob) :
  s_workers s !! i = Some (WMark item) -> sync_inv pre s ->
  sync_inv pre (set_worker i WTop (mark_synced db_ok now item s)).
Proof.
  intros Hi [Hr Hm]. pose proof (Hm i item Hi) as Hin.
  apply (sync_ext _ (mark_synced db_ok now item s)); [done|done|intros j it Hj; left; by apply set_worker_mark in Hj|].
  unfold mark_synced. repeat case_match; try done. split; [|done].
  rewrite Forall_forall in Hr |- *. intros r [Hold|<-]%MarkSynced_rows; [by apply Hr|].
  right. right. by exists item.
Qed.

Lemma do_enqueue_frame token p pri now (s : sys blob) :
  s_db (do_enqueue json_len token p pri now s) = s_db s
  /\ s_workers (do_enqueue json_len token p pri now s) = s_workers s
  /\ h_delivered (s_hist (do_enqueue json_len token p pri now s)) = h_delivered (s_hist s).
Proof. unfold do_enqueue. destruct (Enqueue _ _ _ _ _ _ _ _) as [[[|[]] ?] ?]; done. Qed.

Lemma sync_frame pre (s s' : sys blob) :
  s_db s' = s_db s -> s_workers s' = s_workers s ->
  h_delivered (s_hist s') = h_delivered (s_hist s) -> sync_inv pre s -> sync_inv pre s'.
Proof. intros Hd Hw Hh. apply sync_ext; rewrite ?Hd, ?Hw, ?Hh; auto. Qed.

(** A worker moves on and the database and the deliveries stay. *)
Lemma sync_worker pre i pc (s0 s : sys blob) :
  match pc with WMark _ => false | _ => true end = true ->
  s_db s0 = s_db s -> s_workers s0 = s_workers s ->
  h_delivered (s_hist s0) = h_delivered (s_hist s) ->
  sync_inv pre s -> sync_inv pre (set_worker i pc s0).
Proof.
  intros Hpc Hd Hw Hh HS. apply (sync_ext _ s0); [done|done| |by apply (sync_frame pre s)].
  intros j it Hj. left. by apply set_worker_mark in Hj.
Qed.

Lemma deliver_sync pre i item q m fired (s : sys blob) :
  sync_inv pre s ->
  sync_inv pre (set_worker i (WMark item)
    (set_core q m (hist_deliver item (hist_fire fired (s_hist s))) s)).
Proof.
  apply sync_ext; simpl; [done|set_solver|]. intros j it Hj.
  destruct (decide (i = j)) as [<-|Hne].
  - right. assert (i < length (s_workers s))%nat.
    { apply lookup_lt_Some in Hj. by rewrite length_insert in Hj. }
    rewrite list_lookup_insert_eq in Hj by done. simplify_eq. set_solver.
  - left. by rewrite list_lookup_insert_ne in Hj.
Qed.

Lemma write_sync pre (d' : LocalDB blob) (s : sys blob) :
  (forall r, r ∈ ldb_snapshots d' -> r ∈ ldb_snapshots (s_db s) \/ is_unsynced r) ->
  sync_inv pre s -> sync_inv pre (set_db d' s).
Proof.
  intros Hd [Hr Hm]. split; [|done]. rewrite Forall_forall in Hr |- *. intros r Hin.
  destruct (Hd r Hin); [by apply Hr|by left].
Qed.

Lemma step_sync pre a (s s' : sys blob) :
  step seal open_blob json_len a s = Some s' -> sync_inv pre s -> sync_inv pre s'.
Proof.
  destruct a; cbn [step markOnline]; intros H HS; repeat case_match; simplify_eq; try done;
    try (by apply mark_synced_sync); try (by apply (sync_worker pre _ _ _ s));
    try (by apply deliver_sync); try (by apply (sync_frame pre s)).
  - apply (sync_frame pre s); [apply do_enqueue_frame..|done].
  - apply write_sync; [|done]. intros r. by eapply WriteSnapshot_rows.
  - apply write_sync; [|done]. intros r Hr. left. by apply RunRetention_rows in Hr.
  - unfold post_failed. case_match; by apply (sync_worker pre _ _ _ s).
  - unfold post_failed. case_match; by apply (sync_worker pre _ _ _ s).
  - unfold requeue. case_match; by apply (sync_worker pre _ _ _ s).
  - apply (sync_frame pre s); [apply do_enqueue_frame..|done].
Qed.

Lemma reachable_sync cfg d (s : sys blob) :
  reachable seal open_blob json_len cfg d s ->
  sync_inv (map row_id (filter (fun r => ~ is_unsynced r) (ldb_snapshots d))) s.
Proof.
  induction 1 as [|s a s' Hr IH Hs]; [|by eapply step_sync]. split.
  - apply Forall_forall. intros r Hr. destruct (decide (is_unsynced r)); [by left|].
    right. left. apply list_elem_of_fmap. exists r. split; [done|].
    by apply list_elem_of_filter.
  - intros i it. simpl. by intros [? _]%lookup_replicate.
Qed.

(** ** The reconnect edge *)

(** How often the callback is started between two states: once when the
    backend goes from unreachable to reachable and a callback is installed. *)
Definition edge (s s' : sys blob) : nat :=
  if negb (uq_backendOnline (s_queue s)) && uq_backendOnline (s_queue s')
     && uq_onReconnect (s_queue s) then 1 else 0.

Lemma quiet_edge (s s' : sys blob) :
  h_fired (s_hist s') = h_fired (s_hist s) ->
  (uq_backendOnline (s_queue s') = true -> uq_backendOnline (s_queue s) = true) ->
  h_fired (s_hist s') = (h_fired (s_hist s) + edge s s')%nat.
Proof.
  intros -> H. unfold edge. destruct (uq_backendOnline (s_queue s)); simpl; [lia|].
  destruct (uq_backendOnline (s_queue s')); simpl; [by specialize (H eq_refl)|lia].
Qed.

Lemma Enqueue_online ptr token p pri now q m :
  uq_backendOnline (snd (fst (Enqueue json_len ptr token p pri now q m))) = uq_backendOnline q.
Proof.
  unfold Enqueue. repeat case_match; simplify_eq; try done. simpl.
  by match goal with H : evictLowestPriority _ _ = Some _ |- _ =>
    apply evict_lookup in H as (? & _ & -> & _) end.
Qed.

Lemma do_enqueue_edge token p pri now (s : sys blob) :
  h_fired (s_hist (do_enqueue json_len token p pri now s)) = h_fired (s_hist s)
  /\ uq_backendOnline (s_queue (do_enqueue json_len token p pri now s))
     = uq_backendOnline (s_queue s).
Proof.
  unfold do_enqueue.
  pose proof (Enqueue_online (s_next s) token p pri now (s_queue s) (s_metrics s)) as Ho.
  destruct (Enqueue _ _ _ _ _ _ _ _) as [[[|[]] ?] ?]; done.
Qed.

Lemma step_fired a (s s' : sys blob) :
  step seal open_blob json_len a s = Some s' ->
  h_fired (s_hist s') = (h_fired (s_hist s) + edge s s')%nat.
Proof.
  destruct a; cbn [step markOnline]; intros H; repeat case_match; simplify_eq;
    try (by apply quiet_edge);
    try (apply quiet_edge; simpl;
         match goal with |- context [do_enqueue json_len ?t ?p ?k ?n ?s] =>
           destruct (do_enqueue_edge t p k n s) as [He1 He2]; rewrite ?He1, ?He2 end; done).
  - apply quiet_edge; [done|]. by apply dequeue_spec in H2 as (_ & _ & -> & _).
  - unfold edge. simpl. destruct (uq_backendOnline _), (uq_onReconnect _); simpl; lia.
  - apply quiet_edge; unfold post_failed; case_match; done.
  - apply quiet_edge; unfold post_failed; case_match; done.
  - apply quiet_edge; simpl; unfold mark_synced; repeat case_match; done.
  - apply quiet_edge; unfold requeue; case_match; done.
  - unfold edge, probeLoop_turn. simpl.
    destruct (uq_backendOnline _) eqn:E, (uq_onReconnect _), probe_ok; simpl;
      rewrite ?E; simpl; lia.
Qed.
End Live.

(** ** Properties *)

(** C2: no snapshot is lost or duplicated by the workers, the retries, the
    evictions and the replays: in every reachable state each snapshot ever
    offered to the queue is in exactly one place - queued, held by a worker,
    delivered, deferred to the local database, dropped, or abandoned when the
    queue was stopped. *)
Theorem upload_conservation {blob : Type} (seal : payload -> option blob) open_blob json_len
    cfg d (s : sys blob) (Hr : reachable seal open_blob json_len cfg d s) :
  map qs_ptr (everywhere s) ≡ₚ h_submitted (s_hist s) /\ NoDup (map qs_ptr (everywhere s)).
Proof.
  destruct (reachable_inv _ _ _ _ _ _ Hr) as [[Hp Hn _ _] _]. split; [done|]. by rewrite Hp.
Qed.

(** In every reachable state the queue is within its bound, every queued
    or in-flight snapshot still has retries left, and the registry's counters
    are the true ones: successes are deliveries, drops are drops, and failures
    are the retries accumulated by all snapshots. *)
Theorem upload_accounting {blob : Type} (seal : payload -> option blob) open_blob json_len
    cfg d (s : sys blob) (Hr : reachable seal open_blob json_len cfg d s) :
  Depth (s_queue s) <= uq_maxSize (s_queue s)
  /\ Forall (fun it => 0 <= qs_Retries it < uq_maxRetries (s_queue s))
       (uq_items (s_queue s) ++ inflight (s_workers s))
  /\ mr_uploadsSuccess (s_metrics s) = Z.of_nat (length (h_delivered (s_hist s)))
  /\ mr_uploadsDropped (s_metrics s) = Z.of_nat (length (h_dropped (s_hist s)))
  /\ mr_uploadsFailed (s_metrics s) = total_retries (everywhere s)
  /\ mr_uploadsTotal (s_metrics s)
     = mr_uploadsSuccess (s_metrics s) + mr_uploadsFailed (s_metrics s).
Proof.
  destruct (reachable_inv _ _ _ _ _ _ Hr) as [[_ _ _ Hf] [_ Hd Hre Hs Hdr Ht _]].
  by split_and!.
Qed.

(** No wake-up is lost.  Until the queue is stopped, a snapshot never
    sits in the queue while every worker sleeps on an empty notification
    channel: either the channel holds a token or some worker is awake and will
    come back to [dequeue]. *)
Theorem no_lost_wakeup {blob : Type} (seal : payload -> option blob) open_blob json_len
    cfg d (s : sys blob) (Hr : reachable seal open_blob json_len cfg d s)
    (Hq : uq_items (s_queue s) <> []) (Hs : s_stop s = false) :
  uq_notify (s_queue s) = true \/ Exists busy (s_workers s).
Proof.
  destruct (reachable_inv _ _ _ _ _ _ Hr) as [_ [_ _ _ _ _ _ Hw]].
  destruct Hw as [?|[?|[?|?]]]; [done|by left|congruence|by right].
Qed.

(** A row of the local database is marked synced only if it already was
    at the start or its snapshot was delivered to the backend; so a snapshot
    whose upload was deferred, dropped or abandoned stays in the replay set. *)
Theorem synced_only_if_delivered {blob : Type} (seal : payload -> option blob) open_blob
    json_len cfg d (s : sys blob) (Hr : reachable seal open_blob json_len cfg d s)
    (r : snapshot_row blob) (Hin : r ∈ ldb_snapshots (s_db s)) (Hsync : ~ is_unsynced r) :
  row_id r ∈ map row_id (filter (fun r => ~ is_unsynced r) (ldb_snapshots d))
  \/ delivered_id (s_hist s) (row_id r).
Proof.
  destruct (reachable_sync _ _ _ _ _ _ Hr) as [Hrows _]. rewrite Forall_forall in Hrows.
  destruct (Hrows r Hin) as [?|[?|?]]; tauto.
Qed.

(** The reconnect callback is started exactly when the backend goes from
    unreachable to reachable with a callback installed, by an upload or by the
    probe, and by no other step. *)
Theorem reconnect_exactly_on_edge {blob : Type} (seal : payload -> option blob) open_blob
    json_len a (s s' : sys blob) (Hs : step seal open_blob json_len a s = Some s') :
  h_fired (s_hist s') = (h_fired (s_hist s) + edge s s')%nat.
Proof. by eapply step_fired. Qed.

(** ** A concrete run *)

(** One worker, a queue of two, hybrid mode: a stored snapshot is replayed,
    fails once, waits its backoff, is delivered and marked; a second one is
    written and a live snapshot is left in the queue with the worker asleep on
    its token. *)
Definition demo_cfg : UploadQueueConfig := Build_UploadQueueConfig 2 3 1 0 0 true.
Definition demo_db : LocalDB payload := Build_LocalDB (blob:=payload) [] [] true true.
Definition demo_actions : list action :=
  [ASetOnReconnect; ATop 0; ADequeue 0;
   AWriteSnapshot true "s1" "t1" "brocade" 5 ∅ [];
   AReplayStart; AReplayOne 0 7; AWakeNotify 0; ATop 0; ADequeue 0;
   APost 0 PostFail 8; ABackoffDone 0; ATop 0; ADequeue 0;
   APost 0 PostOk 9; AMark 0 true 10; ATop 0; ADequeue 0;
   AWriteSnapshot true "s2" "t1" "brocade" 11 ∅ [];
   AEnqueue "tok" {["_localSnapshotId" := VString "s2"]} PriorityMedium 12].
Definition demo : sys payload :=
  default (Start demo_cfg demo_db)
    (run Some Some (fun _ => 1) demo_actions (Start demo_cfg demo_db)).

Lemma demo_reachable : reachable Some Some (fun _ => 1) demo_cfg demo_db demo.
Proof.
  eapply run_reachable_from; [apply reach_start|].
  instantiate (1 := demo_actions). vm_compute. reflexivity.
Qed.

Lemma upload_conservation_witness :
  map qs_ptr (everywhere demo) ≡ₚ [2%positive; 1%positive]
  /\ NoDup (map qs_ptr (everywhere demo)).
Proof.
  destruct (upload_conservation Some Some (fun _ => 1) demo_cfg demo_db demo demo_reachable)
    as [Hp Hn].
  split; [|exact Hn]. exact Hp.
Defined.

Lemma upload_accounting_witness :
  mr_uploadsFailed (s_metrics demo) = 1 /\ mr_uploadsSuccess (s_metrics demo) = 1
  /\ mr_uploadsTotal (s_metrics demo) = 1 + 1.
Proof.
  split; [vm_compute; reflexivity|]. split; [vm_compute; reflexivity|].
  exact (proj2 (proj2 (proj2 (proj2 (proj2 (upload_accounting Some Some (fun _ => 1) demo_cfg
    demo_db demo demo_reachable)))))).
Defined.

Lemma no_lost_wakeup_witness :
  uq_notify (s_queue demo) = true \/ Exists busy (s_workers demo).
Proof.
  apply (no_lost_wakeup Some Some (fun _ => 1) demo_cfg demo_db demo demo_reachable);
    [vm_compute; discriminate|vm_compute; reflexivity].
Defined.

Lemma synced_only_if_delivered_witness :
  exists r, ldb_snapshots (s_db demo) !! 0%nat = Some r /\ row_synced_at r = Some 10 /\
    (row_id r ∈ @nil string \/ delivered_id (s_hist demo) (row_id r)).
Proof.
  eexists. split; [vm_compute; reflexivity|]. split; [reflexivity|].
  apply (synced_only_if_delivered Some Some (fun _ => 1) demo_cfg demo_db demo demo_reachable).
  - vm_compute. apply list_elem_of_here.
  - unfold is_unsynced. discriminate.
Defined.

Lemma reconnect_exactly_on_edge_witness :
  let s := set_worker 0 (WPost (new_snapshot (fun _ => 1) 1 "t" ∅ 0 0))
             (set_core (SetOnReconnect (NewUploadQueue demo_cfg)) NewMetricsRegistry
                (s_hist (Start demo_cfg demo_db)) (Start demo_cfg demo_db)) in
  match step Some Some (fun _ => 1) (APost 0 PostOk 3) s with
  | Some s' => h_fired (s_hist s') = 1%nat
  | None => False
  end.
Proof.
  intros s. destruct (step Some Some (fun _ => 1) (APost 0 PostOk 3) s) as [s'|] eqn:E.
  - rewrite (reconnect_exactly_on_edge Some Some (fun _ => 1) _ _ _ E).
    revert E. vm_compute. intros [= <-]. reflexivity.
  - revert E. vm_compute. discriminate.
Defined.
