(* ===== verification/Interfaces.v ===== *)
(** Interfaces between components: what the supervisor and the sync manager
    rely on from the credential store and from workers.  Their theorems are
    proved against these classes; [Store] and [SupervisorWorkers] give the
    instances. *)
From S2P Require Import Prelude Types.

Local Open Scope Z_scope.

(** A name usable as one path component. *)
Definition plain (id : string) : Prop := Forall (fun c => c <> Ascii.Ascii true true true true false true false false)
  (String.list_ascii_of_string id).

(** ** The credential and state store *)

Class StoreOps (St : Type) : Type := {
  LoadSecret : string -> St -> result string (option Creds);
  SaveSecret : string -> Creds -> St -> result string unit * St;
  DeleteSecret : string -> St -> result string unit * St;
  LoadState : St -> result string (option HostState);
  SaveState : HostState -> St -> result string unit * St;
}.

(** Laws hold for stores in a good state, which every operation keeps.  A save
    that reports success is read back, a save or deletion that reports an error
    changes nothing, and distinct secrets and the host state do not interfere. *)
Class StoreLaws (St : Type) `{!StoreOps St} : Type := {
  store_ok : St -> Prop;
  SaveSecret_keeps s id c : store_ok s -> store_ok (snd (SaveSecret id c s));
  DeleteSecret_keeps s id : store_ok s -> store_ok (snd (DeleteSecret id s));
  SaveState_keeps s h : store_ok s -> store_ok (snd (SaveState h s));
  SaveSecret_load s id c :
    store_ok s -> plain id ->
    match SaveSecret id c s with
    | (Ok _, s') => LoadSecret id s' = Ok (Some c)
    | (Err _, s') => LoadSecret id s' = LoadSecret id s
    end;
  SaveSecret_other s id c id' :
    store_ok s -> plain id -> plain id' -> id <> id' ->
    LoadSecret id' (snd (SaveSecret id c s)) = LoadSecret id' s;
  DeleteSecret_load s id :
    store_ok s -> plain id ->
    match DeleteSecret id s with
    | (Ok _, s') => LoadSecret id s' = Ok None
    | (Err _, s') => LoadSecret id s' = LoadSecret id s
    end;
  DeleteSecret_other s id id' :
    store_ok s -> plain id -> plain id' -> id <> id' ->
    LoadSecret id' (snd (DeleteSecret id s)) = LoadSecret id' s;
  SaveState_load s h :
    store_ok s ->
    match SaveState h s with
    | (Ok _, s') => LoadState s' = Ok (Some h)
    | (Err _, s') => LoadState s' = LoadState s
    end;
  SaveState_secret s h id :
    store_ok s -> plain id -> LoadSecret id (snd (SaveState h s)) = LoadSecret id s;
  SaveSecret_state s id c :
    store_ok s -> plain id -> LoadState (snd (SaveSecret id c s)) = LoadState s;
  DeleteSecret_state s id :
    store_ok s -> plain id -> LoadState (snd (DeleteSecret id s)) = LoadState s;
}.

(** ** Workers *)

(** What the supervisor does with a worker.  [w_Launch] is [NewWorker] followed
    by [Start]; [None] stands for a call that blocks its caller for ever. *)
Class WorkerOps (Wk : Type) : Type := {
  w_State : Wk -> WorkerState;
  w_Profile : Wk -> TargetProfile;
  w_LanOnly : Wk -> bool;
  w_Launch : TargetProfile -> Creds -> string -> bool -> Wk;
  w_Stop : Wk -> option Wk;
  w_Pause : Wk -> option Wk;
  w_Restart : Wk -> option Wk;
  w_setStatus : WorkerStatus -> Wk -> Wk;
  w_SetLanOnly : bool -> Wk -> Wk;
}.

Class WorkerLaws (Wk : Type) `{!WorkerOps Wk} : Type := {
  w_ok : Wk -> Prop;
  Launch_ok p c tok lan : w_ok (w_Launch p c tok lan);
  Launch_profile p c tok lan : w_Profile (w_Launch p c tok lan) = p;
  Launch_lan p c tok lan : w_LanOnly (w_Launch p c tok lan) = lan;
  Launch_status p c tok lan : ws_Status (w_State (w_Launch p c tok lan)) = WorkerStatusStarting;
  Stop_returns w : w_ok w -> exists w', w_Stop w = Some w' /\ w_ok w'
    /\ ws_Status (w_State w') = WorkerStatusStopped;
  Pause_returns w : w_ok w -> exists w', w_Pause w = Some w' /\ w_ok w'
    /\ w_Profile w' = w_Profile w /\ ws_Status (w_State w') = WorkerStatusPaused;
  Restart_returns w : w_ok w -> exists w', w_Restart w = Some w' /\ w_ok w'
    /\ w_Profile w' = w_Profile w
    /\ ws_Status (w_State w') = WorkerStatusStarting
    /\ ws_RestartCount (w_State w') = ws_RestartCount (w_State w) + 1;
  setStatus_ok w s : w_ok w -> w_ok (w_setStatus s w) /\ w_Profile (w_setStatus s w) = w_Profile w
    /\ ws_Status (w_State (w_setStatus s w)) = s;
  SetLanOnly_ok w b : w_ok w -> w_ok (w_SetLanOnly b w) /\ w_LanOnly (w_SetLanOnly b w) = b
    /\ w_Profile (w_SetLanOnly b w) = w_Profile w;
}.

(** ** The reference store *)

(** What the store is meant to be: two maps in memory.  [ms_ok] says whether
    the next operations succeed. *)
Record MemStore : Type := {
  ms_secrets : gmap string Creds;
  ms_state : option HostState;
  ms_ok : bool;
}.

#[global] Instance memOps : StoreOps MemStore := {|
  LoadSecret id m := Ok (ms_secrets m !! id);
  SaveSecret id c m :=
    if ms_ok m then (Ok tt, Build_MemStore (<[id := c]> (ms_secrets m)) (ms_state m) true)
    else (Err "write", m);
  DeleteSecret id m :=
    if ms_ok m then (Ok tt, Build_MemStore (delete id (ms_secrets m)) (ms_state m) true)
    else (Err "delete", m);
  LoadState m := Ok (ms_state m);
  SaveState h m :=
    if ms_ok m then (Ok tt, Build_MemStore (ms_secrets m) (Some h) true) else (Err "write", m);
|}.

#[global] Instance memLaws : StoreLaws MemStore.
Proof.
  apply (Build_StoreLaws MemStore memOps (fun _ => True)); simpl; intros; try done;
    destruct (ms_ok s); simpl; try done; f_equal.
  - apply lookup_insert_eq.
  - by apply lookup_insert_ne.
  - apply lookup_delete_eq.
  - by apply lookup_delete_ne.
Defined.
