(* ===== verification/Store.v ===== *)
(** The encrypted local store ([src/store.go], [src/crypto.go]): files written
    through a temporary name and a rename, AES-GCM framing, the key file, the
    host key pair, and the import of the legacy configuration. *)
From S2P Require Import Prelude GoStrings Types Interfaces.
From Stdlib Require Import Strings.Byte Ascii.

Local Open Scope Z_scope.

(** ** Files *)

(** How a file operation may end: done, failed without effect, or - for a
    write - failed after a prefix was written. *)
Inductive io_result : Type := IoOk | IoFail | IoPartial (n : nat).

(** The directory tree below the configuration directory, whether it can be
    read, and the outcomes of writes and the random bytes the system will hand
    out, in order. *)
Record FS : Type := {
  fs_files : gmap string buf;
  fs_readable : bool;
  fs_io : nat -> io_result;
  fs_rand : nat -> buf;
  fs_tick : nat;
}.

Definition set_files (m : gmap string buf) (f : FS) : FS :=
  Build_FS m (fs_readable f) (fs_io f) (fs_rand f) (S (fs_tick f)).
Definition tick (f : FS) : FS := set_files (fs_files f) f.
Definition next_io (f : FS) : io_result := fs_io f (fs_tick f).

(** [os.ReadFile]: missing is distinguished from other errors. *)
Inductive read_result : Type := ReadOk (b : buf) | ReadMissing | ReadError.
Definition ReadFile (path : string) (f : FS) : read_result :=
  if fs_readable f then
    match fs_files f !! path with Some b => ReadOk b | None => ReadMissing end
  else ReadError.

Definition WriteFile (path : string) (data : buf) (f : FS) : bool * FS :=
  match next_io f with
  | IoOk => (true, set_files (<[path := data]> (fs_files f)) f)
  | IoFail => (false, tick f)
  | IoPartial n => (false, set_files (<[path := take n data]> (fs_files f)) f)
  end.

Definition Rename (old new : string) (f : FS) : bool * FS :=
  match next_io f, fs_files f !! old with
  | IoOk, Some b => (true, set_files (<[new := b]> (delete old (fs_files f))) f)
  | _, _ => (false, tick f)
  end.

(** [os.Remove]; the caller of the model's [DeleteSecret] treats a missing file
    as success. *)
Inductive remove_result : Type := Removed | RemoveMissing | RemoveError.
Definition Remove (path : string) (f : FS) : remove_result * FS :=
  match next_io f with
  | IoOk => match fs_files f !! path with
            | Some _ => (Removed, set_files (delete path (fs_files f)) f)
            | None => (RemoveMissing, tick f)
            end
  | _ => (RemoveError, tick f)
  end.

Definition stateFileName : string := "host.json.enc".
Definition keyFileName : string := "host.key".
Definition hostKeyPairFile : string := "host_keypair.enc".
Definition keySize : nat := 32.
(** The length of fresh key material, in [loadOrCreateKey]. *)
Definition materialSize : nat := 64.
Definition naclKeySize : nat := 32.
Definition naclNonceSize : nat := 24.
(** [filepath.Join(configDir, secretsDirName, id+".enc")], for plain ids. *)
Definition secret_path (id : string) : string := "secrets/" +:+ id +:+ ".enc".
Definition tmp_path (p : string) : string := p +:+ ".tmp".

(** The probe of [checkWritable]: a file made and removed again. *)
Definition writeProbe : string := ".write-probe".
Definition checkWritable (f : FS) : result string unit * FS :=
  let '(ok, f1) := WriteFile writeProbe [] f in
  if ok : bool then (Ok tt, snd (Remove writeProbe f1)) else (Err "cannot write to the config dir", f1).

(** [generateID]: sixteen random bytes in hexadecimal. *)
Definition generateID (b : buf) : string := hex (take 16 b).

(** The write discipline of every save: temporary file, then rename. *)
Definition write_atomic (path : string) (data : buf) (f : FS) : result string unit * FS :=
  let '(ok, f1) := WriteFile (tmp_path path) data f in
  if negb ok then (Err "write", f1)
  else
    let '(ok2, f2) := Rename (tmp_path path) path f1 in
    if ok2 then (Ok tt, f2) else (Err "rename", snd (Remove (tmp_path path) f2)).

(** ** Encryption *)

Section Crypto.
(** AES-256-GCM of the standard library, with a 12-byte nonce. *)
Context (gcm_seal : buf -> buf -> buf -> buf).
Context (gcm_open : buf -> buf -> buf -> option buf).
Context (sha256 : buf -> buf).
(** JSON of the two persisted types. *)
Context (marshal_state : HostState -> buf) (unmarshal_state : buf -> option HostState).
Context (marshal_creds : Creds -> buf) (unmarshal_creds : buf -> option Creds).

Definition nonceSize : nat := 12.

(** A store is the file system and the derived key. *)
Record Store : Type := {
  so_key : buf;
  so_fs : FS;
}.

Definition encrypt (plaintext : buf) (s : Store) : buf * Store :=
  let nonce := take nonceSize (fs_rand (so_fs s) (fs_tick (so_fs s))) in
  (nonce ++ gcm_seal (so_key s) nonce plaintext, Build_Store (so_key s) (tick (so_fs s))).

Definition decrypt (ciphertext : buf) (s : Store) : result string buf :=
  if (length ciphertext <? nonceSize)%nat then Err "ciphertext too short"
  else match gcm_open (so_key s) (take nonceSize ciphertext) (drop nonceSize ciphertext) with
       | Some p => Ok p
       | None => Err "cipher: message authentication failed"
       end.

(** Reading a file, decrypting and decoding it. *)
Definition load_file {A} (decode : buf -> option A) (path : string) (s : Store)
    : result string (option A) :=
  match ReadFile path (so_fs s) with
  | ReadMissing => Ok None
  | ReadError => Err "read"
  | ReadOk c => match decrypt c s with
                | Err m => Err m
                | Ok p => match decode p with Some a => Ok (Some a) | None => Err "unmarshal" end
                end
  end.

Definition save_file (path : string) (plaintext : buf) (s : Store)
    : result string unit * Store :=
  let '(c, s1) := encrypt plaintext s in
  let '(r, f) := write_atomic path c (so_fs s1) in
  (r, Build_Store (so_key s) f).

Definition store_LoadState (s : Store) := load_file unmarshal_state stateFileName s.
Definition store_SaveState (h : HostState) (s : Store) :=
  save_file stateFileName (marshal_state h) s.
Definition store_LoadSecret (id : string) (s : Store) :=
  load_file unmarshal_creds (secret_path id) s.
Definition store_SaveSecret (id : string) (c : Creds) (s : Store) :=
  save_file (secret_path id) (marshal_creds c) s.
Definition store_DeleteSecret (id : string) (s : Store) : result string unit * Store :=
  let '(r, f) := Remove (secret_path id) (so_fs s) in
  (match r with RemoveError => Err "delete secret" | _ => Ok tt end, Build_Store (so_key s) f).

(** The key file: reused when it can be read and is long enough, otherwise
    replaced by fresh material. *)
Definition loadOrCreateKey (f : FS) : result string Store :=
  let fresh (_ : unit) :=
    let material := take materialSize (fs_rand f (fs_tick f)) in
    let '(ok, f') := WriteFile keyFileName material (tick f) in
    if ok then Ok (Build_Store (sha256 material) f') else Err "write key" in
  match ReadFile keyFileName f with
  | ReadOk data => if (keySize <=? length data)%nat then Ok (Build_Store (sha256 data) (tick f))
                   else fresh tt
  | _ => fresh tt
  end.

(** ** Host key pair *)

Record HostKeyPair : Type := { kp_PublicKey : buf; kp_PrivateKey : buf }.

Definition SaveKeyPair (kp : HostKeyPair) (s : Store) : result string unit * Store :=
  save_file hostKeyPairFile (kp_PublicKey kp ++ kp_PrivateKey kp) s.

Definition LoadKeyPair (s : Store) : result string (option HostKeyPair) :=
  match ReadFile hostKeyPairFile (so_fs s) with
  | ReadMissing => Ok None
  | ReadError => Err "read keypair"
  | ReadOk c =>
      match decrypt c s with
      | Err m => Err m
      | Ok raw =>
          if (length raw =? naclKeySize * 2)%nat
          then Ok (Some (Build_HostKeyPair (take naclKeySize raw) (drop naclKeySize raw)))
          else Err "invalid keypair data length"
      end
  end.
End Crypto.

Arguments so_key : clear implicits.
Arguments so_fs : clear implicits.

(** ** Facts *)

(** A name that is not a temporary one. *)
Definition final_name (p : string) : Prop := last (bytes p) <> Some "p"%char.

Lemma tmp_path_last p : last (bytes (tmp_path p)) = Some "p"%char.
Proof. unfold tmp_path. rewrite bytes_app. by rewrite last_app. Qed.

Lemma tmp_path_neq p q : final_name q -> tmp_path p <> q.
Proof. intros Hq <-. by apply Hq, tmp_path_last. Qed.

Lemma secret_path_final id : final_name (secret_path id).
Proof. unfold final_name, secret_path. rewrite !bytes_app, app_assoc, last_app. done. Qed.
Lemma stateFile_final : final_name stateFileName.
Proof. done. Qed.
Lemma keyPair_final : final_name hostKeyPairFile.
Proof. done. Qed.

Lemma secret_path_inj id id' : secret_path id = secret_path id' -> id = id'.
Proof.
  unfold secret_path. intros H. apply (f_equal bytes) in H. rewrite !bytes_app in H.
  apply app_inj_1 in H as [_ H]; [|done]. apply app_inj_2 in H as [H _]; [|done].
  by apply bytes_inj.
Qed.
Lemma secret_not_state id : secret_path id <> stateFileName.
Proof. done. Qed.

(** A save either replaces the file or leaves it, and touches no other final
    name, whichever of its file operations fails and however. *)
Lemma write_atomic_spec path data f :
  final_name path ->
  let '(r, f') := write_atomic path data f in
  fs_files f' !! path = (if is_ok r then Some data else fs_files f !! path)
  /\ (forall q, final_name q -> q <> path -> fs_files f' !! q = fs_files f !! q)
  /\ fs_readable f' = fs_readable f /\ fs_rand f' = fs_rand f /\ fs_io f' = fs_io f.
Proof.
  intros Hp. pose proof (tmp_path_neq path path Hp) as Hne.
  assert (Hq : forall q, final_name q -> tmp_path path <> q) by (intros; by apply tmp_path_neq).
  unfold write_atomic, WriteFile. destruct (next_io f); simpl.
  - unfold Rename, next_io. simpl. rewrite lookup_insert_eq.
    assert (Hrm : forall f1, fs_files f1 = <[tmp_path path := data]> (fs_files f) ->
      forall q, final_name q -> fs_files (Remove (tmp_path path) f1).2 !! q = fs_files f !! q).
    { intros f1 E q Hfq. unfold Remove. destruct (next_io f1); simpl; rewrite ?E;
        [rewrite lookup_insert_eq; simpl; rewrite lookup_delete_ne by auto|..];
        rewrite ?E; by rewrite lookup_insert_ne by auto. }
    assert (Hrf : forall f1, fs_readable (Remove (tmp_path path) f1).2 = fs_readable f1
      /\ fs_rand (Remove (tmp_path path) f1).2 = fs_rand f1
      /\ fs_io (Remove (tmp_path path) f1).2 = fs_io f1).
    { intros f1. unfold Remove. destruct (next_io f1); [destruct (_ !! _)|..]; done. }
    destruct (fs_io f (S (fs_tick f))); simpl.
    + split_and!; [by rewrite lookup_insert_eq| |done|done|done].
      intros q Hfq Hqp. rewrite lookup_insert_ne by done.
      rewrite delete_insert_eq. by rewrite lookup_delete_ne by auto.
    + destruct (Hrf (tick (set_files (<[tmp_path path := data]> (fs_files f)) f)))
        as (-> & -> & ->). split_and!; [by apply Hrm|intros; by apply Hrm|done..].
    + destruct (Hrf (tick (set_files (<[tmp_path path := data]> (fs_files f)) f)))
        as (-> & -> & ->). split_and!; [by apply Hrm|intros; by apply Hrm|done..].
  - by split_and!.
  - split_and!; [by rewrite lookup_insert_ne| |done|done|done].
    intros q Hfq Hqp. by rewrite lookup_insert_ne by auto.
Qed.

Section Laws.
Context (gcm_seal : buf -> buf -> buf -> buf) (gcm_open : buf -> buf -> buf -> option buf).
Context (marshal_state : HostState -> buf) (unmarshal_state : buf -> option HostState).
Context (marshal_creds : Creds -> buf) (unmarshal_creds : buf -> option Creds).
Hypothesis gcm_correct : forall k n p, gcm_open k n (gcm_seal k n p) = Some p.
Hypothesis state_codec : forall h, unmarshal_state (marshal_state h) = Some h.
Hypothesis creds_codec : forall c, unmarshal_creds (marshal_creds c) = Some c.

(** The directory is readable and the system delivers the random bytes asked
    for, at most the size of fresh key material. *)
Definition fs_ok (s : Store) : Prop :=
  fs_readable (so_fs s) = true /\ forall n, (materialSize <= length (fs_rand (so_fs s) n))%nat.

Lemma nonce_length s n : fs_ok s -> length (take nonceSize (fs_rand (so_fs s) n)) = nonceSize.
Proof. intros [_ Hn]. specialize (Hn n). unfold materialSize, nonceSize in *. rewrite length_take. lia. Qed.

Lemma decrypt_encrypt p s :
  fs_ok s -> decrypt gcm_open (fst (encrypt gcm_seal p s)) s = Ok p.
Proof.
  intros Hok. pose proof (nonce_length s (fs_tick (so_fs s)) Hok) as Hn. unfold decrypt, encrypt. cbn [fst snd].
  rewrite length_app, Hn. destruct (Nat.ltb_spec (nonceSize + length (gcm_seal (so_key s)
    (take nonceSize (fs_rand (so_fs s) (fs_tick (so_fs s)))) p)) nonceSize); [lia|].
  rewrite take_app_length' by done. rewrite drop_app_length' by done.
  by rewrite gcm_correct.
Qed.

Lemma decrypt_ext c s s' : so_key s' = so_key s -> decrypt gcm_open c s' = decrypt gcm_open c s.
Proof. intros H. unfold decrypt. by rewrite H. Qed.

Lemma save_file_spec path p s :
  fs_ok s -> final_name path ->
  let '(r, s') := save_file gcm_seal path p s in
  fs_ok s' /\ so_key s' = so_key s
  /\ fs_files (so_fs s') !! path
     = (if is_ok r then Some (fst (encrypt gcm_seal p s)) else fs_files (so_fs s) !! path)
  /\ (forall q, final_name q -> q <> path ->
       fs_files (so_fs s') !! q = fs_files (so_fs s) !! q).
Proof.
  intros [Hr Hn] Hp. unfold save_file. cbn [encrypt so_fs fst snd].
  pose proof (write_atomic_spec path (fst (encrypt gcm_seal p s)) (tick (so_fs s)) Hp) as H.
  destruct (write_atomic _ _ _) as [r f']. destruct H as (H1 & H2 & H3 & H4 & H5).
  split_and!; simpl; [|done|done|done]. split; simpl; [by rewrite H3|]. by rewrite H4.
Qed.

(** A load looks at one file only. *)
Lemma load_file_ext {A} (decode : buf -> option A) path s s' :
  fs_readable (so_fs s') = fs_readable (so_fs s) -> so_key s' = so_key s ->
  fs_files (so_fs s') !! path = fs_files (so_fs s) !! path ->
  load_file gcm_open decode path s' = load_file gcm_open decode path s.
Proof. intros H1 H2 H3. unfold load_file, ReadFile, decrypt. by rewrite H1, H2, H3. Qed.

Lemma save_load {A} (decode : buf -> option A) path p a s :
  fs_ok s -> final_name path -> decode p = Some a ->
  match save_file gcm_seal path p s with
  | (Ok _, s') => load_file gcm_open decode path s' = Ok (Some a)
  | (Err _, s') => load_file gcm_open decode path s' = load_file gcm_open decode path s
  end.
Proof.
  intros Hok Hp Hd. pose proof (save_file_spec path p s Hok Hp) as H.
  destruct (save_file _ _ _ _) as [[[]|m] s']; destruct H as ([Hr Hn] & Hk & Hf & _); cbn [is_ok] in Hf.
  - unfold load_file, ReadFile. rewrite Hr, Hf.
    rewrite (decrypt_ext _ _ _ Hk), (decrypt_encrypt p s Hok). by rewrite Hd.
  - apply load_file_ext; [|done|done]. by rewrite Hr, (proj1 Hok).
Qed.

Lemma save_other {A} (decode : buf -> option A) path p q s :
  fs_ok s -> final_name path -> final_name q -> q <> path ->
  load_file gcm_open decode q (snd (save_file gcm_seal path p s)) = load_file gcm_open decode q s.
Proof.
  intros Hok Hp Hq Hne. pose proof (save_file_spec path p s Hok Hp) as H.
  destruct (save_file _ _ _ _) as [r s']; destruct H as ([Hr Hn] & Hk & _ & Ho).
  cbn [snd]. apply load_file_ext; [by rewrite Hr, (proj1 Hok)|done|by apply Ho].
Qed.

(** Removing a secret. *)
Lemma remove_spec path s :
  let '(r, f') := Remove path (so_fs s) in
  fs_readable f' = fs_readable (so_fs s) /\ fs_rand f' = fs_rand (so_fs s)
  /\ fs_files f' !! path = match r with RemoveError => fs_files (so_fs s) !! path | _ => None end
  /\ forall q, q <> path -> fs_files f' !! q = fs_files (so_fs s) !! q.
Proof.
  unfold Remove. destruct (next_io (so_fs s)); [|done..].
  destruct (fs_files (so_fs s) !! path) eqn:E; simpl; split_and!; try done.
  - apply lookup_delete_eq.
  - intros q Hq. by rewrite lookup_delete_ne.
Qed.

#[local] Instance fileStoreOps : StoreOps Store := {|
  LoadSecret := store_LoadSecret gcm_open unmarshal_creds;
  SaveSecret := store_SaveSecret gcm_seal marshal_creds;
  DeleteSecret := store_DeleteSecret;
  LoadState := store_LoadState gcm_open unmarshal_state;
  SaveState := store_SaveState gcm_seal marshal_state;
|}.

Lemma save_file_ok path p s :
  fs_ok s -> final_name path -> fs_ok (snd (save_file gcm_seal path p s)).
Proof.
  intros Hok Hp. pose proof (save_file_spec path p s Hok Hp) as H.
  destruct (save_file _ _ _ _). by destruct H.
Qed.

Lemma delete_load {A} (decode : buf -> option A) id q s :
  fs_ok s ->
  let '(r, s') := store_DeleteSecret id s in
  fs_ok s'
  /\ (q <> secret_path id ->
      load_file gcm_open decode q s' = load_file gcm_open decode q s)
  /\ load_file gcm_open decode (secret_path id) s'
     = (if is_ok r then Ok None else load_file gcm_open decode (secret_path id) s).
Proof.
  intros [Hr Hn]. unfold store_DeleteSecret. pose proof (remove_spec (secret_path id) s) as H.
  destruct (Remove _ _) as [r f']. destruct H as (H1 & H2 & H3 & H4). split_and!.
  - split; simpl; [by rewrite H1|by rewrite H2].
  - intros Hq. apply load_file_ext; simpl; auto.
  - destruct r; simpl; (unfold load_file, ReadFile; simpl; rewrite H1, H3, Hr; done).
Qed.

(** The file store keeps the promises of the interface. *)
#[local] Instance fileStoreLaws : StoreLaws Store.
Proof.
  apply (Build_StoreLaws Store fileStoreOps fs_ok); simpl; intros.
  - by apply save_file_ok, secret_path_final.
  - pose proof (delete_load (A:=Creds) unmarshal_creds id stateFileName s) as H'.
    destruct (store_DeleteSecret id s). by apply H'.
  - by apply save_file_ok, stateFile_final.
  - apply save_load; [done|apply secret_path_final|apply creds_codec].
  - apply save_other; [done|apply secret_path_final..|]. intros E%secret_path_inj. congruence.
  - pose proof (delete_load unmarshal_creds id stateFileName s) as H'.
    destruct (store_DeleteSecret id s) as [[]]; by apply H'.
  - pose proof (delete_load unmarshal_creds id (secret_path id') s) as H'.
    unfold store_LoadSecret. destruct (store_DeleteSecret id s) as [? ?]. apply H'; [done|].
    intros E%secret_path_inj. congruence.
  - apply save_load; [done|apply stateFile_final|apply state_codec].
  - apply save_other; [done|apply stateFile_final|apply secret_path_final|apply secret_not_state].
  - apply save_other; [done|apply secret_path_final|apply stateFile_final|].
    intros E. by apply (secret_not_state id).
  - pose proof (delete_load unmarshal_state id stateFileName s) as H'.
    unfold store_LoadState. destruct (store_DeleteSecret id s) as [? ?]. apply H'; [done|].
    intros E. by apply (secret_not_state id).
Defined.
End Laws.

(** ** Credential envelopes ([src/crypto.go]) *)

Section Envelope.
(** NaCl box and the standard base64 encoding. *)
Context (box_seal : buf -> buf -> buf -> buf -> buf).
Context (box_open : buf -> buf -> buf -> buf -> option buf).
Context (b64_encode : buf -> string) (b64_decode : string -> option buf).

Definition box_Overhead : nat := 16.

Definition DecryptCredentialPayload (encryptedBlob : string) (kp : HostKeyPair)
    : result string buf :=
  match b64_decode encryptedBlob with
  | None => Err "decode encrypted blob"
  | Some data =>
      if (length data <? naclKeySize + naclNonceSize + box_Overhead)%nat
      then Err "encrypted blob too short"
      else
        let senderPub := take naclKeySize data in
        let nonce := take naclNonceSize (drop naclKeySize data) in
        let ciphertext := drop (naclKeySize + naclNonceSize) data in
        match box_open ciphertext nonce senderPub (kp_PrivateKey kp) with
        | None => Err "decryption failed: invalid ciphertext or wrong key"
        | Some p => Ok p
        end
  end.

(** [sender] is the ephemeral key pair and [nonce] the random nonce. *)
Definition EncryptForHost (sender : HostKeyPair) (nonce plaintext hostPublicKey : buf) : string :=
  b64_encode (kp_PublicKey sender ++ nonce
              ++ box_seal plaintext nonce hostPublicKey (kp_PrivateKey sender)).
End Envelope.

(** ** Legacy configuration ([src/store.go], [src/legacy_config.go]) *)

Record LegacyConfig : Type := {
  lc_ConnectorToken : string;
  lc_BackendURL : string;
  lc_TargetType : string;
  lc_ProxmoxBaseURL : string;
  lc_ProxmoxUsername : string;
  lc_ProxmoxPassword : string;
  lc_ProxmoxTokenID : string;
  lc_ProxmoxTokenSecret : string;
  lc_ProxmoxNode : string;
  lc_TrueNASURL : string;
  lc_TrueNASAPIKey : string;
  lc_PollIntervalSecs : Z;
  lc_InsecureSkipVerify : bool;
}.

(** [hostID] and [targetID] are the two values of [generateID]. *)
Definition ImportLegacyEnvConfig (hostID targetID : string) (cfg : LegacyConfig)
    : HostState * Creds :=
  let proxmox := String.eqb (lc_TargetType cfg) "proxmox" in
  let truenas := String.eqb (lc_TargetType cfg) "truenas" in
  let endpoint := if proxmox then lc_ProxmoxBaseURL cfg
                  else if truenas then lc_TrueNASURL cfg else "" in
  let tls := if proxmox || truenas
             then Build_TLSConfig (lc_InsecureSkipVerify cfg) "" "" "" "" else zeroTLS in
  let token := negb (String.eqb (lc_ProxmoxTokenID cfg) "") in
  let target_config : payload :=
    if proxmox then
      let m : payload := if token then <["token_id" := VString (lc_ProxmoxTokenID cfg)]> ∅
                         else <["username" := VString (lc_ProxmoxUsername cfg)]> ∅ in
      if String.eqb (lc_ProxmoxNode cfg) "" then m
      else <["node" := VString (lc_ProxmoxNode cfg)]> m
    else ∅ in
  let creds : Creds :=
    if proxmox then
      if token then <["token_secret" := lc_ProxmoxTokenSecret cfg]> ∅
      else <["password" := lc_ProxmoxPassword cfg]> ∅
    else if truenas then <["api_key" := lc_TrueNASAPIKey cfg]> ∅ else ∅ in
  let profile := Build_TargetProfile targetID ("Legacy " +:+ lc_TargetType cfg +:+ " target")
    (lc_TargetType cfg) "read-only" true TargetStatusPending endpoint tls zeroProxy "" ∅ []
    (lc_PollIntervalSecs cfg) zeroLimits false "" targetID 0 1 0 target_config in
  let c := DefaultHostConfig in
  let config := Build_HostConfig (hc_LogLevel c) (hc_MaxConcurrentWorkers c)
    (hc_WatchdogTimeoutSecs c) (hc_AutoUpdatePolicy c) (hc_PinnedPublicKey c)
    (lc_InsecureSkipVerify cfg) (hc_SyncIntervalSecs c) (hc_LocalRetentionDays c)
    (hc_LanOnly c) (hc_RemoteLiveQueryEnabled c) (hc_RemoteRestartEnabled c) in
  (Build_HostState
     (Build_HostIdentity hostID ("legacy-" +:+ lc_TargetType cfg +:+ "-host") 0
        (lc_ConnectorToken cfg) (lc_BackendURL cfg) "")
     config [profile] zeroUpdate 1 0 0 "", creds).

(** ** Properties *)


(** The host key pair survives a save and a load. *)
Theorem keypair_roundtrip gcm_seal gcm_open
    (Hgcm : forall k n p, gcm_open k n (gcm_seal k n p) = Some p)
    (s : Store) (kp : HostKeyPair) (Hok : fs_ok s)
    (Hpub : length (kp_PublicKey kp) = naclKeySize)
    (Hpriv : length (kp_PrivateKey kp) = naclKeySize) :
  let '(r, s') := SaveKeyPair gcm_seal kp s in
  LoadKeyPair gcm_open s' = (if is_ok r then Ok (Some kp) else LoadKeyPair gcm_open s).
Proof.
  unfold SaveKeyPair, LoadKeyPair.
  pose proof (save_file_spec gcm_seal hostKeyPairFile (kp_PublicKey kp ++ kp_PrivateKey kp) s
    Hok keyPair_final) as H.
  destruct (save_file _ _ _ _) as [[[]|m] s']; destruct H as ([Hr Hn] & Hk & Hf & _);
    cbn [is_ok] in *; unfold ReadFile; rewrite Hr, Hf.
  - rewrite (decrypt_ext gcm_open _ _ _ Hk), (decrypt_encrypt gcm_seal gcm_open Hgcm _ s Hok).
    rewrite length_app, Hpub, Hpriv. simpl.
    rewrite take_app_length' by done. rewrite drop_app_length' by done. by destruct kp.
  - rewrite (proj1 Hok). simpl.
    destruct (fs_files (so_fs s) !! hostKeyPairFile); [|done]. by rewrite (decrypt_ext gcm_open _ _ _ Hk).
Qed.

(** Opening a store twice gives the same key: what the first run encrypted
    the next run can decrypt, as long as the key file can be read. *)
Theorem key_is_stable (sha256 : buf -> buf) (f : FS) (s : Store)
    (Hopen : loadOrCreateKey sha256 f = Ok s) (Hread : fs_readable f = true)
    (Hrand : forall n, (materialSize <= length (fs_rand f n))%nat) :
  exists s', loadOrCreateKey sha256 (so_fs s) = Ok s' /\ so_key s' = so_key s
    /\ fs_files (so_fs s') = fs_files (so_fs s).
Proof.
  assert (fs_readable (so_fs s) = true /\ exists data, fs_files (so_fs s) !! keyFileName
    = Some data /\ (keySize <= length data)%nat /\ so_key s = sha256 data) as (Hr & data & H1 & H2 & H3).
  { unfold loadOrCreateKey, ReadFile, WriteFile in Hopen. rewrite Hread in Hopen.
    destruct (fs_files f !! keyFileName) as [d|] eqn:E;
      [destruct (Nat.leb_spec keySize (length d))|]; simpl in Hopen;
      repeat case_match; simplify_eq/=; (split; [done|]); eexists;
      (split_and!; [try apply lookup_insert_eq; done|try done; rewrite length_take; specialize (Hrand (fs_tick f)); unfold keySize, materialSize in *; lia|done]). }
  unfold loadOrCreateKey, ReadFile. rewrite Hr, H1.
  destruct (Nat.leb_spec keySize (length data)); [|lia].
  eexists. split_and!; [done|by rewrite H3|done].
Qed.

(** Identifiers have 32 hexadecimal digits and differ when the random bytes do. *)
Lemma generateID_length b : (16 <= length b)%nat -> String.length (generateID b) = 32%nat.
Proof. intros H. unfold generateID. rewrite hex_length, length_take. lia. Qed.
Lemma generateID_inj a b : generateID a = generateID b -> take 16 a = take 16 b.
Proof. apply hex_inj. Qed.

(** ** Concrete instances *)

(** A toy cipher and a codec of credentials into bytes, one byte per bit of
    their code as a number. *)
Fixpoint bits (p : positive) : buf :=
  match p with xH => [] | xO q => x00 :: bits q | xI q => x01 :: bits q end.
Fixpoint unbits (l : buf) : positive :=
  match l with
  | [] => xH
  | b :: r => if Byte.eqb b x00 then xO (unbits r) else xI (unbits r)
  end.
Lemma unbits_bits p : unbits (bits p) = p.
Proof. induction p as [p IH|p IH|]; simpl; by rewrite ?IH. Qed.
Definition toy_seal (k n p : buf) : buf := p.
Definition toy_open (k n c : buf) : option buf := Some c.
Definition toy_marshal (c : Creds) : buf := bits (encode c).
Definition toy_unmarshal (b : buf) : option Creds := decode (unbits b).
Lemma toy_codec c : toy_unmarshal (toy_marshal c) = Some c.
Proof. unfold toy_unmarshal, toy_marshal. by rewrite unbits_bits, decode_encode. Qed.

(** The first write succeeds, the second is torn after five bytes. *)
Definition toy_fs : FS :=
  Build_FS ∅ true (fun n => if (n <? 4)%nat then IoOk else IoPartial 5) (fun _ => replicate materialSize x00) 0.
Definition toy_store : Store := Build_Store [] toy_fs.
Definition toy_save := store_SaveSecret toy_seal toy_marshal.
Definition toy_load := store_LoadSecret toy_open toy_unmarshal.


Lemma keypair_roundtrip_witness :
  let kp := Build_HostKeyPair (replicate 32 x01) (replicate 32 x02) in
  LoadKeyPair toy_open (snd (SaveKeyPair toy_seal kp toy_store)) = Ok (Some kp).
Proof.
  intros kp. pose proof (keypair_roundtrip toy_seal toy_open ltac:(reflexivity) toy_store kp
    ltac:(split; reflexivity) eq_refl eq_refl) as H.
  destruct (SaveKeyPair toy_seal kp toy_store) as [r s'] eqn:E. refine (eq_trans H _).
  replace r with (@Ok string unit tt); [reflexivity|].
  change r with (fst (r, s')). rewrite <- E. vm_compute. reflexivity.
Defined.

Lemma key_is_stable_witness :
  let f := Build_FS ∅ true (fun _ => IoOk) (fun _ => replicate 64 x07) 0 in
  match loadOrCreateKey (fun b => b) f with
  | Ok s => exists s', loadOrCreateKey (fun b => b) (so_fs s) = Ok s' /\ so_key s' = so_key s
  | Err _ => False
  end.
Proof.
  intros f. destruct (loadOrCreateKey (fun b => b) f) as [s|m] eqn:E.
  - destruct (key_is_stable (fun b => b) f s E eq_refl
      ltac:(intros n; apply Nat.leb_le; reflexivity)) as (s' & H1 & H2 & _).
    exists s'. split; [exact H1|exact H2].
  - discriminate E.
Defined.
