(* ===== verification/Worker.v ===== *)
(** The per-target collection worker ([src/worker.go]): its state, the
    collection cycle, error escalation, heartbeats, and the lifecycle. *)
From S2P Require Import Prelude GoTime Types Metrics UploadQueue LocalDB.
From Stdlib Require Import QArith Qround.

Local Open Scope Z_scope.

Definition HostVersion : string := "0.7.0-dev".

(** ** State *)

(** The context is [wk_cancelled]; [wk_stopped] and [wk_done] (the [done]
    channel is closed) are set when [run] returns; [wk_runs] counts the [run]
    goroutines that have not returned. *)
Record Worker : Type := {
  wk_profile : TargetProfile;
  wk_state : WorkerState;
  wk_policy : RetryPolicy;
  wk_cancelled : bool;
  wk_stopped : bool;
  wk_done : bool;
  wk_runs : nat;
  wk_hostToken : string;
  wk_localAPIURL : string;
  wk_localAPIToken : string;
  wk_lanOnly : bool;
  wk_lastHeartbeatWarn : GoTime;
  wk_hasCallback : bool;
}.

Record WorkerConfig : Type := {
  wc_Profile : TargetProfile;
  wc_Policy : RetryPolicy;
  wc_HostToken : string;
  wc_LocalAPIURL : string;
  wc_LocalAPIToken : string;
  wc_LanOnly : bool;
  wc_HasCallback : bool;
}.

Definition zeroWorkerState (id : string) (st : WorkerStatus) : WorkerState :=
  {| ws_TargetID := id; ws_Status := st; ws_LastCollectionAt := 0; ws_LastErrorAt := 0;
     ws_LastError := ""; ws_ConsecutiveErrors := 0; ws_TotalCollections := 0;
     ws_StartedAt := 0; ws_CurrentStage := ""; ws_LastProgressAt := 0;
     ws_NextScheduledAt := 0; ws_RestartCount := 0; ws_LastRestartAt := 0;
     ws_CycleStartedAt := 0 |}.

Definition NewWorker (cfg : WorkerConfig) : Worker :=
  {| wk_profile := wc_Profile cfg;
     wk_state := zeroWorkerState (tp_TargetID (wc_Profile cfg)) WorkerStatusIdle;
     wk_policy := wc_Policy cfg; wk_cancelled := false; wk_stopped := false;
     wk_done := false; wk_runs := 0; wk_hostToken := wc_HostToken cfg;
     wk_localAPIURL := wc_LocalAPIURL cfg; wk_localAPIToken := wc_LocalAPIToken cfg;
     wk_lanOnly := wc_LanOnly cfg; wk_lastHeartbeatWarn := 0;
     wk_hasCallback := wc_HasCallback cfg |}.

(** Field assignments on the worker state. *)
Definition st_status (s : WorkerStatus) (w : WorkerState) : WorkerState :=
  Build_WorkerState (ws_TargetID w) s (ws_LastCollectionAt w) (ws_LastErrorAt w)
    (ws_LastError w) (ws_ConsecutiveErrors w) (ws_TotalCollections w) (ws_StartedAt w)
    (ws_CurrentStage w) (ws_LastProgressAt w) (ws_NextScheduledAt w) (ws_RestartCount w)
    (ws_LastRestartAt w) (ws_CycleStartedAt w).
Definition st_error (n : Z) (at_ : GoTime) (e : string) (w : WorkerState) : WorkerState :=
  Build_WorkerState (ws_TargetID w) (ws_Status w) (ws_LastCollectionAt w) at_ e n
    (ws_TotalCollections w) (ws_StartedAt w) (ws_CurrentStage w) (ws_LastProgressAt w)
    (ws_NextScheduledAt w) (ws_RestartCount w) (ws_LastRestartAt w) (ws_CycleStartedAt w).
Definition st_collected (at_ : GoTime) (w : WorkerState) : WorkerState :=
  Build_WorkerState (ws_TargetID w) (ws_Status w) at_ 0 "" 0 (ws_TotalCollections w + 1)
    (ws_StartedAt w) (ws_CurrentStage w) (ws_LastProgressAt w) (ws_NextScheduledAt w)
    (ws_RestartCount w) (ws_LastRestartAt w) (ws_CycleStartedAt w).
Definition st_started (at_ : GoTime) (w : WorkerState) : WorkerState :=
  Build_WorkerState (ws_TargetID w) WorkerStatusStarting (ws_LastCollectionAt w)
    (ws_LastErrorAt w) (ws_LastError w) 0 (ws_TotalCollections w) at_ (ws_CurrentStage w)
    (ws_LastProgressAt w) (ws_NextScheduledAt w) (ws_RestartCount w) (ws_LastRestartAt w)
    (ws_CycleStartedAt w).
Definition st_stage (stage : string) (at_ : GoTime) (w : WorkerState) : WorkerState :=
  Build_WorkerState (ws_TargetID w) (ws_Status w) (ws_LastCollectionAt w) (ws_LastErrorAt w)
    (ws_LastError w) (ws_ConsecutiveErrors w) (ws_TotalCollections w) (ws_StartedAt w)
    stage at_ (ws_NextScheduledAt w) (ws_RestartCount w) (ws_LastRestartAt w)
    (ws_CycleStartedAt w).
Definition st_next (at_ : GoTime) (w : WorkerState) : WorkerState :=
  Build_WorkerState (ws_TargetID w) (ws_Status w) (ws_LastCollectionAt w) (ws_LastErrorAt w)
    (ws_LastError w) (ws_ConsecutiveErrors w) (ws_TotalCollections w) (ws_StartedAt w)
    (ws_CurrentStage w) (ws_LastProgressAt w) at_ (ws_RestartCount w) (ws_LastRestartAt w)
    (ws_CycleStartedAt w).
Definition st_cycle (at_ : GoTime) (w : WorkerState) : WorkerState :=
  Build_WorkerState (ws_TargetID w) (ws_Status w) (ws_LastCollectionAt w) (ws_LastErrorAt w)
    (ws_LastError w) (ws_ConsecutiveErrors w) (ws_TotalCollections w) (ws_StartedAt w)
    (ws_CurrentStage w) (ws_LastProgressAt w) (ws_NextScheduledAt w) (ws_RestartCount w)
    (ws_LastRestartAt w) at_.
Definition st_restart (at_ : GoTime) (w : WorkerState) : WorkerState :=
  Build_WorkerState (ws_TargetID w) (ws_Status w) (ws_LastCollectionAt w) (ws_LastErrorAt w)
    (ws_LastError w) (ws_ConsecutiveErrors w) (ws_TotalCollections w) (ws_StartedAt w)
    (ws_CurrentStage w) (ws_LastProgressAt w) (ws_NextScheduledAt w) (ws_RestartCount w + 1)
    at_ (ws_CycleStartedAt w).

Definition set_wk_state (s : WorkerState) (w : Worker) : Worker :=
  Build_Worker (wk_profile w) s (wk_policy w) (wk_cancelled w) (wk_stopped w) (wk_done w)
    (wk_runs w) (wk_hostToken w) (wk_localAPIURL w) (wk_localAPIToken w) (wk_lanOnly w)
    (wk_lastHeartbeatWarn w) (wk_hasCallback w).
Definition set_wk_run (cancelled stopped done_ : bool) (runs : nat) (w : Worker) : Worker :=
  Build_Worker (wk_profile w) (wk_state w) (wk_policy w) cancelled stopped done_ runs
    (wk_hostToken w) (wk_localAPIURL w) (wk_localAPIToken w) (wk_lanOnly w)
    (wk_lastHeartbeatWarn w) (wk_hasCallback w).
Definition set_wk_lanOnly (v : bool) (w : Worker) : Worker :=
  Build_Worker (wk_profile w) (wk_state w) (wk_policy w) (wk_cancelled w) (wk_stopped w)
    (wk_done w) (wk_runs w) (wk_hostToken w) (wk_localAPIURL w) (wk_localAPIToken w) v
    (wk_lastHeartbeatWarn w) (wk_hasCallback w).
Definition set_wk_warn (t : GoTime) (w : Worker) : Worker :=
  Build_Worker (wk_profile w) (wk_state w) (wk_policy w) (wk_cancelled w) (wk_stopped w)
    (wk_done w) (wk_runs w) (wk_hostToken w) (wk_localAPIURL w) (wk_localAPIToken w)
    (wk_lanOnly w) t (wk_hasCallback w).

(** ** Effects *)

Inductive event : Type :=
| EvPost (token : string) (p : payload) (delivered : bool)
| EvNotify (targetID : string) (status : WorkerStatus)
| EvSleep (d : Duration)
| EvAdapterClose.

(** What the adapter's [Collect] returns on success: the payload, and the typed
    slices it may hold under [_subCalls] and [_signals]. *)
Record collected : Type := {
  co_payload : payload;
  co_subCalls : option (list SubCallMetric);
  co_signals : option (list SnapshotSignal);
}.

(** The outside world as the worker sees it.  The [n]-th question a worker asks
    is answered by the function at [n], so that successive clock readings and
    calls may all differ. *)
Record env : Type := {
  e_now : nat -> GoTime;
  e_post : nat -> option string;
  e_init : nat -> option string;
  e_health : nat -> option string;
  e_collect : nat -> result string collected;
  e_genID : nat -> string;
  e_commit : nat -> bool;
}.

Record world (blob : Type) : Type := {
  wd_worker : Worker;
  wd_metrics : MetricsRegistry;
  wd_db : option (LocalDB blob);
  wd_queue : option UploadQueue;
  wd_next : positive;
  wd_tick : nat;
  wd_events : list event;
}.
Arguments Build_world {blob}.
Arguments wd_worker {blob}.
Arguments wd_metrics {blob}.
Arguments wd_db {blob}.
Arguments wd_queue {blob}.
Arguments wd_next {blob}.
Arguments wd_tick {blob}.
Arguments wd_events {blob}.

(** Durations of the run loop. *)
Definition poll_interval (p : TargetProfile) : Duration :=
  let interval := wrap64 (tp_PollIntervalSecs p * Second) in
  if interval <? 10 * Second then 30 * Second else interval.
Definition watchdog_timeout (p : RetryPolicy) : Duration :=
  let w := wrap64 (rp_WatchdogTimeoutSecs p * Second) in
  if w <=? 0 then 300 * Second else w.

(** [calculateBackoff]: the float64 product as a rational, truncated. *)
Definition calculateBackoff (p : RetryPolicy) (consecutive : Z) : Duration :=
  let backoff := (inject_Z (rp_InitialBackoff p)
                  * Qpower (rp_BackoffMultiplier p) (consecutive - rp_MaxConsecutiveErrors p))%Q in
  if Qle_bool backoff (inject_Z (rp_MaxBackoff p)) then Z.quot (Qnum backoff) (QDen backoff)
  else rp_MaxBackoff p.

Section Operations.
Context {blob : Type} (seal : payload -> option blob) (json_len : payload -> option Z).
Context (e : env).

#[local] Abbreviation W := (M (world blob)).

Definition set_worker (w : Worker) (d : world blob) : world blob :=
  Build_world w (wd_metrics d) (wd_db d) (wd_queue d) (wd_next d) (wd_tick d) (wd_events d).
Definition upd_worker (f : Worker -> Worker) : W unit :=
  modify (fun d => set_worker (f (wd_worker d)) d).
Definition upd_state (f : WorkerState -> WorkerState) : W unit :=
  upd_worker (fun w => set_wk_state (f (wk_state w)) w).
Definition upd_metrics (f : MetricsRegistry -> MetricsRegistry) : W unit :=
  modify (fun d => Build_world (wd_worker d) (f (wd_metrics d)) (wd_db d) (wd_queue d)
                     (wd_next d) (wd_tick d) (wd_events d)).
Definition set_db (db : option (LocalDB blob)) : W unit :=
  modify (fun d => Build_world (wd_worker d) (wd_metrics d) db (wd_queue d) (wd_next d)
                     (wd_tick d) (wd_events d)).
Definition emit (ev : event) : W unit :=
  modify (fun d => Build_world (wd_worker d) (wd_metrics d) (wd_db d) (wd_queue d)
                     (wd_next d) (wd_tick d) (wd_events d ++ [ev])).
Definition ask {A} (f : nat -> A) : W A :=
  fun d => (f (wd_tick d),
            Build_world (wd_worker d) (wd_metrics d) (wd_db d) (wd_queue d) (wd_next d)
              (S (wd_tick d)) (wd_events d)).
Definition now : W GoTime := ask (e_now e).
Definition the_state : W WorkerState := gets (fun d => wk_state (wd_worker d)).

(** [backend.Post]. *)
Definition post (p : payload) : W (option string) :=
  token ← gets (fun d => wk_hostToken (wd_worker d));
  err ← ask (e_post e);
  emit (EvPost token p (if err is None then true else false));; mret err.

(** ** Stage, status and heartbeat *)

Definition setStage (stage : string) : W unit :=
  t ← now; upd_state (st_stage stage t).

Definition notifyStateChange (status : WorkerStatus) : W unit :=
  w ← gets wd_worker;
  when (wk_hasCallback w) (emit (EvNotify (tp_TargetID (wk_profile w)) status)).

(** The payload a heartbeat carries for a worker state. *)
Definition healthy (s : WorkerStatus) : bool :=
  bool_decide (s = WorkerStatusRunning) || bool_decide (s = WorkerStatusIdle).
Definition heartbeat_payload (t : GoTime) (w : Worker) : payload :=
  let st := wk_state w in
  let status := ws_Status st in
  let lastErr := if healthy status then "" else ws_LastError st in
  let errs := if healthy status then 0 else ws_ConsecutiveErrors st in
  let base : payload :=
    <["type" := VString "heartbeat"]> (<["agentVersion" := VString HostVersion]>
    (<["targetId" := VString (tp_TargetID (wk_profile w))]>
    (<["targetType" := VString (tp_TargetType (wk_profile w))]>
    (<["workerStatus" := VString (WorkerStatus_string status)]>
    (<["consecutiveErrors" := VInt errs]> ∅))))) in
  let p1 := if String.eqb lastErr "" then base else <["lastError" := VString lastErr]> base in
  let p2 := <["currentStage" := VString (ws_CurrentStage st)]>
            (<["restartCount" := VInt (ws_RestartCount st)]>
            (<["progressAgeSecs" := VInt (Z.quot (Since t (ws_LastProgressAt st)) Second)]> p1)) in
  let p3 := if IsZero (ws_LastCollectionAt st) then p2
            else <["lastCollectedAt" := VString (FormatRFC3339 (ws_LastCollectionAt st))]> p2 in
  if String.eqb (wk_localAPIURL w) "" then p3
  else <["localApiUrl" := VString (wk_localAPIURL w)]>
       (<["localApiToken" := VString (wk_localAPIToken w)]> p3).

Definition sendHeartbeat : W unit :=
  t ← now;
  w ← gets wd_worker;
  err ← post (heartbeat_payload t w);
  match err with
  | None => mret tt
  | Some _ =>
      q ← gets wd_queue;
      t' ← now;
      let isKnownOutage := match q with Some q => negb (IsBackendOnline q) | None => false end in
      let shouldLog := negb isKnownOutage
                       || (5 * Minute <? Since t' (wk_lastHeartbeatWarn w)) in
      if shouldLog then t'' ← now; upd_worker (set_wk_warn t'') else mret tt
  end.

Definition setStatus (status : WorkerStatus) : W unit :=
  st ← the_state;
  let prev := ws_Status st in
  upd_state (st_status status);;
  notifyStateChange status;;
  when (bool_decide (prev <> status)
        && match status with
           | WorkerStatusDegraded | WorkerStatusFailed | WorkerStatusRunning => true
           | _ => false
           end) sendHeartbeat.

Definition SetLanOnly (v : bool) : W unit := upd_worker (set_wk_lanOnly v).

(** ** Errors *)

Definition cancel : W unit :=
  upd_worker (fun w => set_wk_run true (wk_stopped w) (wk_done w) (wk_runs w) w).

Definition handleError (err : string) : W unit :=
  t ← now;
  upd_state (fun st => st_error (ws_ConsecutiveErrors st + 1) t err st);;
  w ← gets wd_worker;
  let consecutive := ws_ConsecutiveErrors (wk_state w) in
  let p := wk_policy w in
  if (0 <? rp_FailedAfterErrors p) && (rp_FailedAfterErrors p <=? consecutive) then
    setStatus WorkerStatusFailed;; cancel
  else if rp_MaxConsecutiveErrors p <=? consecutive then
    setStatus WorkerStatusDegraded;;
    emit (EvSleep (calculateBackoff p consecutive))
  else mret tt.

(** ** One collection cycle *)

(** The status label of a collected payload. *)
Definition collection_status (p : payload) : string :=
  match get_map p "snapshotData" with
  | Some sd => match get_map sd "_collection_status" with
               | Some cs => if decide (is_Some (cs !! "degraded")) then "partial" else "ok"
               | None => "ok"
               end
  | None => "ok"
  end.

(** The common fields added to a snapshot. *)
Definition enrich (w : Worker) (p : payload) : payload :=
  <["type" := VString "snapshot"]> (<["schemaVersion" := VInt 1]>
  (<["agentVersion" := VString HostVersion]>
  (<["targetId" := VString (tp_TargetID (wk_profile w))]>
  (<["targetType" := VString (tp_TargetType (wk_profile w))]> p)))).

(** Success resets the failure envelope, and leaves degraded or failed. *)
Definition record_success : W unit :=
  st ← the_state;
  t ← now;
  let prev := ws_Status st in
  upd_state (st_collected t);;
  when (bool_decide (prev = WorkerStatusDegraded) || bool_decide (prev = WorkerStatusFailed))
    (upd_state (st_status WorkerStatusRunning);;
     notifyStateChange WorkerStatusRunning;;
     sendHeartbeat).

(** Hybrid mode: the write to the local database; the id tags the payload. *)
Definition write_local (signals : list SnapshotSignal) (p : payload) : W payload :=
  db ← gets wd_db;
  match db with
  | None => mret p
  | Some d =>
      id ← ask (e_genID e);
      t ← now;
      ok ← ask (e_commit e);
      prof ← gets (fun d => wk_profile (wd_worker d));
      match WriteSnapshot seal ok id (tp_TargetID prof) (tp_TargetType prof) t p signals d with
      | Ok d' => set_db (Some d');; mret (<["_localSnapshotId" := VString id]> p)
      | Err _ => mret p
      end
  end.

Definition add_local_api (w : Worker) (p : payload) : payload :=
  if String.eqb (wk_localAPIURL w) "" then p
  else <["localApiUrl" := VString (wk_localAPIURL w)]>
       (<["localApiToken" := VString (wk_localAPIToken w)]> p).

(** [uploadQueue.Enqueue] as called by the worker. *)
Definition enqueue (p : payload) : W unit :=
  t ← now;
  modify (fun d =>
    match wd_queue d with
    | None => d
    | Some q =>
        let '(_, q', m') := Enqueue (fun p => default 0 (json_len p)) (wd_next d)
          (wk_hostToken (wd_worker d)) p (ClassifySnapshotPriority json_len p) t q
          (wd_metrics d) in
        Build_world (wd_worker d) m' (wd_db d) (Some q') (Pos.succ (wd_next d)) (wd_tick d)
          (wd_events d)
    end).

Definition upload (p : payload) : W unit :=
  lanOnly ← gets (fun d => wk_lanOnly (wd_worker d));
  if (lanOnly : bool) then mret tt
  else
    setStage "upload";;
    q ← gets wd_queue;
    match q with
    | Some _ => enqueue p
    | None => post p;; mret tt
    end.

(** The end of a successful cycle: local database, then cloud. *)
Definition store_and_upload (w : Worker) (signals : list SnapshotSignal) (p : payload)
    : W unit :=
  p' ← write_local signals p;
  upload (add_local_api w p');;
  setStage "complete".

(** The part of [collect] after [adapter.Collect] returned. *)
Definition collect_fetched (collectStart : GoTime) (r : result string collected) : W unit :=
  t ← now;
  w ← gets wd_worker;
  let duration := Sub t collectStart in
  let prof := wk_profile w in
  t' ← now;
  match r with
  | Err err =>
      upd_metrics (RecordCollection t' (tp_TargetID prof) (tp_TargetType prof) (tp_Name prof)
                     duration 0 "error" []);;
      handleError err;;
      sendHeartbeat
  | Ok c =>
      let p := delete "_subCalls" (co_payload c) in
      let status := collection_status p in
      upd_metrics (RecordCollection t' (tp_TargetID prof) (tp_TargetType prof) (tp_Name prof)
                     duration (default 0 (json_len p)) status (default [] (co_subCalls c)));;
      record_success;;
      setStage "parse";;
      store_and_upload w (default [] (co_signals c)) (enrich w p)
  end.

(** The part of [collect] after [adapter.HealthCheck] returned. *)
Definition collect_checked (health : option string) : W unit :=
  match health with
  | Some err => handleError ("health check failed: " +:+ err);; sendHeartbeat
  | None =>
      setStage "fetch";;
      t0 ← now;
      r ← ask (e_collect e);
      collect_fetched t0 r
  end.

Definition collect : W unit :=
  setStage "connect";;
  h ← ask (e_health e);
  collect_checked h.

(** ** The run loop *)

(** The deferred function of [run]: mark stopped, close [done]. *)
Definition run_return : W unit :=
  upd_worker (fun w => set_wk_run (wk_cancelled w) true true (pred (wk_runs w)) w).

(** Initialisation; the boolean says whether the loop goes on. *)
Definition run_init : W bool :=
  err ← ask (e_init e);
  match err with
  | Some m =>
      t ← now;
      upd_state (st_error 1 t m);;
      setStatus WorkerStatusFailed;;
      run_return;; mret false
  | None =>
      setStage "idle";;
      setStatus WorkerStatusRunning;;
      sendHeartbeat;; mret true
  end.

(** How the [select] around a collection ended, and where the collection that
    did not finish was hanging. *)
Inductive hang_point : Type := HangHealth | HangCollect.
Inductive select_outcome : Type :=
| SelDone
| SelWatchdog (h : hang_point)
| SelCancelled (h : hang_point).

(** What a collection has done when it hangs inside an adapter call. *)
Definition collect_until (h : hang_point) : W unit :=
  setStage "connect";;
  match h with
  | HangHealth => mret tt
  | HangCollect => setStage "fetch"
  end.

(** The first collection, outside the ticker loop. *)
Definition run_initial (o : select_outcome) : W bool :=
  match o with
  | SelDone => collect;; mret true
  | SelWatchdog h => collect_until h;; mret true
  | SelCancelled h => collect_until h;; run_return;; mret false
  end.

(** One tick of the collection ticker; the boolean says whether the loop goes
    on. *)
Definition run_tick (o : select_outcome) : W bool :=
  w ← gets wd_worker;
  if tp_Paused (wk_profile w) then mret true
  else
    t ← now;
    upd_state (st_cycle t);;
    setStage "scheduled";;
    match o with
    | SelDone =>
        collect;;
        t' ← now;
        upd_state (st_next (t' + poll_interval (wk_profile w)));;
        setStage "sleep";; mret true
    | SelWatchdog h =>
        collect_until h;;
        handleError "collection watchdog timeout";;
        sendHeartbeat;;
        setStatus WorkerStatusStuck;;
        run_return;; mret false
    | SelCancelled h => collect_until h;; run_return;; mret false
    end.

(** ** Lifecycle *)

(** [Start]: refused while running; otherwise a [run] goroutine is started. *)
Definition Start : W (result string unit) :=
  w ← gets wd_worker;
  if bool_decide (ws_Status (wk_state w) = WorkerStatusRunning) then
    mret (Err ("worker " +:+ tp_TargetID (wk_profile w) +:+ " already running"))
  else
    t ← now;
    upd_state (st_started t);;
    upd_worker (fun w => set_wk_run (wk_cancelled w) (wk_stopped w) (wk_done w)
                           (S (wk_runs w)) w);;
    mret (Ok tt).

(** Waiting on [done]: a cancelled [run] reaches a [select] with its context
    and returns, a worker that never ran blocks its caller for ever. *)
Definition await_done : M (world blob) bool :=
  w ← gets wd_worker;
  if wk_done w then mret true
  else match wk_runs w with
       | O => mret false
       | S _ => run_return;; mret true
       end.

(** [None] when the caller blocks for ever. *)
Definition Stop (d : world blob) : option (world blob) :=
  let d1 := exec cancel d in
  let '(ok, d2) := if wk_stopped (wd_worker d1) then (true, d1) else await_done d1 in
  if ok : bool then
    Some (exec (emit EvAdapterClose;; setStatus WorkerStatusStopped) d2)
  else None.

Definition Pause (d : world blob) : option (world blob) :=
  let '(ok, d1) := await_done (exec cancel d) in
  if ok : bool then Some (exec (setStatus WorkerStatusPaused) d1) else None.

Definition Restart (d : world blob) : option (result string unit * world blob) :=
  match Stop (exec (t ← now; upd_state (st_restart t)) d) with
  | None => None
  | Some d1 =>
      Some ((upd_worker (fun w => set_wk_run false false false (wk_runs w) w);; Start) d1)
  end.
End Operations.

(** ** What an operation may emit *)

Section Facts.
Context {blob : Type} (seal : payload -> option blob) (json_len : payload -> option Z).
Context (e : env).
Implicit Types d : world blob.

(** A heartbeat that claims a healthy worker carries no error. *)
Definition heartbeat_rule (p : payload) : Prop :=
  p !! "type" = Some (VString "heartbeat")
  /\ p !! "capabilities" = None
  /\ (p !! "workerStatus" = Some (VString "running")
      \/ p !! "workerStatus" = Some (VString "idle") ->
      p !! "lastError" = None /\ p !! "consecutiveErrors" = Some (VInt 0)).

Lemma lookup_insert_ite (p : payload) (b : bool) k v k' :
  k <> k' -> (if b then p else <[k := v]> p) !! k' = p !! k'.
Proof. intros H. destruct b; [done|]. by rewrite lookup_insert_ne. Qed.

(** Reads a key through the insertions of a payload literal. *)
Ltac payload_lookup :=
  repeat first
    [ rewrite lookup_insert_eq
    | rewrite lookup_insert_ne by done
    | rewrite lookup_insert_ite by done
    | rewrite lookup_empty ].

Lemma heartbeat_payload_fields t w :
  heartbeat_payload t w !! "type" = Some (VString "heartbeat")
  /\ heartbeat_payload t w !! "capabilities" = None
  /\ heartbeat_payload t w !! "workerStatus"
     = Some (VString (WorkerStatus_string (ws_Status (wk_state w))))
  /\ heartbeat_payload t w !! "consecutiveErrors"
     = Some (VInt (if healthy (ws_Status (wk_state w)) then 0
                   else ws_ConsecutiveErrors (wk_state w)))
  /\ heartbeat_payload t w !! "lastError"
     = (if healthy (ws_Status (wk_state w)) || String.eqb (ws_LastError (wk_state w)) ""
        then None else Some (VString (ws_LastError (wk_state w)))).
Proof.
  unfold heartbeat_payload. cbv zeta.
  destruct (String.eqb (wk_localAPIURL w) ""), (IsZero _); payload_lookup;
  (destruct (healthy (ws_Status (wk_state w))); [simpl|
   destruct (String.eqb (ws_LastError (wk_state w)) "")]); payload_lookup; done.
Qed.

Lemma healthy_string s :
  WorkerStatus_string s = "running" \/ WorkerStatus_string s = "idle" -> healthy s = true.
Proof. by destruct s; intros [|]. Qed.

Lemma heartbeat_payload_rule t w : heartbeat_rule (heartbeat_payload t w).
Proof.
  destruct (heartbeat_payload_fields t w) as (H1 & H2 & H3 & H4 & H5).
  split_and!; [done|done|]. rewrite H3, H4, H5. intros Hs.
  rewrite healthy_string by (destruct Hs; simplify_eq; auto). done.
Qed.

(** Everything an operation emits: notifications and the like, heartbeats that
    obey the rule, and snapshots - those only when uploads are allowed. *)
Definition event_ok (lanOnly : bool) (ev : event) : Prop :=
  match ev with
  | EvPost _ p _ =>
      heartbeat_rule p \/ lanOnly = false /\ p !! "type" = Some (VString "snapshot")
  | _ => True
  end.

Definition discreet (d d' : world blob) : Prop :=
  wk_lanOnly (wd_worker d') = wk_lanOnly (wd_worker d)
  /\ (exists evs, wd_events d' = wd_events d ++ evs
        /\ Forall (event_ok (wk_lanOnly (wd_worker d))) evs)
  /\ (wk_lanOnly (wd_worker d) = true -> wd_queue d' = wd_queue d).

#[global] Instance discreet_preorder : PreOrder discreet.
Proof.
  split.
  - intros d. split_and!; [done| |done]. exists []. by rewrite app_nil_r.
  - intros d1 d2 d3 (L1 & (e1 & E1 & F1) & Q1) (L2 & (e2 & E2 & F2) & Q2). split_and!.
    + congruence.
    + exists (e1 ++ e2). rewrite E2, E1, app_assoc. split; [done|].
      apply Forall_app. split; [done|]. by rewrite <- L1.
    + intros H. rewrite Q2, Q1; [done|done|congruence].
Qed.

Lemma discreet_silent d d' :
  wk_lanOnly (wd_worker d') = wk_lanOnly (wd_worker d) -> wd_events d' = wd_events d ->
  wd_queue d' = wd_queue d -> discreet d d'.
Proof. intros H1 H2 H3. split_and!; [done| |done]. exists []. by rewrite app_nil_r. Qed.

Lemma keeps_upd_worker f :
  (forall w, wk_lanOnly (f w) = wk_lanOnly w) -> keeps discreet (upd_worker (blob:=blob) f).
Proof. intros H d. apply discreet_silent; [apply H|done|done]. Qed.
Lemma keeps_upd_state f : keeps discreet (upd_state (blob:=blob) f).
Proof. by apply keeps_upd_worker. Qed.
Lemma keeps_upd_metrics f : keeps discreet (upd_metrics (blob:=blob) f).
Proof. intros d. by apply discreet_silent. Qed.
Lemma keeps_set_db db : keeps discreet (set_db (blob:=blob) db).
Proof. intros d. by apply discreet_silent. Qed.
Lemma keeps_ask {A} (f : nat -> A) : keeps discreet (ask (blob:=blob) f).
Proof. intros d. by apply discreet_silent. Qed.
Lemma keeps_emit ev : (forall l, event_ok l ev) -> keeps discreet (emit (blob:=blob) ev).
Proof. intros H d. split_and!; [done| |done]. exists [ev]. split; [done|]. by repeat constructor. Qed.
Lemma keeps_post p : heartbeat_rule p -> keeps discreet (post (blob:=blob) e p).
Proof.
  intros H. unfold post. apply keeps_bind; [apply _|apply keeps_gets; apply _|intros tok].
  apply keeps_bind; [apply _|apply keeps_ask|intros err].
  apply keeps_bind; [apply _|apply keeps_emit; simpl; auto|intros _].
  apply keeps_ret; apply _.
Qed.

Hint Resolve keeps_upd_state keeps_upd_metrics keeps_set_db keeps_ask : keeps.

(** Walks through a method: sequencing, branches, primitives. *)
Ltac keeps_walk :=
  repeat match goal with
  | |- keeps _ (_ ≫= _) => apply keeps_bind; [apply _| |intros ?]
  | |- keeps _ (mret _) => apply keeps_ret; apply _
  | |- keeps _ (gets _) => apply keeps_gets; apply _
  | |- keeps _ (when _ _) => apply keeps_when; [apply _|]
  | |- keeps _ (match ?x with _ => _ end) => destruct x
  | |- keeps _ (emit _) => apply keeps_emit; done
  | |- keeps _ (upd_worker _) => apply keeps_upd_worker; done
  end; eauto with keeps.

Lemma keeps_now : keeps discreet (now (blob:=blob) e).
Proof. apply keeps_ask. Qed.
Hint Resolve keeps_now : keeps.
Lemma keeps_setStage stage : keeps discreet (setStage (blob:=blob) e stage).
Proof. unfold setStage. keeps_walk. Qed.
Lemma keeps_notify s : keeps discreet (notifyStateChange (blob:=blob) s).
Proof. unfold notifyStateChange. keeps_walk. Qed.
Lemma keeps_sendHeartbeat : keeps discreet (sendHeartbeat (blob:=blob) e).
Proof.
  unfold sendHeartbeat. keeps_walk. apply keeps_post, heartbeat_payload_rule.
Qed.
Hint Resolve keeps_setStage keeps_notify keeps_sendHeartbeat : keeps.
Lemma keeps_setStatus s : keeps discreet (setStatus (blob:=blob) e s).
Proof. unfold setStatus, the_state. keeps_walk. Qed.
Lemma keeps_cancel : keeps discreet (cancel (blob:=blob)).
Proof. unfold cancel. keeps_walk. Qed.
Lemma keeps_run_return : keeps discreet (run_return (blob:=blob)).
Proof. unfold run_return. keeps_walk. Qed.
Hint Resolve keeps_setStatus keeps_cancel keeps_run_return : keeps.
Lemma keeps_handleError err : keeps discreet (handleError (blob:=blob) e err).
Proof. unfold handleError. keeps_walk. Qed.
Lemma keeps_record_success : keeps discreet (record_success (blob:=blob) e).
Proof. unfold record_success, the_state. keeps_walk. Qed.
Lemma keeps_write_local signals p : keeps discreet (write_local seal e signals p).
Proof. unfold write_local. keeps_walk. Qed.
Hint Resolve keeps_handleError keeps_record_success keeps_write_local : keeps.

(** The type of the snapshot survives the write to the local database. *)
Lemma write_local_type signals p d k :
  k <> "_localSnapshotId" -> fst (write_local seal e signals p d) !! k = p !! k.
Proof.
  intros Hk. unfold write_local, gets, mbind, M_bind. destruct (wd_db d); [|done].
  unfold ask. simpl. case_match; [|done]. simpl. by rewrite lookup_insert_ne.
Qed.

(** An upload is silent in LAN-only mode. *)
Lemma keeps_upload p :
  p !! "type" = Some (VString "snapshot") -> keeps discreet (upload json_len e p).
Proof.
  intros Hp d. unfold upload. rewrite exec_bind. cbn [fst gets exec snd].
  destruct (wk_lanOnly (wd_worker d)) eqn:El; [done|].
  rewrite exec_bind. transitivity (exec (setStage e "upload") d); [apply keeps_setStage|].
  set (d1 := exec (setStage e "upload") d).
  assert (El1 : wk_lanOnly (wd_worker d1) = false) by exact El.
  clearbody d1.
  rewrite exec_bind. cbn [fst gets exec snd]. destruct (wd_queue d1) eqn:Eq.
  - unfold enqueue, now, ask, mbind, M_bind, modify, exec. simpl. rewrite Eq.
    destruct (Enqueue _ _ _ _ _ _ _ _) as [[? ?] ?]. simpl.
    split_and!; [done| |by rewrite El1]. exists []. by rewrite app_nil_r.
  - unfold post, ask, emit, mbind, M_bind, exec. simpl.
    split_and!; [done| |by rewrite El1]. eexists. split; [done|].
    constructor; [|done]. simpl. auto.
Qed.

Lemma add_local_api_type w p : add_local_api w p !! "type" = p !! "type".
Proof.
  unfold add_local_api. destruct (String.eqb _ _); [done|].
  by rewrite !lookup_insert_ne by done.
Qed.

Lemma keeps_store_and_upload w signals p :
  p !! "type" = Some (VString "snapshot") ->
  keeps discreet (store_and_upload seal json_len e w signals p).
Proof.
  intros Hp d. unfold store_and_upload. rewrite exec_bind.
  transitivity (exec (write_local seal e signals p) d); [apply keeps_write_local|].
  apply keeps_bind; [apply _|apply keeps_upload|intros _; apply keeps_setStage].
  by rewrite add_local_api_type, write_local_type by done.
Qed.

Lemma keeps_collect_fetched t r : keeps discreet (collect_fetched seal json_len e t r).
Proof.
  unfold collect_fetched. keeps_walk. apply keeps_store_and_upload.
  unfold enrich. by rewrite lookup_insert_eq.
Qed.
Hint Resolve keeps_collect_fetched : keeps.

Lemma keeps_collect : keeps discreet (collect seal json_len e).
Proof. unfold collect, collect_checked. keeps_walk. Qed.
Lemma keeps_collect_until h : keeps discreet (collect_until (blob:=blob) e h).
Proof. unfold collect_until. keeps_walk. Qed.
Hint Resolve keeps_collect keeps_collect_until : keeps.

Lemma keeps_run_init : keeps discreet (run_init (blob:=blob) e).
Proof. unfold run_init. keeps_walk. Qed.
Lemma keeps_run_initial o : keeps discreet (run_initial seal json_len e o).
Proof. unfold run_initial. keeps_walk. Qed.
Lemma keeps_run_tick o : keeps discreet (run_tick seal json_len e o).
Proof. unfold run_tick. keeps_walk. Qed.
End Facts.
