(* ===== verification/WorkerProps.v ===== *)
(** Properties of the collection worker: heartbeats and LAN-only mode, error
    escalation, recovery, backoff, and the lifecycle. *)
From S2P Require Import Prelude Types Metrics UploadQueue LocalDB Worker.
From Stdlib Require Import QArith Qpower Qround.

Local Open Scope Z_scope.

Section Core.
Context {blob : Type} (seal : payload -> option blob) (json_len : payload -> option Z).
Context (e : env).
Implicit Types d : world blob.

(** Everything but the event log, the environment's counter and the time of
    the last heartbeat warning. *)
Definition core d :=
  (wk_state (wd_worker d), wk_policy (wd_worker d), wk_profile (wd_worker d),
   (wk_cancelled (wd_worker d), wk_stopped (wd_worker d), wk_done (wd_worker d),
    wk_runs (wd_worker d), wk_lanOnly (wd_worker d)),
   wd_metrics d, wd_db d, wd_queue d).
Definition quiet d d' : Prop := core d' = core d.

#[global] Instance quiet_preorder : PreOrder quiet.
Proof. split; unfold Reflexive, Transitive, quiet; congruence. Qed.

Lemma sendHeartbeat_quiet : keeps quiet (sendHeartbeat (blob:=blob) e).
Proof.
  intros d. unfold sendHeartbeat, post, now, ask, gets, emit, modify, mbind, M_bind, exec.
  simpl. destruct (e_post e _); [|done]. by destruct (_ || _).
Qed.

Lemma notify_quiet s : keeps quiet (notifyStateChange (blob:=blob) s).
Proof.
  intros d. unfold notifyStateChange, when, gets, mbind, M_bind, exec.
  by destruct (wk_hasCallback _).
Qed.

(** Setting the status changes the status and nothing else. *)
Lemma setStatus_core s d :
  quiet (exec (upd_state (st_status s)) d) (exec (setStatus e s) d).
Proof.
  unfold setStatus. rewrite exec_bind, exec_bind. cbn [fst].
  set (d1 := exec (upd_state (st_status s)) d).
  replace (exec (upd_state (st_status s)) (exec the_state d)) with d1 by done.
  apply keeps_bind; [apply _|apply notify_quiet|intros _].
  apply keeps_when; [apply _|apply sendHeartbeat_quiet].
Qed.

Definition wstate d : WorkerState := wk_state (wd_worker d).

Lemma quiet_state d d' : quiet d d' -> wstate d' = wstate d.
Proof. unfold quiet, core. intros H. by injection H. Qed.

(** The escalation state: error count, status, cancellation, and the policy
    that decides. *)
Definition esc d :=
  (ws_ConsecutiveErrors (wstate d), ws_Status (wstate d), wk_cancelled (wd_worker d)).

Lemma quiet_esc d d' :
  quiet d d' -> esc d' = esc d /\ wk_policy (wd_worker d') = wk_policy (wd_worker d).
Proof. unfold quiet, core, esc, wstate. intros H. injection H. intros. split; congruence. Qed.

(** What one error does, by thresholds. *)
Definition escalate (p : RetryPolicy) (x : Z * WorkerStatus * bool) : Z * WorkerStatus * bool :=
  let '(n, s, c) := x in
  let n' := n + 1 in
  if (0 <? rp_FailedAfterErrors p) && (rp_FailedAfterErrors p <=? n') then
    (n', WorkerStatusFailed, true)
  else if rp_MaxConsecutiveErrors p <=? n' then (n', WorkerStatusDegraded, c)
  else (n', s, c).

Lemma handleError_esc err d :
  esc (exec (handleError e err) d) = escalate (wk_policy (wd_worker d)) (esc d)
  /\ wk_policy (wd_worker (exec (handleError e err) d)) = wk_policy (wd_worker d)
  /\ ws_LastError (wstate (exec (handleError e err) d)) = err.
Proof.
  unfold handleError. rewrite !exec_bind. cbn [fst gets].
  set (d1 := exec (upd_state _) (exec (now e) d)).
  change (exec (gets wd_worker) d1) with d1.
  assert (Hp : wk_policy (wd_worker d1) = wk_policy (wd_worker d)) by done.
  assert (He : esc d1 = (ws_ConsecutiveErrors (wstate d) + 1, ws_Status (wstate d),
    wk_cancelled (wd_worker d))) by done.
  assert (Hl : ws_LastError (wstate d1) = err) by done.
  change (ws_ConsecutiveErrors (wk_state (wd_worker d1)))
    with (ws_ConsecutiveErrors (wstate d) + 1).
  rewrite Hp. unfold escalate at 1. unfold esc at 2. clearbody d1.
  assert (Hs : forall s, let d2 := exec (setStatus e s) d1 in
    esc d2 = (ws_ConsecutiveErrors (wstate d) + 1, s, wk_cancelled (wd_worker d))
    /\ wk_policy (wd_worker d2) = wk_policy (wd_worker d) /\ ws_LastError (wstate d2) = err).
  { intros s d2. pose proof (setStatus_core s d1) as Hq. fold d2 in Hq.
    pose proof (quiet_state _ _ Hq) as Hst. apply quiet_esc in Hq as [-> ->].
    unfold esc, wstate in *. simplify_eq/=. split_and!; [congruence|done|by rewrite Hst]. }
  repeat case_match.
  - rewrite exec_bind. destruct (Hs WorkerStatusFailed) as (H1 & H2 & H3).
    split_and!; [|exact H2|exact H3]. unfold esc in H1 |- *. injection H1 as E1 E2 _.
    unfold wstate in *. simpl. by rewrite E1, E2.
  - rewrite exec_bind. apply Hs.
  - by split_and!.
Qed.

Lemma errors_esc l d :
  esc (exec (for_each l (handleError e)) d)
  = Nat.iter (length l) (escalate (wk_policy (wd_worker d))) (esc d)
  /\ wk_policy (wd_worker (exec (for_each l (handleError e)) d)) = wk_policy (wd_worker d).
Proof.
  revert d. induction l as [|err l IH]; intros d; cbn [for_each length]; [done|].
  rewrite exec_bind. destruct (handleError_esc err d) as (H1 & H2 & _).
  destruct (IH (exec (handleError e err) d)) as [-> ->]. rewrite H1, H2.
  split; [|done]. by rewrite <- Nat.iter_succ_r.
Qed.

Lemma escalate_iter p k s c :
  0 < rp_MaxConsecutiveErrors p <= rp_FailedAfterErrors p ->
  Nat.iter k (escalate p) (0, s, c)
  = (Z.of_nat k,
     (if rp_FailedAfterErrors p <=? Z.of_nat k then WorkerStatusFailed
      else if rp_MaxConsecutiveErrors p <=? Z.of_nat k then WorkerStatusDegraded else s),
     c || (rp_FailedAfterErrors p <=? Z.of_nat k)).
Proof.
  intros Hp. induction k as [|k IH].
  - change (Z.of_nat 0) with 0. destruct (Z.leb_spec (rp_FailedAfterErrors p) 0); [lia|].
    destruct (Z.leb_spec (rp_MaxConsecutiveErrors p) 0); [lia|]. by destruct c.
  - rewrite Nat.iter_succ, IH. unfold escalate. rewrite Nat2Z.inj_succ.
    change (Z.succ (Z.of_nat k)) with (Z.of_nat k + 1).
    destruct (Z.ltb_spec 0 (rp_FailedAfterErrors p)); [|lia].
    destruct (Z.leb_spec (rp_FailedAfterErrors p) (Z.of_nat k)),
      (Z.leb_spec (rp_FailedAfterErrors p) (Z.of_nat k + 1)),
      (Z.leb_spec (rp_MaxConsecutiveErrors p) (Z.of_nat k)),
      (Z.leb_spec (rp_MaxConsecutiveErrors p) (Z.of_nat k + 1)); simpl; try lia;
      by rewrite ?orb_true_r, ?orb_false_r.
Qed.

(** ** Recovery *)

(** The state changes at most in its stage and progress time. *)
Definition stage_only d d' : Prop :=
  exists stage t, wstate d' = st_stage stage t (wstate d).
#[global] Instance stage_only_preorder : PreOrder stage_only.
Proof.
  split.
  - intros d. exists (ws_CurrentStage (wstate d)), (ws_LastProgressAt (wstate d)).
    by destruct (wstate d).
  - intros d1 d2 d3 (s1 & t1 & E1) (s2 & t2 & E2). exists s2, t2. by rewrite E2, E1.
Qed.

Lemma same_stage_only d d' : wstate d' = wstate d -> stage_only d d'.
Proof. intros H. pose proof (reflexivity (R:=stage_only) d) as (s & t & E). exists s, t. congruence. Qed.

Lemma stage_setStage stage : keeps stage_only (setStage (blob:=blob) e stage).
Proof. intros d. by eexists _, _. Qed.
Lemma stage_write_local signals p : keeps stage_only (write_local seal e signals p).
Proof.
  intros d. apply same_stage_only. unfold write_local, gets, ask, now, set_db, modify, mbind,
    M_bind, exec. destruct (wd_db d); [|done]. simpl. by case_match.
Qed.
Lemma stage_enqueue p : keeps stage_only (enqueue (blob:=blob) json_len e p).
Proof.
  intros d. apply same_stage_only. unfold enqueue, now, ask, modify, mbind, M_bind, exec. simpl.
  destruct (wd_queue d); [|done]. by destruct (Enqueue _ _ _ _ _ _ _ _) as [[? ?] ?].
Qed.
Lemma stage_upload p : keeps stage_only (upload json_len e p).
Proof.
  unfold upload. apply keeps_bind; [apply _|apply keeps_gets; apply _|intros lan].
  destruct lan; [apply keeps_ret; apply _|].
  apply keeps_bind; [apply _|apply stage_setStage|intros _].
  apply keeps_bind; [apply _|apply keeps_gets; apply _|intros [q|]]; [apply stage_enqueue|].
  intros d. by apply same_stage_only.
Qed.
Lemma stage_store w signals p : keeps stage_only (store_and_upload seal json_len e w signals p).
Proof.
  unfold store_and_upload. apply keeps_bind; [apply _|apply stage_write_local|intros p'].
  apply keeps_bind; [apply _|apply stage_upload|intros _; apply stage_setStage].
Qed.

(** The state after a successful cycle, up to stage and time. *)
Definition recovered (prev : WorkerStatus) : WorkerStatus :=
  match prev with WorkerStatusDegraded | WorkerStatusFailed => WorkerStatusRunning | s => s end.

Lemma record_success_state d :
  exists t, wstate (exec (record_success e) d)
    = st_status (recovered (ws_Status (wstate d))) (st_collected t (wstate d)).
Proof.
  exists (e_now e (wd_tick d)). unfold record_success, the_state.
  rewrite !exec_bind. cbn [fst gets].
  set (d1 := exec (upd_state (st_collected _)) _).
  assert (E1 : wstate d1 = st_collected (e_now e (wd_tick d)) (wstate d)) by done.
  change (ws_Status (wk_state (wd_worker d))) with (ws_Status (wstate d)).
  assert (Hrec : wstate (exec (upd_state (st_status WorkerStatusRunning);;
      notifyStateChange WorkerStatusRunning;; sendHeartbeat e) d1)
    = st_status WorkerStatusRunning (wstate d1)).
  { rewrite !exec_bind. rewrite (quiet_state _ _ (sendHeartbeat_quiet _)).
    by rewrite (quiet_state _ _ (notify_quiet _ _)). }
  clearbody d1. rewrite <- E1.
  destruct (ws_Status (wstate d)) eqn:Es; simpl when; rewrite ?Hrec; try done;
    change (exec (mret ()) d1) with d1;
    (replace (recovered _) with (ws_Status (wstate d1)) by (rewrite E1; exact Es));
    by destruct (wstate d1).
Qed.

(** ** Watchdog and lifecycle *)

(** The parts of the worker the lifecycle depends on. *)
Definition life d :=
  (wk_cancelled (wd_worker d), wk_stopped (wd_worker d), wk_done (wd_worker d),
   wk_runs (wd_worker d)).

Lemma quiet_life d d' : quiet d d' -> life d' = life d.
Proof. unfold quiet, core, life. intros H. injection H. congruence. Qed.

Lemma setStatus_life s d : life (exec (setStatus e s) d) = life d.
Proof. rewrite (quiet_life _ _ (setStatus_core s d)). done. Qed.

Lemma setStatus_state s d : wstate (exec (setStatus e s) d) = st_status s (wstate d).
Proof. rewrite (quiet_state _ _ (setStatus_core s d)). done. Qed.

(** At most one [run] goroutine, and none once [done] is closed. *)
Definition life_ok d : Prop :=
  wk_stopped (wd_worker d) = wk_done (wd_worker d)
  /\ wk_runs (wd_worker d) = (if wk_done (wd_worker d) then 0 else 1)%nat.

Lemma await_done_ok d :
  life_ok d ->
  fst (await_done d) = true
  /\ life (exec await_done d) = (wk_cancelled (wd_worker d), true, true, 0%nat)
  /\ wstate (exec await_done d) = wstate d.
Proof.
  intros [Hs Hr]. unfold await_done, gets, life, exec, wstate, mbind, M_bind.
  destruct (wk_done (wd_worker d)) eqn:Ed; simpl.
  - by rewrite Ed, Hs, Hr.
  - rewrite Hr. simpl. by rewrite Hr.
Qed.

Lemma Stop_ok d :
  life_ok d ->
  exists d', Stop e d = Some d' /\ life d' = (true, true, true, 0%nat)
    /\ wstate d' = st_status WorkerStatusStopped (wstate d).
Proof.
  intros Hok. unfold Stop. set (d1 := exec cancel d).
  assert (Hok1 : life_ok d1) by exact Hok. assert (E1 : wstate d1 = wstate d) by done.
  assert (Hc : wk_cancelled (wd_worker d1) = true) by done. clearbody d1.
  assert (Hw : exists d2, (if wk_stopped (wd_worker d1) then (true, d1) else await_done d1)
    = (true, d2) /\ life d2 = (true, true, true, 0%nat) /\ wstate d2 = wstate d).
  { destruct (wk_stopped (wd_worker d1)) eqn:Es.
    - exists d1. destruct Hok1 as [Hs Hr]. unfold life.
      rewrite Hc, Hr, <- Hs, Es. by split_and!.
    - destruct (await_done_ok d1 Hok1) as (H1 & H2 & H3). rewrite Hc in H2.
      exists (exec await_done d1). split_and!; [|done|congruence].
      unfold exec. by destruct (await_done d1) as [? ?]; simplify_eq/=. }
  destruct Hw as (d2 & -> & Hl & Hst). eexists. split; [done|].
  rewrite exec_bind, setStatus_life, setStatus_state. split; [exact Hl|].
  change (wstate (exec (emit EvAdapterClose) d2)) with (wstate d2). by rewrite Hst.
Qed.
End Core.

(** ** Properties *)

(** C13: LAN-only mode and the heartbeat rule.  Whatever a worker does -
    initialise, collect (with any answer of the adapter, the database and the
    backend), time out, handle an error, change status - everything it posts is
    a heartbeat that carries no error text for a healthy worker, or a snapshot,
    and a snapshot leaves (by post or through the upload queue) only when
    LAN-only mode is off. *)
Theorem worker_discreet {blob : Type} (seal : payload -> option blob) json_len e
    (d : world blob) :
  discreet d (exec (run_init e) d)
  /\ (forall o, discreet d (exec (run_initial seal json_len e o) d))
  /\ (forall o, discreet d (exec (run_tick seal json_len e o) d))
  /\ discreet d (exec (sendHeartbeat e) d)
  /\ (forall h, discreet d (exec (collect_checked seal json_len e h) d))
  /\ (forall t r, discreet d (exec (collect_fetched seal json_len e t r) d)).
Proof.
  split_and!; intros; [apply keeps_run_init|apply keeps_run_initial|apply keeps_run_tick
    |apply keeps_sendHeartbeat| |apply keeps_collect_fetched].
  destruct h as [err|]; simpl.
  - apply keeps_bind; [apply _|apply keeps_handleError|intros _; apply keeps_sendHeartbeat].
  - apply keeps_bind; [apply _|apply keeps_setStage|intros _].
    apply keeps_bind; [apply _|apply keeps_now|intros t].
    apply keeps_bind; [apply _|apply keeps_ask|intros r; apply keeps_collect_fetched].
Qed.

(** C36: escalation of consecutive errors.  After [k] errors in a row the
    counter is [k]; the worker keeps its status below the degraded threshold,
    is degraded from there on, and from the failed threshold on it is failed
    and its context is cancelled, so that the supervisor takes over. *)
Theorem error_escalation {blob : Type} e (l : list string) (d : world blob)
    (H0 : ws_ConsecutiveErrors (wstate d) = 0)
    (Hp : 0 < rp_MaxConsecutiveErrors (wk_policy (wd_worker d))
          <= rp_FailedAfterErrors (wk_policy (wd_worker d))) :
  let p := wk_policy (wd_worker d) in
  let k := Z.of_nat (length l) in
  let d' := exec (for_each l (handleError e)) d in
  ws_ConsecutiveErrors (wstate d') = k
  /\ ws_Status (wstate d')
     = (if rp_FailedAfterErrors p <=? k then WorkerStatusFailed
        else if rp_MaxConsecutiveErrors p <=? k then WorkerStatusDegraded
        else ws_Status (wstate d))
  /\ wk_cancelled (wd_worker d')
     = (wk_cancelled (wd_worker d) || (rp_FailedAfterErrors p <=? k)).
Proof.
  intros p k d'. destruct (errors_esc e l d) as [He _].
  unfold esc at 2 in He. rewrite H0, escalate_iter in He by done.
  unfold esc in He. fold d' in He. by injection He as -> -> ->.
Qed.

(** A collection that succeeds clears the whole failure envelope - error
    count, text and time -, counts the collection, and takes a degraded or
    failed worker back to running; any other status is kept. *)
Theorem collect_success_recovers {blob : Type} (seal : payload -> option blob) json_len e
    (t0 : GoTime) (c : collected) (d : world blob) :
  let d' := exec (collect_fetched seal json_len e t0 (Ok c)) d in
  ws_ConsecutiveErrors (wstate d') = 0
  /\ ws_LastError (wstate d') = "" /\ ws_LastErrorAt (wstate d') = 0
  /\ ws_TotalCollections (wstate d') = ws_TotalCollections (wstate d) + 1
  /\ ws_Status (wstate d') = recovered (ws_Status (wstate d))
  /\ ws_RestartCount (wstate d') = ws_RestartCount (wstate d).
Proof.
  unfold collect_fetched. rewrite !exec_bind. cbn [fst gets].
  match goal with |- context [exec (record_success e) ?x] => set (d1 := x) end.
  assert (E1 : wstate d1 = wstate d) by done. clearbody d1.
  destruct (record_success_state e d1) as (t & E2). rewrite E1 in E2.
  match goal with |- context [store_and_upload seal json_len e ?w ?sg ?p] =>
    destruct (stage_store seal json_len e w sg p
      (exec (setStage e "parse") (exec (record_success e) d1))) as (s2 & t2 & E3) end.
  destruct (stage_setStage e "parse" (exec (record_success e) d1)) as (s3 & t3 & E4).
  rewrite E4, E2 in E3. rewrite E3. by split_and!.
Qed.

(** A collection that hangs past the watchdog counts one more error,
    leaves the worker stuck whatever the escalation had decided - also when
    this error reached the failed threshold and cancelled the context -, and
    ends the loop with [done] closed, so that a restart cannot block. *)
Theorem run_tick_watchdog {blob : Type} (seal : payload -> option blob) json_len e
    (h : hang_point) (d : world blob) (Hp : tp_Paused (wk_profile (wd_worker d)) = false) :
  let '(goes_on, d') := run_tick seal json_len e (SelWatchdog h) d in
  goes_on = false
  /\ ws_Status (wstate d') = WorkerStatusStuck
  /\ ws_ConsecutiveErrors (wstate d') = ws_ConsecutiveErrors (wstate d) + 1
  /\ wk_cancelled (wd_worker d')
     = snd (escalate (wk_policy (wd_worker d)) (esc d))
  /\ wk_stopped (wd_worker d') = true /\ wk_done (wd_worker d') = true.
Proof.
  unfold run_tick. unfold mbind at 1, M_bind at 1. cbn [gets]. rewrite Hp.
  match goal with |- let '(_, _) := ?m d in _ => rewrite (surjective_pairing (m d)) end.
  match goal with |- context [snd (?m d)] => change (snd (m d)) with (exec m d) end.
  rewrite !exec_bind.
  match goal with |- context [exec (handleError e ?er) ?x] => set (err := er); set (d1 := x) end.
  assert (E1 : esc d1 = esc d /\ wk_policy (wd_worker d1) = wk_policy (wd_worker d))
    by by destruct h.
  split; [by rewrite !fst_bind|]. clearbody d1. destruct E1 as [E1 E2].
  destruct (handleError_esc e err d1) as (H1 & _ & _). rewrite E1, E2 in H1.
  set (d2 := exec (handleError e err) d1) in *. clearbody d2.
  destruct (quiet_esc _ _ (sendHeartbeat_quiet e d2)) as [H2 _].
  set (d3 := exec (sendHeartbeat e) d2) in *. clearbody d3.
  change (exec (mret false) ?x) with x. unfold run_return.
  set (d4 := exec (setStatus e WorkerStatusStuck) d3).
  pose proof (setStatus_state e WorkerStatusStuck d3) as H4.
  pose proof (setStatus_life e WorkerStatusStuck d3) as H5. fold d4 in H4, H5.
  clearbody d4. rewrite <- H2 in H1. unfold life in H5. injection H5 as H51 _ _ _.
  change (wstate (exec (upd_worker _) d4)) with (wstate d4). rewrite H4.
  rewrite <- H1. unfold esc in H1 |- *. simpl. rewrite H51.
  split_and!; [done| |done|done|done].
  revert H1. unfold escalate, esc. case_match; [|case_match]; intros [= -> ? ?]; done.
Qed.

(** Restarting a worker that has one live loop, or whose loop has
    returned, never blocks and succeeds: the old loop is gone, exactly one new
    one is started with a fresh context, the error count is reset and the
    restart is counted; stopping such a worker likewise always returns. *)
Theorem Restart_lifecycle {blob : Type} e (d : world blob) (Hok : life_ok d) :
  (exists d', Stop e d = Some d' /\ life d' = (true, true, true, 0%nat)
     /\ ws_Status (wstate d') = WorkerStatusStopped /\ life_ok d')
  /\ exists d', Restart e d = Some (Ok tt, d')
     /\ life d' = (false, false, false, 1%nat) /\ life_ok d'
     /\ ws_Status (wstate d') = WorkerStatusStarting
     /\ ws_ConsecutiveErrors (wstate d') = 0
     /\ ws_RestartCount (wstate d') = ws_RestartCount (wstate d) + 1.
Proof.
  split.
  - destruct (Stop_ok e d Hok) as (d' & H1 & H2 & H3). exists d'.
    rewrite H3. split_and!; [done|done|done|]. unfold life in H2. unfold life_ok.
    by injection H2 as _ -> -> ->.
  - unfold Restart. set (d1 := exec _ d). assert (Hok1 : life_ok d1) by exact Hok.
    assert (E1 : ws_RestartCount (wstate d1) = ws_RestartCount (wstate d) + 1) by done.
    clearbody d1. destruct (Stop_ok e d1 Hok1) as (d2 & -> & H2 & H3).
    unfold life in H2. injection H2 as _ _ _ Hr. unfold wstate in *.
    unfold Start, upd_worker, modify, gets, now, ask, mbind, M_bind. simpl. rewrite H3.
    simpl. eexists. split; [done|]. unfold life, life_ok. simpl. rewrite Hr.
    split_and!; try done. by rewrite H3.
Qed.

Lemma Qquot_inject (q : Q) (z : Z) : (q == inject_Z z)%Q -> Z.quot (Qnum q) (QDen q) = z.
Proof. unfold Qeq. simpl. intros H. rewrite Z.mul_1_r in H. rewrite H. apply Z.quot_mul. lia. Qed.

(** With an integral multiplier the backoff of a degraded worker is the
    initial backoff times the multiplier to the number of errors beyond the
    threshold, capped at the maximum. *)
Theorem worker_backoff_exact (p : RetryPolicy) (m consecutive : Z)
    (Hm : (rp_BackoffMultiplier p == inject_Z m)%Q)
    (Hc : rp_MaxConsecutiveErrors p <= consecutive) :
  calculateBackoff p consecutive
  = Z.min (rp_InitialBackoff p * m ^ (consecutive - rp_MaxConsecutiveErrors p))
      (rp_MaxBackoff p).
Proof.
  unfold calculateBackoff. set (n := consecutive - rp_MaxConsecutiveErrors p).
  assert (Hq : (inject_Z (rp_InitialBackoff p) * Qpower (rp_BackoffMultiplier p) n
    == inject_Z (rp_InitialBackoff p * m ^ n))%Q).
  { rewrite Hm, inject_Z_mult, Zpower_Qpower by (subst n; lia). reflexivity. }
  destruct (Qle_bool _ _) eqn:E.
  - rewrite (Qquot_inject _ _ Hq). apply Qle_bool_iff in E. rewrite Hq in E.
    rewrite <- Zle_Qle in E. lia.
  - assert (~ (inject_Z (rp_InitialBackoff p * m ^ n) <= inject_Z (rp_MaxBackoff p))%Q) as Hn.
    { rewrite <- Hq, <- Qle_bool_iff. congruence. }
    rewrite <- Zle_Qle in Hn. lia.
Qed.

(** ** Concrete inputs *)

Definition demo_profile : TargetProfile :=
  Build_TargetProfile "t1" "edge" "brocade" "readonly" true TargetStatusActive "https://sw"
    zeroTLS zeroProxy "" ∅ [] 60 zeroLimits false "" "" 0 1 0 ∅.
Definition demo_worker : Worker :=
  NewWorker (Build_WorkerConfig demo_profile DefaultRetryPolicy "tok" "" "" false true).
Definition demo_world : world payload :=
  Build_world demo_worker NewMetricsRegistry None None 1 0 [].
Definition demo_env : env :=
  Build_env (fun n => Z.of_nat n) (fun _ => Some "down") (fun _ => None) (fun _ => None)
    (fun _ => Err "timeout") (fun _ => "id") (fun _ => true).

Lemma error_escalation_witness :
  let d k := exec (for_each (replicate k "boom") (handleError demo_env)) demo_world in
  ws_Status (wstate (d 5%nat)) = WorkerStatusDegraded
  /\ ws_Status (wstate (d 20%nat)) = WorkerStatusFailed.
Proof.
  intros d. split.
  - exact (proj1 (proj2 (error_escalation demo_env (replicate 5 "boom") demo_world eq_refl
      ltac:(vm_compute; split; [reflexivity|discriminate])))).
  - exact (proj1 (proj2 (error_escalation demo_env (replicate 20 "boom") demo_world eq_refl
      ltac:(vm_compute; split; [reflexivity|discriminate])))).
Defined.

Lemma run_tick_watchdog_witness :
  ws_Status (wstate (exec (run_tick Some (fun _ => None) demo_env (SelWatchdog HangCollect))
                       demo_world)) = WorkerStatusStuck.
Proof.
  pose proof (run_tick_watchdog Some (fun _ => None) demo_env HangCollect demo_world eq_refl)
    as H. unfold exec.
  destruct (run_tick Some (fun _ => None) demo_env (SelWatchdog HangCollect) demo_world).
  exact (proj1 (proj2 H)).
Defined.

Lemma Restart_lifecycle_witness :
  exists d', Restart demo_env (exec (Start demo_env) demo_world) = Some (Ok tt, d')
    /\ life d' = (false, false, false, 1%nat).
Proof.
  destruct (Restart_lifecycle demo_env (exec (Start demo_env) demo_world)
    ltac:(split; reflexivity)) as [_ (d' & H1 & H2 & _)].
  exists d'. split; [exact H1|exact H2].
Defined.

Lemma worker_backoff_exact_witness :
  calculateBackoff DefaultRetryPolicy 7 = 40 * Second
  /\ calculateBackoff DefaultRetryPolicy 8 = 60 * Second.
Proof.
  split; rewrite (worker_backoff_exact DefaultRetryPolicy 2) by (reflexivity || discriminate);
    reflexivity.
Defined.
