(* ===== verification/SupervisorWorkers.v ===== *)
(** The collection worker implements the interface the supervisor uses. *)
From S2P Require Import Prelude Types Metrics UploadQueue LocalDB Interfaces Worker WorkerProps.

Local Open Scope Z_scope.

Section Instance.
Context {blob : Type} (e : env) (policy : RetryPolicy).
Implicit Types d : world blob.

Definition launch (p : TargetProfile) (creds : Creds) (token : string) (lanOnly : bool)
    : world blob :=
  exec (Start e)
    (Build_world (NewWorker (Build_WorkerConfig p policy token "" "" lanOnly true))
       NewMetricsRegistry None None 1 0 []).

#[local] Instance workerOps : WorkerOps (world blob) := {|
  w_State d := wk_state (wd_worker d);
  w_Profile d := wk_profile (wd_worker d);
  w_LanOnly d := wk_lanOnly (wd_worker d);
  w_Launch := launch;
  w_Stop := Stop e;
  w_Pause := Pause e;
  w_Restart d := snd <$> Restart e d;
  w_setStatus st d := exec (setStatus e st) d;
  w_SetLanOnly b d := exec (SetLanOnly b) d;
|}.

Lemma setStatus_profile st d :
  wk_profile (wd_worker (exec (setStatus e st) d)) = wk_profile (wd_worker d).
Proof.
  pose proof (setStatus_core e st d) as H. unfold quiet, core in H. by injection H.
Qed.

Lemma life_ok_life d d' : life d' = life d -> life_ok d -> life_ok d'.
Proof. unfold life, life_ok. intros H. by injection H as _ -> -> ->. Qed.

Lemma Stop_profile d d' :
  Stop e d = Some d' -> wk_profile (wd_worker d') = wk_profile (wd_worker d).
Proof.
  unfold Stop. destruct (if wk_stopped (wd_worker (exec cancel d)) then (true, exec cancel d)
    else await_done (exec cancel d)) as [[] d2] eqn:E; [|done]. intros [= <-].
  rewrite exec_bind, setStatus_profile.
  change (wk_profile (wd_worker d2) = wk_profile (wd_worker d)).
  revert E. unfold await_done, gets, mbind, M_bind. simpl.
  destruct (wk_stopped _); [by intros [= <-]|]. destruct (wk_done _); [by intros [= <-]|].
  destruct (wk_runs _); [done|]. by intros [= <-].
Qed.

#[local] Instance workerLaws : WorkerLaws (world blob).
Proof.
  apply (Build_WorkerLaws (world blob) workerOps life_ok); simpl; intros; try done.
  - destruct (Stop_ok e w) as (d' & H1 & H2 & H3); [done|]. exists d'. split; [done|].
    unfold life in H2. unfold life_ok. injection H2 as _ -> -> ->. split; [done|].
    change (wk_state (wd_worker d')) with (wstate d'). by rewrite H3.
  - unfold Pause.
    destruct (await_done_ok (exec cancel w)) as (H1 & H2 & H3); [done|].
    destruct (await_done (exec cancel w)) as [ok d1] eqn:E. simpl in H1. subst ok.
    replace (exec await_done (exec cancel w)) with d1 in H2, H3
      by (unfold exec in *; by rewrite E).
    eexists. split; [done|]. split_and!.
    + apply (life_ok_life d1); [apply setStatus_life|]. unfold life in H2. unfold life_ok.
      by injection H2 as _ -> -> ->.
    + rewrite setStatus_profile. revert E. unfold await_done, gets, mbind, M_bind. simpl.
      destruct (wk_done _); [by intros [= <-]|]. destruct (wk_runs _); [done|]. by intros [= <-].
    + change (wk_state (wd_worker ?x)) with (wstate x). by rewrite setStatus_state.
  - destruct (Stop_ok e (exec (t ← now e; upd_state (st_restart t)) w)) as (d2 & H1 & H2 & H3);
      [done|]. pose proof (Stop_profile _ _ H1) as Hprof. unfold Restart. rewrite H1.
    unfold life in H2. injection H2 as _ _ _ Hr. unfold wstate in H3.
    unfold Start, upd_worker, modify, gets, now, ask, mbind, M_bind. simpl. rewrite H3. simpl.
    eexists. split; [done|]. simpl. rewrite Hr, H3. by split_and!.
  - split_and!; [|apply setStatus_profile|].
    + by apply (life_ok_life w); [apply setStatus_life|].
    + change (wk_state (wd_worker ?x)) with (wstate x). by rewrite setStatus_state.
Defined.
End Instance.
