(* ===== verification/Supervisor.v ===== *)
(** The supervisor ([src/supervisor.go]): reconciliation of the desired targets
    with the running workers, target management, retry of failed workers, and
    the stall watchdog.  Workers and the store are used through their
    interfaces. *)
From S2P Require Import Prelude Types Interfaces Readiness Store.
From Stdlib Require Import QArith Qround.

Local Open Scope Z_scope.

(** ** State *)

Section Supervisor.
Context {Wk St : Type} `{!WorkerOps Wk, !StoreOps St}.

(** [sv_adapters] maps a target type to its factory, as whether the factory
    accepts a profile.  [sv_pending] holds the status changes reported by
    workers whose goroutine has not yet taken the lock. *)
Record Supervisor : Type := {
  sv_store : St;
  sv_state : option HostState;
  sv_workers : gmap string Wk;
  sv_adapters : gmap string (TargetProfile -> bool);
  sv_failedRetryAt : gmap string GoTime;
  sv_failedRetries : gmap string Z;
  sv_rest : Registry;
  sv_pending : list (string * WorkerStatus);
  sv_clock : nat -> GoTime;
  sv_rand : nat -> Q;
  sv_tick : nat;
}.

Definition set_sv_store (st : St) (s : Supervisor) : Supervisor :=
  Build_Supervisor st (sv_state s) (sv_workers s) (sv_adapters s) (sv_failedRetryAt s)
    (sv_failedRetries s) (sv_rest s) (sv_pending s) (sv_clock s) (sv_rand s) (sv_tick s).
Definition set_sv_state (h : option HostState) (s : Supervisor) : Supervisor :=
  Build_Supervisor (sv_store s) h (sv_workers s) (sv_adapters s) (sv_failedRetryAt s)
    (sv_failedRetries s) (sv_rest s) (sv_pending s) (sv_clock s) (sv_rand s) (sv_tick s).
Definition set_sv_workers (w : gmap string Wk) (s : Supervisor) : Supervisor :=
  Build_Supervisor (sv_store s) (sv_state s) w (sv_adapters s) (sv_failedRetryAt s)
    (sv_failedRetries s) (sv_rest s) (sv_pending s) (sv_clock s) (sv_rand s) (sv_tick s).
Definition set_sv_retry (at_ : gmap string GoTime) (n : gmap string Z) (s : Supervisor)
    : Supervisor :=
  Build_Supervisor (sv_store s) (sv_state s) (sv_workers s) (sv_adapters s) at_ n
    (sv_rest s) (sv_pending s) (sv_clock s) (sv_rand s) (sv_tick s).
Definition set_sv_rest (r : Registry) (s : Supervisor) : Supervisor :=
  Build_Supervisor (sv_store s) (sv_state s) (sv_workers s) (sv_adapters s)
    (sv_failedRetryAt s) (sv_failedRetries s) r (sv_pending s) (sv_clock s) (sv_rand s)
    (sv_tick s).
Definition notify (id : string) (st : WorkerStatus) (s : Supervisor) : Supervisor :=
  Build_Supervisor (sv_store s) (sv_state s) (sv_workers s) (sv_adapters s)
    (sv_failedRetryAt s) (sv_failedRetries s) (sv_rest s) (sv_pending s ++ [(id, st)])
    (sv_clock s) (sv_rand s) (sv_tick s).
Definition set_sv_pending (l : list (string * WorkerStatus)) (s : Supervisor) : Supervisor :=
  Build_Supervisor (sv_store s) (sv_state s) (sv_workers s) (sv_adapters s)
    (sv_failedRetryAt s) (sv_failedRetries s) (sv_rest s) l (sv_clock s) (sv_rand s) (sv_tick s).
Definition tick_sv (s : Supervisor) : Supervisor :=
  Build_Supervisor (sv_store s) (sv_state s) (sv_workers s) (sv_adapters s)
    (sv_failedRetryAt s) (sv_failedRetries s) (sv_rest s) (sv_pending s) (sv_clock s)
    (sv_rand s) (S (sv_tick s)).
Definition sv_now (s : Supervisor) : GoTime := sv_clock s (sv_tick s).

(** ** Retry delay of failed workers *)

(** [for i := 1; i < retryCount && backoff < 5*time.Minute; i++]. *)
Fixpoint retry_loop (n : nat) (backoff : Duration) : Duration :=
  match n with
  | O => backoff
  | S n' => if backoff <? 5 * Minute then retry_loop n' (wrap64 (backoff * 2)) else backoff
  end.
Definition retry_backoff (retryCount : Z) : Duration :=
  let backoff := retry_loop (Z.to_nat (retryCount - 1)) (30 * Second) in
  if 5 * Minute <? backoff then 5 * Minute else backoff.
(** The random factor between 0.8 and 1.2; [r] is [rand.Float64()]. *)
Definition jittered (backoff : Duration) (r : Q) : Duration :=
  Qfloor (inject_Z backoff * ((4 # 5) + (2 # 5) * r)).

(** ** Stopping, pausing, starting one worker *)

(** [existing.Stop(); delete(s.workers, id)]. *)
Definition stop_worker (id : string) (s : Supervisor) : option Supervisor :=
  match sv_workers s !! id with
  | None => Some s
  | Some w =>
      match w_Stop w with
      | None => None
      | Some _ => Some (notify (tp_TargetID (w_Profile w)) WorkerStatusStopped
                          (set_sv_workers (delete id (sv_workers s)) s))
      end
  end.

Definition pause_worker (id : string) (s : Supervisor) : option Supervisor :=
  match sv_workers s !! id with
  | None => Some s
  | Some w =>
      if bool_decide (ws_Status (w_State w) = WorkerStatusRunning) then
        match w_Pause w with
        | None => None
        | Some w' => Some (notify (tp_TargetID (w_Profile w)) WorkerStatusPaused
                             (set_sv_workers (<[id := w']> (sv_workers s)) s))
        end
      else Some s
  end.

(** The host state and the worker table decide whether a worker may start. *)
Definition startWorkerLocked (target : TargetProfile) (h : HostState) (s : Supervisor)
    : result string (TargetProfile * Supervisor) :=
  let max := hc_MaxConcurrentWorkers (hs_Config h) in
  if (0 <? max) && (max <=? Z.of_nat (size (sv_workers s))) then
    Err ("max concurrent workers (" +:+ pretty max +:+ ") reached")
  else match sv_adapters s !! tp_TargetType target with
  | None => Err ("no adapter registered for target type: " +:+ tp_TargetType target)
  | Some factory =>
      if negb (factory target) then Err "create adapter"
      else match LoadSecret (tp_CredentialRef target) (sv_store s) with
      | Err m => Err m
      | Ok creds =>
          let w := w_Launch target (default ∅ creds) (hi_ConnectorToken (hs_Identity h))
                     (hc_LanOnly (hs_Config h)) in
          Ok (set_tp_Status TargetStatusActive target,
              set_sv_workers (<[tp_TargetID target := w]> (sv_workers s)) s)
      end
  end.

(** ** Reconciliation *)

(** Case 4: start a worker, or mark the target as failing. *)
Definition try_start (target : TargetProfile) (h : HostState) (s : Supervisor)
    : TargetProfile * Supervisor :=
  match startWorkerLocked target h s with
  | Ok (t', s') => (t', s')
  | Err _ => (set_tp_Status TargetStatusError target, s)
  end.

(** The retry bookkeeping of a failed worker that is being replaced. *)
Definition schedule_retry (id : string) (s : Supervisor) : Supervisor :=
  let n := default 0 (sv_failedRetries s !! id) + 1 in
  let delay := jittered (retry_backoff n) (sv_rand s (sv_tick s)) in
  let s1 := tick_sv s in
  tick_sv (set_sv_retry (<[id := sv_now s1 + delay]> (sv_failedRetryAt s1))
             (<[id := n]> (sv_failedRetries s1)) s1).

(** One turn of the loop over the targets: the target with its new status. *)
Definition reconcile_target (h : HostState) (target : TargetProfile) (s : Supervisor)
    : option (TargetProfile * Supervisor) :=
  let id := tp_TargetID target in
  if negb (tp_Enabled target) || bool_decide (tp_Status target = TargetStatusRevoked) then
    (* Case 1: disabled or revoked *)
    match stop_worker id s with
    | None => None
    | Some s1 => Some (target, set_sv_rest (Readiness.Delete id (sv_rest s1)) s1)
    end
  else if tp_Paused target then
    (* Case 2: paused by the user *)
    match pause_worker id s with
    | None => None
    | Some s1 => Some (target, s1)
    end
  else match sv_workers s !! id with
  | Some w =>
      (* Case 3: a worker exists *)
      if bool_decide (ws_Status (w_State w) = WorkerStatusFailed) then
        let too_soon := match sv_failedRetryAt s !! id with
                        | Some at_ => Before (sv_now s) at_
                        | None => false
                        end in
        let s0 := tick_sv s in
        if too_soon then Some (target, s0)
        else match stop_worker id s0 with
        | None => None
        | Some s1 => Some (try_start target h (schedule_retry id s1))
        end
      else
        Some (target, set_sv_retry (delete id (sv_failedRetryAt s))
                        (delete id (sv_failedRetries s)) s)
  | None => Some (try_start target h s)
  end.

Fixpoint reconcile_loop (h : HostState) (ts : list TargetProfile) (s : Supervisor)
    : option (list TargetProfile * Supervisor) :=
  match ts with
  | [] => Some ([], s)
  | t :: rest =>
      match reconcile_target h t s with
      | None => None
      | Some (t', s1) =>
          match reconcile_loop h rest s1 with
          | None => None
          | Some (rest', s2) => Some (t' :: rest', s2)
          end
      end
  end.

(** Case 5: stop the workers of targets that are gone. *)
Fixpoint stop_orphans (ids : list string) (desired : list string) (s : Supervisor)
    : option Supervisor :=
  match ids with
  | [] => Some s
  | id :: rest =>
      if bool_decide (id ∈ desired) then stop_orphans rest desired s
      else match stop_worker id s with
      | None => None
      | Some s1 =>
          stop_orphans rest desired (set_sv_rest (Readiness.Delete id (sv_rest s1)) s1)
      end
  end.

Definition persist (h : HostState) (s : Supervisor) : result string unit * Supervisor :=
  let '(r, st) := SaveState h (sv_store s) in (r, set_sv_store st s).

Definition Reconcile (s : Supervisor) : option (result string unit * Supervisor) :=
  match sv_state s with
  | None => Some (Err "supervisor not initialized", s)
  | Some h =>
      match reconcile_loop h (hs_Targets h) s with
      | None => None
      | Some (ts, s1) =>
          let h1 := set_hs_Targets ts h in
          match stop_orphans (fst <$> map_to_list (sv_workers s1))
                  (map tp_TargetID (hs_Targets h)) s1 with
          | None => None
          | Some s2 => Some (persist h1 (set_sv_state (Some h1) s2))
          end
      end
  end.

(** ** Initialisation *)

(** [newID] is the value of [generateID] for a fresh host; a migration takes
    its two ids from [ids]. *)
Definition Initialize (legacy : option LegacyConfig) (newID : string) (ids : string * string)
    (s : Supervisor) : result string unit * Supervisor :=
  match LoadState (sv_store s) with
  | Ok (Some h) => (Ok tt, set_sv_state (Some h) s)
  | _ =>
      match legacy with
      | Some cfg =>
          if String.eqb (lc_ConnectorToken cfg) "" then
            (* no token: treated like a fresh install *)
            let h := Build_HostState (Build_HostIdentity newID "filterrex-connector" 0 "" "" "")
                       DefaultHostConfig [] zeroUpdate 1 0 0 "" in
            persist h (set_sv_state (Some h) s)
          else
            let '(h, creds) := ImportLegacyEnvConfig (fst ids) (snd ids) cfg in
            let s1 := set_sv_state (Some h) s in
            let '(r, st) := match hs_Targets h with
                            | t :: _ => SaveSecret (tp_TargetID t) creds (sv_store s1)
                            | [] => (Ok tt, sv_store s1)
                            end in
            let s2 := set_sv_store st s1 in
            match r with
            | Err m => (Err m, s2)
            | Ok _ => persist h s2
            end
      | None =>
          let h := Build_HostState (Build_HostIdentity newID "filterrex-connector" 0 "" "" "")
                     DefaultHostConfig [] zeroUpdate 1 0 0 "" in
          persist h (set_sv_state (Some h) s)
      end
  end.

(** ** Status changes reported by workers *)

Definition status_after (cur : TargetStatus) (st : WorkerStatus) : TargetStatus :=
  match st with
  | WorkerStatusDegraded => TargetStatusDegraded
  | WorkerStatusRunning => TargetStatusActive
  | WorkerStatusStopped =>
      if bool_decide (cur = TargetStatusPaused) then cur else TargetStatusActive
  | WorkerStatusFailed => TargetStatusError
  | _ => cur
  end.

(** The first target with the id gets the new status. *)
Fixpoint set_first_status (id : string) (st : WorkerStatus) (ts : list TargetProfile)
    : list TargetProfile :=
  match ts with
  | [] => []
  | t :: rest =>
      if String.eqb (tp_TargetID t) id
      then set_tp_Status (status_after (tp_Status t) st) t :: rest
      else t :: set_first_status id st rest
  end.

Definition has_target (id : string) (ts : list TargetProfile) : bool :=
  existsb (fun t => String.eqb (tp_TargetID t) id) ts.

(** The goroutine of [onWorkerStateChange], once it holds the lock. *)
Definition onWorkerStateChange (id : string) (st : WorkerStatus) (s : Supervisor)
    : Supervisor :=
  match sv_state s with
  | None => s
  | Some h =>
      let s1 := set_sv_state
                  (Some (set_hs_Targets (set_first_status id st (hs_Targets h)) h)) s in
      if has_target id (hs_Targets h) && bool_decide (st = WorkerStatusRunning)
      then set_sv_retry (delete id (sv_failedRetryAt s1)) (delete id (sv_failedRetries s1)) s1
      else s1
  end.

(** One of the waiting goroutines gets the lock. *)
Definition deliver (i : nat) (s : Supervisor) : Supervisor :=
  match sv_pending s !! i with
  | None => s
  | Some (id, st) => onWorkerStateChange id st (set_sv_pending (delete i (sv_pending s)) s)
  end.

(** ** Target management *)

Definition AddTarget (profile : TargetProfile) (creds : Creds) (s : Supervisor)
    : option (result string unit * Supervisor) :=
  match sv_state s with
  | None => None   (* nil dereference *)
  | Some h =>
      if has_target (tp_TargetID profile) (hs_Targets h) then
        Some (Err ("target " +:+ tp_TargetID profile +:+ " already exists"), s)
      else
        let '(r, st) := if bool_decide (creds = ∅) then (Ok tt, sv_store s)
                        else SaveSecret (tp_CredentialRef profile) creds (sv_store s) in
        let s1 := set_sv_store st s in
        match r with
        | Err m => Some (Err m, s1)
        | Ok _ =>
            let p1 := set_tp_UpdatedAt (sv_now s1) profile in
            let p2 := if bool_decide (tp_Status p1 = TargetStatusUnset)
                      then set_tp_Status TargetStatusPending p1 else p1 in
            Reconcile (tick_sv (set_sv_state
              (Some (set_hs_Targets (hs_Targets h ++ [p2]) h)) s1))
        end
  end.

(** Replacing the first target with the profile's id. *)
Fixpoint replace_first (p : TargetProfile) (ts : list TargetProfile) : list TargetProfile :=
  match ts with
  | [] => []
  | t :: rest => if String.eqb (tp_TargetID t) (tp_TargetID p) then p :: rest
                 else t :: replace_first p rest
  end.
Definition find_target (id : string) (ts : list TargetProfile) : option TargetProfile :=
  find (fun t => String.eqb (tp_TargetID t) id) ts.

(** What [UpdateTarget] stores for an update of [old]. *)
Definition updated_profile (now : GoTime) (old profile : TargetProfile) : TargetProfile :=
  let p1 := if String.eqb (tp_CredentialRef profile) ""
            then set_tp_CredentialRef (tp_CredentialRef old) profile else profile in
  let p2 := match tp_Status p1 with
            | TargetStatusError | TargetStatusPaused | TargetStatusDegraded =>
                set_tp_Status TargetStatusPending p1
            | _ => p1
            end in
  set_tp_UpdatedAt now (set_tp_Paused false p2).

Definition UpdateTarget (profile : TargetProfile) (s : Supervisor)
    : option (result string unit * Supervisor) :=
  match sv_state s with
  | None => None
  | Some h =>
      let id := tp_TargetID profile in
      match find_target id (hs_Targets h) with
      | None => Some (Err ("target " +:+ id +:+ " not found for update"), s)
      | Some old =>
          match stop_worker id s with
          | None => None
          | Some s1 =>
              let s2 := set_sv_retry (delete id (sv_failedRetryAt s1))
                          (delete id (sv_failedRetries s1)) s1 in
              let p := updated_profile (sv_now s2) old profile in
              Reconcile (tick_sv (set_sv_state
                (Some (set_hs_Targets (replace_first p (hs_Targets h)) h)) s2))
          end
      end
  end.

Fixpoint remove_first (id : string) (ts : list TargetProfile) : list TargetProfile :=
  match ts with
  | [] => []
  | t :: rest => if String.eqb (tp_TargetID t) id then rest else t :: remove_first id rest
  end.

Definition RemoveTarget (id : string) (s : Supervisor)
    : option (result string unit * Supervisor) :=
  match sv_state s with
  | None => None
  | Some h =>
      match stop_worker id s with
      | None => None
      | Some s1 =>
          match find_target id (hs_Targets h) with
          | None => Some (Err ("target " +:+ id +:+ " not found"), s1)
          | Some t =>
              let h1 := set_hs_Targets (remove_first id (hs_Targets h)) h in
              let st := if String.eqb (tp_CredentialRef t) "" then sv_store s1
                        else snd (DeleteSecret (tp_CredentialRef t) (sv_store s1)) in
              Some (persist h1 (set_sv_state (Some h1) (set_sv_store st s1)))
          end
      end
  end.

(** ** LAN-only propagation, shutdown *)

Definition SetLanOnly (lanOnly : bool) (s : Supervisor) : Supervisor :=
  set_sv_workers (w_SetLanOnly lanOnly <$> sv_workers s) s.

Fixpoint stop_all (ids : list string) (s : Supervisor) : option Supervisor :=
  match ids with
  | [] => Some s
  | id :: rest => match stop_worker id s with None => None | Some s1 => stop_all rest s1 end
  end.

Definition Shutdown (s : Supervisor) : option Supervisor :=
  match stop_all (fst <$> map_to_list (sv_workers s)) s with
  | None => None
  | Some s1 =>
      match sv_state s1 with
      | None => Some s1
      | Some h => Some (snd (persist h s1))
      end
  end.

(** ** The stall watchdog *)

Definition stageThresholds (stage : string) : Duration * Duration :=
  if String.eqb stage "connect" || String.eqb stage "upload" then (90 * Second, 3 * Minute)
  else if String.eqb stage "fetch" || String.eqb stage "parse" then (3 * Minute, 8 * Minute)
  else (2 * Minute, 5 * Minute).

Definition maxRestartsInWindow : Z := 3.
Definition restartWindow : Duration := 30 * Minute.

(** What a scan decides for one worker. *)
Inductive verdict : Type := Healthy | Suspect | Restarted | Escalated.

Definition watchdog_verdict (now : GoTime) (ws : WorkerState) : verdict :=
  if match ws_Status ws with
     | WorkerStatusStopped | WorkerStatusPaused | WorkerStatusFailed => true
     | _ => false
     end then Healthy
  else if (bool_decide (ws_Status ws = WorkerStatusIdle)
           || String.eqb (ws_CurrentStage ws) "sleep")
          && negb (IsZero (ws_NextScheduledAt ws))
          && Before now (ws_NextScheduledAt ws + 120 * Second) then Healthy
  else if IsZero (ws_LastProgressAt ws) && (Sub now (ws_StartedAt ws) <? 60 * Second) then Healthy
  else
    let '(soft, hard) := stageThresholds (ws_CurrentStage ws) in
    let progressAge := Sub now (ws_LastProgressAt ws) in
    if progressAge <? soft then Healthy
    else if progressAge <? hard then Suspect
    else if (maxRestartsInWindow <=? ws_RestartCount ws)
            && negb (IsZero (ws_LastRestartAt ws))
            && (Sub now (ws_LastRestartAt ws) <? restartWindow) then Escalated
    else Restarted.

(** The effect of the verdict on the worker, and the status changes it
    reports; the restart goroutine is run to its end. *)
Definition watchdog_apply (now : GoTime) (w : Wk) : option (Wk * list WorkerStatus) :=
  match watchdog_verdict now (w_State w) with
  | Healthy => Some (w, [])
  | Suspect => if bool_decide (ws_Status (w_State w) = WorkerStatusRunning)
               then Some (w_setStatus WorkerStatusDegraded w, [WorkerStatusDegraded])
               else Some (w, [])
  | Escalated => Some (w_setStatus WorkerStatusFailed w, [WorkerStatusFailed])
  | Restarted =>
      match w_Restart (w_setStatus WorkerStatusStuck w) with
      | None => None
      | Some w' => Some (w', [WorkerStatusStuck; WorkerStatusStopped])
      end
  end.

Fixpoint watchdog_scan (now : GoTime) (ids : list string) (s : Supervisor) : option Supervisor :=
  match ids with
  | [] => Some s
  | id :: rest =>
      match sv_workers s !! id with
      | None => watchdog_scan now rest s
      | Some w =>
          match watchdog_apply now w with
          | None => None
          | Some (w', reports) =>
              let s1 := set_sv_workers (<[id := w']> (sv_workers s)) s in
              watchdog_scan now rest
                (foldl (fun s st => notify (tp_TargetID (w_Profile w)) st s) s1 reports)
          end
      end
  end.
Definition watchdogScan (s : Supervisor) : option Supervisor :=
  watchdog_scan (sv_now s) (fst <$> map_to_list (sv_workers s)) (tick_sv s).

(** ** Queries *)

Definition TargetCount (s : Supervisor) : Z :=
  match sv_state s with None => 0 | Some h => Z.of_nat (length (hs_Targets h)) end.
Definition WorkerCount (s : Supervisor) : Z := Z.of_nat (size (sv_workers s)).
Definition FindTarget (id : string) (s : Supervisor) : option TargetProfile :=
  h ← sv_state s; find_target id (hs_Targets h).
Definition IsAdapterSupported (t : string) (s : Supervisor) : bool :=
  bool_decide (is_Some (sv_adapters s !! t)).
End Supervisor.
