(* ===== verification/SupervisorProps.v ===== *)
(** Properties of the supervisor: what a reconciliation guarantees, retry
    delays, target management and the watchdog, proved against the worker and
    store interfaces. *)
From S2P Require Import Prelude Types Metrics UploadQueue LocalDB Interfaces Readiness Store.
From S2P Require Import Worker WorkerProps SupervisorWorkers Supervisor.
From Stdlib Require Import QArith Qround.

Local Open Scope Z_scope.

Section Reconcile.
Context {Wk St : Type} `{!WorkerOps Wk, !StoreOps St, HWL : !WorkerLaws Wk, HSL : !StoreLaws St}.
Implicit Types s : Supervisor (Wk:=Wk) (St:=St).
Implicit Types t : TargetProfile.

(** Every worker in the table is live and belongs to the id it is filed under. *)
Definition workers_ok s : Prop :=
  forall id w, sv_workers s !! id = Some w -> w_ok w /\ tp_TargetID (w_Profile w) = id.

Definition stopped_target t : bool :=
  negb (tp_Enabled t) || bool_decide (tp_Status t = TargetStatusRevoked).

(** Parts a reconciliation of targets never touches. *)
Definition frame s s' : Prop :=
  sv_store s' = sv_store s /\ sv_state s' = sv_state s /\ sv_adapters s' = sv_adapters s.
#[local] Instance frame_preorder : PreOrder frame.
Proof.
  split; unfold Reflexive, Transitive, frame; [done|]. intros ? ? ? (-> & -> & ->). done.
Qed.

Lemma stop_worker_spec id s :
  workers_ok s ->
  exists s', stop_worker id s = Some s' /\ frame s s' /\ sv_rest s' = sv_rest s
    /\ sv_workers s' = delete id (sv_workers s).
Proof.
  intros Hok. unfold stop_worker. destruct (sv_workers s !! id) as [w|] eqn:E.
  - destruct (Hok _ _ E) as [Hw _]. destruct (Stop_returns w Hw) as (w' & -> & _).
    eexists. split; [done|]. by split_and!.
  - eexists. split; [done|]. rewrite delete_id by done. by split_and!.
Qed.

Lemma pause_worker_spec id s :
  workers_ok s ->
  exists s', pause_worker id s = Some s' /\ frame s s' /\ sv_rest s' = sv_rest s
    /\ workers_ok s' /\ dom (sv_workers s') = dom (sv_workers s)
    /\ forall id', id' <> id -> sv_workers s' !! id' = sv_workers s !! id'.
Proof.
  intros Hok. unfold pause_worker. destruct (sv_workers s !! id) as [w|] eqn:E;
    [|eexists; split; [done|]; by split_and!].
  case_bool_decide; [|eexists; split; [done|]; by split_and!].
  destruct (Hok _ _ E) as [Hw Hid]. destruct (Pause_returns w Hw) as (w' & -> & Hw' & Hp & _).
  eexists. split; [done|]. split_and!; [done..| | |].
  - intros i v. simpl. intros [[<- <-]|[Hne Hl]]%lookup_insert_Some; [|by apply Hok].
    split; [done|]. by rewrite Hp.
  - simpl. rewrite dom_insert_L. apply elem_of_dom_2 in E. set_solver.
  - intros i Hi. simpl. by rewrite lookup_insert_ne.
Qed.

(** Starting: the table gains at most the target's entry, within the cap. *)
Lemma try_start_spec h t s :
  workers_ok s -> sv_workers s !! tp_TargetID t = None ->
  let '(t', s') := try_start t h s in
  frame s s' /\ sv_rest s' = sv_rest s /\ workers_ok s'
  /\ t' = set_tp_Status (tp_Status t') t
  /\ (is_Some (sv_workers s' !! tp_TargetID t) \/ tp_Status t' = TargetStatusError)
  /\ (forall id, id <> tp_TargetID t -> sv_workers s' !! id = sv_workers s !! id)
  /\ (0 < hc_MaxConcurrentWorkers (hs_Config h) ->
      Z.of_nat (size (sv_workers s'))
      <= Z.max (Z.of_nat (size (sv_workers s))) (hc_MaxConcurrentWorkers (hs_Config h))).
Proof.
  intros Hok Hnone. unfold try_start, startWorkerLocked.
  assert (Hfail : frame s s /\ sv_rest s = sv_rest s /\ workers_ok s
    /\ set_tp_Status TargetStatusError t = set_tp_Status TargetStatusError t
    /\ (is_Some (sv_workers s !! tp_TargetID t)
        \/ tp_Status (set_tp_Status TargetStatusError t) = TargetStatusError)
    /\ (forall id, id <> tp_TargetID t -> sv_workers s !! id = sv_workers s !! id)
    /\ (0 < hc_MaxConcurrentWorkers (hs_Config h) -> Z.of_nat (size (sv_workers s))
      <= Z.max (Z.of_nat (size (sv_workers s))) (hc_MaxConcurrentWorkers (hs_Config h)))).
  { split_and!; try done; [by right|lia]. }
  destruct ((0 <? _) && _) eqn:Ecap; [exact Hfail|].
  destruct (sv_adapters s !! _) as [factory|]; [|exact Hfail].
  destruct (negb (factory t)); [exact Hfail|].
  destruct (LoadSecret _ _) as [creds|]; [|exact Hfail].
  split_and!; simpl; try done.
  - intros i v. simpl. intros [[<- <-]|[Hne Hl]]%lookup_insert_Some; [|by apply Hok].
    rewrite Launch_profile. split; [apply Launch_ok|done].
  - left. by rewrite lookup_insert_eq.
  - intros i Hi. by rewrite lookup_insert_ne.
  - intros Hmax. rewrite map_size_insert_None by done.
    apply andb_false_iff in Ecap as [?%Z.ltb_ge|?%Z.leb_gt]; lia.
Qed.

Lemma workers_ok_ext s s' : sv_workers s' = sv_workers s -> workers_ok s -> workers_ok s'.
Proof. unfold workers_ok. by intros ->. Qed.

Lemma workers_ok_delete id s s' :
  sv_workers s' = delete id (sv_workers s) -> workers_ok s -> workers_ok s'.
Proof. unfold workers_ok. intros -> H i w [_ Hl]%lookup_delete_Some. by apply H. Qed.

Lemma rest_delete_other id k (r : Registry) : k <> id -> Readiness.Delete id r !! k = r !! k.
Proof. intros H. unfold Delete. destruct (String.eqb id ""); [done|]. by rewrite lookup_delete_ne. Qed.
Lemma rest_delete_same id (r : Registry) : id <> "" -> Readiness.Delete id r !! id = None.
Proof. intros H. unfold Delete. rewrite (proj2 (String.eqb_neq _ _) H). by rewrite lookup_delete_eq. Qed.

(** What one turn of the reconciliation loop guarantees for its target, and
    that it leaves every other target's worker and readiness alone. *)
Record turn_ok (h : HostState) t t' s s' : Prop := {
  to_frame : frame s s';
  to_workers : workers_ok s';
  to_target : t' = set_tp_Status (tp_Status t') t;
  to_other : forall id, id <> tp_TargetID t ->
    sv_workers s' !! id = sv_workers s !! id /\ sv_rest s' !! id = sv_rest s !! id;
  to_stopped : stopped_target t = true ->
    sv_workers s' !! tp_TargetID t = None
    /\ (tp_TargetID t <> "" -> sv_rest s' !! tp_TargetID t = None);
  to_running : stopped_target t = false -> tp_Paused t = false ->
    is_Some (sv_workers s' !! tp_TargetID t) \/ tp_Status t' = TargetStatusError;
  to_keep : forall w, stopped_target t = false -> tp_Paused t = false ->
    sv_workers s !! tp_TargetID t = Some w -> ws_Status (w_State w) <> WorkerStatusFailed ->
    sv_workers s' !! tp_TargetID t = Some w;
  to_paused : stopped_target t = false -> tp_Paused t = true ->
    dom (sv_workers s') = dom (sv_workers s);
  to_cap : 0 < hc_MaxConcurrentWorkers (hs_Config h) ->
    Z.of_nat (size (sv_workers s'))
    <= Z.max (Z.of_nat (size (sv_workers s))) (hc_MaxConcurrentWorkers (hs_Config h));
}.

Lemma set_status_self t : t = set_tp_Status (tp_Status t) t.
Proof. by destruct t. Qed.

Lemma size_delete_le id (m : gmap string Wk) : (size (delete id m) <= size m)%nat.
Proof. rewrite map_size_delete. destruct (m !! id); unfold Datatypes.id; lia. Qed.

Lemma turn_start h t s s0 :
  workers_ok s -> sv_workers s !! tp_TargetID t = None -> stopped_target t = false ->
  tp_Paused t = false -> frame s0 s ->
  (forall id, id <> tp_TargetID t ->
     sv_workers s !! id = sv_workers s0 !! id /\ sv_rest s !! id = sv_rest s0 !! id) ->
  (size (sv_workers s) <= size (sv_workers s0))%nat ->
  (forall w, sv_workers s0 !! tp_TargetID t = Some w ->
     ws_Status (w_State w) = WorkerStatusFailed) ->
  let '(t', s') := try_start t h s in turn_ok h t t' s0 s'.
Proof.
  intros Hok Hnone Hst Hpa Hfr Hoth Hsz Hfail. pose proof (try_start_spec h t s Hok Hnone) as H.
  destruct (try_start t h s) as [t' s'].
  destruct H as (F & R & W & T & Run & O & Cap). split; try done.
  - by etransitivity.
  - intros id Hid. rewrite (O id Hid), R. by apply Hoth.
  - by rewrite Hst.
  - intros w _ _ Hw Hne. by apply Hfail in Hw.
  - by rewrite Hpa.
  - intros Hm. specialize (Cap Hm). lia.
Qed.

Lemma turn_stop h t s :
  workers_ok s -> stopped_target t = true ->
  exists s1, stop_worker (tp_TargetID t) s = Some s1
    /\ turn_ok h t t s (set_sv_rest (Readiness.Delete (tp_TargetID t) (sv_rest s1)) s1).
Proof.
  intros Hok Hst. destruct (stop_worker_spec (tp_TargetID t) s Hok) as (s1 & E & F & R & W).
  exists s1. split; [done|]. split; simpl; rewrite ?W, ?R, ?Hst; try done.
  - by eapply workers_ok_delete.
  - apply set_status_self.
  - intros id Hid. rewrite lookup_delete_ne by done. by rewrite rest_delete_other by done.
  - intros _. rewrite lookup_delete_eq. split; [done|]. apply rest_delete_same.
  - intros _. pose proof (size_delete_le (tp_TargetID t) (sv_workers s)). lia.
Qed.

Lemma turn_pause h t s :
  workers_ok s -> stopped_target t = false -> tp_Paused t = true ->
  exists s1, pause_worker (tp_TargetID t) s = Some s1 /\ turn_ok h t t s s1.
Proof.
  intros Hok Hst Hpa.
  destruct (pause_worker_spec (tp_TargetID t) s Hok) as (s1 & E & F & R & W & D & O).
  exists s1. split; [done|]. split; rewrite ?Hst, ?Hpa, ?R; try done.
  - apply set_status_self.
  - intros id Hid. by rewrite O.
  - intros _. rewrite <- !size_dom, D. lia.
Qed.

Lemma turn_keep h t s s' :
  workers_ok s -> stopped_target t = false -> tp_Paused t = false ->
  is_Some (sv_workers s !! tp_TargetID t) -> frame s s' -> sv_rest s' = sv_rest s ->
  sv_workers s' = sv_workers s -> turn_ok h t t s s'.
Proof.
  intros Hok Hst Hpa Hw F R W. split; rewrite ?Hst, ?Hpa, ?R, ?W; try done.
  - by eapply workers_ok_ext.
  - apply set_status_self.
  - by left.
  - lia.
Qed.

Lemma reconcile_target_spec h t s :
  workers_ok s -> exists t' s', reconcile_target h t s = Some (t', s') /\ turn_ok h t t' s s'.
Proof.
  intros Hok. unfold reconcile_target. fold (stopped_target t).
  destruct (stopped_target t) eqn:Hst.
  { destruct (turn_stop h t s Hok Hst) as (s1 & -> & H). by eexists _, _. }
  destruct (tp_Paused t) eqn:Hpa.
  { destruct (turn_pause h t s Hok Hst Hpa) as (s1 & -> & H). by eexists _, _. }
  destruct (sv_workers s !! tp_TargetID t) as [w|] eqn:Ew.
  - case_bool_decide.
    + destruct (match sv_failedRetryAt s !! _ with Some _ => _ | None => _ end).
      { eexists _, _. split; [done|]. by apply turn_keep. }
      destruct (stop_worker_spec (tp_TargetID t) (tick_sv s)) as (s1 & -> & F & R & W).
      { by eapply workers_ok_ext. }
      pose proof (turn_start h t (schedule_retry (tp_TargetID t) s1) s) as HT.
      destruct (try_start _ _ _) as [t' s']. eexists _, _. split; [done|].
      apply HT; try done; simpl; rewrite ?W, ?R.
      * by eapply workers_ok_delete.
      * apply lookup_delete_eq.
      * intros id Hid. by rewrite lookup_delete_ne.
      * apply size_delete_le.
      * intros w' Hw'. by simplify_eq.
    + eexists _, _. split; [done|]. by apply turn_keep.
  - pose proof (turn_start h t s s Hok Ew Hst Hpa (reflexivity _) ltac:(done) ltac:(lia)
      ltac:(congruence)) as HT.
    destruct (try_start t h s) as [t' s']. by eexists _, _.
Qed.

(** What the whole loop leaves for a target of the list. *)
Definition settled s s' t t' : Prop :=
  t' = set_tp_Status (tp_Status t') t
  /\ (stopped_target t = true -> sv_workers s' !! tp_TargetID t = None
      /\ (tp_TargetID t <> "" -> sv_rest s' !! tp_TargetID t = None))
  /\ (stopped_target t = false -> tp_Paused t = false ->
      is_Some (sv_workers s' !! tp_TargetID t) \/ tp_Status t' = TargetStatusError)
  /\ (forall w, stopped_target t = false -> tp_Paused t = false ->
      sv_workers s !! tp_TargetID t = Some w -> ws_Status (w_State w) <> WorkerStatusFailed ->
      sv_workers s' !! tp_TargetID t = Some w).

(** The start state of a settlement matters only at the ids of its targets. *)
Lemma settled_start s s0 s' ts ts' :
  (forall id, id ∈ map tp_TargetID ts -> sv_workers s !! id = sv_workers s0 !! id
     /\ sv_rest s !! id = sv_rest s0 !! id) ->
  Forall2 (settled s s') ts ts' -> Forall2 (settled s0 s') ts ts'.
Proof.
  intros H HF. induction HF as [|t t' ts ts' (H1 & H2 & H3 & H4) HF IH]; constructor.
  - destruct (H (tp_TargetID t)) as [Ew _]; [simpl; set_solver|].
    unfold settled. rewrite <- Ew. done.
  - apply IH. intros id Hid. apply H. simpl. set_solver.
Qed.

Lemma reconcile_loop_spec h ts s :
  workers_ok s -> NoDup (map tp_TargetID ts) ->
  exists ts' s', reconcile_loop h ts s = Some (ts', s')
    /\ frame s s' /\ workers_ok s' /\ Forall2 (settled s s') ts ts'
    /\ (forall id, id ∉ map tp_TargetID ts ->
         sv_workers s' !! id = sv_workers s !! id /\ sv_rest s' !! id = sv_rest s !! id)
    /\ (0 < hc_MaxConcurrentWorkers (hs_Config h) ->
        Z.of_nat (size (sv_workers s'))
        <= Z.max (Z.of_nat (size (sv_workers s))) (hc_MaxConcurrentWorkers (hs_Config h))).
Proof.
  revert s. induction ts as [|t ts IH]; intros s Hok Hnd; cbn [reconcile_loop map].
  { eexists _, _. split; [done|]. split_and!; [done|done|constructor|done|lia]. }
  apply NoDup_cons in Hnd as [Hnin Hnd].
  destruct (reconcile_target_spec h t s Hok) as (t' & s1 & -> & [F W T O St' Ru Ke Pa Cap]).
  destruct (IH s1 W Hnd) as (ts' & s2 & -> & F2 & W2 & Set2 & O2 & Cap2).
  destruct (O2 _ Hnin) as [Ew Er]. eexists _, _. split; [done|]. split_and!.
  - by etransitivity.
  - done.
  - constructor; [split_and!; [done|..]; rewrite ?Ew, ?Er; done|].
    eapply settled_start; [|exact Set2]. intros id Hid. apply O. intros ->. done.
  - intros id Hid. apply not_elem_of_cons in Hid as [Hne Hid].
    destruct (O2 id Hid) as [-> ->]. by apply O.
  - intros Hm. specialize (Cap Hm). specialize (Cap2 Hm). lia.
Qed.

Lemma stop_orphans_spec ids desired s :
  workers_ok s ->
  exists s', stop_orphans ids desired s = Some s' /\ frame s s' /\ workers_ok s'
    /\ (forall id, sv_workers s' !! id
         = if decide (id ∈ ids /\ id ∉ desired) then None else sv_workers s !! id)
    /\ (forall id, id ∈ desired -> sv_rest s' !! id = sv_rest s !! id)
    /\ (size (sv_workers s') <= size (sv_workers s))%nat.
Proof.
  revert s. induction ids as [|i ids IH]; intros s Hok; cbn [stop_orphans].
  { eexists. split; [done|]. split_and!; [done|done| |done|done].
    intros id. destruct (decide _) as [[Hin _]|]; [|done]. by apply not_elem_of_nil in Hin. }
  case_bool_decide as Hd.
  - destruct (IH s Hok) as (s' & -> & F & W & L & R & Sz). exists s'. split_and!; try done.
    intros id. rewrite L. destruct (decide (id ∈ ids /\ id ∉ desired)),
      (decide (id ∈ i :: ids /\ id ∉ desired)); set_solver.
  - destruct (stop_worker_spec i s Hok) as (s1 & -> & F1 & R1 & W1).
    set (s2 := set_sv_rest _ s1).
    destruct (IH s2) as (s' & -> & F & W & L & R & Sz); [by eapply workers_ok_delete|].
    exists s'. split_and!; try done.
    + by transitivity s1; [|transitivity s2].
    + intros id. rewrite L. simpl. rewrite W1.
      destruct (decide (id = i)) as [->|Hne].
      * rewrite lookup_delete_eq. destruct (decide _), (decide _); set_solver.
      * rewrite lookup_delete_ne by done. destruct (decide _), (decide _); set_solver.
    + intros id Hid. rewrite R by done. simpl. rewrite R1.
      apply rest_delete_other. intros ->. done.
    + simpl in Sz. rewrite W1 in Sz. pose proof (size_delete_le i (sv_workers s)). lia.
Qed.

(** The host state and table of a supervisor that has been initialised. *)
Definition sv_wf s h : Prop :=
  sv_state s = Some h /\ NoDup (map tp_TargetID (hs_Targets h)) /\ workers_ok s.

Lemma settled_ids s s' ts ts' :
  Forall2 (settled s s') ts ts' -> map tp_TargetID ts' = map tp_TargetID ts.
Proof.
  induction 1 as [|t t' ts ts' [H _] _ IH]; simpl; [done|]. rewrite IH. f_equal.
  rewrite H. by destruct t.
Qed.

Lemma settled_transfer s0 s s' ts ts' :
  (forall id, id ∈ map tp_TargetID ts ->
     sv_workers s' !! id = sv_workers s !! id /\ sv_rest s' !! id = sv_rest s !! id) ->
  Forall2 (settled s0 s) ts ts' -> Forall2 (settled s0 s') ts ts'.
Proof.
  intros H HF. induction HF as [|t t' ts ts' (H1 & H2 & H3 & H4) HF IH]; constructor.
  - destruct (H (tp_TargetID t)) as [Ew Er]; [simpl; set_solver|].
    unfold settled. rewrite Ew, Er. done.
  - apply IH. intros id Hid. apply H. simpl. set_solver.
Qed.

Lemma Reconcile_spec s h :
  sv_wf s h ->
  exists r s' ts', Reconcile s = Some (r, s')
    /\ sv_wf s' (set_hs_Targets ts' h) /\ sv_adapters s' = sv_adapters s
    /\ (r, sv_store s') = SaveState (set_hs_Targets ts' h) (sv_store s)
    /\ Forall2 (settled s s') (hs_Targets h) ts'
    /\ (forall id w, sv_workers s' !! id = Some w -> id ∈ map tp_TargetID (hs_Targets h))
    /\ (0 < hc_MaxConcurrentWorkers (hs_Config h) ->
        Z.of_nat (size (sv_workers s'))
        <= Z.max (Z.of_nat (size (sv_workers s))) (hc_MaxConcurrentWorkers (hs_Config h))).
Proof.
  intros (Hst & Hnd & Hok). unfold Reconcile. rewrite Hst.
  destruct (reconcile_loop_spec h (hs_Targets h) s Hok Hnd)
    as (ts' & s1 & -> & F1 & W1 & Set1 & O1 & Cap1).
  destruct (stop_orphans_spec (fst <$> map_to_list (sv_workers s1))
    (map tp_TargetID (hs_Targets h)) s1 W1) as (s2 & -> & F2 & W2 & L2 & R2 & Sz2).
  pose proof (transitivity (R:=frame) F1 F2) as (Fs & _ & Fa).
  unfold persist. simpl. rewrite Fs.
  destruct (SaveState _ (sv_store s)) as [r st] eqn:Esave.
  assert (Hkeep : forall id, id ∈ map tp_TargetID (hs_Targets h) ->
    sv_workers s2 !! id = sv_workers s1 !! id /\ sv_rest s2 !! id = sv_rest s1 !! id).
  { intros id Hid. rewrite L2, R2 by done. split; [|done]. by rewrite decide_False by tauto. }
  eexists r, _, ts'. split; [done|]. split; [|split_and!; simpl; try done].
  - split_and!; [done| |exact W2]. simpl. by rewrite (settled_ids _ _ _ _ Set1).
  - by apply (settled_transfer s s2), (settled_transfer s s1).
  - intros id w Hw. rewrite L2 in Hw.
    destruct (decide (id ∈ map tp_TargetID (hs_Targets h))) as [|Hnin]; [done|].
    destruct (decide (id ∈ (map_to_list (sv_workers s1)).*1 /\ _)) as [|Hno]; [done|].
    exfalso. apply Hno. split; [|done]. apply list_elem_of_fmap. exists (id, w).
    split; [done|]. by apply elem_of_map_to_list.
  - intros Hm. specialize (Cap1 Hm). lia.
Qed.

(** ** Retry delays *)

Lemma retry_loop_exact n b :
  0 < b <= 5 * Minute ->
  Z.min (retry_loop n b) (5 * Minute) = Z.min (b * 2 ^ Z.of_nat n) (5 * Minute)
  /\ 0 < retry_loop n b <= 10 * Minute.
Proof.
  assert (HM : 5 * Minute = 300000000000) by done.
  assert (HM2 : 10 * Minute = 600000000000) by done. rewrite HM, HM2.
  revert b. induction n as [|n IH]; intros b Hb; cbn [retry_loop].
  { change (2 ^ Z.of_nat 0) with 1. lia. }
  rewrite Nat2Z.inj_succ, Z.pow_succ_r by lia.
  pose proof (Z.pow_pos_nonneg 2 (Z.of_nat n) ltac:(lia) ltac:(lia)).
  rewrite HM. destruct (Z.ltb_spec b 300000000000); [|nia].
  rewrite wrap64_id by (unfold in_int64, int64_min, int64_max; lia).
  destruct (Z.leb_spec (b * 2) 300000000000).
  - destruct (IH (b * 2)) as [E R]; [lia|]. rewrite E. split; [f_equal; lia|lia].
  - destruct n; cbn [retry_loop]; [change (2 ^ Z.of_nat 0) with 1; lia|].
    rewrite HM. destruct (Z.ltb_spec (b * 2) 300000000000); [lia|]. nia.
Qed.

Lemma retry_backoff_exact_min n :
  1 <= n -> retry_backoff n = Z.min (30 * Second * 2 ^ (n - 1)) (5 * Minute).
Proof.
  intros Hn. unfold retry_backoff.
  destruct (retry_loop_exact (Z.to_nat (n - 1)) (30 * Second)) as [E _]; [done|].
  rewrite Z2Nat.id in E by lia. rewrite <- E.
  destruct (Z.ltb_spec (5 * Minute) (retry_loop (Z.to_nat (n - 1)) (30 * Second))); lia.
Qed.

Lemma jittered_bounds b r :
  0 <= b -> (0 <= r)%Q -> (r < 1)%Q -> 4 * b / 5 <= jittered b r <= 6 * b / 5.
Proof.
  intros Hb H0 H1. destruct r as [n d]. unfold Qle, Qlt in H0, H1. simpl in H0, H1.
  unfold jittered, Qmult, Qplus, inject_Z, Qfloor. cbn [Qnum Qden].
  rewrite !Pos2Z.inj_mul. set (D := Zpos d) in *.
  assert (HD : 0 < D) by (subst D; lia). clearbody D. clear d.
  replace (b * (4 * (5 * D) + 2 * n * 5)) with (b * (20 * D + 10 * n)) by lia.
  replace (1 * (5 * (5 * D))) with (25 * D) by lia. split.
  - apply Z.div_le_lower_bound; [lia|].
    pose proof (Z.mul_div_le (4 * b) 5 ltac:(lia)). nia.
  - replace (6 * b / 5) with (30 * D * b / (25 * D)).
    + apply Z.div_le_mono; [lia|nia].
    + replace (30 * D * b) with ((5 * D) * (6 * b)) by lia.
      replace (25 * D) with ((5 * D) * 5) by lia. apply Z.div_mul_cancel_l; lia.
Qed.

(** ** Target management *)

Lemma find_replace p ts :
  has_target (tp_TargetID p) ts = true -> find_target (tp_TargetID p) (replace_first p ts) = Some p.
Proof.
  unfold has_target, find_target. induction ts as [|t ts IH]; simpl; [done|].
  destruct (String.eqb (tp_TargetID t) (tp_TargetID p)) eqn:E; simpl.
  - by rewrite String.eqb_refl.
  - rewrite E. auto.
Qed.

Lemma find_has id ts t : find_target id ts = Some t -> has_target id ts = true.
Proof.
  unfold find_target, has_target. induction ts as [|u ts IH]; simpl; [done|].
  by destruct (String.eqb (tp_TargetID u) id).
Qed.

Lemma replace_first_ids p ts :
  map tp_TargetID (replace_first p ts) = map tp_TargetID ts.
Proof.
  induction ts as [|t ts IH]; simpl; [done|].
  destruct (String.eqb_spec (tp_TargetID t) (tp_TargetID p)) as [->|]; simpl; by rewrite ?IH.
Qed.

(** After a settlement each target is found with a new status only. *)
Lemma settled_find s s' id ts ts' t :
  Forall2 (settled s s') ts ts' -> find_target id ts = Some t ->
  exists st, find_target id ts' = Some (set_tp_Status st t).
Proof.
  induction 1 as [|u u' ts ts' [Hu _] _ IH]; simpl; [done|].
  assert (Hid : tp_TargetID u' = tp_TargetID u) by (rewrite Hu; by destruct u).
  unfold find_target in *. simpl. rewrite Hid.
  destruct (String.eqb (tp_TargetID u) id); [|done].
  intros [= <-]. exists (tp_Status u'). by rewrite <- Hu.
Qed.

Lemma has_target_In id ts : has_target id ts = true <-> id ∈ map tp_TargetID ts.
Proof.
  unfold has_target. rewrite existsb_exists, list_elem_of_fmap.
  split; intros (t & H1 & H2).
  - apply String.eqb_eq in H2. exists t. split; [done|]. by apply list_elem_of_In.
  - exists t. split; [by apply list_elem_of_In|]. by rewrite H1, String.eqb_refl.
Qed.

Lemma remove_first_ids id ts :
  NoDup (map tp_TargetID ts) ->
  NoDup (map tp_TargetID (remove_first id ts)) /\ id ∉ map tp_TargetID (remove_first id ts)
  /\ forall k, k <> id -> find_target k (remove_first id ts) = find_target k ts.
Proof.
  induction ts as [|t ts IH]; simpl; [intros _; split_and!; [constructor|apply not_elem_of_nil|done]|].
  intros [Hn Hd]%NoDup_cons. destruct (String.eqb_spec (tp_TargetID t) id) as [<-|Hne].
  - split_and!; [done|done|]. intros k Hk. unfold find_target. simpl.
    by rewrite (proj2 (String.eqb_neq _ _)).
  - destruct (IH Hd) as (H1 & H2 & H3). simpl. split_and!.
    + apply NoDup_cons. split; [|done]. intros Hin. apply Hn.
      clear -Hin. induction ts as [|u ts IH]; simpl in *; [done|].
      destruct (String.eqb _ id); set_solver.
    + set_solver.
    + intros k Hk. unfold find_target in *. simpl. destruct (String.eqb _ k); auto.
Qed.
End Reconcile.

(** ** Properties *)

(** C8: a reconciliation converges.  It always returns; afterwards every worker
    belongs to a target of the host state, no disabled or revoked target has a
    worker or a published REST readiness, every other target that is not paused
    has a worker or is marked as failing to start, a worker that has not failed
    is left exactly as it was, and of the targets only the status changed.  A
    second target with the same id never appears. *)
Theorem Reconcile_converges {Wk St : Type} `{!WorkerOps Wk, !StoreOps St, !WorkerLaws Wk}
    (s : Supervisor (Wk:=Wk) (St:=St)) (h : HostState) (Hwf : sv_wf s h) :
  exists r s' ts', Reconcile s = Some (r, s')
    /\ sv_wf s' (set_hs_Targets ts' h)
    /\ Forall2 (settled s s') (hs_Targets h) ts'
    /\ (forall id w, sv_workers s' !! id = Some w -> id ∈ map tp_TargetID (hs_Targets h)).
Proof.
  destruct (Reconcile_spec s h Hwf) as (r & s' & ts' & H1 & H2 & _ & _ & H3 & H4 & _).
  by exists r, s', ts'.
Qed.

(** The cap on concurrent workers.  A reconciliation never raises the
    number of workers above the configured maximum; if it was above already (a
    lowered cap) it does not grow. *)
Theorem Reconcile_worker_cap {Wk St : Type} `{!WorkerOps Wk, !StoreOps St, !WorkerLaws Wk}
    (s : Supervisor (Wk:=Wk) (St:=St)) (h : HostState) (Hwf : sv_wf s h)
    (Hmax : 0 < hc_MaxConcurrentWorkers (hs_Config h)) :
  exists r s', Reconcile s = Some (r, s')
    /\ WorkerCount s' <= Z.max (WorkerCount s) (hc_MaxConcurrentWorkers (hs_Config h)).
Proof.
  destruct (Reconcile_spec s h Hwf) as (r & s' & ts' & H1 & _ & _ & _ & _ & _ & H3).
  exists r, s'. split; [done|]. by apply H3.
Qed.

(** Persistence.  When a reconciliation reports success, a restarted host
    that loads its state finds exactly the targets the reconciliation left in
    memory; when it reports an error, the stored state is the old one. *)
Theorem Reconcile_persisted {Wk St : Type} `{!WorkerOps Wk, !StoreOps St, !WorkerLaws Wk,
    !StoreLaws St} (s : Supervisor (Wk:=Wk) (St:=St)) (h : HostState) (Hwf : sv_wf s h)
    (Hst : store_ok (sv_store s)) :
  exists r s', Reconcile s = Some (r, s')
    /\ LoadState (sv_store s')
       = match r with Ok _ => Ok (sv_state s') | Err _ => LoadState (sv_store s) end.
Proof.
  destruct (Reconcile_spec s h Hwf) as (r & s' & ts' & H1 & H2 & _ & H3 & _).
  exists r, s'. split; [done|]. destruct H2 as (-> & _ & _).
  pose proof (SaveState_load (sv_store s) (set_hs_Targets ts' h) Hst) as H.
  rewrite <- H3 in H. by destruct r.
Qed.

(** The delay before a failed worker is retried doubles from 30 seconds and
    is capped at five minutes, and the jitter keeps it within 80% to 120%. *)
Theorem retry_delay (n : Z) (r : Q) (Hn : 1 <= n) (H0 : (0 <= r)%Q) (H1 : (r < 1)%Q) :
  let base := Z.min (30 * Second * 2 ^ (n - 1)) (5 * Minute) in
  retry_backoff n = base /\ 4 * base / 5 <= jittered (retry_backoff n) r <= 6 * base / 5.
Proof.
  intros base. rewrite retry_backoff_exact_min by done. fold base. split; [done|].
  apply jittered_bounds; [|done|done]. unfold base.
  pose proof (Z.pow_nonneg 2 (n - 1) ltac:(lia)). unfold Minute, Second, Millisecond. lia.
Qed.

(** An update of an existing target restarts it and clears a pause: after
    [UpdateTarget] the stored profile is the given one with a fresh timestamp,
    the old credential reference if none was given, never in the paused or
    error state, and not paused even when the update asked for a pause. *)
Theorem UpdateTarget_clears_pause {Wk St : Type} `{!WorkerOps Wk, !StoreOps St, !WorkerLaws Wk}
    (s : Supervisor (Wk:=Wk) (St:=St)) (h : HostState) (Hwf : sv_wf s h)
    (p old : TargetProfile) (Hold : find_target (tp_TargetID p) (hs_Targets h) = Some old) :
  exists r s' h' st, UpdateTarget p s = Some (r, s') /\ sv_wf s' h'
    /\ find_target (tp_TargetID p) (hs_Targets h')
       = Some (set_tp_Status st (updated_profile (sv_now s) old p))
    /\ tp_Paused (updated_profile (sv_now s) old p) = false.
Proof.
  destruct Hwf as (Hs & Hnd & Hok). unfold UpdateTarget. rewrite Hs, Hold.
  destruct (stop_worker_spec (tp_TargetID p) s Hok) as (s1 & E & F & R & W).
  rewrite E. set (s2 := set_sv_retry _ _ s1).
  assert (Hnow : sv_now s2 = sv_now s).
  { revert E. unfold stop_worker. repeat case_match; intros; by simplify_eq. }
  rewrite Hnow. set (q := updated_profile (sv_now s) old p).
  assert (Hq : tp_TargetID q = tp_TargetID p /\ tp_Paused q = false).
  { unfold q, updated_profile. destruct (String.eqb _ ""), p; simpl; by repeat case_match. }
  destruct Hq as [Hid Hpa]. set (h1 := set_hs_Targets (replace_first q (hs_Targets h)) h).
  destruct (Reconcile_spec (tick_sv (set_sv_state (Some h1) s2)) h1)
    as (r & s' & ts' & -> & H2 & _ & _ & H3 & _).
  { split_and!; [done|by simpl; rewrite replace_first_ids|]. by eapply workers_ok_delete. }
  assert (Hf : find_target (tp_TargetID p) (hs_Targets h1) = Some q).
  { rewrite <- Hid. apply find_replace. rewrite Hid. by eapply find_has. }
  destruct (settled_find _ _ _ _ _ _ H3 Hf) as (st & Hst).
  exists r, s', (set_hs_Targets ts' h1), st. by split_and!.
Qed.

(** Removal.  Removing a known target stops and forgets its worker, drops
    it and only it from the host state, and deletes its credentials. *)
Theorem RemoveTarget_complete {Wk St : Type} `{!WorkerOps Wk, !StoreOps St, !WorkerLaws Wk,
    !StoreLaws St} (s : Supervisor (Wk:=Wk) (St:=St)) (h : HostState) (Hwf : sv_wf s h)
    (id : string) (t : TargetProfile) (Ht : find_target id (hs_Targets h) = Some t)
    (Hst : store_ok (sv_store s)) (Href : tp_CredentialRef t <> "")
    (Hplain : plain (tp_CredentialRef t))
    (Hdel : is_ok (fst (DeleteSecret (tp_CredentialRef t) (sv_store s))) = true) :
  exists r s' h', RemoveTarget id s = Some (r, s') /\ sv_wf s' h'
    /\ sv_workers s' = delete id (sv_workers s)
    /\ id ∉ map tp_TargetID (hs_Targets h')
    /\ (forall k, k <> id -> find_target k (hs_Targets h') = find_target k (hs_Targets h))
    /\ LoadSecret (tp_CredentialRef t) (sv_store s') = Ok None.
Proof.
  destruct Hwf as (Hs & Hnd & Hok). unfold RemoveTarget. rewrite Hs.
  destruct (stop_worker_spec id s Hok) as (s1 & -> & (Fs & _ & _) & R & W).
  rewrite Ht, (proj2 (String.eqb_neq _ _) Href). unfold persist. simpl. rewrite Fs.
  set (st1 := snd (DeleteSecret _ _)). set (h1 := set_hs_Targets _ h).
  destruct (remove_first_ids id (hs_Targets h) Hnd) as (H1 & H2 & H3).
  assert (Hst1 : store_ok st1) by by apply DeleteSecret_keeps.
  pose proof (SaveState_secret st1 h1 (tp_CredentialRef t) Hst1 Hplain) as H4.
  pose proof (DeleteSecret_load (sv_store s) (tp_CredentialRef t) Hst Hplain) as H5.
  destruct (SaveState h1 st1) as [r st2]. simpl in H4.
  eexists r, _, h1. split; [done|].
  split; [split_and!; [done|done|by eapply workers_ok_delete]|split_and!; simpl; try done].
  - rewrite H4. unfold st1. destruct (DeleteSecret _ _) as [[] st']; [done|by simpl in Hdel].
Qed.

(** The stall watchdog.  It never touches a worker that is stopped, paused
    or failed, nor one that progressed within its stage's soft threshold; past
    the hard threshold a worker is restarted, unless it was already restarted
    three times with the last restart within half an hour, and then it is
    escalated to failed. *)
Theorem watchdog_verdict_spec (now : GoTime) (ws : WorkerState) :
  let '(soft, hard) := stageThresholds (ws_CurrentStage ws) in
  let age := Sub now (ws_LastProgressAt ws) in
  0 < soft < hard
  /\ (ws_Status ws ∈ [WorkerStatusStopped; WorkerStatusPaused; WorkerStatusFailed]
      \/ age < soft -> watchdog_verdict now ws = Healthy)
  /\ (watchdog_verdict now ws = Suspect -> soft <= age < hard)
  /\ (watchdog_verdict now ws = Restarted \/ watchdog_verdict now ws = Escalated -> hard <= age)
  /\ (watchdog_verdict now ws = Escalated <->
      watchdog_verdict now ws <> Healthy /\ hard <= age /\ 3 <= ws_RestartCount ws
      /\ ws_LastRestartAt ws <> 0 /\ Sub now (ws_LastRestartAt ws) < 30 * Minute).
Proof.
  unfold watchdog_verdict.
  assert (Ht : 0 < fst (stageThresholds (ws_CurrentStage ws))
                 < snd (stageThresholds (ws_CurrentStage ws)))
    by (unfold stageThresholds; by repeat case_match).
  destruct (stageThresholds (ws_CurrentStage ws)) as [soft hard]. simpl in Ht.
  set (age := Sub now (ws_LastProgressAt ws)). split; [done|].
  assert (Hh : forall v, v = Healthy -> (ws_Status ws ∈ [WorkerStatusStopped; WorkerStatusPaused;
      WorkerStatusFailed] \/ age < soft -> v = Healthy) /\ (v = Suspect -> soft <= age < hard)
    /\ (v = Restarted \/ v = Escalated -> hard <= age)
    /\ (v = Escalated <-> v <> Healthy /\ hard <= age /\ 3 <= ws_RestartCount ws
      /\ ws_LastRestartAt ws <> 0 /\ Sub now (ws_LastRestartAt ws) < 30 * Minute)).
  { intros v ->. split_and!; [done|done|by intros [|]|]. split; [done|]. by intros []. }
  destruct (match ws_Status ws with WorkerStatusStopped => _ | _ => _ end) eqn:Es;
    [by apply Hh|].
  destruct (_ && _ && _) eqn:E1; [by apply Hh|].
  destruct (IsZero _ && _) eqn:E2; [by apply Hh|].
  destruct (Z.ltb_spec age soft); [by apply Hh|].
  assert (Hact : ~ (ws_Status ws ∈ [WorkerStatusStopped; WorkerStatusPaused; WorkerStatusFailed]
    \/ age < soft)).
  { intros [Hin|]; [|lia]. destruct (ws_Status ws); try done; set_solver. }
  destruct (Z.ltb_spec age hard).
  { split_and!; [tauto|done|by intros [|]|]. split; [done|]. intros (_ & ? & _). lia. }
  unfold maxRestartsInWindow, restartWindow, IsZero.
  destruct (Z.leb_spec 3 (ws_RestartCount ws)), (Z.eqb_spec (ws_LastRestartAt ws) 0),
    (Z.ltb_spec (Sub now (ws_LastRestartAt ws)) (30 * Minute)); simpl;
    (split_and!; [tauto|done|done|]); split; try done; intros (_ & ? & ? & ? & ?); done || lia.
Qed.

(** ** A concrete supervisor *)

(** Two targets, one of them disabled but still running, and a worker for a
    target that is gone; collection workers and the in-memory store. *)
Definition demo_target (id : string) (enabled : bool) : TargetProfile :=
  Build_TargetProfile id id "brocade" "readonly" enabled TargetStatusActive "https://sw"
    zeroTLS zeroProxy "" ∅ [] 60 zeroLimits false "" id 0 1 0 ∅.
Definition demo_host : HostState :=
  Build_HostState (Build_HostIdentity "h" "lab" 0 "tok" "" "")
    (Build_HostConfig "info" 2 300 "disabled" "" false 60 0 false false false)
    [demo_target "t1" true; demo_target "t2" false] zeroUpdate 1 0 0 "".
Definition demo_ops : WorkerOps (world payload) := workerOps demo_env DefaultRetryPolicy.
Definition demo_laws : @WorkerLaws (world payload) demo_ops := workerLaws demo_env DefaultRetryPolicy.
Definition demo_launch (id : string) : world payload :=
  launch demo_env DefaultRetryPolicy (demo_target id true) ∅ "tok" false.
Definition demo_sv : Supervisor (Wk:=world payload) (St:=MemStore) :=
  Build_Supervisor (Build_MemStore {["t1" := {["password" := "x"]}]} None true) (Some demo_host)
    {["t2" := demo_launch "t2"; "gone" := demo_launch "gone"]}
    {["brocade" := fun _ => true]} ∅ ∅ ∅ [] (fun n => Z.of_nat n) (fun _ => 0%Q) 0.

Lemma demo_sv_wf : @sv_wf _ _ demo_ops demo_laws demo_sv demo_host.
Proof.
  split_and!; [done| |].
  - apply (bool_decide_unpack _). vm_compute. exact I.
  - intros id w Hw. simpl in Hw.
    apply lookup_insert_Some in Hw as [[<- <-]|[_ Hw]]; [by split|].
    apply lookup_singleton_Some in Hw as [<- <-]. by split.
Qed.

Lemma Reconcile_converges_witness :
  exists r s' ts', Reconcile (WorkerOps0:=demo_ops) demo_sv = Some (r, s')
    /\ Forall2 (settled (WorkerOps0:=demo_ops) demo_sv s') (hs_Targets demo_host) ts'.
Proof.
  destruct (Reconcile_converges (WorkerOps0:=demo_ops) (WorkerLaws0:=demo_laws) demo_sv demo_host
    demo_sv_wf) as (r & s' & ts' & H1 & _ & H2 & _).
  exists r, s', ts'. split; [exact H1|exact H2].
Defined.

Lemma Reconcile_worker_cap_witness :
  exists r s', Reconcile (WorkerOps0:=demo_ops) demo_sv = Some (r, s') /\ WorkerCount s' <= 2.
Proof.
  exact (Reconcile_worker_cap (WorkerOps0:=demo_ops) (WorkerLaws0:=demo_laws) demo_sv demo_host
    demo_sv_wf ltac:(reflexivity)).
Defined.

Lemma Reconcile_persisted_witness :
  exists r s', Reconcile (WorkerOps0:=demo_ops) demo_sv = Some (r, s')
    /\ LoadState (sv_store s')
       = match r with Ok _ => Ok (sv_state s') | Err _ => LoadState (sv_store demo_sv) end.
Proof.
  exact (Reconcile_persisted (WorkerOps0:=demo_ops) (WorkerLaws0:=demo_laws) demo_sv demo_host
    demo_sv_wf I).
Defined.

Lemma retry_delay_witness :
  retry_backoff 3 = 2 * Minute /\ 96 * Second <= jittered (retry_backoff 3) (1 # 2) <= 144 * Second.
Proof.
  exact (retry_delay 3 (1 # 2) ltac:(discriminate) ltac:(discriminate) ltac:(reflexivity)).
Defined.

Lemma UpdateTarget_clears_pause_witness :
  let p := set_tp_Paused true (demo_target "t1" true) in
  exists r s' h' st, UpdateTarget (WorkerOps0:=demo_ops) p demo_sv = Some (r, s')
    /\ find_target "t1" (hs_Targets h')
       = Some (set_tp_Status st (updated_profile (sv_now demo_sv) (demo_target "t1" true) p))
    /\ tp_Paused (updated_profile (sv_now demo_sv) (demo_target "t1" true) p) = false.
Proof.
  intros p.
  destruct (UpdateTarget_clears_pause (WorkerOps0:=demo_ops) (WorkerLaws0:=demo_laws) demo_sv
    demo_host demo_sv_wf p (demo_target "t1" true) eq_refl) as (r & s' & h' & st & H1 & _ & H2 & H3).
  exists r, s', h', st. split; [exact H1|]. split; [exact H2|exact H3].
Defined.

Lemma RemoveTarget_complete_witness :
  exists r s' h', RemoveTarget (WorkerOps0:=demo_ops) "t1" demo_sv = Some (r, s')
    /\ "t1" ∉ map tp_TargetID (hs_Targets h') /\ LoadSecret "t1" (sv_store s') = Ok None.
Proof.
  destruct (RemoveTarget_complete (WorkerOps0:=demo_ops) (WorkerLaws0:=demo_laws)
    (StoreLaws0:=memLaws) demo_sv
    demo_host demo_sv_wf "t1" (demo_target "t1" true) eq_refl I ltac:(discriminate)
    ltac:(repeat constructor; discriminate) eq_refl)
    as (r & s' & h' & H1 & _ & _ & H2 & _ & H3).
  exists r, s', h'. split; [exact H1|]. split; [exact H2|exact H3].
Defined.
