(* ===== verification/DesiredState.v ===== *)
(** Desired-state synchronisation ([src/desired_state.go]): validation and
    credentials of the desired targets, their application through the
    supervisor, acknowledgements, host configuration and the local wipe. *)
From S2P Require Import Prelude GoStrings Types Interfaces Policy Readiness Store Supervisor.

Local Open Scope Z_scope.

(** ** Payloads *)

Record WipeInstruction : Type := { wi_Action : string }.
Record HostConfigOverride : Type := {
  ho_LogLevel : string;
  ho_SyncIntervalSecs : Z;
  ho_MaxConcurrentWorkers : Z;
  ho_DisplayMode : string;
}.
Record HostPolicy : Type := { hp_AutoUpdatePolicy : string }.
Record DesiredStatePayload (Cmd : Type) : Type := {
  ds_Revision : Z;
  ds_HostConfig : option HostConfigOverride;
  ds_Targets : list DesiredTargetProfile;
  ds_Policy : option HostPolicy;
  ds_WipeInstruction : option WipeInstruction;
  ds_PendingCommands : list Cmd;
}.
Arguments ds_Revision {Cmd}.
Arguments ds_HostConfig {Cmd}.
Arguments ds_Targets {Cmd}.
Arguments ds_Policy {Cmd}.
Arguments ds_WipeInstruction {Cmd}.
Arguments ds_PendingCommands {Cmd}.

Record RejectedProfile : Type := {
  rj_TargetID : string;
  rj_Name : string;
  rj_Reason : string;
}.
Record TargetAckStatus : Type := { ta_Status : string; ta_Error : string }.
Record WipeAckPayload : Type := {
  wa_Status : string;
  wa_Error : string;
  wa_WipedTargets : Z;
}.
Record AckPayload : Type := {
  ack_Revision : Z;
  ack_Status : string;
  ack_TargetStatuses : gmap string TargetAckStatus;
  ack_WipeAck : option WipeAckPayload;
}.

(** What the manager sends: acknowledgements with whether they were delivered,
    and relay commands handed to the relay handler. *)
Inductive sync_event (Cmd : Type) : Type :=
| SyAck (token : string) (a : AckPayload) (delivered : bool)
| SyCommands (cmds : list Cmd).
Arguments SyAck {Cmd}.
Arguments SyCommands {Cmd}.

Section Sync.
Context {Wk St Cmd : Type} `{!WorkerOps Wk, !StoreOps St}.
Context (box_open : buf -> buf -> buf -> buf -> option buf).
Context (b64_encode : buf -> string) (b64_decode : string -> option buf).
Context (unmarshal_creds : buf -> option Creds).
Context (server_name : string -> string).
(** The order in which ranging over the map of current targets visits its keys. *)
Context (range_order : list string -> list string).

(** [sm_backend] says whether the [n]-th acknowledgement gets through. *)
Record SyncManager : Type := {
  sm_sv : Supervisor (Wk:=Wk) (St:=St);
  sm_keypair : option HostKeyPair;
  sm_lastRejected : list RejectedProfile;
  sm_fastPollUntil : GoTime;
  sm_lastStatusPushAt : GoTime;
  sm_backend : nat -> bool;
  sm_events : list (sync_event Cmd);
}.

Definition set_sm_sv (s : Supervisor) (m : SyncManager) : SyncManager :=
  Build_SyncManager s (sm_keypair m) (sm_lastRejected m) (sm_fastPollUntil m)
    (sm_lastStatusPushAt m) (sm_backend m) (sm_events m).
Definition set_sm_rejected (r : list RejectedProfile) (m : SyncManager) : SyncManager :=
  Build_SyncManager (sm_sv m) (sm_keypair m) r (sm_fastPollUntil m) (sm_lastStatusPushAt m)
    (sm_backend m) (sm_events m).
Definition set_sm_fast (t : GoTime) (m : SyncManager) : SyncManager :=
  Build_SyncManager (sm_sv m) (sm_keypair m) (sm_lastRejected m) t (sm_lastStatusPushAt m)
    (sm_backend m) (sm_events m).
Definition set_sm_pushed (t : GoTime) (m : SyncManager) : SyncManager :=
  Build_SyncManager (sm_sv m) (sm_keypair m) (sm_lastRejected m) (sm_fastPollUntil m) t
    (sm_backend m) (sm_events m).
Definition emit_sm (e : sync_event Cmd) (m : SyncManager) : SyncManager :=
  Build_SyncManager (sm_sv m) (sm_keypair m) (sm_lastRejected m) (sm_fastPollUntil m)
    (sm_lastStatusPushAt m) (sm_backend m) (sm_events m ++ [e]).

Definition statusPushInterval : Duration := 2 * Minute.

(** [GetConnectorToken], [GetTargets], [GetState] and [Status] of the
    supervisor. *)
Definition GetConnectorToken (s : Supervisor (Wk:=Wk) (St:=St)) : string :=
  match sv_state s with Some h => hi_ConnectorToken (hs_Identity h) | None => "" end.
Definition GetTargets (s : Supervisor (Wk:=Wk) (St:=St)) : list TargetProfile :=
  match sv_state s with Some h => hs_Targets h | None => [] end.
Definition Status (s : Supervisor (Wk:=Wk) (St:=St)) : list WorkerState :=
  (fun '(_, w) => w_State w) <$> map_to_list (sv_workers s).

(** [SendAcknowledgement]. *)
Definition send (a : AckPayload) (m : SyncManager) : bool * SyncManager :=
  let ok := sm_backend m (length (sm_events m)) in
  (ok, emit_sm (SyAck (GetConnectorToken (sm_sv m)) a ok) m).

(** ** Validation of the desired targets *)

Fixpoint validateProfiles (ps : list DesiredTargetProfile)
    : list DesiredTargetProfile * list RejectedProfile :=
  match ps with
  | [] => ([], [])
  | p :: rest =>
      let '(valid, rejected) := validateProfiles rest in
      match Validate p with
      | Ok _ => (p :: valid, rejected)
      | Err m => (valid, Build_RejectedProfile (dt_TargetID p) (dt_Name p) m :: rejected)
      end
  end.

(** ** Credentials *)

Definition save_creds (id : string) (c : Creds) (s : Supervisor (Wk:=Wk) (St:=St))
    : result string unit * Supervisor :=
  let '(r, st) := SaveSecret id c (sv_store s) in (r, set_sv_store st s).

(** The plaintext of an envelope: its parts are decoded, checked, put together
    and decrypted as a blob. *)
Definition open_envelope (env : CredentialEnvelope) (kp : HostKeyPair) : result string Creds :=
  if negb (String.eqb (env_Format env) "ecpv1") then Err "unsupported credential envelope format"
  else if negb (String.eqb (env_Algorithm env) "x25519-xsalsa20-poly1305") then
    Err "unsupported envelope algorithm"
  else match b64_decode (env_SenderPublicKey env), b64_decode (env_Nonce env),
             b64_decode (env_Ciphertext env) with
  | None, _, _ => Err "decode sender public key"
  | _, None, _ => Err "decode nonce"
  | _, _, None => Err "decode ciphertext"
  | Some pub, Some nonce, Some ct =>
      if negb (length pub =? 32)%nat then Err "invalid sender public key length"
      else if negb (length nonce =? 24)%nat then Err "invalid nonce length"
      else match DecryptCredentialPayload box_open b64_decode (b64_encode (pub ++ nonce ++ ct)) kp with
      | Err m => Err ("decrypt envelope: " +:+ m)
      | Ok p => match unmarshal_creds p with
                | Some c => Ok c
                | None => Err "unmarshal envelope credentials"
                end
      end
  end.

Definition processCredentials (kp : option HostKeyPair) (d : DesiredTargetProfile)
    (s : Supervisor (Wk:=Wk) (St:=St)) : result string unit * Supervisor :=
  match dt_CredentialPayload d with
  | None => (Ok tt, s)
  | Some cp =>
      let m := cr_EncryptionMethod cp in
      if String.eqb m "host-keypair" then
        match kp with
        | None => (Err "host keypair not available for decryption", s)
        | Some kp =>
            match cr_Envelope cp with
            | Some env => match open_envelope env kp with
                          | Err e => (Err e, s)
                          | Ok c => save_creds (dt_TargetID d) c s
                          end
            | None =>
                if String.eqb (cr_EncryptedBlob cp) "" then
                  (Err "empty encrypted blob and no envelope", s)
                else match DecryptCredentialPayload box_open b64_decode (cr_EncryptedBlob cp) kp with
                | Err e => (Err ("decrypt credentials: " +:+ e), s)
                | Ok p => match unmarshal_creds p with
                          | None => (Err "unmarshal decrypted credentials", s)
                          | Some c => save_creds (dt_TargetID d) c s
                          end
                end
            end
        end
      else if String.eqb m "token-scoped" || String.eqb m "plaintext" then
        if bool_decide (cr_Credentials cp = ∅) then (Err "empty credential payload", s)
        else save_creds (dt_TargetID d) (cr_Credentials cp) s
      else if String.eqb m "unavailable" then (Err "credentials unavailable", s)
      else if String.eqb m "error" then (Err "backend credential encryption error", s)
      else (Err ("unknown encryption method: " +:+ m), s)
  end.

Definition extractCredsFromPayload (cp : option CredentialPayload) : Creds :=
  match cp with
  | None => ∅
  | Some c => if String.eqb (cr_EncryptionMethod c) "token-scoped"
                 || String.eqb (cr_EncryptionMethod c) "plaintext"
              then cr_Credentials c else ∅
  end.

(** ** Acknowledgements *)

(** The entry of one target: error text only for unhealthy targets. *)
Definition target_ack (states : list WorkerState) (t : TargetProfile) : TargetAckStatus :=
  {| ta_Status := TargetStatus_string (tp_Status t);
     ta_Error :=
       match tp_Status t with
       | TargetStatusError | TargetStatusDegraded =>
           match find (fun ws => String.eqb (ws_TargetID ws) (tp_TargetID t)
                                 && negb (String.eqb (ws_LastError ws) "")) states with
           | Some ws => ws_LastError ws
           | None => ""
           end
       | _ => ""
       end |}.

Definition target_acks (s : Supervisor (Wk:=Wk) (St:=St)) : gmap string TargetAckStatus :=
  foldl (fun m t => <[tp_TargetID t := target_ack (Status s) t]> m) ∅ (GetTargets s).

Definition sendAck (revision : Z) (status : string) (m : SyncManager) : SyncManager :=
  let s := sm_sv m in
  if String.eqb (GetConnectorToken s) "" then m
  else
    let acks := foldl (fun a r => <[rj_TargetID r := Build_TargetAckStatus "error"
                                      ("rejected: " +:+ rj_Reason r)]> a)
                  (target_acks s) (sm_lastRejected m) in
    let status' := match sm_lastRejected m with
                   | _ :: _ => if String.eqb status "applied" then
                                 match GetTargets s with _ :: _ => "partial" | [] => "failed" end
                               else status
                   | [] => status
                   end in
    let '(_, m1) := send (Build_AckPayload revision status' acks None) m in
    match sv_state s with
    | None => m1
    | Some h =>
        let h1 := set_hs_Sync revision (sv_now s) status' h in
        set_sm_sv (snd (persist h1 (set_sv_state (Some h1) (tick_sv s)))) m1
    end.

Definition maybeStatusPush (m : SyncManager) : SyncManager :=
  let s := sm_sv m in
  if Since (sv_now s) (sm_lastStatusPushAt m) <? statusPushInterval then m
  else if String.eqb (GetConnectorToken s) "" then m
  else match GetTargets s with
  | [] => m
  | _ =>
      let revision := match sv_state s with Some h => hs_LastSyncRevision h | None => 0 end in
      let '(ok, m1) := send (Build_AckPayload revision "applied" (target_acks s) None) m in
      if (ok : bool) then set_sm_pushed (sv_now s) m1 else m1
  end.

(** ** Local wipe *)

Fixpoint delete_secrets (ts : list TargetProfile) (s : Supervisor (Wk:=Wk) (St:=St))
    : Z * Supervisor :=
  match ts with
  | [] => (0, s)
  | t :: rest =>
      let '(r, st) := DeleteSecret (tp_CredentialRef t) (sv_store s) in
      let '(n, s') := delete_secrets rest (set_sv_store st s) in
      (match r with Ok _ => n + 1 | Err _ => n end, s')
  end.

Definition executeLocalWipe (s : Supervisor (Wk:=Wk) (St:=St))
    : option (WipeAckPayload * Supervisor) :=
  let targets := GetTargets s in
  match Shutdown s with
  | None => None
  | Some s1 =>
      let '(wiped, s2) := delete_secrets targets s1 in
      match sv_state s2 with
      | None => Some (Build_WipeAckPayload "completed" "" wiped, s2)
      | Some h =>
          let h1 := set_hs_Targets [] h in
          match persist h1 (set_sv_state (Some h1) s2) with
          | (Ok _, s3) => Some (Build_WipeAckPayload "completed" "" wiped, s3)
          | (Err e, s3) => Some (Build_WipeAckPayload "failed" ("state save failed: " +:+ e) wiped, s3)
          end
      end
  end.

Definition sendWipeAck (revision : Z) (w : WipeAckPayload) (m : SyncManager) : SyncManager :=
  if String.eqb (GetConnectorToken (sm_sv m)) "" then m
  else snd (send (Build_AckPayload revision "applied" ∅ (Some w)) m).

(** ** Host configuration *)

Definition isValidLogLevel (l : string) : bool :=
  String.eqb l "debug" || String.eqb l "info" || String.eqb l "warn" || String.eqb l "error".

Definition override_config (o : HostConfigOverride) (c : HostConfig) : HostConfig :=
  let display := String.eqb (ho_DisplayMode o) "lan-only" || String.eqb (ho_DisplayMode o) "hybrid" in
  Build_HostConfig
    (if negb (String.eqb (ho_LogLevel o) "") && isValidLogLevel (ho_LogLevel o)
     then ho_LogLevel o else hc_LogLevel c)
    (if 0 <=? ho_MaxConcurrentWorkers o then ho_MaxConcurrentWorkers o
     else hc_MaxConcurrentWorkers c)
    (hc_WatchdogTimeoutSecs c) (hc_AutoUpdatePolicy c) (hc_PinnedPublicKey c)
    (hc_InsecureSkipVerify c)
    (if (0 <? ho_SyncIntervalSecs o) && (15 <=? ho_SyncIntervalSecs o)
     then ho_SyncIntervalSecs o else hc_SyncIntervalSecs c)
    (hc_LocalRetentionDays c)
    (if display then String.eqb (ho_DisplayMode o) "lan-only" else hc_LanOnly c)
    (hc_RemoteLiveQueryEnabled c) (hc_RemoteRestartEnabled c).

Definition applyHostConfig (o : HostConfigOverride) (s : Supervisor (Wk:=Wk) (St:=St))
    : Supervisor :=
  match sv_state s with
  | None => s
  | Some h =>
      let s1 := set_sv_state (Some (set_hs_Config (override_config o (hs_Config h)) h)) s in
      if String.eqb (ho_DisplayMode o) "lan-only" || String.eqb (ho_DisplayMode o) "hybrid"
      then SetLanOnly (String.eqb (ho_DisplayMode o) "lan-only") s1 else s1
  end.

Definition applyHostPolicy (p : HostPolicy) (s : Supervisor (Wk:=Wk) (St:=St)) : Supervisor :=
  match sv_state s with
  | None => s
  | Some h =>
      if String.eqb (hp_AutoUpdatePolicy p) "" then s
      else
        let c := hs_Config h in
        set_sv_state (Some (set_hs_Config
          (Build_HostConfig (hc_LogLevel c) (hc_MaxConcurrentWorkers c)
             (hc_WatchdogTimeoutSecs c) (hp_AutoUpdatePolicy p) (hc_PinnedPublicKey c)
             (hc_InsecureSkipVerify c) (hc_SyncIntervalSecs c) (hc_LocalRetentionDays c)
             (hc_LanOnly c) (hc_RemoteLiveQueryEnabled c) (hc_RemoteRestartEnabled c)) h)) s
  end.

(** ** Applying the desired targets *)

Definition desiredToInternal (now : GoTime) (d : DesiredTargetProfile) : TargetProfile :=
  {| tp_TargetID := dt_TargetID d; tp_Name := dt_Name d; tp_TargetType := dt_TargetType d;
     tp_Mode := dt_Mode d; tp_Enabled := dt_Enabled d;
     tp_Status := if bool_decide (dt_Status d = TargetStatusPaused) && negb (dt_Paused d)
                  then TargetStatusPending else dt_Status d;
     tp_Endpoint := dt_Endpoint d; tp_TLS := dt_TLS d; tp_Proxy := zeroProxy;
     tp_AuthType := dt_AuthType d; tp_Labels := dt_Labels d;
     tp_Capabilities := dt_Capabilities d; tp_PollIntervalSecs := dt_PollIntervalSecs d;
     tp_ResourceLimits := dt_ResourceLimits d; tp_Paused := dt_Paused d;
     tp_MaintenanceReason := dt_MaintenanceReason d; tp_CredentialRef := dt_TargetID d;
     tp_CredentialRotationDays := dt_CredentialRotationDays d;
     tp_ConfigVersion := dt_ConfigVersion d; tp_UpdatedAt := now;
     tp_TargetConfig := default ∅ (dt_TargetConfig d) |}.

Definition profileChanged (current desired : TargetProfile) : bool :=
  negb (String.eqb (tp_Endpoint current) (tp_Endpoint desired))
  || negb (effectiveTLSConfigsEqual (effectiveTLSConfigFromProfile server_name current)
             (effectiveTLSConfigFromProfile server_name desired))
  || negb (tp_PollIntervalSecs current =? tp_PollIntervalSecs desired)
  || negb (String.eqb (tp_Mode current) (tp_Mode desired))
  || negb (String.eqb (tp_AuthType current) (tp_AuthType desired)).

(** Errors and applied changes so far. *)
Definition tally : Type := (Z * Z)%type.
Definition count (r : result string unit) (c : tally) : tally :=
  match r with Ok _ => (fst c, snd c + 1) | Err _ => (fst c + 1, snd c) end.

(** One desired target: added, updated, or left alone.  [current] is the list of
    targets read before the loop. *)
Definition apply_target (current : list TargetProfile) (d : DesiredTargetProfile) (c : tally)
    (s : Supervisor (Wk:=Wk) (St:=St)) : option (tally * Supervisor) :=
  let profile := desiredToInternal (sv_now s) d in
  let s0 := tick_sv s in
  match find_target (dt_TargetID d) current with
  | None =>
      match AddTarget profile (extractCredsFromPayload (dt_CredentialPayload d)) s0 with
      | None => None
      | Some (r, s1) => Some (count r c, s1)
      end
  | Some cur =>
      if ((tp_ConfigVersion cur <? dt_ConfigVersion d) || profileChanged cur profile)
         || (negb (Bool.eqb (dt_Enabled d) (tp_Enabled cur))
             || negb (Bool.eqb (dt_Paused d) (tp_Paused cur)))
      then match UpdateTarget profile s0 with
           | None => None
           | Some (_, s1) => Some ((fst c, snd c + 1), s1)
           end
      else Some ((fst c, snd c + 1), s0)
  end.

Fixpoint apply_targets (current : list TargetProfile) (ds : list DesiredTargetProfile)
    (c : tally) (s : Supervisor (Wk:=Wk) (St:=St)) : option (tally * Supervisor) :=
  match ds with
  | [] => Some (c, s)
  | d :: rest =>
      match apply_target current d c s with
      | None => None
      | Some (c1, s1) => apply_targets current rest c1 s1
      end
  end.

(** Removal of the targets that are no longer desired; [ids] are the keys of the
    map of current targets in the order of the range loop. *)
Fixpoint remove_targets (ids desired : list string) (c : tally)
    (s : Supervisor (Wk:=Wk) (St:=St)) : option (tally * Supervisor) :=
  match ids with
  | [] => Some (c, s)
  | id :: rest =>
      if bool_decide (id ∈ desired) then remove_targets rest desired c s
      else match RemoveTarget id s with
      | None => None
      | Some (r, s1) => remove_targets rest desired (count r c) s1
      end
  end.

Definition ack_status (c : tally) : string :=
  if (0 <? fst c) && (0 <? snd c) then "partial"
  else if 0 <? fst c then "failed" else "applied".

Definition applyDesiredTargets (desired : list DesiredTargetProfile)
    (s : Supervisor (Wk:=Wk) (St:=St)) : option (string * Supervisor) :=
  let current := GetTargets s in
  match apply_targets current desired (0, 0) s with
  | None => None
  | Some (c1, s1) =>
      match remove_targets (range_order (map tp_TargetID current)) (map dt_TargetID desired) c1 s1 with
      | None => None
      | Some (c2, s2) => Some (ack_status c2, s2)
      end
  end.

(** ** One synchronisation *)

Inductive fetch_result : Type :=
| FetchError (e : string)
| FetchEmpty
| FetchPayload (p : DesiredStatePayload Cmd).

Fixpoint process_all (kp : option HostKeyPair) (ds : list DesiredTargetProfile)
    (s : Supervisor (Wk:=Wk) (St:=St)) : Supervisor :=
  match ds with
  | [] => s
  | d :: rest => process_all kp rest (snd (processCredentials kp d s))
  end.

Definition apply_payload (p : DesiredStatePayload Cmd) (m : SyncManager) : option SyncManager :=
  let '(valid, rejected) := validateProfiles (ds_Targets p) in
  let m1 := set_sm_rejected rejected m in
  let s1 := match ds_HostConfig p with Some o => applyHostConfig o (sm_sv m1) | None => sm_sv m1 end in
  let s2 := match ds_Policy p with Some hp => applyHostPolicy hp s1 | None => s1 end in
  let s3 := process_all (sm_keypair m1) valid s2 in
  match applyDesiredTargets valid s3 with
  | None => None
  | Some (status, s4) => Some (sendAck (ds_Revision p) status (set_sm_sv s4 m1))
  end.

Definition fetchAndReconcile (r : fetch_result) (m : SyncManager) : option SyncManager :=
  if String.eqb (GetConnectorToken (sm_sv m)) "" then Some m
  else match r with
  | FetchError _ => Some m
  | FetchEmpty => Some (maybeStatusPush m)
  | FetchPayload p =>
      if match ds_WipeInstruction p with
         | Some w => String.eqb (wi_Action w) "wipe_local_credentials"
         | None => false
         end then
        match executeLocalWipe (sm_sv m) with
        | None => None
        | Some (w, s1) =>
            Some (sendAck (ds_Revision p) "applied" (sendWipeAck (ds_Revision p) w (set_sm_sv s1 m)))
        end
      else
        let m1 := match ds_PendingCommands p with
                  | [] => m
                  | cmds => emit_sm (SyCommands cmds)
                              (set_sm_fast (sv_now (sm_sv m) + 30 * Second) m)
                  end in
        apply_payload p m1
  end.
End Sync.
