(* ===== verification/DesiredStateProps.v ===== *)
(** Properties of desired-state synchronisation. *)
From S2P Require Import Prelude GoStrings Types Metrics UploadQueue LocalDB Interfaces Policy.
From S2P Require Import Readiness Store Worker WorkerProps SupervisorWorkers Supervisor.
From S2P Require Import SupervisorProps DesiredState.

Local Open Scope Z_scope.

Section Facts.
Context {Wk St : Type} `{!WorkerOps Wk, !StoreOps St, HWL : !WorkerLaws Wk}.
Implicit Types s : Supervisor (Wk:=Wk) (St:=St).

Definition ids (h : HostState) : list string := map tp_TargetID (hs_Targets h).

(** What each operation does to the set of target ids. *)
Lemma sv_wf_targets s s' h h' :
  sv_workers s' = sv_workers s -> sv_state s' = Some h' -> NoDup (ids h') ->
  sv_wf s h -> sv_wf s' h'.
Proof. intros Hw Hs Hn (_ & _ & Hok). split_and!; [done|done|]. by eapply workers_ok_ext. Qed.

Lemma Reconcile_ids s h :
  sv_wf s h -> exists r s' h', Reconcile s = Some (r, s') /\ sv_wf s' h' /\ ids h' = ids h.
Proof.
  intros Hwf. destruct (Reconcile_spec s h Hwf) as (r & s' & ts' & H1 & H2 & _ & _ & H3 & _).
  exists r, s', (set_hs_Targets ts' h). split_and!; [done|done|].
  unfold ids. simpl. by eapply settled_ids.
Qed.

Lemma AddTarget_ids p creds s h :
  sv_wf s h ->
  exists r s' h', AddTarget p creds s = Some (r, s') /\ sv_wf s' h'
    /\ (ids h' = ids h ++ [tp_TargetID p] /\ tp_TargetID p ∉ ids h
        \/ is_ok r = false /\ ids h' = ids h).
Proof.
  intros Hwf. pose proof Hwf as (Hs & Hnd & Hok). unfold AddTarget. rewrite Hs.
  destruct (has_target (tp_TargetID p) (hs_Targets h)) eqn:Eh.
  { eexists _, s, h. split; [done|]. split; [done|]. by right. }
  destruct (if bool_decide (creds = ∅) then _ else _) as [[u|m] st].
  2:{ eexists _, _, h. split; [done|]. split; [|by right]. by eapply (sv_wf_targets s). }
  set (p2 := if bool_decide _ then _ else _).
  assert (Hid : tp_TargetID p2 = tp_TargetID p) by (unfold p2; by case_bool_decide).
  assert (Hnin : tp_TargetID p ∉ ids h).
  { intros Hin. apply has_target_In in Hin. unfold ids in Hin. congruence. }
  set (h1 := set_hs_Targets (hs_Targets h ++ [p2]) h).
  assert (Hids : ids h1 = ids h ++ [tp_TargetID p])
    by (unfold ids, h1; simpl; rewrite map_app; simpl; by rewrite Hid).
  match goal with |- context [Reconcile ?x] => destruct (Reconcile_ids x h1)
    as (r & s' & h' & -> & H2 & H3) end.
  { eapply (sv_wf_targets s); [done|done| |done]. rewrite Hids. apply NoDup_app.
    split_and!; [done|set_solver|apply NoDup_singleton]. }
  exists r, s', h'. split_and!; [done|done|]. left. by rewrite H3, Hids.
Qed.

Lemma UpdateTarget_ids p s h :
  sv_wf s h -> exists r s' h', UpdateTarget p s = Some (r, s') /\ sv_wf s' h' /\ ids h' = ids h.
Proof.
  intros Hwf. pose proof Hwf as (Hs & Hnd & Hok). unfold UpdateTarget. rewrite Hs.
  destruct (find_target (tp_TargetID p) (hs_Targets h)) as [old|] eqn:Ef.
  2:{ eexists _, s, h. by split_and!. }
  destruct (stop_worker_spec (tp_TargetID p) s Hok) as (s1 & -> & F & R & W).
  match goal with |- context [replace_first ?q _] => set (p' := q) end.
  set (h1 := set_hs_Targets (replace_first p' (hs_Targets h)) h).
  assert (Hids : ids h1 = ids h) by (unfold ids, h1; simpl; apply replace_first_ids).
  match goal with |- context [Reconcile ?x] => destruct (Reconcile_ids x h1)
    as (r & s' & h' & -> & H2 & H3) end.
  { split_and!; [done|by fold (ids h1); rewrite Hids|]. by eapply workers_ok_delete. }
  exists r, s', h'. split_and!; [done|done|]. by rewrite H3.
Qed.

Lemma remove_first_elem id ts k :
  NoDup (map tp_TargetID ts) ->
  k ∈ map tp_TargetID (remove_first id ts) <-> k ∈ map tp_TargetID ts /\ k <> id.
Proof.
  induction ts as [|t ts IH]; simpl; [set_solver|]. intros [Hn Hd]%NoDup_cons.
  destruct (String.eqb_spec (tp_TargetID t) id) as [<-|Hne].
  - rewrite elem_of_cons. split; [|tauto]. intros Hk. split; [by right|]. by intros ->.
  - simpl. rewrite !elem_of_cons, IH by done. naive_solver.
Qed.

Lemma RemoveTarget_ids id s h :
  sv_wf s h -> exists r s' h', RemoveTarget id s = Some (r, s') /\ sv_wf s' h'
    /\ forall k, k ∈ ids h' <-> k ∈ ids h /\ k <> id.
Proof.
  intros Hwf. pose proof Hwf as (Hs & Hnd & Hok). unfold RemoveTarget. rewrite Hs.
  destruct (stop_worker_spec id s Hok) as (s1 & -> & (Fs & Fst & _) & R & W).
  destruct (find_target id (hs_Targets h)) as [t|] eqn:Ef.
  - set (h1 := set_hs_Targets (remove_first id (hs_Targets h)) h).
    destruct (remove_first_ids id (hs_Targets h) Hnd) as (H1 & H2 & H3).
    destruct (persist h1 _) as [r s'] eqn:Ep. exists r, s', h1. split; [done|]. split.
    + unfold persist in Ep. destruct (SaveState h1 _) as [r0 st0]. simplify_eq.
      split_and!; [done|done|]. by eapply workers_ok_delete.
    + intros k. by apply remove_first_elem.
  - eexists _, s1, h. split; [done|]. split.
    + split_and!; [congruence|done|by eapply workers_ok_delete].
    + intros k. split; [|tauto]. intros Hk. split; [done|]. intros ->.
      unfold ids in Hk. rewrite <- has_target_In in Hk. unfold has_target in Hk. apply existsb_exists in Hk as (u & Hu & Hk).
      eapply find_none in Ef; [|done]. simpl in Ef. congruence.
Qed.

Context (server_name : string -> string).

Lemma count_errors r c : fst c <= fst (count r c) /\ (fst (count r c) = fst c -> is_ok r = true).
Proof. destruct r; simpl; lia || (split; [lia|]; lia). Qed.

Lemma apply_target_ids current d c s h :
  sv_wf s h -> (forall k, k ∈ map tp_TargetID current -> k ∈ ids h) ->
  exists c' s' h', apply_target server_name current d c s = Some (c', s') /\ sv_wf s' h'
    /\ fst c <= fst c' /\ (forall k, k ∈ ids h -> k ∈ ids h')
    /\ (forall k, k ∈ ids h' -> k ∈ ids h \/ k = dt_TargetID d)
    /\ (fst c' = fst c -> dt_TargetID d ∈ ids h').
Proof.
  intros Hwf Hcur. unfold apply_target.
  assert (Hwf0 : sv_wf (tick_sv s) h) by (by eapply (sv_wf_targets s); try apply Hwf).
  destruct (find_target (dt_TargetID d) current) as [cur|] eqn:Ef.
  - assert (Hin : dt_TargetID d ∈ ids h).
    { apply Hcur, has_target_In. by eapply find_has. }
    destruct (_ || _).
    + destruct (UpdateTarget_ids (desiredToInternal (sv_now s) d) (tick_sv s) h Hwf0)
        as (r & s1 & h1 & -> & H2 & H3).
      eexists _, s1, h1. split; [done|]. rewrite H3. simpl. split_and!; auto; lia.
    + eexists _, _, h. split; [done|]. simpl. split_and!; auto; lia.
  - destruct (AddTarget_ids (desiredToInternal (sv_now s) d)
      (extractCredsFromPayload (dt_CredentialPayload d)) (tick_sv s) h Hwf0)
      as (r & s1 & h1 & -> & H2 & H3).
    destruct (count_errors r c) as [Hc1 Hc2].
    eexists _, s1, h1. split; [done|]. split_and!; [done|done| | |].
    + intros k Hk. destruct H3 as [[-> _]|[_ ->]]; set_solver.
    + intros k Hk. destruct H3 as [[E _]|[_ E]]; rewrite E in Hk; set_solver.
    + intros He. apply Hc2 in He. destruct H3 as [[-> _]|[Hf _]]; [|congruence]. simpl. set_solver.
Qed.

Lemma apply_targets_ids current ds c s h :
  sv_wf s h -> (forall k, k ∈ map tp_TargetID current -> k ∈ ids h) ->
  exists c' s' h', apply_targets server_name current ds c s = Some (c', s') /\ sv_wf s' h'
    /\ fst c <= fst c' /\ (forall k, k ∈ ids h -> k ∈ ids h')
    /\ (forall k, k ∈ ids h' -> k ∈ ids h \/ k ∈ map dt_TargetID ds)
    /\ (fst c' = fst c -> forall k, k ∈ map dt_TargetID ds -> k ∈ ids h').
Proof.
  revert c s h. induction ds as [|d ds IH]; intros c s h Hwf Hcur; cbn [apply_targets map].
  { eexists _, s, h. split; [done|]. split_and!; [done|lia|done|auto|set_solver]. }
  destruct (apply_target_ids current d c s h Hwf Hcur)
    as (c1 & s1 & h1 & -> & H1 & H2 & H3 & H4 & H5).
  destruct (IH c1 s1 h1 H1 ltac:(auto)) as (c2 & s2 & h2 & -> & G1 & G2 & G3 & G4 & G5).
  exists c2, s2, h2. split; [done|]. split_and!; [done|lia|auto| |].
  - intros k Hk. destruct (G4 k Hk) as [Hk'|]; [destruct (H4 k Hk')|]; set_solver.
  - intros He k [->|Hk]%elem_of_cons; [apply G3, H5; lia|]. apply G5; [lia|done].
Qed.

Lemma remove_targets_ids l desired c s h :
  sv_wf s h ->
  exists c' s' h', remove_targets l desired c s = Some (c', s') /\ sv_wf s' h'
    /\ fst c <= fst c' /\ forall k, k ∈ ids h' <-> k ∈ ids h /\ ~ (k ∈ l /\ k ∉ desired).
Proof.
  revert c s h. induction l as [|id l IH]; intros c s h Hwf; cbn [remove_targets].
  { eexists _, s, h. split; [done|]. split_and!; [done|lia|set_solver]. }
  case_bool_decide as Hd.
  - destruct (IH c s h Hwf) as (c' & s' & h' & -> & G1 & G2 & G3). eexists _, s', h'.
    split; [done|]. split_and!; [done|done|]. intros k. rewrite G3. set_solver.
  - destruct (RemoveTarget_ids id s h Hwf) as (r & s1 & h1 & -> & H2 & H3).
    destruct (count_errors r c) as [Hc _].
    destruct (IH (count r c) s1 h1 H2) as (c' & s' & h' & -> & G1 & G2 & G3).
    eexists _, s', h'. split; [done|]. split_and!; [done|lia|]. intros k. rewrite G3, H3.
    destruct (decide (k = id)) as [->|]; set_solver.
Qed.
End Facts.

(** Applying the desired targets returns; afterwards every managed target is a
    desired one, and after "applied" the two sets of ids agree. *)
Lemma applyDesiredTargets_ids {Wk St : Type} `{!WorkerOps Wk, !StoreOps St, !WorkerLaws Wk}
    (server_name : string -> string) (range_order : list string -> list string)
    (Hrange : forall l, range_order l ≡ₚ l) (s : Supervisor (Wk:=Wk) (St:=St)) (h : HostState)
    (Hwf : sv_wf s h) (desired : list DesiredTargetProfile) :
  exists status s' h', applyDesiredTargets server_name range_order desired s = Some (status, s')
    /\ sv_wf s' h'
    /\ (forall id, id ∈ ids h' -> id ∈ map dt_TargetID desired)
    /\ (status = "applied" -> forall id, id ∈ ids h' <-> id ∈ map dt_TargetID desired).
Proof.
  unfold applyDesiredTargets, GetTargets. pose proof Hwf as (Hs & _ & _). rewrite Hs.
  destruct (apply_targets_ids server_name (hs_Targets h) desired (0, 0) s h Hwf ltac:(done))
    as (c1 & s1 & h1 & -> & H1 & H2 & H3 & H4 & H5).
  destruct (remove_targets_ids server_name (range_order (map tp_TargetID (hs_Targets h)))
    (map dt_TargetID desired)
    c1 s1 h1 H1) as (c2 & s2 & h2 & -> & G1 & G2 & G3).
  simpl in H2, H5. eexists _, s2, h2. split; [done|]. split; [done|].
  assert (Hsub : forall id, id ∈ ids h2 -> id ∈ map dt_TargetID desired).
  { intros id (Hin & Hno)%G3. destruct (H4 id Hin) as [Hh|]; [|done].
    destruct (decide (id ∈ map dt_TargetID desired)); [done|]. exfalso. apply Hno.
    split; [|done]. by rewrite Hrange. }
  split; [done|]. intros Ha id. split; [by apply Hsub|]. intros Hd. apply G3.
  split; [|tauto]. apply H5; [|done]. unfold ack_status in Ha.
  destruct (Z.ltb_spec 0 (fst c2)); [|lia].
  by destruct (Z.ltb_spec 0 (snd c2)).
Qed.

(** ** One synchronisation *)

Section Handler.
Context {Wk St Cmd : Type} `{!WorkerOps Wk, !StoreOps St, !WorkerLaws Wk}.
Implicit Types s : Supervisor (Wk:=Wk) (St:=St).
Implicit Types m : SyncManager (Wk:=Wk) (St:=St) (Cmd:=Cmd).

Lemma persist_wf s h' :
  sv_workers s = sv_workers (snd (persist h' s)) /\ sv_state s = sv_state (snd (persist h' s)).
Proof. unfold persist. by destruct (SaveState h' (sv_store s)). Qed.

(** What [sendAck] does to the host state, and when it reports "applied". *)
Lemma sendAck_wf rev st m h :
  sv_wf (sm_sv m) h -> exists h' evs, sv_wf (sm_sv (sendAck rev st m)) h'
    /\ hs_Targets h' = hs_Targets h
    /\ sm_events (sendAck rev st m) = sm_events m ++ evs
    /\ (forall tok a ok, SyAck tok a ok ∈ evs -> ack_Status a = "applied" ->
        st = "applied" /\ sm_lastRejected m = []).
Proof.
  intros Hwf. pose proof Hwf as (Hs & Hnd & Hok). unfold sendAck.
  destruct (String.eqb _ _).
  { exists h, []. split; [done|]. split; [done|]. split; [by rewrite app_nil_r|].
    intros ???. by intros ?%elem_of_nil. }
  unfold send. rewrite Hs. set (h1 := set_hs_Sync _ _ _ h).
  destruct (persist_wf (set_sv_state (Some h1) (tick_sv (sm_sv m))) h1) as [P1 P2].
  eexists h1, [_]. simpl. split_and!; [|done|done|].
  - split_and!; [by rewrite <-P2|done|]. eapply workers_ok_ext; [symmetry; exact P1|]. exact Hok.
  - intros tok a ok [= -> -> ->]%list_elem_of_singleton. simpl.
    destruct (sm_lastRejected m); [done|].
    destruct (String.eqb_spec st "applied"); [|done]. by destruct (GetTargets _).
Qed.

Lemma sendAck_workers rev st m : sv_workers (sm_sv (sendAck rev st m)) = sv_workers (sm_sv m).
Proof.
  unfold sendAck, send. destruct (String.eqb _ _); [done|].
  destruct (sv_state _); [|done]. simpl. by rewrite <-(proj1 (persist_wf _ _)).
Qed.

Lemma applyHostConfig_wf o s h :
  sv_wf s h -> exists h', sv_wf (applyHostConfig o s) h' /\ hs_Targets h' = hs_Targets h.
Proof.
  intros (Hs & Hnd & Hok). unfold applyHostConfig. rewrite Hs.
  set (h1 := set_hs_Config _ h). exists h1. split; [|done].
  destruct (_ || _); split_and!; try done.
  intros id w. simpl. rewrite lookup_fmap. destruct (sv_workers s !! id) as [v|] eqn:E; [|done].
  intros [= <-]. destruct (Hok _ _ E) as [Hv Hid].
  destruct (SetLanOnly_ok v (String.eqb (ho_DisplayMode o) "lan-only") Hv) as (? & _ & Hp).
  by rewrite Hp.
Qed.

Lemma applyHostPolicy_wf p s h :
  sv_wf s h -> exists h', sv_wf (applyHostPolicy p s) h' /\ hs_Targets h' = hs_Targets h.
Proof.
  intros Hwf. pose proof Hwf as (Hs & Hnd & Hok). unfold applyHostPolicy. rewrite Hs.
  destruct (String.eqb _ _); [by exists h|].
  eexists. split; [split; [reflexivity|by split]|done].
Qed.

Section Crypto.
Context (box_open : buf -> buf -> buf -> buf -> option buf).
Context (b64_encode : buf -> string) (b64_decode : string -> option buf).
Context (unmarshal_creds : buf -> option Creds).
Context (server_name : string -> string) (range_order : list string -> list string).

(** Processing credentials touches only the store. *)
Lemma processCredentials_frame kp d s :
  exists st, snd (processCredentials box_open b64_encode b64_decode unmarshal_creds kp d s)
    = set_sv_store st s.
Proof.
  assert (Hid : exists st, s = set_sv_store st s) by (exists (sv_store s); by destruct s).
  assert (Hsave : forall c, exists st, snd (save_creds (dt_TargetID d) c s) = set_sv_store st s).
  { intros c. unfold save_creds. destruct (SaveSecret _ _ _) as [r st]. by exists st. }
  unfold processCredentials. repeat case_match; simpl; auto.
Qed.

Lemma process_all_wf kp ds s h :
  sv_wf s h -> sv_wf (process_all box_open b64_encode b64_decode unmarshal_creds kp ds s) h.
Proof.
  revert s. induction ds as [|d ds IH]; intros s Hwf; simpl; [done|]. apply IH.
  destruct (processCredentials_frame kp d s) as [st ->]. exact Hwf.
Qed.

Lemma validateProfiles_spec ps d :
  (d ∈ fst (validateProfiles ps) <-> d ∈ ps /\ is_ok (Validate d) = true)
  /\ (snd (validateProfiles ps) = [] -> fst (validateProfiles ps) = ps).
Proof.
  induction ps as [|p ps [IH1 IH2]]; simpl; [split; [set_solver|done]|].
  destruct (validateProfiles ps) as [v r]. simpl in *.
  destruct (Validate p) eqn:E; simpl; (split; [|]); try done.
  - rewrite !elem_of_cons, IH1. split; [|tauto]. intros [->|]; [|tauto]. rewrite E. auto.
  - intros Hr. by rewrite IH2.
  - rewrite elem_of_cons, IH1. split; [tauto|]. intros [[->|] Ho]; [by rewrite E in Ho|tauto].
Qed.

Lemma apply_payload_sound (Hrange : forall l, range_order l ≡ₚ l) p m h :
  sv_wf (sm_sv m) h ->
  exists m' h' evs,
    apply_payload box_open b64_encode b64_decode unmarshal_creds server_name range_order p m = Some m'
    /\ sv_wf (sm_sv m') h' /\ sm_events m' = sm_events m ++ evs
    /\ (forall id, id ∈ ids h' -> exists d, d ∈ ds_Targets p /\ dt_TargetID d = id
        /\ is_ok (Validate d) = true)
    /\ (forall tok a ok, SyAck tok a ok ∈ evs -> ack_Status a = "applied" ->
        forall id, id ∈ ids h' <-> id ∈ map dt_TargetID (ds_Targets p)).
Proof.
  intros Hwf. unfold apply_payload.
  pose proof (validateProfiles_spec (ds_Targets p)) as HV.
  destruct (validateProfiles (ds_Targets p)) as [valid rejected]. simpl in HV. simpl.
  set (s1 := match ds_HostConfig p with Some o => _ | None => _ end).
  assert (exists h1, sv_wf s1 h1) as [h1 H1].
  { unfold s1. destruct (ds_HostConfig p) as [o|]; [|by eexists].
    destruct (applyHostConfig_wf o _ _ Hwf) as (h1 & ? & _). by exists h1. }
  set (s2 := match ds_Policy p with Some hp => _ | None => _ end).
  assert (exists h2, sv_wf s2 h2) as [h2 H2].
  { unfold s2. destruct (ds_Policy p) as [o|]; [|by eexists].
    destruct (applyHostPolicy_wf o _ _ H1) as (h2 & ? & _). by exists h2. }
  destruct (applyDesiredTargets_ids server_name range_order Hrange _ _
    (process_all_wf (sm_keypair m) valid s2 h2 H2) valid) as (st & s4 & h4 & -> & W & Hsub & Hall).
  destruct (sendAck_wf (ds_Revision p) st (set_sm_sv s4 (set_sm_rejected rejected m)) h4 W)
    as (h5 & evs & W5 & HT & HE & HA).
  eexists _, h5, evs. split; [done|]. split; [done|]. split; [done|].
  unfold ids in *. rewrite HT. split.
  - intros id (d & -> & [Hd Hv]%HV)%Hsub%list_elem_of_fmap. by exists d.
  - intros tok a ok Hin Ha id. destruct (HA _ _ _ Hin Ha) as [-> Hr]. simpl in Hr.
    rewrite (Hall eq_refl). destruct (ds_Targets p) as [|d0 ?] eqn:E.
    + destruct valid as [|v ?]; [done|]. destruct (proj1 (HV v)) as [HV1 _].
      destruct HV1 as [?%elem_of_nil _]; [by left|done].
    + by rewrite (proj2 (HV d0) Hr).
Qed.
End Crypto.
End Handler.


Section Acks.
Context {Wk St : Type} `{!WorkerOps Wk, !StoreOps St}.
Implicit Types s : Supervisor (Wk:=Wk) (St:=St).

Definition unhealthy (t : TargetProfile) : bool :=
  match tp_Status t with TargetStatusError | TargetStatusDegraded => true | _ => false end.

(** The table of acknowledgements holds exactly the targets, each with its own
    entry. *)
Lemma target_acks_from s ts (acc : gmap string TargetAckStatus) id :
  NoDup (map tp_TargetID ts) ->
  foldl (fun m t => <[tp_TargetID t := target_ack (Status s) t]> m) acc ts !! id
  = match find_target id ts with
    | Some t => Some (target_ack (Status s) t)
    | None => acc !! id
    end.
Proof.
  revert acc. induction ts as [|t ts IH]; intros acc; simpl; [done|].
  intros [Hn Hd]%NoDup_cons. rewrite IH by done. unfold find_target in *. simpl.
  destruct (String.eqb_spec (tp_TargetID t) id) as [<-|Hne].
  - destruct (find _ ts) as [u|] eqn:Ef.
    + exfalso. apply Hn. apply find_some in Ef as [Hu Hk]. apply String.eqb_eq in Hk.
      apply list_elem_of_fmap. exists u. split; [done|]. by apply list_elem_of_In.
    + by rewrite lookup_insert_eq.
  - destruct (find _ ts); [done|]. by rewrite lookup_insert_ne.
Qed.

Lemma rejected_acks_lookup (rs : list RejectedProfile) (acc : gmap string TargetAckStatus) id :
  id ∉ map rj_TargetID rs ->
  foldl (fun a r => <[rj_TargetID r := Build_TargetAckStatus "error"
                        ("rejected: " +:+ rj_Reason r)]> a) acc rs !! id = acc !! id.
Proof.
  revert acc. induction rs as [|r rs IH]; intros acc Hn; simpl; [done|].
  rewrite IH by set_solver. rewrite lookup_insert_ne; [done|]. set_solver.
Qed.

Lemma rejected_acks_error (rs : list RejectedProfile) (acc : gmap string TargetAckStatus) id :
  id ∈ map rj_TargetID rs ->
  exists e, foldl (fun a r => <[rj_TargetID r := Build_TargetAckStatus "error"
                        ("rejected: " +:+ rj_Reason r)]> a) acc rs !! id
            = Some (Build_TargetAckStatus "error" e).
Proof.
  revert acc. induction rs as [|r rs IH]; intros acc Hin; simpl in *; [set_solver|].
  destruct (decide (id ∈ map rj_TargetID rs)) as [Hr|Hr]; [by apply IH|].
  apply elem_of_cons in Hin as [->|]; [|done]. rewrite rejected_acks_lookup by done.
  eexists. by rewrite lookup_insert_eq.
Qed.

(** ** Wipe *)

Lemma stop_all_workers `{!WorkerLaws Wk} l s :
  workers_ok s -> exists s', stop_all l s = Some s' /\ frame s s'
    /\ (forall id, sv_workers s' !! id = if decide (id ∈ l) then None else sv_workers s !! id).
Proof.
  revert s. induction l as [|i l IH]; intros s Hok; cbn [stop_all].
  { exists s. split; [done|]. split; [by split_and!|]. intros id.
    destruct (decide _) as [Hin|]; [|done]. by apply not_elem_of_nil in Hin. }
  destruct (stop_worker_spec i s Hok) as (s1 & -> & F1 & _ & W1).
  destruct (IH s1) as (s' & -> & F & L); [by eapply workers_ok_delete|].
  exists s'. split; [done|]. split.
  - unfold frame in *. intuition congruence.
  - intros id. rewrite L, W1. destruct (decide (id = i)) as [->|Hne].
    + rewrite lookup_delete_eq. by destruct (decide _), (decide _); set_solver.
    + rewrite lookup_delete_ne by done. destruct (decide _), (decide _); set_solver.
Qed.

Lemma Shutdown_spec `{!WorkerLaws Wk} s h :
  sv_wf s h -> exists s', Shutdown s = Some s' /\ sv_workers s' = ∅ /\ sv_state s' = Some h
    /\ sv_store s' = snd (SaveState h (sv_store s)).
Proof.
  intros (Hs & _ & Hok). unfold Shutdown.
  destruct (stop_all_workers (fst <$> map_to_list (sv_workers s)) s Hok)
    as (s1 & -> & (F1 & F2 & _) & L).
  assert (He : sv_workers s1 = ∅).
  { apply map_empty. intros id. rewrite L. destruct (decide _) as [|Hn]; [done|].
    destruct (sv_workers s !! id) as [w|] eqn:E; [|done]. exfalso. apply Hn.
    apply list_elem_of_fmap. exists (id, w). split; [done|]. by apply elem_of_map_to_list. }
  rewrite F2, Hs. unfold persist. rewrite F1. destruct (SaveState h (sv_store s)) as [r st] eqn:E.
  eexists. split; [done|]. simpl. split_and!; [done|congruence|done].
Qed.

(** Deleting the secrets of a list of targets. *)
Lemma delete_secrets_spec `{!StoreLaws St} ts s :
  store_ok (sv_store s) -> Forall (fun t => plain (tp_CredentialRef t)) ts ->
  let '(n, s') := delete_secrets ts s in
  store_ok (sv_store s') /\ sv_state s' = sv_state s /\ sv_workers s' = sv_workers s
  /\ 0 <= n <= Z.of_nat (length ts)
  /\ (n = Z.of_nat (length ts) ->
      forall t, t ∈ ts -> LoadSecret (tp_CredentialRef t) (sv_store s') = Ok None)
  /\ (forall k, plain k -> LoadSecret k (sv_store s) = Ok None ->
      LoadSecret k (sv_store s') = Ok None).
Proof.
  revert s. induction ts as [|t ts IH]; intros s Hok Hpl; cbn [delete_secrets].
  { split_and!; [done|done|done|lia|simpl; lia|set_solver|done]. }
  apply Forall_cons in Hpl as [Hp Hpl].
  pose proof (DeleteSecret_keeps (sv_store s) (tp_CredentialRef t) Hok) as Hk.
  pose proof (DeleteSecret_load (sv_store s) (tp_CredentialRef t) Hok Hp) as Hl.
  assert (Ho : forall k, plain k -> LoadSecret k (sv_store s) = Ok None ->
    LoadSecret k (snd (DeleteSecret (tp_CredentialRef t) (sv_store s))) = Ok None).
  { intros k Hpk Hn. destruct (decide (k = tp_CredentialRef t)) as [->|Hne].
    - destruct (DeleteSecret _ _) as [[] st]; simpl; [done|congruence].
    - rewrite DeleteSecret_other by done. done. }
  destruct (DeleteSecret _ _) as [r st]. simpl in Hk, Ho.
  specialize (IH (set_sv_store st s) Hk Hpl). destruct (delete_secrets ts _) as [n s'].
  destruct IH as (H1 & H2 & H3 & H4 & H5 & H6).
  split_and!; [done|done|done|destruct r; lia|destruct r; simpl; lia| |].
  - intros Hn. assert (Hr : is_ok r = true /\ n = Z.of_nat (length ts))
      by (destruct r; simpl in *; lia).
    destruct Hr as [Hr Hn']. intros u [->|Hu]%elem_of_cons; [|by apply H5].
    apply H6; [done|]. simpl. by destruct r.
  - intros k Hpk Hno. apply H6; [done|]. simpl. by apply Ho.
Qed.
End Acks.

(** Acknowledgements tell the truth about targets.  In an acknowledgement
    sent by [sendAck], a target that was not rejected appears with its current
    status, and with error text only if its status is error or degraded; a
    rejected profile always appears as an error. *)
Theorem ack_hard_rule {Wk St Cmd : Type} `{!WorkerOps Wk, !StoreOps St}
    (m : SyncManager (Wk:=Wk) (St:=St) (Cmd:=Cmd)) (h : HostState) (revision : Z)
    (status : string) (Hs : sv_state (sm_sv m) = Some h) (Hnd : NoDup (ids h))
    (Htok : hi_ConnectorToken (hs_Identity h) <> "") :
  exists a ok, sm_events (sendAck revision status m)
      = sm_events m ++ [SyAck (hi_ConnectorToken (hs_Identity h)) a ok]
    /\ ack_Revision a = revision
    /\ (forall t, t ∈ hs_Targets h -> tp_TargetID t ∉ map rj_TargetID (sm_lastRejected m) ->
        exists e, ack_TargetStatuses a !! tp_TargetID t
          = Some (Build_TargetAckStatus (TargetStatus_string (tp_Status t)) e)
        /\ (unhealthy t = false -> e = ""))
    /\ (forall id, id ∈ map rj_TargetID (sm_lastRejected m) ->
        exists e, ack_TargetStatuses a !! id = Some (Build_TargetAckStatus "error" e)).
Proof.
  unfold sendAck, GetConnectorToken, send. rewrite Hs.
  rewrite (proj2 (String.eqb_neq _ _) Htok). unfold GetConnectorToken, GetTargets. rewrite Hs.
  simpl. eexists _, _. split; [done|]. split_and!; [done| |]; simpl.
  - intros t Ht Hrej. unfold target_acks, GetTargets. rewrite Hs.
    rewrite rejected_acks_lookup, target_acks_from by done.
    assert (Hf : find_target (tp_TargetID t) (hs_Targets h) = Some t).
    { unfold ids in Hnd. clear -Ht Hnd. unfold find_target.
      induction (hs_Targets h) as [|u l IH]; [by apply not_elem_of_nil in Ht|].
      simpl in *. apply NoDup_cons in Hnd as [Hn Hd].
      apply elem_of_cons in Ht as [->|Ht]; [by rewrite String.eqb_refl|].
      destruct (String.eqb_spec (tp_TargetID u) (tp_TargetID t)) as [E|]; [|auto].
      exfalso. apply Hn. rewrite E. by apply list_elem_of_fmap_2. }
    rewrite Hf. eexists. split; [done|]. unfold unhealthy. by destruct (tp_Status t).
  - intros id Hid. by apply rejected_acks_error.
Qed.

Definition wipe_requested {Cmd} (p : DesiredStatePayload Cmd) : bool :=
  match ds_WipeInstruction p with
  | Some w => String.eqb (wi_Action w) "wipe_local_credentials"
  | None => false
  end.

Lemma executeLocalWipe_wf {Wk St} `{!WorkerOps Wk, !StoreOps St, !WorkerLaws Wk}
    (s : Supervisor (Wk:=Wk) (St:=St)) h :
  sv_wf s h -> exists a s' h', executeLocalWipe s = Some (a, s') /\ sv_wf s' h'
    /\ hs_Targets h' = [] /\ sv_workers s' = ∅.
Proof.
  intros Hwf. unfold executeLocalWipe.
  destruct (Shutdown_spec s h Hwf) as (s1 & -> & W1 & S1 & _).
  assert (HD : forall ts (s : Supervisor (Wk:=Wk) (St:=St)), sv_state (snd (delete_secrets ts s)) = sv_state s
    /\ sv_workers (snd (delete_secrets ts s)) = sv_workers s).
  { clear. intros ts. induction ts as [|t ts IH]; intros s; simpl; [done|].
    destruct (DeleteSecret _ _) as [r st]. specialize (IH (set_sv_store st s)).
    by destruct (delete_secrets ts _). }
  specialize (HD (GetTargets s) s1). destruct (delete_secrets _ s1) as [n s2].
  simpl in HD. destruct HD as [D1 D2]. rewrite D1, S1. unfold persist. simpl.
  destruct (SaveState _ _) as [[] st]; eexists _, _, (set_hs_Targets [] h);
    (split; [done|]); (split; [|by rewrite <-W1, <-D2]); split_and!; try done.
  all: try apply NoDup_nil_2. all: intros id w; simpl; by rewrite D2, W1.
Qed.

(** C1: synchronisation, from the answer of the control plane to the managed
    targets.  It always returns and keeps the supervisor well formed.  A failed
    fetch changes nothing and an empty answer leaves the supervisor alone.  A
    wipe leaves no target and no worker.  Otherwise every managed target is one
    the payload asks for with a profile that passed validation, and when the
    acknowledgement says "applied" the managed targets are exactly the desired
    ones. *)
Theorem sync_converges {Wk St Cmd : Type} `{!WorkerOps Wk, !StoreOps St, !WorkerLaws Wk}
    (box_open : buf -> buf -> buf -> buf -> option buf) (b64_encode : buf -> string)
    (b64_decode : string -> option buf) (unmarshal_creds : buf -> option Creds)
    (server_name : string -> string) (range_order : list string -> list string)
    (Hrange : forall l, range_order l ≡ₚ l)
    (m : SyncManager (Wk:=Wk) (St:=St) (Cmd:=Cmd)) (h : HostState) (Hwf : sv_wf (sm_sv m) h)
    (Htok : hi_ConnectorToken (hs_Identity h) <> "") (r : fetch_result (Cmd:=Cmd)) :
  exists m' h',
    fetchAndReconcile box_open b64_encode b64_decode unmarshal_creds server_name range_order r m
      = Some m'
    /\ sv_wf (sm_sv m') h'
    /\ match r with
       | FetchError _ => m' = m
       | FetchEmpty => sm_sv m' = sm_sv m
       | FetchPayload p =>
           if wipe_requested p then hs_Targets h' = [] /\ sv_workers (sm_sv m') = ∅
           else (forall id, id ∈ ids h' -> exists d, d ∈ ds_Targets p /\ dt_TargetID d = id
                   /\ is_ok (Validate d) = true)
                /\ exists evs, sm_events m' = sm_events m ++ evs
                /\ forall tok a ok, SyAck tok a ok ∈ evs -> ack_Status a = "applied" ->
                    forall id, id ∈ ids h' <-> id ∈ map dt_TargetID (ds_Targets p)
       end.
Proof.
  assert (Ht : GetConnectorToken (sm_sv m) = hi_ConnectorToken (hs_Identity h))
    by (unfold GetConnectorToken; by rewrite (proj1 Hwf)).
  unfold fetchAndReconcile. rewrite Ht, (proj2 (String.eqb_neq _ _) Htok).
  destruct r as [e| |p].
  - by exists m, h.
  - eexists _, h. split; [done|]. unfold maybeStatusPush, send.
    destruct (_ <? _); [done|]. rewrite Ht, (proj2 (String.eqb_neq _ _) Htok).
    destruct (GetTargets _); [done|]. by destruct (sm_backend m _).
  - fold (wipe_requested p). destruct (wipe_requested p).
    + destruct (executeLocalWipe_wf _ _ Hwf) as (a & s' & h1 & -> & W & HT & HW).
      set (m1 := sendWipeAck _ _ _). assert (Hm : sm_sv m1 = s')
        by (unfold m1, sendWipeAck; by destruct (String.eqb _ _)).
      destruct (sendAck_wf (ds_Revision p) "applied" m1 h1) as (h2 & evs & W2 & HT2 & _);
        [by rewrite Hm|].
      eexists _, h2. split; [done|]. split; [done|]. split; [congruence|].
      by rewrite sendAck_workers, Hm.
    + set (m1 := match ds_PendingCommands p with [] => m | _ => _ end).
      assert (Hm : sm_sv m1 = sm_sv m /\ exists e, sm_events m1 = sm_events m ++ e).
      { unfold m1. destruct (ds_PendingCommands p); split; try done;
          eexists; [by rewrite app_nil_r|done]. }
      destruct Hm as [Hm [e He]].
      destruct (apply_payload_sound box_open b64_encode b64_decode unmarshal_creds server_name
        range_order Hrange p m1 h) as (m' & h' & evs & H1 & H2 & H3 & H4 & H5); [by rewrite Hm|].
      exists m', h'. split; [done|]. split; [done|]. split; [done|].
      exists (e ++ evs). split; [by rewrite H3, He, app_assoc|].
      intros tok a ok [Hin|Hin]%elem_of_app; [|by eauto].
      exfalso. revert He Hin. unfold m1. clear. intros He Hin.
      destruct (ds_PendingCommands p); simpl in He.
      * apply (f_equal length) in He. rewrite length_app in He. destruct e; simpl in *; [|lia].
        by apply elem_of_nil in Hin.
      * apply app_inv_head in He as <-. by apply list_elem_of_singleton in Hin.
Qed.

(** The local wipe.  It always returns; afterwards no worker runs and the
    host state has no target; when the count it reports covers all targets, no
    target's credentials are left; the status "completed" means that the
    emptied state was saved, and says nothing about the deletions. *)
Theorem wipe_spec {Wk St : Type} `{!WorkerOps Wk, !StoreOps St, !WorkerLaws Wk, !StoreLaws St}
    (s : Supervisor (Wk:=Wk) (St:=St)) (h : HostState) (Hwf : sv_wf s h)
    (Hst : store_ok (sv_store s))
    (Hplain : Forall (fun t => plain (tp_CredentialRef t)) (hs_Targets h)) :
  exists ack s', executeLocalWipe s = Some (ack, s')
    /\ sv_workers s' = ∅ /\ GetTargets s' = []
    /\ 0 <= wa_WipedTargets ack <= Z.of_nat (length (hs_Targets h))
    /\ (wa_WipedTargets ack = Z.of_nat (length (hs_Targets h)) ->
        forall t, t ∈ hs_Targets h -> LoadSecret (tp_CredentialRef t) (sv_store s') = Ok None)
    /\ (wa_Status ack = "completed" -> LoadState (sv_store s') = Ok (sv_state s')).
Proof.
  unfold executeLocalWipe. destruct (Shutdown_spec s h Hwf) as (s1 & -> & W1 & S1 & St1).
  unfold GetTargets. rewrite (proj1 Hwf).
  assert (Hok1 : store_ok (sv_store s1)) by (rewrite St1; by apply SaveState_keeps).
  pose proof (delete_secrets_spec (hs_Targets h) s1 Hok1 Hplain) as HD.
  destruct (delete_secrets (hs_Targets h) s1) as [n s2].
  destruct HD as (D1 & D2 & D3 & D4 & D5 & _). rewrite D2, S1. unfold persist. simpl.
  pose proof (SaveState_load (sv_store s2) (set_hs_Targets [] h) D1) as L1.
  pose proof (fun id => SaveState_secret (sv_store s2) (set_hs_Targets [] h) id D1) as L2.
  destruct (SaveState (set_hs_Targets [] h) (sv_store s2)) as [r st]. simpl in L2.
  rewrite Forall_forall in Hplain.
  destruct r; (eexists _, _; split; [done|]); simpl; rewrite D3, W1; (split_and!; try done; [lia|lia|]);
    intros Hn t Ht; rewrite L2 by (by apply Hplain); by apply D5.
Qed.

(** LAN-only mode is applied to the configuration and at once to every
    running worker; and whatever else a configuration override says, a worker
    cap that is absent from it (zero) replaces the configured cap by "no
    limit". *)
Theorem applyHostConfig_spec {Wk St : Type} `{!WorkerOps Wk, !StoreOps St, !WorkerLaws Wk}
    (s : Supervisor (Wk:=Wk) (St:=St)) (h : HostState) (o : HostConfigOverride)
    (Hwf : sv_wf s h) :
  exists h', sv_state (applyHostConfig o s) = Some h' /\ hs_Targets h' = hs_Targets h
    /\ (ho_DisplayMode o = "lan-only" ->
        hc_LanOnly (hs_Config h') = true
        /\ forall id w, sv_workers (applyHostConfig o s) !! id = Some w -> w_LanOnly w = true)
    /\ (ho_DisplayMode o <> "lan-only" -> ho_DisplayMode o <> "hybrid" ->
        hc_LanOnly (hs_Config h') = hc_LanOnly (hs_Config h)
        /\ sv_workers (applyHostConfig o s) = sv_workers s)
    /\ (ho_MaxConcurrentWorkers o = 0 -> hc_MaxConcurrentWorkers (hs_Config h') = 0)
    /\ (hc_LogLevel (hs_Config h') = hc_LogLevel (hs_Config h)
        \/ isValidLogLevel (hc_LogLevel (hs_Config h')) = true).
Proof.
  destruct Hwf as (Hs & _ & Hok). unfold applyHostConfig. rewrite Hs.
  eexists. split; [by destruct (_ || _)|]. simpl. split_and!; [done| | | |].
  - intros ->. simpl. split; [done|]. intros id w Hw. simpl in Hw.
    rewrite lookup_fmap in Hw. destruct (sv_workers s !! id) as [v|] eqn:E; [|done].
    simplify_eq/=. apply SetLanOnly_ok. by destruct (Hok _ _ E).
  - intros H1 H2. rewrite (proj2 (String.eqb_neq _ _) H1), (proj2 (String.eqb_neq _ _) H2). done.
  - by intros ->.
  - destruct (String.eqb (ho_LogLevel o) ""); simpl; [by left|].
    destruct (isValidLogLevel (ho_LogLevel o)) eqn:E; [by right|by left].
Qed.

(** ** Witnesses *)

Definition demo_desired (id : string) : DesiredTargetProfile :=
  Build_DesiredTargetProfile id id "brocade" "readonly" true TargetStatusActive "https://sw"
    zeroTLS 60 ∅ [] zeroLimits false "" "password" None 0 None 2.
Definition demo_sync (rs : list RejectedProfile) :
    SyncManager (Wk:=world payload) (St:=MemStore) (Cmd:=unit) :=
  Build_SyncManager demo_sv None rs 0 0 (fun _ => true) [].

Definition demo_payload : DesiredStatePayload unit :=
  Build_DesiredStatePayload unit 8 None [demo_desired "t1"; demo_desired "t3"] None None [tt].
Definition demo_fetch (r : fetch_result (Cmd:=unit)) :=
  fetchAndReconcile (WorkerOps0:=demo_ops) (fun _ _ _ _ => None) (fun _ => "") (fun _ => None)
    (fun _ => None) (fun u => u) (@rev _) r (demo_sync []).

Lemma sync_converges_witness :
  exists m' h', demo_fetch (FetchPayload demo_payload) = Some m' /\ sv_state (sm_sv m') = Some h'
    /\ (forall id, id ∈ ids h' -> exists d, d ∈ ds_Targets demo_payload /\ dt_TargetID d = id
        /\ is_ok (Validate d) = true).
Proof.
  destruct (sync_converges (WorkerOps0:=demo_ops) (WorkerLaws0:=demo_laws) (fun _ _ _ _ => None)
    (fun _ => "") (fun _ => None) (fun _ => None) (fun u => u) (@rev _)
    (fun l => symmetry (Permutation_rev l)) (demo_sync []) demo_host demo_sv_wf
    ltac:(discriminate) (FetchPayload demo_payload)) as (m' & h' & H1 & H2 & H3 & _).
  exists m', h'. split; [exact H1|]. split; [exact (proj1 H2)|exact H3].
Defined.

Lemma ack_hard_rule_witness :
  exists a ok,
    sm_events (sendAck (WorkerOps0:=demo_ops) 7 "applied" (demo_sync [])) = [SyAck "tok" a ok]
    /\ ack_TargetStatuses a !! "t1" = Some (Build_TargetAckStatus "active" "").
Proof.
  destruct (ack_hard_rule (WorkerOps0:=demo_ops) (demo_sync []) demo_host 7 "applied" eq_refl
    (proj1 (proj2 demo_sv_wf)) ltac:(discriminate)) as (a & ok & H1 & _ & H2 & _).
  exists a, ok. split; [exact H1|].
  destruct (H2 (demo_target "t1" true)) as (e & H3 & H4); [by left|by apply not_elem_of_nil|].
  rewrite (H4 eq_refl) in H3. exact H3.
Defined.

Lemma wipe_spec_witness :
  exists ack s', executeLocalWipe (WorkerOps0:=demo_ops) demo_sv = Some (ack, s')
    /\ sv_workers s' = ∅ /\ GetTargets s' = [].
Proof.
  destruct (wipe_spec (WorkerOps0:=demo_ops) (WorkerLaws0:=demo_laws) (StoreLaws0:=memLaws) demo_sv
    demo_host demo_sv_wf I ltac:(repeat constructor; discriminate))
    as (ack & s' & H1 & H2 & H3 & _).
  exists ack, s'. split; [exact H1|]. split; [exact H2|exact H3].
Defined.

Lemma applyHostConfig_spec_witness :
  exists h', sv_state (applyHostConfig (WorkerOps0:=demo_ops)
      (Build_HostConfigOverride "" 0 0 "lan-only") demo_sv) = Some h'
    /\ hc_LanOnly (hs_Config h') = true /\ hc_MaxConcurrentWorkers (hs_Config h') = 0.
Proof.
  destruct (applyHostConfig_spec (WorkerOps0:=demo_ops) (WorkerLaws0:=demo_laws) demo_sv demo_host
    (Build_HostConfigOverride "" 0 0 "lan-only") demo_sv_wf) as (h' & H1 & _ & H2 & _ & H3 & _).
  exists h'. split; [exact H1|]. split; [exact (proj1 (H2 eq_refl))|exact (H3 eq_refl)].
Defined.
