(* ===== verification/Relay.v ===== *)
(** Relay commands ([src/relay.go], [src/system_commands.go],
    [src/probe_handler.go]): the gates a remote command passes, the request it
    becomes, and the results posted back.

    Commands run in a goroutine of their own, next to synchronisation and
    reconciliation.  [view n] is the supervisor at the [n]-th point where the
    handler looks at it: other goroutines may have changed it since the
    previous look.  The vendor hooks of the source are nil in this build. *)
From S2P Require Import Prelude GoStrings Types Interfaces Policy Readiness Store Worker.
From S2P Require Import Supervisor DesiredState.
From Stdlib Require Import QArith.

Local Open Scope Z_scope.

(** ** Data *)

Record RelayCommand : Type := {
  rc_ID : string;
  rc_Method : string;
  rc_Path : string;
  rc_Body : option payload;
  rc_Platform : string;
  rc_OperationID : string;
  rc_TargetProfileID : string;
  rc_SafetyLevel : string;
}.

Record RelayResult : Type := {
  rr_ID : string;
  rr_ResponseStatus : Z;
  rr_ResponseData : option payload;
  rr_ErrorMessage : string;
  rr_DurationMs : Z;
}.

Record RelayHandler : Type := {
  rh_BaseURL : string;
  rh_allowedSafetyLevels : gset string;
  rh_allowedPlatforms : gset string;
  rh_changePolicy : ChangePolicyConfig;
  rh_probeConfigDir : string;
  rh_probeRuntimeStateDir : string;
  rh_probeSyncTrigger : bool;
}.

Definition vendorPlatforms : list string := [].
Definition buildAllowedPlatforms : gset string :=
  foldl (fun a p => {[p]} ∪ a) {["brocade"]} vendorPlatforms.

Definition NewRelayHandler (baseURL : string) (policy : ChangePolicyConfig) : RelayHandler :=
  let levels : gset string := {["read-only"]} in
  {| rh_BaseURL := baseURL;
     rh_allowedSafetyLevels := match cp_Policy policy with
                               | ChangePolicyDeny => levels
                               | _ => {["change"]} ∪ levels
                               end;
     rh_allowedPlatforms := buildAllowedPlatforms;
     rh_changePolicy := policy;
     rh_probeConfigDir := ""; rh_probeRuntimeStateDir := ""; rh_probeSyncTrigger := false |}.

Definition SetProbeContext (targetsDir runtimeStateDir : string) (trigger : bool)
    (rh : RelayHandler) : RelayHandler :=
  Build_RelayHandler (rh_BaseURL rh) (rh_allowedSafetyLevels rh) (rh_allowedPlatforms rh)
    (rh_changePolicy rh) (TrimSpace targetsDir) (TrimSpace runtimeStateDir) trigger.
Definition ProbeReady (rh : RelayHandler) : bool :=
  negb (String.eqb (rh_probeConfigDir rh) "") && negb (String.eqb (rh_probeRuntimeStateDir rh) "")
  && rh_probeSyncTrigger rh.

Definition PlatformBrocadeProbe : string := "brocade-probe".
Definition OperationProbeSSHReadiness : string := "probe.ssh.readiness".
Definition defaultRelayResponsePath : string := "/functions/v1/connector-api-response".

(** ** Requests *)

(** The Authorization header of a request. *)
Inductive auth : Type :=
| NoAuth
| BasicAuth (username password : string)
| BearerAuth (token : string).

Definition cred (creds : Creds) (k : string) : string := default "" (creds !! k).
(** The first of the keys with a non-empty value. *)
Fixpoint first_cred (creds : Creds) (keys : list string) : string :=
  match keys with
  | [] => ""
  | k :: rest => if String.eqb (cred creds k) "" then first_cred creds rest else cred creds k
  end.

Definition applyAuth (target : TargetProfile) (creds : Creds) : auth :=
  let a := tp_AuthType target in
  if String.eqb a "basic" || String.eqb a "username_password" then
    if negb (String.eqb (cred creds "username") "") && negb (String.eqb (cred creds "password") "")
    then BasicAuth (cred creds "username") (cred creds "password") else NoAuth
  else if String.eqb a "bearer" || String.eqb a "api_token" || String.eqb a "api-key" then
    let token := first_cred creds ["token"; "api_key"; "api_token"; "service_token"] in
    if String.eqb token "" then NoAuth else BearerAuth token
  else NoAuth.

Definition joinURL (base path : string) : string :=
  let base := TrimRight base "/" in
  if String.eqb path "" then base
  else base +:+ (if HasPrefix path "/" then path else "/" +:+ path).

Record Request : Type := {
  rq_Method : string;
  rq_URL : string;
  rq_Body : option buf;
  rq_ContentType : string;
  rq_Auth : auth;
  rq_TLS : tls_config;
  rq_Proxy : option string;
}.

(** What the HTTP client returns: a transport error, or a status with the body
    (or the error met while reading it). *)
Inductive http_outcome : Type :=
| HttpError (e : string)
| HttpResponse (status : Z) (body : result string buf).

(** [io.LimitReader]. *)
Fixpoint limit (n : Z) (b : buf) : buf :=
  match b with
  | [] => []
  | x :: rest => if n <=? 0 then [] else x :: limit (n - 1) rest
  end.

(** What the handler does to the outside world. *)
Inductive relay_event : Type :=
| REHttp (cmd : RelayCommand) (req : Request)
| REPost (token : string) (results : list RelayResult)
| REProbe (targetID : string)
| RETriggerSync
| RERestart.

Record relay : Type := { rl_tick : nat; rl_events : list relay_event }.
Definition tick_relay (r : relay) : relay := Build_relay (S (rl_tick r)) (rl_events r).
Definition emit_relay (ev : relay_event) (r : relay) : relay :=
  Build_relay (rl_tick r) (rl_events r ++ [ev]).

(** ** Probe outcomes *)

Record ProbeOutcome : Type := {
  po_Ready : bool;
  po_Stage : string;
  po_Reason : string;
  po_LastProbeAt : string;
  po_LastSuccessfulProbeAt : string;
  po_SSHKeyAlgorithm : string;
  po_SSHKeyBits : Z;
  po_SSHKeyOrigin : string;
  po_SSHKeyFingerprintSHA256 : string;
  po_SwitchHostKeyFingerprint : string;
  po_SSHUsername : string;
}.

Inductive ProbeError : Type :=
| ErrTargetNotConfigured | ErrTargetConfigMissing | ErrTargetConfigUnreadable
| ErrDuplicateTargetID | ErrInvalidTargetID | ErrProbeLockFailed | ErrRuntimeStateLockFailed
| ErrRuntimeStateUnwritable | ErrConfigDirRequired | ErrProbeOther (e : string).

Definition probe_code (e : ProbeError) : string :=
  match e with
  | ErrTargetNotConfigured => "target_not_configured"
  | ErrTargetConfigMissing => "target_configuration_missing"
  | ErrTargetConfigUnreadable => "target_configuration_unreadable"
  | ErrDuplicateTargetID => "duplicate_target_id"
  | ErrInvalidTargetID => "invalid_target_id"
  | ErrProbeLockFailed => "probe_lock_timeout"
  | ErrRuntimeStateLockFailed => "runtime_state_lock_timeout"
  | ErrRuntimeStateUnwritable => "runtime_state_unwritable"
  | ErrConfigDirRequired => "probe_handler_not_configured"
  | ErrProbeOther _ => "probe_execution_failed"
  end.

Definition outcome_data (o : ProbeOutcome) : payload :=
  list_to_map
    [("ready", VBool (po_Ready o)); ("stage", VString (po_Stage o));
     ("reason", VString (po_Reason o)); ("lastProbeAt", VString (po_LastProbeAt o));
     ("lastSuccessfulProbeAt", VString (po_LastSuccessfulProbeAt o));
     ("sshKeyAlgorithm", VString (po_SSHKeyAlgorithm o)); ("sshKeyBits", VInt (po_SSHKeyBits o));
     ("sshKeyOrigin", VString (po_SSHKeyOrigin o));
     ("sshKeyFingerprintSha256", VString (po_SSHKeyFingerprintSHA256 o));
     ("switchHostKeyFingerprintSha256", VString (po_SwitchHostKeyFingerprint o));
     ("sshUsername", VString (po_SSHUsername o));
     ("summary", VString ("probe " +:+ (if po_Ready o then "succeeded" else "did not authenticate")
                          +:+ " (" +:+ po_Stage o +:+ ")"))].

(** ** The handler *)

Section Relay.
Context {Wk St : Type} `{!WorkerOps Wk, !StoreOps St}.
(** The supervisor, the network and the SSH probe at each point in time. *)
Context (view : nat -> Supervisor (Wk:=Wk) (St:=St)).
Context (network : nat -> http_outcome).
Context (probe : nat -> string -> result ProbeError ProbeOutcome).
(** The base URL of the running Brocade adapter of a target, empty if none. *)
Context (adapter_base : nat -> string -> string).
(** [json.Marshal] and [json.Unmarshal] on objects ([Some None] for the JSON
    text null), [http.NewRequest]'s check of method and URL, and a byte
    buffer as text. *)
Context (marshal : payload -> option buf) (unmarshal : buf -> option (option payload)).
Context (valid_request : string -> string -> bool).
Context (text : buf -> string).

Definition observe {A} (f : nat -> A) : M relay A :=
  n ← gets rl_tick; modify tick_relay ;; mret (f n).
Definition supervisor {A} (f : Supervisor (Wk:=Wk) (St:=St) -> A) : M relay A :=
  observe (fun n => f (view n)).
Definition emit (ev : relay_event) : M relay unit := modify (emit_relay ev).
Definition now : M relay GoTime := supervisor sv_now.
(** [time.Since(start).Milliseconds()]. *)
Definition elapsed (start : GoTime) : M relay Z :=
  t ← now; mret (Since t start ÷ Millisecond).

(** A result that carries an error. *)
Definition reject (cmd : RelayCommand) (start : GoTime) (msg : string) : M relay RelayResult :=
  d ← elapsed start; mret (Build_RelayResult (rc_ID cmd) 0 None msg d).
Definition failed (cmd : RelayCommand) (status : Z) (msg : string) : RelayResult :=
  Build_RelayResult (rc_ID cmd) status None msg 0.

Definition postResults (rh : RelayHandler) (results : list RelayResult) : M relay unit :=
  token ← supervisor GetConnectorToken;
  if String.eqb token "" then mret tt
  else when (valid_request "POST" (rh_BaseURL rh +:+ defaultRelayResponsePath))
         (emit (REPost token results)).

(** *** The request to the target *)

Definition request_body (cmd : RelayCommand) : result string (option buf) :=
  let m := ToUpper (rc_Method cmd) in
  match rc_Body cmd with
  | Some b => if String.eqb m "POST" || String.eqb m "PUT" || String.eqb m "PATCH"
              then match marshal b with
                   | Some bytes => Ok (Some bytes)
                   | None => Err "marshal request body"
                   end
              else Ok None
  | None => Ok None
  end.

Definition response_data (cmd : RelayCommand) (status : Z) (body : buf) : option payload :=
  match body with
  | [] => if String.eqb (rc_SafetyLevel cmd) "change" && ((200 <=? status) && (status <? 300))
          then Some (list_to_map [("status", VString "success");
                       ("message", VString "Action completed successfully");
                       ("httpStatus", VFloat (inject_Z status))])
          else Some {["rawText" := VString ""]}
  | _ => match unmarshal body with
         | Some d => d
         | None => Some {["rawText" := VString (text body)]}
         end
  end.

Definition http_result (cmd : RelayCommand) (out : http_outcome) : RelayResult :=
  match out with
  | HttpError e => failed cmd 0 ("execute request: " +:+ e)
  | HttpResponse status (Err e) => failed cmd status ("read response: " +:+ e)
  | HttpResponse status (Ok body) =>
      let data := response_data cmd status (limit (5 * 1024 * 1024) body) in
      if 400 <=? status then
        if String.eqb (rc_SafetyLevel cmd) "change" && (status =? 409) then
          Build_RelayResult (rc_ID cmd) status
            (Some (list_to_map [("status", VString "conflict");
                     ("message", VString "Target is already in the requested state");
                     ("httpStatus", VFloat 409)])) "" 0
        else Build_RelayResult (rc_ID cmd) status data
               ("upstream returned HTTP " +:+ pretty status) 0
      else Build_RelayResult (rc_ID cmd) status data "" 0
  end.

Definition executeHTTP (cmd : RelayCommand) (target : TargetProfile) (creds : Creds)
    : M relay RelayResult :=
  let isBrocade := String.eqb (ToLower (TrimSpace (tp_TargetType target))) "brocade"
                   || String.eqb (ToLower (TrimSpace (rc_Platform cmd))) "brocade" in
  adapter ← (if isBrocade then observe (fun n => adapter_base n (rc_TargetProfileID cmd))
             else mret "");
  let base := if String.eqb adapter "" then tp_Endpoint target else adapter in
  let url := joinURL base (rc_Path cmd) in
  let method := ToUpper (rc_Method cmd) in
  match request_body cmd with
  | Err e => mret (failed cmd 0 e)
  | Ok body =>
      if negb (valid_request method url) then mret (failed cmd 0 "create request")
      else
        emit (REHttp cmd {| rq_Method := method; rq_URL := url; rq_Body := body;
                rq_ContentType := if isBrocade then "application/yang-data+json"
                                  else "application/json";
                rq_Auth := applyAuth target creds;
                rq_TLS := client_tls (Some (tp_TLS target));
                rq_Proxy := client_proxy (Some (tp_Proxy target)) |}) ;;
        out ← observe network;
        mret (http_result cmd out)
  end.

(** *** System commands *)

Definition host_flag (f : HostConfig -> bool) (s : Supervisor (Wk:=Wk) (St:=St)) : bool :=
  match sv_state s with Some h => f (hs_Config h) | None => false end.

(** [RERestart] stands for the goroutine that drains the workers and signals
    the process. *)
Definition handleAgentRestart (rh : RelayHandler) (cmd : RelayCommand) (start : GoTime)
    : M relay RelayResult :=
  d ← elapsed start;
  postResults rh [Build_RelayResult (rc_ID cmd) 200
    (Some (list_to_map [("message", VString "Agent restart initiated — graceful shutdown in progress");
                        ("version", VString HostVersion)])) "" d] ;;
  emit RERestart ;;
  mret (Build_RelayResult (rc_ID cmd) 200 None "" 0).

Definition handleAgentVersion (cmd : RelayCommand) (start : GoTime) : M relay RelayResult :=
  d ← elapsed start;
  mret (Build_RelayResult (rc_ID cmd) 200 (Some {["version" := VString HostVersion]}) "" d).

Definition executeSystemCommand (rh : RelayHandler) (cmd : RelayCommand) (start : GoTime)
    : M relay RelayResult :=
  if String.eqb (rc_OperationID cmd) "agent-restart" then
    enabled ← supervisor (host_flag hc_RemoteRestartEnabled);
    if negb enabled then reject cmd start "Remote restart is disabled on this host. Set FILTERREX_REMOTE_RESTART=true or enable via host config."
    else handleAgentRestart rh cmd start
  else if String.eqb (rc_OperationID cmd) "agent-version" then handleAgentVersion cmd start
  else reject cmd start ("unknown system operation " +:+ Quote (rc_OperationID cmd)).

(** *** SSH readiness probes *)

Definition executeProbeSSHReadiness (rh : RelayHandler) (cmd : RelayCommand) (start : GoTime)
    : M relay RelayResult :=
  if negb (String.eqb (ToUpper (rc_Method cmd)) "POST") then
    reject cmd start "probe_method_not_allowed"
  else if negb (String.eqb (rc_SafetyLevel cmd) "")
          && negb (String.eqb (rc_SafetyLevel cmd) "read-only") then
    reject cmd start "probe_safety_level_not_allowed"
  else if negb (String.eqb (rc_OperationID cmd) OperationProbeSSHReadiness) then
    reject cmd start "probe_operation_not_allowed"
  else if String.eqb (TrimSpace (rc_TargetProfileID cmd)) "" then
    reject cmd start "target_profile_id_required"
  else if negb (ProbeReady rh) then reject cmd start "probe_handler_not_configured"
  else
    lanOnly ← supervisor (host_flag hc_LanOnly);
    if lanOnly : bool then reject cmd start "lan_only_mode"
    else
      emit (REProbe (rc_TargetProfileID cmd)) ;;
      r ← observe (fun n => probe n (rc_TargetProfileID cmd));
      match r with
      | Err e =>
          d ← elapsed start; mret (Build_RelayResult (rc_ID cmd) 200 None (probe_code e) d)
      | Ok o =>
          emit RETriggerSync ;;
          d ← elapsed start; mret (Build_RelayResult (rc_ID cmd) 200 (Some (outcome_data o)) "" d)
      end.

(** *** Gates *)

(** The checks on a target command, in the order of the source. *)
Definition gate (rh : RelayHandler) (cmd : RelayCommand) : option string :=
  let method := ToUpper (rc_Method cmd) in
  if negb (bool_decide (rc_Platform cmd ∈ rh_allowedPlatforms rh)) then
    Some ("platform " +:+ Quote (rc_Platform cmd) +:+ " not in agent allow-list")
  else if negb (bool_decide (rc_SafetyLevel cmd ∈ rh_allowedSafetyLevels rh)) then
    Some ("safety level " +:+ Quote (rc_SafetyLevel cmd) +:+ " not allowed on agent")
  else if String.eqb (rc_SafetyLevel cmd) "change"
          && negb (fst (IsChangeOpAllowed (rh_changePolicy rh) (rc_OperationID cmd))) then
    Some (snd (IsChangeOpAllowed (rh_changePolicy rh) (rc_OperationID cmd)))
  else if negb (String.eqb method "GET") && negb (String.eqb method "POST") then
    Some ("method " +:+ Quote method +:+ " not allowed")
  else if String.eqb (rc_Path cmd) "" || Contains (rc_Path cmd) ".." then
    Some "invalid request path"
  else None.

Definition executeCommand (rh : RelayHandler) (cmd : RelayCommand) : M relay RelayResult :=
  start ← now;
  if String.eqb (rc_Platform cmd) "system" then executeSystemCommand rh cmd start
  else if String.eqb (rc_Platform cmd) PlatformBrocadeProbe then
    executeProbeSSHReadiness rh cmd start
  else if String.eqb (rc_Platform cmd) "ai-fabric" then
    reject cmd start "ai-fabric probing is not supported by this connector"
  else match gate rh cmd with
  | Some msg => reject cmd start msg
  | None =>
      target ← supervisor (FindTarget (rc_TargetProfileID cmd));
      match target with
      | None => reject cmd start ("target profile " +:+ Quote (rc_TargetProfileID cmd) +:+ " not found on this agent")
      | Some t =>
          secret ← supervisor (fun s => LoadSecret (rc_TargetProfileID cmd) (sv_store s));
          match secret with
          | Err e => reject cmd start ("failed to load credentials for target: " +:+ e)
          | Ok creds =>
              r ← executeHTTP cmd t (default ∅ creds);
              d ← elapsed start;
              mret (Build_RelayResult (rr_ID r) (rr_ResponseStatus r) (rr_ResponseData r)
                      (rr_ErrorMessage r) d)
          end
      end
  end.

(** Platforms that bypass the live-query gate. *)
Definition bypasses_live_query (platform : string) : bool :=
  String.eqb platform "system" || String.eqb platform "ai-fabric"
  || String.eqb platform PlatformBrocadeProbe.

Fixpoint process (rh : RelayHandler) (liveQueryEnabled : bool) (commands : list RelayCommand)
    : M relay (list RelayResult) :=
  match commands with
  | [] => mret []
  | cmd :: rest =>
      r ← (if negb (bypasses_live_query (rc_Platform cmd)) && negb liveQueryEnabled
           then mret (failed cmd 0 "Remote Live Query is disabled on this host. Set FILTERREX_REMOTE_LIVE_QUERY=true or enable via host config.")
           else executeCommand rh cmd);
      rs ← process rh liveQueryEnabled rest;
      mret (r :: rs)
  end.

Definition ProcessCommands (rh : RelayHandler) (commands : list RelayCommand) : M relay unit :=
  match commands with
  | [] => mret tt
  | _ =>
      enabled ← supervisor (host_flag hc_RemoteLiveQueryEnabled);
      results ← process rh enabled commands;
      postResults rh results
  end.
End Relay.
