(* ===== verification/RelayProps.v ===== *)
(** Properties of the relay handler: which effects a batch of remote commands
    can have, and what is reported back. *)
From S2P Require Import Prelude GoStrings Types Interfaces Policy Readiness Store Worker.
From S2P Require Import WorkerProps SupervisorWorkers Supervisor SupervisorProps DesiredState Relay.

Local Open Scope Z_scope.

(** ** A logic of effects *)

(** From any state no earlier than [t0], [m] only adds events that satisfy [P]
    and time does not run back. *)
Definition safe (t0 : nat) (P : relay_event -> Prop) {A} (m : M relay A) : Prop :=
  forall s, (t0 <= rl_tick s)%nat ->
    (t0 <= rl_tick (exec m s))%nat
    /\ exists evs, rl_events (exec m s) = rl_events s ++ evs /\ Forall P evs.
(** Every value [m] returns satisfies [Q]. *)
Definition returns {A} (Q : A -> Prop) (m : M relay A) : Prop := forall s, Q (fst (m s)).

Section Logic.
Context (t0 : nat) (P : relay_event -> Prop).

Lemma safe_ret {A} (a : A) : safe t0 P (mret a).
Proof. intros s Hs. split; [done|]. exists []. split; [by rewrite app_nil_r|constructor]. Qed.
Lemma safe_bind {A B} (m : M relay A) (f : A -> M relay B) :
  safe t0 P m -> (forall a, safe t0 P (f a)) -> safe t0 P (m ≫= f).
Proof.
  intros Hm Hf s Hs. rewrite exec_bind. destruct (Hm s Hs) as (H1 & e1 & E1 & F1).
  destruct (Hf (fst (m s)) _ H1) as (H2 & e2 & E2 & F2). split; [done|].
  exists (e1 ++ e2). split; [by rewrite E2, E1, app_assoc|by apply Forall_app].
Qed.
Lemma safe_emit ev : P ev -> safe t0 P (emit ev).
Proof. intros H s Hs. split; [done|]. exists [ev]. by split; [|constructor]. Qed.
Lemma safe_observe {A B} (f : nat -> A) (k : A -> M relay B) :
  (forall n, (t0 <= n)%nat -> safe t0 P (k (f n))) -> safe t0 P (observe f ≫= k).
Proof. intros H s Hs. apply (H (rl_tick s) Hs (tick_relay s)). simpl. lia. Qed.
Lemma safe_when b m : (b = true -> safe t0 P m) -> safe t0 P (when b m).
Proof. destruct b; intros H; [by apply H|apply safe_ret]. Qed.

Lemma returns_ret {A} (Q : A -> Prop) a : Q a -> returns Q (mret a).
Proof. by intros H s. Qed.
Lemma returns_bind {A B} (Q : A -> Prop) (R : B -> Prop) (m : M relay A) (f : A -> M relay B) :
  returns Q m -> (forall a, Q a -> returns R (f a)) -> returns R (m ≫= f).
Proof. intros Hm Hf s. rewrite fst_bind. by apply Hf. Qed.
Lemma returns_any {A B} (R : B -> Prop) (m : M relay A) (f : A -> M relay B) :
  (forall a, returns R (f a)) -> returns R (m ≫= f).
Proof. intros Hf s. rewrite fst_bind. by apply Hf. Qed.
End Logic.

Create HintDb relay.
#[export] Hint Resolve safe_ret safe_bind safe_emit safe_when : relay.

Section Effects.
Context {Wk St : Type} `{!WorkerOps Wk, !StoreOps St}.
Context (view : nat -> Supervisor (Wk:=Wk) (St:=St)).
Context (network : nat -> http_outcome).
Context (probe : nat -> string -> result ProbeError ProbeOutcome).
Context (adapter_base : nat -> string -> string).
Context (marshal : payload -> option buf) (unmarshal : buf -> option (option payload)).
Context (valid_request : string -> string -> bool) (text : buf -> string).

(** What a target request may look like: it follows the command, goes to a
    target that is managed at some point after [t0], and carries that target's
    own credentials. *)
Definition request_ok (t0 : nat) (cmd : RelayCommand) (req : Request) : Prop :=
  rq_Method req = ToUpper (rc_Method cmd) /\ tc_MinVersion (rq_TLS req) = VersionTLS12
  /\ exists n1 n2 t creds base, (t0 <= n1)%nat /\ (t0 <= n2)%nat
    /\ FindTarget (rc_TargetProfileID cmd) (view n1) = Some t
    /\ LoadSecret (rc_TargetProfileID cmd) (sv_store (view n2)) = Ok creds
    /\ rq_Auth req = applyAuth t (default ∅ creds)
    /\ rq_URL req = joinURL base (rc_Path cmd)
    /\ (base = tp_Endpoint t \/ exists n3, (t0 <= n3)%nat
        /\ base = adapter_base n3 (rc_TargetProfileID cmd)).

Definition flag_at (t0 : nat) (f : HostConfig -> bool) (b : bool) : Prop :=
  exists n, (t0 <= n)%nat /\ host_flag f (view n) = b.

(** The effects a batch of commands is allowed to have; [Live] is the condition
    for requests to targets. *)
Definition allowed (rh : RelayHandler) (t0 : nat) (Live : Prop) (cmds : list RelayCommand) (ev : relay_event)
    : Prop :=
  match ev with
  | REHttp cmd req =>
      cmd ∈ cmds /\ Live
      /\ gate rh cmd = None /\ request_ok t0 cmd req
  | REPost token _ => token <> ""
  | REProbe id =>
      flag_at t0 hc_LanOnly false /\ ProbeReady rh = true /\ TrimSpace id <> ""
      /\ exists cmd, cmd ∈ cmds /\ rc_TargetProfileID cmd = id
         /\ rc_Platform cmd = PlatformBrocadeProbe
         /\ rc_OperationID cmd = OperationProbeSSHReadiness
         /\ (rc_SafetyLevel cmd = "" \/ rc_SafetyLevel cmd = "read-only")
  | RETriggerSync => exists cmd, cmd ∈ cmds /\ rc_Platform cmd = PlatformBrocadeProbe
  | RERestart =>
      flag_at t0 hc_RemoteRestartEnabled true
      /\ exists cmd, cmd ∈ cmds /\ rc_Platform cmd = "system"
         /\ rc_OperationID cmd = "agent-restart"
  end.

Section Batch.
Context (rh : RelayHandler) (t0 : nat) (Live : Prop) (cmds : list RelayCommand).
Abbreviation Safe := (safe t0 (allowed rh t0 Live cmds)) (only parsing).

Lemma elapsed_safe start : Safe (elapsed view start).
Proof. unfold elapsed. apply safe_observe. intros n _. apply safe_ret. Qed.
Hint Resolve elapsed_safe : relay.
Lemma reject_safe cmd start msg : Safe (reject view cmd start msg).
Proof. unfold reject. auto with relay. Qed.
Hint Resolve reject_safe : relay.
Lemma postResults_safe rs : Safe (postResults view valid_request rh rs).
Proof.
  unfold postResults. apply safe_observe. intros n _.
  destruct (String.eqb_spec (GetConnectorToken (view n)) ""); auto with relay.
Qed.
Hint Resolve postResults_safe : relay.

Lemma client_tls_min cfg : tc_MinVersion (client_tls cfg) = VersionTLS12.
Proof.
  unfold client_tls, tlsConfigForPolicy. destruct (String.eqb _ _); [done|].
  by destruct (String.eqb _ _).
Qed.

Lemma executeHTTP_safe cmd t creds n1 n2 :
  cmd ∈ cmds -> Live -> gate rh cmd = None ->
  (t0 <= n1)%nat -> (t0 <= n2)%nat ->
  FindTarget (rc_TargetProfileID cmd) (view n1) = Some t ->
  LoadSecret (rc_TargetProfileID cmd) (sv_store (view n2)) = Ok creds ->
  Safe (executeHTTP network adapter_base marshal unmarshal valid_request text cmd t (default ∅ creds)).
Proof.
  intros Hin Hlive Hgate Hn1 Hn2 Ht Hc. unfold executeHTTP.
  set (b := String.eqb _ "brocade" || _).
  assert (Hbase : forall base, (base = tp_Endpoint t \/ exists n3, (t0 <= n3)%nat
      /\ base = adapter_base n3 (rc_TargetProfileID cmd)) ->
    Safe (match request_body marshal cmd with
      | Err e => mret (failed cmd 0 e)
      | Ok body => if negb (valid_request (ToUpper (rc_Method cmd)) (joinURL base (rc_Path cmd)))
          then mret (failed cmd 0 "create request")
          else emit (REHttp cmd {| rq_Method := ToUpper (rc_Method cmd);
                 rq_URL := joinURL base (rc_Path cmd); rq_Body := body;
                 rq_ContentType := if b then "application/yang-data+json" else "application/json";
                 rq_Auth := applyAuth t (default ∅ creds);
                 rq_TLS := client_tls (Some (tp_TLS t));
                 rq_Proxy := client_proxy (Some (tp_Proxy t)) |}) ;;
               out ← observe network; mret (http_result unmarshal text cmd out)
      end)).
  { intros base Hb. destruct (request_body marshal cmd) as [body|e]; [|apply safe_ret].
    destruct (negb _); [apply safe_ret|]. apply safe_bind; [|intros _].
    - apply safe_emit. split_and!; [done|done|done|]. split_and!; [done|apply client_tls_min|].
      by exists n1, n2, t, creds, base.
    - apply safe_observe. intros n _. apply safe_ret. }
  destruct b.
  - apply safe_observe. intros n Hn.
    destruct (String.eqb _ _); apply Hbase; [by left|by right; exists n].
  - change (mret "" ≫= ?k) with (k ""). apply Hbase. by left.
Qed.

Lemma executeSystemCommand_safe cmd start :
  cmd ∈ cmds -> rc_Platform cmd = "system" ->
  Safe (executeSystemCommand view valid_request rh cmd start).
Proof.
  intros Hin Hp. unfold executeSystemCommand.
  destruct (String.eqb_spec (rc_OperationID cmd) "agent-restart") as [Ho|].
  - apply safe_observe. intros n Hn. destruct (host_flag _ _) eqn:E; [|apply reject_safe].
    cbn [negb]. unfold handleAgentRestart. apply safe_bind; [auto with relay|intros d].
    apply safe_bind; [auto with relay|intros _]. apply safe_bind; [|auto with relay].
    apply safe_emit. split; [by exists n|]. by exists cmd.
  - destruct (String.eqb _ _); [|apply reject_safe]. unfold handleAgentVersion. auto with relay.
Qed.

Lemma executeProbe_safe cmd start :
  cmd ∈ cmds -> rc_Platform cmd = PlatformBrocadeProbe ->
  Safe (executeProbeSSHReadiness view probe rh cmd start).
Proof.
  intros Hin Hp. unfold executeProbeSSHReadiness.
  destruct (negb (String.eqb (ToUpper _) _)); [apply reject_safe|].
  destruct (negb (String.eqb (rc_SafetyLevel cmd) "") && _) eqn:Es; [apply reject_safe|].
  destruct (String.eqb_spec (rc_OperationID cmd) OperationProbeSSHReadiness) as [Ho|];
    [cbn [negb]|apply reject_safe].
  destruct (String.eqb_spec (TrimSpace (rc_TargetProfileID cmd)) "") as [|Hid]; [apply reject_safe|].
  destruct (ProbeReady rh) eqn:Er; [cbn [negb]|apply reject_safe].
  apply safe_observe. intros n Hn. destruct (host_flag _ _) eqn:El; [apply reject_safe|].
  apply safe_bind; [|intros _].
  - apply safe_emit. split_and!; [by exists n|done|done|]. exists cmd. split_and!; [done..|].
    destruct (String.eqb_spec (rc_SafetyLevel cmd) ""); [by left|].
    destruct (String.eqb_spec (rc_SafetyLevel cmd) "read-only"); [by right|done].
  - apply safe_observe. intros n' _. destruct (probe n' _); [|auto with relay].
    apply safe_bind; [|auto with relay]. apply safe_emit. by exists cmd.
Qed.

Lemma executeCommand_safe cmd :
  cmd ∈ cmds ->
  bypasses_live_query (rc_Platform cmd) = true \/ Live ->
  Safe (executeCommand view network probe adapter_base marshal unmarshal valid_request text rh cmd).
Proof.
  intros Hin Hlive. unfold executeCommand. apply safe_observe. intros n _.
  destruct (String.eqb_spec (rc_Platform cmd) "system") as [|Hns];
    [by apply executeSystemCommand_safe|].
  destruct (String.eqb_spec (rc_Platform cmd) PlatformBrocadeProbe) as [|Hnp];
    [by apply executeProbe_safe|].
  destruct (String.eqb_spec (rc_Platform cmd) "ai-fabric") as [|Hna]; [apply reject_safe|].
  destruct Hlive as [Hb|Hlive].
  { unfold bypasses_live_query in Hb.
    by rewrite !(proj2 (String.eqb_neq _ _)) in Hb by assumption. }
  destruct (gate rh cmd) eqn:Eg; [apply reject_safe|].
  apply safe_observe. intros n1 Hn1. destruct (FindTarget _ _) as [t|] eqn:Et; [|apply reject_safe].
  apply safe_observe. intros n2 Hn2. destruct (LoadSecret _ _) as [c|] eqn:Ec; [|apply reject_safe].
  apply safe_bind; [|auto with relay].
  exact (executeHTTP_safe cmd t c n1 n2 Hin Hlive Eg Hn1 Hn2 Et Ec).
Qed.

Lemma process_safe live l :
  (forall cmd, cmd ∈ l -> cmd ∈ cmds) ->
  (live = true -> Live) ->
  Safe (process view network probe adapter_base marshal unmarshal valid_request text rh live l).
Proof.
  intros Hsub Hlive. induction l as [|cmd l IH]; [apply safe_ret|]. cbn [process].
  apply safe_bind; [|intros r; apply safe_bind; [|auto with relay]].
  - destruct (bypasses_live_query (rc_Platform cmd)) eqn:Eb, live; cbn [andb negb];
      try apply safe_ret; apply executeCommand_safe; auto with relay;
      try (apply Hsub; by left).
  - apply IH. intros c Hc. apply Hsub. by right.
Qed.
End Batch.

(** ** What is reported *)

(** The result answers the command, and a target command reported without an
    error was answered by the target with a status below 400, or is a change
    that met a conflict. *)
Definition answers (cmd : RelayCommand) (r : RelayResult) : Prop :=
  rr_ID r = rc_ID cmd
  /\ (bypasses_live_query (rc_Platform cmd) = false -> rr_ErrorMessage r = "" ->
      rr_ResponseStatus r < 400
      \/ rc_SafetyLevel cmd = "change" /\ rr_ResponseStatus r = 409).

Lemma answers_error cmd status data msg d :
  msg <> "" -> answers cmd (Build_RelayResult (rc_ID cmd) status data msg d).
Proof. by split. Qed.
Lemma answers_bypass cmd status data msg d :
  bypasses_live_query (rc_Platform cmd) = true ->
  answers cmd (Build_RelayResult (rc_ID cmd) status data msg d).
Proof. intros H. split; [done|]. by rewrite H. Qed.

Lemma reject_answers cmd start msg : msg <> "" -> returns (answers cmd) (reject view cmd start msg).
Proof. intros H. unfold reject. apply returns_any. intros d. by apply returns_ret, answers_error. Qed.

Lemma reject_bypass cmd start msg :
  bypasses_live_query (rc_Platform cmd) = true -> returns (answers cmd) (reject view cmd start msg).
Proof. intros H. unfold reject. apply returns_any. intros d. by apply returns_ret, answers_bypass. Qed.

Lemma gate_message rh cmd msg : gate rh cmd = Some msg -> msg <> "".
Proof.
  unfold gate, IsChangeOpAllowed.
  repeat (case_match; try (intros [= <-]; discriminate)); simpl in *; try done.
  all: by rewrite andb_false_r in *.
Qed.

Lemma http_result_answers cmd out : answers cmd (http_result unmarshal text cmd out).
Proof.
  destruct out as [e|status [body|e]]; [by apply answers_error| |by apply answers_error].
  unfold http_result. destruct (Z.leb_spec 400 status).
  - destruct (String.eqb_spec (rc_SafetyLevel cmd) "change"), (Z.eqb_spec status 409);
      cbn [andb]; (split; [done|]); simpl; try discriminate. intros _ _. by right.
  - split; [done|]. by left.
Qed.

Lemma executeHTTP_answers cmd t creds :
  returns (answers cmd)
    (executeHTTP network adapter_base marshal unmarshal valid_request text cmd t creds).
Proof.
  unfold executeHTTP. apply returns_any. intros a.
  destruct (request_body marshal cmd) as [body|e] eqn:Eb.
  - destruct (negb _); [by apply returns_ret, answers_error|]. apply returns_any. intros _.
    apply returns_any. intros out. apply returns_ret, http_result_answers.
  - apply returns_ret, answers_error. intros ->. unfold request_body in Eb.
    by repeat case_match.
Qed.

Lemma system_answers rh cmd start :
  rc_Platform cmd = "system" ->
  returns (answers cmd) (executeSystemCommand view valid_request rh cmd start).
Proof.
  intros Hp. assert (Hb : bypasses_live_query (rc_Platform cmd) = true) by by rewrite Hp.
  unfold executeSystemCommand. destruct (String.eqb _ "agent-restart").
  - apply returns_any. intros b. destruct (negb b); [by apply reject_bypass|].
    unfold handleAgentRestart. do 3 (apply returns_any; intros ?).
    by apply returns_ret, answers_bypass.
  - destruct (String.eqb _ _); [|by apply reject_bypass]. unfold handleAgentVersion.
    apply returns_any. intros d. by apply returns_ret, answers_bypass.
Qed.

Lemma probe_answers rh cmd start :
  rc_Platform cmd = PlatformBrocadeProbe ->
  returns (answers cmd) (executeProbeSSHReadiness view probe rh cmd start).
Proof.
  intros Hp. assert (Hb : bypasses_live_query (rc_Platform cmd) = true) by by rewrite Hp.
  unfold executeProbeSSHReadiness.
  repeat (match goal with |- context [if ?b then reject _ _ _ _ else _] =>
    destruct b; [by apply reject_bypass|] end).
  apply returns_any. intros lan. destruct lan; [by apply reject_bypass|].
  apply returns_any. intros _. apply returns_any. intros [o|e].
  - do 2 (apply returns_any; intros ?). by apply returns_ret, answers_bypass.
  - apply returns_any. intros d. by apply returns_ret, answers_bypass.
Qed.

Lemma executeCommand_answers rh cmd :
  returns (answers cmd)
    (executeCommand view network probe adapter_base marshal unmarshal valid_request text rh cmd).
Proof.
  unfold executeCommand. apply returns_any. intros start.
  destruct (String.eqb_spec (rc_Platform cmd) "system"); [by apply system_answers|].
  destruct (String.eqb_spec (rc_Platform cmd) PlatformBrocadeProbe); [by apply probe_answers|].
  destruct (String.eqb _ "ai-fabric"); [by apply reject_answers|].
  destruct (gate rh cmd) eqn:Eg; [apply reject_answers; by eapply gate_message|].
  apply returns_any. intros [t|]; [|by apply reject_answers].
  apply returns_any. intros [c|e]; [|by apply reject_answers].
  eapply returns_bind; [apply executeHTTP_answers|]. intros r [Hid Hok].
  apply returns_any. intros d. by apply returns_ret.
Qed.

Lemma process_answers rh live cmds :
  returns (Forall2 answers cmds)
    (process view network probe adapter_base marshal unmarshal valid_request text rh live cmds).
Proof.
  induction cmds as [|cmd cmds IH]; [by apply returns_ret|]. cbn [process].
  eapply (returns_bind (answers cmd)).
  - destruct (_ && _); [by apply returns_ret, answers_error|apply executeCommand_answers].
  - intros r Hr. eapply returns_bind; [apply IH|]. intros rs Hrs. by apply returns_ret; constructor.
Qed.
End Effects.

(** ** Properties *)

(** What [gate] lets through, for a handler made by [NewRelayHandler]. *)
Definition authorised (policy : ChangePolicyConfig) (cmd : RelayCommand) : Prop :=
  rc_Platform cmd = "brocade"
  /\ (rc_SafetyLevel cmd = "read-only"
      \/ rc_SafetyLevel cmd = "change"
         /\ fst (IsChangeOpAllowed policy (rc_OperationID cmd)) = true)
  /\ ToUpper (rc_Method cmd) ∈ ["GET"; "POST"]
  /\ rc_Path cmd <> "" /\ Contains (rc_Path cmd) ".." = false.

Lemma gate_authorised base policy td rd tr cmd :
  gate (SetProbeContext td rd tr (NewRelayHandler base policy)) cmd = None ->
  authorised policy cmd.
Proof.
  unfold gate, SetProbeContext, NewRelayHandler. cbn.
  case_bool_decide as Hp; [cbn [negb]|done]. case_bool_decide as Hs; [cbn [negb]|done].
  assert (Hsafe : rc_SafetyLevel cmd = "read-only" \/ rc_SafetyLevel cmd = "change")
    by (destruct (cp_Policy policy); set_solver).
  destruct (String.eqb_spec (rc_SafetyLevel cmd) "change") as [Hc|Hc];
    destruct (IsChangeOpAllowed policy (rc_OperationID cmd)) as [[] ?] eqn:Ea; try done;
  (destruct (String.eqb_spec (ToUpper (rc_Method cmd)) "GET") as [Hm|Hm];
    [|destruct (String.eqb_spec (ToUpper (rc_Method cmd)) "POST") as [Hm'|Hm']; [|done]]);
  cbn [andb negb fst];
  (destruct (String.eqb_spec (rc_Path cmd) ""); [done|]); cbn [orb];
  (destruct (Contains (rc_Path cmd) "..") eqn:Ed; [done|]); intros _;
  (split_and!; [set_solver| |set_solver|done|done]); rewrite ?Ea; naive_solver.
Qed.

(** C5: what a batch of remote commands can do.  Every effect of
    [ProcessCommands] is one the host allows: a request to a target is sent only
    when live queries are enabled, for an authorised Brocade command (read-only,
    or a change its policy allows by operation id; GET or POST; a path without
    ".."), to a managed target and with that target's own credentials; an SSH
    probe runs only outside LAN-only mode; a restart happens only where remote
    restarts are enabled. *)
Theorem relay_gate {Wk St : Type} `{!StoreOps St, !WorkerOps Wk}
    (view : nat -> Supervisor (Wk:=Wk) (St:=St)) (network : nat -> http_outcome)
    (probe : nat -> string -> result ProbeError ProbeOutcome)
    (adapter_base : nat -> string -> string) (marshal : payload -> option buf)
    (unmarshal : buf -> option (option payload)) (valid_request : string -> string -> bool)
    (text : buf -> string) (base : string) (policy : ChangePolicyConfig) (td rd : string)
    (tr : bool) (cmds : list RelayCommand) (s : relay) :
  let rh := SetProbeContext td rd tr (NewRelayHandler base policy) in
  exists evs,
    rl_events (exec (ProcessCommands view network probe adapter_base marshal unmarshal
      valid_request text rh cmds) s) = rl_events s ++ evs
    /\ forall ev, ev ∈ evs -> allowed view adapter_base rh (rl_tick s)
         (flag_at view (rl_tick s) hc_RemoteLiveQueryEnabled true) cmds ev
       /\ match ev with REHttp cmd _ => authorised policy cmd | _ => True end.
Proof.
  intros rh.
  assert (HS : safe (rl_tick s) (allowed view adapter_base rh (rl_tick s)
      (flag_at view (rl_tick s) hc_RemoteLiveQueryEnabled true) cmds)
    (ProcessCommands view network probe adapter_base marshal unmarshal valid_request text rh cmds)).
  { unfold ProcessCommands. destruct cmds as [|c cs]; [apply safe_ret|].
    apply safe_observe. intros n Hn. apply safe_bind; [|intros; apply postResults_safe].
    apply process_safe; [done|]. intros E. by exists n. }
  destruct (HS s (le_n _)) as (_ & evs & He & Hall). exists evs. split; [done|].
  intros ev Hin. rewrite Forall_forall in Hall. pose proof (Hall _ Hin) as Ha.
  split; [done|]. destruct ev; try done. destruct Ha as (_ & _ & Hg & _).
  by eapply gate_authorised.
Qed.

