(* ===== verification/Updater.v ===== *)
(** Signed self-update ([src/updater.go], [src/update_pubkey.go]): version
    comparison, update policies, the canonical form of a manifest, signature and
    hash verification, staging, activation, health confirmation and rollback. *)
From S2P Require Import Prelude GoStrings GoTime Types Interfaces Store Worker.
From Stdlib Require Import Strings.Byte Ascii.

Local Open Scope Z_scope.

(** ** Versions *)

Definition semver : Type := (Z * Z * Z)%type.

Definition parseSemverComponents (v : string) : result string semver :=
  match SplitN (TrimPrefix v "v") "." 3 with
  | [a; b; c] =>
      match Atoi a, Atoi b, Atoi (default "" (head (SplitN c "-" 2))) with
      | Some x, Some y, Some z => Ok (x, y, z)
      | _, _, _ => Err "invalid syntax"
      end
  | _ => Err ("invalid semver: " +:+ v)
  end.

Definition semverGreaterThan (a b : semver) : bool :=
  let '(aMaj, aMin, aPat) := a in
  let '(bMaj, bMin, bPat) := b in
  if negb (aMaj =? bMaj) then bMaj <? aMaj
  else if negb (aMin =? bMin) then bMin <? aMin
  else bPat <? aPat.
Definition semverGreaterOrEqual (a b : semver) : bool :=
  let '(aMaj, aMin, aPat) := a in
  let '(bMaj, bMin, bPat) := b in
  if negb (aMaj =? bMaj) then bMaj <? aMaj
  else if negb (aMin =? bMin) then bMin <? aMin
  else bPat <=? aPat.

(** ** Policies *)

Definition UpdatePolicyNone : string := "none".
Definition UpdatePolicySecurity : string := "security".
Definition UpdatePolicyStable : string := "stable".
Definition UpdatePolicyBeta : string := "beta".
Definition IsValidUpdatePolicy (p : string) : bool :=
  String.eqb p UpdatePolicyNone || String.eqb p UpdatePolicySecurity
  || String.eqb p UpdatePolicyStable || String.eqb p UpdatePolicyBeta.

Definition PolicyAllowsChannel (policy channel : string) : bool :=
  if String.eqb policy UpdatePolicyNone then false
  else if String.eqb policy UpdatePolicySecurity then String.eqb channel "security"
  else if String.eqb policy UpdatePolicyStable then
    String.eqb channel "security" || String.eqb channel "stable"
  else String.eqb policy UpdatePolicyBeta.

(** ** Manifests *)

Record SignedUpdateManifest : Type := {
  mf_SchemaVersion : Z;
  mf_Version : string;
  mf_Channel : string;
  mf_Platform : string;
  mf_Arch : string;
  mf_MinHostVersion : string;
  mf_ArtifactURL : string;
  mf_ArtifactName : string;
  mf_ArtifactSize : Z;
  mf_SHA256 : string;
  mf_Signature : string;
  mf_KeyID : string;
  mf_ReleasedAt : string;
  mf_ReleaseNotes : string;
}.

(** The escaped form of one byte of a string in JSON, or the byte itself. *)
Definition json_escape (c : ascii) : list ascii :=
  let n := byte_of c in
  if n =? 34 then [chr 92; chr 34]
  else if n =? 92 then [chr 92; chr 92]
  else if n =? 8 then bytes "\b" else if n =? 12 then bytes "\f"
  else if n =? 10 then bytes "\n" else if n =? 13 then bytes "\r"
  else if n =? 9 then bytes "\t"
  else if (n <? 32) || (n =? 60) || (n =? 62) || (n =? 38) then bytes "\u00" ++ hex_byte n
  else [c].

(** [json.Marshal] on a string of valid UTF-8, which is what decoding JSON
    yields.  The separators U+2028 and U+2029 are three bytes long. *)
Fixpoint json_body (l : list ascii) : list ascii :=
  match l with
  | [] => []
  | c :: rest =>
      match rest with
      | d :: e :: rest' =>
          if (byte_of c =? 226) && (byte_of d =? 128) && ((byte_of e =? 168) || (byte_of e =? 169))
          then bytes "\u202" ++ [hex_digit (byte_of e - 160)] ++ json_body rest'
          else json_escape c ++ json_body rest
      | _ => json_escape c ++ json_body rest
      end
  end.
Definition jsonQuote (s : string) : string := str ([chr 34] ++ json_body (bytes s) ++ [chr 34]).

(** A member of the canonical object, [pre] being the brace or comma before. *)
Definition member (pre key text : string) : string :=
  pre +:+ str [chr 34] +:+ key +:+ str [chr 34] +:+ ":" +:+ text.
Definition CanonicalBytes (m : SignedUpdateManifest) : string :=
  member "{" "arch" (jsonQuote (mf_Arch m))
  +:+ member "," "artifact_name" (jsonQuote (mf_ArtifactName m))
  +:+ member "," "artifact_size" (pretty (mf_ArtifactSize m))
  +:+ member "," "artifact_url" (jsonQuote (mf_ArtifactURL m))
  +:+ member "," "channel" (jsonQuote (mf_Channel m))
  +:+ member "," "min_host_version" (jsonQuote (mf_MinHostVersion m))
  +:+ member "," "platform" (jsonQuote (mf_Platform m))
  +:+ member "," "schema_version" (pretty (mf_SchemaVersion m))
  +:+ member "," "sha256" (jsonQuote (mf_SHA256 m))
  +:+ member "," "version" (jsonQuote (mf_Version m))
  +:+ "}".

(** ** State *)

Record StagedUpdateState : Type := {
  su_CandidateVersion : string;
  su_CandidatePath : string;
  su_CandidateSHA256 : string;
  su_StagedAt : string;
  su_PreviousVersion : string;
  su_PreviousPath : string;
  su_RollbackCount : Z;
  su_HealthDeadline : string;
  su_Confirmed : bool;
  su_LastCheckAt : string;
  su_LastUpdateAt : string;
  su_LastRollbackAt : string;
  su_LastError : string;
  su_ConsecutiveFails : Z;
}.
Definition zeroStaged : StagedUpdateState :=
  Build_StagedUpdateState "" "" "" "" "" "" 0 "" false "" "" "" "" 0.

Definition healthCheckTimeout : Duration := 60 * Second.
Definition maxConsecutiveFails : Z := 3.
Definition updateStateFile : string := "update_state.json.enc".

(** [um_clock] is the clock at the [um_tick]-th reading. *)
Record UpdateManager : Type := {
  um_publicKeys : gmap string buf;
  um_disabled : bool;
  um_state : StagedUpdateState;
  um_store : Store;
  um_clock : nat -> GoTime;
  um_tick : nat;
}.
Definition set_um_state (st : StagedUpdateState) (u : UpdateManager) : UpdateManager :=
  Build_UpdateManager (um_publicKeys u) (um_disabled u) st (um_store u) (um_clock u) (um_tick u).
Definition set_um_store (s : Store) (u : UpdateManager) : UpdateManager :=
  Build_UpdateManager (um_publicKeys u) (um_disabled u) (um_state u) s (um_clock u) (um_tick u).
Definition um_next (u : UpdateManager) : UpdateManager :=
  Build_UpdateManager (um_publicKeys u) (um_disabled u) (um_state u) (um_store u) (um_clock u)
    (S (um_tick u)).

(** Field updates of the persisted state. *)
Definition su_failed (msg : string) (s : StagedUpdateState) : StagedUpdateState :=
  Build_StagedUpdateState (su_CandidateVersion s) (su_CandidatePath s) (su_CandidateSHA256 s)
    (su_StagedAt s) (su_PreviousVersion s) (su_PreviousPath s) (su_RollbackCount s)
    (su_HealthDeadline s) (su_Confirmed s) (su_LastCheckAt s) (su_LastUpdateAt s)
    (su_LastRollbackAt s) msg (wrap64 (su_ConsecutiveFails s + 1)).
Definition su_checked (at_ : string) (s : StagedUpdateState) : StagedUpdateState :=
  Build_StagedUpdateState (su_CandidateVersion s) (su_CandidatePath s) (su_CandidateSHA256 s)
    (su_StagedAt s) (su_PreviousVersion s) (su_PreviousPath s) (su_RollbackCount s)
    (su_HealthDeadline s) (su_Confirmed s) at_ (su_LastUpdateAt s)
    (su_LastRollbackAt s) (su_LastError s) (su_ConsecutiveFails s).
Definition su_staged (version path sha at_ : string) (s : StagedUpdateState) : StagedUpdateState :=
  Build_StagedUpdateState version path sha at_ (su_PreviousVersion s) (su_PreviousPath s)
    (su_RollbackCount s) (su_HealthDeadline s) (su_Confirmed s) (su_LastCheckAt s)
    (su_LastUpdateAt s) (su_LastRollbackAt s) (su_LastError s) (su_ConsecutiveFails s).
Definition su_previous (version path : string) (s : StagedUpdateState) : StagedUpdateState :=
  Build_StagedUpdateState (su_CandidateVersion s) (su_CandidatePath s) (su_CandidateSHA256 s)
    (su_StagedAt s) version path (su_RollbackCount s)
    (su_HealthDeadline s) (su_Confirmed s) (su_LastCheckAt s) (su_LastUpdateAt s)
    (su_LastRollbackAt s) (su_LastError s) (su_ConsecutiveFails s).
Definition su_applied (deadline at_ : string) (s : StagedUpdateState) : StagedUpdateState :=
  Build_StagedUpdateState (su_CandidateVersion s) (su_CandidatePath s) (su_CandidateSHA256 s)
    (su_StagedAt s) (su_PreviousVersion s) (su_PreviousPath s) (su_RollbackCount s)
    deadline false (su_LastCheckAt s) at_
    (su_LastRollbackAt s) (su_LastError s) (su_ConsecutiveFails s).
Definition su_confirmed (s : StagedUpdateState) : StagedUpdateState :=
  Build_StagedUpdateState "" "" "" (su_StagedAt s) (su_PreviousVersion s) (su_PreviousPath s)
    (su_RollbackCount s) (su_HealthDeadline s) true (su_LastCheckAt s) (su_LastUpdateAt s)
    (su_LastRollbackAt s) "" 0.
Definition su_rolled_back (at_ : string) (s : StagedUpdateState) : StagedUpdateState :=
  Build_StagedUpdateState "" "" (su_CandidateSHA256 s)
    (su_StagedAt s) (su_PreviousVersion s) (su_PreviousPath s) (wrap64 (su_RollbackCount s + 1))
    "" (su_Confirmed s) (su_LastCheckAt s) (su_LastUpdateAt s)
    at_ (su_LastError s) (wrap64 (su_ConsecutiveFails s + 1)).

(** ** File helpers *)

(** [os.Chmod]; modes are not modelled. *)
Definition Chmod (path : string) (f : FS) : bool * FS :=
  (match next_io f, fs_files f !! path with IoOk, Some _ => true | _, _ => false end, tick f).

(** Opening with truncation and copying: a copy that fails midway leaves a
    prefix. *)
Definition copyFile (src dst : string) (f : FS) : result string unit * FS :=
  match ReadFile src f with
  | ReadOk b => let '(ok, f1) := WriteFile dst b f in
                (if ok : bool then Ok tt else Err "copy", f1)
  | _ => (Err "open", f)
  end.

Definition old_path (p : string) : string := p +:+ ".old".
Definition replaceFile (src dst : string) (f : FS) : result string unit * FS :=
  let tmpDst := old_path dst in
  let missing := negb (bool_decide (is_Some (fs_files f !! dst))) in
  let '(moved, f1) := Rename dst tmpDst f in
  if negb moved && negb missing then (Err "move current binary", f1)
  else
    match copyFile src dst f1 with
    | (Err e, f2) => (Err ("copy new binary: " +:+ e), snd (Rename tmpDst dst f2))
    | (Ok _, f2) => (Ok tt, snd (Remove tmpDst (snd (Chmod dst f2))))
    end.

(** [filepath.Join(configDir, ...)], for plain names. *)
Definition staged_path (name : string) : string := "staged/" +:+ name.
Definition rollback_path : string := "rollback/filterrex-connector-" +:+ HostVersion.

(** ** The manager *)

(** What a download yields: an error, or a status and a body that may break
    off. *)
Inductive download : Type :=
| DownloadError (e : string)
| DownloadResponse (status : Z) (body : buf).

Section Updater.
Context (gcm_seal : buf -> buf -> buf -> buf) (gcm_open : buf -> buf -> buf -> option buf).
Context (marshal_update : StagedUpdateState -> buf).
(** Decoding into the state the manager starts with. *)
Context (unmarshal_update : buf -> StagedUpdateState).
Context (b64_decode : string -> option buf) (sha256 : buf -> buf).
(** [ed25519.Verify]. *)
Context (ed25519_verify : buf -> string -> buf -> bool).
(** [os.Executable]. *)
Context (executable : option string).

Definition ed25519_PublicKeySize : nat := 32.
Definition ed25519_SignatureSize : nat := 64.
Definition placeholder : string := "FILTERREX_UPDATE_SIGNING_KEY_PLACEHOLDER".
Definition real_key (k : string) : bool := negb (String.eqb k "") && negb (String.eqb k placeholder).

Definition UpdatePublicKeys : gmap string string := {["primary" := placeholder]}.
Definition IsUpdateKeyConfigured (keys : gmap string string) : bool :=
  existsb (fun '(_, v) => real_key v) (map_to_list keys).

(** The loop over the configured keys. *)
Fixpoint parse_keys (l : list (string * string)) (acc : gmap string buf)
    : result string (gmap string buf) :=
  match l with
  | [] => Ok acc
  | (id, k) :: rest =>
      if negb (real_key k) then parse_keys rest acc
      else match b64_decode k with
           | None => Err ("decode update public key " +:+ Quote id)
           | Some b => if (length b =? ed25519_PublicKeySize)%nat
                       then parse_keys rest (<[id := b]> acc)
                       else Err ("update public key " +:+ Quote id +:+ " wrong size: " +:+ pretty (Z.of_nat (length b))
                                 +:+ " (expected 32)")
           end
  end.

Definition loadState (s : Store) : StagedUpdateState :=
  match ReadFile updateStateFile (so_fs s) with
  | ReadOk data => match decrypt gcm_open data s with
                   | Ok p => unmarshal_update p
                   | Err _ => zeroStaged
                   end
  | _ => zeroStaged
  end.

Definition NewUpdateManager (keys : gmap string string) (s : Store) (clock : nat -> GoTime)
    : result string UpdateManager :=
  if negb (IsUpdateKeyConfigured keys) then
    Ok (Build_UpdateManager ∅ true (loadState s) s clock 0)
  else match parse_keys (map_to_list keys) ∅ with
       | Err e => Err e
       | Ok ks => Ok (Build_UpdateManager ks (bool_decide (ks = ∅)) (loadState s) s clock 0)
       end.

(** *** Verification *)

Definition key_id (m : SignedUpdateManifest) : string :=
  if String.eqb (mf_KeyID m) "" then "primary" else mf_KeyID m.

Definition VerifyManifest (u : UpdateManager) (m : SignedUpdateManifest) : result string unit :=
  if um_disabled u || bool_decide (um_publicKeys u = ∅) then
    Err "no update signing keys configured — updates disabled"
  else match um_publicKeys u !! key_id m with
  | None => Err ("unknown key_id " +:+ Quote (key_id m) +:+ " — manifest not verifiable")
  | Some pub =>
      if String.eqb (mf_Signature m) "" then Err "manifest has no signature"
      else match b64_decode (mf_Signature m) with
      | None => Err "decode signature"
      | Some sig =>
          if negb (length sig =? ed25519_SignatureSize)%nat then Err ("invalid signature length: " +:+ pretty (Z.of_nat (length sig)))
          else if ed25519_verify pub (CanonicalBytes m) sig then Ok tt
          else Err "signature verification FAILED — manifest is not trusted"
      end
  end.

Definition VerifyArtifact (path expected : string) (f : FS) : result string unit :=
  match ReadFile path f with
  | ReadOk b => if String.eqb (hex (sha256 b)) expected then Ok tt else Err ("SHA-256 mismatch: expected " +:+ expected +:+ ", got " +:+ hex (sha256 b))
  | _ => Err "open artifact"
  end.

(** *** Effects *)

Definition um_now : M UpdateManager GoTime :=
  t ← gets (fun u => um_clock u (um_tick u)); modify um_next ;; mret t.
Definition stamp : M UpdateManager string := t ← um_now; mret (FormatRFC3339 t).
Definition files {A} (op : FS -> A * FS) : M UpdateManager A := fun u =>
  let '(a, f) := op (so_fs (um_store u)) in
  (a, set_um_store (Build_Store (so_key (um_store u)) f) u).
Definition on_state (g : StagedUpdateState -> StagedUpdateState) : M UpdateManager unit :=
  modify (fun u => set_um_state (g (um_state u)) u).

Definition saveState : M UpdateManager unit := fun u =>
  let '(c, s1) := encrypt gcm_seal (marshal_update (um_state u)) (um_store u) in
  let '(ok, f1) := WriteFile (tmp_path updateStateFile) c (so_fs s1) in
  let f2 := if ok : bool then snd (Rename (tmp_path updateStateFile) updateStateFile f1) else f1 in
  (tt, set_um_store (Build_Store (so_key s1) f2) u).

Definition downloadArtifact (d : download) (dest : string) : M UpdateManager (result string unit) :=
  match d with
  | DownloadError e => mret (Err ("download: " +:+ e))
  | DownloadResponse status body =>
      if negb (status =? 200) then mret (Err ("download failed: HTTP " +:+ pretty status))
      else
        let tmp := dest +:+ ".download" in
        io ← gets (fun u => next_io (so_fs (um_store u)));
        ok ← files (WriteFile tmp body);
        if negb ok then
          match io with
          | IoPartial _ => files (Remove tmp) ;; mret (Err "write artifact")
          | _ => mret (Err "create temp file")
          end
        else moved ← files (Rename tmp dest);
             mret (if moved : bool then Ok tt else Err "rename")
  end.

(** *** Operations *)

Definition CheckForUpdate (policy token : string)
    (fetch : result string (option SignedUpdateManifest))
    : M UpdateManager (result string (option SignedUpdateManifest)) :=
  u ← gets id;
  if String.eqb policy UpdatePolicyNone then mret (Ok None)
  else if um_disabled u then mret (Ok None)
  else if maxConsecutiveFails <=? su_ConsecutiveFails (um_state u) then
    mret (Err "update checks suspended after 3 consecutive failures")
  else
    at_ ← stamp; on_state (su_checked at_) ;; saveState ;;
    if String.eqb token "" then mret (Err "no connector token for update check")
    else mret
      match fetch with
      | Err e => Err ("fetch update manifest: " +:+ e)
      | Ok None => Ok None
      | Ok (Some m) =>
          if negb (PolicyAllowsChannel policy (mf_Channel m)) then Ok None
          else if negb (String.eqb (mf_KeyID m) "")
                  && negb (bool_decide (is_Some (um_publicKeys u !! mf_KeyID m))) then
            Err ("unknown key_id " +:+ Quote (mf_KeyID m) +:+ " in manifest")
          else if negb (String.eqb (mf_MinHostVersion m) "")
                  && match parseSemverComponents (mf_MinHostVersion m),
                           parseSemverComponents HostVersion with
                     | Ok min, Ok cur => negb (semverGreaterOrEqual cur min)
                     | _, _ => false
                     end then Err ("update " +:+ mf_Version m +:+ " requires host >= " +:+ mf_MinHostVersion m
                              +:+ " (current: " +:+ HostVersion +:+ ")")
          else match parseSemverComponents (mf_Version m) with
               | Err e => Err ("parse manifest version: " +:+ e)
               | Ok v => match parseSemverComponents HostVersion with
                         | Err e => Err ("parse host version: " +:+ e)
                         | Ok cur => if semverGreaterThan v cur then Ok (Some m) else Ok None
                         end
               end
      end.

(** Recording a failure in the state and returning it. *)
Definition stage_failed (recorded returned : string) : M UpdateManager (result string unit) :=
  on_state (su_failed recorded) ;; saveState ;; mret (Err returned).

Definition StageUpdate (m : SignedUpdateManifest) (d : download)
    : M UpdateManager (result string unit) :=
  v ← gets (fun u => VerifyManifest u m);
  match v with
  | Err e => stage_failed ("manifest verification failed: " +:+ e) ("manifest verification: " +:+ e)
  | Ok _ =>
      let path := staged_path (mf_ArtifactName m) in
      dl ← downloadArtifact d path;
      match dl with
      | Err e => stage_failed ("download failed: " +:+ e) ("download artifact: " +:+ e)
      | Ok _ =>
          h ← gets (fun u => VerifyArtifact path (mf_SHA256 m) (so_fs (um_store u)));
          match h with
          | Err e => files (Remove path) ;;
                     stage_failed ("hash verification failed: " +:+ e) ("artifact verification: " +:+ e)
          | Ok _ =>
              ok ← files (Chmod path);
              if negb ok then files (Remove path) ;; mret (Err "chmod staged binary")
              else
                at_ ← stamp;
                on_state (su_staged (mf_Version m) path (mf_SHA256 m) at_) ;;
                saveState ;;
                mret (Ok tt)
          end
      end
  end.

Definition ApplyUpdate : M UpdateManager (result string unit) :=
  st ← gets um_state;
  if String.eqb (su_CandidatePath st) "" then mret (Err "no staged update to apply")
  else
    v ← gets (fun u => VerifyArtifact (su_CandidatePath st) (su_CandidateSHA256 st)
                         (so_fs (um_store u)));
    match v with
    | Err e => mret (Err ("staged artifact re-verification failed (possible tampering): " +:+ e))
    | Ok _ =>
        match executable with
        | None => mret (Err "get current binary path")
        | Some exe =>
            saved ← files (copyFile exe rollback_path);
            (match saved with
             | Ok _ => files (Chmod rollback_path) ;; on_state (su_previous HostVersion rollback_path)
             | Err _ => mret tt
             end) ;;
            r ← files (replaceFile (su_CandidatePath st) exe);
            match r with
            | Err e => mret (Err ("replace binary: " +:+ e))
            | Ok _ =>
                t ← um_now; at_ ← stamp;
                on_state (su_applied (FormatRFC3339 (t + healthCheckTimeout)) at_) ;;
                saveState ;;
                mret (Ok tt)
            end
        end
    end.

Definition ConfirmHealth : M UpdateManager unit :=
  st ← gets um_state;
  if String.eqb (su_HealthDeadline st) "" || su_Confirmed st then mret tt
  else on_state su_confirmed ;; saveState.

Definition CheckRollbackNeeded : M UpdateManager bool :=
  st ← gets um_state;
  if String.eqb (su_HealthDeadline st) "" || su_Confirmed st then mret false
  else match ParseRFC3339 (su_HealthDeadline st) with
       | None => mret false
       | Some deadline => t ← um_now; mret (After t deadline)
       end.

Definition Rollback : M UpdateManager (result string unit) :=
  st ← gets um_state;
  if String.eqb (su_PreviousPath st) "" then mret (Err "no previous version available for rollback")
  else match executable with
  | None => mret (Err "get current binary")
  | Some exe =>
      present ← gets (fun u => bool_decide (is_Some (fs_files (so_fs (um_store u)) !! su_PreviousPath st)));
      if negb present then mret (Err "rollback binary not found")
      else
        r ← files (replaceFile (su_PreviousPath st) exe);
        match r with
        | Err e => mret (Err ("rollback replace failed: " +:+ e))
        | Ok _ => at_ ← stamp; on_state (su_rolled_back at_) ;; saveState ;; mret (Ok tt)
        end
  end.

(** What [main] does with the manager at start. *)
Definition startup : M UpdateManager unit :=
  needed ← CheckRollbackNeeded;
  if needed : bool then Rollback ;; mret tt else ConfirmHealth.

(** A tick of the update checks: a manifest that is found is staged. *)
Definition update_tick (policy token : string) (fetch : result string (option SignedUpdateManifest)) (d : download)
    : M UpdateManager unit :=
  found ← CheckForUpdate policy token fetch;
  match found with
  | Ok (Some m) => StageUpdate m d ;; mret tt
  | _ => mret tt
  end.
End Updater.
