(* ===== verification/UpdaterProps.v ===== *)
(** Properties of the self-update: the signature covers every field an update
    depends on, only signed artifacts are installed, and an installed update can
    be rolled back. *)
From S2P Require Import Prelude GoStrings GoTime Types Interfaces Store Worker Updater.
From Stdlib Require Import Strings.Byte Ascii.

Local Open Scope Z_scope.

(** ** The canonical form *)

(** Reading back one unit of a JSON string: the bytes it stands for, and the
    rest of the text. *)
Definition unhex (c : ascii) : Z :=
  let n := byte_of c in if n <? 58 then n - 48 else n - 87.
Definition byte_chr (n : Z) : ascii := ascii_of_N (Z.to_N n).
Definition unescape (l : list ascii) : option (list ascii * list ascii) :=
  match l with
  | [] => None
  | c :: rest =>
      if byte_of c =? 92 then
        match rest with
        | d :: rest' =>
            let n := byte_of d in
            if n =? 98 then Some ([chr 8], rest') else if n =? 102 then Some ([chr 12], rest')
            else if n =? 110 then Some ([chr 10], rest')
            else if n =? 114 then Some ([chr 13], rest')
            else if n =? 116 then Some ([chr 9], rest')
            else if n =? 117 then
              match rest' with
              | a :: _ :: x :: y :: rest'' =>
                  if unhex a =? 2 then Some ([chr 226; chr 128; byte_chr (160 + unhex y)], rest'')
                  else Some ([byte_chr (16 * unhex x + unhex y)], rest'')
              | _ => None
              end
            else Some ([d], rest')
        | [] => None
        end
      else Some ([c], rest)
  end.

Lemma unescape_escape c x : unescape (json_escape c ++ x) = Some ([c], x).
Proof. by destruct c as [[] [] [] [] [] [] [] []]. Qed.
Lemma escape_head c x r : json_escape c ++ x <> chr 34 :: r.
Proof. by destruct c as [[] [] [] [] [] [] [] []]. Qed.

Definition is_separator (c d e : ascii) : bool :=
  (byte_of c =? 226) && (byte_of d =? 128) && ((byte_of e =? 168) || (byte_of e =? 169)).

Lemma unescape_separator c d e x :
  is_separator c d e = true ->
  unescape (bytes "\u202" ++ [hex_digit (byte_of e - 160)] ++ x) = Some ([c; d; e], x).
Proof.
  unfold is_separator. rewrite !andb_true_iff, orb_true_iff, !Z.eqb_eq.
  intros [[Hc Hd] He].
  rewrite (byte_of_inj c (chr 226) Hc), (byte_of_inj d (chr 128) Hd).
  destruct He as [He|He]; rewrite He.
  - by rewrite (byte_of_inj e (chr 168) He).
  - by rewrite (byte_of_inj e (chr 169) He).
Qed.

(** The body of a non-empty string starts with a unit that reads back as the
    start of the string. *)
Lemma json_body_step c l :
  exists u l' code, c :: l = u ++ l' /\ u <> [] /\ json_body (c :: l) = code ++ json_body l'
    /\ (forall x, unescape (code ++ x) = Some (u, x)) /\ (forall x r, code ++ x <> chr 34 :: r).
Proof.
  destruct l as [|d [|e l]].
  - exists [c], [], (json_escape c). split_and!; [done..|intros; apply unescape_escape|apply escape_head].
  - exists [c], [d], (json_escape c). split_and!; [done..|intros; apply unescape_escape|apply escape_head].
  - cbn [json_body]. fold (is_separator c d e). destruct (is_separator c d e) eqn:E.
    + exists [c; d; e], l, (bytes "\u202" ++ [hex_digit (byte_of e - 160)]).
      split_and!; [done|done|by rewrite <- app_assoc| |done].
      intros x. rewrite <- app_assoc. by apply unescape_separator.
    + exists [c], (d :: e :: l), (json_escape c).
      split_and!; [done..|intros; apply unescape_escape|apply escape_head].
Qed.

Lemma json_body_inj l l' r r' :
  json_body l ++ chr 34 :: r = json_body l' ++ chr 34 :: r' -> l = l' /\ r = r'.
Proof.
  revert l'. remember (length l) as n eqn:Hn. revert l Hn.
  induction (lt_wf n) as [n _ IH]. intros l -> l' H.
  destruct l as [|c l], l' as [|c' l'].
  - by simplify_eq/=.
  - destruct (json_body_step c' l') as (u & k & code & _ & _ & Hb & _ & Hh).
    rewrite Hb, <- app_assoc in H. symmetry in H. by apply Hh in H.
  - destruct (json_body_step c l) as (u & k & code & _ & _ & Hb & _ & Hh).
    rewrite Hb, <- app_assoc in H. by apply Hh in H.
  - destruct (json_body_step c l) as (u & k & code & Hl & Hu & Hb & Hr & _).
    destruct (json_body_step c' l') as (u' & k' & code' & Hl' & Hu' & Hb' & Hr' & _).
    rewrite Hb, Hb', <- !app_assoc in H. apply (f_equal unescape) in H.
    rewrite Hr, Hr' in H. simplify_eq.
    destruct (IH (length k)) with (l := k) (l' := k') as [-> ->]; try done.
    + rewrite Hl, length_app. destruct u'; [done|]. simpl. lia.
    + by rewrite Hl, Hl'.
Qed.

Lemma jsonQuote_inj s s' r r' :
  jsonQuote s +:+ r = jsonQuote s' +:+ r' -> s = s' /\ r = r'.
Proof.
  unfold jsonQuote. intros H. apply (f_equal bytes) in H.
  rewrite !bytes_app, !bytes_str in H. simpl in H. injection H as H.
  rewrite <- !app_assoc in H. simpl in H. apply json_body_inj in H as [H1 H2].
  by split; apply bytes_inj.
Qed.

(** Decimal numbers hold no comma. *)
Lemma pretty_Z_no_comma (z : Z) : ","%char ∉ bytes (pretty z).
Proof.
  assert (HN : forall n : N, ","%char ∉ bytes (pretty n)).
  { intros n Hc. unfold pretty, pretty_N in Hc. destruct (decide (n = 0%N)).
    - by apply list_elem_of_singleton in Hc.
    - apply pretty_N_go_chars in Hc as [Hc|Hc]; [by apply elem_of_nil in Hc|done]. }
  destruct z as [|p|p].
  - intros Hc. by apply list_elem_of_singleton in Hc.
  - apply (HN (Npos p)).
  - intros Hc. apply elem_of_cons in Hc as [Hc|Hc]; [done|]. by apply (HN (Npos p)).
Qed.

Lemma split_at_comma (l l' r r' : list ascii) :
  ","%char ∉ l -> ","%char ∉ l' -> l ++ ","%char :: r = l' ++ ","%char :: r' -> l = l'.
Proof.
  revert l'. induction l as [|x l IH]; intros [|y l'] H H' E; simplify_eq/=; try done.
  - exfalso. apply H'. by left.
  - exfalso. apply H. by left.
  - f_equal. apply IH; [set_solver..|done].
Qed.

Lemma pretty_Z_split (z z' : Z) r r' :
  pretty z +:+ "," +:+ r = pretty z' +:+ "," +:+ r' -> z = z' /\ r = r'.
Proof.
  intros H. pose proof H as H0. apply (f_equal bytes) in H. rewrite !bytes_app in H.
  apply split_at_comma in H; [|apply pretty_Z_no_comma..].
  apply bytes_inj, (inj pretty) in H. subst z'. split; [done|].
  apply (f_equal bytes) in H0. rewrite !bytes_app in H0. apply app_inv_head in H0.
  injection H0 as H0. by apply bytes_inj.
Qed.

Lemma member_inj pre key t t' r r' :
  member pre key t +:+ r = member pre key t' +:+ r' -> t +:+ r = t' +:+ r'.
Proof.
  unfold member. intros H. apply (f_equal bytes) in H. rewrite !bytes_app in H.
  rewrite <- !app_assoc in H. do 5 apply app_inv_head in H. rewrite <- !bytes_app in H.
  by apply bytes_inj.
Qed.
Lemma member_quote_inj pre key s s' r r' :
  member pre key (jsonQuote s) +:+ r = member pre key (jsonQuote s') +:+ r' -> s = s' /\ r = r'.
Proof. intros H%member_inj. by apply jsonQuote_inj. Qed.
Lemma member_number_inj pre key (z z' : Z) key' t t' r r' :
  member pre key (pretty z) +:+ member "," key' t +:+ r
  = member pre key (pretty z') +:+ member "," key' t' +:+ r' ->
  z = z' /\ member "," key' t +:+ r = member "," key' t' +:+ r'.
Proof.
  intros H%member_inj. unfold member in *.
  assert (Ha : forall a b c : string, (a +:+ b) +:+ c = a +:+ b +:+ c)
    by (intros a b c; apply bytes_inj; by rewrite !bytes_app, app_assoc).
  rewrite !Ha in H. rewrite !Ha. apply pretty_Z_split in H as [-> H]. by rewrite H.
Qed.

(** The fields an update decision depends on. *)
Definition signed_fields (m : SignedUpdateManifest) :=
  (mf_Arch m, mf_ArtifactName m, mf_ArtifactSize m, mf_ArtifactURL m, mf_Channel m,
   mf_MinHostVersion m, mf_Platform m, mf_SchemaVersion m, mf_SHA256 m, mf_Version m).

(** C27: a signature binds every field an update depends on.  Two manifests have
    the same canonical bytes, and so the same valid signatures, exactly when they
    agree on architecture, artifact name, size and address, channel, minimal
    host version, platform, schema version, hash and version. *)
Theorem canonical_injective (m m' : SignedUpdateManifest) :
  CanonicalBytes m = CanonicalBytes m' <-> signed_fields m = signed_fields m'.
Proof.
  split.
  - unfold CanonicalBytes, signed_fields. intros H.
    apply member_quote_inj in H as [-> H]. apply member_quote_inj in H as [-> H].
    apply member_number_inj in H as [-> H]. apply member_quote_inj in H as [-> H].
    apply member_quote_inj in H as [-> H]. apply member_quote_inj in H as [-> H].
    apply member_quote_inj in H as [-> H]. apply member_number_inj in H as [-> H].
    apply member_quote_inj in H as [-> H]. apply member_quote_inj in H as [-> _]. done.
  - unfold CanonicalBytes, signed_fields. intros H. injection H as -> -> -> -> -> -> -> -> -> ->.
    done.
Qed.

(** ** Files *)

Definition um_files (u : UpdateManager) : gmap string buf := fs_files (so_fs (um_store u)).
Definition absolute (p : string) : Prop := exists s, p = String "/" s.

Lemma WriteFile_other p b f q : q <> p -> fs_files (snd (WriteFile p b f)) !! q = fs_files f !! q.
Proof. intros H. unfold WriteFile. destruct (next_io f); simpl; by rewrite ?lookup_insert_ne. Qed.
Lemma Rename_other p p' f q :
  q <> p -> q <> p' -> fs_files (snd (Rename p p' f)) !! q = fs_files f !! q.
Proof.
  intros H H'. unfold Rename. destruct (next_io f), (fs_files f !! p); simpl; try done.
  by rewrite lookup_insert_ne, lookup_delete_ne.
Qed.
Lemma Remove_other p f q : q <> p -> fs_files (snd (Remove p f)) !! q = fs_files f !! q.
Proof.
  intros H. unfold Remove. destruct (next_io f); simpl; try done.
  destruct (fs_files f !! p); simpl; [by rewrite lookup_delete_ne|done].
Qed.
Lemma Chmod_files p f : fs_files (snd (Chmod p f)) = fs_files f.
Proof. done. Qed.

Lemma copyFile_spec src dst f :
  (forall q, q <> dst -> fs_files (snd (copyFile src dst f)) !! q = fs_files f !! q)
  /\ (is_ok (fst (copyFile src dst f)) = true ->
      is_Some (fs_files f !! src) /\ fs_files (snd (copyFile src dst f)) !! dst = fs_files f !! src).
Proof.
  unfold copyFile, ReadFile. destruct (fs_readable f); [|done].
  destruct (fs_files f !! src) as [b|] eqn:E; [|done]. split.
  - intros q Hq. rewrite <- (WriteFile_other dst b f q Hq). by destruct (WriteFile dst b f).
  - unfold WriteFile. destruct (next_io f); simpl; try done. intros _.
    split; [by eexists|by rewrite lookup_insert_eq].
Qed.

Lemma old_path_ne p : old_path p <> p.
Proof.
  unfold old_path. intros H. apply (f_equal bytes), (f_equal length) in H.
  rewrite bytes_app, length_app in H. simpl in H. lia.
Qed.

(** Replacing a file: on success the destination has the contents of the source
    and nothing else changed; on failure the old contents are back in place or
    still under the [.old] name. *)
Lemma replaceFile_spec src dst f :
  src <> dst -> src <> old_path dst ->
  match replaceFile src dst f with
  | (Ok _, f') => is_Some (fs_files f !! src) /\ fs_files f' !! dst = fs_files f !! src
      /\ forall q, q <> dst -> q <> old_path dst -> fs_files f' !! q = fs_files f !! q
  | (Err _, f') => forall b, fs_files f !! dst = Some b ->
      fs_files f' !! dst = Some b \/ fs_files f' !! old_path dst = Some b
  end.
Proof.
  intros H1 H2. pose proof (old_path_ne dst) as Hne. unfold replaceFile.
  pose proof (Rename_other dst (old_path dst) f) as Hro.
  assert (Hmv : fst (Rename dst (old_path dst) f) = true ->
    fs_files (snd (Rename dst (old_path dst) f)) !! old_path dst = fs_files f !! dst).
  { unfold Rename. destruct (next_io f), (fs_files f !! dst); simpl; try done.
    by rewrite lookup_insert_eq. }
  assert (Hst : fst (Rename dst (old_path dst) f) = false ->
    fs_files (snd (Rename dst (old_path dst) f)) = fs_files f).
  { unfold Rename. by destruct (next_io f), (fs_files f !! dst). }
  destruct (Rename dst (old_path dst) f) as [moved f1]. simpl in *.
  destruct (negb moved && _) eqn:Em.
  { intros b Hb. left. destruct moved; [done|]. by rewrite Hst. }
  destruct (copyFile_spec src dst f1) as [C1 C2].
  destruct (copyFile src dst f1) as [[[]|e] f2]; simpl in *.
  - destruct (C2 eq_refl) as [C3 C4]. rewrite Hro in C3 by done.
    assert (Hrm : forall q, q <> old_path dst ->
      fs_files (snd (Remove (old_path dst) (tick f2))) !! q = fs_files f2 !! q)
      by (intros q Hq; rewrite Remove_other; done).
    split_and!; [done| |].
    + rewrite Hrm by done. by rewrite C4, Hro.
    + intros q Hq Hq'. rewrite Hrm, C1, Hro; done.
  - intros b Hb. destruct moved.
    + assert (Ho : fs_files f2 !! old_path dst = Some b) by (rewrite C1, Hmv; done).
      unfold Rename. rewrite Ho. destruct (next_io f2); simpl; [left|by right..].
      by rewrite lookup_insert_eq.
    + rewrite bool_decide_eq_true_2 in Em by (rewrite Hb; by eexists). done.
Qed.

Section Manager.
Context (gcm_seal : buf -> buf -> buf -> buf).
Context (marshal_update : StagedUpdateState -> buf).
Context (b64_decode : string -> option buf) (sha256 : buf -> buf).
Context (ed25519_verify : buf -> string -> buf -> bool).
Context (executable : option string).

Abbreviation save := (saveState gcm_seal marshal_update) (only parsing).
Abbreviation stage := (StageUpdate gcm_seal marshal_update b64_decode sha256 ed25519_verify)
  (only parsing).
Abbreviation apply_update := (ApplyUpdate gcm_seal marshal_update sha256 executable)
  (only parsing).
Abbreviation rollback := (Rollback gcm_seal marshal_update executable) (only parsing).
Abbreviation confirm := (ConfirmHealth gcm_seal marshal_update) (only parsing).
Abbreviation check := (CheckForUpdate gcm_seal marshal_update) (only parsing).

(** Some configured key verifies the signature of the manifest. *)
Definition signed_by (keys : gmap string buf) (m : SignedUpdateManifest) : Prop :=
  exists pub sig, keys !! key_id m = Some pub /\ b64_decode (mf_Signature m) = Some sig
    /\ length sig = ed25519_SignatureSize /\ ed25519_verify pub (CanonicalBytes m) sig = true.

Lemma VerifyManifest_signed u m :
  VerifyManifest b64_decode ed25519_verify u m = Ok tt ->
  um_disabled u = false /\ signed_by (um_publicKeys u) m.
Proof.
  unfold VerifyManifest. destruct (um_disabled u); [done|]. simpl.
  case_bool_decide; [done|]. destruct (um_publicKeys u !! key_id m) as [pub|] eqn:E1; [|done].
  destruct (String.eqb _ _); [done|]. destruct (b64_decode _) as [sig|] eqn:E2; [|done].
  destruct (Nat.eqb_spec (length sig) ed25519_SignatureSize); simpl; [|done].
  destruct (ed25519_verify _ _ _) eqn:E3; [|done]. intros _. split; [done|]. by exists pub, sig.
Qed.

(** A file the manager's own bookkeeping does not touch. *)
Definition foreign (q : string) : Prop := q <> updateStateFile /\ q <> tmp_path updateStateFile.

Lemma absolute_foreign q : absolute q -> foreign q.
Proof. intros [s ->]. done. Qed.

(** What saving the state leaves alone. *)
Lemma save_frame u :
  um_publicKeys (exec save u) = um_publicKeys u /\ um_disabled (exec save u) = um_disabled u
  /\ um_state (exec save u) = um_state u
  /\ forall q, foreign q -> um_files (exec save u) !! q = um_files u !! q.
Proof.
  unfold exec, saveState, encrypt, um_files. simpl.
  set (c := _ ++ _). set (f := tick _).
  pose proof (WriteFile_other (tmp_path updateStateFile) c f) as Hw.
  destruct (WriteFile _ c f) as [ok f1]. simpl in *. split_and!; try done.
  intros q [H1 H2]. destruct ok; [rewrite Rename_other by done|]; rewrite Hw; done.
Qed.

(** The keys never change, and neither does whether updates are disabled. *)
Definition same_keys (u u' : UpdateManager) : Prop :=
  um_publicKeys u' = um_publicKeys u /\ um_disabled u' = um_disabled u.
#[local] Instance same_keys_preorder : PreOrder same_keys.
Proof. split; unfold Reflexive, Transitive, same_keys; intuition congruence. Qed.

Lemma files_keys {A} (op : FS -> A * FS) : keeps same_keys (files op).
Proof. intros u. unfold files, exec. by destruct (op _). Qed.
Lemma save_keys : keeps same_keys save.
Proof. intros u. destruct (save_frame u) as (? & ? & _). done. Qed.
Lemma state_keys g : keeps same_keys (on_state g).
Proof. by apply keeps_modify. Qed.
Lemma stamp_keys : keeps same_keys stamp.
Proof. done. Qed.

(** The candidate of the state comes from a signed manifest. *)
Definition candidate_ok (u : UpdateManager) : Prop :=
  let st := um_state u in
  su_CandidatePath st <> "" ->
  exists m, signed_by (um_publicKeys u) m /\ su_CandidateSHA256 st = mf_SHA256 m
    /\ su_CandidateVersion st = mf_Version m
    /\ su_CandidatePath st = staged_path (mf_ArtifactName m).

(** A step that keeps the keys, and the candidate or clears its path. *)
Definition keeps_candidate (u u' : UpdateManager) : Prop :=
  same_keys u u' /\ (candidate_ok u -> candidate_ok u').
#[local] Instance keeps_candidate_preorder : PreOrder keeps_candidate.
Proof.
  split; unfold Reflexive, Transitive, keeps_candidate; [by split|].
  intros x y z [H1 H2] [H3 H4]. split; [by etransitivity|tauto].
Qed.

Lemma files_candidate {A} (op : FS -> A * FS) : keeps keeps_candidate (files op).
Proof.
  intros u. split; [apply files_keys|]. unfold files, exec, candidate_ok. by destruct (op _).
Qed.
Lemma save_candidate : keeps keeps_candidate save.
Proof.
  intros u. destruct (save_frame u) as (H1 & H2 & H3 & _). split; [by split|].
  unfold candidate_ok. by rewrite H1, H3.
Qed.
Lemma state_candidate g :
  (forall s, su_CandidatePath (g s) = su_CandidatePath s
    /\ su_CandidateSHA256 (g s) = su_CandidateSHA256 s
    /\ su_CandidateVersion (g s) = su_CandidateVersion s \/ su_CandidatePath (g s) = "") ->
  keeps keeps_candidate (on_state g).
Proof.
  intros Hg. apply keeps_modify. intros u. split; [done|]. unfold candidate_ok. simpl.
  destruct (Hg (um_state u)) as [(-> & -> & ->)| ->]; done.
Qed.
Lemma now_candidate : keeps keeps_candidate um_now.
Proof. intros u. by split. Qed.
Lemma stamp_candidate : keeps keeps_candidate stamp.
Proof. intros u. by split. Qed.

(** Walks through an operation whose pieces keep the candidate. *)
Ltac candidate_steps :=
  repeat first
    [ apply files_candidate | apply save_candidate | apply now_candidate | apply stamp_candidate
    | apply state_candidate; intros ?; first [by left|by right]
    | apply keeps_ret; apply _ | apply keeps_gets; apply _
    | apply keeps_bind; [apply _| |intros ?]
    | match goal with |- keeps _ (if ?b then _ else _) => destruct b end
    | match goal with |- keeps _ (match ?x with _ => _ end) => destruct x end ].

Lemma stage_failed_candidate msg msg' : keeps keeps_candidate (stage_failed gcm_seal marshal_update msg msg').
Proof. unfold stage_failed. candidate_steps. Qed.
Lemma download_candidate d dest : keeps keeps_candidate (downloadArtifact d dest).
Proof. unfold downloadArtifact. candidate_steps. Qed.
Lemma check_candidate policy token fetch : keeps keeps_candidate (check policy token fetch).
Proof. unfold CheckForUpdate. candidate_steps. Qed.
Lemma apply_candidate : keeps keeps_candidate apply_update.
Proof. unfold ApplyUpdate. candidate_steps. Qed.
Lemma confirm_candidate : keeps keeps_candidate confirm.
Proof. unfold ConfirmHealth. candidate_steps. Qed.
Lemma rollback_candidate : keeps keeps_candidate rollback.
Proof. unfold Rollback. candidate_steps. Qed.
Lemma startup_candidate : keeps keeps_candidate (startup gcm_seal marshal_update executable).
Proof.
  unfold startup, CheckRollbackNeeded. apply keeps_bind; [apply _|candidate_steps|].
  intros []; [|apply confirm_candidate]. apply keeps_bind; [apply _|apply rollback_candidate|].
  intros. apply keeps_ret. apply _.
Qed.

(** Staging installs a candidate only from a manifest it has verified. *)
Lemma stage_candidate m d u :
  same_keys u (exec (stage m d) u) /\ (candidate_ok u -> candidate_ok (exec (stage m d) u)).
Proof.
  unfold StageUpdate. rewrite exec_bind. cbn [gets fst].
  change (exec (gets _) u) with u.
  destruct (VerifyManifest b64_decode ed25519_verify u m) as [[]|e] eqn:Ev;
    [|apply stage_failed_candidate].
  apply VerifyManifest_signed in Ev as [_ Hs].
  set (k := fun dl => match dl with Ok _ => _ | Err e => _ end).
  assert (Hk : forall dl u1, same_keys u u1 -> (candidate_ok u -> candidate_ok u1) ->
    same_keys u (exec (k dl) u1) /\ (candidate_ok u -> candidate_ok (exec (k dl) u1))).
  2:{ rewrite exec_bind. destruct (download_candidate d (staged_path (mf_ArtifactName m)) u) as [H1 H2].
      by apply Hk. }
  intros dl u1 Hk1 Hc1. unfold k. clear k. destruct dl as [[]|e].
  2:{ destruct (stage_failed_candidate ("download failed: " +:+ e) ("download artifact: " +:+ e) u1) as [? ?].
      split; [by etransitivity|auto]. }
  rewrite exec_bind. change (exec (gets _) u1) with u1. cbn [gets fst].
  destruct (VerifyArtifact _ _ _ _) as [[]|e].
  2:{ match goal with |- context [exec ?p u1] => assert (Hp : keeps keeps_candidate p) end.
      { apply keeps_bind; [apply _|apply files_candidate|intros; apply stage_failed_candidate]. }
      destruct (Hp u1) as [? ?]. split; [by etransitivity|auto]. }
  rewrite exec_bind. destruct (files_candidate (Chmod (staged_path (mf_ArtifactName m))) u1) as [H2 H3].
  set (u2 := exec (files _) u1) in *. destruct (negb _).
  { match goal with |- context [exec ?p u2] => assert (Hp : keeps keeps_candidate p) end.
    { candidate_steps. }
    destruct (Hp u2) as [? ?]. split; [by do 2 (etransitivity; [eassumption|])|auto]. }
  rewrite exec_bind. change (exec stamp u2) with (um_next u2).
  rewrite exec_bind, exec_bind. set (at_ := fst _). clearbody at_.
  match goal with |- context [exec save ?x] => set (u3 := x) in * end.
  destruct (save_frame u3) as (K1 & K2 & K3 & _).
  assert (Hk3 : same_keys u u3) by (etransitivity; [exact Hk1|exact H2]).
  destruct Hk3 as [Ka Kb].
  split; [split; [by rewrite <- Ka, <- K1|by rewrite <- Kb, <- K2]|].
  intros _ _. exists m. change (exec (mret _) ?x) with x. rewrite K1, K3, Ka. done.
Qed.

(** *** Histories *)

(** One thing that happens to the update manager: an operation, or a change of
    the files by somebody else. *)
Inductive update_step : relation UpdateManager :=
| U_check u policy token fetch : update_step u (exec (check policy token fetch) u)
| U_stage u m d : update_step u (exec (stage m d) u)
| U_apply u : update_step u (exec apply_update u)
| U_confirm u : update_step u (exec confirm u)
| U_rollback u : update_step u (exec rollback u)
| U_startup u : update_step u (exec (startup gcm_seal marshal_update executable) u)
| U_tamper u f : update_step u (set_um_store (Build_Store (so_key (um_store u)) f) u).

Lemma update_step_candidate u u' : update_step u u' -> keeps_candidate u u'.
Proof.
  intros []; [apply check_candidate|apply stage_candidate|apply apply_candidate
    |apply confirm_candidate|apply rollback_candidate|apply startup_candidate|by split].
Qed.

(** The periodic checks are made of these steps, and none of them activates. *)
Lemma update_tick_steps policy token fetch d u :
  rtc (fun u u' => update_step u u' /\ (exists m d, u' = exec (stage m d) u)
                   \/ exists p t f, u' = exec (check p t f) u)
    u (exec (update_tick gcm_seal marshal_update b64_decode sha256 ed25519_verify policy token fetch d) u).
Proof.
  unfold update_tick. rewrite exec_bind.
  apply (rtc_l _ _ (exec (check policy token fetch) u)); [right; by exists policy, token, fetch|].
  destruct (fst _) as [[m|]|e]; [|apply rtc_refl..]. rewrite exec_bind. apply rtc_once. left.
  split; [constructor|by eexists _, _].
Qed.

Lemma update_steps_candidate u u' : rtc update_step u u' -> keeps_candidate u u'.
Proof. induction 1; [reflexivity|]. etransitivity; [by apply update_step_candidate|done]. Qed.

(** *** Activation and rollback *)

Lemma run_bind {A B} (m : M UpdateManager A) (f : A -> M UpdateManager B) u :
  (m ≫= f) u = f (fst (m u)) (exec m u).
Proof. unfold mbind, M_bind, exec. by destruct (m u). Qed.
Lemma files_run {A} (op : FS -> A * FS) u :
  fst (files op u) = fst (op (so_fs (um_store u)))
  /\ um_files (exec (files op) u) = fs_files (snd (op (so_fs (um_store u))))
  /\ so_fs (um_store (exec (files op) u)) = snd (op (so_fs (um_store u)))
  /\ um_state (exec (files op) u) = um_state u.
Proof. unfold files, exec, um_files. by destruct (op _). Qed.

(** Saving the running binary for a rollback. *)
Definition keep_previous (exe : string) : M UpdateManager unit :=
  saved ← files (copyFile exe rollback_path);
  match saved with
  | Ok _ => files (Chmod rollback_path) ;; on_state (su_previous HostVersion rollback_path)
  | Err _ => mret tt
  end.

Lemma keep_previous_spec exe u :
  (forall q, q <> rollback_path -> um_files (exec (keep_previous exe) u) !! q = um_files u !! q)
  /\ (is_ok (fst (copyFile exe rollback_path (so_fs (um_store u)))) = true ->
      um_files (exec (keep_previous exe) u) !! rollback_path = um_files u !! exe
      /\ su_PreviousPath (um_state (exec (keep_previous exe) u)) = rollback_path).
Proof.
  unfold keep_previous. rewrite exec_bind.
  destruct (files_run (copyFile exe rollback_path) u) as (-> & F2 & F3 & _).
  destruct (copyFile_spec exe rollback_path (so_fs (um_store u))) as [C1 C2].
  set (u1 := exec (files _) u) in *.
  destruct (fst (copyFile exe rollback_path (so_fs (um_store u)))) as [[]|e].
  - rewrite exec_bind. destruct (files_run (Chmod rollback_path) u1) as (_ & G2 & _ & _).
    set (u2 := exec (files _) u1) in *. rewrite F3 in G2. change (exec (on_state _) u2)
      with (set_um_state (su_previous HostVersion rollback_path (um_state u2)) u2).
    assert (Hf : um_files u2 = fs_files (snd (copyFile exe rollback_path (so_fs (um_store u)))))
      by done.
    change (um_files (set_um_state _ u2)) with (um_files u2). rewrite Hf. split; [done|].
    intros _. split; [apply C2; done|done].
  - change (exec (mret tt) u1) with u1. rewrite F2. split; done.
Qed.

(** The end of a successful activation. *)
Lemma apply_run u u' :
  apply_update u = (Ok tt, u') ->
  exists exe b, executable = Some exe /\ su_CandidatePath (um_state u) <> ""
    /\ um_files u !! su_CandidatePath (um_state u) = Some b
    /\ hex (sha256 b) = su_CandidateSHA256 (um_state u)
    /\ let u1 := exec (keep_previous exe) u in
       let '(r, f2) := replaceFile (su_CandidatePath (um_state u)) exe (so_fs (um_store u1)) in
       r = Ok tt /\ (forall q, foreign q -> um_files u' !! q = fs_files f2 !! q)
       /\ su_PreviousPath (um_state u') = su_PreviousPath (um_state u1).
Proof.
  unfold ApplyUpdate. rewrite run_bind. change (exec (gets _) u) with u. cbn [gets fst].
  destruct (String.eqb_spec (su_CandidatePath (um_state u)) "") as [|Hne]; [done|].
  rewrite run_bind. change (exec (gets _) u) with u. cbn [gets fst].
  unfold VerifyArtifact, ReadFile. destruct (fs_readable _); [|done].
  change (fs_files (so_fs (um_store u))) with (um_files u).
  destruct (um_files u !! su_CandidatePath (um_state u)) as [b|] eqn:Eb; [|done].
  destruct (String.eqb_spec (hex (sha256 b)) (su_CandidateSHA256 (um_state u))) as [Hh|]; [|done].
  destruct executable as [exe|]; [|done]. intros H. exists exe, b.
  split; [done|]. split; [done|]. split; [done|]. split; [done|]. cbv zeta.
  set (u1 := exec (keep_previous exe) u).
  assert (Hr : forall k : unit -> M UpdateManager (result string unit),
    (saved ← files (copyFile exe rollback_path);
     (match saved with
      | Ok _ => files (Chmod rollback_path) ;; on_state (su_previous HostVersion rollback_path)
      | Err _ => mret tt end) ≫= k) u = k tt u1).
  { intros k. unfold u1, keep_previous. rewrite !run_bind, exec_bind.
    by destruct (fst (files (copyFile exe rollback_path) u)). }
  rewrite Hr in H. rewrite run_bind in H.
  destruct (files_run (replaceFile (su_CandidatePath (um_state u)) exe) u1) as (F1 & F2 & F3 & F4).
  rewrite F1 in H. set (u2 := exec (files _) u1) in *.
  destruct (replaceFile _ exe (so_fs (um_store u1))) as [[[]|e] f2]; simpl in *; [|done].
  rewrite !run_bind in H. injection H as H. subst u'.
  match goal with |- context [exec save ?x] => set (u3 := x) in * end.
  destruct (save_frame u3) as (_ & _ & S3 & S4). split; [done|]. split.
  - intros q Hq. change (exec (mret _) ?x) with x. rewrite S4 by done.
    change (um_files u3) with (um_files u2). by rewrite F2.
  - by rewrite S3, <- F4.
Qed.

Lemma apply_failed u e exe b :
  fst (apply_update u) = Err e -> executable = Some exe -> absolute exe ->
  su_CandidatePath (um_state u) <> exe -> su_CandidatePath (um_state u) <> old_path exe ->
  um_files u !! exe = Some b ->
  um_files (exec apply_update u) !! exe = Some b
  \/ um_files (exec apply_update u) !! old_path exe = Some b.
Proof.
  intros Hr He [p ->] Hc1 Hc2 Hb. revert Hr. unfold exec, ApplyUpdate. rewrite He.
  rewrite !run_bind. change (exec (gets _) u) with u. cbn [gets fst].
  destruct (String.eqb _ _); [by left|].
  rewrite !run_bind. change (exec (gets _) u) with u. cbn [gets fst].
  destruct (VerifyArtifact _ _ _ _) as [[]|]; [|by left].
  set (exe := String "/" p) in *.
  assert (Hr : forall k : unit -> M UpdateManager (result string unit),
    (saved ← files (copyFile exe rollback_path);
     (match saved with
      | Ok _ => files (Chmod rollback_path) ;; on_state (su_previous HostVersion rollback_path)
      | Err _ => mret tt end) ≫= k) u = k tt (exec (keep_previous exe) u)).
  { intros k. unfold keep_previous. rewrite !run_bind, exec_bind.
    by destruct (fst (files (copyFile exe rollback_path) u)). }
  rewrite Hr, run_bind. set (u1 := exec (keep_previous exe) u).
  destruct (keep_previous_spec exe u) as [K1 _]. fold u1 in K1.
  destruct (files_run (replaceFile (su_CandidatePath (um_state u)) exe) u1) as (F1 & F2 & _).
  rewrite F1. set (u2 := exec (files _) u1) in *.
  pose proof (replaceFile_spec (su_CandidatePath (um_state u)) exe (so_fs (um_store u1)) Hc1 Hc2) as R.
  destruct (replaceFile _ exe (so_fs (um_store u1))) as [[[]|e'] f2]; simpl in *.
  - rewrite !run_bind. done.
  - intros _. rewrite F2. apply R. change (um_files u1 !! exe = Some b). by rewrite K1.
Qed.

Lemma rollback_run u :
  fst (rollback u) = Ok tt -> exists exe, executable = Some exe
    /\ (absolute exe -> su_PreviousPath (um_state u) <> exe ->
        su_PreviousPath (um_state u) <> old_path exe ->
        um_files (exec rollback u) !! exe = um_files u !! su_PreviousPath (um_state u)).
Proof.
  unfold exec, Rollback. rewrite !run_bind. change (exec (gets _) u) with u. cbn [gets fst].
  destruct (String.eqb _ _); [done|]. destruct executable as [exe|]; [|done].
  rewrite !run_bind. change (exec (gets _) u) with u. cbn [gets fst].
  destruct (negb _); [done|]. rewrite !run_bind.
  destruct (files_run (replaceFile (su_PreviousPath (um_state u)) exe) u) as (F1 & F2 & _).
  rewrite F1. set (u2 := exec (files _) u) in *. intros Hr. exists exe. split; [done|].
  intros Ha H1 H2. revert Hr.
  pose proof (replaceFile_spec _ exe (so_fs (um_store u)) H1 H2) as R.
  destruct (replaceFile _ exe (so_fs (um_store u))) as [[[]|e'] f2]; simpl in *; [|done].
  intros _. rewrite !run_bind. destruct R as (_ & R & _).
  match goal with |- context [exec save ?x] => set (u3 := x) in * end.
  destruct (save_frame u3) as (_ & _ & _ & S4). unfold mret, M_ret. cbn [snd].
  rewrite S4 by by apply absolute_foreign. change (um_files u3) with (um_files u2).
  by rewrite F2.
Qed.

Lemma staged_distinct name exe :
  absolute exe -> staged_path name <> rollback_path /\ staged_path name <> exe
    /\ staged_path name <> old_path exe /\ rollback_path <> exe /\ rollback_path <> old_path exe
    /\ staged_path name <> "".
Proof. intros [s ->]. done. Qed.
End Manager.

(** ** Properties *)


(** C28: an update can be undone.  A failed activation leaves the running binary
    in place or under its [.old] name.  After a successful activation that could
    save the running binary, a successful rollback brings back exactly that
    binary. *)
Theorem update_reversible (gcm_seal : buf -> buf -> buf -> buf)
    (marshal_update : StagedUpdateState -> buf) (sha256 : buf -> buf) (exe : string)
    (Hexe : absolute exe) (u : UpdateManager) (name : string) (b : buf)
    (Hcand : su_CandidatePath (um_state u) = staged_path name)
    (Hb : um_files u !! exe = Some b) :
  let u1 := exec (ApplyUpdate gcm_seal marshal_update sha256 (Some exe)) u in
  let u2 := exec (Rollback gcm_seal marshal_update (Some exe)) u1 in
  (forall e, fst (ApplyUpdate gcm_seal marshal_update sha256 (Some exe) u) = Err e ->
    um_files u1 !! exe = Some b \/ um_files u1 !! old_path exe = Some b)
  /\ (fst (ApplyUpdate gcm_seal marshal_update sha256 (Some exe) u) = Ok tt ->
      is_ok (fst (copyFile exe rollback_path (so_fs (um_store u)))) = true ->
      fst (Rollback gcm_seal marshal_update (Some exe) u1) = Ok tt ->
      um_files u2 !! exe = Some b).
Proof.
  intros u1 u2. destruct (staged_distinct name exe Hexe) as (D1 & D2 & D3 & D4 & D5 & _).
  split.
  - intros e He. eapply apply_failed; [exact He|done|done|by rewrite Hcand..|done].
  - intros Hok Hcopy Hroll.
    destruct (apply_run gcm_seal marshal_update sha256 (Some exe) u u1) as
      (exe' & b' & [= <-] & _ & _ & _ & Hrest).
    { unfold u1, exec. rewrite (surjective_pairing (ApplyUpdate _ _ _ _ u)) at 1. by rewrite Hok. }
    destruct (rollback_run _ _ _ _ Hroll) as (? & [= <-] & HR). cbv zeta in Hrest.
    rewrite Hcand in Hrest. set (v := exec (keep_previous exe) u) in *.
    pose proof (replaceFile_spec (staged_path name) exe (so_fs (um_store v)) D2 D3) as R.
    destruct (replaceFile _ exe _) as [r f2]. destruct Hrest as (-> & Hf & Hprev).
    destruct R as (_ & _ & R). destruct (keep_previous_spec exe u) as [_ K].
    destruct (K Hcopy) as [K1 K2]. fold v in K1, K2. rewrite K2 in Hprev.
    rewrite Hprev in HR. unfold u2. rewrite HR by done.
    rewrite Hf by done. rewrite R by done. change (um_files v !! rollback_path = Some b).
    by rewrite K1.
Qed.

(** What an update check offers.  It offers a manifest only if that is the one
    the backend sent, updates are enabled and not suspended, the policy allows
    its channel, and its version is strictly newer than the running one in the
    order of (major, minor, patch); and it never changes the candidate. *)
Theorem CheckForUpdate_spec (gcm_seal : buf -> buf -> buf -> buf)
    (marshal_update : StagedUpdateState -> buf) (policy token : string)
    (fetch : result string (option SignedUpdateManifest)) (u : UpdateManager)
    (m : SignedUpdateManifest)
    (Hm : fst (CheckForUpdate gcm_seal marshal_update policy token fetch u) = Ok (Some m)) :
  fetch = Ok (Some m) /\ um_disabled u = false /\ token <> ""
  /\ su_ConsecutiveFails (um_state u) < maxConsecutiveFails
  /\ PolicyAllowsChannel policy (mf_Channel m) = true
  /\ (mf_KeyID m = "" \/ is_Some (um_publicKeys u !! mf_KeyID m))
  /\ (exists major minor patch,
        parseSemverComponents (mf_Version m) = Ok (major, minor, patch)
        /\ (0 < major \/ major = 0 /\ (7 < minor \/ minor = 7 /\ 0 < patch)))
  /\ su_CandidatePath (um_state (exec (CheckForUpdate gcm_seal marshal_update policy token fetch) u))
     = su_CandidatePath (um_state u).
Proof.
  revert Hm. unfold exec, CheckForUpdate. rewrite !run_bind. change (exec (gets id) u) with u.
  cbn [gets fst id]. destruct (String.eqb _ _); [done|]. destruct (um_disabled u); [done|].
  destruct (Z.leb_spec maxConsecutiveFails (su_ConsecutiveFails (um_state u))); [done|].
  rewrite !run_bind. match goal with |- context [exec (saveState _ _) ?x] => set (u3 := x) in * end.
  destruct (save_frame gcm_seal marshal_update u3) as (_ & _ & S3 & _).
  destruct (String.eqb_spec token ""); [done|].
  unfold mret, M_ret. cbn [fst snd]. rewrite S3.
  destruct fetch as [[m'|]|]; [|done..].
  destruct (PolicyAllowsChannel policy (mf_Channel m')) eqn:Ep; [cbn [negb]|done].
  destruct (negb (String.eqb (mf_KeyID m') "") && _) eqn:Ek; [done|].
  destruct (negb (String.eqb (mf_MinHostVersion m') "") && _); [done|].
  destruct (parseSemverComponents (mf_Version m')) as [[[x y] z]|] eqn:Ev; [|done].
  change (parseSemverComponents HostVersion) with (Ok (E:=string) (0, 7, 0)). cbv beta iota.
  destruct (semverGreaterThan (x, y, z) (0, 7, 0)) eqn:Eg; [|done]. intros [= <-].
  split_and!; try done.
  - destruct (String.eqb_spec (mf_KeyID m') ""); [by left|]. right.
    case_bool_decide as Hk; [done|by simpl in Ek].
  - exists x, y, z. split; [done|]. unfold semverGreaterThan in Eg.
    destruct (Z.eqb_spec x 0), (Z.eqb_spec y 7); simpl in Eg; lia.
Qed.

(** ** Witnesses *)

(** A host with one key, whose files operations all succeed, and an update. *)
Definition demo_um : UpdateManager :=
  Build_UpdateManager {["primary" := []]} false zeroStaged
    (Build_Store [] (Build_FS {["/bin/fx" := [x01]]} true (fun _ => IoOk) (fun _ => []) 0))
    (fun n => Z.of_nat n * Second) 0.
Definition demo_manifest : SignedUpdateManifest :=
  Build_SignedUpdateManifest 1 "v0.8.0" "stable" "linux" "amd64" "" "https://dl/new" "new" 1 "02"
    "sig" "" "" "".
Definition demo_decode (s : string) : option buf := Some (repeat x00 64).
Definition demo_stage : M UpdateManager (result string unit) :=
  StageUpdate (fun _ _ p => p) (fun _ => []) demo_decode id (fun _ _ _ => true) demo_manifest
    (DownloadResponse 200 [x02]).


Lemma update_reversible_witness :
  let u := exec demo_stage demo_um in
  let u1 := exec (ApplyUpdate (fun _ _ p => p) (fun _ => []) id (Some "/bin/fx")) u in
  um_files u1 !! "/bin/fx" = Some [x02]
  /\ um_files (exec (Rollback (fun _ _ p => p) (fun _ => []) (Some "/bin/fx")) u1) !! "/bin/fx"
     = Some [x01].
Proof.
  intros u u1. split; [reflexivity|].
  refine (proj2 (update_reversible (fun _ _ p => p) (fun _ => []) id "/bin/fx"
    (ex_intro _ "bin/fx" eq_refl) u "new" [x01] _ _) _ _ _); reflexivity.
Defined.

Lemma CheckForUpdate_spec_witness :
  parseSemverComponents "v0.8.0" = Ok (0, 8, 0)
  /\ PolicyAllowsChannel "beta" (mf_Channel demo_manifest) = true.
Proof.
  split; [reflexivity|].
  destruct (CheckForUpdate_spec (fun _ _ p => p) (fun _ => []) "beta" "tok" (Ok (Some demo_manifest))
    demo_um demo_manifest eq_refl) as (_ & _ & _ & _ & H & _).
  exact H.
Defined.
