(* ===== verification/EvidenceBundle.v ===== *)
(** The Evidence Bundle writer ([src/evidencebundle]): the command profile, safe
    path segments, the grouping of captures by switch, the manifest with its
    hashes, and the archive. *)
From S2P Require Import Prelude GoStrings GoPath GoTime.
From Stdlib Require Import Ascii.

Local Open Scope Z_scope.

Definition BundleVersion : string := "1.0".
Definition Vendor : string := "brocade-fos".
Definition BundleRoot : string := "filterrex-evidence-bundle".
Definition CollectionMethodAgent : string := "agent".

(** ** The command profile *)

Record profileCommand : Type := {
  pc_ID : string;
  pc_Exec : string;
  pc_Filename : string;
  pc_SupportLevel : string;
  pc_Importance : string;
}.
#[global] Instance profileCommand_eq_dec : EqDecision profileCommand.
Proof. solve_decision. Defined.

Record commandProfile : Type := {
  cp_ProfileVersion : string;
  cp_Vendor : string;
  cp_Defaults : gmap string string;
  cp_Commands : list profileCommand;
}.

(** The embedded file, decoded. *)
Definition parsed (id exec file importance : string) : profileCommand :=
  Build_profileCommand id exec file "parsed" importance.
Definition supporting (id file : string) : profileCommand :=
  Build_profileCommand id id file "supporting_only" "optional".
Definition embeddedProfile : commandProfile := {|
  cp_ProfileVersion := "1.0";
  cp_Vendor := "brocade-fos";
  cp_Defaults := {[ "port_range" := "0-895" ]};
  cp_Commands :=
    [parsed "switchshow" "switchshow" "switchshow.txt" "recommended";
     parsed "fabricshow" "fabricshow" "fabricshow.txt" "recommended";
     parsed "nsshow" "nsshow" "nsshow.txt" "recommended";
     parsed "cfgshow" "cfgshow" "cfgshow.txt" "required";
     parsed "zoneshow" "zoneshow" "zoneshow.txt" "optional";
     parsed "version" "version" "version.txt" "recommended";
     parsed "firmwareshow" "firmwareshow" "firmwareshow.txt" "optional";
     parsed "portshow" "portshow -i {port_range} -f" "portshow.txt" "optional";
     parsed "chassisshow" "chassisshow" "chassisshow.txt" "optional";
     supporting "sfpshow -all" "sfpshow-all.txt";
     supporting "portloginshow" "portloginshow.txt";
     supporting "errdump" "errdump.txt";
     supporting "slotshow" "slotshow.txt";
     supporting "islshow" "islshow.txt";
     supporting "trunkshow" "trunkshow.txt";
     supporting "portcfgshow" "portcfgshow.txt";
     supporting "porterrshow" "porterrshow.txt"] |}.

(** Why a bundle is refused. *)
Inductive BundleError : Type :=
| VendorMismatch (v : string)
| FolderCollision (owner name folder : string)
| UnknownCommand (cmd switch : string)
| DuplicateCapture (cmd switch : string)
| FilenameMismatch (cmd switch got expected : string)
| UnsafePath (rel switch : string)
| RelCollision (rel owner switch : string)
| MarshalError (e : string)
| ZipError (e : string)
| NilGroup (name : string)  (* a nil dereference *)
| InventoryError (e : string).

Definition loadEmbeddedProfile : result BundleError (commandProfile * gmap string profileCommand) :=
  let p := embeddedProfile in
  if negb (String.eqb (cp_Vendor p) Vendor) then Err (VendorMismatch (cp_Vendor p))
  else Ok (p, foldl (fun m c => <[pc_ID c := c]> m) ∅ (cp_Commands p)).

Definition ProfileCommands : result BundleError (list profileCommand) :=
  match loadEmbeddedProfile with
  | Ok (p, _) => Ok (map (fun c => c) (cp_Commands p))
  | Err e => Err e
  end.
Definition DefaultPortRange : string :=
  match loadEmbeddedProfile with
  | Ok (p, _) => default "" (cp_Defaults p !! "port_range")
  | Err _ => ""
  end.
Definition ProfileVersion : string :=
  match loadEmbeddedProfile with Ok (p, _) => cp_ProfileVersion p | Err _ => "" end.
Definition CommandForFilename (filename : string) : option string :=
  match loadEmbeddedProfile with
  | Ok (p, _) => pc_ID <$> List.find (fun c => String.eqb (pc_Filename c) filename) (cp_Commands p)
  | Err _ => None
  end.
Definition FilenameForCommand (command : string) : option string :=
  match loadEmbeddedProfile with
  | Ok (_, byID) => pc_Filename <$> byID !! command
  | Err _ => None
  end.
Definition SupportLevelForCommand (command : string) : option string :=
  match loadEmbeddedProfile with
  | Ok (_, byID) => pc_SupportLevel <$> byID !! command
  | Err _ => None
  end.

(** ** Path segments *)

(** The class [\s] of Go's regular expressions, and the bytes kept by
    [[^A-Za-z0-9._-]].  The bytes of a rune outside ASCII are all dropped. *)
Definition re_space (c : ascii) : bool :=
  (byte_of c =? 9) || (byte_of c =? 10) || (byte_of c =? 12) || (byte_of c =? 13)
  || (byte_of c =? 32).
Definition re_safe (c : ascii) : bool :=
  is_upper c || is_lower c || is_digit c
  || (byte_of c =? 46) || (byte_of c =? 95) || (byte_of c =? 45).

Definition sanitizeSegment (value fallback : string) : string :=
  let v := TrimSpace value in
  let v := ReplaceAll v "/" "-" in
  let v := ReplaceAll v "\" "-" in
  let v := squeeze_from re_space "-" false v in
  let v := keep_bytes re_safe v in
  let v := Trim v "-._" in
  if String.eqb v "" then fallback else v.

Definition isUnsafeBundlePath (p : string) : bool :=
  String.eqb p "" || HasPrefix p "/" || HasPrefix p "\"
  || existsb (String.eqb "..") (Split (ReplaceAll p "\" "/") slash).

(** ** Captures, manifest and summary *)

Record CommandCapture : Type := {
  cc_SwitchName : string;
  cc_FabricRole : string;
  cc_Command : string;
  cc_Filename : string;
  cc_Stdout : buf;
  cc_Stderr : buf;
  cc_ExitCode : Z;
  cc_TimedOut : bool;
  cc_CollectedAt : GoTime;
}.

Record SwitchMeta : Type := {
  sm_SwitchName : string;
  sm_FID : option Z;
  sm_WWN : string;
  sm_DomainID : option Z;
  sm_Model : string;
  sm_Notes : string;
}.

Record BuildOptions : Type := {
  bo_CollectionMethod : string;
  bo_FabricRole : string;
  bo_CustomerSupplied : bool;
  bo_CollectedAt : GoTime;
  bo_SwitchMeta : list SwitchMeta;
  bo_Collector : string;
}.

Record manifestFile : Type := {
  bf_Command : string;
  bf_Path : string;
  bf_SHA256 : string;
  bf_CollectedAt : string;
}.

Record manifestSwitch : Type := {
  ms_SwitchName : string;
  ms_Files : list manifestFile;
  ms_WWN : string;
  ms_DomainID : option Z;
  ms_FID : option Z;
  ms_Model : string;
  ms_Notes : string;
}.

Record Manifest : Type := {
  mn_BundleVersion : string;
  mn_CollectionMethod : string;
  mn_CustomerSupplied : bool;
  mn_CollectedAt : string;
  mn_FabricRole : string;
  mn_Vendor : string;
  mn_Switches : list manifestSwitch;
}.

Record Summary : Type := {
  bsum_Collector : string;
  bsum_ProfileVersion : string;
  bsum_SwitchesAttempted : Z;
  bsum_CommandsAttempted : Z;
  bsum_CommandsSucceeded : Z;
  bsum_CommandsFailed : Z;
  bsum_StartedAt : string;
  bsum_FinishedAt : string;
  bsum_FabricRole : string;
}.

Record BuildResult : Type := {
  br_Zip : buf;
  br_Manifest : Manifest;
  br_Summary : Summary;
  br_Log : string;
}.

Definition iso (t : GoTime) : string := FormatRFC3339 t.
Definition isoOrEmpty (t : GoTime) : string := if IsZero t then "" else iso t.

Definition captureOK (c : CommandCapture) : bool :=
  (cc_ExitCode c =? 0) && negb (cc_TimedOut c)
  && negb (String.eqb (TrimSpace (text_of (cc_Stdout c))) "").

Definition normalizeRole (role : string) : string :=
  let r := ToLower (TrimSpace role) in
  if String.eqb r "source" then "source"
  else if String.eqb r "target" then "target"
  else "unknown".

(** ** Grouping by switch *)

Record switchGroup : Type := {
  sg_name : string;
  sg_role : string;
  sg_safeRole : string;
  sg_safeName : string;
  sg_captures : list CommandCapture;
}.

Definition append_capture (c : CommandCapture) (g : switchGroup) : switchGroup :=
  {| sg_name := sg_name g; sg_role := sg_role g; sg_safeRole := sg_safeRole g;
     sg_safeName := sg_safeName g; sg_captures := sg_captures g ++ [c] |}.

Abbreviation grouping := (list string * gmap string switchGroup)%type.

Definition add_capture (st : grouping) (c : CommandCapture) : grouping :=
  let '(order, groups) := st in
  match groups !! cc_SwitchName c with
  | Some g => (order, <[cc_SwitchName c := append_capture c g]> groups)
  | None =>
      let role := normalizeRole (cc_FabricRole c) in
      let g := {| sg_name := cc_SwitchName c; sg_role := role; sg_safeRole := role;
                  sg_safeName := sanitizeSegment (cc_SwitchName c) "switch";
                  sg_captures := [c] |} in
      (order ++ [cc_SwitchName c], <[cc_SwitchName c := g]> groups)
  end.

Definition group_captures (captures : list CommandCapture) : grouping :=
  foldl add_capture ([], ∅) captures.

Definition folder (g : switchGroup) : string := sg_safeRole g +:+ "/" +:+ sg_safeName g.

Definition check_folder (groups : gmap string switchGroup) (owners : gmap string string)
    (name : string) : result BundleError (gmap string string) :=
  match groups !! name with
  | None => Err (NilGroup name)
  | Some g =>
      match owners !! folder g with
      | Some owner =>
          if negb (String.eqb owner (sg_name g))
          then Err (FolderCollision owner (sg_name g) (folder g))
          else Ok (<[folder g := sg_name g]> owners)
      | None => Ok (<[folder g := sg_name g]> owners)
      end
  end.

(** ** One switch *)

Definition index_capture (known : string -> bool) (name : string)
    (byCmd : gmap string CommandCapture) (c : CommandCapture)
    : result BundleError (gmap string CommandCapture) :=
  if negb (known (cc_Command c)) then Err (UnknownCommand (cc_Command c) name)
  else match byCmd !! cc_Command c with
       | Some _ => Err (DuplicateCapture (cc_Command c) name)
       | None => Ok (<[cc_Command c := c]> byCmd)
       end.

Record build_state : Type := {
  bs_log : list string;
  bs_filesByRel : gmap string buf;
  bs_relOwner : gmap string string;
  bs_switches : list manifestSwitch;
  bs_roleSet : gset string;
  bs_attempted : Z;
  bs_succeeded : Z;
  bs_failed : Z;
}.

(** The loop over the commands of one switch also has its files and the
    commands it has seen. *)
Record group_state : Type := {
  gs_build : build_state;
  gs_files : list manifestFile;
  gs_seen : gset string;
}.

Definition status_text (exitCode : Z) (timedOut : bool) : string :=
  if timedOut then "timeout" else "exit=" +:+ pretty exitCode.

Definition with_failure (line : string) (b : build_state) : build_state :=
  {| bs_log := bs_log b ++ [line]; bs_filesByRel := bs_filesByRel b;
     bs_relOwner := bs_relOwner b; bs_switches := bs_switches b; bs_roleSet := bs_roleSet b;
     bs_attempted := bs_attempted b + 1; bs_succeeded := bs_succeeded b;
     bs_failed := bs_failed b + 1 |}.

Definition with_file (line rel owner : string) (content : buf) (b : build_state) : build_state :=
  {| bs_log := bs_log b ++ [line]; bs_filesByRel := <[rel := content]> (bs_filesByRel b);
     bs_relOwner := <[rel := owner]> (bs_relOwner b); bs_switches := bs_switches b;
     bs_roleSet := bs_roleSet b; bs_attempted := bs_attempted b + 1;
     bs_succeeded := bs_succeeded b + 1; bs_failed := bs_failed b |}.

Section Bundle.
Context (sha256 : buf -> buf).

Definition rel_path (g : switchGroup) (pc : profileCommand) : string :=
  sg_safeRole g +:+ "/" +:+ sg_safeName g +:+ "/" +:+ pc_Filename pc.

Definition manifest_file (g : switchGroup) (pc : profileCommand) (c : CommandCapture) : manifestFile :=
  {| bf_Command := pc_ID pc; bf_Path := rel_path g pc;
     bf_SHA256 := hex (sha256 (cc_Stdout c)); bf_CollectedAt := isoOrEmpty (cc_CollectedAt c) |}.

Definition bundle_command (g : switchGroup) (byCmd : gmap string CommandCapture)
    (st : group_state) (pc : profileCommand) : result BundleError group_state :=
  match byCmd !! pc_ID pc with
  | None => Ok st
  | Some c =>
      let quoted := "`" +:+ pc_ID pc +:+ "`" in
      if bool_decide (pc_ID pc ∈ gs_seen st) then Err (DuplicateCapture (pc_ID pc) (sg_name g))
      else
      let seen := {[pc_ID pc]} ∪ gs_seen st in
      if negb (String.eqb (cc_Filename c) "") && negb (String.eqb (cc_Filename c) (pc_Filename pc))
      then Err (FilenameMismatch (pc_ID pc) (sg_name g) (cc_Filename c) (pc_Filename pc))
      else if negb (captureOK c) then
        let line := "[" +:+ status_text (cc_ExitCode c) (cc_TimedOut c) +:+ "] " +:+ sg_name g
                    +:+ ": " +:+ quoted +:+ " — not included in manifest" in
        Ok {| gs_build := with_failure line (gs_build st); gs_files := gs_files st; gs_seen := seen |}
      else
      let rel := rel_path g pc in
      if isUnsafeBundlePath rel then Err (UnsafePath rel (sg_name g))
      else match bs_relOwner (gs_build st) !! rel with
           | Some owner => Err (RelCollision rel owner (sg_name g))
           | None =>
               let line := "[ok] " +:+ sg_name g +:+ ": " +:+ quoted in
               Ok {| gs_build := with_file line rel (sg_name g) (cc_Stdout c) (gs_build st);
                     gs_files := gs_files st ++ [manifest_file g pc c]; gs_seen := seen |}
           end
  end.

Definition manifest_switch (metaByName : gmap string SwitchMeta) (name : string)
    (files : list manifestFile) : manifestSwitch :=
  match metaByName !! name with
  | Some m => {| ms_SwitchName := name; ms_Files := files; ms_WWN := sm_WWN m;
                 ms_DomainID := sm_DomainID m; ms_FID := sm_FID m; ms_Model := sm_Model m;
                 ms_Notes := sm_Notes m |}
  | None => {| ms_SwitchName := name; ms_Files := files; ms_WWN := ""; ms_DomainID := None;
               ms_FID := None; ms_Model := ""; ms_Notes := "" |}
  end.

Definition add_role (r : string) (b : build_state) : build_state :=
  {| bs_log := bs_log b; bs_filesByRel := bs_filesByRel b; bs_relOwner := bs_relOwner b;
     bs_switches := bs_switches b; bs_roleSet := {[r]} ∪ bs_roleSet b;
     bs_attempted := bs_attempted b; bs_succeeded := bs_succeeded b; bs_failed := bs_failed b |}.
Definition add_switch (ms : manifestSwitch) (b : build_state) : build_state :=
  {| bs_log := bs_log b; bs_filesByRel := bs_filesByRel b; bs_relOwner := bs_relOwner b;
     bs_switches := bs_switches b ++ [ms]; bs_roleSet := bs_roleSet b;
     bs_attempted := bs_attempted b; bs_succeeded := bs_succeeded b; bs_failed := bs_failed b |}.

Definition bundle_switch (commands : list profileCommand) (groups : gmap string switchGroup)
    (metaByName : gmap string SwitchMeta) (b : build_state) (name : string)
    : result BundleError build_state :=
  match groups !! name with
  | None => Err (NilGroup name)
  | Some g =>
      let known cmd := bool_decide (cmd ∈ map pc_ID commands) in
      byCmd ← fold_result (index_capture known (sg_name g)) ∅ (sg_captures g);
      st ← fold_result (bundle_command g byCmd)
             {| gs_build := add_role (sg_role g) b; gs_files := []; gs_seen := ∅ |} commands;
      mret (add_switch (manifest_switch metaByName (sg_name g) (gs_files st)) (gs_build st))
  end.

(** ** The archive *)

Record zip_entry : Type := { ze_name : string; ze_modified : GoTime; ze_content : buf }.

(** [json.MarshalIndent] and the archive writer. *)
Context (marshal_manifest : Manifest -> result string buf)
        (marshal_summary : Summary -> result string buf)
        (zip_write : list zip_entry -> result string buf).

Definition newline : buf := buf_of (String (ascii_of_N 10) "").

(** The entries in the order they are added. *)
Definition zip_entries (manifestJSON summaryJSON : buf) (logText : string)
    (filesByRel : gmap string buf) (modTime : GoTime) : list zip_entry :=
  let entry name content :=
    {| ze_name := BundleRoot +:+ "/" +:+ name;
       ze_modified := modTime - modTime mod Second; ze_content := content |} in
  let rels := sort_Strings (map fst (map_to_list filesByRel)) in
  [entry "manifest.json" manifestJSON; entry "collection-log.txt" (buf_of logText);
   entry "collection-summary.json" summaryJSON]
  ++ map (fun rel => entry rel (default [] (filesByRel !! rel))) rels.

Definition writeZip (manifest : Manifest) (summary : Summary) (logText : string)
    (filesByRel : gmap string buf) (modTime : GoTime) : result BundleError buf :=
  mj ← wrap_err MarshalError (marshal_manifest manifest);
  sj ← wrap_err MarshalError (marshal_summary summary);
  wrap_err ZipError (zip_write (zip_entries (mj ++ newline) (sj ++ newline) logText filesByRel modTime)).

(** ** The whole operation *)

Definition bundle_role (opts : BuildOptions) (roleSet : gset string) : string :=
  if String.eqb (bo_FabricRole opts) "" || EqualFold (bo_FabricRole opts) "auto" then
    match elements roleSet with [r] => r | _ => "unknown" end
  else normalizeRole (bo_FabricRole opts).

Definition or_default (s d : string) : string := if String.eqb s "" then d else s.

(** The manifest, the summary and the log of a finished loop. *)
Definition bundle_manifest (opts : BuildOptions) (collectedAt : GoTime) (b : build_state) : Manifest :=
  {| mn_BundleVersion := BundleVersion;
     mn_CollectionMethod := or_default (bo_CollectionMethod opts) CollectionMethodAgent;
     mn_CustomerSupplied := bo_CustomerSupplied opts; mn_CollectedAt := iso collectedAt;
     mn_FabricRole := bundle_role opts (bs_roleSet b); mn_Vendor := Vendor;
     mn_Switches := bs_switches b |}.
Definition bundle_summary (opts : BuildOptions) (version : string) (order : list string)
    (collectedAt : GoTime) (b : build_state) : Summary :=
  {| bsum_Collector := or_default (bo_Collector opts) "filterrex_agent_brocade";
     bsum_ProfileVersion := version; bsum_SwitchesAttempted := Z.of_nat (length order);
     bsum_CommandsAttempted := bs_attempted b; bsum_CommandsSucceeded := bs_succeeded b;
     bsum_CommandsFailed := bs_failed b; bsum_StartedAt := iso collectedAt;
     bsum_FinishedAt := iso collectedAt; bsum_FabricRole := bundle_role opts (bs_roleSet b) |}.
Definition bundle_log (order : list string) (b : build_state) : string :=
  let nl := String (ascii_of_N 10) "" in
  Join (bs_log b ++
    ["Summary: " +:+ pretty (bs_succeeded b) +:+ "/" +:+ pretty (bs_attempted b)
     +:+ " commands captured across " +:+ pretty (Z.of_nat (length order)) +:+ " switch(es); "
     +:+ pretty (bs_failed b) +:+ " failed."]) nl +:+ nl.

Definition initial_state (collectedAt : GoTime) : build_state :=
  {| bs_log := ["FilterREX Brocade agent bundle " +:+ iso collectedAt]; bs_filesByRel := ∅;
     bs_relOwner := ∅; bs_switches := []; bs_roleSet := ∅; bs_attempted := 0;
     bs_succeeded := 0; bs_failed := 0 |}.

Definition BuildEvidenceBundle (now : GoTime) (captures : list CommandCapture) (opts : BuildOptions)
    : result BundleError BuildResult :=
  '(profile, _) ← loadEmbeddedProfile;
  let collectedAt := if IsZero (bo_CollectedAt opts) then now else bo_CollectedAt opts in
  let metaByName := foldl (fun m s => <[sm_SwitchName s := s]> m) ∅ (bo_SwitchMeta opts) in
  let '(order, groups) := group_captures captures in
  _ ← fold_result (check_folder groups) ∅ order;
  b ← fold_result (bundle_switch (cp_Commands profile) groups metaByName)
        (initial_state collectedAt) order;
  let manifest := bundle_manifest opts collectedAt b in
  let summary := bundle_summary opts (cp_ProfileVersion profile) order collectedAt b in
  zip ← writeZip manifest summary (bundle_log order b) (bs_filesByRel b) collectedAt;
  mret {| br_Zip := zip; br_Manifest := manifest; br_Summary := summary; br_Log := bundle_log order b |}.

End Bundle.

(** ** Bundles from a directory of captured output *)

Record InventorySwitch : Type := {
  is_SwitchName : string;
  is_FabricRole : string;
  is_FID : option Z;
  is_WWN : string;
  is_DomainID : option Z;
  is_Model : string;
  is_Notes : string;
}.

Record Inventory : Type := {
  inv_CollectedAt : string;
  inv_FabricRole : string;
  inv_CustomerSupplied : bool;
  inv_Switches : list InventorySwitch;
}.

Definition parseInventoryTime (s : string) : result BundleError GoTime :=
  if String.eqb (TrimSpace s) "" then
    Err (InventoryError "inventory collected_at is required for deterministic bundles")
  else match ParseRFC3339 s with
       | Some t => Ok t
       | None => Err (InventoryError ("parse collected_at " +:+ s))
       end.

Section Directory.
Context (sha256 : buf -> buf) (marshal_manifest : Manifest -> result string buf)
        (marshal_summary : Summary -> result string buf) (zip_write : list zip_entry -> result string buf).
(** The directory tree: the names in a directory, each with whether it is a
    directory itself, and the contents of a file. *)
Context (ReadDir : string -> option (list (string * bool))) (ReadFile : string -> option buf).
Context (unmarshal_inventory : buf -> option Inventory).

Definition LoadInventory (path : string) : result BundleError Inventory :=
  match ReadFile path with
  | None => Err (InventoryError ("open " +:+ path))
  | Some data => match unmarshal_inventory data with
                 | Some inv => Ok inv
                 | None => Err (InventoryError ("parse inventory " +:+ path))
                 end
  end.

(** One file of the directory of a switch. *)
Definition file_capture (s : InventorySwitch) (role switchDir : string) (collectedAt : GoTime)
    (captures : list CommandCapture) (fname : string) : result BundleError (list CommandCapture) :=
  match CommandForFilename fname with
  | None => Err (InventoryError ("no profile command maps to file " +:+ fname))
  | Some command =>
      match ReadFile (JoinPath [switchDir; fname]) with
      | None => Err (InventoryError ("open " +:+ fname))
      | Some data =>
          Ok (captures ++ [{| cc_SwitchName := is_SwitchName s; cc_FabricRole := role;
                              cc_Command := command; cc_Filename := fname; cc_Stdout := data;
                              cc_Stderr := []; cc_ExitCode := 0; cc_TimedOut := false;
                              cc_CollectedAt := collectedAt |}])
      end
  end.

Definition switch_captures (inputDir : string) (inv : Inventory) (collectedAt : GoTime)
    (captures : list CommandCapture) (s : InventorySwitch) : result BundleError (list CommandCapture) :=
  let role := if String.eqb (is_FabricRole s) "" then inv_FabricRole inv else is_FabricRole s in
  let switchDir := JoinPath [inputDir; normalizeRole role; sanitizeSegment (is_SwitchName s) "switch"] in
  match ReadDir switchDir with
  | None => Err (InventoryError ("read switch dir " +:+ switchDir))
  | Some entries =>
      let files := map fst (List.filter (fun e => negb (snd e) && HasSuffix (fst e) ".txt") entries) in
      fold_result (file_capture s role switchDir collectedAt) captures (sort_Strings files)
  end.

Definition inventory_meta (s : InventorySwitch) : SwitchMeta :=
  {| sm_SwitchName := is_SwitchName s; sm_FID := is_FID s; sm_WWN := is_WWN s;
     sm_DomainID := is_DomainID s; sm_Model := is_Model s; sm_Notes := is_Notes s |}.

Definition BuildFromDirectory (now : GoTime) (inputDir : string) (inv : option Inventory)
    (collectionMethod : string) : result BundleError BuildResult :=
  match inv with
  | None => Err (InventoryError "inventory is required")
  | Some inv =>
      collectedAt ← parseInventoryTime (inv_CollectedAt inv);
      captures ← fold_result (switch_captures inputDir inv collectedAt) [] (inv_Switches inv);
      BuildEvidenceBundle sha256 marshal_manifest marshal_summary zip_write now captures
        {| bo_CollectionMethod := collectionMethod; bo_FabricRole := inv_FabricRole inv;
           bo_CustomerSupplied := inv_CustomerSupplied inv; bo_CollectedAt := collectedAt;
           bo_SwitchMeta := map inventory_meta (inv_Switches inv); bo_Collector := "" |}
  end.

End Directory.
