(* ===== verification/EvidenceBundleProps.v ===== *)
(** Properties of the Evidence Bundle writer: safe path segments, what a bundle
    contains, and exactly when a bundle is refused. *)
From S2P Require Import Prelude GoStrings GoPath GoTime EvidenceBundle.
From Stdlib Require Import Ascii.

Local Open Scope Z_scope.

(** ** Trimmed and filtered strings *)

Lemma TrimLeftFunc_suffix f s : exists p, bytes s = p ++ bytes (TrimLeftFunc f s).
Proof.
  induction s as [|c s [p IH]]; simpl; [by exists []|].
  destruct (f c); [exists (c :: p); simpl; by f_equal|by exists []].
Qed.

Lemma TrimLeftFunc_head f s c l : bytes (TrimLeftFunc f s) = c :: l -> f c = false.
Proof.
  induction s as [|d s IH]; simpl; [done|]. destruct (f d) eqn:E; [done|].
  simpl. by intros [= -> _].
Qed.

Lemma bytes_rev s : bytes (rev_string s) = reverse (bytes s).
Proof. apply bytes_str. Qed.

Lemma TrimRightFunc_prefix f s : exists p, bytes s = bytes (TrimRightFunc f s) ++ p.
Proof.
  unfold TrimRightFunc. destruct (TrimLeftFunc_suffix f (rev_string s)) as [p Hp].
  exists (reverse p). rewrite !bytes_rev in *. rewrite <- reverse_app, <- Hp.
  by rewrite reverse_involutive.
Qed.

Lemma TrimFunc_sub f s c : c ∈ bytes (TrimFunc f s) -> c ∈ bytes s.
Proof.
  unfold TrimFunc. destruct (TrimRightFunc_prefix f (TrimLeftFunc f s)) as [p Hp].
  destruct (TrimLeftFunc_suffix f s) as [q Hq]. rewrite Hq, Hp, !elem_of_app. auto.
Qed.

Lemma TrimFunc_head f s c l : bytes (TrimFunc f s) = c :: l -> f c = false.
Proof.
  intros H. destruct (TrimRightFunc_prefix f (TrimLeftFunc f s)) as [p Hp].
  eapply (TrimLeftFunc_head f s c (l ++ p)). unfold TrimFunc in H. by rewrite Hp, H.
Qed.

Lemma ReplaceAll_absent c new s : c ∉ bytes s -> ReplaceAll s (String c "") new = s.
Proof.
  unfold ReplaceAll. induction s as [|d s IH]; [done|]. intros [Hd Hs]%not_elem_of_cons.
  cbn [replace_from HasPrefix]. rewrite (proj2 (Ascii.eqb_neq c d) Hd). cbn [andb].
  by rewrite IH.
Qed.

(** ** Safe segments *)

(** A segment of safe bytes that does not start with a dot. *)
Definition safe_segment (s : string) : Prop :=
  s <> "" /\ Forall (fun c => re_safe c = true) (bytes s) /\ head (bytes s) <> Some "."%char.

Lemma safe_byte c d : re_safe c = true -> re_safe d = false -> d <> c.
Proof. intros H1 H2 ->. by rewrite H1 in H2. Qed.

Lemma safe_segment_absent s d : safe_segment s -> re_safe d = false -> d ∉ bytes s.
Proof. intros (_ & H & _) Hd Hin. rewrite Forall_forall in H. apply H in Hin. by rewrite Hin in Hd. Qed.

Lemma safe_segment_plain s : safe_segment s -> slashless s.
Proof. intros H. by apply (safe_segment_absent s slash H). Qed.

Lemma sanitize_safe value fallback :
  safe_segment fallback -> safe_segment (sanitizeSegment value fallback).
Proof.
  intros Hf. unfold sanitizeSegment. set (w := squeeze_from _ _ _ _).
  destruct (String.eqb_spec (Trim (keep_bytes re_safe w) "-._") "") as [|Hne]; [done|].
  unfold Trim in *. set (v := TrimFunc _ _) in *. split; [done|split].
  - apply Forall_forall. intros c Hc%TrimFunc_sub. unfold keep_bytes in Hc.
    rewrite bytes_str in Hc. by apply list_elem_of_In, List.filter_In in Hc as [_ ?].
  - destruct (bytes v) as [|c l] eqn:E; [done|]. simpl. intros [= ->].
    by apply TrimFunc_head in E.
Qed.

Lemma safe_segment_dots s : safe_segment s -> s <> "..".
Proof. intros (_ & _ & H) ->. by apply H. Qed.

(** ** The profile *)

Definition commands : list profileCommand := cp_Commands embeddedProfile.

Lemma profile_loaded :
  loadEmbeddedProfile
  = Ok (embeddedProfile, foldl (fun m c => <[pc_ID c := c]> m) ∅ commands).
Proof. reflexivity. Qed.

Lemma commands_NoDup_ID : NoDup (map pc_ID commands).
Proof. apply (bool_decide_unpack _). by vm_compute. Qed.
Lemma commands_NoDup_file : NoDup (map pc_Filename commands).
Proof. apply (bool_decide_unpack _). by vm_compute. Qed.

#[global] Instance safe_segment_dec s : Decision (safe_segment s).
Proof. unfold safe_segment. apply _. Defined.

Lemma commands_safe : Forall (fun pc => safe_segment (pc_Filename pc)) commands.
Proof. apply (bool_decide_unpack _). by vm_compute. Qed.

Lemma role_cases r : normalizeRole r = "source" \/ normalizeRole r = "target" \/ normalizeRole r = "unknown".
Proof. unfold normalizeRole. repeat case_match; auto. Qed.
Lemma role_safe r : safe_segment (normalizeRole r).
Proof.
  destruct (role_cases r) as [-> | [-> | ->]]; apply (bool_decide_unpack _); by vm_compute.
Qed.

(** ** Paths of safe segments *)

Lemma safe_path l : l <> [] -> Forall safe_segment l -> isUnsafeBundlePath (Join l "/") = false.
Proof.
  intros Hne Hl. unfold isUnsafeBundlePath. rewrite Forall_forall in Hl.
  rewrite ReplaceAll_absent.
  2:{ intros [H|(s & Hs & H)]%Join_bytes; [done|]. by apply (safe_segment_absent s) in H; [|apply Hl|]. }
  rewrite Split_Join; [|done|apply Forall_forall; intros s Hs; by apply safe_segment_plain, Hl].
  assert (Hdots : existsb (String.eqb "..") l = false).
  { apply not_true_iff_false. intros (s & Hs%list_elem_of_In & E%String.eqb_eq)%existsb_exists.
    by apply (safe_segment_dots s); [apply Hl|]. }
  rewrite Hdots. destruct l as [|s l]; [done|].
  destruct (Hl s (list_elem_of_here _ _)) as (Hs1 & Hs2 & _). destruct s as [|x s]; [done|].
  apply Forall_cons in Hs2 as [Hx _]. destruct (Join_cons_head (String x s) l) as [u ->].
  assert (Hpre : forall d, re_safe d = false -> HasPrefix (String x s +:+ u) (String d "") = false).
  { intros d Hd. change (Ascii.eqb d x && true = false).
    by rewrite (proj2 (Ascii.eqb_neq d x) (safe_byte _ _ Hx Hd)). }
  by rewrite !Hpre.
Qed.

Lemma path3_inj a b c a' b' c' :
  slashless a -> slashless b -> slashless c -> slashless a' -> slashless b' -> slashless c' ->
  a +:+ "/" +:+ b +:+ "/" +:+ c = a' +:+ "/" +:+ b' +:+ "/" +:+ c' -> a = a' /\ b = b' /\ c = c'.
Proof.
  intros Ha Hb Hc Ha' Hb' Hc' H. apply (f_equal (fun p => Split p slash)) in H.
  rewrite !Split_app, !Split_plain in H by done. by simplify_eq.
Qed.

(** ** Grouping *)

Abbreviation on_switch name := (fun c => cc_SwitchName c = name).

(** The group of one switch: the role of its first capture decides. *)
Definition group_of (captures : list CommandCapture) (name : string) : switchGroup :=
  let mine := filter (on_switch name) captures in
  let role := normalizeRole (default "" (cc_FabricRole <$> head mine)) in
  {| sg_name := name; sg_role := role; sg_safeRole := role;
     sg_safeName := sanitizeSegment name "switch"; sg_captures := mine |}.

Definition grouping_ok (captures : list CommandCapture) (st : grouping) : Prop :=
  NoDup (fst st)
  /\ (forall name, name ∈ fst st <-> exists c, c ∈ captures /\ cc_SwitchName c = name)
  /\ (forall name, name ∈ fst st -> snd st !! name = Some (group_of captures name))
  /\ (forall name, name ∉ fst st -> snd st !! name = None).

Lemma group_of_other captures c name :
  cc_SwitchName c <> name -> group_of (captures ++ [c]) name = group_of captures name.
Proof. intros H. unfold group_of. by rewrite filter_app, filter_cons_False, filter_nil, app_nil_r. Qed.

Lemma group_of_same captures c :
  filter (on_switch (cc_SwitchName c)) captures <> [] ->
  group_of (captures ++ [c]) (cc_SwitchName c) = append_capture c (group_of captures (cc_SwitchName c)).
Proof.
  intros H. unfold group_of, append_capture. rewrite filter_app, filter_cons_True, filter_nil by done.
  simpl. by destruct (filter _ captures).
Qed.

Lemma group_of_first captures c :
  filter (on_switch (cc_SwitchName c)) captures = [] ->
  group_of (captures ++ [c]) (cc_SwitchName c)
  = {| sg_name := cc_SwitchName c; sg_role := normalizeRole (cc_FabricRole c);
       sg_safeRole := normalizeRole (cc_FabricRole c);
       sg_safeName := sanitizeSegment (cc_SwitchName c) "switch"; sg_captures := [c] |}.
Proof. intros H. unfold group_of. by rewrite filter_app, filter_cons_True, filter_nil, H. Qed.

Lemma filter_empty {A} (P : A -> Prop) `{Hdec : forall x, Decision (P x)} l :
  filter P l = [] <-> forall x, x ∈ l -> ~ P x.
Proof.
  split.
  - intros H x Hx HP. apply (elem_of_nil x). rewrite <- H. by apply list_elem_of_filter.
  - intros H. destruct (filter P l) as [|y k] eqn:E; [done|].
    assert (Hy : y ∈ filter P l) by (rewrite E; left). apply list_elem_of_filter in Hy. naive_solver.
Qed.

Lemma add_capture_ok captures c st :
  grouping_ok captures st -> grouping_ok (captures ++ [c]) (add_capture st c).
Proof.
  destruct st as [order groups]. intros (Hnd & Hmem & Hin & Hout). unfold add_capture. simpl in *.
  assert (Hnames : forall name, (exists d, d ∈ captures ++ [c] /\ cc_SwitchName d = name)
                                <-> name ∈ order \/ name = cc_SwitchName c).
  { intros name. rewrite Hmem. setoid_rewrite elem_of_app. setoid_rewrite list_elem_of_singleton.
    naive_solver. }
  destruct (decide (cc_SwitchName c ∈ order)) as [Hc|Hc].
  - rewrite (Hin _ Hc). unfold grouping_ok. cbn [fst snd]. split; [done|]. split; [intros name; rewrite Hnames; naive_solver|].
    split.
    + intros name Hn. destruct (decide (name = cc_SwitchName c)) as [->|Hne].
      * rewrite lookup_insert_eq, group_of_same; [done|]. rewrite filter_empty. naive_solver.
      * rewrite lookup_insert_ne by done. rewrite group_of_other by done. auto.
    + intros name Hn. rewrite lookup_insert_ne by naive_solver. auto.
  - rewrite (Hout _ Hc). unfold grouping_ok. cbn [fst snd]. split; [apply NoDup_app; repeat split;
      [done|intros x Hx ->%list_elem_of_singleton; done|apply NoDup_singleton]|].
    split; [intros name; rewrite Hnames, elem_of_app, list_elem_of_singleton; done|]. split.
    + intros name [Hn| ->%list_elem_of_singleton]%elem_of_app.
      * rewrite lookup_insert_ne by naive_solver. rewrite group_of_other by naive_solver. auto.
      * rewrite lookup_insert_eq, group_of_first; [done|]. rewrite filter_empty. naive_solver.
    + intros name Hn. rewrite elem_of_app, list_elem_of_singleton in Hn.
      rewrite lookup_insert_ne by naive_solver. naive_solver.
Qed.

Lemma group_captures_ok captures : grouping_ok captures (group_captures captures).
Proof.
  unfold group_captures. induction captures as [|c l IH] using rev_ind.
  - split; [constructor|]. simpl. split; [|set_solver]. intros. rewrite elem_of_nil. set_solver.
  - rewrite foldl_app. by apply add_capture_ok.
Qed.

(** The groups partition the captures. *)
Lemma filter_partition {A K} `{!EqDecision K} (key : A -> K) (l : list A) (ks : list K) :
  NoDup ks -> (forall x, x ∈ l -> key x ∈ ks) ->
  mjoin ((fun k => filter (fun x => key x = k) l) <$> ks) ≡ₚ l.
Proof.
  intros Hnd. induction l as [|x l IH]; intros Hks.
  - clear. induction ks; simpl; [done|]. done.
  - assert (Hx : key x ∈ ks) by (apply Hks; left).
    apply list_elem_of_split in Hx as (k1 & k2 & ->).
    assert (Hoff : forall ks' : list K, key x ∉ ks' ->
      (fun k => filter (fun x => key x = k) (x :: l)) <$> ks'
      = (fun k => filter (fun x => key x = k) l) <$> ks').
    { intros ks' Hn. apply list_fmap_ext. intros i k Hi. rewrite filter_cons_False; [done|].
      intros <-. apply Hn. by eapply list_elem_of_lookup_2. }
    apply NoDup_app in Hnd as (_ & Hd1 & [Hd2 _]%NoDup_cons).
    rewrite fmap_app, fmap_cons, Hoff, Hoff, filter_cons_True by (done || naive_solver set_solver).
    rewrite join_app. simpl. rewrite <- Permutation_middle. constructor.
    assert (Hl : forall y, y ∈ l -> key y ∈ k1 ++ key x :: k2) by (intros; apply Hks; by right).
    specialize (IH Hl). by rewrite fmap_app, fmap_cons, join_app in IH.
Qed.

(** ** The captures of one switch by command *)

Definition indexes (byCmd : gmap string CommandCapture) (caps : list CommandCapture) : Prop :=
  forall cmd c, byCmd !! cmd = Some c <-> c ∈ caps /\ cc_Command c = cmd.

Definition twice (cmd : string) (caps : list CommandCapture) : Prop :=
  (2 <= length (filter (fun c => cc_Command c = cmd) caps))%nat.

Lemma indexes_insert m before c :
  indexes m before -> cc_Command c ∉ map cc_Command before ->
  indexes (<[cc_Command c := c]> m) (before ++ [c]).
Proof.
  intros Hm Hfresh cmd d. rewrite elem_of_app, list_elem_of_singleton.
  destruct (decide (cmd = cc_Command c)) as [->|Hne].
  - rewrite lookup_insert_eq. split; [intros [= <-]; auto|].
    intros [[Hd| ->] Hcd]; [|done]. destruct Hfresh. rewrite <- Hcd. by apply list_elem_of_fmap_2.
  - rewrite lookup_insert_ne by done. rewrite (Hm cmd d). naive_solver.
Qed.

Lemma index_captures known name caps before m :
  indexes m before -> NoDup (map cc_Command before) ->
  Forall (fun c => known (cc_Command c) = true) before ->
  match fold_result (index_capture known name) m caps with
  | Ok m' => indexes m' (before ++ caps) /\ NoDup (map cc_Command (before ++ caps))
             /\ Forall (fun c => known (cc_Command c) = true) (before ++ caps)
  | Err e => (exists c, c ∈ caps /\ known (cc_Command c) = false /\ e = UnknownCommand (cc_Command c) name)
             \/ (exists cmd, twice cmd (before ++ caps) /\ e = DuplicateCapture cmd name)
  end.
Proof.
  revert before m. induction caps as [|c caps IH]; intros before m Hm Hnd Hk; simpl.
  { by rewrite app_nil_r. }
  unfold index_capture at 1. destruct (known (cc_Command c)) eqn:Ek; simpl.
  2:{ left. exists c. split; [left|done]. }
  destruct (m !! cc_Command c) as [d|] eqn:Ed.
  { right. exists (cc_Command c). split; [|done]. apply Hm in Ed as [Hd Hcd]. unfold twice.
    rewrite filter_app, length_app, filter_cons_True by done. simpl.
    destruct (filter (fun x => cc_Command x = cc_Command c) before) as [|y k] eqn:E; [|simpl; lia].
    rewrite filter_empty in E. by destruct (E d Hd). }
  assert (Hfresh : cc_Command c ∉ map cc_Command before).
  { intros (d & Hd & Hin)%list_elem_of_fmap.
    assert (m !! cc_Command c = Some d) by (by apply Hm). congruence. }
  specialize (IH (before ++ [c]) _ (indexes_insert _ _ _ Hm Hfresh)).
  rewrite <- app_assoc, map_app in IH. simpl in IH.
  assert (Hnd' : NoDup (map cc_Command before ++ [cc_Command c])).
  { apply NoDup_app. repeat split; [done| |apply NoDup_singleton].
    by intros x Hx ->%list_elem_of_singleton. }
  specialize (IH Hnd'). rewrite Forall_app, Forall_singleton in IH. specialize (IH (conj Hk Ek)).
  destruct (fold_result _ _ caps) as [m'|e]; [done|].
  destruct IH as [(d & Hd & Hk' & ->)|H]; [left; exists d; by repeat split; [right|]|by right].
Qed.

(** ** The loop over the commands of one switch *)

Definition filename_ok (pc : profileCommand) (c : CommandCapture) : Prop :=
  cc_Filename c = "" \/ cc_Filename c = pc_Filename pc.

(** The captures of a switch in the order of the profile. *)
Definition present (byCmd : gmap string CommandCapture) (cmds : list profileCommand)
    : list (profileCommand * CommandCapture) :=
  omap (fun pc => pair pc <$> byCmd !! pc_ID pc) cmds.
Abbreviation ok_only := (filter (fun e : profileCommand * CommandCapture => captureOK (snd e) = true)).

Definition same_dom (b : build_state) : Prop :=
  forall rel, bs_relOwner b !! rel = None <-> bs_filesByRel b !! rel = None.

(** What the loop adds for the captures [es] of group [g]. *)
Record gains (g : switchGroup) (es : list (profileCommand * CommandCapture))
    (b b' : build_state) : Prop := {
  gn_files : forall rel x, bs_filesByRel b' !! rel = Some x <->
    bs_filesByRel b !! rel = Some x
    \/ exists pc c, (pc, c) ∈ ok_only es /\ rel = rel_path g pc /\ x = cc_Stdout c;
  gn_dom : same_dom b';
  gn_attempted : bs_attempted b' = bs_attempted b + Z.of_nat (length es);
  gn_succeeded : bs_succeeded b' = bs_succeeded b + Z.of_nat (length (ok_only es));
  gn_failed : bs_failed b' = bs_failed b + Z.of_nat (length es) - Z.of_nat (length (ok_only es));
  gn_switches : bs_switches b' = bs_switches b;
  gn_roles : bs_roleSet b' = bs_roleSet b;
}.

Lemma gains_nil g b : same_dom b -> gains g [] b b.
Proof. intros H. split; simpl; try lia; try done. intros. set_solver. Qed.

Lemma gains_fail g pc c es line b b' :
  captureOK c = false -> gains g es (with_failure line b) b' -> gains g ((pc, c) :: es) b b'.
Proof.
  intros Hc [G1 G2 G3 G4 G5 G6 G7].
  assert (E : ok_only ((pc, c) :: es) = ok_only es)
    by (apply filter_cons_False; simpl; congruence).
  split; try done; rewrite ?E; simpl in *; try lia. done.
Qed.

Lemma with_file_dom line rel owner x b : same_dom b -> same_dom (with_file line rel owner x b).
Proof.
  intros H r. simpl. destruct (decide (r = rel)) as [->|Hne].
  - by rewrite !lookup_insert_eq.
  - by rewrite !lookup_insert_ne.
Qed.

Lemma gains_ok g pc c es line owner b b' :
  captureOK c = true -> bs_filesByRel b !! rel_path g pc = None ->
  gains g es (with_file line (rel_path g pc) owner (cc_Stdout c) b) b' -> gains g ((pc, c) :: es) b b'.
Proof.
  intros Hc Hfree [G1 G2 G3 G4 G5 G6 G7].
  assert (E : ok_only ((pc, c) :: es) = (pc, c) :: ok_only es) by (by apply filter_cons_True).
  split; try done; rewrite ?E; simpl in *; try lia.
  intros rel x. rewrite G1. setoid_rewrite elem_of_cons.
  destruct (decide (rel = rel_path g pc)) as [->|Hne].
  - rewrite lookup_insert_eq, Hfree. split.
    + intros [[= <-]|(pc' & c' & ? & ?)]; right; [exists pc, c|exists pc', c']; auto.
    + intros [?|(pc' & c' & [[= -> ->]|?] & ?)]; [done|left; naive_solver|right; eauto].
  - rewrite lookup_insert_ne by done. split.
    + intros [?|(pc' & c' & ? & ?)]; [by left|right; exists pc', c'; auto].
    + intros [?|(pc' & c' & [[= -> ->]|?] & ?)]; [by left|naive_solver|right; eauto].
Qed.

Section Loop.
Context (sha256 : buf -> buf) (g : switchGroup) (byCmd : gmap string CommandCapture).
Context (g_role : safe_segment (sg_safeRole g)) (g_name : safe_segment (sg_safeName g)).

Lemma rel_path_safe pc : safe_segment (pc_Filename pc) -> isUnsafeBundlePath (rel_path g pc) = false.
Proof. intros H. apply (safe_path [_; _; _]); [done|]. by repeat apply Forall_cons_2. Qed.

Lemma rel_path_file pc pc' :
  safe_segment (pc_Filename pc) -> safe_segment (pc_Filename pc') ->
  rel_path g pc = rel_path g pc' -> pc_Filename pc = pc_Filename pc'.
Proof. intros H H' E. by apply path3_inj in E as (_ & _ & ?); [|by apply safe_segment_plain..]. Qed.

(** One present command whose filename is right. *)
Lemma bundle_command_step st pc c :
  byCmd !! pc_ID pc = Some c -> pc_ID pc ∉ gs_seen st -> safe_segment (pc_Filename pc) ->
  bs_filesByRel (gs_build st) !! rel_path g pc = None -> same_dom (gs_build st) ->
  filename_ok pc c ->
  exists st1, bundle_command sha256 g byCmd st pc = Ok st1
    /\ gs_seen st1 = {[pc_ID pc]} ∪ gs_seen st
    /\ gs_files st1 = gs_files st ++ (if captureOK c then [manifest_file sha256 g pc c] else [])
    /\ exists line, gs_build st1 = if captureOK c
         then with_file line (rel_path g pc) (sg_name g) (cc_Stdout c) (gs_build st)
         else with_failure line (gs_build st).
Proof.
  intros Hc Hseen Hs Hfree Hdom Hf. unfold bundle_command. rewrite Hc, bool_decide_false by done.
  replace (negb _ && negb _) with false.
  2:{ destruct Hf as [-> | ->]; [done|]. by rewrite String.eqb_refl, andb_false_r. }
  destruct (captureOK c); cbn [negb].
  - rewrite rel_path_safe, (proj2 (Hdom _)) by done. eauto 10.
  - eexists. rewrite app_nil_r. eauto 10.
Qed.

Lemma bundle_command_bad st pc c :
  byCmd !! pc_ID pc = Some c -> pc_ID pc ∉ gs_seen st -> ~ filename_ok pc c ->
  bundle_command sha256 g byCmd st pc
  = Err (FilenameMismatch (pc_ID pc) (sg_name g) (cc_Filename c) (pc_Filename pc)).
Proof.
  intros Hc Hseen Hf. unfold bundle_command. rewrite Hc, bool_decide_false by done.
  unfold filename_ok in Hf.
  destruct (String.eqb_spec (cc_Filename c) ""), (String.eqb_spec (cc_Filename c) (pc_Filename pc));
    naive_solver.
Qed.

#[local] Instance filename_ok_dec pc c : Decision (filename_ok pc c).
Proof. unfold filename_ok. apply _. Defined.

Definition loop_result (st : group_state) (cmds : list profileCommand)
    (r : result BundleError group_state) : Prop :=
  match r with
  | Ok st' =>
      let es := present byCmd cmds in
      Forall (fun e => filename_ok (fst e) (snd e)) es
      /\ gs_files st' = gs_files st ++ map (fun e => manifest_file sha256 g (fst e) (snd e)) (ok_only es)
      /\ gains g es (gs_build st) (gs_build st')
  | Err e => exists pc c, pc ∈ cmds /\ byCmd !! pc_ID pc = Some c /\ ~ filename_ok pc c
      /\ e = FilenameMismatch (pc_ID pc) (sg_name g) (cc_Filename c) (pc_Filename pc)
  end.

(** Composing one step with the rest of the loop. *)
Lemma loop_result_cons st st1 pc c cmds r :
  byCmd !! pc_ID pc = Some c -> filename_ok pc c ->
  bs_filesByRel (gs_build st) !! rel_path g pc = None ->
  gs_files st1 = gs_files st ++ (if captureOK c then [manifest_file sha256 g pc c] else []) ->
  (exists line, gs_build st1 = if captureOK c
     then with_file line (rel_path g pc) (sg_name g) (cc_Stdout c) (gs_build st)
     else with_failure line (gs_build st)) ->
  loop_result st1 cmds r -> loop_result st (pc :: cmds) r.
Proof.
  intros Hc Hf Hfree Hfiles [line Hb]. destruct r as [st'|e]; unfold loop_result.
  - unfold present. simpl. rewrite Hc. simpl. change (omap _ cmds) with (present byCmd cmds).
    intros (H1 & H2 & H3). split; [by constructor|]. rewrite H2, Hfiles, Hb in *.
    destruct (captureOK c) eqn:E.
    + rewrite filter_cons_True by done. rewrite <- app_assoc. split; [done|]. by eapply gains_ok.
    + rewrite filter_cons_False by (simpl; congruence). rewrite app_nil_r. split; [done|].
      by eapply gains_fail.
  - intros (pc' & c' & ? & ?). exists pc', c'. split; [by right|done].
Qed.

Lemma bundle_commands cmds st :
  NoDup (map pc_ID cmds) -> NoDup (map pc_Filename cmds) ->
  Forall (fun pc => safe_segment (pc_Filename pc)) cmds ->
  (forall pc, pc ∈ cmds -> pc_ID pc ∉ gs_seen st) ->
  (forall pc, pc ∈ cmds -> bs_filesByRel (gs_build st) !! rel_path g pc = None) ->
  same_dom (gs_build st) ->
  loop_result st cmds (fold_result (bundle_command sha256 g byCmd) st cmds).
Proof.
  revert st. induction cmds as [|pc cmds IH]; intros st Hid Hfile Hsafe Hseen Hfree Hdom.
  { cbn. split; [constructor|]. split; [by rewrite app_nil_r|by apply gains_nil]. }
  apply NoDup_cons in Hid as [Hid1 Hid]. apply NoDup_cons in Hfile as [Hf1 Hfile].
  apply Forall_cons in Hsafe as [Hs1 Hsafe]. cbn [fold_result].
  destruct (byCmd !! pc_ID pc) as [c|] eqn:Ec.
  2:{ unfold bundle_command at 1. rewrite Ec.
      assert (H : loop_result st cmds (fold_result (bundle_command sha256 g byCmd) st cmds))
        by (apply IH; auto; intros; [apply Hseen|apply Hfree]; by right).
      unfold loop_result, present in *. simpl. rewrite Ec. destruct (fold_result _ _ _); [done|].
      destruct H as (pc' & c' & ? & ?). exists pc', c'. split; [by right|done]. }
  destruct (decide (filename_ok pc c)) as [Hf|Hf].
  2:{ rewrite (bundle_command_bad st pc c) by (auto; apply Hseen; left). exists pc, c.
      split; [left|done]. }
  destruct (bundle_command_step st pc c) as (st1 & -> & Hsn & Hfl & line & Hb);
    auto; [apply Hseen; left|apply Hfree; left|].
  eapply loop_result_cons; eauto; [apply Hfree; left|]. apply IH; auto.
  - intros pc' Hin. rewrite Hsn. intros [E%elem_of_singleton|Hin']%elem_of_union.
    + apply Hid1. rewrite <- E. by apply list_elem_of_fmap_2.
    + by apply (Hseen pc'); [right|].
  - intros pc' Hin. rewrite Hb. destruct (captureOK c); simpl; [|apply Hfree; by right].
    rewrite lookup_insert_ne; [apply Hfree; by right|]. intros E. apply rel_path_file in E; [|done|].
    + apply Hf1. rewrite E. by apply list_elem_of_fmap_2.
    + rewrite Forall_forall in Hsafe. auto.
  - rewrite Hb. destruct (captureOK c); [by apply with_file_dom|done].
Qed.
End Loop.

(** ** All switches *)

Definition role_of (captures : list CommandCapture) (name : string) : string :=
  sg_role (group_of captures name).
Definition folder_of (captures : list CommandCapture) (name : string) : string :=
  folder (group_of captures name).
#[local] Arguments folder_of : simpl never.
#[local] Arguments group_of : simpl never.

(** The input that each refusal points at. *)
Definition explains (captures : list CommandCapture) (e : BundleError) : Prop :=
  match e with
  | FolderCollision owner name f =>
      owner <> name
      /\ (exists c, c ∈ captures /\ cc_SwitchName c = owner)
      /\ (exists c, c ∈ captures /\ cc_SwitchName c = name)
      /\ folder_of captures owner = f /\ folder_of captures name = f
  | UnknownCommand cmd switch =>
      cmd ∉ map pc_ID commands
      /\ exists c, c ∈ captures /\ cc_SwitchName c = switch /\ cc_Command c = cmd
  | DuplicateCapture cmd switch => twice cmd (filter (on_switch switch) captures)
  | FilenameMismatch cmd switch got expected =>
      FilenameForCommand cmd = Some expected /\ got <> "" /\ got <> expected
      /\ exists c, c ∈ captures /\ cc_SwitchName c = switch /\ cc_Command c = cmd
                   /\ cc_Filename c = got
  | _ => False
  end.

Lemma check_folders captures groups order before owners :
  (forall name, name ∈ order -> groups !! name = Some (group_of captures name)) ->
  (forall name, name ∈ before ++ order -> exists c, c ∈ captures /\ cc_SwitchName c = name) ->
  NoDup (before ++ order) ->
  (forall f o, owners !! f = Some o <-> o ∈ before /\ folder_of captures o = f) ->
  NoDup (map (folder_of captures) before) ->
  match fold_result (check_folder groups) owners order with
  | Ok _ => NoDup (map (folder_of captures) (before ++ order))
  | Err e => explains captures e
  end.
Proof.
  revert before owners. induction order as [|name order IH]; intros before owners Hg Hc Hnd Ho Hf; simpl.
  { by rewrite app_nil_r. }
  unfold check_folder at 1. rewrite (Hg name) by left. change (sg_name (group_of captures name)) with name.
  change (folder (group_of captures name)) with (folder_of captures name).
  assert (Hfresh : name ∉ before).
  { intros Hin. apply NoDup_app in Hnd as (_ & H & _). apply (H name Hin). left. }
  destruct (owners !! folder_of captures name) as [o|] eqn:E.
  { apply Ho in E as [Hin Hfo]. destruct (String.eqb_spec o name) as [->|Hne]; [done|]. simpl.
    repeat split; [done|apply Hc; set_solver|apply Hc; set_solver|done]. }
  specialize (IH (before ++ [name]) (<[folder_of captures name := name]> owners)).
  rewrite <- !app_assoc in IH. simpl in IH. apply IH; auto.
  - intros. apply Hg. by right.
  - intros f o. rewrite elem_of_app, list_elem_of_singleton.
    destruct (decide (f = folder_of captures name)) as [->|Hne].
    + rewrite lookup_insert_eq. split; [intros [= <-]; auto|]. intros [[Hin| ->] Hfo]; [|done].
      assert (owners !! folder_of captures name = Some o) by (by apply Ho). congruence.
    + rewrite lookup_insert_ne by done. rewrite Ho. split; [intros []; auto|].
      intros [[?| ->] <-]; done.
  - rewrite map_app. apply NoDup_app. repeat split; [done| |apply NoDup_singleton].
    intros f (o & -> & Hin)%list_elem_of_fmap Hx%list_elem_of_singleton.
    assert (owners !! folder_of captures name = Some o) by (by apply Ho). congruence.
Qed.

Lemma filename_lookup pc : pc ∈ commands -> FilenameForCommand (pc_ID pc) = Some (pc_Filename pc).
Proof.
  assert (H : forallb (fun pc => bool_decide (FilenameForCommand (pc_ID pc) = Some (pc_Filename pc)))
                commands = true) by (by vm_compute).
  rewrite forallb_forall in H. intros Hin%list_elem_of_In. by apply H, bool_decide_eq_true_1 in Hin.
Qed.

(** From here on only the facts above matter. *)
#[local] Opaque commands.

Lemma present_spec byCmd caps cmds pc c :
  indexes byCmd caps ->
  (pc, c) ∈ present byCmd cmds <-> pc ∈ cmds /\ c ∈ caps /\ cc_Command c = pc_ID pc.
Proof.
  intros Hm. unfold present. rewrite list_elem_of_omap. split.
  - intros (pc' & Hin & H). apply fmap_Some in H as (c' & E & [= -> ->]). by apply Hm in E.
  - intros (Hin & H). exists pc. split; [done|]. apply Hm in H. by rewrite H.
Qed.

Lemma present_perm byCmd caps cmds :
  indexes byCmd caps -> NoDup (map cc_Command caps) -> NoDup (map pc_ID cmds) ->
  Forall (fun c => cc_Command c ∈ map pc_ID cmds) caps ->
  map snd (present byCmd cmds) ≡ₚ caps.
Proof.
  intros Hm Hc Hid Hk. apply NoDup_Permutation.
  - apply (NoDup_fmap_1 cc_Command). revert Hid. clear Hk.
    induction cmds as [|pc cmds IH]; [constructor|]. intros [Hn Hid]%NoDup_cons. unfold present. simpl.
    change (omap _ cmds) with (present byCmd cmds).
    destruct (byCmd !! pc_ID pc) as [c|] eqn:E; simpl; [|auto]. constructor; [|auto].
    apply Hm in E as [_ ->]. intros (d & E & ([pc' d'] & -> & Hd)%list_elem_of_fmap)%list_elem_of_fmap.
    apply (present_spec _ caps) in Hd as (Hin & _ & E'); [|done]. simpl in E. apply Hn.
    rewrite E, E'. by apply list_elem_of_fmap_2.
  - by apply (NoDup_fmap_1 cc_Command).
  - intros c. rewrite list_elem_of_fmap. split.
    + intros ([pc c'] & -> & H). by apply (present_spec _ caps) in H as (_ & ? & _).
    + intros Hin. rewrite Forall_forall in Hk. specialize (Hk c Hin).
      apply list_elem_of_fmap in Hk as (pc & E & Hpc).
      exists (pc, c). split; [done|]. by apply (present_spec _ caps).
Qed.

Section Switches.
Context (sha256 : buf -> buf) (captures : list CommandCapture).
Context (meta : gmap string SwitchMeta) (groups : gmap string switchGroup).

Abbreviation mine name := (filter (on_switch name) captures).
Abbreviation all_mine names := (mjoin ((fun name => mine name) <$> names)).
Abbreviation ok_captures := (filter (fun c => captureOK c = true)).

(** The captures of one switch are fit for a bundle. *)
Definition switch_ok (name : string) : Prop :=
  NoDup (map cc_Command (mine name))
  /\ forall c, c ∈ mine name -> cc_Command c ∈ map pc_ID commands
     /\ (cc_Filename c = "" \/ FilenameForCommand (cc_Command c) = Some (cc_Filename c)).

(** The manifest file [f] of switch [name] stands for the good capture [c]. *)
Definition stands_for (name : string) (f : manifestFile) (c : CommandCapture) : Prop :=
  c ∈ mine name /\ captureOK c = true
  /\ exists pc, pc ∈ commands /\ cc_Command c = pc_ID pc
     /\ f = manifest_file sha256 (group_of captures name) pc c.

Definition switch_entry (name : string) (sw : manifestSwitch) : Prop :=
  sw = manifest_switch meta name (ms_Files sw)
  /\ map bf_Command (ms_Files sw) `sublist_of` map pc_ID commands
  /\ forall f, f ∈ ms_Files sw <-> exists c, stands_for name f c.

Record built (names : list string) (b : build_state) : Prop := {
  bt_dom : same_dom b;
  bt_files : forall rel x, bs_filesByRel b !! rel = Some x <->
    exists name f c, name ∈ names /\ stands_for name f c /\ rel = bf_Path f /\ x = cc_Stdout c;
  bt_switches : Forall2 switch_entry names (bs_switches b);
  bt_attempted : bs_attempted b = Z.of_nat (length (all_mine names));
  bt_succeeded : bs_succeeded b = Z.of_nat (length (ok_captures (all_mine names)));
  bt_failed : bs_failed b = bs_attempted b - bs_succeeded b;
  bt_roles : bs_roleSet b = list_to_set (map (role_of captures) names);
  bt_ok : Forall switch_ok names;
}.

Lemma built_initial t : built [] (initial_state t).
Proof.
  split; try done; simpl.
  - intros rel x. rewrite lookup_empty. split; [done|]. intros (? & ? & ? & ?%elem_of_nil & _). done.
Qed.

Lemma group_safe name :
  safe_segment (sg_safeRole (group_of captures name))
  /\ safe_segment (sg_safeName (group_of captures name)).
Proof.
  unfold group_of. cbn [sg_safeRole sg_safeName]. split; [apply role_safe|].
  apply sanitize_safe. apply (bool_decide_unpack _). by vm_compute.
Qed.

Lemma command_safe pc : pc ∈ commands -> safe_segment (pc_Filename pc).
Proof. pose proof commands_safe as H. rewrite Forall_forall in H. apply H. Qed.

(** Two switches with different folders have different paths. *)
Lemma rel_path_folder name name' pc pc' :
  pc ∈ commands -> pc' ∈ commands ->
  rel_path (group_of captures name) pc = rel_path (group_of captures name') pc' ->
  folder_of captures name = folder_of captures name'.
Proof.
  intros H%command_safe H'%command_safe E.
  destruct (group_safe name), (group_safe name').
  apply path3_inj in E as (E1 & E2 & _); [|by apply safe_segment_plain..].
  unfold folder_of, folder. by rewrite E1, E2.
Qed.

Lemma present_sublist byCmd cmds :
  map fst (ok_only (present byCmd cmds)) `sublist_of` cmds.
Proof.
  induction cmds as [|pc cmds IH]; [done|]. unfold present. simpl.
  change (omap _ cmds) with (present byCmd cmds).
  destruct (byCmd !! pc_ID pc) as [c|]; simpl; [|by apply sublist_cons].
  destruct (captureOK c) eqn:E.
  - rewrite filter_cons_True by done. simpl. by apply sublist_skip.
  - rewrite filter_cons_False by (simpl; congruence). by apply sublist_cons.
Qed.

Lemma index_mine name byCmd :
  fold_result (index_capture (fun cmd => bool_decide (cmd ∈ map pc_ID commands)) name) ∅ (mine name)
    = Ok byCmd ->
  indexes byCmd (mine name) /\ NoDup (map cc_Command (mine name))
  /\ Forall (fun c => cc_Command c ∈ map pc_ID commands) (mine name).
Proof.
  intros H. pose proof (index_captures (fun cmd => bool_decide (cmd ∈ map pc_ID commands))
    name (mine name) [] ∅) as Hi. rewrite H in Hi. destruct Hi as (H1 & H2 & H3); [|constructor..|].
  - intros cmd c. rewrite lookup_empty. set_solver.
  - split; [done|split; [done|]]. eapply Forall_impl; [exact H3|]. simpl. intros c Hc.
    by apply bool_decide_eq_true_1 in Hc.
Qed.

Lemma index_mine_err name e :
  fold_result (index_capture (fun cmd => bool_decide (cmd ∈ map pc_ID commands)) name) ∅ (mine name)
    = Err e -> explains captures e.
Proof.
  intros H. pose proof (index_captures (fun cmd => bool_decide (cmd ∈ map pc_ID commands))
    name (mine name) [] ∅) as Hi. rewrite H in Hi.
  destruct Hi as [(c & Hc & Hk & ->)|(cmd & Ht & ->)]; [|constructor..| |done].
  - intros cmd c. rewrite lookup_empty. set_solver.
  - apply bool_decide_eq_false_1 in Hk. apply list_elem_of_filter in Hc as [Hn Hc].
    split; [done|]. by exists c.
Qed.

Lemma free_paths names b name pc :
  built names b -> (forall n, n ∈ names -> folder_of captures n <> folder_of captures name) ->
  pc ∈ commands -> bs_filesByRel b !! rel_path (group_of captures name) pc = None.
Proof.
  intros [_ Hb _ _ _ _ _ _] Hf Hpc. apply eq_None_not_Some. intros [x Hx].
  apply Hb in Hx as (n & f & c & Hn & (_ & _ & pc' & Hpc' & _ & ->) & E & _).
  by apply (Hf n Hn), eq_sym, (rel_path_folder _ _ pc pc').
Qed.

(** What the loop over the commands yields, in terms of [stands_for]. *)
Lemma present_stands name byCmd f :
  indexes byCmd (mine name) ->
  f ∈ map (fun e => manifest_file sha256 (group_of captures name) (fst e) (snd e))
        (ok_only (present byCmd commands))
  <-> exists c, stands_for name f c.
Proof.
  intros Hi. rewrite list_elem_of_fmap. split.
  - intros ([pc c] & -> & [Hok H]%list_elem_of_filter). apply (present_spec _ (mine name)) in H; [|done].
    destruct H as (? & ? & ?). exists c. unfold stands_for. eauto 10.
  - intros (c & Hc & Hok & pc & Hpc & Hcmd & ->). exists (pc, c). split; [done|].
    apply list_elem_of_filter. split; [done|]. by apply (present_spec _ (mine name)).
Qed.

Lemma present_files name byCmd rel x :
  indexes byCmd (mine name) ->
  (exists pc c, (pc, c) ∈ ok_only (present byCmd commands)
     /\ rel = rel_path (group_of captures name) pc /\ x = cc_Stdout c)
  <-> exists f c, stands_for name f c /\ rel = bf_Path f /\ x = cc_Stdout c.
Proof.
  intros Hi. split.
  - intros (pc & c & [Hok H]%list_elem_of_filter & -> & ->).
    apply (present_spec _ (mine name)) in H; [|done]. destruct H as (? & ? & ?).
    exists (manifest_file sha256 (group_of captures name) pc c), c. unfold stands_for. eauto 10.
  - intros (f & c & (Hc & Hok & pc & Hpc & Hcmd & ->) & -> & ->). exists pc, c. split; [|done].
    apply list_elem_of_filter. split; [done|]. by apply (present_spec _ (mine name)).
Qed.

Lemma filenames_ok name byCmd :
  indexes byCmd (mine name) -> Forall (fun c => cc_Command c ∈ map pc_ID commands) (mine name) ->
  Forall (fun e => filename_ok (fst e) (snd e)) (present byCmd commands) ->
  NoDup (map cc_Command (mine name)) -> switch_ok name.
Proof.
  intros Hi Hk Hf Hnd. split; [done|]. intros c Hc. rewrite Forall_forall in Hk; rewrite Forall_forall in Hf.
  specialize (Hk c Hc) as Hk'. split; [done|].
  apply list_elem_of_fmap in Hk' as (pc & E & Hpc).
  destruct (Hf (pc, c)) as [H|H]; [by apply (present_spec _ (mine name))|by left|].
  right. simpl in H. by rewrite E, H, filename_lookup.
Qed.

Lemma ok_only_length es : length (ok_only es) = length (ok_captures (map snd es)).
Proof.
  induction es as [|e es IH]; [done|]. simpl. rewrite !filter_cons. simpl.
  destruct (decide (captureOK (snd e) = true)); simpl; by rewrite IH.
Qed.

Lemma bundle_switch_step names b name :
  groups !! name = Some (group_of captures name) -> built names b ->
  (forall n, n ∈ names -> folder_of captures n <> folder_of captures name) ->
  match bundle_switch sha256 commands groups meta b name with
  | Ok b' => built (names ++ [name]) b'
  | Err e => explains captures e
  end.
Proof.
  intros Hg Hb Hf. unfold bundle_switch. rewrite Hg.
  change (sg_name (group_of captures name)) with name.
  change (sg_captures (group_of captures name)) with (mine name).
  destruct (fold_result (index_capture _ _) _ _) as [byCmd|e] eqn:Ei; cbn [mbind result_bind];
    [|by eapply index_mine_err].
  apply index_mine in Ei as (Hi & Hnd & Hk). destruct (group_safe name) as [Hr Hn].
  set (st := {| gs_build := add_role _ b; gs_files := []; gs_seen := ∅ |}).
  pose proof (bundle_commands sha256 (group_of captures name) byCmd Hr Hn commands st
    commands_NoDup_ID commands_NoDup_file commands_safe) as Hloop.
  destruct (fold_result (bundle_command _ _ _) _ _) as [st'|e]; cbn [mbind result_bind mret result_ret].
  - destruct Hloop as (Hfn & Hfiles & [G1 G2 G3 G4 G5 G6 G7]);
      [set_solver|intros pc Hpc; exact (free_paths names b name pc Hb Hf Hpc)|apply Hb|].
    pose proof (present_perm byCmd (mine name) commands Hi Hnd commands_NoDup_ID Hk) as Hperm.
    assert (Hlen : length (present byCmd commands) = length (mine name))
      by (by rewrite <- Hperm, length_map).
    assert (Hoks : length (ok_only (present byCmd commands)) = length (ok_captures (mine name)))
      by (by rewrite ok_only_length, Hperm).
    destruct Hb as [B1 B2 B3 B4 B5 B6 B7 B8]. subst st. cbn in G1, G3, G4, G5, G6, G7, Hfiles.
    split; cbn.
    + exact G2.
    + intros rel x. rewrite G1, B2, (present_files name) by done. split.
      * intros [(n & f & c & Hin & H)|(f & c & H)]; [exists n|exists name]; exists f, c;
          (split; [|exact H]); apply elem_of_app; [by left|right; left].
      * intros (n & f & c & [Hin| ->%list_elem_of_singleton]%elem_of_app & H);
          [left; by exists n, f, c|right; by exists f, c].
    + rewrite G6. apply Forall2_app; [done|]. constructor; [|constructor]. split; [|split].
      * unfold manifest_switch. by destruct (meta !! name).
      * replace (ms_Files _) with (gs_files st') by (unfold manifest_switch; by destruct (meta !! name)).
        rewrite Hfiles, map_map. cbn. rewrite <- map_map.
        apply (fmap_sublist pc_ID), present_sublist.
      * replace (ms_Files _) with (gs_files st') by (unfold manifest_switch; by destruct (meta !! name)).
        intros f. rewrite Hfiles. by apply present_stands.
    + rewrite fmap_app, join_app, length_app, G3, B4. simpl. rewrite app_nil_r. lia.
    + rewrite fmap_app, join_app, filter_app, length_app, G4, B5. simpl. rewrite app_nil_r. lia.
    + lia.
    + rewrite G7, B7, map_app. simpl. set_solver.
    + apply Forall_app. split; [done|]. constructor; [|constructor]. by eapply filenames_ok.
  - destruct Hloop as (pc & c & Hpc & Hc & Hbad & ->);
      [set_solver|intros pc Hpc; exact (free_paths names b name pc Hb Hf Hpc)|apply Hb|].
    apply Hi in Hc as [[Hn' Hc]%list_elem_of_filter Hcmd]. unfold filename_ok in Hbad.
    split; [by apply filename_lookup|]. split; [by intros ?; apply Hbad; left|].
    split; [by intros ?; apply Hbad; right|]. by exists c.
Qed.

Lemma bundle_switches names rest b :
  (forall name, name ∈ rest -> groups !! name = Some (group_of captures name)) ->
  NoDup (map (folder_of captures) (names ++ rest)) -> built names b ->
  match fold_result (bundle_switch sha256 commands groups meta) b rest with
  | Ok b' => built (names ++ rest) b'
  | Err e => explains captures e
  end.
Proof.
  revert names b. induction rest as [|name rest IH]; intros names b Hg Hnd Hb; simpl.
  { by rewrite app_nil_r. }
  pose proof (bundle_switch_step names b name (Hg name (list_elem_of_here _ _)) Hb) as Hs.
  assert (Hf : forall n, n ∈ names -> folder_of captures n <> folder_of captures name).
  { intros n Hn E. rewrite map_app, NoDup_app in Hnd. destruct Hnd as (_ & H & _).
    apply (H (folder_of captures n)); [by apply list_elem_of_fmap_2|]. rewrite E. left. }
  destruct (bundle_switch _ _ _ _ b name) as [b'|e]; [|by apply Hs].
  specialize (IH (names ++ [name]) b'). rewrite <- !app_assoc in IH. apply IH; auto.
  intros; apply Hg; by right.
Qed.
End Switches.

(** ** The archive *)

(** The rule of three segments, which all files of a bundle follow. *)
Definition three_segments (rel : string) : Prop :=
  exists a b c, safe_segment a /\ safe_segment b /\ safe_segment c /\ rel = Join [a; b; c] "/".

Lemma stands_for_segments sha256 captures name f c :
  stands_for sha256 captures name f c -> three_segments (bf_Path f).
Proof.
  intros (_ & _ & pc & Hpc & _ & ->). destruct (group_safe captures name).
  exists (sg_safeRole (group_of captures name)), (sg_safeName (group_of captures name)), (pc_Filename pc).
  split; [done|]. split; [done|]. split; [by apply command_safe|done].
Qed.

Lemma three_segments_not_plain rel : three_segments rel -> ~ slashless rel.
Proof.
  intros (a & b & c & _ & _ & _ & ->) H. apply H. simpl. rewrite !bytes_app, !elem_of_app.
  right. left. left.
Qed.

Lemma root_inj s u : BundleRoot +:+ "/" +:+ s = BundleRoot +:+ "/" +:+ u -> s = u.
Proof.
  intros H. apply (f_equal bytes) in H. rewrite !bytes_app in H.
  by apply app_inv_head, app_inv_head, bytes_inj in H.
Qed.

Lemma zip_entries_ok mj sj log files t :
  (forall rel, is_Some (files !! rel) -> three_segments rel) ->
  NoDup (map ze_name (zip_entries mj sj log files t))
  /\ Forall (fun e => isUnsafeBundlePath (ze_name e) = false) (zip_entries mj sj log files t).
Proof.
  intros Hseg. set (rels := sort_Strings (map fst (map_to_list files))).
  assert (Hrels : forall rel, rel ∈ rels -> three_segments rel).
  { intros rel Hin. apply Hseg. unfold rels in Hin. rewrite sort_Strings_perm in Hin.
    apply list_elem_of_fmap in Hin as ([k x] & -> & Hk). apply elem_of_map_to_list in Hk. by exists x. }
  assert (Hnames : map ze_name (zip_entries mj sj log files t)
    = map (fun rel => BundleRoot +:+ "/" +:+ rel)
        (["manifest.json"; "collection-log.txt"; "collection-summary.json"] ++ rels)).
  { unfold zip_entries. fold rels. rewrite !map_app, map_map. done. }
  split.
  - rewrite Hnames. apply NoDup_fmap_2; [intros s u; apply root_inj|].
    apply NoDup_app. split; [apply (bool_decide_unpack _); by vm_compute|]. split.
    + intros x Hx Hin%Hrels%three_segments_not_plain. apply Hin. revert Hx.
      rewrite !elem_of_cons, elem_of_nil.
      intros [-> |[-> |[-> |[]]]]; apply (bool_decide_unpack _); by vm_compute.
    + unfold rels. rewrite sort_Strings_perm. apply NoDup_fst_map_to_list.
  - apply Forall_forall. intros e He. assert (Hn : ze_name e ∈ map ze_name (zip_entries mj sj log files t))
      by (by apply list_elem_of_fmap_2).
    rewrite Hnames in Hn. apply list_elem_of_fmap in Hn as (rel & -> & [Hin|Hin]%elem_of_app).
    + rewrite !elem_of_cons, elem_of_nil in Hin. destruct Hin as [-> |[-> |[-> |[]]]]; reflexivity.
    + destruct (Hrels rel Hin) as (a & b & c & Ha & Hb & Hc & ->).
      apply (safe_path [BundleRoot; a; b; c]); [done|]. constructor; [|by repeat apply Forall_cons_2].
      apply (bool_decide_unpack _). by vm_compute.
Qed.

Lemma zip_entries_file mj sj log files t rel x :
  files !! rel = Some x ->
  exists e, e ∈ zip_entries mj sj log files t
    /\ ze_name e = BundleRoot +:+ "/" +:+ rel /\ ze_content e = x.
Proof.
  intros Hx. unfold zip_entries.
  exists (Build_zip_entry (BundleRoot +:+ "/" +:+ rel) (t - t mod Second) x).
  split; [|done]. apply elem_of_app. right. apply list_elem_of_fmap. exists rel.
  rewrite Hx. split; [done|]. rewrite sort_Strings_perm. apply list_elem_of_fmap. exists (rel, x).
  split; [done|]. by apply elem_of_map_to_list.
Qed.

(** ** The writer *)

(** Captures that a bundle can hold. *)
Definition consistent (captures : list CommandCapture) : Prop :=
  NoDup (map (fun c => (cc_SwitchName c, cc_Command c)) captures)
  /\ (forall c, c ∈ captures -> cc_Command c ∈ map pc_ID commands
        /\ (cc_Filename c = "" \/ FilenameForCommand (cc_Command c) = Some (cc_Filename c)))
  /\ (forall c d, c ∈ captures -> d ∈ captures ->
        folder_of captures (cc_SwitchName c) = folder_of captures (cc_SwitchName d) ->
        cc_SwitchName c = cc_SwitchName d).

Lemma NoDup_pairs captures :
  (forall name, NoDup (map cc_Command (filter (on_switch name) captures))) ->
  NoDup (map (fun c => (cc_SwitchName c, cc_Command c)) captures).
Proof.
  induction captures as [|c l IH]; intros H; simpl; constructor.
  - intros (d & [= E1 E2] & Hd)%list_elem_of_fmap. specialize (H (cc_SwitchName c)).
    rewrite filter_cons_True in H by done. apply NoDup_cons in H as [Hn _]. apply Hn.
    apply list_elem_of_fmap. exists d. split; [done|]. by apply list_elem_of_filter.
  - apply IH. intros name. specialize (H name). rewrite filter_cons in H.
    destruct (decide (cc_SwitchName c = name)); [|done]. by apply NoDup_cons in H as [_ ?].
Qed.

Lemma twice_not_NoDup cmd caps : twice cmd caps -> ~ NoDup (map cc_Command caps).
Proof.
  unfold twice. induction caps as [|c l IH]; simpl; [lia|].
  rewrite filter_cons. intros H [Hn Hnd]%NoDup_cons.
  destruct (decide (cc_Command c = cmd)) as [E|_]; [|by apply IH].
  destruct (filter (fun c => cc_Command c = cmd) l) as [|d k] eqn:Ef; [simpl in H; lia|].
  assert (Hd : d ∈ filter (fun c => cc_Command c = cmd) l) by (rewrite Ef; left).
  apply list_elem_of_filter in Hd as [Hd1 Hd2]. apply Hn. rewrite E, <- Hd1. by apply list_elem_of_fmap_2.
Qed.

Lemma consistent_switch captures name :
  consistent captures -> NoDup (map cc_Command (filter (on_switch name) captures)).
Proof.
  intros (H & _). induction captures as [|c l IH]; [constructor|].
  apply NoDup_cons in H as [Hn Hnd]. rewrite filter_cons.
  destruct (decide (cc_SwitchName c = name)) as [<-|]; [|by apply IH].
  simpl. constructor; [|by apply IH]. intros (d & E & [Hs Hd]%list_elem_of_filter)%list_elem_of_fmap.
  apply Hn. rewrite E, <- Hs. by apply (list_elem_of_fmap_2 (fun c => (cc_SwitchName c, cc_Command c))).
Qed.

Lemma explains_inconsistent captures e : explains captures e -> ~ consistent captures.
Proof.
  intros He Hc. pose proof (consistent_switch captures) as Hsw. specialize (fun n => Hsw n Hc).
  destruct Hc as (_ & Hf & Hfold). destruct e; simpl in He; try done.
  - destruct He as (Hne & (c & Hc & <-) & (d & Hd & <-) & E1 & E2).
    apply Hne, Hfold; [done..|]. by rewrite E1, E2.
  - destruct He as (Hn & c & Hc & _ & <-). by apply Hn, Hf.
  - apply twice_not_NoDup in He. by apply He, Hsw.
  - destruct He as (He & Hn1 & Hn2 & c & Hc & _ & <- & <-). apply Hf in Hc as [_ [?|E]]; [done|].
    congruence.
Qed.

(** ** What both theorems need of the run *)

Section Writer.
Context (sha256 : buf -> buf) (marshal_manifest : Manifest -> result string buf)
        (marshal_summary : Summary -> result string buf) (zip_write : list zip_entry -> result string buf).

Abbreviation build := (BuildEvidenceBundle sha256 marshal_manifest marshal_summary zip_write).

Definition meta_of (opts : BuildOptions) : gmap string SwitchMeta :=
  foldl (fun m s => <[sm_SwitchName s := s]> m) ∅ (bo_SwitchMeta opts).
Definition time_of (now : GoTime) (opts : BuildOptions) : GoTime :=
  if IsZero (bo_CollectedAt opts) then now else bo_CollectedAt opts.

(** The run up to the archive: refused for a reason, or [built]. *)
Lemma build_run now captures opts :
  (exists e, build now captures opts = Err e /\ explains captures e)
  \/ exists b, let order := fst (group_captures captures) in
       built sha256 captures (meta_of opts) order b /\ consistent captures
       /\ build now captures opts =
          (let t := time_of now opts in
           let manifest := bundle_manifest opts t b in
           let summary := bundle_summary opts "1.0" order t b in
           zip ← writeZip marshal_manifest marshal_summary zip_write manifest summary
                   (bundle_log order b) (bs_filesByRel b) t;
           mret {| br_Zip := zip; br_Manifest := manifest; br_Summary := summary;
                   br_Log := bundle_log order b |}).
Proof.
  unfold BuildEvidenceBundle. rewrite profile_loaded. cbn [mbind result_bind].
  fold (meta_of opts) (time_of now opts). change (cp_Commands embeddedProfile) with commands.
  change (cp_ProfileVersion embeddedProfile) with "1.0".
  pose proof (group_captures_ok captures) as (Hnd & Hmem & Hin & _).
  destruct (group_captures captures) as [order groups]. cbn [fst snd] in *.
  pose proof (check_folders captures groups order [] ∅ Hin) as Hfold.
  destruct (fold_result (check_folder groups) ∅ order) as [owners|e]; cbn [mbind result_bind].
  2:{ left. exists e. split; [done|]. apply Hfold; [intros n Hn; by apply Hmem|done| |constructor].
      intros f o. rewrite lookup_empty. set_solver. }
  assert (HF : NoDup (map (folder_of captures) order)).
  { apply Hfold; [intros n Hn; by apply Hmem|done| |constructor].
    intros f o. rewrite lookup_empty. set_solver. }
  pose proof (bundle_switches sha256 captures (meta_of opts) groups [] order
    (initial_state (time_of now opts)) Hin HF (built_initial _ _ _ _)) as Hb.
  destruct (fold_result (bundle_switch _ _ _ _) _ order) as [b|e]; cbn [mbind result_bind].
  2:{ left. by exists e. }
  right. exists b. split; [done|]. split; [|done].
  assert (Hsw : forall name, name ∈ order -> switch_ok captures name).
  { destruct Hb as [_ _ _ _ _ _ _ H]. by rewrite Forall_forall in H. }
  split; [|split].
  - apply NoDup_pairs. intros name. destruct (decide (name ∈ order)) as [Hn|Hn]; [by apply Hsw|].
    replace (filter _ captures) with (@nil CommandCapture); [constructor|].
    symmetry. apply filter_empty. intros c Hc E. apply Hn, Hmem. eauto.
  - intros c Hc. apply (Hsw (cc_SwitchName c)); [apply Hmem; eauto|]. by apply list_elem_of_filter.
  - intros c d Hc Hd E. assert (Hc' : cc_SwitchName c ∈ order) by (apply Hmem; eauto).
    assert (Hd' : cc_SwitchName d ∈ order) by (apply Hmem; eauto).
    apply list_elem_of_lookup in Hc' as [i Hi], Hd' as [j Hj].
    assert (i = j); [|by simplify_eq].
    eapply (NoDup_lookup (map (folder_of captures) order)); [done| |].
    + by rewrite list_lookup_fmap, Hi.
    + by rewrite list_lookup_fmap, Hj, E.
Qed.

Lemma all_captures captures opts b :
  let order := fst (group_captures captures) in
  built sha256 captures (meta_of opts) order b ->
  bs_attempted b = Z.of_nat (length captures)
  /\ bs_succeeded b = Z.of_nat (length (filter (fun c => captureOK c = true) captures)).
Proof.
  intros order [_ _ _ H1 H2 _ _ _]. destruct (group_captures_ok captures) as (Hnd & Hmem & _).
  pose proof (filter_partition cc_SwitchName captures order Hnd) as Hp.
  assert (Hall : forall c, c ∈ captures -> cc_SwitchName c ∈ order) by (intros; apply Hmem; eauto).
  specialize (Hp Hall). rewrite H1, H2. by rewrite !Hp.
Qed.
End Writer.

(** The manifest file [f] is evidence for the capture [c]: same command, the hash
    of its output, and the output itself as an entry of the archive. *)
Definition evidence (sha256 : buf -> buf) (entries : list zip_entry) (f : manifestFile)
    (c : CommandCapture) : Prop :=
  bf_Command f = cc_Command c /\ bf_SHA256 f = hex (sha256 (cc_Stdout c))
  /\ exists e, e ∈ entries /\ ze_name e = BundleRoot +:+ "/" +:+ bf_Path f
               /\ ze_content e = cc_Stdout c.

Lemma evidence_intro sha256 captures meta order b mj sj log t name f c :
  built sha256 captures meta order b -> name ∈ order -> stands_for sha256 captures name f c ->
  evidence sha256 (zip_entries mj sj log (bs_filesByRel b) t) f c.
Proof.
  intros Hb Hn Hf. assert (Hs := Hf). destruct Hf as (_ & _ & pc & _ & Hcmd & Hf).
  split; [by rewrite Hf|]. split; [by rewrite Hf|].
  apply zip_entries_file, (bt_files _ _ _ _ _ Hb). by exists name, f, c.
Qed.

Lemma switch_entry_name sha256 captures meta name sw :
  switch_entry sha256 captures meta name sw -> ms_SwitchName sw = name.
Proof. intros [-> _]. unfold manifest_switch. by case_match. Qed.

Lemma switch_names sha256 captures meta names sws :
  Forall2 (switch_entry sha256 captures meta) names sws -> map ms_SwitchName sws = names.
Proof.
  induction 1 as [|n sw ns sws H _ IH]; [done|]. cbn [map]. rewrite IH.
  f_equal. by eapply switch_entry_name.
Qed.

Lemma stands_exists sha256 captures c :
  consistent captures -> c ∈ captures -> captureOK c = true ->
  exists f, stands_for sha256 captures (cc_SwitchName c) f c.
Proof.
  intros (_ & H & _) Hc Hok. destruct (H c Hc) as [Hcmd _].
  apply list_elem_of_fmap in Hcmd as (pc & E & Hpc). eexists. split; [by apply list_elem_of_filter|].
  split; [done|]. by exists pc.
Qed.

(** Every good capture has its file, and every file its good capture. *)
Lemma built_evidence sha256 captures meta b mj sj log t :
  let order := fst (group_captures captures) in
  let entries := zip_entries mj sj log (bs_filesByRel b) t in
  built sha256 captures meta order b -> consistent captures ->
  (forall c, c ∈ captures -> captureOK c = true ->
     exists sw f, sw ∈ bs_switches b /\ ms_SwitchName sw = cc_SwitchName c
       /\ f ∈ ms_Files sw /\ evidence sha256 entries f c)
  /\ (forall sw f, sw ∈ bs_switches b -> f ∈ ms_Files sw ->
     exists c, c ∈ captures /\ captureOK c = true /\ cc_SwitchName c = ms_SwitchName sw
       /\ evidence sha256 entries f c).
Proof.
  intros order entries Hb Hcons. pose proof (bt_switches _ _ _ _ _ Hb) as Hsw.
  destruct (group_captures_ok captures) as (_ & Hmem & _). split.
  - intros c Hc Hok. assert (Ho : cc_SwitchName c ∈ order) by (apply Hmem; eauto).
    apply list_elem_of_lookup in Ho as [i Hi].
    destruct (Forall2_lookup_l _ _ _ _ _ Hsw Hi) as (sw & Hj & Hent).
    destruct (stands_exists sha256 captures c Hcons Hc Hok) as [f Hf].
    exists sw, f. split; [by eapply list_elem_of_lookup_2|]. split; [by eapply switch_entry_name|].
    split; [apply Hent; eauto|]. eapply evidence_intro; eauto. by eapply list_elem_of_lookup_2.
  - intros sw f Hin Hf. apply list_elem_of_lookup in Hin as [i Hi].
    destruct (Forall2_lookup_r _ _ _ _ _ Hsw Hi) as (n & Hj & Hent).
    assert (Hfiles := Hent). destruct Hfiles as (_ & _ & Hfiles).
    destruct (proj1 (Hfiles f) Hf) as (c & Hst). exists c. assert (Hev := Hst).
    destruct Hst as (Hc & Hok & _). apply list_elem_of_filter in Hc as [Hn Hc].
    split; [done|]. split; [done|]. split; [by rewrite Hn; symmetry; eapply switch_entry_name|].
    eapply evidence_intro; eauto. by eapply list_elem_of_lookup_2.
Qed.


Lemma build_outcome sha256 marshal_manifest marshal_summary zip_write now captures opts :
  (forall m, is_ok (marshal_manifest m) = true) -> (forall s, is_ok (marshal_summary s) = true) ->
  (forall es, is_ok (zip_write es) = true) ->
  match BuildEvidenceBundle sha256 marshal_manifest marshal_summary zip_write now captures opts with
  | Ok r => consistent captures
            /\ bsum_CommandsSucceeded (br_Summary r)
               = Z.of_nat (length (filter (fun c => captureOK c = true) captures))
  | Err e => explains captures e
  end.
Proof.
  intros Hmanifest Hsummary Hzip.
  destruct (build_run sha256 marshal_manifest marshal_summary zip_write now captures opts)
    as [(e & E & He)|(b & Hb & Hcons & E)]; rewrite E; clear E; [done|].
  cbn. unfold writeZip.
  specialize (Hmanifest (bundle_manifest opts (time_of now opts) b)).
  destruct (marshal_manifest _); [|done]. cbn.
  specialize (Hsummary (bundle_summary opts "1.0" (fst (group_captures captures)) (time_of now opts) b)).
  destruct (marshal_summary _); [|done]. cbn.
  match goal with |- context [zip_write ?es] => specialize (Hzip es) end.
  destruct (zip_write _); [|done]. cbn. split; [done|]. by eapply all_captures.
Qed.

(** A bundle is refused exactly for inconsistent captures, and each error
    names a real conflict among them: two switches that share a folder, a command
    outside the profile, two captures of one command on one switch, or a filename
    other than the profile's.  The checks for unsafe and reused paths never fire.
    (Encoding and archive writing are assumed to succeed.) *)
Theorem bundle_refusals sha256 marshal_manifest marshal_summary zip_write now captures opts
    (Hmanifest : forall m, is_ok (marshal_manifest m) = true)
    (Hsummary : forall s, is_ok (marshal_summary s) = true)
    (Hzip : forall es, is_ok (zip_write es) = true) :
  let r := BuildEvidenceBundle sha256 marshal_manifest marshal_summary zip_write now captures opts in
  (is_ok r = true <-> consistent captures)
  /\ forall e, r = Err e -> explains captures e.
Proof.
  intros r. pose proof (build_outcome sha256 _ _ _ now captures opts Hmanifest Hsummary Hzip) as H.
  fold r in H. destruct r as [r|e].
  - split; [by split; [intros _; apply H|]|done].
  - split; [|by intros ? [= <-]]. split; [done|]. by intros ?%(explains_inconsistent _ _ H).
Qed.

(** ** Instances *)

Definition toy_capture (switch command : string) (out : buf) : CommandCapture :=
  {| cc_SwitchName := switch; cc_FabricRole := "source"; cc_Command := command; cc_Filename := "";
     cc_Stdout := out; cc_Stderr := []; cc_ExitCode := 0; cc_TimedOut := false; cc_CollectedAt := 0 |}.
Definition toy_options : BuildOptions :=
  {| bo_CollectionMethod := ""; bo_FabricRole := ""; bo_CustomerSupplied := true;
     bo_CollectedAt := 0; bo_SwitchMeta := []; bo_Collector := "" |}.
Definition toy_captures : list CommandCapture :=
  [toy_capture "sw 1" "version" (buf_of "v9"); toy_capture "sw 1" "nsshow" []].
Definition toy_zip (es : list zip_entry) : result string buf := Ok (mjoin (map ze_content es)).
Definition toy_build := BuildEvidenceBundle (fun b => b) (fun _ => Ok []) (fun _ => Ok []) toy_zip Second.


Lemma bundle_refusals_witness :
  explains (toy_captures ++ toy_captures) (DuplicateCapture "version" "sw 1")
  /\ consistent toy_captures.
Proof.
  pose proof (fun caps => bundle_refusals (fun b => b) (fun _ => Ok []) (fun _ => Ok []) toy_zip Second
    caps toy_options (fun _ => eq_refl) (fun _ => eq_refl) (fun _ => eq_refl)) as H.
  split.
  - apply (proj2 (H (toy_captures ++ toy_captures))). reflexivity.
  - apply (proj1 (H toy_captures)). reflexivity.
Defined.
