(* ===== verification/BrocadeCli.v ===== *)
(** Read-only capture over SSH ([src/brocadecli]): the commands of the profile
    resolved for a target, the collection loop over any runner, the production
    runner with its cached connections, and the bundle built from a collection. *)
From S2P Require Import Prelude GoStrings GoPath GoTime EvidenceBundle.
From Stdlib Require Import Ascii.

Local Open Scope Z_scope.

Record BrocadeTarget : Type := {
  bt_SwitchName : string;
  bt_Host : string;
  bt_Username : string;
  bt_FabricRole : string;
  bt_FID : option Z;
  bt_SSHKeyPath : string;
  bt_PortRange : string;
  bt_Notes : string;
}.

(** ** Commands *)

Record resolvedCommand : Type := {
  rc_id : string;
  rc_exec : string;
  rc_filename : string;
}.

(** [";|&`$><\n\r"]. *)
Definition shellMetaChars : string :=
  ";|&`$><" +:+ str [chr 10; chr 13].

Inductive CollectError : Type :=
| NoRunner
| NoTargets
| EmptyExec
| UnsafeExec (exec : string)
| EmptyProfile
| ProfileError (e : BundleError)
| CommandFailed (cmd switch : string).

Definition assertSafeExec (exec : string) : result CollectError unit :=
  if String.eqb (TrimSpace exec) "" then Err EmptyExec
  else if ContainsAny exec shellMetaChars then Err (UnsafeExec exec)
  else Ok tt.

Definition effective_port_range (target : BrocadeTarget) : string :=
  let portRange := TrimSpace (bt_PortRange target) in
  if String.eqb portRange "" then DefaultPortRange else portRange.

Definition resolve_command (portRange : string) (out : list resolvedCommand) (pc : profileCommand)
    : result CollectError (list resolvedCommand) :=
  let exec := ReplaceAll (pc_Exec pc) "{port_range}" portRange in
  _ ← assertSafeExec exec;
  mret (out ++ [{| rc_id := pc_ID pc; rc_exec := exec; rc_filename := pc_Filename pc |}]).

Definition resolveProfileCommands (target : BrocadeTarget) : result CollectError (list resolvedCommand) :=
  match ProfileCommands with
  | Err e => Err (ProfileError e)
  | Ok [] => Err EmptyProfile
  | Ok profile => fold_result (resolve_command (effective_port_range target)) [] profile
  end.

(** ** Runners *)

Record CommandResult : Type := {
  cr_Stdout : buf;
  cr_Stderr : buf;
  cr_ExitCode : Z;
  cr_TimedOut : bool;
  cr_Started : GoTime;
  cr_Elapsed : Duration;
  cr_Err : option string;
}.

(** The interface: a runner with state [R] runs an already resolved command. *)
Definition CommandRunner (R : Type) : Type := BrocadeTarget -> string -> M R CommandResult.

(** What the collection relies on: a transport error never comes with the exit
    code of a successful command. *)
Class RunnerLaw {R} (run : CommandRunner R) : Prop :=
  runner_error_code : forall target exec s,
    cr_Err (fst (run target exec s)) <> None -> cr_ExitCode (fst (run target exec s)) <> 0.

(** A runner that also records what it is asked to run. *)
Definition recorder {R} (run : CommandRunner R) : CommandRunner (R * list (BrocadeTarget * string)) :=
  fun target exec s =>
    let '(res, r) := run target exec (fst s) in (res, (r, snd s ++ [(target, exec)])).

(** ** Collection *)

Record CollectOptions : Type := {
  co_ContinueOnError : option bool;
  co_CollectedAt : GoTime;
}.

Record LogEntry : Type := {
  le_Host : string;
  le_SwitchName : string;
  le_CommandID : string;
  le_Started : GoTime;
  le_Finished : GoTime;
  le_ExitCode : Z;
  le_TimedOut : bool;
  le_Included : bool;
  le_StderrSummary : string;
  le_Note : string;
}.

Definition stderrSummaryMax : nat := 200.
Definition summarizeStderr (stderr : buf) : string :=
  let s := TrimSpace (text_of stderr) in
  let s := ReplaceAll s (str [chr 10]) " " in
  if (stderrSummaryMax <? String.length s)%nat
  then String.substring 0 stderrSummaryMax s +:+ "…" else s.

(** One line of [CollectionLog.String]; [quote] is the verb [%q]. *)
Definition log_line (quote : string -> string) (e : LogEntry) : string :=
  "[" +:+ status_text (le_ExitCode e) (le_TimedOut e) +:+ "] " +:+ le_SwitchName e +:+ " ("
  +:+ le_Host e +:+ ") " +:+ le_CommandID e +:+ " -> "
  +:+ (if le_Included e then "included" else "excluded")
  +:+ (if String.eqb (le_StderrSummary e) "" then "" else " stderr=" +:+ quote (le_StderrSummary e))
  +:+ (if String.eqb (le_Note e) "" then "" else " note=" +:+ quote (le_Note e))
  +:+ str [chr 10].
Definition CollectionLog_String (quote : string -> string) (l : list LogEntry) : string :=
  Join (map (log_line quote) l) "".

Definition result_ok (r : CommandResult) : bool :=
  match cr_Err r with None => true | Some _ => false end
  && (cr_ExitCode r =? 0) && negb (cr_TimedOut r)
  && negb (String.eqb (TrimSpace (text_of (cr_Stdout r))) "").

Definition log_entry (target : BrocadeTarget) (cmd : resolvedCommand) (r : CommandResult) : LogEntry :=
  {| le_Host := bt_Host target; le_SwitchName := bt_SwitchName target; le_CommandID := rc_id cmd;
     le_Started := cr_Started r; le_Finished := cr_Started r + cr_Elapsed r;
     le_ExitCode := cr_ExitCode r; le_TimedOut := cr_TimedOut r; le_Included := result_ok r;
     le_StderrSummary := summarizeStderr (cr_Stderr r); le_Note := default "" (cr_Err r) |}.

Definition capture (target : BrocadeTarget) (cmd : resolvedCommand) (collectedAt : GoTime)
    (r : CommandResult) : CommandCapture :=
  {| cc_SwitchName := bt_SwitchName target; cc_FabricRole := bt_FabricRole target;
     cc_Command := rc_id cmd; cc_Filename := rc_filename cmd; cc_Stdout := cr_Stdout r;
     cc_Stderr := cr_Stderr r; cc_ExitCode := cr_ExitCode r; cc_TimedOut := cr_TimedOut r;
     cc_CollectedAt := collectedAt |}.

Section Collect.
Context {R : Type} (run : CommandRunner R) (continueOnError : bool) (collectedAt : GoTime).

(** What the loops have gathered, and the error that ended them. *)
Record gathered : Type := {
  ga_captures : list CommandCapture;
  ga_log : list LogEntry;
  ga_error : option CollectError;
}.

Fixpoint collect_commands (target : BrocadeTarget) (cmds : list resolvedCommand) (g : gathered)
    : M R gathered :=
  match cmds with
  | [] => mret g
  | cmd :: rest =>
      result ← run target (rc_exec cmd);
      let log := ga_log g ++ [log_entry target cmd result] in
      if negb (result_ok result) && negb continueOnError then
        mret {| ga_captures := ga_captures g; ga_log := log;
                ga_error := Some (CommandFailed (rc_id cmd) (bt_SwitchName target)) |}
      else
        collect_commands target rest
          {| ga_captures := ga_captures g ++ [capture target cmd collectedAt result];
             ga_log := log; ga_error := None |}
  end.

Fixpoint collect_targets (targets : list BrocadeTarget) (g : gathered) : M R gathered :=
  match targets with
  | [] => mret g
  | target :: rest =>
      match resolveProfileCommands target with
      | Err e => mret {| ga_captures := []; ga_log := ga_log g; ga_error := Some e |}
      | Ok commands =>
          g' ← collect_commands target commands g;
          match ga_error g' with
          | Some _ => mret g'
          | None => collect_targets rest g'
          end
      end
  end.
End Collect.

Definition no_captures : gathered := {| ga_captures := []; ga_log := []; ga_error := None |}.
Definition collect_refused (e : CollectError) : gathered :=
  {| ga_captures := []; ga_log := []; ga_error := Some e |}.

Definition Collect {R} (runner : option (CommandRunner R)) (now : GoTime)
    (targets : list BrocadeTarget) (opts : CollectOptions) : M R gathered :=
  match runner, targets with
  | None, _ => mret (collect_refused NoRunner)
  | _, [] => mret (collect_refused NoTargets)
  | Some run, _ =>
      let collectedAt := if IsZero (co_CollectedAt opts) then now else co_CollectedAt opts in
      collect_targets run (default true (co_ContinueOnError opts)) collectedAt targets no_captures
  end.

(** ** Collection into a bundle *)

Definition target_meta (t : BrocadeTarget) : SwitchMeta :=
  {| sm_SwitchName := bt_SwitchName t; sm_FID := bt_FID t; sm_WWN := ""; sm_DomainID := None;
     sm_Model := ""; sm_Notes := bt_Notes t |}.

Inductive CollectBundleError : Type :=
| CollectFailed (e : CollectError)
| BuildFailed (e : BundleError).

Section Bundle.
Context (sha256 : buf -> buf) (marshal_manifest : Manifest -> result string buf)
        (marshal_summary : Summary -> result string buf) (zip_write : list zip_entry -> result string buf).

Definition CollectBundle {R} (runner : option (CommandRunner R)) (now now' : GoTime)
    (targets : list BrocadeTarget) (opts : CollectOptions)
    : M R (result CollectBundleError BuildResult * list LogEntry) :=
  g ← Collect runner now targets opts;
  match ga_error g with
  | Some e => mret (Err (CollectFailed e), ga_log g)
  | None =>
      let collectedAt := if IsZero (co_CollectedAt opts) then now' else co_CollectedAt opts in
      let res := BuildEvidenceBundle sha256 marshal_manifest marshal_summary zip_write now' (ga_captures g)
        {| bo_CollectionMethod := CollectionMethodAgent; bo_FabricRole := "";
           bo_CustomerSupplied := false; bo_CollectedAt := collectedAt;
           bo_SwitchMeta := map target_meta targets;
           bo_Collector := "filterrex_agent_brocade_ssh" |} in
      mret (wrap_err BuildFailed res, ga_log g)
  end.
End Bundle.

(** ** The production runner *)

Record SSHRunnerConfig : Type := {
  sc_KnownHostsPath : string;
  sc_ConnectTimeout : Duration;
  sc_CommandTimeout : Duration;
  sc_Port : Z;
}.

(** An established connection: where it goes and as whom. *)
Record Client : Type := {
  cl_addr : string;
  cl_user : string;
  cl_key : buf;
}.

(** How the session of one command ends: it cannot be opened, the context
    expires, or [session.Run] returns. *)
Inductive run_error : Type := RunOk | ExitError (code : Z) | RunError (e : string).
Inductive session : Type :=
| SessionError (e : string)
| SessionTimeout (stdout stderr : buf)
| SessionDone (stdout stderr : buf) (err : run_error).

Record sshRunner : Type := {
  ss_cfg : SSHRunnerConfig;
  ss_clients : gmap string Client;
  ss_tick : nat;
}.

Section SSH.
(** Key files, the SSH library and the clock, by step. *)
Context (ReadKey : nat -> string -> result string buf) (ParsePrivateKey : buf -> bool).
Context (Dial : nat -> Client -> option string) (open_session : nat -> Client -> string -> session).
Context (close_client : nat -> Client -> option string) (clock : nat -> GoTime).
Context (knownhosts_New : string -> option string).

Definition NewSSHRunner (cfg : SSHRunnerConfig) : result string sshRunner :=
  if String.eqb (TrimSpace (sc_KnownHostsPath cfg)) "" then
    Err "KnownHostsPath is required for the SSH runner (host-key verification is mandatory)"
  else match knownhosts_New (sc_KnownHostsPath cfg) with
       | Some e => Err ("load known_hosts: " +:+ e)
       | None =>
           let or_zero (x d : Z) := if x =? 0 then d else x in
           Ok {| ss_cfg := {| sc_KnownHostsPath := sc_KnownHostsPath cfg;
                              sc_ConnectTimeout := or_zero (sc_ConnectTimeout cfg) (10 * Second);
                              sc_CommandTimeout := or_zero (sc_CommandTimeout cfg) (30 * Second);
                              sc_Port := or_zero (sc_Port cfg) 22 |};
                 ss_clients := ∅; ss_tick := 0 |}
       end.

(** [net.JoinHostPort]. *)
Definition JoinHostPort (host : string) (port : Z) : string :=
  if Contains host ":" then "[" +:+ host +:+ "]:" +:+ pretty port else host +:+ ":" +:+ pretty port.

Definition ssh_next (r : sshRunner) : sshRunner :=
  {| ss_cfg := ss_cfg r; ss_clients := ss_clients r; ss_tick := S (ss_tick r) |}.

Definition ssh_client (target : BrocadeTarget) : M sshRunner (result string Client) := fun r =>
  match ss_clients r !! bt_Host target with
  | Some c => (Ok c, r)
  | None =>
      match ReadKey (ss_tick r) (bt_SSHKeyPath target) with
      | Err e => (Err ("read ssh key: " +:+ e), ssh_next r)
      | Ok key =>
          if negb (ParsePrivateKey key) then
            (Err ("parse ssh key for host " +:+ bt_Host target +:+ ": invalid private key"), ssh_next r)
          else
            let c := {| cl_addr := JoinHostPort (bt_Host target) (sc_Port (ss_cfg r));
                        cl_user := bt_Username target; cl_key := key |} in
            match Dial (ss_tick r) c with
            | Some e => (Err ("ssh dial " +:+ cl_addr c +:+ ": " +:+ e), ssh_next r)
            | None => (Ok c, {| ss_cfg := ss_cfg r; ss_clients := <[bt_Host target := c]> (ss_clients r);
                                ss_tick := S (ss_tick r) |})
            end
      end
  end.

(** The deferred assignment to [Elapsed] runs after the result has been copied
    out, so the result carries a zero duration. *)
Definition ssh_result (started : GoTime) (stdout stderr : buf) (code : Z) (timedOut : bool)
    (err : option string) : CommandResult :=
  {| cr_Stdout := stdout; cr_Stderr := stderr; cr_ExitCode := code; cr_TimedOut := timedOut;
     cr_Started := started; cr_Elapsed := 0; cr_Err := err |}.

Definition timeout_mark : buf := buf_of (str [chr 10] +:+ "[filterrex] command timed out").

Definition ssh_Run : CommandRunner sshRunner := fun target exec =>
  started ← gets (fun r => clock (ss_tick r));
  client ← ssh_client target;
  match client with
  | Err e => mret (ssh_result started [] [] (-1) false (Some e))
  | Ok c =>
      s ← gets (fun r => open_session (ss_tick r) c exec);
      _ ← modify ssh_next;
      mret match s with
           | SessionError e =>
               ssh_result started [] [] (-1) false
                 (Some ("open ssh session on " +:+ bt_Host target +:+ ": " +:+ e))
           | SessionTimeout out err => ssh_result started out (err ++ timeout_mark) (-1) true None
           | SessionDone out err RunOk => ssh_result started out err 0 false None
           | SessionDone out err (ExitError code) => ssh_result started out err code false None
           | SessionDone out err (RunError e) => ssh_result started out err (-1) false (Some e)
           end
  end.

(** Closing visits the connections in the order of the map. *)
Fixpoint close_clients (hosts : list string) (firstErr : option string)
    : M sshRunner (option string) :=
  match hosts with
  | [] => mret firstErr
  | h :: rest => fun r =>
      match ss_clients r !! h with
      | None => close_clients rest firstErr r
      | Some c =>
          let err := close_client (ss_tick r) c in
          let first := match firstErr with Some e => Some e | None => err end in
          close_clients rest first
            {| ss_cfg := ss_cfg r; ss_clients := delete h (ss_clients r); ss_tick := S (ss_tick r) |}
      end
  end.
Definition ssh_Close : M sshRunner (option string) := fun r =>
  close_clients (map fst (map_to_list (ss_clients r))) None r.
End SSH.
