(* ===== verification/BrocadeCliProps.v ===== *)
(** Properties of the SSH capture: only the commands of the profile are run, and
    a collection always fits a bundle unless two targets clash. *)
From S2P Require Import Prelude GoStrings GoPath GoTime EvidenceBundle EvidenceBundleProps BrocadeCli.
From Stdlib Require Import Ascii.

Local Open Scope Z_scope.

(** ** Resolved commands *)

Definition resolved (target : BrocadeTarget) (pc : profileCommand) : resolvedCommand :=
  {| rc_id := pc_ID pc;
     rc_exec := ReplaceAll (pc_Exec pc) "{port_range}" (effective_port_range target);
     rc_filename := pc_Filename pc |}.

Lemma ProfileCommands_ok : ProfileCommands = Ok commands.
Proof. unfold ProfileCommands. rewrite profile_loaded. by rewrite map_id. Qed.

Lemma resolve_commands target out pcs :
  match fold_result (resolve_command (effective_port_range target)) out pcs with
  | Ok cmds => cmds = out ++ map (resolved target) pcs
      /\ Forall (fun cmd => ContainsAny (rc_exec cmd) shellMetaChars = false) (map (resolved target) pcs)
  | Err _ => True
  end.
Proof.
  revert out. induction pcs as [|pc pcs IH]; intros out; cbn [fold_result map].
  { rewrite app_nil_r. auto. }
  unfold resolve_command at 1, assertSafeExec.
  destruct (String.eqb (TrimSpace _) ""); [done|].
  destruct (ContainsAny _ shellMetaChars) eqn:E; [done|]. cbn [mbind result_bind mret result_ret].
  specialize (IH (out ++ [resolved target pc])). unfold resolved at 1 in IH.
  destruct (fold_result _ _ pcs) as [cmds|]; [|done]. destruct IH as [-> H].
  split; [by rewrite <- app_assoc|]. by constructor.
Qed.

Lemma resolveProfileCommands_ok target cmds :
  resolveProfileCommands target = Ok cmds ->
  cmds = map (resolved target) commands
  /\ Forall (fun cmd => ContainsAny (rc_exec cmd) shellMetaChars = false) cmds.
Proof.
  unfold resolveProfileCommands. rewrite ProfileCommands_ok.
  pose proof (resolve_commands target [] commands) as H. destruct commands as [|pc pcs]; [done|].
  destruct (fold_result _ [] _); [|done]. intros [= <-]. by destruct H as [-> ?].
Qed.

Lemma commands_inhabited : exists pc, pc ∈ commands.
Proof. eexists. left. Qed.

#[local] Opaque commands resolveProfileCommands.

(** ** The trace of a collection *)

(** One command that was run, with its result. *)
Record item : Type := { it_target : BrocadeTarget; it_cmd : resolvedCommand; it_result : CommandResult }.

Definition item_run (i : item) : BrocadeTarget * string := (it_target i, rc_exec (it_cmd i)).
Definition item_log (i : item) : LogEntry := log_entry (it_target i) (it_cmd i) (it_result i).
Definition item_capture (t : GoTime) (i : item) : CommandCapture :=
  capture (it_target i) (it_cmd i) t (it_result i).
Definition item_what (i : item) : BrocadeTarget * resolvedCommand := (it_target i, it_cmd i).

(** The commands of the profile for every target, in order. *)
Definition plan (targets : list BrocadeTarget) : list (BrocadeTarget * resolvedCommand) :=
  targets ≫= fun t => map (fun pc => (t, resolved t pc)) commands.

Section Trace.
Context {R : Type} (run : CommandRunner R) (cont : bool) (at_ : GoTime).
Context (Q : CommandResult -> Prop) (HQ : forall t e s, Q (fst (run t e s))).

(** From [g] and the trace [tr] to [g'] and [tr'] by running [ran]. *)
Definition gathers (todo : list (BrocadeTarget * resolvedCommand)) (ran : list item)
    (g : gathered) (tr : list (BrocadeTarget * string))
    (g' : gathered) (tr' : list (BrocadeTarget * string)) : Prop :=
  tr' = tr ++ map item_run ran /\ ga_log g' = ga_log g ++ map item_log ran
  /\ Forall (fun i => Q (it_result i)) ran
  /\ map item_what ran `prefix_of` todo
  /\ (ga_error g' = None ->
        map item_what ran = todo /\ ga_captures g' = ga_captures g ++ map (item_capture at_) ran).

Lemma gathers_nil todo g tr g' :
  ga_log g' = ga_log g ->
  (ga_error g' = None -> todo = [] /\ ga_captures g' = ga_captures g) ->
  gathers todo [] g tr g' tr.
Proof.
  intros Hl He. unfold gathers. cbn. rewrite !app_nil_r.
  split; [done|]. split; [done|]. split; [constructor|]. split; [by eexists|].
  intros Hn. by destruct (He Hn).
Qed.

Lemma gathers_app todo1 todo2 ran1 ran2 g1 tr1 g2 tr2 g3 tr3 :
  gathers todo1 ran1 g1 tr1 g2 tr2 -> ga_error g2 = None -> gathers todo2 ran2 g2 tr2 g3 tr3 ->
  gathers (todo1 ++ todo2) (ran1 ++ ran2) g1 tr1 g3 tr3.
Proof.
  intros (A1 & A2 & A3 & A4 & A5) Hg2 (B1 & B2 & B3 & B4 & B5).
  destruct (A5 Hg2) as [A6 A7]. unfold gathers. rewrite !map_app.
  split; [by rewrite B1, A1, app_assoc|]. split; [by rewrite B2, A2, app_assoc|].
  split; [by apply Forall_app|]. split; [rewrite A6; by apply prefix_app|].
  intros H. destruct (B5 H) as [B6 B7]. by rewrite A6, B6, B7, A7, app_assoc.
Qed.

Lemma gathers_more todo1 todo2 ran g1 tr1 g2 tr2 :
  gathers todo1 ran g1 tr1 g2 tr2 -> ga_error g2 <> None -> gathers (todo1 ++ todo2) ran g1 tr1 g2 tr2.
Proof.
  intros (A1 & A2 & A3 & A4 & A5) Hg2. split; [done|]. split; [done|]. split; [done|].
  split; [by apply prefix_app_r|]. done.
Qed.

Lemma collect_commands_run target cmds g s tr :
  ga_error g = None ->
  exists ran, let r := collect_commands (recorder run) cont at_ target cmds g (s, tr) in
  gathers (map (pair target) cmds) ran g tr (fst r) (snd (snd r))
  /\ (cont = true -> ga_error (fst r) = None).
Proof.
  revert g s tr. induction cmds as [|cmd cmds IH]; intros g s tr Hg.
  { exists []. cbn. split; [by apply gathers_nil|done]. }
  cbn [collect_commands]. unfold mbind, M_bind.
  pose proof (HQ target (rc_exec cmd) s) as Hq.
  destruct (run target (rc_exec cmd) s) as [res s1] eqn:Erun.
  assert (Erec : recorder run target (rc_exec cmd) (s, tr)
                 = (res, (s1, tr ++ [(target, rc_exec cmd)]))).
  { unfold recorder. cbn. by rewrite Erun. }
  rewrite Erec.
  set (one := {| it_target := target; it_cmd := cmd; it_result := res |}).
  destruct (negb (result_ok res) && negb cont) eqn:E.
  - exists [one]. unfold gathers. cbn. split; [|by intros Hc; rewrite Hc, andb_false_r in E].
    split; [done|]. split; [done|]. split; [by repeat constructor|]. split; [by eexists|done].
  - match goal with |- context [collect_commands _ _ _ _ cmds ?g1 _] =>
      destruct (IH g1 s1 (tr ++ [(target, rc_exec cmd)]) eq_refl) as (ran & H & Hc);
      set (g2 := g1) in * end.
    exists (one :: ran). split; [|exact Hc].
    eapply (gathers_app [_] _ [one] ran g tr g2 _); [|done|exact H].
    split; [done|]. split; [done|]. split; [by repeat constructor|]. split; [by eexists|done].
Qed.

Lemma collect_targets_run targets g s tr :
  ga_error g = None ->
  exists ran, let r := collect_targets (recorder run) cont at_ targets g (s, tr) in
  gathers (plan targets) ran g tr (fst r) (snd (snd r))
  /\ Forall (fun i => ContainsAny (rc_exec (it_cmd i)) shellMetaChars = false) ran
  /\ (cont = true -> (forall t, t ∈ targets -> is_ok (resolveProfileCommands t) = true) ->
        ga_error (fst r) = None).
Proof.
  revert g s tr. induction targets as [|t targets IH]; intros g s tr Hg; cbn [collect_targets].
  { exists []. cbn. split; [by apply gathers_nil|done]. }
  destruct (resolveProfileCommands t) as [cmds|e] eqn:Er.
  2:{ exists []. cbn [fst snd mret M_ret]. split; [by apply gathers_nil|]. split; [constructor|].
      intros _ H. specialize (H t (list_elem_of_here _ _)). by rewrite Er in H. }
  apply resolveProfileCommands_ok in Er as [-> Hsafe].
  destruct (collect_commands_run t (map (resolved t) commands) g s tr Hg) as (ran1 & H1 & Hc1).
  unfold mbind, M_bind.
  destruct (collect_commands _ _ _ _ _ _ _) as [g1 [s1 tr1]]. cbn [fst snd] in *.
  change (plan (t :: targets)) with (map (fun pc => (t, resolved t pc)) commands ++ plan targets).
  rewrite map_map in H1. assert (Hs1 : Forall (fun i => ContainsAny (rc_exec (it_cmd i)) shellMetaChars = false) ran1).
  { destruct H1 as (_ & _ & _ & Hp & _). apply Forall_forall. intros i Hi.
    assert (Hin : item_what i ∈ map (fun pc => (t, resolved t pc)) commands).
    { eapply elem_of_prefix; [|exact Hp]. by apply list_elem_of_fmap_2. }
    apply list_elem_of_fmap in Hin as (pc & [= _ Hcmd] & Hpc). rewrite Hcmd.
    rewrite Forall_forall in Hsafe. apply Hsafe. by apply list_elem_of_fmap_2. }
  destruct (ga_error g1) as [e|] eqn:Eg.
  - exists ran1. cbn [fst snd mret M_ret]. split; [apply gathers_more; [done|congruence]|]. split; [done|].
    intros Hc. specialize (Hc1 Hc). congruence.
  - destruct (IH g1 s1 tr1 Eg) as (ran2 & H2 & Hs2 & Hc2). exists (ran1 ++ ran2).
    split; [by eapply gathers_app|]. split; [by apply Forall_app|].
    intros Hc Hall. apply Hc2; [done|]. intros; apply Hall; by right.
Qed.
End Trace.

(** ** Which targets can share a bundle *)

Definition target_folder (t : BrocadeTarget) : string :=
  normalizeRole (bt_FabricRole t) +:+ "/" +:+ sanitizeSegment (bt_SwitchName t) "switch".

(** Captures that follow the plan of the targets. *)
Definition planned (targets : list BrocadeTarget) (captures : list CommandCapture) : Prop :=
  map (fun c => (cc_SwitchName c, cc_FabricRole c, cc_Command c, cc_Filename c)) captures
  = map (fun p => (bt_SwitchName (fst p), bt_FabricRole (fst p), rc_id (snd p), rc_filename (snd p)))
      (plan targets).

Lemma items_planned at_ targets ran :
  map item_what ran = plan targets -> planned targets (map (item_capture at_) ran).
Proof. intros H. unfold planned. by rewrite <- H, !map_map. Qed.

Lemma plan_elem targets t cmd :
  (t, cmd) ∈ plan targets <-> t ∈ targets /\ exists pc, pc ∈ commands /\ cmd = resolved t pc.
Proof.
  unfold plan. rewrite list_elem_of_bind. split.
  - intros (t' & (pc & [= -> ->] & Hpc)%list_elem_of_fmap & Ht). eauto.
  - intros (Ht & pc & Hpc & ->). exists t. split; [|done]. apply list_elem_of_fmap. eauto.
Qed.

Lemma planned_capture targets captures c :
  planned targets captures -> c ∈ captures ->
  exists t pc, t ∈ targets /\ pc ∈ commands /\ cc_SwitchName c = bt_SwitchName t
    /\ cc_FabricRole c = bt_FabricRole t /\ cc_Command c = pc_ID pc /\ cc_Filename c = pc_Filename pc.
Proof.
  intros Hp Hc.
  apply (list_elem_of_fmap_2 (fun c => (cc_SwitchName c, cc_FabricRole c, cc_Command c, cc_Filename c)))
    in Hc. unfold planned in Hp.
  change (fmap ?f captures) with (map f captures) in Hc. rewrite Hp in Hc.
  apply list_elem_of_fmap in Hc as ([t cmd] & [= -> -> -> ->] & Hin).
  apply plan_elem in Hin as (Ht & pc & Hpc & ->). by exists t, pc.
Qed.

Lemma planned_target targets captures t :
  planned targets captures -> t ∈ targets -> exists c, c ∈ captures /\ cc_SwitchName c = bt_SwitchName t.
Proof.
  intros Hp Ht. destruct commands_inhabited as [pc Hpc].
  assert (Hin : (t, resolved t pc) ∈ plan targets) by (apply plan_elem; eauto).
  apply (list_elem_of_fmap_2 (fun p => (bt_SwitchName (fst p), bt_FabricRole (fst p), rc_id (snd p),
    rc_filename (snd p)))) in Hin.
  change (fmap ?f (plan targets)) with (map f (plan targets)) in Hin. unfold planned in Hp.
  rewrite <- Hp in Hin. apply list_elem_of_fmap in Hin as (c & [= E _ _ _] & Hc). by exists c.
Qed.

Lemma planned_folder targets captures t :
  planned targets captures -> NoDup (map bt_SwitchName targets) -> t ∈ targets ->
  folder_of captures (bt_SwitchName t) = target_folder t.
Proof.
  intros Hp Hnd Ht. destruct (planned_target targets captures t Hp Ht) as (c0 & Hc0 & E0).
  unfold folder_of, folder, target_folder, group_of. cbn [sg_safeRole sg_safeName].
  destruct (filter (on_switch (bt_SwitchName t)) captures) as [|c l] eqn:E.
  { rewrite filter_empty in E. by destruct (E c0 Hc0). }
  assert (Hc : c ∈ filter (on_switch (bt_SwitchName t)) captures) by (rewrite E; left).
  apply list_elem_of_filter in Hc as [Hs Hc].
  destruct (planned_capture _ _ _ Hp Hc) as (t' & pc & Ht' & _ & Hs' & Hr & _).
  assert (t' = t) as ->; [|cbn; by rewrite Hr].
  apply list_elem_of_lookup in Ht as [i Hi], Ht' as [j Hj].
  assert (i = j); [|by simplify_eq]. apply (NoDup_lookup (map bt_SwitchName targets) _ _ (bt_SwitchName t) Hnd).
  - by rewrite list_lookup_fmap, Hi.
  - rewrite list_lookup_fmap, Hj. simpl. by rewrite <- Hs', Hs.
Qed.

(** Pairs of switch and command. *)
Lemma planned_pairs targets captures :
  planned targets captures ->
  map (fun c => (cc_SwitchName c, cc_Command c)) captures
  = targets ≫= fun t => map (fun pc => (bt_SwitchName t, pc_ID pc)) commands.
Proof.
  intros Hp. unfold planned in Hp. apply (f_equal (map (fun x => (fst (fst (fst x)), snd (fst x))))) in Hp.
  rewrite !map_map in Hp. cbn in Hp. rewrite Hp. clear. unfold plan.
  induction targets as [|t targets IH]; [done|]. cbn [mbind list_bind]. rewrite map_app, map_map.
  by f_equal.
Qed.

Lemma pairs_NoDup targets :
  NoDup (targets ≫= fun t => map (fun pc => (bt_SwitchName t, pc_ID pc)) commands)
  <-> NoDup (map bt_SwitchName targets).
Proof.
  induction targets as [|t targets IH]; [cbn; split; constructor|].
  cbn [mbind list_bind map]. rewrite NoDup_app, NoDup_cons, IH. split.
  - intros (_ & Hd & Hn). split; [|done]. intros (t' & E & Ht')%list_elem_of_fmap.
    destruct commands_inhabited as [pc Hpc].
    apply (Hd (bt_SwitchName t, pc_ID pc)).
    + apply list_elem_of_fmap. eauto.
    + apply list_elem_of_bind. exists t'. split; [|done]. apply list_elem_of_fmap. rewrite E. eauto.
  - intros [Hn Hnd]. split; [|split; [|done]].
    + pose proof commands_NoDup_ID as H. rewrite <- (map_map pc_ID (pair (bt_SwitchName t))).
      apply NoDup_fmap_2; [by intros ? ? [= ->]|done].
    + intros x (pc & -> & _)%list_elem_of_fmap (t' & (pc' & [= E _] & _)%list_elem_of_fmap & Ht')%list_elem_of_bind.
      apply Hn. rewrite E. by apply list_elem_of_fmap_2.
Qed.

Lemma planned_consistent targets captures :
  planned targets captures ->
  consistent captures <-> NoDup (map bt_SwitchName targets) /\ NoDup (map target_folder targets).
Proof.
  intros Hp. unfold consistent. rewrite (planned_pairs _ _ Hp), pairs_NoDup. split.
  - intros (Hn & _ & Hf). split; [done|]. apply NoDup_alt. intros i j f Hi Hj.
    rewrite list_lookup_fmap in Hi, Hj.
    apply fmap_Some in Hi as (t & Hi & ->). apply fmap_Some in Hj as (t' & Hj & E).
    apply (NoDup_lookup (map bt_SwitchName targets) i j (bt_SwitchName t) Hn);
      rewrite list_lookup_fmap, ?Hi, ?Hj; [done|]. simpl. f_equal.
    apply list_elem_of_lookup_2 in Hi, Hj.
    destruct (planned_target _ _ t Hp Hi) as (c & Hc & Ec), (planned_target _ _ t' Hp Hj) as (d & Hd & Ed).
    rewrite <- Ec, <- Ed. symmetry. apply Hf; [done..|].
    by rewrite Ec, Ed, !(planned_folder targets).
  - intros [Hn Hf]. split; [done|]. split.
    + intros c Hc. destruct (planned_capture _ _ _ Hp Hc) as (t & pc & _ & Hpc & _ & _ & -> & ->).
      split; [by apply list_elem_of_fmap_2|]. right. by apply filename_lookup.
    + intros c d Hc Hd E.
      destruct (planned_capture _ _ _ Hp Hc) as (t & _ & Ht & _ & Ec & _).
      destruct (planned_capture _ _ _ Hp Hd) as (t' & _ & Ht' & _ & Ed & _).
      rewrite Ec, Ed, !(planned_folder targets) in * by done.
      apply list_elem_of_lookup in Ht as [i Hi], Ht' as [j Hj].
      assert (i = j); [|by simplify_eq].
      apply (NoDup_lookup (map target_folder targets) i j (target_folder t) Hf);
        rewrite list_lookup_fmap, ?Hi, ?Hj; [done|]. simpl. by rewrite E.
Qed.

(** ** Recording changes nothing *)

Lemma recorder_commands {R} (run : CommandRunner R) cont at_ target cmds g s tr :
  fst (collect_commands (recorder run) cont at_ target cmds g (s, tr))
    = fst (collect_commands run cont at_ target cmds g s)
  /\ fst (snd (collect_commands (recorder run) cont at_ target cmds g (s, tr)))
    = snd (collect_commands run cont at_ target cmds g s).
Proof.
  revert g s tr. induction cmds as [|cmd cmds IH]; intros g s tr; [done|].
  cbn [collect_commands]. unfold mbind, M_bind, recorder at 1 3. cbn [fst snd].
  destruct (run target (rc_exec cmd) s) as [res s1]. case_match; [done|]. apply IH.
Qed.

Lemma recorder_targets {R} (run : CommandRunner R) cont at_ targets g s tr :
  fst (collect_targets (recorder run) cont at_ targets g (s, tr))
  = fst (collect_targets run cont at_ targets g s).
Proof.
  revert g s tr. induction targets as [|t targets IH]; intros g s tr; [done|].
  cbn [collect_targets]. destruct (resolveProfileCommands t) as [cmds|e]; [|done].
  unfold mbind, M_bind. destruct (recorder_commands run cont at_ t cmds g s tr) as [H1 H2].
  destruct (collect_commands (recorder run) _ _ _ _ _ _) as [g1 [s1 tr1]].
  destruct (collect_commands run _ _ _ _ _ _) as [g2 s2]. cbn in H1, H2. subst.
  destruct (ga_error g2); [done|]. apply IH.
Qed.

(** ** The theorems *)

(** C23: whatever the targets say and however the runner answers, every command
    that is run belongs to a given target, is a command of the embedded profile
    with the port range filled in, and has no shell-control character; the
    commands run are an initial part of the plan (all profile commands for each
    target, in order) and each has one log entry.  When the collection ends
    without error the whole plan was run and there is one capture per step. *)
Theorem collect_runs_profile {R} (run : CommandRunner R) now targets opts s :
  let r := Collect (Some (recorder run)) now targets opts (s, []) in
  let ran := snd (snd r) in
  (forall t exec, (t, exec) ∈ ran ->
     t ∈ targets /\ ContainsAny exec shellMetaChars = false
     /\ exists pc, pc ∈ commands
          /\ exec = ReplaceAll (pc_Exec pc) "{port_range}" (effective_port_range t))
  /\ ran `prefix_of` map (fun p => (fst p, rc_exec (snd p))) (plan targets)
  /\ length (ga_log (fst r)) = length ran
  /\ (ga_error (fst r) = None ->
        ran = map (fun p => (fst p, rc_exec (snd p))) (plan targets)
        /\ planned targets (ga_captures (fst r))).
Proof.
  intros r ran. subst ran. unfold Collect in r. destruct targets as [|t0 targets0].
  { subst r. cbn. split; [by intros ? ? ?%elem_of_nil|]. split; [by eexists|]. done. }
  set (targets := t0 :: targets0) in *. set (cont := default true _) in r.
  set (at_ := if IsZero _ then _ else _) in r.
  destruct (collect_targets_run run cont at_ (fun _ => True) (fun _ _ _ => I) targets no_captures s []
    eq_refl) as (items & (H1 & H2 & _ & H4 & H5) & Hsafe & _). fold r in H1, H2, H5.
  cbn [no_captures ga_log app] in H1, H2. rewrite H1, H2, !length_map.
  assert (Hmap : map item_run items = map (fun p => (fst p, rc_exec (snd p))) (map item_what items))
    by (by rewrite map_map).
  split; [|split; [|split; [done|]]].
  - intros t exec (i & [= -> ->] & Hi)%list_elem_of_fmap.
    assert (Hin : item_what i ∈ plan targets).
    { eapply elem_of_prefix; [|exact H4]. by apply list_elem_of_fmap_2. }
    apply plan_elem in Hin as (Ht & pc & Hpc & Hcmd). split; [done|].
    rewrite Forall_forall in Hsafe. split; [by apply Hsafe|]. exists pc. by rewrite Hcmd.
  - rewrite Hmap. destruct H4 as [k ->]. rewrite map_app. by eexists.
  - intros He. destruct (H5 He) as [H6 H7]. rewrite Hmap, H6, H7. split; [done|]. cbn.
    by apply items_planned.
Qed.

Lemma included_count at_ items :
  Forall (fun i => cr_Err (it_result i) <> None -> cr_ExitCode (it_result i) <> 0) items ->
  length (filter (fun c => captureOK c = true) (map (item_capture at_) items))
  = length (filter (fun e => le_Included e = true) (map item_log items)).
Proof.
  induction 1 as [|i items Hi _ IH]; [done|]. cbn [map]. rewrite !filter_cons.
  assert (E : captureOK (item_capture at_ i) = le_Included (item_log i)).
  { cbn. unfold captureOK, result_ok. cbn. destruct (cr_Err (it_result i)) as [e|]; [|done].
    destruct (Z.eqb_spec (cr_ExitCode (it_result i)) 0); [|done]. by destruct Hi. }
  rewrite E. destruct (decide (le_Included (item_log i) = true)); cbn [length]; by rewrite IH.
Qed.

Lemma length_plan targets : length (plan targets) = (length commands * length targets)%nat.
Proof.
  unfold plan. induction targets as [|t l IH]; [simpl; lia|]. cbn [mbind list_bind].
  rewrite length_app, length_map, IH. simpl. lia.
Qed.

(** A default collection from targets whose port ranges are harmless always
    runs to its end, logs every profile command for every target, and fits a
    bundle exactly when no two targets share a switch name or a bundle folder.
    The log and the bundle agree: the entries marked as included are as many as
    the commands counted as succeeded.  The runner may be any one that never
    pairs a transport error with exit code 0. *)
Theorem collect_bundle_outcome {R} (run : CommandRunner R) sha256 marshal_manifest marshal_summary
    zip_write now now' targets at_ s
    (Hrun : RunnerLaw run)
    (Hmanifest : forall m, is_ok (marshal_manifest m) = true)
    (Hsummary : forall s, is_ok (marshal_summary s) = true)
    (Hzip : forall es, is_ok (zip_write es) = true)
    (Hsome : targets <> [])
    (Hports : forall t, t ∈ targets -> is_ok (resolveProfileCommands t) = true) :
  let opts := {| co_ContinueOnError := None; co_CollectedAt := at_ |} in
  let r := fst (CollectBundle sha256 marshal_manifest marshal_summary zip_write (Some run) now now'
                  targets opts s) in
  length (snd r) = (length commands * length targets)%nat
  /\ (is_ok (fst r) = true <->
        NoDup (map bt_SwitchName targets) /\ NoDup (map target_folder targets))
  /\ forall b, fst r = Ok b ->
       bsum_CommandsSucceeded (br_Summary b)
       = Z.of_nat (length (filter (fun e => le_Included e = true) (snd r))).
Proof.
  intros opts r. set (at' := if IsZero at_ then now else at_).
  destruct (collect_targets_run run true at'
    (fun r => cr_Err r <> None -> cr_ExitCode r <> 0) (fun t e s => runner_error_code t e s)
    targets no_captures s [] eq_refl) as (items & (_ & H2 & HQ & _ & H5) & _ & Herr).
  rewrite recorder_targets in H2, H5, Herr. specialize (Herr eq_refl Hports).
  destruct (H5 Herr) as [H6 H7]. clear H5.
  assert (Er : r = let g := fst (collect_targets run true at' targets no_captures s) in
    (wrap_err BuildFailed (BuildEvidenceBundle sha256 marshal_manifest marshal_summary zip_write now'
       (ga_captures g)
       {| bo_CollectionMethod := CollectionMethodAgent; bo_FabricRole := ""; bo_CustomerSupplied := false;
          bo_CollectedAt := if IsZero at_ then now' else at_; bo_SwitchMeta := map target_meta targets;
          bo_Collector := "filterrex_agent_brocade_ssh" |}), ga_log g)).
  { subst r. unfold CollectBundle, Collect. destruct targets as [|t l]; [done|].
    rewrite fst_bind. cbn [opts co_ContinueOnError co_CollectedAt default]. fold at'. by rewrite Herr. }
  rewrite Er. cbn [fst snd] in *. rewrite H2, H7. cbn [no_captures ga_captures ga_log app].
  match goal with |- context [BuildEvidenceBundle _ _ _ _ _ _ ?o] =>
    pose proof (build_outcome sha256 _ _ _ now' (map (item_capture at') items) o Hmanifest Hsummary Hzip)
      as Hb end.
  pose proof (planned_consistent targets (map (item_capture at') items)
    (items_planned at' targets items H6)) as Hc.
  split; [by rewrite length_map, <- length_plan, <- H6, length_map|].
  clear Er r. revert Hb. destruct (BuildEvidenceBundle _ _ _ _ _ _ _) as [b|e]; cbn [wrap_err is_ok fst snd]; intros Hb.
  - destruct Hb as [Hcons Hsucc]. split; [split; [intros _; by apply Hc|done]|].
    intros b' [= <-]. by rewrite Hsucc, included_count.
  - split; [|done]. split; [done|]. intros Hn%Hc. by destruct (explains_inconsistent _ _ Hb Hn).
Qed.

(** A runner whose every command prints one byte. *)
Definition constant_run : CommandRunner unit := fun _ _ s =>
  ({| cr_Stdout := buf_of "a"; cr_Stderr := []; cr_ExitCode := 0; cr_TimedOut := false; cr_Started := 1;
      cr_Elapsed := 0; cr_Err := None |}, s).
Definition sample_switch (name : string) : BrocadeTarget :=
  {| bt_SwitchName := name; bt_Host := "10.0.0.1"; bt_Username := "ro"; bt_FabricRole := "source";
     bt_FID := None; bt_SSHKeyPath := "/k"; bt_PortRange := ""; bt_Notes := "" |}.
#[local] Instance constant_RunnerLaw : RunnerLaw constant_run.
Proof. intros t e s H. by destruct H. Qed.

Lemma collect_bundle_outcome_witness :
  let r := fst (CollectBundle (fun b => b) (fun _ => Ok []) (fun _ => Ok []) (fun _ => Ok []) (Some constant_run)
                  1 1 [sample_switch "a"; sample_switch "b"]
                  {| co_ContinueOnError := None; co_CollectedAt := 1 |} tt) in
  length (snd r) = (length commands * 2)%nat /\ is_ok (fst r) = true.
Proof.
  destruct (collect_bundle_outcome constant_run (fun b => b) (fun _ => Ok []) (fun _ => Ok []) (fun _ => Ok [])
    1 1 [sample_switch "a"; sample_switch "b"] 1 tt constant_RunnerLaw (fun _ => eq_refl) (fun _ => eq_refl)
    (fun _ => eq_refl) ltac:(discriminate)) as [H1 [H2 _]].
  - intros t Ht. repeat (apply elem_of_cons in Ht as [->|Ht]; [reflexivity|]). by apply elem_of_nil in Ht.
  - split; [exact H1|]. apply H2. split; apply (bool_decide_unpack _); reflexivity.
Defined.

(** ** The SSH runner *)

Section SSH.
Context (ReadKey : nat -> string -> result string buf) (ParsePrivateKey : buf -> bool)
        (Dial : nat -> Client -> option string) (open_session : nat -> Client -> string -> session)
        (clock : nat -> GoTime).
Let Run := ssh_Run ReadKey ParsePrivateKey Dial open_session clock.

(** The production runner keeps the promise that collections rely on. *)
#[global] Instance ssh_RunnerLaw : RunnerLaw Run.
Proof.
  intros target exec s. unfold Run, ssh_Run. rewrite !fst_bind.
  destruct (fst (ssh_client _ _ _ target _)) as [c|e]; [|done].
  rewrite !fst_bind. cbn. by destruct (open_session _ c exec) as [e|o e|o e []].
Qed.

(** Every result carries a zero duration, however long the command ran. *)
Lemma ssh_elapsed_zero target exec s : cr_Elapsed (fst (Run target exec s)) = 0.
Proof.
  unfold Run, ssh_Run. rewrite !fst_bind.
  destruct (fst (ssh_client _ _ _ target _)) as [c|e]; [|done].
  rewrite !fst_bind. cbn. by destruct (open_session _ c exec) as [e|o e|o e []].
Qed.

(** Once a host is connected, every later target on that host gets the same
    connection, whatever its user and key are. *)
Lemma ssh_user_shared target target' s c :
  fst (ssh_client ReadKey ParsePrivateKey Dial target s) = Ok c -> bt_Host target' = bt_Host target ->
  fst (ssh_client ReadKey ParsePrivateKey Dial target'
         (exec (ssh_client ReadKey ParsePrivateKey Dial target) s)) = Ok c.
Proof.
  unfold exec, ssh_client. intros H ->. destruct (ss_clients s !! bt_Host target) as [c'|] eqn:E.
  { cbn in *. by rewrite E. }
  destruct (ReadKey _ _) as [key|e]; [|done]. destruct (negb _); [done|].
  destruct (Dial _ _) as [e|]; [done|]. cbn in *. by rewrite lookup_insert_eq.
Qed.
End SSH.
