(* ===== verification/BrocadeExport.v ===== *)
(** The local export of a bundle ([src/brocadeexport]): configuration and its
    validation, safe artifact directories, the export with its audit record, and
    the runners grouped by known-hosts file. *)
From S2P Require Import Prelude GoStrings GoPath GoTime Interfaces Store EvidenceBundle BrocadeCli.
From Stdlib Require Import Ascii.

Local Open Scope Z_scope.

Definition DefaultArtifactDir : string := "/var/lib/filterrex/artifacts".
Definition AuditLogName : string := "brocade-export-audit.jsonl".
Definition AgentEvidenceArtifactDir : string := "/etc/filterrex/artifacts".

(** ** Configuration *)

Record RESTConfig : Type := {
  rs_TransportMode : string;
  rs_Port : Z;
  rs_Username : string;
  rs_PasswordFile : string;
  rs_CAFile : string;
  rs_InsecureTLSLabOnly : bool;
  rs_InsecureHTTPLabOnly : bool;
}.

Record TargetConfig : Type := {
  tc_SwitchName : string;
  tc_Host : string;
  tc_Username : string;
  tc_SSHKeyPath : string;
  tc_TargetProfileID : string;
  tc_KnownHostsPath : string;
  tc_FabricRole : string;
  tc_FID : option Z;
  tc_PortRange : string;
  tc_Notes : string;
  tc_REST : option RESTConfig;
}.

Record ExportConfig : Type := {
  xc_Enabled : bool;
  xc_ArtifactDir : string;
  xc_KnownHostsPath : string;
  xc_ConnectTimeoutSeconds : Z;
  xc_CommandTimeoutSeconds : Z;
  xc_SSHPort : Z;
  xc_Targets : list TargetConfig;
  xc_AllowInsecureArtifactDir : bool;
  xc_ConfigPath : string;
}.

Inductive ExportError : Type :=
| ErrCapabilityDisabled
| NoTargetsConfigured
| NotAbsolute (dir : string)
| UnderTmp (dir : string)
| FieldRequired (who field : string)
| ConfigError (e : string)
| ArtifactDirError (e : string)
| CaptureFailed (e : CollectError)
| BundleFailed (e : BundleError)
| ArtifactExists (path : string)
| WriteFailed (path : string)
| AuditFailed (e : string)
| RunnerInit (knownHosts e : string).

Definition blank (s : string) : bool := String.eqb (TrimSpace s) "".

Definition EffectiveArtifactDir (c : ExportConfig) : string :=
  if blank (xc_ArtifactDir c) then DefaultArtifactDir else xc_ArtifactDir c.
Definition effectiveKnownHosts (c : ExportConfig) (t : TargetConfig) : string :=
  if negb (blank (tc_KnownHostsPath t)) then tc_KnownHostsPath t else xc_KnownHostsPath c.

(** [time.Duration(n) * time.Second] wraps around. *)
Definition connectTimeout (c : ExportConfig) : Duration :=
  if xc_ConnectTimeoutSeconds c <=? 0 then 10 * Second else wrap64 (xc_ConnectTimeoutSeconds c * Second).
Definition commandTimeout (c : ExportConfig) : Duration :=
  if xc_CommandTimeoutSeconds c <=? 0 then 30 * Second else wrap64 (xc_CommandTimeoutSeconds c * Second).

Definition brocade_target (t : TargetConfig) : BrocadeTarget :=
  {| bt_SwitchName := tc_SwitchName t; bt_Host := tc_Host t; bt_Username := tc_Username t;
     bt_FabricRole := tc_FabricRole t; bt_FID := tc_FID t; bt_SSHKeyPath := tc_SSHKeyPath t;
     bt_PortRange := tc_PortRange t; bt_Notes := tc_Notes t |}.
Definition BrocadeTargets (c : ExportConfig) : list BrocadeTarget := map brocade_target (xc_Targets c).

Definition under_tmp (clean : string) : bool := String.eqb clean "/tmp" || HasPrefix clean "/tmp/".

Definition validate_target (c : ExportConfig) (i : nat) (t : TargetConfig) : result ExportError nat :=
  let who := if String.eqb (tc_SwitchName t) "" then "target[" +:+ pretty i +:+ "]"
             else tc_SwitchName t in
  if blank (tc_SwitchName t) then Err (FieldRequired who "switch_name")
  else if blank (tc_Host t) then Err (FieldRequired who "host")
  else if blank (tc_Username t) then Err (FieldRequired who "username")
  else if blank (tc_SSHKeyPath t) then Err (FieldRequired who "ssh_key_path")
  else if blank (effectiveKnownHosts c t) then Err (FieldRequired who "known_hosts_path")
  else Ok (S i).

Definition Validate (c : ExportConfig) : result ExportError unit :=
  if negb (xc_Enabled c) then Err ErrCapabilityDisabled
  else if (length (xc_Targets c) =? 0)%nat then Err NoTargetsConfigured
  else
  let dir := EffectiveArtifactDir c in
  if negb (xc_AllowInsecureArtifactDir c) && negb (IsAbs dir) then Err (NotAbsolute dir)
  else if negb (xc_AllowInsecureArtifactDir c) && under_tmp (Clean dir) then Err (UnderTmp dir)
  else _ ← fold_result (validate_target c) 0%nat (xc_Targets c); mret tt.

(** ** Artifact directories of the daemon *)

Definition is_control (c : ascii) : bool := (byte_of c <? 32) || (byte_of c =? 127).

Definition validateAgentArtifactDir (dir : string) : result string unit :=
  if negb (IsAbs dir) then Err "path must be absolute"
  else if existsb is_control (bytes dir) then Err "path contains control characters"
  else
  let clean := Clean dir in
  if String.eqb clean "/" then Err "refuses filesystem root"
  else if under_tmp clean then Err "is under /tmp"
  else Ok tt.

(** [env] is the value of [FILTERREX_AGENT_EVIDENCE_ARTIFACT_DIR]. *)
Definition ResolveAgentEvidenceArtifactDir (env : string) : result string (string * string) :=
  let v := TrimSpace env in
  if negb (String.eqb v "") then
    match validateAgentArtifactDir v with
    | Err e => Err e
    | Ok _ => Ok (Clean v, "env")
    end
  else Ok (AgentEvidenceArtifactDir, "default").

(** ** The world of an export *)

(** Files, directories with their permission bits, the clock and the runner. *)
Record World (R : Type) : Type := {
  w_fs : FS;
  w_dirs : gmap string Z;
  w_clock : nat -> GoTime;
  w_now : nat;
  w_runner : R;
}.
Arguments w_fs {R}. Arguments w_dirs {R}. Arguments w_clock {R}. Arguments w_now {R}.
Arguments w_runner {R}. Arguments Build_World {R}.

Definition on_fs {R A} (m : M FS A) : M (World R) A := fun w =>
  let '(a, f) := m (w_fs w) in (a, Build_World f (w_dirs w) (w_clock w) (w_now w) (w_runner w)).
Definition on_runner {R A} (m : M R A) : M (World R) A := fun w =>
  let '(a, r) := m (w_runner w) in (a, Build_World (w_fs w) (w_dirs w) (w_clock w) (w_now w) r).
Definition Now {R} : M (World R) GoTime := fun w =>
  (w_clock w (w_now w), Build_World (w_fs w) (w_dirs w) (w_clock w) (S (w_now w)) (w_runner w)).

(** [os.MkdirAll(dir, 0700)]: an existing directory is left alone, an existing
    file is an error. *)
Definition MkdirAll {R} (dir : string) : M (World R) bool := fun w =>
  match w_dirs w !! dir, fs_files (w_fs w) !! dir with
  | Some _, _ => (true, w)
  | None, Some _ => (false, w)
  | None, None =>
      let ok := match next_io (w_fs w) with IoOk => true | _ => false end in
      (ok, Build_World (tick (w_fs w)) (if ok then <[dir := 448]> (w_dirs w) else w_dirs w)
             (w_clock w) (w_now w) (w_runner w))
  end.

Inductive stat_result : Type := StatDir (mode : Z) | StatFile | StatError.
Definition Stat {R} (path : string) (w : World R) : stat_result :=
  if negb (fs_readable (w_fs w)) then StatError
  else match w_dirs w !! path, fs_files (w_fs w) !! path with
       | Some mode, _ => StatDir mode
       | None, Some _ => StatFile
       | None, None => StatError
       end.

Definition world_writable (mode : Z) : bool := negb (Z.land mode 2 =? 0).

Definition ensureArtifactDir {R} (dir : string) : M (World R) (result ExportError unit) :=
  made ← MkdirAll dir;
  if negb made then mret (Err (ArtifactDirError "create artifact_dir"))
  else
  info ← gets (Stat dir);
  mret match info with
       | StatError => Err (ArtifactDirError "stat artifact_dir")
       | StatFile => Err (ArtifactDirError "artifact_dir is not a directory")
       | StatDir mode =>
           if world_writable mode then Err (ArtifactDirError "artifact_dir is world-writable")
           else Ok tt
       end.

(** The write probe creates a temporary file, [probe] being its name, and
    removes it; a failed [chmod] or [close] also removes it. *)
Definition VerifyWritableDirectory {R} (path probe : string) : M (World R) (result string unit) :=
  made ← MkdirAll path;
  if negb made then mret (Err "mkdir")
  else
  info ← gets (Stat path);
  match info with
  | StatError => mret (Err "stat")
  | StatFile => mret (Err "not a directory")
  | StatDir mode =>
      if world_writable mode then mret (Err "world-writable")
      else
      created ← on_fs (WriteFile probe []);
      if negb created then mret (Err "create probe")
      else
      chmod ← on_fs (fun f => (next_io f, tick f));
      match chmod with
      | IoFail | IoPartial _ => _ ← on_fs (Remove probe); mret (Err "chmod probe")
      | IoOk =>
          closed ← on_fs (fun f => (next_io f, tick f));
          match closed with
          | IoFail | IoPartial _ => _ ← on_fs (Remove probe); mret (Err "close probe")
          | IoOk =>
              removed ← on_fs (Remove probe);
              mret match removed with Removed => Ok tt | _ => Err "cleanup probe" end
          end
      end
  end.

(** ** Results and audit *)

Record AuditTarget : Type := { at_SwitchName : string; at_Host : string; at_FabricRole : string }.

Record RequestMeta : Type := {
  rq_RequesterType : string;
  rq_Requester : string;
  rq_ConfigPath : string;
}.

Record AuditRecord : Type := {
  au_Event : string;
  au_RequesterType : string;
  au_Requester : string;
  au_ConfigPath : string;
  au_Vendor : string;
  au_CollectionMethod : string;
  au_Targets : list AuditTarget;
  au_CommandsAttempted : Z;
  au_CommandsSucceeded : Z;
  au_CommandsFailed : Z;
  au_TargetsAttempted : Z;
  au_TargetsSucceeded : Z;
  au_TargetsFailed : Z;
  au_Warnings : list string;
  au_OutputPath : string;
  au_SHA256 : string;
  au_StartedAt : string;
  au_FinishedAt : string;
  au_OK : bool;
  au_Error : string;
}.

Record ExportResult : Type := {
  er_OK : bool;
  er_ArtifactType : string;
  er_Vendor : string;
  er_CollectionMethod : string;
  er_Path : string;
  er_Switches : Z;
  er_ParsedFiles : Z;
  er_SupportingFiles : Z;
  er_Warnings : Z;
  er_SHA256 : string;
  er_StartedAt : string;
  er_FinishedAt : string;
  er_Audit : option AuditRecord;  (* the zero record before the audit is written *)
}.

(** [started.Format("20060102T150405Z")]. *)
Definition artifact_time (t : GoTime) : string :=
  let secs := t / Second in
  let c := civil_of_days (secs / 86400) in
  let s := secs mod 86400 in
  pad_digits 4 (cv_year c) +:+ pad_digits 2 (cv_month c) +:+ pad_digits 2 (cv_day c) +:+ "T"
  +:+ pad_digits 2 (s / 3600) +:+ pad_digits 2 (s / 60 mod 60) +:+ pad_digits 2 (s mod 60) +:+ "Z".

Definition artifact_path (dir : string) (started : GoTime) : string :=
  JoinPath [dir; "filterrex-agent-evidence-bundle-" +:+ artifact_time started +:+ ".zip"].

Definition profile_levels : gmap string string :=
  match ProfileCommands with
  | Ok cmds => foldl (fun m c => <[pc_ID c := pc_SupportLevel c]> m) ∅ cmds
  | Err _ => ∅
  end.
Definition is_parsed (f : manifestFile) : bool :=
  String.eqb (default "" (profile_levels !! bf_Command f)) "parsed".
Definition countSupportLevels (m : Manifest) : Z * Z :=
  let files := mjoin (map ms_Files (mn_Switches m)) in
  (Z.of_nat (length (List.filter is_parsed files)),
   Z.of_nat (length (List.filter (fun f => negb (is_parsed f)) files))).
Definition countTargetsWithFiles (m : Manifest) : Z :=
  Z.of_nat (length (List.filter (fun sw => (0 <? length (ms_Files sw))%nat) (mn_Switches m))).

Definition auditTargets (c : ExportConfig) : list AuditTarget :=
  map (fun t => {| at_SwitchName := tc_SwitchName t; at_Host := tc_Host t;
                   at_FabricRole := tc_FabricRole t |}) (xc_Targets c).

Definition warning_line (e : LogEntry) : string :=
  le_SwitchName e +:+ " (" +:+ le_Host e +:+ "): " +:+ le_CommandID e +:+ " ["
  +:+ status_text (le_ExitCode e) (le_TimedOut e) +:+ "]"
  +:+ (if String.eqb (le_Note e) "" then "" else " " +:+ le_Note e).
Definition warningLines (l : list LogEntry) : list string :=
  map warning_line (List.filter (fun e => negb (le_Included e)) l).

(** Appending to a file that is created when missing; a failed write may leave a
    prefix. *)
Definition AppendFile (path : string) (data : buf) (f : FS) : bool * FS :=
  let old := default [] (fs_files f !! path) in
  match next_io f with
  | IoOk => (true, set_files (<[path := old ++ data]> (fs_files f)) f)
  | IoFail => (false, tick f)
  | IoPartial n => (false, set_files (<[path := old ++ take n data]> (fs_files f)) f)
  end.

Section Job.
Context (sha256 : buf -> buf) (marshal_manifest : Manifest -> result string buf)
        (marshal_summary : Summary -> result string buf) (zip_write : list zip_entry -> result string buf)
        (marshal_audit : AuditRecord -> result string buf).

Definition writeAuditRecord (artifactDir : string) (rec : AuditRecord) (f : FS)
    : result string unit * FS :=
  match marshal_audit rec with
  | Err e => (Err ("marshal audit record: " +:+ e), snd (AppendFile (JoinPath [artifactDir; AuditLogName]) [] f))
  | Ok line =>
      let '(ok, f') := AppendFile (JoinPath [artifactDir; AuditLogName]) (line ++ newline) f in
      (if ok : bool then Ok tt else Err "write audit record", f')
  end.

Definition target_config_meta (t : TargetConfig) : SwitchMeta :=
  {| sm_SwitchName := tc_SwitchName t; sm_FID := tc_FID t; sm_WWN := ""; sm_DomainID := None;
     sm_Model := ""; sm_Notes := tc_Notes t |}.

(** The result and the audit record of a written bundle. *)
Definition export_result (res : BuildResult) (outPath : string) (started finished : GoTime)
    : ExportResult :=
  let '(parsed, supporting) := countSupportLevels (br_Manifest res) in
  {| er_OK := true; er_ArtifactType := "evidence_bundle"; er_Vendor := Vendor;
     er_CollectionMethod := CollectionMethodAgent; er_Path := outPath;
     er_Switches := bsum_SwitchesAttempted (br_Summary res); er_ParsedFiles := parsed;
     er_SupportingFiles := supporting; er_Warnings := bsum_CommandsFailed (br_Summary res);
     er_SHA256 := hex (sha256 (br_Zip res)); er_StartedAt := FormatRFC3339 started;
     er_FinishedAt := FormatRFC3339 finished; er_Audit := None |}.
Definition audit_record (cfg : ExportConfig) (req : RequestMeta) (res : BuildResult)
    (log : list LogEntry) (result : ExportResult) : AuditRecord :=
  let s := br_Summary res in
  let targetsSucceeded := countTargetsWithFiles (br_Manifest res) in
  {| au_Event := "brocade.export"; au_RequesterType := rq_RequesterType req;
     au_Requester := rq_Requester req; au_ConfigPath := rq_ConfigPath req; au_Vendor := Vendor;
     au_CollectionMethod := CollectionMethodAgent; au_Targets := auditTargets cfg;
     au_CommandsAttempted := bsum_CommandsAttempted s; au_CommandsSucceeded := bsum_CommandsSucceeded s;
     au_CommandsFailed := bsum_CommandsFailed s; au_TargetsAttempted := bsum_SwitchesAttempted s;
     au_TargetsSucceeded := targetsSucceeded;
     au_TargetsFailed := bsum_SwitchesAttempted s - targetsSucceeded;
     au_Warnings := warningLines log; au_OutputPath := er_Path result; au_SHA256 := er_SHA256 result;
     au_StartedAt := er_StartedAt result; au_FinishedAt := er_FinishedAt result; au_OK := true;
     au_Error := "" |}.
Definition with_audit (rec : AuditRecord) (r : ExportResult) : ExportResult :=
  {| er_OK := er_OK r; er_ArtifactType := er_ArtifactType r; er_Vendor := er_Vendor r;
     er_CollectionMethod := er_CollectionMethod r; er_Path := er_Path r; er_Switches := er_Switches r;
     er_ParsedFiles := er_ParsedFiles r; er_SupportingFiles := er_SupportingFiles r;
     er_Warnings := er_Warnings r; er_SHA256 := er_SHA256 r; er_StartedAt := er_StartedAt r;
     er_FinishedAt := er_FinishedAt r; er_Audit := Some rec |}.

(** The value and the error that the export returns; both are set when only the
    audit record could not be written. *)
Abbreviation export_outcome := (option ExportResult * option ExportError)%type.
Definition refuse {R} (e : ExportError) : M (World R) export_outcome := mret (None, Some e).

(** From the bundle to the artifact on disk and the audit record. *)
Definition write_artifact {R} (cfg : ExportConfig) (req : RequestMeta) (dir : string)
    (started : GoTime) (log : list LogEntry) (res : BuildResult) : M (World R) export_outcome :=
  finished ← Now;
  let outPath := artifact_path dir started in
  info ← gets (Stat outPath);
  match info with
  | StatDir _ | StatFile => refuse (ArtifactExists outPath)
  | StatError =>
      written ← on_fs (WriteFile outPath (br_Zip res));
      if negb written then refuse (WriteFailed outPath)
      else
      let result := export_result res outPath started finished in
      let rec := audit_record cfg req res log result in
      audited ← on_fs (writeAuditRecord dir rec);
      mret match audited with
           | Err e => (Some result, Some (AuditFailed e))
           | Ok _ => (Some (with_audit rec result), None)
           end
  end.

Definition RunExport {R} (cfg : ExportConfig) (runner : option (CommandRunner R)) (req : RequestMeta)
    : M (World R) export_outcome :=
  match Validate cfg with
  | Err e => refuse e
  | Ok _ =>
      let dir := EffectiveArtifactDir cfg in
      ensured ← ensureArtifactDir dir;
      match ensured with
      | Err e => refuse e
      | Ok _ =>
          started ← Now;
          g ← on_runner (Collect runner started (BrocadeTargets cfg)
                {| co_ContinueOnError := None; co_CollectedAt := started |});
          match ga_error g with
          | Some e => refuse (CaptureFailed e)
          | None =>
              match BuildEvidenceBundle sha256 marshal_manifest marshal_summary zip_write started
                      (ga_captures g)
                      {| bo_CollectionMethod := CollectionMethodAgent; bo_FabricRole := "";
                         bo_CustomerSupplied := false; bo_CollectedAt := started;
                         bo_SwitchMeta := map target_config_meta (xc_Targets cfg);
                         bo_Collector := "filterrex_agent_brocade_export" |} with
              | Err e => refuse (BundleFailed e)
              | Ok res => write_artifact cfg req dir started (ga_log g) res
              end
          end
      end
  end.
End Job.

(** [LoadConfig]; [decode] is the strict JSON decoder. *)
Definition LoadConfig (decode : buf -> result string ExportConfig) (path : string) (f : FS)
    : result ExportError ExportConfig :=
  match ReadFile path f with
  | ReadOk data =>
      match decode data with
      | Err e => Err (ConfigError ("parse config: " +:+ e))
      | Ok c => Ok {| xc_Enabled := xc_Enabled c; xc_ArtifactDir := xc_ArtifactDir c;
                      xc_KnownHostsPath := xc_KnownHostsPath c;
                      xc_ConnectTimeoutSeconds := xc_ConnectTimeoutSeconds c;
                      xc_CommandTimeoutSeconds := xc_CommandTimeoutSeconds c;
                      xc_SSHPort := xc_SSHPort c; xc_Targets := xc_Targets c;
                      xc_AllowInsecureArtifactDir := xc_AllowInsecureArtifactDir c;
                      xc_ConfigPath := path |}
      end
  | _ => Err (ConfigError "read config")
  end.

(** ** Runners grouped by known-hosts file *)

(** One runner per known-hosts file; [dp_byHost] points into them. *)
Record dispatchRunner : Type := {
  dp_byHost : gmap string string;
  dp_runners : gmap string sshRunner;
  dp_order : list string;  (* the closers, in the order they were added *)
  dp_tick : nat;
}.

Section Dispatch.
(** Keys, the SSH library and the clock, per runner and step. *)
Context (ReadKey : string -> nat -> string -> result string buf) (ParsePrivateKey : buf -> bool).
Context (Dial : string -> nat -> Client -> option string)
        (open_session : string -> nat -> Client -> string -> session)
        (close_client : nat -> Client -> option string) (clock : nat -> GoTime).
Context (knownhosts_New : string -> option string).

Definition dispatch_Run : CommandRunner dispatchRunner := fun target exec d =>
  let tick := {| dp_byHost := dp_byHost d; dp_runners := dp_runners d; dp_order := dp_order d;
                 dp_tick := S (dp_tick d) |} in
  match dp_byHost d !! bt_Host target ≫= fun kh => pair kh <$> dp_runners d !! kh with
  | None =>
      ({| cr_Stdout := []; cr_Stderr := []; cr_ExitCode := -1; cr_TimedOut := false;
          cr_Started := clock (dp_tick d); cr_Elapsed := 0;
          cr_Err := Some ("no ssh runner configured for host " +:+ bt_Host target) |}, tick)
  | Some (kh, r) =>
      let '(res, r') := ssh_Run (ReadKey kh) ParsePrivateKey (Dial kh) (open_session kh) clock target exec r in
      (res, {| dp_byHost := dp_byHost d; dp_runners := <[kh := r']> (dp_runners d);
               dp_order := dp_order d; dp_tick := S (dp_tick d) |})
  end.

Definition add_runner (cfg : ExportConfig) (d : dispatchRunner) (t : TargetConfig)
    : result ExportError dispatchRunner :=
  let kh := effectiveKnownHosts cfg t in
  match dp_runners d !! kh with
  | Some _ => Ok {| dp_byHost := <[tc_Host t := kh]> (dp_byHost d); dp_runners := dp_runners d;
                    dp_order := dp_order d; dp_tick := dp_tick d |}
  | None =>
      match NewSSHRunner knownhosts_New
              {| sc_KnownHostsPath := kh; sc_ConnectTimeout := connectTimeout cfg;
                 sc_CommandTimeout := commandTimeout cfg; sc_Port := xc_SSHPort cfg |} with
      | Err e => Err (RunnerInit kh e)
      | Ok r => Ok {| dp_byHost := <[tc_Host t := kh]> (dp_byHost d);
                      dp_runners := <[kh := r]> (dp_runners d);
                      dp_order := dp_order d ++ [kh]; dp_tick := dp_tick d |}
      end
  end.

Definition no_runners : dispatchRunner :=
  {| dp_byHost := ∅; dp_runners := ∅; dp_order := []; dp_tick := 0 |}.

(** [closeAll]: every runner closes its connections. *)
Definition close_runner (d : dispatchRunner) (kh : string) : dispatchRunner :=
  {| dp_byHost := dp_byHost d;
     dp_runners := alter (fun r => snd (ssh_Close close_client r)) kh (dp_runners d);
     dp_order := dp_order d; dp_tick := dp_tick d |}.
Definition closeAll (d : dispatchRunner) : dispatchRunner := foldl close_runner d (dp_order d).

Context (sha256 : buf -> buf) (marshal_manifest : Manifest -> result string buf)
        (marshal_summary : Summary -> result string buf) (zip_write : list zip_entry -> result string buf)
        (marshal_audit : AuditRecord -> result string buf).

Definition RunExportWithSSH (cfg : ExportConfig) (req : RequestMeta)
    : M (World dispatchRunner) (option ExportResult * option ExportError) :=
  match Validate cfg with
  | Err e => refuse e
  | Ok _ =>
      match fold_result (add_runner cfg) no_runners (xc_Targets cfg) with
      | Err e => refuse e
      | Ok d =>
          _ ← on_runner (fun _ => (tt, d));
          r ← RunExport sha256 marshal_manifest marshal_summary zip_write marshal_audit cfg
                (Some dispatch_Run) req;
          _ ← on_runner (modify closeAll);
          mret r
      end
  end.
End Dispatch.
