(* ===== verification/BrocadeExportProps.v ===== *)
(** Properties of the local export: the gate, what may be written, and safe
    artifact directories. *)
From S2P Require Import Prelude GoStrings GoPath GoTime Interfaces Store EvidenceBundle BrocadeCli.
From S2P Require Import BrocadeExport.
From Stdlib Require Import Ascii.

Local Open Scope Z_scope.

(** ** Names of artifacts *)

Lemma digit_not_slash z : Ascii.ascii_of_N (48 + Z.to_N (z mod 10)) <> slash.
Proof.
  pose proof (Z.mod_pos_bound z 10 ltac:(lia)) as H. intros E. apply (f_equal N_of_ascii) in E.
  rewrite N_ascii_embedding in E by lia. change (N_of_ascii slash) with 47%N in E. lia.
Qed.

Lemma pad_digits_plain n z : slashless (pad_digits n z).
Proof.
  revert z. induction n as [|n IH]; intros z; [apply not_elem_of_nil|]. unfold slashless. simpl.
  rewrite bytes_app, not_elem_of_app. split; [apply IH|]. simpl.
  rewrite list_elem_of_singleton. intros E. by eapply digit_not_slash.
Qed.

Lemma plain_app s t : slashless s -> slashless t -> slashless (s +:+ t).
Proof. unfold slashless. intros. rewrite bytes_app, not_elem_of_app. done. Qed.

Ltac plain_parts :=
  lazymatch goal with
  | |- slashless (String.append _ _) => apply plain_app; plain_parts
  | |- slashless (pad_digits _ _) => apply pad_digits_plain
  | |- _ => apply (bool_decide_unpack _); reflexivity
  end.

Definition artifact_name (t : GoTime) : string :=
  "filterrex-agent-evidence-bundle-" +:+ artifact_time t +:+ ".zip".

Lemma artifact_name_plain t : slashless (artifact_name t).
Proof. unfold artifact_name, artifact_time. plain_parts. Qed.

Lemma artifact_path_last dir t : dir <> "" -> last (bytes (artifact_path dir t)) = Some "p"%char.
Proof.
  intros Hd. destruct (JoinPath_name dir (artifact_name t)) as [p E]; try done.
  { apply artifact_name_plain. }
  unfold artifact_path. fold (artifact_name t). rewrite E. apply last_suffix. unfold artifact_name.
  by do 2 apply last_suffix.
Qed.

Definition audit_path (dir : string) : string := JoinPath [dir; AuditLogName].

Lemma audit_not_artifact dir t : dir <> "" -> artifact_path dir t <> audit_path dir.
Proof.
  intros Hd E. pose proof (artifact_path_last dir t Hd) as H. rewrite E in H. unfold audit_path in H.
  destruct (JoinPath_name dir AuditLogName) as [p E']; try done.
  { by apply (bool_decide_unpack _). }
  rewrite E' in H. by rewrite (last_suffix p AuditLogName "l"%char) in H.
Qed.

Lemma EffectiveArtifactDir_nonempty c : EffectiveArtifactDir c <> "".
Proof.
  unfold EffectiveArtifactDir, blank. destruct (String.eqb_spec (TrimSpace (xc_ArtifactDir c)) "") as [|H].
  - done.
  - intros E. by rewrite E in H.
Qed.

(** ** What the steps of an export touch *)

(** A step that changes no file. *)
Record same_files {R} (w w' : World R) : Prop := {
  sf_files : fs_files (w_fs w') = fs_files (w_fs w);
  sf_readable : fs_readable (w_fs w') = fs_readable (w_fs w);
}.
Lemma on_runner_run {R A} (m : M R A) (w : World R) :
  w_fs (exec (on_runner m) w) = w_fs w /\ w_dirs (exec (on_runner m) w) = w_dirs w.
Proof. unfold exec, on_runner. by destruct (m (w_runner w)). Qed.

Lemma on_fs_run {R A} (m : M FS A) (w : World R) :
  fst (on_fs m w) = fst (m (w_fs w)) /\ w_fs (exec (on_fs m) w) = snd (m (w_fs w))
  /\ w_dirs (exec (on_fs m) w) = w_dirs w.
Proof. unfold exec, on_fs. by destruct (m (w_fs w)). Qed.

Lemma ensureArtifactDir_spec {R} dir (w : World R) :
  same_files w (exec (ensureArtifactDir dir) w)
  /\ (is_ok (fst (ensureArtifactDir dir w)) = true ->
        exists mode, w_dirs (exec (ensureArtifactDir dir) w) !! dir = Some mode
                     /\ world_writable mode = false).
Proof.
  unfold ensureArtifactDir. rewrite exec_bind, fst_bind.
  assert (Hm : same_files w (exec (MkdirAll dir) w)).
  { unfold exec, MkdirAll. by repeat case_match. }
  destruct (fst (MkdirAll dir w)); cbn [negb]; [|done].
  set (w1 := exec (MkdirAll dir) w) in *. rewrite exec_bind, fst_bind.
  change (exec (gets (Stat dir)) w1) with w1. split; [done|]. cbn. unfold Stat.
  destruct (negb _); [done|]. destruct (w_dirs w1 !! dir) as [mode|].
  - destruct (world_writable mode) eqn:Ew; [done|]. eauto.
  - by destruct (_ !! dir).
Qed.

(** What the last part of an export does to the files, for the outcome [r]. *)
Record artifact_written (sha256 : buf -> buf) (marshal_audit : AuditRecord -> result string buf)
    (dir : string) (before after : gmap string buf)
    (r : option ExportResult * option ExportError) : Prop := {
  aw_kept : forall p x, before !! p = Some x -> p <> audit_path dir -> after !! p = Some x;
  aw_artifact : forall res, fst r = Some res ->
    before !! er_Path res = None
    /\ exists zip, after !! er_Path res = Some zip /\ er_SHA256 res = hex (sha256 zip);
  aw_audited : forall res, r = (Some res, None) ->
    exists rec line, er_Audit res = Some rec /\ marshal_audit rec = Ok line
      /\ au_SHA256 rec = er_SHA256 res /\ au_OutputPath rec = er_Path res
      /\ after !! audit_path dir = Some (default [] (before !! audit_path dir) ++ line ++ newline);
  aw_answers : fst r <> None \/ snd r <> None;
}.

Lemma artifact_refused sha256 marshal_audit dir before after e :
  (forall p x, before !! p = Some x -> p <> audit_path dir -> after !! p = Some x) ->
  artifact_written sha256 marshal_audit dir before after (None, Some e).
Proof. intros H. split; [done..|]. by right. Qed.

Lemma WriteFile_new path data f :
  fs_files f !! path = None ->
  (forall p x, fs_files f !! p = Some x -> fs_files (snd (WriteFile path data f)) !! p = Some x)
  /\ (forall q, q <> path -> fs_files (snd (WriteFile path data f)) !! q = fs_files f !! q)
  /\ (fst (WriteFile path data f) = true -> fs_files (snd (WriteFile path data f)) !! path = Some data).
Proof.
  intros Hn. unfold WriteFile. destruct (next_io f); cbn; (split; [|split]); try done;
    intros; rewrite ?lookup_insert_eq, ?lookup_insert_ne by congruence; done.
Qed.

Lemma writeAuditRecord_spec marshal_audit dir rec f :
  (forall q, q <> audit_path dir ->
     fs_files (snd (writeAuditRecord marshal_audit dir rec f)) !! q = fs_files f !! q)
  /\ (is_ok (fst (writeAuditRecord marshal_audit dir rec f)) = true ->
       exists line, marshal_audit rec = Ok line
         /\ fs_files (snd (writeAuditRecord marshal_audit dir rec f)) !! audit_path dir
            = Some (default [] (fs_files f !! audit_path dir) ++ line ++ newline)).
Proof.
  unfold writeAuditRecord. fold (audit_path dir). unfold AppendFile.
  destruct (marshal_audit rec) as [line|e]; destruct (next_io f); cbn; (split; [|done || idtac]);
    intros; rewrite ?lookup_insert_ne by congruence; try done.
  exists line. by rewrite lookup_insert_eq.
Qed.

Section Artifact.
Context (sha256 : buf -> buf) (marshal_audit : AuditRecord -> result string buf) {R : Type}.

Lemma write_artifact_spec cfg req dir started log res (w : World R) :
  dir <> "" -> fs_readable (w_fs w) = true ->
  let m := write_artifact sha256 marshal_audit cfg req dir started log res in
  artifact_written sha256 marshal_audit dir (fs_files (w_fs w)) (fs_files (w_fs (exec m w))) (fst (m w))
  /\ w_dirs (exec m w) = w_dirs w.
Proof.
  intros Hd Hread m. subst m. unfold write_artifact. rewrite exec_bind, fst_bind.
  set (finished := fst (Now w)). set (w1 := exec Now w). set (out := artifact_path dir started).
  change (w_dirs w) with (w_dirs w1). change (w_fs w) with (w_fs w1) in *. clearbody w1 finished.
  rewrite exec_bind, fst_bind. change (exec (gets (Stat out)) w1) with w1. cbn [gets fst].
  unfold Stat. rewrite Hread. cbn [negb].
  destruct (w_dirs w1 !! out) as [mode|]; [split; [by apply artifact_refused|done]|].
  destruct (fs_files (w_fs w1) !! out) as [x|] eqn:Efree; [split; [by apply artifact_refused|done]|].
  rewrite exec_bind, fst_bind.
  destruct (WriteFile_new out (br_Zip res) (w_fs w1) Efree) as (K1 & K2 & K3).
  destruct (on_fs_run (WriteFile out (br_Zip res)) w1) as (E1 & E2 & E3). rewrite E1.
  set (w2 := exec (on_fs (WriteFile out (br_Zip res))) w1) in *. rewrite <- E2 in K1, K2, K3.
  destruct (fst (WriteFile out (br_Zip res) (w_fs w1))); cbn [negb];
    [|split; [apply artifact_refused; intros p x Hp _; by apply K1|done]].
  specialize (K3 eq_refl). set (result := export_result sha256 res out started finished).
  set (rec := audit_record cfg req res log result). rewrite exec_bind, fst_bind.
  destruct (on_fs_run (writeAuditRecord marshal_audit dir rec) w2) as (F1 & F2 & F3). rewrite F1.
  set (w3 := exec (on_fs (writeAuditRecord marshal_audit dir rec)) w2) in *.
  destruct (writeAuditRecord_spec marshal_audit dir rec (w_fs w2)) as [A1 A2]. rewrite <- F2 in A1, A2.
  pose proof (audit_not_artifact dir started Hd : out <> audit_path dir) as Hne.
  cbn [mret M_ret exec fst snd]. change (snd (?a, w3)) with w3. split; [|congruence].
  assert (Hout : fs_files (w_fs w3) !! out = Some (br_Zip res)) by (by rewrite A1).
  assert (Hsame : forall r', er_Path r' = out -> er_SHA256 r' = hex (sha256 (br_Zip res)) ->
    fs_files (w_fs w1) !! er_Path r' = None
    /\ exists zip, fs_files (w_fs w3) !! er_Path r' = Some zip /\ er_SHA256 r' = hex (sha256 zip)).
  { intros r' -> ->. eauto. }
  assert (Hres : er_Path result = out /\ er_SHA256 result = hex (sha256 (br_Zip res))).
  { subst result. unfold export_result. by destruct (countSupportLevels _). }
  destruct Hres as [Hp Hh].
  split.
  - intros p x Hx Hn. rewrite A1 by done. by apply K1.
  - intros r'. destruct (fst (writeAuditRecord _ _ _ _)); intros [= <-]; by apply Hsame.
  - intros r'. destruct (fst (writeAuditRecord _ _ _ _)); [|done]. intros [= <-].
    destruct (A2 eq_refl) as (line & Hl & Hlog). exists rec, line.
    rewrite (K2 (audit_path dir)) in Hlog by done. done.
  - left. by destruct (fst (writeAuditRecord _ _ _ _)).
Qed.
End Artifact.

(** An export is gated and careful with files.  While the configuration is
    not valid - in particular while the capability is off - nothing happens at
    all: no command is run, no file or directory is touched.  In every run, files
    that were there before keep their content (the audit log grows).  A result
    names a path that was free before and now holds the archive, its SHA-256 is
    that of the bytes on disk, and the directory is not world-writable; without an
    error the audit log has gained exactly the line of a record with the same
    path and hash.  Every run returns a result or an error. *)
Theorem export_safe sha256 marshal_manifest marshal_summary zip_write marshal_audit {R}
    cfg (runner : option (CommandRunner R)) req (w : World R)
    (Hread : fs_readable (w_fs w) = true) :
  let m := RunExport sha256 marshal_manifest marshal_summary zip_write marshal_audit cfg runner req in
  let r := fst (m w) in
  let w' := exec m w in
  (forall e, Validate cfg = Err e -> r = (None, Some e) /\ w' = w)
  /\ artifact_written sha256 marshal_audit (EffectiveArtifactDir cfg)
       (fs_files (w_fs w)) (fs_files (w_fs w')) r
  /\ (forall res, fst r = Some res ->
        exists mode, w_dirs w' !! EffectiveArtifactDir cfg = Some mode /\ world_writable mode = false).
Proof.
  cbv zeta. unfold RunExport. destruct (Validate cfg) as [u|e0].
  2:{ split; [by intros e [= ->]|]. split; [by apply artifact_refused|done]. }
  split; [done|]. set (dir := EffectiveArtifactDir cfg). rewrite exec_bind, fst_bind.
  destruct (ensureArtifactDir_spec dir w) as [[S1 S2] S3].
  set (w1 := exec (ensureArtifactDir dir) w) in *. rewrite <- S1.
  destruct (fst (ensureArtifactDir dir w)) as [[]|e]; [|split; [by apply artifact_refused|done]].
  destruct (S3 eq_refl) as (mode & Hdir & Hmode). rewrite Hread in S2. clear S1 S3 Hread.
  rewrite exec_bind, fst_bind. set (started := fst (Now w1)). set (w2 := exec Now w1).
  change (w_fs w1) with (w_fs w2) in *. change (w_dirs w1) with (w_dirs w2) in *. clearbody w2 started.
  rewrite exec_bind, fst_bind. set (collect := on_runner _).
  destruct (on_runner_run (Collect runner started (BrocadeTargets cfg)
    {| co_ContinueOnError := None; co_CollectedAt := started |}) w2) as (C1 & C2).
  fold collect in C1, C2. set (g := fst (collect w2)). set (w3 := exec collect w2) in *.
  rewrite <- C1 in S2 |- *. rewrite <- C2 in Hdir. clearbody w3 g.
  destruct (ga_error g); [split; [by apply artifact_refused|done]|].
  destruct (BuildEvidenceBundle _ _ _ _ _ _ _) as [res|e]; [|split; [by apply artifact_refused|done]].
  destruct (write_artifact_spec sha256 marshal_audit cfg req dir started (ga_log g) res w3) as [A B];
    [apply EffectiveArtifactDir_nonempty|done|]. split; [done|]. intros r _. rewrite B. eauto.
Qed.

(** ** Artifact directories of the daemon *)

(** The directory that the daemon writes evidence to is absolute, clean, free
    of ".." segments and control characters, and is neither the root nor below
    [/tmp], whatever the environment variable says; it is accepted again by the
    same check. *)
Theorem artifact_dir_safe env dir source
    (Hdir : ResolveAgentEvidenceArtifactDir env = Ok (dir, source)) :
  IsAbs dir = true /\ Clean dir = dir /\ ~ ".." ∈ Split dir slash
  /\ Forall (fun c => is_control c = false) (bytes dir)
  /\ dir <> "/" /\ under_tmp dir = false
  /\ validateAgentArtifactDir dir = Ok tt.
Proof.
  assert (Hok : validateAgentArtifactDir dir = Ok tt /\ Clean dir = dir).
  { revert Hdir. unfold ResolveAgentEvidenceArtifactDir.
    destruct (negb _); [|by intros [= <- _]].
    unfold validateAgentArtifactDir at 1. destruct (IsAbs (TrimSpace env)) eqn:Ea; cbn [negb]; [|done].
    destruct (existsb is_control (bytes (TrimSpace env))) eqn:Ec; [done|].
    destruct (String.eqb (Clean (TrimSpace env)) "/") eqn:Er; [done|].
    destruct (under_tmp (Clean (TrimSpace env))) eqn:Et; [done|]. intros [= <- _].
    destruct (Clean_abs _ Ea) as [Ha _]. split; [|apply Clean_idem].
    unfold validateAgentArtifactDir. rewrite Ha, Clean_idem, Er, Et. cbn [negb].
    replace (existsb is_control _) with false; [done|]. symmetry. apply not_true_iff_false.
    intros (c & Hc & Hctl)%existsb_exists. apply list_elem_of_In, Clean_bytes in Hc.
    apply not_true_iff_false in Ec. apply Ec, existsb_exists.
    destruct Hc as [->|[->|Hc]]; [done..|]. exists c. by rewrite <- list_elem_of_In. }
  destruct Hok as [Hok Hcl]. assert (Hv := Hok). revert Hok. unfold validateAgentArtifactDir.
  destruct (IsAbs dir) eqn:Ea; cbn [negb]; [|done].
  destruct (existsb is_control (bytes dir)) eqn:Ec; [done|].
  rewrite Hcl. destruct (String.eqb_spec dir "/"); [done|]. destruct (under_tmp dir) eqn:Et; [done|].
  intros _. destruct (Clean_abs _ Ea) as [_ Hdd]. rewrite Hcl in Hdd.
  repeat split; auto. apply Forall_forall. intros c Hc. apply not_true_iff_false. intros Hctl.
  apply not_true_iff_false in Ec. apply Ec, existsb_exists. exists c. by rewrite <- list_elem_of_In.
Qed.

(** ** Runners per known-hosts file *)

(** Every target has a runner, and it is the one of the known-hosts file of the
    last target with the same host. *)
Lemma add_runners_host knownhosts_New cfg targets d d' :
  fold_result (add_runner knownhosts_New cfg) d targets = Ok d' ->
  forall t rest, targets = rest ++ [t] -> dp_byHost d' !! tc_Host t = Some (effectiveKnownHosts cfg t).
Proof.
  revert d. induction targets as [|u targets IH]; intros d; [by intros _ t [|? ?]|].
  cbn [fold_result]. destruct (add_runner _ _ d u) as [d1|e] eqn:E; [|done].
  intros Hf t rest Ht. destruct rest as [|v rest]; cbn in Ht; simplify_eq.
  - cbn in Hf. simplify_eq. unfold add_runner in E. repeat case_match; simplify_eq; cbn;
      by rewrite lookup_insert_eq.
  - by eapply IH.
Qed.

(** ** Instances *)

Definition toy_target : TargetConfig :=
  {| tc_SwitchName := "sw1"; tc_Host := "10.0.0.1"; tc_Username := "u"; tc_SSHKeyPath := "k";
     tc_TargetProfileID := ""; tc_KnownHostsPath := "kh"; tc_FabricRole := ""; tc_FID := None;
     tc_PortRange := ""; tc_Notes := ""; tc_REST := None |}.
Definition toy_config (enabled : bool) : ExportConfig :=
  {| xc_Enabled := enabled; xc_ArtifactDir := "/a"; xc_KnownHostsPath := "";
     xc_ConnectTimeoutSeconds := 0; xc_CommandTimeoutSeconds := 0; xc_SSHPort := 0;
     xc_Targets := [toy_target]; xc_AllowInsecureArtifactDir := false; xc_ConfigPath := "" |}.
Definition toy_world : World unit :=
  Build_World (Build_FS ∅ true (fun _ => IoOk) (fun _ => []) 0) ∅ (fun _ => Second) 0 tt.
Definition failing : CommandRunner unit :=
  fun _ _ => mret (Build_CommandResult [] [] 1 false 0 0 None).
Definition toy_export (enabled : bool) :=
  RunExport (fun b => b) (fun _ => Ok []) (fun _ => Ok []) (fun _ => Ok []) (fun _ => Ok [])
    (toy_config enabled) (Some failing)
    (Build_RequestMeta "" "" "").

Lemma export_safe_witness :
  fs_readable (w_fs toy_world) = true
  /\ fst (toy_export false toy_world) = (None, Some ErrCapabilityDisabled)
  /\ artifact_written (fun b => b) (fun _ => Ok []) "/a" ∅
       (fs_files (w_fs (exec (toy_export true) toy_world))) (fst (toy_export true toy_world)).
Proof.
  split; [reflexivity|].
  pose proof (fun en => export_safe (fun b => b) (fun _ => Ok []) (fun _ => Ok []) (fun _ => Ok [])
    (fun _ => Ok []) (toy_config en) (Some failing)
    (Build_RequestMeta "" "" "") toy_world eq_refl) as H.
  split; [by apply (H false)|apply (H true)].
Defined.

Lemma artifact_dir_safe_witness :
  ResolveAgentEvidenceArtifactDir " /data/../srv//x " = Ok ("/srv/x", "env")
  /\ validateAgentArtifactDir "/srv/x" = Ok tt.
Proof. split; [reflexivity|]. by apply (artifact_dir_safe " /data/../srv//x " "/srv/x" "env"). Defined.
