(* ===== verification/TargetConfig.v ===== *)
(** The target configuration store ([src/targetconfigure] without the wizard):
    target identities, managed artifact paths, the inventory of [targets.json],
    the runtime readiness sidecar with its lock, the readiness snapshot, the
    resolved target of a collection, and SSH probes. *)
From S2P Require Import Prelude GoStrings GoPath GoTime.
From Stdlib Require Import Strings.Byte Ascii.

Local Open Scope Z_scope.

(** ** Strings *)

(** [strings.Fields]. *)
Fixpoint fields_from (cur : list ascii) (l : list ascii) : list string :=
  match l with
  | [] => match cur with [] => [] | _ => [str (reverse cur)] end
  | c :: rest =>
      if is_space c then
        match cur with [] => fields_from [] rest | _ => str (reverse cur) :: fields_from [] rest end
      else fields_from (c :: cur) rest
  end.
Definition Fields (s : string) : list string := fields_from [] (bytes s).

(** [unicode.IsControl] on some rune of the string: below 32, 127, or one of the
    two-byte runes U+0080 to U+009F. *)
Fixpoint has_control (l : list ascii) : bool :=
  match l with
  | [] => false
  | c :: rest =>
      (byte_of c <? 32) || (byte_of c =? 127)
      || ((byte_of c =? 194)
          && match rest with d :: _ => in_range 128 159 d | [] => false end)
      || has_control rest
  end.

(** ** Identities *)

Definition is_hex (c : ascii) : bool := is_digit c || in_range 97 102 c || in_range 65 70 c.
Definition is_dash (c : ascii) : bool := byte_of c =? 45.
(** [[89abAB]]. *)
Definition is_variant (c : ascii) : bool :=
  in_range 56 57 c || in_range 97 98 c || in_range 65 66 c.
Definition profileUUIDRe : list (ascii -> bool) :=
  replicate 8 is_hex ++ [is_dash] ++ replicate 4 is_hex ++ [is_dash]
  ++ [in_range 49 53] ++ replicate 3 is_hex ++ [is_dash]
  ++ [is_variant] ++ replicate 3 is_hex ++ [is_dash] ++ replicate 12 is_hex.
Fixpoint match_classes (cls : list (ascii -> bool)) (l : list ascii) : bool :=
  match cls, l with
  | [], [] => true
  | f :: cls', c :: l' => f c && match_classes cls' l'
  | _, _ => false
  end.
Definition is_uuid (s : string) : bool := match_classes profileUUIDRe (bytes s).

Definition canonicalUUID (s : string) : string :=
  let s := TrimSpace s in
  if is_uuid s then ToLower s else "".

(** Errors of the package, by their fixed codes; [EOther] wraps an error of the
    operating system. *)
Inductive tc_error : Type :=
| ErrTargetIDMissing | ErrInvalidTargetID
| ErrTargetNotConfigured | ErrTargetConfigMissing | ErrTargetConfigUnreadable
| ErrDuplicateTargetID | ErrProbeLockFailed | ErrConfigDirRequired
| ErrRuntimeStateUnwritable | ErrRuntimeStateLockFailed
| ErrSSHSetupPending | ErrSSHProbeStale | ErrSSHNotReady
| ECode (code : string)
| EContext
| EOther (e : string).

(** ** Records of [targets.json] *)

Record restEntry : Type := {
  re_TransportMode : string;
  re_Username : string;
  re_PasswordFile : string;
  re_CAFile : string;
}.

Record sshEntry : Type := {
  se_Username : string;
  se_KeyPath : string;
  se_PublicKeyPath : string;
  se_KnownHostsPath : string;
  se_KeyAlgorithm : string;
  se_KeyBits : Z;
  se_KeyOrigin : string;
  se_KeyFingerprintSHA256 : string;
}.

Record readiness : Type := {
  rd_RESTReady : bool;
  rd_RESTReason : string;
  rd_RESTSecurityState : string;
  rd_SSHReady : bool;
  rd_SSHReason : string;
  rd_SSHProbeStage : string;
  rd_LastSSHProbeAt : string;
  rd_LastSuccessfulSSHProbeAt : string;
}.

Record targetRecord : Type := {
  tr_TargetID : string;
  tr_Address : string;
  tr_RESTPort : Z;
  tr_SSHPort : Z;
  tr_REST : option restEntry;
  tr_SSH : option sshEntry;
  tr_LastWizard : string;
  tr_Readiness : readiness;
}.

(** A [null] record is [None]. *)
Record targetsDoc : Type := {
  td_Version : Z;
  td_Targets : gmap string (option targetRecord);
}.

Definition EffectiveTargetID (profileName : string) (rec : option targetRecord)
    : result tc_error string :=
  match rec with
  | None => Err ErrTargetIDMissing
  | Some rec =>
      if negb (String.eqb (TrimSpace (tr_TargetID rec)) "") then
        let id := canonicalUUID (tr_TargetID rec) in
        if String.eqb id "" then Err ErrInvalidTargetID else Ok id
      else
        let id := canonicalUUID profileName in
        if negb (String.eqb id "") then Ok id else Err ErrTargetIDMissing
  end.

(** ** The host *)

Inductive node : Type :=
| NFile (content : buf) (readable : bool)
| NDir (readable : bool).

(** How an atomic write ends: done, failed with the old content in place, or
    done but with permissions that the final check rejects. *)
Inductive write_outcome : Type := WriteDone | WriteFails | WritePerms.

(** Files and directories, and what the host will do: the outcome of writes and
    of attempts to lock, and the time that passes before each reading of the
    (monotonic) clock. *)
Record Host : Type := {
  h_nodes : gmap string node;
  h_write : nat -> write_outcome;
  h_flock : nat -> bool;
  h_delay : nat -> N;
  h_time : GoTime;
  h_tick : nat;
}.

Definition set_nodes (m : gmap string node) (h : Host) : Host :=
  {| h_nodes := m; h_write := h_write h; h_flock := h_flock h; h_delay := h_delay h;
     h_time := h_time h; h_tick := S (h_tick h) |}.
Definition h_step (h : Host) : Host := set_nodes (h_nodes h) h.
(** Waiting for at least [d]. *)
Definition Sleep (d : Duration) : M Host unit := fun h =>
  (tt, {| h_nodes := h_nodes h; h_write := h_write h; h_flock := h_flock h; h_delay := h_delay h;
          h_time := h_time h + d + Z.of_N (h_delay h (h_tick h)); h_tick := S (h_tick h) |}).
Definition Now : M Host GoTime := _ ← Sleep 0; gets h_time.

Inductive file_read : Type := FileOk (b : buf) | FileMissing | FileError.
Definition read_file (path : string) (h : Host) : file_read :=
  match h_nodes h !! path with
  | Some (NFile b true) => FileOk b
  | Some (NFile _ false) | Some (NDir _) => FileError
  | None => FileMissing
  end.

(** [atomicWriteFile]: a temporary file in the same directory, renamed. *)
Definition atomicWriteFile (path : string) (data : buf) : M Host (result tc_error unit) := fun h =>
  match h_write h (h_tick h) with
  | WriteDone => (Ok tt, set_nodes (<[path := NFile data true]> (h_nodes h)) h)
  | WriteFails => (Err (EOther "write"), h_step h)
  | WritePerms => (Err (EOther "post-write permissions"),
                   set_nodes (<[path := NFile data true]> (h_nodes h)) h)
  end.

Definition targetsFile : string := "targets.json".
Definition restSecretDir : string := "secrets/rest".
Definition sshKeyDir : string := "keys".
Definition tlsDir : string := "tls".
Definition knownHostsFn : string := "known_hosts".

(** ** Managed artifacts *)

Inductive ArtifactKind : Type :=
| ArtifactSSHPrivateKey | ArtifactSSHPublicKey | ArtifactKnownHosts | ArtifactRESTSecret
| ArtifactTLSMaterial.

Inductive artifact_error : Type :=
| ErrManagedArtifactEmpty | ErrManagedArtifactControl | ErrManagedArtifactUnmanaged
| ErrManagedArtifactTraversal | ErrManagedArtifactOutsideDir | ErrSymlink.

Definition artifactKindAllowsRelativePath (kind : ArtifactKind) (rel : string) : bool :=
  match kind with
  | ArtifactSSHPrivateKey | ArtifactSSHPublicKey =>
      HasPrefix rel (sshKeyDir +:+ "/") && negb (String.eqb rel (sshKeyDir +:+ "/"))
  | ArtifactKnownHosts => String.eqb rel knownHostsFn
  | ArtifactRESTSecret =>
      HasPrefix rel (restSecretDir +:+ "/") && negb (String.eqb rel (restSecretDir +:+ "/"))
  | ArtifactTLSMaterial => HasPrefix rel (tlsDir +:+ "/") && negb (String.eqb rel (tlsDir +:+ "/"))
  end.

Definition pathWithinDir (base candidate : string) : bool :=
  let base := Clean base in
  let candidate := Clean candidate in
  String.eqb candidate base || HasPrefix candidate (base +:+ "/").

(** The path below the store that a stored path points at, before the checks. *)
Definition artifact_rel (targetsDir path : string) : result artifact_error string :=
  let slashPath := Clean path in
  if IsAbs path then
    if HasPrefix slashPath "/config/" then Ok (TrimPrefix slashPath "/config/")
    else
      let base := Clean (TrimSpace targetsDir) in
      if negb (String.eqb base "") && negb (String.eqb base ".")
         && (String.eqb slashPath base || HasPrefix slashPath (base +:+ "/"))
      then Ok (TrimPrefix (TrimPrefix slashPath base) "/")
      else Err ErrManagedArtifactUnmanaged
  else Ok slashPath.

Definition managedArtifactRelativePath (targetsDir storedPath : string) (kind : ArtifactKind)
    : result artifact_error string :=
  let path := TrimSpace storedPath in
  if String.eqb path "" then Err ErrManagedArtifactEmpty
  else if has_control (bytes path) then Err ErrManagedArtifactControl
  else
  rel ← artifact_rel targetsDir path;
  let rel := TrimPrefix (Clean rel) "./" in
  if String.eqb rel "." || String.eqb rel "" then Err ErrManagedArtifactTraversal
  else if HasPrefix rel "../" || String.eqb rel ".." || Contains rel "/../"
  then Err ErrManagedArtifactTraversal
  else if negb (artifactKindAllowsRelativePath kind rel) then Err ErrManagedArtifactUnmanaged
  else Ok rel.

(** [filepath.EvalSymlinks]. *)
Inductive symlink_result : Type := SymOk (path : string) | SymMissing | SymError.

Section Store.
Context (EvalSymlinks : string -> symlink_result).

Definition ResolveManagedTargetArtifact (targetsDir storedPath : string) (kind : ArtifactKind)
    : result artifact_error string :=
  rel ← managedArtifactRelativePath targetsDir storedPath kind;
  let base := Clean (TrimSpace targetsDir) in
  if String.eqb base "." || String.eqb base "" then Err ErrManagedArtifactOutsideDir
  else
  let candidate := Clean (JoinPath [base; rel]) in
  if negb (pathWithinDir base candidate) then Err ErrManagedArtifactOutsideDir
  else match EvalSymlinks candidate with
       | SymOk resolved =>
           let resolvedBase := match EvalSymlinks base with SymOk b => b | _ => base end in
           if negb (pathWithinDir resolvedBase resolved) then Err ErrManagedArtifactOutsideDir
           else Ok resolved
       | SymMissing => Ok candidate
       | SymError => Err ErrSymlink
       end.

Definition isUnmanagedArtifactError (r : result artifact_error string) : bool :=
  match r with
  | Err ErrManagedArtifactUnmanaged | Err ErrManagedArtifactTraversal
  | Err ErrManagedArtifactOutsideDir | Err ErrManagedArtifactControl => true
  | _ => false
  end.

(** ** Loading *)

Context (unmarshal_targets : buf -> option targetsDoc) (marshal_targets : targetsDoc -> buf).

Definition loadTargets (configDir : string) (h : Host) : result tc_error targetsDoc :=
  match read_file (JoinPath [configDir; targetsFile]) h with
  | FileMissing => Ok {| td_Version := 1; td_Targets := ∅ |}
  | FileError => Err (EOther "read targets.json")
  | FileOk b => match unmarshal_targets b with
                | Some d => Ok d
                | None => Err (EOther "parse targets.json")
                end
  end.

(** The encoder's output ends without a newline, which is appended. *)
Definition with_newline (b : buf) : buf :=
  match last b with
  | Some x => if Byte.eqb x x0a then b else b ++ [x0a]
  | None => [x0a]
  end.
Definition writeTargets (configDir : string) (doc : targetsDoc) : M Host (result tc_error unit) :=
  atomicWriteFile (JoinPath [configDir; targetsFile]) (with_newline (marshal_targets doc)).

(** ** Known hosts *)

(** [ssh.ParseAuthorizedKey] on type and key, as the marshalled public key;
    SHA-256 and base64. *)
Context (parse_authorized : string -> option buf) (sha256 : buf -> buf) (b64 : buf -> string).

Definition sshFingerprintSHA256 (pub : buf) : string := "SHA256:" +:+ TrimRight (b64 (sha256 pub)) "=".

(** The fingerprint of the first line that is for [host]. *)
Fixpoint first_fingerprint (host : string) (lines : list string) : option string :=
  match lines with
  | [] => None
  | line :: rest =>
      let line := TrimSpace line in
      if String.eqb line "" || HasPrefix line "#" then first_fingerprint host rest
      else if negb (HasPrefix line (host +:+ " ") || HasPrefix line ("[" +:+ host +:+ "]:"))
      then first_fingerprint host rest
      else match Fields line with
           | _ :: ty :: key :: _ =>
               match parse_authorized (ty +:+ " " +:+ key) with
               | Some pub => Some (sshFingerprintSHA256 pub)
               | None => first_fingerprint host rest
               end
           | _ => first_fingerprint host rest
           end
  end.

Definition readKnownHostFingerprint (targetsDir khPath host : string) (h : Host) : option string :=
  if String.eqb khPath "" || String.eqb host "" then None
  else
  let resolved :=
    if negb (String.eqb (TrimSpace targetsDir) "") then
      match ResolveManagedTargetArtifact targetsDir khPath ArtifactKnownHosts with
      | Ok p => Some p
      | Err _ => None
      end
    else Some khPath in
  p ← resolved;
  match read_file p h with
  | FileOk b => first_fingerprint host (Split (text_of b) (chr 10))
  | _ => None
  end.

(** ** Inventory *)

Inductive config_status : Type :=
| TargetConfigOK | TargetConfigMissing | TargetConfigUnreadable | TargetConfigNoTarget
| TargetConfigDuplicate | TargetConfigKeyMissing | TargetConfigKeyUnreadable
| TargetConfigKnownHostsMissing | TargetConfigHostKeyMissing | TargetConfigUnmanagedArtifact
| TargetConfigInvalidID.

Record TargetConfigInventory : Type := {
  ci_Dir : string;
  ci_File : string;
  ci_DirectoryPresent : bool;
  ci_DirectoryReadable : bool;
  ci_FilePresent : bool;
  ci_FileReadable : bool;
  ci_ParseSuccessful : bool;
  ci_RecordsLoaded : Z;
  ci_Status : config_status;
}.

Definition InspectTargetConfigDir (targetsDir : string) (h : Host) : TargetConfigInventory :=
  let dir := TrimSpace targetsDir in
  let file := JoinPath [dir; targetsFile] in
  let inv dp dr fp fr ps n st :=
    {| ci_Dir := dir; ci_File := file; ci_DirectoryPresent := dp; ci_DirectoryReadable := dr;
       ci_FilePresent := fp; ci_FileReadable := fr; ci_ParseSuccessful := ps;
       ci_RecordsLoaded := n; ci_Status := st |} in
  if String.eqb dir "" then inv false false false false false 0 TargetConfigMissing
  else
  let '(dp, dr) := match h_nodes h !! dir with Some (NDir r) => (true, r) | _ => (false, false) end in
  match read_file file h with
  | FileMissing => inv dp dr false false false 0 TargetConfigMissing
  | FileError => inv dp dr true false false 0 TargetConfigUnreadable
  | FileOk b =>
      match unmarshal_targets b with
      | None => inv dp dr true true false 0 TargetConfigUnreadable
      | Some doc => inv dp dr true true true (Z.of_nat (size (td_Targets doc))) TargetConfigOK
      end
  end.

Record TargetConfigResolution : Type := {
  cr_Inventory : TargetConfigInventory;
  cr_Source : string;
  cr_Warning : string;
}.

Definition inspectTargetConfigCandidate (dir source warning : string) (h : Host) : TargetConfigResolution :=
  {| cr_Inventory := InspectTargetConfigDir dir h; cr_Source := source; cr_Warning := warning |}.

Definition ResolveTargetConfigStoreWithCanonical (envOverride configDir canonicalDir : string) (h : Host)
    : TargetConfigResolution :=
  let env := TrimSpace envOverride in
  if negb (String.eqb env "") then inspectTargetConfigCandidate env "env" "" h
  else
  let canonical := inspectTargetConfigCandidate canonicalDir "canonical" "" h in
  let legacy := inspectTargetConfigCandidate (JoinPath [configDir; "targets"]) "legacy" "legacy_targets_dir" h in
  if ci_FileReadable (cr_Inventory canonical) then
    if ci_FileReadable (cr_Inventory legacy)
       && negb (String.eqb (ci_Dir (cr_Inventory legacy)) (ci_Dir (cr_Inventory canonical)))
    then {| cr_Inventory := cr_Inventory canonical; cr_Source := cr_Source canonical;
            cr_Warning := "multiple_target_config_sources" |}
    else canonical
  else if ci_FileReadable (cr_Inventory legacy) then legacy
  else canonical.

Definition DefaultBrocadeTargetsDir : string := "/etc/filterrex/targets".
Definition ResolveTargetConfigStore (envOverride configDir : string) (h : Host) : TargetConfigResolution :=
  ResolveTargetConfigStoreWithCanonical envOverride configDir DefaultBrocadeTargetsDir h.

Definition filePresence (path : string) (h : Host) : bool * bool :=
  let path := TrimSpace path in
  if String.eqb path "" then (false, false)
  else (match h_nodes h !! path with Some (NFile _ _) => true | _ => false end,
        match read_file path h with FileOk _ => true | _ => false end).

(** The records that resolve to [id], with the profile they are stored under. *)
Definition resolves_to (id : string) (e : string * option targetRecord) : bool :=
  match EffectiveTargetID (fst e) (snd e) with
  | Ok x => String.eqb x id
  | Err _ => false
  end.
Definition matches (id : string) (doc : targetsDoc) : list (string * option targetRecord) :=
  List.filter (resolves_to id) (map_to_list (td_Targets doc)).

Record TargetConfigTargetInventory : Type := {
  ti_Inventory : TargetConfigInventory;
  ti_TargetID : string;
  ti_TargetMatchCount : Z;
  ti_TargetProfileFound : bool;
  ti_SSHUsernamePresent : bool;
  ti_PrivateKeyPresent : bool;
  ti_PrivateKeyReadable : bool;
  ti_PublicKeyPresent : bool;
  ti_PublicKeyReadable : bool;
  ti_KnownHostsPresent : bool;
  ti_KnownHostsReadable : bool;
  ti_KnownHostsEntryFound : bool;
  ti_ResolvedStatus : config_status;
}.

Definition bare_inventory (base : TargetConfigInventory) (id : string) (count : Z)
    (st : config_status) : TargetConfigTargetInventory :=
  {| ti_Inventory := base; ti_TargetID := id; ti_TargetMatchCount := count;
     ti_TargetProfileFound := 0 <? count; ti_SSHUsernamePresent := false;
     ti_PrivateKeyPresent := false; ti_PrivateKeyReadable := false; ti_PublicKeyPresent := false;
     ti_PublicKeyReadable := false; ti_KnownHostsPresent := false; ti_KnownHostsReadable := false;
     ti_KnownHostsEntryFound := false; ti_ResolvedStatus := st |}.

(** The presence and readability of the three artifacts of a single match. *)
Definition found_inventory (base : TargetConfigInventory) (id : string) (user : bool)
    (priv pub kh : bool * bool) (entry : bool) (st : config_status) : TargetConfigTargetInventory :=
  {| ti_Inventory := base; ti_TargetID := id; ti_TargetMatchCount := 1;
     ti_TargetProfileFound := true; ti_SSHUsernamePresent := user;
     ti_PrivateKeyPresent := fst priv; ti_PrivateKeyReadable := snd priv;
     ti_PublicKeyPresent := fst pub; ti_PublicKeyReadable := snd pub;
     ti_KnownHostsPresent := fst kh; ti_KnownHostsReadable := snd kh;
     ti_KnownHostsEntryFound := entry; ti_ResolvedStatus := st |}.

Definition artifact_status (user : bool) (priv kh : bool * bool) (entry : bool) : config_status :=
  if negb user || negb (fst priv) then TargetConfigKeyMissing
  else if negb (snd priv) then TargetConfigKeyUnreadable
  else if negb (fst kh) then TargetConfigKnownHostsMissing
  else if negb (snd kh) then TargetConfigUnreadable
  else if negb entry then TargetConfigHostKeyMissing
  else TargetConfigOK.

(** The one match: its artifacts are located and looked at. *)
Definition inspect_match (base : TargetConfigInventory) (targetsDir id : string)
    (m : targetRecord) (ssh : sshEntry) (h : Host) : TargetConfigTargetInventory :=
  let user := negb (String.eqb (TrimSpace (se_Username ssh)) "") in
  let pub := ResolveManagedTargetArtifact targetsDir (se_PublicKeyPath ssh) ArtifactSSHPublicKey in
  let none := (false, false) in
  match ResolveManagedTargetArtifact targetsDir (se_KeyPath ssh) ArtifactSSHPrivateKey,
        ResolveManagedTargetArtifact targetsDir (se_KnownHostsPath ssh) ArtifactKnownHosts,
        isUnmanagedArtifactError pub with
  | Ok privPath, Ok khPath, false =>
      let priv := filePresence privPath h in
      let kh := filePresence khPath h in
      let entry := negb (String.eqb khPath "") && negb (String.eqb (tr_Address m) "")
        && match readKnownHostFingerprint targetsDir (se_KnownHostsPath ssh) (tr_Address m) h with
           | Some _ => true | None => false end in
      found_inventory base id user priv
        (match pub with Ok p => filePresence p h | Err _ => none end) kh entry
        (artifact_status user priv kh entry)
  | _, _, _ => found_inventory base id user none none none false TargetConfigUnmanagedArtifact
  end.

Definition InspectTargetConfigForTarget (targetsDir targetID : string) (h : Host)
    : TargetConfigTargetInventory :=
  let base := InspectTargetConfigDir targetsDir h in
  let id := canonicalUUID targetID in
  if String.eqb id "" then bare_inventory base id 0 TargetConfigInvalidID
  else
  match ci_Status base with
  | TargetConfigOK =>
      match loadTargets targetsDir h with
      | Err _ => bare_inventory base id 0 TargetConfigUnreadable
      | Ok doc =>
          match matches id doc with
          | [] => bare_inventory base id 0 TargetConfigNoTarget
          | [(_, Some rec)] =>
              match tr_SSH rec with
              | None => bare_inventory base id 1 TargetConfigKeyMissing
              | Some ssh => inspect_match base targetsDir id rec ssh h
              end
          | [(_, None)] => bare_inventory base id 1 TargetConfigKeyMissing
          | l => bare_inventory base id (Z.of_nat (length l)) TargetConfigDuplicate
          end
      end
  | st => bare_inventory base id 0 st
  end.
End Store.

(** ** The runtime readiness sidecar *)

Definition runtimeReadinessFile : string := "brocade-ssh-readiness.json".
Definition runtimeReadinessLock : string := ".brocade-ssh-readiness.lock".
Definition lockFileName : string := ".targets.lock".

Record RuntimeReadinessRecord : Type := {
  rr_TargetID : string;
  rr_ConfigFingerprint : string;
  rr_SSHReady : bool;
  rr_SSHReason : string;
  rr_SSHProbeStage : string;
  rr_LastProbeAt : string;
  rr_LastSuccessfulProbeAt : string;
}.

Record runtimeReadinessDoc : Type := {
  rrd_Version : Z;
  rrd_Targets : option (gmap string RuntimeReadinessRecord);
  rrd_UpdatedAt : string;
}.

(** [os.MkdirAll] and opening the lock file. *)
Definition ensure_dir (dir : string) : M Host bool := fun h =>
  match h_nodes h !! dir with
  | Some (NDir _) => (true, h)
  | Some (NFile _ _) => (false, h)
  | None => match h_write h (h_tick h) with
            | WriteFails => (false, h_step h)
            | _ => (true, set_nodes (<[dir := NDir true]> (h_nodes h)) h)
            end
  end.
Definition open_lock (path : string) : M Host bool := fun h =>
  match h_nodes h !! path with
  | Some (NFile _ r) => (r, h)
  | Some (NDir _) => (false, h)
  | None => match h_write h (h_tick h) with
            | WriteFails => (false, h_step h)
            | _ => (true, set_nodes (<[path := NFile [] true]> (h_nodes h)) h)
            end
  end.

Definition flock : M Host bool := fun h => (h_flock h (h_tick h), h_step h).

(** The polling loop of a lock.  [None] means that [fuel] attempts were not
    enough, [Some false] that the deadline passed. *)
Fixpoint lock_loop (fuel : nat) (deadline : GoTime) : M Host (option bool) :=
  match fuel with
  | O => mret None
  | S n =>
      got ← flock;
      if got : bool then mret (Some true)
      else
      now ← Now;
      if After now deadline then mret (Some false)
      else _ ← Sleep (100 * Millisecond); lock_loop n deadline
  end.

(** Attempts that are enough for a lock with this time limit. *)
Definition lock_attempts (limit : Duration) : nat := Z.to_nat (limit / (100 * Millisecond) + 2).

Definition acquire_lock (dir name : string) (limit : Duration) (unwritable timedout : tc_error)
    : M Host (result tc_error unit) :=
  made ← ensure_dir dir;
  if negb made then mret (Err unwritable)
  else
  opened ← open_lock (JoinPath [dir; name]);
  if negb opened then mret (Err unwritable)
  else
  now ← Now;
  got ← lock_loop (lock_attempts limit) (now + limit);
  mret match got with Some true => Ok tt | _ => Err timedout end.

Definition acquireRuntimeReadinessLock (dir : string) : M Host (result tc_error unit) :=
  if String.eqb (TrimSpace dir) "" then mret (Err ErrConfigDirRequired)
  else acquire_lock dir runtimeReadinessLock (15 * Second) ErrRuntimeStateUnwritable ErrRuntimeStateLockFailed.

Definition acquireTargetsLock (dir : string) : M Host (result tc_error unit) :=
  if String.eqb dir "" then mret (Err ErrConfigDirRequired)
  else acquire_lock dir lockFileName (30 * Second) (EOther "open lock") ErrProbeLockFailed.

Section Readiness.
Context (EvalSymlinks : string -> symlink_result).
Context (unmarshal_targets : buf -> option targetsDoc) (marshal_targets : targetsDoc -> buf).
Context (parse_authorized : string -> option buf) (sha256 : buf -> buf) (b64 : buf -> string).
Context (unmarshal_runtime : buf -> option runtimeReadinessDoc) (marshal_runtime : runtimeReadinessDoc -> buf).

Abbreviation host_fingerprint := (readKnownHostFingerprint EvalSymlinks parse_authorized sha256 b64).

Definition ConfigFingerprintFromRecord (targetsDir : string) (rec : targetRecord) (h : Host) : string :=
  let '(username, keyFp, keyAlg, khPath, keyBits) :=
    match tr_SSH rec with
    | Some s => (se_Username s, se_KeyFingerprintSHA256 s, se_KeyAlgorithm s, se_KnownHostsPath s, se_KeyBits s)
    | None => ("", "", "", "", 0)
    end in
  let hostKey := default "" (host_fingerprint targetsDir khPath (tr_Address rec) h) in
  "sha256:" +:+ hex (sha256 (buf_of (Join
    [TrimSpace (tr_Address rec); pretty (tr_SSHPort rec); username; keyAlg; pretty keyBits; keyFp; hostKey]
    "|"))).

Definition LoadRuntimeReadiness (dir : string) (h : Host)
    : result tc_error (gmap string RuntimeReadinessRecord) :=
  if String.eqb (TrimSpace dir) "" then Ok ∅
  else match read_file (JoinPath [dir; runtimeReadinessFile]) h with
       | FileMissing => Ok ∅
       | FileError => Err (EOther "read runtime readiness")
       | FileOk b => match unmarshal_runtime b with
                     | None => Err (EOther "parse runtime readiness")
                     | Some doc => Ok (default ∅ (rrd_Targets doc))
                     end
       end.

Definition UpsertRuntimeReadiness (dir : string) (rec : RuntimeReadinessRecord)
    : M Host (result tc_error unit) :=
  if String.eqb (TrimSpace dir) "" then mret (Err ErrConfigDirRequired)
  else if String.eqb (TrimSpace (rr_TargetID rec)) "" then mret (Err ErrInvalidTargetID)
  else
  locked ← acquireRuntimeReadinessLock dir;
  match locked with
  | Err e => mret (Err e)
  | Ok _ =>
      loaded ← gets (LoadRuntimeReadiness dir);
      let existing := match loaded with Ok m => m | Err _ => ∅ end in
      now ← Now;
      let doc := {| rrd_Version := 1; rrd_Targets := Some (<[rr_TargetID rec := rec]> existing);
                    rrd_UpdatedAt := FormatRFC3339 now |} in
      written ← atomicWriteFile (JoinPath [dir; runtimeReadinessFile]) (with_newline (marshal_runtime doc));
      mret match written with Ok _ => Ok tt | Err _ => Err ErrRuntimeStateUnwritable end
  end.

(** ** The readiness snapshot of the heartbeat *)

Record SSHReadinessSnapshot : Type := {
  sn_SSHReady : bool;
  sn_SSHReason : string;
  sn_SSHProbeStage : string;
  sn_SSHKeyAlgorithm : string;
  sn_SSHKeyBits : Z;
  sn_SSHKeyOrigin : string;
  sn_SSHKeyFingerprintSHA256 : string;
  sn_SSHUsername : string;
  sn_SwitchHostKeyFingerprint : string;
  sn_LastProbeAt : string;
  sn_LastSuccessfulProbeAt : string;
}.

Record SnapshotLoadWarning : Type := {
  sw_ProfileName : string;
  sw_Reason : tc_error;
  sw_TargetID : string;
  sw_Count : Z;
}.

Abbreviation bucket_map := (gmap string (list (string * targetRecord))).

Definition add_to_bucket (st : bucket_map * list SnapshotLoadWarning) (e : string * option targetRecord)
    : bucket_map * list SnapshotLoadWarning :=
  let '(buckets, warnings) := st in
  match snd e with
  | Some rec =>
      match tr_SSH rec with
      | None => st
      | Some _ =>
          match EffectiveTargetID (fst e) (Some rec) with
          | Err r => (buckets, warnings ++ [{| sw_ProfileName := fst e; sw_Reason := r;
                                               sw_TargetID := ""; sw_Count := 0 |}])
          | Ok id => (<[id := default [] (buckets !! id) ++ [(fst e, rec)]]> buckets, warnings)
          end
      end
  | None => st
  end.

(** Text fields that a sidecar entry replaces only when it has them. *)
Definition or_else (s d : string) : string := if String.eqb s "" then d else s.

Definition record_snapshot (targetsDir : string) (sidecar : gmap string RuntimeReadinessRecord)
    (targetID : string) (rec : targetRecord) (ssh : sshEntry) (h : Host) : SSHReadinessSnapshot :=
  let r := tr_Readiness rec in
  let overlay :=
    match sidecar !! targetID with
    | Some entry =>
        if String.eqb (rr_ConfigFingerprint entry) (ConfigFingerprintFromRecord targetsDir rec h)
        then Some entry else None
    | None => None
    end in
  let pick {A} (f : RuntimeReadinessRecord -> A) (d : A) := match overlay with Some e => f e | None => d end in
  {| sn_SSHReady := pick rr_SSHReady (rd_SSHReady r);
     sn_SSHReason := pick rr_SSHReason (rd_SSHReason r);
     sn_SSHProbeStage := pick rr_SSHProbeStage (rd_SSHProbeStage r);
     sn_SSHKeyAlgorithm := se_KeyAlgorithm ssh; sn_SSHKeyBits := se_KeyBits ssh;
     sn_SSHKeyOrigin := se_KeyOrigin ssh; sn_SSHKeyFingerprintSHA256 := se_KeyFingerprintSHA256 ssh;
     sn_SSHUsername := se_Username ssh;
     sn_SwitchHostKeyFingerprint :=
       default "" (host_fingerprint targetsDir (se_KnownHostsPath ssh) (tr_Address rec) h);
     sn_LastProbeAt := pick (fun e => or_else (rr_LastProbeAt e) (rd_LastSSHProbeAt r)) (rd_LastSSHProbeAt r);
     sn_LastSuccessfulProbeAt :=
       pick (fun e => or_else (rr_LastSuccessfulProbeAt e) (rd_LastSuccessfulSSHProbeAt r))
         (rd_LastSuccessfulSSHProbeAt r) |}.

(** One bucket: published when it holds a single record. *)
Definition publish_bucket (targetsDir : string) (sidecar : gmap string RuntimeReadinessRecord) (h : Host)
    (st : gmap string SSHReadinessSnapshot * list SnapshotLoadWarning)
    (b : string * list (string * targetRecord))
    : gmap string SSHReadinessSnapshot * list SnapshotLoadWarning :=
  let '(out, warnings) := st in
  match snd b with
  | [(_, rec)] =>
      match tr_SSH rec with
      | Some ssh => (<[fst b := record_snapshot targetsDir sidecar (fst b) rec ssh h]> out, warnings)
      | None => st  (* buckets hold records with an SSH entry only *)
      end
  | l => (out, warnings ++ [{| sw_ProfileName := ""; sw_Reason := ErrDuplicateTargetID;
                               sw_TargetID := fst b; sw_Count := Z.of_nat (length l) |}])
  end.

Definition LoadSSHReadinessSnapshotWithRuntime (targetsDir runtimeStateDir : string) (h : Host)
    : result tc_error (gmap string SSHReadinessSnapshot * list SnapshotLoadWarning) :=
  if String.eqb targetsDir "" then Ok (∅, [])
  else match h_nodes h !! JoinPath [targetsDir; targetsFile] with
       | None => Ok (∅, [])
       | Some _ =>
           doc ← loadTargets unmarshal_targets targetsDir h;
           let sidecar := match LoadRuntimeReadiness runtimeStateDir h with Ok m => m | Err _ => ∅ end in
           let '(buckets, warnings) := foldl add_to_bucket (∅, []) (map_to_list (td_Targets doc)) in
           mret (foldl (publish_bucket targetsDir sidecar h) (∅, warnings) (map_to_list buckets))
       end.

(** ** The resolved target of a collection *)

Definition ReadinessFreshWindow : Duration := 15 * Minute.

Record ResolvedBrocadeTarget : Type := {
  rb_TargetID : string;
  rb_ProfileName : string;
  rb_Host : string;
  rb_SSHPort : Z;
  rb_SSHUsername : string;
  rb_PrivateKeyPath : string;
  rb_KnownHostsPath : string;
  rb_KeyAlgorithm : string;
  rb_KeyBits : Z;
  rb_KeyOrigin : string;
  rb_KeyFingerprintSHA256 : string;
}.

Record EffectiveSSHReadiness : Type := {
  es_Ready : bool;
  es_Stage : string;
  es_Reason : string;
  es_LastProbeAt : string;
  es_LastSuccessfulProbeAt : string;
  es_Fresh : bool;
  es_ConfigFingerprint : string;
}.

Definition readinessFresh (lastSuccessAt : string) (now : GoTime) (window : Duration) : bool :=
  if String.eqb (TrimSpace lastSuccessAt) "" then false
  else match ParseRFC3339 lastSuccessAt with
       | None => false
       | Some t => Sub now t <=? window
       end.

Definition effectiveReadinessFromRecord (targetsDir runtimeStateDir targetID : string)
    (rec : targetRecord) (now : GoTime) (h : Host) : EffectiveSSHReadiness :=
  let r := tr_Readiness rec in
  let fp := ConfigFingerprintFromRecord targetsDir rec h in
  let ready stage reason ready last success :=
    {| es_Ready := ready; es_Stage := stage; es_Reason := reason; es_LastProbeAt := last;
       es_LastSuccessfulProbeAt := success;
       es_Fresh := readinessFresh success now ReadinessFreshWindow; es_ConfigFingerprint := fp |} in
  let plain := ready (rd_SSHProbeStage r) (rd_SSHReason r) (rd_SSHReady r) (rd_LastSSHProbeAt r)
                 (rd_LastSuccessfulSSHProbeAt r) in
  if String.eqb runtimeStateDir "" then plain
  else match LoadRuntimeReadiness runtimeStateDir h with
       | Err _ => plain
       | Ok sidecar =>
           match sidecar !! targetID with
           | None => plain
           | Some e =>
               if String.eqb (rr_ConfigFingerprint e) fp then
                 ready (rr_SSHProbeStage e) (rr_SSHReason e) (rr_SSHReady e)
                   (or_else (rr_LastProbeAt e) (rd_LastSSHProbeAt r))
                   (or_else (rr_LastSuccessfulProbeAt e) (rd_LastSuccessfulSSHProbeAt r))
               else plain
           end
       end.

(** The status of the inventory as the error of the loader. *)
Definition inventory_error (inv : TargetConfigTargetInventory) : option tc_error :=
  if String.eqb (ti_TargetID inv) "" then Some ErrInvalidTargetID
  else match ci_Status (ti_Inventory inv) with
  | TargetConfigMissing => Some ErrTargetConfigMissing
  | TargetConfigUnreadable => Some ErrTargetConfigUnreadable
  | _ =>
      match ti_ResolvedStatus inv with
      | TargetConfigNoTarget => Some ErrTargetNotConfigured
      | TargetConfigDuplicate => Some ErrDuplicateTargetID
      | TargetConfigKeyMissing => Some (ECode "ssh_key_missing")
      | TargetConfigKeyUnreadable => Some (ECode "ssh_key_unreadable")
      | TargetConfigKnownHostsMissing | TargetConfigHostKeyMissing => Some (ECode "known_hosts_missing")
      | TargetConfigUnmanagedArtifact => Some (ECode "target_configuration_invalid")
      | TargetConfigMissing => Some (ECode "target_configuration_missing")
      | TargetConfigUnreadable => Some (ECode "target_configuration_unreadable")
      | TargetConfigInvalidID => Some (ECode "invalid_target_id")
      | TargetConfigOK => None
      end
  end.

Definition LoadResolvedBrocadeTarget (targetsDir runtimeStateDir targetID : string)
    : M Host (result tc_error (ResolvedBrocadeTarget * EffectiveSSHReadiness)) :=
  inv ← gets (InspectTargetConfigForTarget EvalSymlinks unmarshal_targets parse_authorized sha256 b64
                targetsDir targetID);
  match inventory_error inv with
  | Some e => mret (Err e)
  | None =>
      loaded ← gets (loadTargets unmarshal_targets targetsDir);
      match loaded with
      | Err _ => mret (Err ErrTargetConfigUnreadable)
      | Ok doc =>
          match matches (ti_TargetID inv) doc with
          | [] => mret (Err ErrTargetNotConfigured)
          | [(_, None)] => mret (Err (ECode "ssh_key_missing"))
          | [(profile, Some rec)] =>
              match tr_SSH rec with
              | None => mret (Err (ECode "ssh_key_missing"))
              | Some ssh =>
                  match ResolveManagedTargetArtifact EvalSymlinks targetsDir (se_KeyPath ssh) ArtifactSSHPrivateKey,
                        ResolveManagedTargetArtifact EvalSymlinks targetsDir (se_KnownHostsPath ssh) ArtifactKnownHosts with
                  | Err _, _ => mret (Err (ECode "ssh_key_missing"))
                  | Ok _, Err _ => mret (Err (ECode "known_hosts_missing"))
                  | Ok key, Ok kh =>
                      before ← gets id;
                      now ← Now;
                      mret (Ok ({| rb_TargetID := ti_TargetID inv; rb_ProfileName := profile;
                                   rb_Host := TrimSpace (tr_Address rec); rb_SSHPort := tr_SSHPort rec;
                                   rb_SSHUsername := se_Username ssh; rb_PrivateKeyPath := key;
                                   rb_KnownHostsPath := kh; rb_KeyAlgorithm := se_KeyAlgorithm ssh;
                                   rb_KeyBits := se_KeyBits ssh; rb_KeyOrigin := se_KeyOrigin ssh;
                                   rb_KeyFingerprintSHA256 := se_KeyFingerprintSHA256 ssh |},
                                effectiveReadinessFromRecord targetsDir runtimeStateDir
                                  (ti_TargetID inv) rec now before))
                  end
              end
          | _ => mret (Err ErrDuplicateTargetID)
          end
      end
  end.

Definition ReadinessGateError (r : EffectiveSSHReadiness) : option tc_error :=
  if es_Ready r && es_Fresh r then None
  else if String.eqb (TrimSpace (es_LastSuccessfulProbeAt r)) "" then Some ErrSSHSetupPending
  else if negb (es_Fresh r) then Some ErrSSHProbeStale
  else if negb (es_Ready r) then Some ErrSSHNotReady
  else None.
End Readiness.
