(* ===== verification/TargetProbe.v ===== *)
(** SSH probes of configured targets ([src/targetconfigure/probe_target.go], the
    probe and host-key parts of [run.go], and [doctor.go]): host-key
    verification, one probe, its persistence in [targets.json] or in the runtime
    sidecar, and the operator's diagnosis. *)
From S2P Require Import Prelude GoStrings GoPath GoTime TargetConfig.
From Stdlib Require Import Strings.Byte Ascii.

Local Open Scope Z_scope.

Definition before_colon (s : string) : string := default "" (head (Split s ":"%char)).

(** What the network does with a connection attempt: no connection, or a host
    key; then whether the key pair is accepted and a session can be opened. *)
Record ssh_peer : Type := {
  sp_presents : result string buf;
  sp_accepts : bool;
  sp_session : bool;
}.

Record ProbeOutcome : Type := {
  po_Ready : bool;
  po_Stage : string;
  po_Reason : string;
  po_LastProbeAt : string;
  po_LastSuccessfulProbeAt : string;
  po_SSHKeyAlgorithm : string;
  po_SSHKeyBits : Z;
  po_SSHKeyOrigin : string;
  po_SSHKeyFingerprintSHA256 : string;
  po_SwitchHostKeyFingerprint : string;
  po_SSHUsername : string;
}.

Definition mapProbeStage (reason : string) : string :=
  if String.eqb reason "ssh_connection_failed" then "dial_failed"
  else if bool_decide (reason ∈ ["host_key_verification_failed"; "known_hosts_missing";
                                 "known_hosts_not_found"; "host_key_not_configured"])
  then "host_key_verification_failed"
  else if String.eqb reason "ssh_auth_failed" then "auth_failed"
  else if String.eqb reason "read_only_probe_failed" then "auth_ok"
  else if bool_decide (reason ∈ ["missing_ssh_key"; "ssh_key_not_found"; "ssh_key_unreadable";
                                 "unmanaged_artifact_path"])
  then "not_run"
  else "auth_failed".

(** [net.JoinHostPort]. *)
Definition host_port (host : string) (port : Z) : string :=
  if Contains host ":" then "[" +:+ host +:+ "]:" +:+ pretty port else host +:+ ":" +:+ pretty port.

(** Lengths first, then byte by byte. *)
Fixpoint bytesEqual (a b : buf) : bool :=
  match a, b with
  | [], [] => true
  | x :: a', y :: b' => Byte.eqb x y && bytesEqual a' b'
  | _, _ => false
  end.

Section Probe.
Context (EvalSymlinks : string -> symlink_result).
Context (unmarshal_targets : buf -> option targetsDoc) (marshal_targets : targetsDoc -> buf).
Context (parse_authorized : string -> option buf) (sha256 : buf -> buf) (b64 : buf -> string).
Context (unmarshal_runtime : buf -> option runtimeReadinessDoc) (marshal_runtime : runtimeReadinessDoc -> buf).
Context (b64_decode : string -> option buf) (parse_private : buf -> bool).
(** The peer at an address, by step, for a user with a key. *)
Context (peer : nat -> string -> string -> buf -> ssh_peer).

(** ** Host keys *)

Definition line_trusts (hostname : string) (presented : buf) (line : string) : bool :=
  let line := TrimSpace line in
  if String.eqb line "" || HasPrefix line "#" then false
  else match Fields line with
       | pattern :: _ :: key :: _ =>
           if negb (HasPrefix pattern (before_colon hostname)) && negb (Contains pattern hostname)
           then false
           else match b64_decode key with
                | Some raw => bytesEqual raw presented
                | None => false
                end
       | _ => false
       end.

(** The callback made by [hostKeyCallbackFromFile]: [None] accepts. *)
Definition host_key_callback (path hostname : string) (presented : buf) (h : Host) : option string :=
  match read_file path h with
  | FileOk b =>
      if existsb (line_trusts hostname presented) (Split (text_of b) (chr 10)) then None
      else Some "host key not enrolled"
  | _ => Some "known_hosts unreadable"
  end.

(** [ssh.Dial]: [None] is a connected client, [Some] the text of the error. *)
Definition ssh_dial (knownHosts addr user : string) (key : buf) (h : Host) : option string * ssh_peer :=
  let p := peer (h_tick h) addr user key in
  (match sp_presents p with
   | Err e => Some e
   | Ok presented =>
       match host_key_callback knownHosts addr presented h with
       | Some e => Some ("ssh: handshake failed: " +:+ e)
       | None => if sp_accepts p then None
                 else Some "ssh: handshake failed: ssh: unable to authenticate"
       end
   end, p).

(** ** One probe *)

Definition probeSSH (targetsDir : string) (rec : targetRecord) (ssh : sshEntry) (h : Host)
    : bool * string :=
  match ResolveManagedTargetArtifact EvalSymlinks targetsDir (se_KeyPath ssh) ArtifactSSHPrivateKey,
        ResolveManagedTargetArtifact EvalSymlinks targetsDir (se_KnownHostsPath ssh) ArtifactKnownHosts with
  | Ok keyPath, Ok khPath =>
      match read_file keyPath h with
      | FileMissing => (false, "ssh_key_not_found")
      | FileError => (false, "ssh_key_unreadable")
      | FileOk key =>
          if negb (parse_private key) then (false, "ssh_key_unreadable")
          else
          match ssh_dial khPath (host_port (tr_Address rec) (tr_SSHPort rec)) (se_Username ssh) key h with
          | (Some msg, _) =>
              if Contains msg "unable to authenticate" then (false, "ssh_auth_failed")
              else if Contains msg "host key" then (false, "host_key_verification_failed")
              else (false, "ssh_connection_failed")
          | (None, p) => if sp_session p then (true, "") else (false, "read_only_probe_failed")
          end
      end
  | _, _ => (false, "unmanaged_artifact_path")
  end.

(** ** Persisting the outcome *)

(** The readiness of a record after a probe at [nowStr]. *)
Definition probed (ready : bool) (reason stage nowStr : string) (r : readiness) : readiness :=
  {| rd_RESTReady := rd_RESTReady r; rd_RESTReason := rd_RESTReason r;
     rd_RESTSecurityState := rd_RESTSecurityState r; rd_SSHReady := ready;
     rd_SSHReason := if ready then "" else reason; rd_SSHProbeStage := stage;
     rd_LastSSHProbeAt := nowStr;
     rd_LastSuccessfulSSHProbeAt := if ready then nowStr else rd_LastSuccessfulSSHProbeAt r |}.

Definition set_readiness (r : readiness) (rec : targetRecord) : targetRecord :=
  {| tr_TargetID := tr_TargetID rec; tr_Address := tr_Address rec; tr_RESTPort := tr_RESTPort rec;
     tr_SSHPort := tr_SSHPort rec; tr_REST := tr_REST rec; tr_SSH := tr_SSH rec;
     tr_LastWizard := tr_LastWizard rec; tr_Readiness := r |}.

Definition has_ssh (e : string * option targetRecord) : bool :=
  match snd e with Some rec => match tr_SSH rec with Some _ => true | None => false end | None => false end.

Definition probe_matches (id : string) (doc : targetsDoc) : list (string * option targetRecord) :=
  List.filter (fun e => has_ssh e && resolves_to id e) (map_to_list (td_Targets doc)).

Definition stage_of (ready : bool) (reason : string) : string :=
  if ready then "command_succeeded" else mapProbeStage reason.

Definition probe_record (id targetsDir : string) (rec : targetRecord) (ready : bool)
    (reason nowStr : string) (h : Host) : RuntimeReadinessRecord :=
  {| rr_TargetID := id;
     rr_ConfigFingerprint :=
       ConfigFingerprintFromRecord EvalSymlinks parse_authorized sha256 b64 targetsDir rec h;
     rr_SSHReady := ready; rr_SSHReason := if ready then "" else reason;
     rr_SSHProbeStage := stage_of ready reason; rr_LastProbeAt := nowStr;
     rr_LastSuccessfulProbeAt :=
       if ready then nowStr else rd_LastSuccessfulSSHProbeAt (tr_Readiness rec) |}.

Definition probe_outcome (targetsDir : string) (rec : targetRecord) (ssh : sshEntry) (ready : bool)
    (reason nowStr : string) (h : Host) : ProbeOutcome :=
  {| po_Ready := ready; po_Stage := stage_of ready reason; po_Reason := if ready then "" else reason;
     po_LastProbeAt := nowStr;
     po_LastSuccessfulProbeAt :=
       if ready then nowStr else rd_LastSuccessfulSSHProbeAt (tr_Readiness rec);
     po_SSHKeyAlgorithm := se_KeyAlgorithm ssh; po_SSHKeyBits := se_KeyBits ssh;
     po_SSHKeyOrigin := se_KeyOrigin ssh; po_SSHKeyFingerprintSHA256 := se_KeyFingerprintSHA256 ssh;
     po_SwitchHostKeyFingerprint :=
       default "" (readKnownHostFingerprint EvalSymlinks parse_authorized sha256 b64 targetsDir
                     (se_KnownHostsPath ssh) (tr_Address rec) h);
     po_SSHUsername := se_Username ssh |}.

(** The single match is probed and the outcome is saved. *)
Definition probe_match (useSidecar : bool) (targetsDir runtimeStateDir id : string) (doc : targetsDoc)
    (profile : string) (rec : targetRecord) (ssh : sshEntry) : M Host (result tc_error ProbeOutcome) :=
  outcome ← gets (probeSSH targetsDir rec ssh);
  let '(ready, reason) := outcome in
  _ ← modify h_step;
  now ← Now;
  let nowStr := FormatRFC3339 now in
  fpHost ← gets (fun h => h);
  saved ← (if useSidecar then
             UpsertRuntimeReadiness unmarshal_runtime marshal_runtime runtimeStateDir
               (probe_record id targetsDir rec ready reason nowStr fpHost)
           else
             writeTargets marshal_targets targetsDir
               {| td_Version := td_Version doc;
                  td_Targets := <[profile := Some (set_readiness
                    (probed ready reason (stage_of ready reason) nowStr (tr_Readiness rec)) rec)]>
                    (td_Targets doc) |});
  match saved with
  | Err e => mret (Err e)
  | Ok _ => h ← gets (fun h => h); mret (Ok (probe_outcome targetsDir rec ssh ready reason nowStr h))
  end.

(** The lookup and the probe, after the store was inspected. *)
Definition probe_loaded (useSidecar ctxDone : bool) (targetsDir runtimeStateDir id : string)
    : M Host (result tc_error ProbeOutcome) :=
  loaded ← gets (loadTargets unmarshal_targets targetsDir);
  match loaded with
  | Err e => mret (Err e)
  | Ok doc =>
      match probe_matches id doc with
      | [] => mret (Err ErrTargetNotConfigured)
      | [(profile, Some rec)] =>
          if ctxDone then mret (Err EContext)
          else match tr_SSH rec with
               | Some ssh => probe_match useSidecar targetsDir runtimeStateDir id doc profile rec ssh
               | None => mret (Err ErrTargetNotConfigured)  (* not among the matches *)
               end
      | [(_, None)] => mret (Err ErrTargetNotConfigured)    (* not among the matches *)
      | _ => mret (Err ErrDuplicateTargetID)
      end
  end.

Definition runProbeForTargetImpl (ctxDone : bool) (targetsDir runtimeStateDir targetID : string)
    : M Host (result tc_error ProbeOutcome) :=
  if String.eqb targetsDir "" then mret (Err ErrConfigDirRequired)
  else
  let canon := canonicalUUID targetID in
  if String.eqb canon "" then mret (Err ErrInvalidTargetID)
  else
  let useSidecar := negb (String.eqb (TrimSpace runtimeStateDir) "") in
  inv ← gets (InspectTargetConfigDir unmarshal_targets targetsDir);
  if negb (ci_FilePresent inv) then mret (Err ErrTargetConfigMissing)
  else if negb (ci_FileReadable inv)
          || match ci_Status inv with TargetConfigUnreadable => true | _ => false end
  then mret (Err ErrTargetConfigUnreadable)
  else if useSidecar then probe_loaded true ctxDone targetsDir runtimeStateDir canon
  else
  locked ← acquireTargetsLock targetsDir;
  match locked with
  | Err e => mret (Err e)
  | Ok _ => probe_loaded false ctxDone targetsDir runtimeStateDir canon
  end.

Definition RunProbeForTarget (ctxDone : bool) (targetsDir targetID : string) :=
  runProbeForTargetImpl ctxDone targetsDir "" targetID.
Definition RunProbeForTargetSidecar (ctxDone : bool) (targetsDir runtimeStateDir targetID : string)
    : M Host (result tc_error ProbeOutcome) :=
  if String.eqb (TrimSpace runtimeStateDir) "" then mret (Err ErrConfigDirRequired)
  else runProbeForTargetImpl ctxDone targetsDir runtimeStateDir targetID.

(** ** The doctor *)

Definition boolWord (v : bool) : string := if v then "yes" else "no".

Definition status_code (s : config_status) : string :=
  match s with
  | TargetConfigOK => "ok"
  | TargetConfigMissing => "target_configuration_missing"
  | TargetConfigUnreadable => "target_configuration_unreadable"
  | TargetConfigNoTarget => "target_not_configured"
  | TargetConfigDuplicate => "duplicate_target_id"
  | TargetConfigKeyMissing => "ssh_key_not_found"
  | TargetConfigKeyUnreadable => "ssh_key_unreadable"
  | TargetConfigKnownHostsMissing => "known_hosts_not_found"
  | TargetConfigHostKeyMissing => "host_key_not_configured"
  | TargetConfigUnmanagedArtifact => "unmanaged_artifact_path"
  | TargetConfigInvalidID => "invalid_target_id"
  end.

(** The exit code and the printed lines.  [env_targets] and [env_runtime] are the
    two environment variables, the other arguments the flags. *)
Definition RunDoctor (configDir targetsDir targetID env_targets env_runtime : string) (h : Host)
    : Z * list (string * string) :=
  if String.eqb (TrimSpace targetID) "" then (2, [])
  else
  let id := canonicalUUID targetID in
  if String.eqb id "" then (2, [])
  else
  let envOverride := if negb (String.eqb (TrimSpace targetsDir) "") then targetsDir else env_targets in
  let res := ResolveTargetConfigStore unmarshal_targets envOverride configDir h in
  let inv := cr_Inventory res in
  let t := InspectTargetConfigForTarget EvalSymlinks unmarshal_targets parse_authorized sha256 b64
             (ci_Dir inv) id h in
  let runtimeDir := if String.eqb (TrimSpace env_runtime) "" then JoinPath [configDir; "state"]
                    else TrimSpace env_runtime in
  let rt := filePresence (JoinPath [runtimeDir; runtimeReadinessFile]) h in
  (match ti_ResolvedStatus t with TargetConfigOK => 0 | _ => 1 end,
   [("Target config source", cr_Source res);
    ("Target config directory present", boolWord (ci_DirectoryPresent inv));
    ("Target config directory readable", boolWord (ci_DirectoryReadable inv));
    ("targets.json present", boolWord (ci_FilePresent inv));
    ("targets.json readable", boolWord (ci_FileReadable inv));
    ("targets.json parsed", boolWord (ci_ParseSuccessful inv));
    ("records loaded", pretty (ci_RecordsLoaded inv));
    ("target UUID", id);
    ("target record matches", pretty (ti_TargetMatchCount t));
    ("target profile found", boolWord (ti_TargetProfileFound t));
    ("SSH username present", boolWord (ti_SSHUsernamePresent t));
    ("private key present", boolWord (ti_PrivateKeyPresent t));
    ("private key readable", boolWord (ti_PrivateKeyReadable t));
    ("public key present", boolWord (ti_PublicKeyPresent t));
    ("public key readable", boolWord (ti_PublicKeyReadable t));
    ("known_hosts present", boolWord (ti_KnownHostsPresent t));
    ("known_hosts readable", boolWord (ti_KnownHostsReadable t));
    ("known_hosts entry found", boolWord (ti_KnownHostsEntryFound t));
    ("runtime readiness present", boolWord (fst rt));
    ("runtime readiness readable", boolWord (snd rt));
    ("status", status_code (ti_ResolvedStatus t))]
   ++ (if String.eqb (cr_Warning res) "" then [] else [("warning", cr_Warning res)])).
End Probe.
