(* ===== verification/TargetConfigProps.v ===== *)
(** Properties of the target configuration store: locks that always end, paths
    that stay inside the store, the readiness sidecar, and the agreement of the
    heartbeat with the collection. *)
From S2P Require Import Prelude GoStrings GoPath GoTime TargetConfig.
From Stdlib Require Import Strings.Byte Ascii.

Local Open Scope Z_scope.

(** ** Time and locks *)

Lemma Now_time h : fst (Now h) = h_time (exec Now h) /\ h_time h <= h_time (exec Now h).
Proof.
  split; [done|]. change (h_time h <= h_time h + 0 + Z.of_N (h_delay h (h_tick h))). lia.
Qed.

Lemma lock_loop_ends fuel deadline h :
  (0 < fuel)%nat -> deadline - h_time h < (Z.of_nat fuel - 1) * (100 * Millisecond) ->
  let r := lock_loop fuel deadline h in
  (fst r = Some true \/ (fst r = Some false /\ deadline < h_time (snd r)))
  /\ h_time h <= h_time (snd r).
Proof.
  revert h. induction fuel as [|fuel IH]; intros h Hf Hd; [lia|]. cbn [lock_loop].
  unfold mbind, M_bind, flock. destruct (h_flock h (h_tick h)); [cbn; split; [by left|lia]|].
  assert (Hh1 : h_time (h_step h) = h_time h) by done. set (h1 := h_step h) in *. clearbody h1.
  generalize (Now_time h1). unfold exec. destruct (Now h1) as [now h2].
  cbn [fst snd]. intros [Hn1 Hn2]. unfold After. destruct (Z.ltb_spec deadline now) as [Hlt|Hge].
  { cbn. split; [right; split; [done|lia]|lia]. }
  unfold Sleep at 1. set (h3 := {| h_nodes := _ |}).
  assert (Ht : h_time h2 + 100 * Millisecond <= h_time h3) by (subst h3; cbn; lia).
  destruct (IH h3) as [H1 H2]; [|unfold Millisecond in *; lia|].
  - destruct fuel; [|lia]. unfold Millisecond in *. lia.
  - assert (Hle : h_time h <= h_time h3) by (unfold Millisecond in *; lia).
    exact (conj H1 (Z.le_trans _ _ _ Hle H2)).
Qed.

(** C34: waiting for a lock always ends.  The polling loop never needs more
    attempts than fit into its time limit at one attempt per 100 ms, plus two: it
    takes the lock or gives up, and it gives up only after the deadline has
    passed.  So an acquisition that fails with the time-out error has waited for
    the whole limit (15 s for the readiness sidecar, 30 s for the store). *)
Theorem lock_terminates dir name limit unwritable timedout h
    (Hlimit : 0 <= limit) (Herr : unwritable <> timedout) :
  (forall deadline h', deadline - h_time h' <= limit ->
     fst (lock_loop (lock_attempts limit) deadline h') <> None)
  /\ (fst (acquire_lock dir name limit unwritable timedout h) = Err timedout ->
      h_time h + limit < h_time (exec (acquire_lock dir name limit unwritable timedout) h)).
Proof.
  assert (Hdiv : limit < (limit / (100 * Millisecond) + 1) * (100 * Millisecond)).
  { pose proof (Z.mul_succ_div_gt limit (100 * Millisecond)). unfold Millisecond in *. lia. }
  assert (Hpos : 0 <= limit / (100 * Millisecond)) by (apply Z.div_pos; unfold Millisecond; lia).
  assert (Hloop : forall deadline h', deadline - h_time h' <= limit ->
    let r := lock_loop (lock_attempts limit) deadline h' in
    fst r = Some true \/ (fst r = Some false /\ deadline < h_time (snd r))).
  { intros deadline h' Hd. apply lock_loop_ends; unfold lock_attempts; [lia|].
    rewrite Z2Nat.id by lia. unfold Millisecond in *. lia. }
  split.
  { intros deadline h' Hd. destruct (Hloop deadline h' Hd) as [-> |[-> _]]; done. }
  unfold acquire_lock. rewrite fst_bind, exec_bind.
  assert (Ht1 : h_time (exec (ensure_dir dir) h) = h_time h)
    by (unfold exec, ensure_dir; by repeat case_match).
  set (h1 := exec (ensure_dir dir) h) in *. destruct (fst (ensure_dir dir h)); cbn [negb]; [|by intros [= ?]].
  rewrite fst_bind, exec_bind.
  assert (Ht2 : h_time (exec (open_lock (JoinPath [dir; name])) h1) = h_time h1)
    by (unfold exec, open_lock; by repeat case_match).
  set (h2 := exec (open_lock _) h1) in *. destruct (fst (open_lock _ h1)); cbn [negb]; [|by intros [= ?]].
  rewrite fst_bind, exec_bind. destruct (Now_time h2) as [Hn1 Hn2]. rewrite Hn1. set (h3 := exec Now h2) in *.
  rewrite fst_bind, exec_bind. destruct (Hloop (h_time h3 + limit) h3) as [E|[E Hgt]]; [lia|by rewrite E|].
  intros _. cbn. unfold exec. lia.
Qed.

(** ** Managed artifacts *)

(** C30: a stored artifact path only ever resolves inside the store.  The result
    comes from a relative path that the kind of artifact allows ([keys/...],
    [known_hosts], [secrets/rest/...], [tls/...]) and that has no ".." segment;
    it is that path below the store, or - when symbolic links are followed - a
    path inside the real location of the store. *)
Theorem artifact_contained EvalSymlinks targetsDir storedPath kind p
    (Hp : ResolveManagedTargetArtifact EvalSymlinks targetsDir storedPath kind = Ok p) :
  let base := Clean (TrimSpace targetsDir) in
  exists rel, artifactKindAllowsRelativePath kind rel = true /\ ".." ∉ Split rel slash
    /\ let candidate := JoinPath [base; rel] in
       (p = candidate /\ EvalSymlinks candidate = SymMissing /\ pathWithinDir base p = true)
       \/ (EvalSymlinks candidate = SymOk p
           /\ pathWithinDir (match EvalSymlinks base with SymOk b => b | _ => base end) p = true).
Proof.
  revert Hp. unfold ResolveManagedTargetArtifact. set (base := Clean (TrimSpace targetsDir)).
  destruct (managedArtifactRelativePath targetsDir storedPath kind) as [rel|e] eqn:Er; [|done].
  cbn [mbind result_bind].
  destruct (String.eqb base "." || String.eqb base "") eqn:Eb; [done|].
  apply orb_false_elim in Eb as [_ Eb]. clearbody base.
  assert (Hcl : Clean (JoinPath [base; rel]) = JoinPath [base; rel]).
  { destruct base as [|c base]; [done|]. apply Clean_idem. }
  rewrite Hcl. destruct (pathWithinDir base (JoinPath [base; rel])) eqn:Ew; cbn [negb]; [|done].
  intros Hres. exists rel.
  assert (Hrel : artifactKindAllowsRelativePath kind rel = true /\ ".." ∉ Split rel slash).
  { revert Er. unfold managedArtifactRelativePath.
    destruct (String.eqb (TrimSpace storedPath) ""); [done|]. destruct (has_control _); [done|].
    destruct (artifact_rel targetsDir (TrimSpace storedPath)) as [x|]; [|done].
    cbn [mbind result_bind]. rewrite TrimPrefix_none by apply Clean_no_dot_prefix.
    destruct (String.eqb (Clean x) "." || String.eqb (Clean x) ""); [done|].
    destruct (HasPrefix (Clean x) "../") eqn:E1; [done|].
    destruct (String.eqb_spec (Clean x) "..") as [E2|E2]; [done|]. cbn [orb].
    destruct (Contains (Clean x) "/../"); [done|].
    destruct (artifactKindAllowsRelativePath kind (Clean x)) eqn:E3; cbn [negb]; [|done].
    intros [= <-]. split; [done|]. by apply Clean_no_dots. }
  destruct Hrel as [H1 H2]. split; [done|]. split; [done|].
  destruct (EvalSymlinks (JoinPath [base; rel])) as [resolved| |]; [|injection Hres as <-; auto|done].
  destruct (pathWithinDir _ resolved) eqn:Ep; cbn [negb] in Hres; [|done].
  injection Hres as <-. by right.
Qed.

(** ** The readiness sidecar *)

Section Sidecar.
Context (unmarshal_runtime : buf -> option runtimeReadinessDoc) (marshal_runtime : runtimeReadinessDoc -> buf).
Context (runtime_law : forall d, unmarshal_runtime (with_newline (marshal_runtime d)) = Some d).

Abbreviation load := (LoadRuntimeReadiness unmarshal_runtime).
Abbreviation sidecar dir := (JoinPath [dir; runtimeReadinessFile]).

Lemma blank_dir dir : String.eqb (TrimSpace dir) "" = false -> dir <> "".
Proof. by intros H ->. Qed.

Lemma sidecar_neq dir : dir <> "" ->
  sidecar dir <> dir /\ sidecar dir <> JoinPath [dir; runtimeReadinessLock].
Proof.
  intros Hd. split.
  - apply JoinPath_neq_dir; try done. apply (bool_decide_unpack _). by vm_compute.
  - destruct (JoinPath_segments dir runtimeReadinessFile) as [_ H1]; try done.
    { apply (bool_decide_unpack _). by vm_compute. }
    destruct (JoinPath_segments dir runtimeReadinessLock) as [_ H2]; try done.
    { apply (bool_decide_unpack _). by vm_compute. }
    intros E. rewrite E, H2 in H1. by apply app_inj_tail in H1 as [_ ?].
Qed.

(** The file [p] and the coming outcomes of writes stay as they are. *)
Definition keeps_file (p : string) : relation Host := fun h h' =>
  h_nodes h' !! p = h_nodes h !! p /\ h_write h' = h_write h.
#[global] Instance keeps_file_pre p : PreOrder (keeps_file p).
Proof. split; [done|]. intros a b c [] []. split; congruence. Qed.

Lemma lock_loop_keeps p fuel deadline : keeps (keeps_file p) (lock_loop fuel deadline).
Proof.
  induction fuel as [|fuel IH]; cbn [lock_loop]; [apply keeps_ret, _|].
  apply keeps_bind; [apply _|done|]. intros []; [apply keeps_ret, _|].
  apply keeps_bind; [apply _|done|]. intros now. destruct (After now deadline); [apply keeps_ret, _|].
  apply keeps_bind; [apply _|done|auto].
Qed.

(** Taking the lock touches only the directory and the lock file. *)
Lemma acquire_keeps p dir name limit u t :
  p <> dir -> p <> JoinPath [dir; name] -> keeps (keeps_file p) (acquire_lock dir name limit u t).
Proof.
  intros Hd Hn. unfold acquire_lock. apply keeps_bind; [apply _| |].
  { intros h. unfold exec, ensure_dir, keeps_file. repeat case_match; try done; cbn; by rewrite lookup_insert_ne. }
  intros []; cbn [negb]; [|apply keeps_ret, _]. apply keeps_bind; [apply _| |].
  { intros h. unfold exec, open_lock, keeps_file. repeat case_match; try done; cbn; by rewrite lookup_insert_ne. }
  intros []; cbn [negb]; [|apply keeps_ret, _]. apply keeps_bind; [apply _|done|]. intros now.
  apply keeps_bind; [apply _|apply lock_loop_keeps|]. intros got. apply keeps_ret, _.
Qed.

Lemma load_ext dir h h' :
  h_nodes h' !! sidecar dir = h_nodes h !! sidecar dir -> load dir h' = load dir h.
Proof. intros E. unfold LoadRuntimeReadiness, read_file. by rewrite E. Qed.

Definition loaded_or_empty (r : result tc_error (gmap string RuntimeReadinessRecord)) :=
  match r with Ok m => m | Err _ => ∅ end.
End Sidecar.

(** Storing a record: what loads afterwards, and which files may change. *)
Lemma upsert_run unmarshal_runtime marshal_runtime dir rec h :
  (forall d, unmarshal_runtime (with_newline (marshal_runtime d)) = Some d) ->
  let load := LoadRuntimeReadiness unmarshal_runtime dir in
  let m := UpsertRuntimeReadiness unmarshal_runtime marshal_runtime dir rec in
  (fst (m h) = Ok tt ->
     load (exec m h) = Ok (<[rr_TargetID rec := rec]> (loaded_or_empty (load h))))
  /\ ((forall t, h_write h t <> WritePerms) -> fst (m h) <> Ok tt -> load (exec m h) = load h).
Proof.
  intros Hlaw. cbv zeta. unfold UpsertRuntimeReadiness.
  destruct (String.eqb (TrimSpace dir) "") eqn:Ed; [done|].
  destruct (String.eqb (TrimSpace (rr_TargetID rec)) ""); [done|].
  pose proof (blank_dir dir Ed) as Hd. destruct (sidecar_neq dir Hd) as [Hn1 Hn2].
  rewrite fst_bind, exec_bind. unfold acquireRuntimeReadinessLock. rewrite Ed.
  set (lock := acquire_lock _ _ _ _ _).
  destruct (acquire_keeps _ dir runtimeReadinessLock (15 * Second) ErrRuntimeStateUnwritable
    ErrRuntimeStateLockFailed Hn1 Hn2 h) as [N1 W1]. fold lock in N1, W1.
  pose proof (load_ext unmarshal_runtime dir _ _ N1) as E1.
  set (h1 := exec lock h) in *.
  destruct (fst (lock h)) as [[]|e]; [|done].
  rewrite fst_bind, exec_bind. change (exec (gets _) h1) with h1. cbn [gets fst].
  fold (loaded_or_empty (LoadRuntimeReadiness unmarshal_runtime dir h1)).
  rewrite E1. set (old := loaded_or_empty _).
  rewrite fst_bind, exec_bind. set (now := fst (Now h1)). set (h2 := exec Now h1).
  assert (E2 : h_nodes h2 = h_nodes h1) by done. assert (W2 : h_write h2 = h_write h1) by done.
  clearbody h2 now. rewrite fst_bind, exec_bind. unfold atomicWriteFile.
  set (doc := {| rrd_Version := 1 |}).
  assert (Hloaded : forall h', h_nodes h' !! JoinPath [dir; runtimeReadinessFile]
                     = Some (NFile (with_newline (marshal_runtime doc)) true) ->
    LoadRuntimeReadiness unmarshal_runtime dir h' = Ok (<[rr_TargetID rec := rec]> old)).
  { intros h' Hh. unfold LoadRuntimeReadiness, read_file. by rewrite Ed, Hh, Hlaw. }
  unfold exec. destruct (h_write h2 (h_tick h2)) eqn:Ew; cbn.
  - split; [intros _; apply Hloaded; cbn; by rewrite lookup_insert_eq|done].
  - split; [done|]. intros _ _. rewrite <- E1. apply load_ext. cbn. by rewrite E2.
  - split; [done|]. intros Hp. destruct (Hp (h_tick h2)). by rewrite <- W1, <- W2.
Qed.

Lemma upsert_keeps unmarshal_runtime marshal_runtime dir rec p :
  p <> dir -> p <> JoinPath [dir; runtimeReadinessLock] -> p <> JoinPath [dir; runtimeReadinessFile] ->
  keeps (keeps_file p) (UpsertRuntimeReadiness unmarshal_runtime marshal_runtime dir rec).
Proof.
  intros H1 H2 H3. unfold UpsertRuntimeReadiness, acquireRuntimeReadinessLock.
  destruct (String.eqb (TrimSpace dir) ""); [apply keeps_ret, _|].
  destruct (String.eqb (TrimSpace (rr_TargetID rec)) ""); [apply keeps_ret, _|].
  apply keeps_bind; [apply _|by apply acquire_keeps|]. intros [u|e]; [|apply keeps_ret, _].
  apply keeps_bind; [apply _|apply keeps_gets, _|]. intros loaded.
  apply keeps_bind; [apply _|done|]. intros now. apply keeps_bind; [apply _| |intros; apply keeps_ret, _].
  intros h. unfold exec, atomicWriteFile, keeps_file. destruct (h_write h (h_tick h)); cbn; try done;
    by rewrite lookup_insert_ne.
Qed.

(** A readiness record that was stored is what is loaded afterwards, and the
    records of other targets are still there; a sidecar that could not be read
    counts as empty.  When the record is not stored because the directory is
    unusable, the lock is taken or the write fails, the sidecar loads as before.
    (Encoding followed by decoding is the identity; a rename whose final
    permission check fails is the one error after the new content is in place.) *)
Theorem sidecar_roundtrip unmarshal_runtime marshal_runtime dir rec h
    (Hlaw : forall d, unmarshal_runtime (with_newline (marshal_runtime d)) = Some d) :
  let load := LoadRuntimeReadiness unmarshal_runtime dir in
  let m := UpsertRuntimeReadiness unmarshal_runtime marshal_runtime dir rec in
  (fst (m h) = Ok tt ->
     load (exec m h) = Ok (<[rr_TargetID rec := rec]> (loaded_or_empty (load h))))
  /\ ((forall t, h_write h t <> WritePerms) -> fst (m h) <> Ok tt -> load (exec m h) = load h).
Proof. by apply upsert_run. Qed.

(** ** The heartbeat and the collection agree *)

(** The record under an entry, when it has an SSH part. *)
Definition with_ssh (e : string * option targetRecord) : option (string * targetRecord) :=
  match snd e with
  | Some rec => match tr_SSH rec with Some _ => Some (fst e, rec) | None => None end
  | None => None
  end.

Lemma bucket_contents id l st :
  default [] (fst (foldl add_to_bucket st l) !! id)
  = default [] (fst st !! id) ++ omap with_ssh (List.filter (resolves_to id) l).
Proof.
  revert st. induction l as [|e l IH]; intros [b w]; cbn [foldl List.filter]; [by rewrite app_nil_r|].
  rewrite IH. unfold add_to_bucket, resolves_to at 2. destruct e as [name rec]. cbn [fst snd].
  destruct rec as [rec|]; [|done]. destruct (tr_SSH rec) as [ssh|] eqn:Es.
  - destruct (EffectiveTargetID name (Some rec)) as [x|r]; [|done].
    destruct (String.eqb_spec x id) as [->|Hne]; cbn [fst].
    + rewrite lookup_insert_eq. cbn. unfold with_ssh at 1. cbn. rewrite Es. cbn. by rewrite <- app_assoc.
    + by rewrite lookup_insert_ne.
  - destruct (EffectiveTargetID name (Some rec)) as [x|r]; [|done].
    destruct (String.eqb x id); [|done]. cbn. unfold with_ssh at 1. cbn. by rewrite Es.
Qed.

Section Agreement.
Context (EvalSymlinks : string -> symlink_result).
Context (parse_authorized : string -> option buf) (sha256 : buf -> buf) (b64 : buf -> string).
Context (targetsDir : string) (side : gmap string RuntimeReadinessRecord) (h : Host).

Abbreviation publish := (publish_bucket EvalSymlinks parse_authorized sha256 b64 targetsDir side h).
Abbreviation snapshot := (record_snapshot EvalSymlinks parse_authorized sha256 b64 targetsDir side).

Lemma publish_other b id st : fst b <> id -> fst (publish st b) !! id = fst st !! id.
Proof.
  intros Hne. destruct b as [k l], st as [out w]. unfold publish_bucket. cbn in *.
  repeat case_match; try done. cbn. by rewrite lookup_insert_ne.
Qed.

Lemma published id profile rec ssh bs st :
  NoDup (map fst bs) -> (id, [(profile, rec)]) ∈ bs -> tr_SSH rec = Some ssh ->
  fst (foldl publish st bs) !! id = Some (snapshot id rec ssh h).
Proof.
  intros Hnd Hin Hs. revert st. induction bs as [|b bs IH]; [by apply elem_of_nil in Hin|].
  apply NoDup_cons in Hnd as [Hn Hnd]. intros st. cbn [foldl].
  apply elem_of_cons in Hin as [<-|Hin]; [|by apply IH].
  assert (Hk : forall bs' st', (forall b', b' ∈ bs' -> fst b' <> id) ->
    fst (foldl publish st' bs') !! id = fst st' !! id).
  { induction bs' as [|b' bs' IH']; intros st' Hall; [done|]. cbn [foldl].
    rewrite IH' by (intros; apply Hall; by right). apply publish_other, Hall. left. }
  rewrite Hk.
  - destruct st as [out w]. unfold publish_bucket. cbn. rewrite Hs. cbn. by rewrite lookup_insert_eq.
  - intros b' Hb' E. apply Hn. cbn. rewrite <- E. by apply list_elem_of_fmap_2.
Qed.
End Agreement.

Section Resolve.
Context (EvalSymlinks : string -> symlink_result).
Context (unmarshal_targets : buf -> option targetsDoc).
Context (parse_authorized : string -> option buf) (sha256 : buf -> buf) (b64 : buf -> string).
Context (unmarshal_runtime : buf -> option runtimeReadinessDoc).

(** What a successful resolution found. *)
Lemma resolved_match targetsDir runtimeStateDir targetID h t r :
  fst (LoadResolvedBrocadeTarget EvalSymlinks unmarshal_targets parse_authorized sha256 b64
         unmarshal_runtime targetsDir runtimeStateDir targetID h) = Ok (t, r) ->
  exists doc profile rec ssh now,
    loadTargets unmarshal_targets targetsDir h = Ok doc
    /\ matches (rb_TargetID t) doc = [(profile, Some rec)] /\ tr_SSH rec = Some ssh
    /\ rb_ProfileName t = profile /\ rb_SSHUsername t = se_Username ssh
    /\ rb_TargetID t = canonicalUUID targetID /\ now = fst (Now h)
    /\ ResolveManagedTargetArtifact EvalSymlinks targetsDir (se_KeyPath ssh) ArtifactSSHPrivateKey
       = Ok (rb_PrivateKeyPath t)
    /\ ResolveManagedTargetArtifact EvalSymlinks targetsDir (se_KnownHostsPath ssh) ArtifactKnownHosts
       = Ok (rb_KnownHostsPath t)
    /\ r = effectiveReadinessFromRecord EvalSymlinks parse_authorized sha256 b64 unmarshal_runtime
             targetsDir runtimeStateDir (rb_TargetID t) rec now h.
Proof.
  unfold LoadResolvedBrocadeTarget. rewrite fst_bind. cbn [gets fst]. change (exec (gets _) h) with h.
  set (inv := InspectTargetConfigForTarget _ _ _ _ _ _ _ _).
  assert (Hid : ti_TargetID inv = canonicalUUID targetID).
  { subst inv. unfold InspectTargetConfigForTarget, inspect_match. repeat case_match; done. }
  clearbody inv. destruct (inventory_error inv); [done|].
  rewrite fst_bind. cbn [gets fst]. change (exec (gets _) h) with h.
  destruct (loadTargets unmarshal_targets targetsDir h) as [doc|e]; [|done].
  destruct (matches (ti_TargetID inv) doc) as [|[profile [rec|]] [|]] eqn:Em; try done.
  destruct (tr_SSH rec) as [ssh|] eqn:Es; [|done].
  destruct (ResolveManagedTargetArtifact _ _ _ ArtifactSSHPrivateKey) as [key|] eqn:Ek; [|done].
  destruct (ResolveManagedTargetArtifact _ _ _ ArtifactKnownHosts) as [kh|] eqn:Eh; [|done].
  rewrite !fst_bind. cbn [mret M_ret fst]. intros [= <- <-]. cbn.
  exists doc, profile, rec, ssh, (fst (Now h)). rewrite Em, Es. eauto 15.
Qed.
(** The sidecar as the snapshot loader sees it. *)
Definition readable_sidecar (runtimeStateDir : string) (h : Host) : gmap string RuntimeReadinessRecord :=
  match LoadRuntimeReadiness unmarshal_runtime runtimeStateDir h with Ok m => m | Err _ => ∅ end.

(** The record a collection resolves is the one the snapshot is made of. *)
Lemma resolved_published targetsDir runtimeStateDir targetID h t r :
  targetsDir <> "" ->
  fst (LoadResolvedBrocadeTarget EvalSymlinks unmarshal_targets parse_authorized sha256 b64
         unmarshal_runtime targetsDir runtimeStateDir targetID h) = Ok (t, r) ->
  exists out warnings rec ssh,
    LoadSSHReadinessSnapshotWithRuntime EvalSymlinks unmarshal_targets parse_authorized sha256 b64
      unmarshal_runtime targetsDir runtimeStateDir h = Ok (out, warnings)
    /\ out !! rb_TargetID t = Some (record_snapshot EvalSymlinks parse_authorized sha256 b64 targetsDir
         (readable_sidecar runtimeStateDir h) (rb_TargetID t) rec ssh h)
    /\ rb_SSHUsername t = se_Username ssh
    /\ r = effectiveReadinessFromRecord EvalSymlinks parse_authorized sha256 b64 unmarshal_runtime
             targetsDir runtimeStateDir (rb_TargetID t) rec (fst (Now h)) h.
Proof.
  intros Hdir Hok.
  apply resolved_match in Hok as (doc & profile & rec & ssh & now & Hdoc & Hm & Hs & _ & Hu & _ & -> & _ & _ & ->).
  unfold LoadSSHReadinessSnapshotWithRuntime. rewrite (proj2 (String.eqb_neq targetsDir "") Hdir).
  destruct (h_nodes h !! JoinPath [targetsDir; targetsFile]) as [n|] eqn:En.
  2:{ exfalso. unfold loadTargets, read_file in Hdoc. rewrite En in Hdoc. injection Hdoc as <-. done. }
  rewrite Hdoc. cbn [mbind result_bind]. fold (readable_sidecar runtimeStateDir h).
  set (side := readable_sidecar runtimeStateDir h).
  pose proof (bucket_contents (rb_TargetID t) (map_to_list (td_Targets doc)) (∅, [])) as Hb.
  destruct (foldl add_to_bucket _ _) as [buckets warnings]. cbn [fst] in Hb.
  unfold matches in Hm. rewrite Hm in Hb. cbn in Hb. unfold with_ssh in Hb. cbn in Hb. rewrite Hs in Hb.
  rewrite lookup_empty in Hb. cbn in Hb.
  destruct (buckets !! rb_TargetID t) as [l|] eqn:El; [|done]. cbn in Hb. subst l.
  set (res := foldl _ _ _). exists (fst res), (snd res), rec, ssh.
  split; [cbn; by destruct res|]. split; [|done].
  subst res. eapply published; [apply NoDup_fst_map_to_list|by apply elem_of_map_to_list|done].
Qed.

(** Both views put the same sidecar entry over the same record. *)
Lemma overlay_agrees targetsDir runtimeStateDir id rec ssh now h :
  let s := record_snapshot EvalSymlinks parse_authorized sha256 b64 targetsDir
             (readable_sidecar runtimeStateDir h) id rec ssh h in
  let r := effectiveReadinessFromRecord EvalSymlinks parse_authorized sha256 b64 unmarshal_runtime
             targetsDir runtimeStateDir id rec now h in
  sn_SSHReady s = es_Ready r /\ sn_SSHReason s = es_Reason r /\ sn_SSHProbeStage s = es_Stage r
  /\ sn_LastProbeAt s = es_LastProbeAt r /\ sn_LastSuccessfulProbeAt s = es_LastSuccessfulProbeAt r
  /\ sn_SSHUsername s = se_Username ssh
  /\ es_Fresh r = readinessFresh (es_LastSuccessfulProbeAt r) now ReadinessFreshWindow.
Proof.
  unfold effectiveReadinessFromRecord, record_snapshot, readable_sidecar.
  destruct (String.eqb_spec runtimeStateDir "") as [->|E]; [done|].
  destruct (LoadRuntimeReadiness _ _ _) as [m|e]; [|done].
  destruct (m !! id) as [e|]; [|done]. by destruct (String.eqb (rr_ConfigFingerprint e) _).
Qed.
End Resolve.

(** C26: the collection and the heartbeat see the same readiness.  Whenever a
    target resolves for a collection, the snapshot loader publishes an entry under
    the same identity, and ready flag, reason, stage, both probe times, user and
    key metadata agree - whether they come from the record or from the sidecar. *)
Theorem readiness_agrees EvalSymlinks unmarshal_targets parse_authorized sha256 b64 unmarshal_runtime
    targetsDir runtimeStateDir targetID h t r
    (Hdir : targetsDir <> "")
    (Hok : fst (LoadResolvedBrocadeTarget EvalSymlinks unmarshal_targets parse_authorized sha256 b64
             unmarshal_runtime targetsDir runtimeStateDir targetID h) = Ok (t, r)) :
  exists out warnings s,
    LoadSSHReadinessSnapshotWithRuntime EvalSymlinks unmarshal_targets parse_authorized sha256 b64
      unmarshal_runtime targetsDir runtimeStateDir h = Ok (out, warnings)
    /\ out !! rb_TargetID t = Some s
    /\ sn_SSHReady s = es_Ready r /\ sn_SSHReason s = es_Reason r /\ sn_SSHProbeStage s = es_Stage r
    /\ sn_LastProbeAt s = es_LastProbeAt r
    /\ sn_LastSuccessfulProbeAt s = es_LastSuccessfulProbeAt r
    /\ sn_SSHUsername s = rb_SSHUsername t.
Proof.
  destruct (resolved_published _ _ _ _ _ _ _ _ _ _ _ _ Hdir Hok) as (out & w & rec & ssh & H1 & H2 & -> & ->).
  exists out, w. eexists. split; [exact H1|]. split; [exact H2|].
  pose proof (overlay_agrees EvalSymlinks parse_authorized sha256 b64 unmarshal_runtime targetsDir
    runtimeStateDir (rb_TargetID t) rec ssh (fst (Now h)) h) as (? & ? & ? & ? & ? & ? & _). auto 10.
Qed.

(** ** The gate *)

(** A readiness that passes the gate is ready, and its last successful probe is
    at most 15 minutes old - or lies in the future. *)
Lemma gate_open now r :
  es_Fresh r = readinessFresh (es_LastSuccessfulProbeAt r) now ReadinessFreshWindow ->
  ReadinessGateError r = None ->
  es_Ready r = true /\ exists t, ParseRFC3339 (es_LastSuccessfulProbeAt r) = Some t
                                /\ Sub now t <= ReadinessFreshWindow.
Proof.
  intros Hf. unfold ReadinessGateError. destruct (es_Ready r), (es_Fresh r); cbn [andb negb];
    try (destruct (String.eqb _ _); done).
  intros _. split; [done|]. revert Hf. unfold readinessFresh.
  destruct (String.eqb _ _); [done|]. destruct (ParseRFC3339 _) as [t|]; [|done].
  intros H. exists t. split; [done|]. symmetry in H. by apply Z.leb_le in H.
Qed.

(** A successful probe dated in the future stays fresh until 15 minutes after
    that date, however far away it is. *)
Lemma future_probe_is_fresh text t now :
  TrimSpace text <> "" -> ParseRFC3339 text = Some t -> now <= t ->
  readinessFresh text now ReadinessFreshWindow = true.
Proof.
  intros Hne Hp Hle. unfold readinessFresh. rewrite (proj2 (String.eqb_neq _ "") Hne), Hp.
  apply Z.leb_le. unfold Sub, ReadinessFreshWindow, Minute, Second, Millisecond, int64_max, int64_min. lia.
Qed.

(** Resolved identities are canonical: resolving twice changes nothing. *)
Lemma lower_byte_idem c : lower_byte (lower_byte c) = lower_byte c.
Proof. destruct c as [[] [] [] [] [] [] [] []]; reflexivity. Qed.

Lemma ToLower_idem s : ToLower (ToLower s) = ToLower s.
Proof. unfold ToLower. induction s as [|c s IH]; [done|]. cbn. by rewrite lower_byte_idem, IH. Qed.

Lemma all_bytes (P : ascii -> bool) : forallb P (map ascii_of_nat (seq 0 256)) = true -> forall c, P c = true.
Proof.
  intros H c. rewrite forallb_forall in H. apply H, in_map_iff. exists (nat_of_ascii c).
  split; [apply ascii_nat_embedding|]. apply in_seq. pose proof (nat_ascii_bounded c). lia.
Qed.

(** Lower-casing stays in the class. *)
Definition class_closed (f : ascii -> bool) : Prop :=
  forall c, f c = true -> f (lower_byte c) = true /\ is_space (lower_byte c) = false.

Lemma class_closed_intro f :
  forallb (fun c => negb (f c) || (f (lower_byte c) && negb (is_space (lower_byte c))))
    (map ascii_of_nat (seq 0 256)) = true -> class_closed f.
Proof.
  intros H c Hc. pose proof (all_bytes _ H c) as Hb. cbn beta in Hb. rewrite Hc in Hb. cbn in Hb.
  apply andb_true_iff in Hb as [-> Hs]. by rewrite negb_true_iff in Hs.
Qed.

Lemma uuid_classes_closed : Forall class_closed profileUUIDRe.
Proof.
  assert (Hhex : class_closed is_hex) by (apply class_closed_intro; by vm_compute).
  assert (Hdash : class_closed is_dash) by (apply class_closed_intro; by vm_compute).
  assert (Hver : class_closed (in_range 49 53)) by (apply class_closed_intro; by vm_compute).
  assert (Hvar : class_closed is_variant) by (apply class_closed_intro; by vm_compute).
  unfold profileUUIDRe. rewrite !Forall_app, !Forall_singleton.
  pose proof (fun n => Forall_replicate class_closed n is_hex Hhex) as Hn.
  do 10 (split; [auto|]). auto.
Qed.

Lemma match_lower cls l :
  Forall class_closed cls -> match_classes cls l = true ->
  match_classes cls (map lower_byte l) = true
  /\ Forall (fun c => is_space c = false) (map lower_byte l).
Proof.
  revert l. induction cls as [|f cls IH]; intros [|c l] Hc; cbn; try done.
  apply Forall_cons in Hc as [Hf Hc]. rewrite andb_true_iff. intros [H1 H2].
  destruct (Hf c H1) as [-> Hsp]. destruct (IH l Hc H2) as [-> Hall]. split; [done|]. by constructor.
Qed.

Lemma bytes_lower s : bytes (ToLower s) = map lower_byte (bytes s).
Proof. unfold ToLower. induction s as [|c s IH]; [done|]. cbn. f_equal. apply IH. Qed.

Lemma TrimLeftFunc_none f s : Forall (fun c => f c = false) (bytes s) -> TrimLeftFunc f s = s.
Proof. destruct s as [|c s]; [done|]. intros [H _]%Forall_cons. cbn. by rewrite H. Qed.

Lemma TrimFunc_none f s : Forall (fun c => f c = false) (bytes s) -> TrimFunc f s = s.
Proof.
  intros H. unfold TrimFunc, TrimRightFunc. rewrite (TrimLeftFunc_none f s H).
  rewrite TrimLeftFunc_none.
  - unfold rev_string. by rewrite bytes_str, reverse_involutive, str_bytes.
  - unfold rev_string. rewrite bytes_str. by apply Forall_reverse.
Qed.

(** A canonical identity: a UUID in lower case, unchanged by canonicalisation. *)
Definition canonical (id : string) : Prop :=
  is_uuid id = true /\ ToLower id = id /\ canonicalUUID id = id.

Lemma canonicalUUID_canonical s : canonicalUUID s <> "" -> canonical (canonicalUUID s).
Proof.
  unfold canonicalUUID at 1 2. destruct (is_uuid (TrimSpace s)) eqn:E; [|done]. intros _.
  destruct (match_lower profileUUIDRe (bytes (TrimSpace s)) uuid_classes_closed E) as [H1 H2].
  rewrite <- bytes_lower in H1, H2. split; [done|]. split; [apply ToLower_idem|].
  assert (Ht : TrimSpace (ToLower (TrimSpace s)) = ToLower (TrimSpace s)) by (by apply TrimFunc_none).
  unfold canonicalUUID, is_uuid. rewrite Ht, H1. apply ToLower_idem.
Qed.

Lemma EffectiveTargetID_canonical name rec id : EffectiveTargetID name rec = Ok id -> canonical id.
Proof.
  unfold EffectiveTargetID. destruct rec as [rec|]; [|done].
  destruct (negb (String.eqb (TrimSpace (tr_TargetID rec)) "")).
  - destruct (String.eqb_spec (canonicalUUID (tr_TargetID rec)) ""); [done|]. intros [= <-].
    by apply canonicalUUID_canonical.
  - destruct (String.eqb_spec (canonicalUUID name) ""); [done|]. intros [= <-].
    by apply canonicalUUID_canonical.
Qed.

Lemma publish_keys EvalSymlinks parse_authorized sha256 b64 dir side h bs st id :
  is_Some (fst (foldl (publish_bucket EvalSymlinks parse_authorized sha256 b64 dir side h) st bs) !! id) ->
  is_Some (fst st !! id) \/ exists e, (id, [e]) ∈ bs.
Proof.
  revert st. induction bs as [|[k l] bs IH]; intros [out w]; cbn [foldl]; [by left|].
  intros H. apply IH in H as [H|[e He]]; [|right; exists e; by right].
  revert H. unfold publish_bucket. cbn [snd fst].
  destruct l as [|[p rec] [|]]; [by left| |by left].
  destruct (tr_SSH rec); [|by left]. cbn [fst]. destruct (decide (k = id)) as [->|Hne].
  - intros _. right. exists (p, rec). left.
  - rewrite lookup_insert_ne by done. by left.
Qed.

(** C38: every identity that the heartbeat publishes is a canonical UUID in lower
    case, never a local profile label, and exactly one record with an SSH part
    resolves to it. *)
Theorem published_canonical EvalSymlinks unmarshal_targets parse_authorized sha256 b64 unmarshal_runtime
    targetsDir runtimeStateDir h out warnings
    (Hok : LoadSSHReadinessSnapshotWithRuntime EvalSymlinks unmarshal_targets parse_authorized sha256 b64
             unmarshal_runtime targetsDir runtimeStateDir h = Ok (out, warnings)) :
  forall id, is_Some (out !! id) ->
    canonical id
    /\ exists doc e, loadTargets unmarshal_targets targetsDir h = Ok doc
       /\ omap with_ssh (matches id doc) = [e].
Proof.
  revert Hok. unfold LoadSSHReadinessSnapshotWithRuntime.
  destruct (String.eqb targetsDir ""); [intros [= <- _] id [? ?]; by rewrite lookup_empty in *|].
  destruct (h_nodes h !! _); [|intros [= <- _] id [? ?]; by rewrite lookup_empty in *].
  destruct (loadTargets unmarshal_targets targetsDir h) as [doc|e] eqn:Hdoc; [|done]. cbn [mbind result_bind].
  destruct (foldl add_to_bucket _ _) as [buckets w] eqn:Eb. intros [= E] id Hid.
  apply (f_equal fst) in E. cbn in E. rewrite <- E in Hid.
  apply publish_keys in Hid as [[x Hx]|[e He]]; [cbn [fst] in Hx; by rewrite lookup_empty in Hx|].
  apply elem_of_map_to_list in He.
  pose proof (bucket_contents id (map_to_list (td_Targets doc)) (∅, [])) as Hb.
  rewrite Eb in Hb. cbn [fst] in Hb. rewrite He, lookup_empty in Hb. cbn in Hb.
  split; [|exists doc, e; done].
  assert (Hin : e ∈ omap with_ssh (List.filter (resolves_to id) (map_to_list (td_Targets doc))))
    by (rewrite <- Hb; left).
  apply list_elem_of_omap in Hin as ([name rec] & Hin & _).
  apply list_elem_of_In, List.filter_In in Hin as [_ Hr]. unfold resolves_to in Hr. cbn in Hr.
  destruct (EffectiveTargetID name rec) as [y|] eqn:Ey; [|done]. apply String.eqb_eq in Hr as <-.
  by eapply EffectiveTargetID_canonical.
Qed.
