(* ===== verification/TargetProbeProps.v ===== *)
(** Properties of SSH probes: what a remote probe stores, what it never touches,
    and how host keys are matched. *)
From S2P Require Import Prelude GoStrings GoPath GoTime Interfaces Store TargetConfig TargetConfigProps.
From S2P Require Import TargetProbe.
From Stdlib Require Import Strings.Byte Ascii.

Local Open Scope Z_scope.

Section Probe.
Context (EvalSymlinks : string -> symlink_result).
Context (unmarshal_targets : buf -> option targetsDoc) (marshal_targets : targetsDoc -> buf).
Context (parse_authorized : string -> option buf) (sha256 : buf -> buf) (b64 : buf -> string).
Context (unmarshal_runtime : buf -> option runtimeReadinessDoc) (marshal_runtime : runtimeReadinessDoc -> buf).
Context (b64_decode : string -> option buf) (parse_private : buf -> bool).
Context (peer : nat -> string -> string -> buf -> ssh_peer).

Abbreviation probe_into_sidecar := (RunProbeForTargetSidecar EvalSymlinks unmarshal_targets marshal_targets
  parse_authorized sha256 b64 unmarshal_runtime marshal_runtime b64_decode parse_private peer).
Abbreviation match_into_sidecar := (probe_match EvalSymlinks marshal_targets parse_authorized sha256 b64
  unmarshal_runtime marshal_runtime b64_decode parse_private peer true).
Abbreviation dial := (probeSSH EvalSymlinks b64_decode parse_private peer).
Abbreviation entry_of := (probe_record EvalSymlinks parse_authorized sha256 b64).

(** The files that a probe into the sidecar in [rt] may write. *)
Definition sidecar_paths (rt : string) : list string :=
  [rt; JoinPath [rt; runtimeReadinessLock]; JoinPath [rt; runtimeReadinessFile]].

(** The part after the lookup. *)
Lemma match_into_sidecar_spec dir rt id doc profile rec ssh h :
  (forall d, unmarshal_runtime (with_newline (marshal_runtime d)) = Some d) ->
  let m := match_into_sidecar dir rt id doc profile rec ssh in
  (forall p, p ∉ sidecar_paths rt -> h_nodes (exec m h) !! p = h_nodes h !! p)
  /\ (forall out, fst (m h) = Ok out ->
        exists h1 nowStr, h_nodes h1 = h_nodes h
        /\ po_Ready out = fst (dial dir rec ssh h) /\ po_LastProbeAt out = nowStr
        /\ po_Stage out = stage_of (fst (dial dir rec ssh h)) (snd (dial dir rec ssh h))
        /\ LoadRuntimeReadiness unmarshal_runtime rt (exec m h)
           = Ok (<[id := entry_of id dir rec (fst (dial dir rec ssh h)) (snd (dial dir rec ssh h)) nowStr h1]>
                   (loaded_or_empty (LoadRuntimeReadiness unmarshal_runtime rt h)))).
Proof.
  intros Hlaw m. subst m. unfold probe_match. rewrite exec_bind, fst_bind.
  change (exec (gets _) h) with h. cbn [gets fst]. destruct (dial dir rec ssh h) as [ready reason].
  cbn [fst snd]. rewrite exec_bind, fst_bind. cbn [modify fst]. change (exec (modify h_step) h) with (h_step h).
  rewrite exec_bind, fst_bind. set (now := fst (Now (h_step h))). set (h2 := exec Now (h_step h)).
  assert (E2 : h_nodes h2 = h_nodes h) by done. clearbody h2 now.
  rewrite exec_bind, fst_bind. change (exec (gets _) h2) with h2. cbn [gets fst].
  set (rec' := entry_of id dir rec ready reason (FormatRFC3339 now) h2).
  set (up := UpsertRuntimeReadiness unmarshal_runtime marshal_runtime rt rec').
  destruct (upsert_run unmarshal_runtime marshal_runtime rt rec' h2 Hlaw) as [U1 _]. fold up in U1.
  assert (Hload : LoadRuntimeReadiness unmarshal_runtime rt h2 = LoadRuntimeReadiness unmarshal_runtime rt h)
    by (apply load_ext; by rewrite E2).
  rewrite Hload in U1. rewrite exec_bind, fst_bind.
  assert (Hkeep : forall p, p ∉ sidecar_paths rt -> h_nodes (exec up h2) !! p = h_nodes h !! p).
  { intros p Hp. unfold sidecar_paths in Hp. rewrite !not_elem_of_cons in Hp. destruct Hp as (P1 & P2 & P3 & _).
    rewrite <- E2. by apply upsert_keeps. }
  set (h3 := exec up h2) in *. destruct (fst (up h2)) as [[]|e].
  - rewrite exec_bind, fst_bind. change (exec (gets _) h3) with h3. split; [exact Hkeep|].
    cbn [gets fst mret M_ret]. intros out [= <-]. exists h2, (FormatRFC3339 now).
    split; [done|]. split; [done|]. split; [done|]. split; [done|]. exact (U1 eq_refl).
  - split; [exact Hkeep|done].
Qed.
End Probe.

(** A remote probe stores exactly what it observed and nothing else.  Whatever
    happens, no file but the sidecar, its lock and its directory changes - in
    particular never [targets.json], keys or known hosts.  When it answers, one
    record of the store with an SSH part resolves to the requested identity, the
    answer is the outcome of probing that record, and the sidecar holds the same
    outcome under the canonical identity, with the fingerprint of the record's
    configuration; the entries of other targets are kept. *)
Theorem sidecar_probe_spec EvalSymlinks unmarshal_targets marshal_targets parse_authorized sha256 b64
    unmarshal_runtime marshal_runtime b64_decode parse_private peer ctxDone dir rt targetID h
    (Hlaw : forall d, unmarshal_runtime (with_newline (marshal_runtime d)) = Some d) :
  let m := RunProbeForTargetSidecar EvalSymlinks unmarshal_targets marshal_targets parse_authorized sha256
             b64 unmarshal_runtime marshal_runtime b64_decode parse_private peer ctxDone dir rt targetID in
  let id := canonicalUUID targetID in
  (forall p, p ∉ sidecar_paths rt -> h_nodes (exec m h) !! p = h_nodes h !! p)
  /\ (forall out, fst (m h) = Ok out ->
        exists doc profile rec ssh h1,
          loadTargets unmarshal_targets dir h = Ok doc
          /\ probe_matches id doc = [(profile, Some rec)] /\ tr_SSH rec = Some ssh
          /\ h_nodes h1 = h_nodes h
          /\ let r := probeSSH EvalSymlinks b64_decode parse_private peer dir rec ssh h in
             po_Ready out = fst r /\ po_Stage out = stage_of (fst r) (snd r)
             /\ LoadRuntimeReadiness unmarshal_runtime rt (exec m h)
                = Ok (<[id := probe_record EvalSymlinks parse_authorized sha256 b64 id dir rec (fst r)
                                (snd r) (po_LastProbeAt out) h1]>
                        (loaded_or_empty (LoadRuntimeReadiness unmarshal_runtime rt h)))).
Proof.
  cbv zeta. unfold RunProbeForTargetSidecar, runProbeForTargetImpl.
  destruct (String.eqb (TrimSpace rt) ""); [done|].
  destruct (String.eqb dir ""); [done|]. destruct (String.eqb (canonicalUUID targetID) ""); [done|].
  cbn [negb]. rewrite exec_bind, fst_bind. change (exec (gets _) h) with h.
  destruct (negb (ci_FilePresent _)); [done|]. destruct (negb (ci_FileReadable _) || _); [done|].
  unfold probe_loaded. rewrite exec_bind, fst_bind. change (exec (gets _) h) with h. cbn [gets fst].
  destruct (loadTargets unmarshal_targets dir h) as [doc|e]; [|done].
  destruct (probe_matches (canonicalUUID targetID) doc) as [|[profile [rec|]] [|]] eqn:Em; try done.
  destruct ctxDone; [done|]. destruct (tr_SSH rec) as [ssh|] eqn:Es; [|done].
  pose proof (match_into_sidecar_spec EvalSymlinks marshal_targets parse_authorized sha256 b64
    unmarshal_runtime marshal_runtime b64_decode parse_private peer dir rt (canonicalUUID targetID) doc
    profile rec ssh h Hlaw) as [H1 H2]. split; [exact H1|].
  intros out Hout. destruct (H2 out Hout) as (h1 & nowStr & N1 & R1 & R2 & R3 & R4).
  exists doc, profile, rec, ssh, h1. rewrite R2. auto 10.
Qed.

(** ** Forgotten successes *)

(** After a failed probe the sidecar carries the last success of [targets.json],
    not the one it had itself. *)
Lemma failed_probe_last_success EvalSymlinks parse_authorized sha256 b64 id dir rec reason nowStr h :
  rr_LastSuccessfulProbeAt
    (probe_record EvalSymlinks parse_authorized sha256 b64 id dir rec false reason nowStr h)
  = rd_LastSuccessfulSSHProbeAt (tr_Readiness rec).
Proof. reflexivity. Qed.

(** ** Host keys *)

(** A host key enrolled for a port other than 22 is never trusted by the probe:
    the line starts with "[host]:port", the callback looks for "host". *)
Definition key_line (pattern : string) : string := pattern +:+ " ssh-rsa AAAA".
Definition any_key (s : string) : option buf := Some [].

Lemma nonstandard_port_rejected :
  line_trusts any_key "10.0.0.1:2222" [] (key_line "[10.0.0.1]:2222") = false
  /\ line_trusts any_key "10.0.0.1:22" [] (key_line "10.0.0.1") = true.
Proof. split; reflexivity. Qed.

(** A key enrolled for one host is trusted for every host whose name is a prefix
    of that host's name. *)
Lemma prefix_host_trusted : line_trusts any_key "10.0.0.1:22" [] (key_line "10.0.0.17") = true.
Proof. reflexivity. Qed.

(** A missing known-hosts file is reported as a failed connection. *)
Lemma missing_known_hosts_reason EvalSymlinks b64_decode parse_private peer dir rec ssh h keyPath khPath key presented :
  ResolveManagedTargetArtifact EvalSymlinks dir (se_KeyPath ssh) ArtifactSSHPrivateKey = Ok keyPath ->
  ResolveManagedTargetArtifact EvalSymlinks dir (se_KnownHostsPath ssh) ArtifactKnownHosts = Ok khPath ->
  read_file keyPath h = FileOk key -> parse_private key = true -> read_file khPath h = FileMissing ->
  sp_presents (peer (h_tick h) (host_port (tr_Address rec) (tr_SSHPort rec)) (se_Username ssh) key) = Ok presented ->
  probeSSH EvalSymlinks b64_decode parse_private peer dir rec ssh h = (false, "ssh_connection_failed").
Proof.
  intros H1 H2 H3 H4 H5 H6. unfold probeSSH. rewrite H1, H2, H3, H4. cbn [negb].
  unfold ssh_dial, host_key_callback. rewrite H6, H5. reflexivity.
Qed.

(** ** Instances *)

Definition toy_uuid : string := "aaaaaaaa-bbbb-4ccc-8ddd-eeeeeeeeeeee".
Definition toy_ssh_entry : sshEntry :=
  {| se_Username := "ro"; se_KeyPath := "keys/k"; se_PublicKeyPath := ""; se_KnownHostsPath := "known_hosts";
     se_KeyAlgorithm := "rsa"; se_KeyBits := 3072; se_KeyOrigin := "generated"; se_KeyFingerprintSHA256 := "" |}.
Definition toy_readiness : readiness :=
  {| rd_RESTReady := false; rd_RESTReason := ""; rd_RESTSecurityState := ""; rd_SSHReady := false;
     rd_SSHReason := ""; rd_SSHProbeStage := ""; rd_LastSSHProbeAt := ""; rd_LastSuccessfulSSHProbeAt := "" |}.
Definition toy_record (id : string) (ssh : option sshEntry) : targetRecord :=
  {| tr_TargetID := id; tr_Address := "10.0.0.1"; tr_RESTPort := 443; tr_SSHPort := 22; tr_REST := None;
     tr_SSH := ssh; tr_LastWizard := ""; tr_Readiness := toy_readiness |}.
Definition toy_doc : targetsDoc :=
  {| td_Version := 1; td_Targets := {[ "faba" := Some (toy_record toy_uuid (Some toy_ssh_entry)) ]} |}.
Definition toy_host : Host :=
  {| h_nodes := {[ "/t/targets.json" := NFile [] true; "/t/keys/k" := NFile [] true;
                   "/t/known_hosts" := NFile (buf_of (key_line "10.0.0.1")) true ]};
     h_write := fun _ => WriteDone; h_flock := fun _ => true; h_delay := fun _ => 0%N;
     h_time := UnixEpoch; h_tick := 0 |}.
Definition toy_peer : ssh_peer := {| sp_presents := Ok []; sp_accepts := true; sp_session := true |}.

(** A codec for the sidecar: the number of the document in binary, and a newline. *)
#[local] Instance RuntimeReadinessRecord_eq_dec : EqDecision RuntimeReadinessRecord.
Proof. solve_decision. Defined.
#[local] Instance RuntimeReadinessRecord_countable : Countable RuntimeReadinessRecord.
Proof.
  refine (inj_countable' (fun r => (rr_TargetID r, rr_ConfigFingerprint r, rr_SSHReady r, rr_SSHReason r,
      rr_SSHProbeStage r, rr_LastProbeAt r, rr_LastSuccessfulProbeAt r))
    (fun '(a, b, c, d, e, f, g) => Build_RuntimeReadinessRecord a b c d e f g) _). by intros [].
Defined.
#[local] Instance runtimeReadinessDoc_eq_dec : EqDecision runtimeReadinessDoc.
Proof. solve_decision. Defined.
#[local] Instance runtimeReadinessDoc_countable : Countable runtimeReadinessDoc.
Proof.
  refine (inj_countable' (fun r => (rrd_Version r, rrd_Targets r, rrd_UpdatedAt r))
    (fun '(a, b, c) => Build_runtimeReadinessDoc a b c) _). by intros [].
Defined.
Definition toy_encode (d : runtimeReadinessDoc) : buf := bits (encode d) ++ [x0a].
Definition toy_decode (b : buf) : option runtimeReadinessDoc := decode (unbits (take (length b - 1) b)).

Lemma toy_law d : toy_decode (with_newline (toy_encode d)) = Some d.
Proof.
  assert (E : with_newline (toy_encode d) = toy_encode d).
  { unfold with_newline, toy_encode. by rewrite last_snoc. }
  rewrite E. unfold toy_decode, toy_encode. rewrite length_app. cbn [length].
  rewrite Nat.add_sub, take_app_length, unbits_bits. apply decode_encode.
Qed.

Definition toy_probe :=
  RunProbeForTargetSidecar (fun _ => SymMissing) (fun _ => Some toy_doc) (fun _ => []) (fun _ => Some [])
    (fun b => b) (fun _ => "") toy_decode toy_encode any_key (fun _ => true) (fun _ _ _ _ => toy_peer)
    false "/t" "/s" toy_uuid.

Lemma sidecar_probe_spec_witness :
  is_ok (fst (toy_probe toy_host)) = true
  /\ h_nodes (exec toy_probe toy_host) !! "/t/targets.json" = Some (NFile [] true).
Proof.
  destruct (sidecar_probe_spec (fun _ => SymMissing) (fun _ => Some toy_doc) (fun _ => []) (fun _ => Some [])
    (fun b => b) (fun _ => "") toy_decode toy_encode any_key (fun _ => true) (fun _ _ _ _ => toy_peer)
    false "/t" "/s" toy_uuid toy_host toy_law) as [H _].
  split; [reflexivity|]. apply (H "/t/targets.json"). apply (bool_decide_unpack _). reflexivity.
Defined.

Definition toy_entry : RuntimeReadinessRecord :=
  Build_RuntimeReadinessRecord toy_uuid "" true "" "command_succeeded" "" "".

Lemma sidecar_roundtrip_witness :
  LoadRuntimeReadiness toy_decode "/s" (exec (UpsertRuntimeReadiness toy_decode toy_encode "/s" toy_entry) toy_host)
  = Ok (<[toy_uuid := toy_entry]> ∅).
Proof.
  apply (proj1 (sidecar_roundtrip toy_decode toy_encode "/s" toy_entry toy_host toy_law)). reflexivity.
Defined.

Lemma lock_terminates_witness :
  fst (lock_loop (lock_attempts (15 * Second)) (h_time toy_host) toy_host) <> None.
Proof.
  apply (lock_terminates "/s" "l" (15 * Second) ErrRuntimeStateUnwritable ErrRuntimeStateLockFailed toy_host);
    [done|done|]. rewrite Z.sub_diag. done.
Defined.

Lemma artifact_contained_witness :
  ResolveManagedTargetArtifact (fun _ => SymMissing) "/t" "/config/keys/k" ArtifactSSHPrivateKey = Ok "/t/keys/k"
  /\ exists rel, artifactKindAllowsRelativePath ArtifactSSHPrivateKey rel = true /\ ".." ∉ Split rel slash.
Proof.
  split; [reflexivity|].
  destruct (artifact_contained (fun _ => SymMissing) "/t" "/config/keys/k" ArtifactSSHPrivateKey "/t/keys/k" eq_refl)
    as (rel & H1 & H2 & _). by exists rel.
Defined.

Definition toy_snapshot := LoadSSHReadinessSnapshotWithRuntime (fun _ => SymMissing) (fun _ => Some toy_doc)
  (fun _ => Some []) (fun b => b) (fun _ => "") toy_decode "/t" "".

Lemma published_canonical_witness :
  match toy_snapshot toy_host with
  | Ok (out, _) => is_Some (out !! toy_uuid) /\ canonical toy_uuid
  | Err _ => False
  end.
Proof.
  destruct (toy_snapshot toy_host) as [[out w]|e] eqn:E.
  - assert (Hin : is_Some (out !! toy_uuid)).
    { assert (H : match toy_snapshot toy_host with Ok (o, _) => bool_decide (is_Some (o !! toy_uuid))
                  | Err _ => false end = true) by reflexivity.
      rewrite E in H. by apply bool_decide_eq_true_1 in H. }
    split; [exact Hin|].
    apply (published_canonical (fun _ => SymMissing) (fun _ => Some toy_doc) (fun _ => Some []) (fun b => b)
      (fun _ => "") toy_decode "/t" "" toy_host out w E toy_uuid Hin).
  - assert (H : is_ok (toy_snapshot toy_host) = true) by reflexivity. by rewrite E in H.
Defined.

Lemma readiness_agrees_witness :
  match fst (LoadResolvedBrocadeTarget (fun _ => SymMissing) (fun _ => Some toy_doc) (fun _ => Some [])
    (fun b => b) (fun _ => "") toy_decode "/t" "" toy_uuid toy_host) with
  | Ok (t, r) => exists out w s, toy_snapshot toy_host = Ok (out, w) /\ out !! rb_TargetID t = Some s
                                 /\ sn_SSHReady s = es_Ready r
  | Err _ => False
  end.
Proof.
  destruct (fst (LoadResolvedBrocadeTarget _ _ _ _ _ _ _ _ _ toy_host)) as [[t r]|e] eqn:E.
  - destruct (readiness_agrees (fun _ => SymMissing) (fun _ => Some toy_doc) (fun _ => Some []) (fun b => b)
      (fun _ => "") toy_decode "/t" "" toy_uuid toy_host t r ltac:(done) E) as (out & w & s & H1 & H2 & H3 & _).
    exact (ex_intro _ out (ex_intro _ w (ex_intro _ s (conj H1 (conj H2 H3))))).
  - assert (H : is_ok (fst (LoadResolvedBrocadeTarget (fun _ => SymMissing) (fun _ => Some toy_doc)
      (fun _ => Some []) (fun b => b) (fun _ => "") toy_decode "/t" "" toy_uuid toy_host)) = true) by reflexivity.
    by rewrite E in H.
Defined.

(** The store as two loaders see it when a second record without an SSH part has
    the same identity: the heartbeat publishes it, the collection refuses it. *)
Definition twin_doc : targetsDoc :=
  {| td_Version := 1;
     td_Targets := {[ "faba" := Some (toy_record toy_uuid (Some toy_ssh_entry));
                      "fabb" := Some (toy_record toy_uuid None) ]} |}.
Lemma published_but_unresolved :
  match LoadSSHReadinessSnapshotWithRuntime (fun _ => SymMissing) (fun _ => Some twin_doc) (fun _ => None)
          (fun b => b) (fun _ => "") (fun _ => None) "/t" "" toy_host with
  | Ok (out, _) => bool_decide (is_Some (out !! toy_uuid))
  | Err _ => false
  end = true
  /\ fst (LoadResolvedBrocadeTarget (fun _ => SymMissing) (fun _ => Some twin_doc) (fun _ => None)
          (fun b => b) (fun _ => "") (fun _ => None) "/t" "" toy_uuid toy_host) = Err ErrDuplicateTargetID.
Proof. split; reflexivity. Qed.
