(* ===== verification/AgentEvidence.v ===== *)
(** The handler of server-initiated evidence collections
    ([src/agentevidence/handler.go]): claim a job, check readiness, produce a
    bundle, upload it and report.  The readiness check, the producer and the
    bundle file are an interface, which [EvidenceWiring] implements. *)
From S2P Require Import Prelude GoStrings Types.

Local Open Scope Z_scope.

Definition CollectionProfile : string := "brocade-readonly-v1".

(** ** Errors *)

(** An error with its text and, when one of the errors it wraps has a [Code]
    method, that code. *)
Record herror : Type := { he_code : option string; he_msg : string }.
Definition plainErr (msg : string) : herror := {| he_code := None; he_msg := msg |}.

Definition PublicErrorCodes : list string :=
  ["credential_profile_missing"; "ssh_auth_failed"; "host_key_failed"; "host_key_verification_failed";
   "command_profile_failed"; "bundle_generation_failed"; "upload_url_expired"; "upload_failed";
   "capability_disabled"; "lan_only_mode"; "target_not_found"; "cancelled";
   "target_configuration_missing"; "target_configuration_invalid"; "target_not_configured";
   "ssh_setup_pending"; "ssh_probe_stale"; "ssh_not_ready"; "ssh_key_missing"; "ssh_key_unreadable";
   "known_hosts_missing"; "artifact_dir_not_writable"].
Definition public_code (c : string) : bool := bool_decide (c ∈ PublicErrorCodes).

Definition errorCode (err : herror) (fallback : string) : string :=
  match he_code err with
  | Some c => if public_code c then c else fallback
  | None => fallback
  end.

(** ** Jobs and requests *)

Record ClaimedJob : Type := {
  cj_ID : string;
  cj_ServiceRequestID : string;
  cj_TargetProfileID : string;
  cj_CollectionProfile : string;
  cj_ExpiresAt : GoTime;
  cj_LeaseExpiresAt : GoTime;
}.

Record intentResp : Type := {
  ir_UploadURL : string;
  ir_StorageBucket : string;
  ir_StoragePath : string;
  ir_ContentType : string;
  ir_MaxBytes : Z;
}.

(** The provider of tokens, if any, may answer differently each time. *)
Record Client : Type := {
  ac_BaseURL : string;
  ac_ConnectorToken : string;
  ac_TokenProvider : option (nat -> string);
  ac_AgentVersion : string;
}.

Definition token (c : Client) (now : nat) : string :=
  match ac_TokenProvider c with
  | Some provide => if String.eqb (provide now) "" then ac_ConnectorToken c else provide now
  | None => ac_ConnectorToken c
  end.

(** What the network answers: an error, or a status and a body. *)
Inductive http_answer : Type := HttpError (e : string) | HttpStatus (status : Z) (body : buf).

(** [json.NewDecoder(resp.Body).Decode(out)], after a successful exchange. *)
Definition decoded {A} (decode : buf -> result string A) (answer : result string buf) : result string A :=
  match answer with Ok b => decode b | Err e => Err e end.

(** What a run does to the outside: requests that are attempted, with what the
    caller made of the answer, and calls of the readiness check, the producer
    and the file system. *)
Inductive event : Type :=
| EPost (url : string) (token : string) (body : payload) (answer : result string buf)
| EPut (url : string) (body : buf) (size : Z) (answer : result string unit)
| ECheck (target : string) (refusal : option herror)
| EProduce (target : string) (bundle : result herror (string * string))
| EOpen (path : string) (content : result string buf)
| EAudit (name : string) (fields : payload).

(** What the handler uses: the local readiness check, the bundle producer and
    reading of the bundle file. *)
Class EvidenceOps (S : Type) : Type := {
  ev_Check : string -> M S (option herror);
  ev_Produce : string -> M S (result herror (string * string));
  ev_Open : string -> S -> result string buf;
}.

Record HState (S : Type) : Type := {
  hs_env : S;
  hs_tick : nat;
  hs_trace : list event;
}.
Arguments hs_env {S}. Arguments hs_tick {S}. Arguments hs_trace {S}. Arguments Build_HState {S}.

Section Handler.
Context {S : Type} {ops : EvidenceOps S} (sha256 : buf -> buf).
(** The network, by step; the decoders of its answers; whether reading the
    status, the content and the position of the open bundle file succeeds; the
    LAN-only mode. *)
Context (network : nat -> http_answer) (decode_job : buf -> result string (option ClaimedJob))
        (decode_intent : buf -> result string intentResp) (file_io : nat -> bool)
        (LANOnly : option (nat -> bool)) (audited : bool) (c : Client).

Definition emit (e : event) : M (HState S) unit := fun s =>
  (tt, Build_HState (hs_env s) (Datatypes.S (hs_tick s)) (hs_trace s ++ [e])).
Definition ask {A} (f : nat -> A) : M (HState S) A := fun s =>
  (f (hs_tick s), Build_HState (hs_env s) (Datatypes.S (hs_tick s)) (hs_trace s)).
Definition on_env {A} (m : M S A) : M (HState S) A := fun s =>
  let '(a, e) := m (hs_env s) in (a, Build_HState e (hs_tick s) (hs_trace s)).

Definition audit (event : string) (fields : payload) : M (HState S) unit :=
  when audited (emit (EAudit event fields)).

(** [doJSON] without the decoding of the answer. *)
Definition doJSON (path : string) (body : payload) : M (HState S) (result string buf) :=
  tok ← ask (token c);
  answer ← ask network;
  let r := match answer with
           | HttpError e => Err e
           | HttpStatus status b => if 400 <=? status then Err (path +:+ " [" +:+ pretty status +:+ "]: " +:+ text_of b) else Ok b
           end in
  emit (EPost (ac_BaseURL c +:+ path) tok body r) ;;
  mret r.

Definition claim_path : string := "/functions/v1/agent-evidence-claim".
Definition intent_path : string := "/functions/v1/agent-evidence-upload-intent".
Definition complete_path : string := "/functions/v1/agent-evidence-complete".
Definition fail_path : string := "/functions/v1/agent-evidence-fail".

Definition claim : M (HState S) (result string (option ClaimedJob)) :=
  r ← doJSON claim_path {[ "agentVersion" := VString (ac_AgentVersion c) ]};
  mret (decoded decode_job r).

Definition uploadIntent (jobID : string) (size : Z) : M (HState S) (result string intentResp) :=
  r ← doJSON intent_path {[ "jobId" := VString jobID; "sizeBytes" := VInt64 size ]};
  mret (decoded decode_intent r).

Definition putBundle (url : string) (body : buf) (size : Z) : M (HState S) (result string unit) :=
  answer ← ask network;
  let r := match answer with
           | HttpError e => Err e
           | HttpStatus status b => if 300 <=? status then Err ("upload PUT " +:+ pretty status +:+ ": " +:+ text_of b) else Ok tt
           end in
  emit (EPut url body size r) ;;
  mret r.

Definition complete_body (jobID sha profileVer : string) : payload :=
  {[ "jobId" := VString jobID; "bundleSha256" := VString sha;
     "commandProfileVersion" := VString profileVer; "agentVersion" := VString (ac_AgentVersion c) ]}.
Definition reportComplete (jobID sha profileVer : string) : M (HState S) (result string unit) :=
  r ← doJSON complete_path (complete_body jobID sha profileVer);
  mret (decoded (fun _ => Ok tt) r).

Definition fail_body (jobID publicCode internalCode msg : string) : payload :=
  {[ "jobId" := VString jobID; "publicErrorCode" := VString publicCode;
     "internalErrorCode" := VString internalCode; "internalErrorMessage" := VString msg ]}.
Definition reportFail (jobID publicCode internalCode msg : string) : M (HState S) unit :=
  _ ← doJSON fail_path (fail_body jobID publicCode internalCode msg); mret tt.

(** ** One poll *)

Definition Outcome : Type := bool * option herror.

Definition failed_fields (jobID code : string) : payload :=
  {[ "job_id" := VString jobID; "public_error_code" := VString code ]}.
(** Report a failure, audit it, and end the run with the error. *)
Definition fail_job (job : ClaimedJob) (public internal : string) (err : herror) : M (HState S) Outcome :=
  reportFail (cj_ID job) public internal (he_msg err) ;;
  audit "agent_evidence.failed" (failed_fields (cj_ID job) public) ;;
  mret (true, Some err).

(** From the bundle on disk to the completed job. *)
Definition upload_bundle (job : ClaimedJob) (content : buf) (profileVer : string) : M (HState S) Outcome :=
  stat ← ask file_io;
  if negb stat then fail_job job "bundle_generation_failed" "zip_stat_failed" (plainErr "stat")
  else
  let size := Z.of_nat (length content) in
  hashed ← ask file_io;
  if negb hashed then fail_job job "bundle_generation_failed" "hash_failed" (plainErr "read")
  else
  let sum := hex (sha256 content) in
  audit "agent_evidence.bundle_produced"
    {[ "job_id" := VString (cj_ID job); "bytes" := VInt64 size; "bundle_sha256" := VString sum;
       "command_profile_version" := VString profileVer ]} ;;
  intent ← uploadIntent (cj_ID job) size;
  match intent with
  | Err e => fail_job job "upload_url_expired" "intent_failed" (plainErr e)
  | Ok intent =>
      seek ← ask file_io;
      if negb seek then mret (true, Some (plainErr "seek"))
      else
      put ← putBundle (ir_UploadURL intent) content size;
      match put with
      | Err e => fail_job job "upload_failed" "put_failed" (plainErr e)
      | Ok _ =>
          audit "agent_evidence.uploaded" {[ "job_id" := VString (cj_ID job); "bytes" := VInt64 size ]} ;;
          reported ← reportComplete (cj_ID job) sum profileVer;
          match reported with
          | Err e => mret (true, Some (plainErr e))
          | Ok _ =>
              audit "agent_evidence.completed"
                {[ "job_id" := VString (cj_ID job); "bundle_sha256" := VString sum; "bytes" := VInt64 size;
                   "command_profile_version" := VString profileVer ]} ;;
              mret (true, None)
          end
      end
  end.

Definition produce_bundle (job : ClaimedJob) : M (HState S) Outcome :=
  bundle ← on_env (ev_Produce (cj_TargetProfileID job));
  emit (EProduce (cj_TargetProfileID job) bundle) ;;
  match bundle with
  | Err err =>
      let code := errorCode err "bundle_generation_failed" in
      fail_job job code code err
  | Ok (zipPath, profileVer) =>
      content ← on_env (gets (ev_Open zipPath));
      emit (EOpen zipPath content) ;;
      match content with
      | Err e => fail_job job "bundle_generation_failed" "zip_open_failed" (plainErr e)
      | Ok content => upload_bundle job content profileVer
      end
  end.

Definition run_job (job : ClaimedJob) : M (HState S) Outcome :=
  audit "agent_evidence.claimed"
    {[ "job_id" := VString (cj_ID job); "service_request_id" := VString (cj_ServiceRequestID job);
       "target_profile_id" := VString (cj_TargetProfileID job) ]} ;;
  if negb (String.eqb (cj_CollectionProfile job) CollectionProfile) then
    reportFail (cj_ID job) "capability_disabled" "unsupported_profile" (cj_CollectionProfile job) ;;
    audit "agent_evidence.failed" (failed_fields (cj_ID job) "capability_disabled") ;;
    mret (true, Some (plainErr ("unsupported profile " +:+ Quote (cj_CollectionProfile job))))
  else
  refusal ← on_env (ev_Check (cj_TargetProfileID job));
  emit (ECheck (cj_TargetProfileID job) refusal) ;;
  match refusal with
  | Some err =>
      let code := errorCode err "capability_disabled" in
      reportFail (cj_ID job) code code (he_msg err) ;;
      audit "agent_evidence.readiness_failed"
        {[ "job_id" := VString (cj_ID job); "target_profile_id" := VString (cj_TargetProfileID job);
           "public_error_code" := VString code ]} ;;
      mret (true, Some err)
  | None => produce_bundle job
  end.

Definition Run : M (HState S) Outcome :=
  lan ← ask (fun n => match LANOnly with Some f => f n | None => false end);
  if (lan : bool) then mret (false, None)
  else
  claimed ← claim;
  match claimed with
  | Err e => mret (false, Some (plainErr e))
  | Ok None => mret (false, None)
  | Ok (Some job) => run_job job
  end.
End Handler.
