(* ===== verification/AgentEvidenceProps.v ===== *)
(** Properties of the evidence handler: its exchanges with the control plane
    follow the protocol, and every claimed job is settled. *)
From S2P Require Import Prelude GoStrings Types AgentEvidence.
From Stdlib Require Import Strings.Byte.

Local Open Scope Z_scope.

#[local] Instance byte_eq_decision : EqDecision Byte.byte := Byte.byte_eq_dec.

(** ** The protocol *)

(** Where a run stands.  [Refused] still owes the report of its code. *)
Inductive phase : Type :=
| Idle
| NoJob
| Asked (job : ClaimedJob)
| Ready (job : ClaimedJob)
| Refused (job : ClaimedJob) (code : string)
| Bundled (job : ClaimedJob) (path ver : string)
| Opened (job : ClaimedJob) (content : buf) (ver : string)
| Granted (job : ClaimedJob) (content : buf) (ver url : string)
| Uploaded (job : ClaimedJob) (content : buf) (ver : string)
| Settled (job : ClaimedJob) (completed : bool).

Definition says (body : payload) (k v : string) : bool := bool_decide (get_string body k = Some v).
Definition says_size (body : payload) (n : nat) : bool :=
  match body !! "sizeBytes" with Some (VInt64 z) => z =? Z.of_nat n | _ => false end.

Section Protocol.
Context (sha256 : buf -> buf) (decode_job : buf -> result string (option ClaimedJob))
        (decode_intent : buf -> result string intentResp) (base version : string).

Definition supported (job : ClaimedJob) : bool := String.eqb (cj_CollectionProfile job) CollectionProfile.
Definition at_ (url path : string) : bool := String.eqb url (base +:+ path).
Definition reports_fail (url : string) (body : payload) (job : ClaimedJob) (code : string) : bool :=
  at_ url fail_path && says body "jobId" (cj_ID job) && says body "publicErrorCode" code.

(** What may happen next.  A bundle is produced only for the target of the
    claimed job and only after its readiness check passed; exactly the content
    of the bundle file is uploaded, to the granted address; completion is
    reported only after an accepted upload, with the hash of what was uploaded;
    a failure is reported with the code of its cause. *)
Definition advance (ph : phase) (e : event) : option phase :=
  match e, ph with
  | EAudit _ _, _ => Some ph
  | EPost url _ body ans, Idle =>
      if at_ url claim_path && says body "agentVersion" version then
        Some match decoded decode_job ans with Ok (Some job) => Asked job | _ => NoJob end
      else None
  | EPost url _ body ans, Asked job =>
      if negb (supported job) && reports_fail url body job "capability_disabled"
      then Some (Settled job false) else None
  | ECheck target refusal, Asked job =>
      if supported job && String.eqb target (cj_TargetProfileID job) then
        Some match refusal with
             | None => Ready job
             | Some err => Refused job (errorCode err "capability_disabled")
             end
      else None
  | EProduce target bundle, Ready job =>
      if String.eqb target (cj_TargetProfileID job) then
        Some match bundle with
             | Ok (path, ver) => Bundled job path ver
             | Err err => Refused job (errorCode err "bundle_generation_failed")
             end
      else None
  | EOpen path content, Bundled job path' ver =>
      if String.eqb path path' then
        Some match content with
             | Ok b => Opened job b ver
             | Err _ => Refused job "bundle_generation_failed"
             end
      else None
  | EPost url _ body ans, Opened job content ver =>
      if at_ url intent_path && says body "jobId" (cj_ID job) && says_size body (length content) then
        Some match decoded decode_intent ans with
             | Ok intent => Granted job content ver (ir_UploadURL intent)
             | Err _ => Refused job "upload_url_expired"
             end
      else if reports_fail url body job "bundle_generation_failed" then Some (Settled job false) else None
  | EPut url body size ans, Granted job content ver url' =>
      if String.eqb url url' && bool_decide (body = content) && (size =? Z.of_nat (length content)) then
        Some (if is_ok ans then Uploaded job content ver else Refused job "upload_failed")
      else None
  | EPost url _ body ans, Uploaded job content ver =>
      if at_ url complete_path && says body "jobId" (cj_ID job)
         && says body "bundleSha256" (hex (sha256 content)) && says body "commandProfileVersion" ver
         && says body "agentVersion" version
      then Some (Settled job (is_ok ans)) else None
  | EPost url _ body ans, Refused job code =>
      if reports_fail url body job code then Some (Settled job false) else None
  | _, _ => None
  end.

Fixpoint follow (ph : phase) (l : list event) : option phase :=
  match l with
  | [] => Some ph
  | e :: rest => match advance ph e with Some ph' => follow ph' rest | None => None end
  end.

Lemma follow_app ph l k : follow ph (l ++ k) = follow ph l ≫= fun ph' => follow ph' k.
Proof. revert ph. induction l as [|e l IH]; intros ph; [done|]. cbn. destruct (advance ph e); [apply IH|done]. Qed.

(** Every failure report carries a public code. *)
Definition public_report (e : event) : Prop :=
  match e with
  | EPost url _ body _ => url = base +:+ fail_path ->
      exists code, get_string body "publicErrorCode" = Some code /\ public_code code = true
  | _ => True
  end.
(** The codes owed are public. *)
Definition owes_public (ph : phase) : Prop :=
  match ph with Refused _ code => public_code code = true | _ => True end.

Lemma errorCode_public err fallback : public_code fallback = true -> public_code (errorCode err fallback) = true.
Proof. intros H. unfold errorCode. destruct (he_code err) as [c|]; [|done]. by destruct (public_code c) eqn:E. Qed.

Lemma at_inj url p q : at_ url p = true -> url = base +:+ q -> p = q.
Proof. intros ->%String.eqb_eq H. by apply (inj (String.append base)) in H. Qed.

Lemma advance_public ph e ph' :
  owes_public ph -> advance ph e = Some ph' -> owes_public ph' /\ public_report e.
Proof.
  assert (Hf : forall url body job code, reports_fail url body job code = true -> public_code code = true ->
    exists c, get_string body "publicErrorCode" = Some c /\ public_code c = true).
  { intros url body job code [[_ _]%andb_true_iff H]%andb_true_iff Hc.
    apply bool_decide_eq_true in H. eauto. }
  assert (Hp : forall url p, at_ url p = true -> p <> fail_path -> url = base +:+ fail_path -> False).
  { intros url p H Hn E. by apply Hn, (at_inj _ _ _ H). }
  intros Ho H. destruct e as [url tok body ans|url body size ans|t r|t r|p r|n f]; [..|by injection H as <-];
    destruct ph as [| |job|job|job code|job path ver|job b ver|job b ver u|job b ver|job d]; cbn in H; try done.
  - destruct (at_ url claim_path) eqn:E; [|done]. destruct (says _ _ _); [|done]. injection H as <-.
    split; [|intros Eu; by destruct (Hp _ _ E ltac:(discriminate) Eu)]. by destruct (decoded decode_job ans) as [[]|].
  - destruct (negb _); [|done]. destruct (reports_fail _ _ _ _) eqn:E; [|done]. injection H as <-.
    split; [done|]. intros _. by eapply Hf.
  - destruct (reports_fail _ _ _ _) eqn:E; [|done]. injection H as <-. split; [done|]. intros _. by eapply Hf.
  - destruct (_ && _) eqn:E.
    + injection H as <-. apply andb_true_iff in E as [[E _]%andb_true_iff _].
      split; [|intros Eu; by destruct (Hp _ _ E ltac:(discriminate) Eu)]. by destruct (decoded decode_intent ans).
    + destruct (reports_fail _ _ _ _) eqn:E'; [|done]. injection H as <-. split; [done|]. intros _. by eapply Hf.
  - destruct (_ && _) eqn:E; [|done]. injection H as <-.
    apply andb_true_iff in E as [[[[E _]%andb_true_iff _]%andb_true_iff _]%andb_true_iff _].
    split; [done|]. intros Eu. by destruct (Hp _ _ E ltac:(discriminate) Eu).
  - destruct (_ && _); [|done]. injection H as <-. by destruct (is_ok ans).
  - destruct (_ && _); [|done]. injection H as <-. split; [|done]. destruct r; [|done]. by apply errorCode_public.
  - destruct (String.eqb _ _); [|done]. injection H as <-. split; [|done].
    destruct r as [[]|]; [done|]. by apply errorCode_public.
  - destruct (String.eqb _ _); [|done]. injection H as <-. by destruct r.
Qed.

Lemma follow_public ph l ph' :
  owes_public ph -> follow ph l = Some ph' -> owes_public ph' /\ Forall public_report l.
Proof.
  revert ph. induction l as [|e l IH]; intros ph Ho; cbn; [by intros [= <-]|].
  destruct (advance ph e) as [ph1|] eqn:E; [|done]. destruct (advance_public ph e ph1 Ho E) as [H1 H2].
  intros H. destruct (IH ph1 H1 H). auto.
Qed.
End Protocol.

(** ** Runs follow the protocol *)

Section Runs.
Context {S : Type} {ops : EvidenceOps S} (sha256 : buf -> buf).
Context (network : nat -> http_answer) (decode_job : buf -> result string (option ClaimedJob))
        (decode_intent : buf -> result string intentResp) (file_io : nat -> bool)
        (LANOnly : option (nat -> bool)) (audited : bool) (c : Client).

Abbreviation walk := (follow sha256 decode_job decode_intent (ac_BaseURL c) (ac_AgentVersion c)).
Abbreviation next := (advance sha256 decode_job decode_intent (ac_BaseURL c) (ac_AgentVersion c)).

(** From phase [ph], [m] only does what the protocol allows, and ends with a
    result and a phase that satisfy [Q]. *)
Definition obeys {A} (ph : phase) (m : M (HState S) A) (Q : A -> phase -> Prop) : Prop :=
  forall s, exists ev ph', hs_trace (exec m s) = hs_trace s ++ ev
    /\ walk ph ev = Some ph' /\ Q (fst (m s)) ph'.

Lemma obeys_ret {A} ph (a : A) (Q : A -> phase -> Prop) : Q a ph -> obeys ph (mret a) Q.
Proof. intros H s. exists [], ph. by rewrite app_nil_r. Qed.

Lemma obeys_bind {A B} ph (m : M (HState S) A) (f : A -> M (HState S) B) (Q : B -> phase -> Prop) :
  obeys ph m (fun a ph' => obeys ph' (f a) Q) -> obeys ph (m ≫= f) Q.
Proof.
  intros H s. destruct (H s) as (ev & ph1 & H1 & H2 & H3). destruct (H3 (exec m s)) as (ev' & ph2 & H4 & H5 & H6).
  exists (ev ++ ev'), ph2. rewrite exec_bind, fst_bind, H4, H1, app_assoc, follow_app, H2. auto.
Qed.

Lemma obeys_ask {A} ph (f : nat -> A) (Q : A -> phase -> Prop) : (forall n, Q (f n) ph) -> obeys ph (ask f) Q.
Proof. intros H s. exists [], ph. cbn. by rewrite app_nil_r. Qed.

Lemma obeys_env {A} ph (m : M S A) (Q : A -> phase -> Prop) : (forall a, Q a ph) -> obeys ph (on_env m) Q.
Proof. intros H s. exists [], ph. unfold exec, on_env. destruct (m (hs_env s)). cbn. by rewrite app_nil_r. Qed.

Lemma obeys_emit ph e ph' (Q : unit -> phase -> Prop) : next ph e = Some ph' -> Q tt ph' -> obeys ph (emit e) Q.
Proof. intros H HQ s. exists [e], ph'. cbn. by rewrite H. Qed.

Lemma obeys_audit ph name fields (Q : unit -> phase -> Prop) : Q tt ph -> obeys ph (audit audited name fields) Q.
Proof.
  intros H. unfold audit, when. destruct audited; [|by apply obeys_ret].
  apply (obeys_emit ph _ ph); [by destruct ph|done].
Qed.

Lemma obeys_post ph path body (Q : result string buf -> phase -> Prop) :
  (forall tok ans, exists ph', next ph (EPost (ac_BaseURL c +:+ path) tok body ans) = Some ph' /\ Q ans ph') ->
  obeys ph (doJSON network c path body) Q.
Proof.
  intros H. unfold doJSON. apply obeys_bind, obeys_ask. intros n. apply obeys_bind, obeys_ask. intros k.
  apply obeys_bind. edestruct H as (ph' & H1 & H2). eapply obeys_emit; [exact H1|]. by apply obeys_ret.
Qed.

Lemma at_self path : at_ (ac_BaseURL c) (ac_BaseURL c +:+ path) path = true.
Proof. apply String.eqb_refl. Qed.
Lemma at_other path path' : path <> path' -> at_ (ac_BaseURL c) (ac_BaseURL c +:+ path) path' = false.
Proof. intros H. apply String.eqb_neq. by intros E%(inj (String.append _)). Qed.

Lemma reports_self job code internal msg :
  reports_fail (ac_BaseURL c) (ac_BaseURL c +:+ fail_path) (fail_body (cj_ID job) code internal msg) job code = true.
Proof. unfold reports_fail, says. rewrite at_self. by rewrite !bool_decide_eq_true_2. Qed.

(** Reporting a failure settles a job from every phase that allows the report. *)
Lemma obeys_fail ph job code internal msg (Q : unit -> phase -> Prop) :
  (forall url tok body ans, url = ac_BaseURL c +:+ fail_path ->
     reports_fail (ac_BaseURL c) url body job code = true ->
     next ph (EPost url tok body ans) = Some (Settled job false)) ->
  Q tt (Settled job false) -> obeys ph (reportFail network c (cj_ID job) code internal msg) Q.
Proof.
  intros H HQ. unfold reportFail. apply obeys_bind, obeys_post. intros tok ans.
  exists (Settled job false). split; [apply H; [done|apply reports_self]|]. by apply obeys_ret.
Qed.

Lemma says_size_self (job : ClaimedJob) (b : buf) :
  says_size {[ "jobId" := VString (cj_ID job); "sizeBytes" := VInt64 (Z.of_nat (length b)) ]} (length b) = true.
Proof. unfold says_size. apply Z.eqb_refl. Qed.

(** How a run that took a job may end. *)
Definition job_end (r : Outcome) (ph : phase) : Prop :=
  fst r = true /\
  ((exists job, ph = Settled job (bool_decide (snd r = None)))
   \/ (exists job b v u, ph = Granted job b v u) /\ snd r <> None /\ exists n, file_io n = false).

Lemma end_failed job err : job_end (true, Some err) (Settled job false).
Proof. split; [done|]. left. by exists job. Qed.

Lemma obeys_fail_job ph job code internal err :
  (forall url tok body ans, url = ac_BaseURL c +:+ fail_path ->
     reports_fail (ac_BaseURL c) url body job code = true ->
     next ph (EPost url tok body ans) = Some (Settled job false)) ->
  obeys ph (fail_job network audited c job code internal err) job_end.
Proof.
  intros H. unfold fail_job. apply obeys_bind. apply obeys_fail; [exact H|].
  apply obeys_bind, obeys_audit, obeys_ret, end_failed.
Qed.

Lemma owed_fail job code url tok body ans :
  reports_fail (ac_BaseURL c) url body job code = true ->
  next (Refused job code) (EPost url tok body ans) = Some (Settled job false).
Proof. intros H. cbn. by rewrite H. Qed.

Lemma opened_fail job b ver url tok body ans :
  url = ac_BaseURL c +:+ fail_path ->
  reports_fail (ac_BaseURL c) url body job "bundle_generation_failed" = true ->
  next (Opened job b ver) (EPost url tok body ans) = Some (Settled job false).
Proof. intros -> H. cbn [advance]. by rewrite H, at_other. Qed.

Lemma upload_obeys job b ver :
  obeys (Opened job b ver)
    (upload_bundle sha256 network decode_intent file_io audited c job b ver) job_end.
Proof.
  unfold upload_bundle. apply obeys_bind, obeys_ask. intros n. destruct (file_io n); cbn [negb];
    [|apply obeys_fail_job; intros *; apply opened_fail].
  apply obeys_bind, obeys_ask. intros n'. destruct (file_io n'); cbn [negb];
    [|apply obeys_fail_job; intros *; apply opened_fail].
  apply obeys_bind, obeys_audit, obeys_bind. unfold uploadIntent. apply obeys_bind, obeys_post. intros tok ans.
  assert (E : next (Opened job b ver) (EPost (ac_BaseURL c +:+ intent_path) tok
      {[ "jobId" := VString (cj_ID job); "sizeBytes" := VInt64 (Z.of_nat (length b)) ]} ans)
    = Some match decoded decode_intent ans with
           | Ok intent => Granted job b ver (ir_UploadURL intent)
           | Err _ => Refused job "upload_url_expired" end).
  { cbn [advance]. rewrite at_self. unfold says. rewrite bool_decide_eq_true_2 by done.
    rewrite says_size_self. done. }
  eexists. split; [exact E|]. clear E. apply obeys_ret. destruct (decoded decode_intent ans) as [intent|e];
    [|apply obeys_fail_job; intros * _; apply owed_fail].
  apply obeys_bind, obeys_ask. intros k. destruct (file_io k) eqn:Eio; cbn [negb].
  2: { apply obeys_ret. split; [done|]. right. split; [eauto|]. split; [done|]. by exists k. }
  apply obeys_bind. unfold putBundle. apply obeys_bind, obeys_ask. intros m. apply obeys_bind.
  set (r := match network m with HttpError e => _ | _ => _ end).
  eapply obeys_emit; [cbn; by rewrite String.eqb_refl, bool_decide_eq_true_2, Z.eqb_refl by done|].
  apply obeys_ret. destruct r as [[]|e]; cbn [is_ok]; [|apply obeys_fail_job; intros * _; apply owed_fail].
  apply obeys_bind, obeys_audit, obeys_bind. unfold reportComplete. apply obeys_bind, obeys_post. intros tok' ans'.
  exists (Settled job (is_ok ans')). split.
  { cbn [advance]. rewrite at_self. unfold says. by rewrite !bool_decide_eq_true_2. }
  apply obeys_ret. destruct ans' as [b'|e]; cbn [decoded is_ok].
  - apply obeys_bind, obeys_audit, obeys_ret. split; [done|]. left. by exists job.
  - apply obeys_ret, end_failed.
Qed.

Lemma produce_obeys job :
  obeys (Ready job)
    (produce_bundle sha256 network decode_intent file_io audited c job) job_end.
Proof.
  unfold produce_bundle. apply obeys_bind, obeys_env. intros bundle. apply obeys_bind.
  eapply obeys_emit; [cbn; by rewrite String.eqb_refl|]. destruct bundle as [[path ver]|err];
    [|apply obeys_fail_job; intros * _; apply owed_fail].
  apply obeys_bind, obeys_env. intros content. apply obeys_bind.
  eapply obeys_emit; [cbn; by rewrite String.eqb_refl|].
  destruct content; [apply upload_obeys|apply obeys_fail_job; intros * _; apply owed_fail].
Qed.

Lemma job_obeys job :
  obeys (Asked job) (run_job sha256 network decode_intent file_io audited c job) job_end.
Proof.
  unfold run_job. apply obeys_bind, obeys_audit. destruct (String.eqb _ _) eqn:E; cbn [negb].
  - apply obeys_bind, obeys_env. intros refusal. apply obeys_bind.
    eapply obeys_emit; [cbn; unfold supported; by rewrite E, String.eqb_refl|].
    destruct refusal as [err|]; [|apply produce_obeys]. apply obeys_bind.
    apply obeys_fail; [intros * _; apply owed_fail|]. apply obeys_bind, obeys_audit, obeys_ret, end_failed.
  - apply obeys_bind, obeys_fail.
    + intros * -> H. cbn [advance]. unfold supported. by rewrite E, H.
    + apply obeys_bind, obeys_audit, obeys_ret, end_failed.
Qed.

Definition run_end (r : Outcome) (ph : phase) : Prop :=
  (fst r = false /\ (ph = Idle /\ snd r = None \/ ph = NoJob)) \/ job_end r ph.

Lemma run_obeys :
  obeys Idle (Run sha256 network decode_job decode_intent file_io LANOnly audited c) run_end.
Proof.
  unfold Run. apply obeys_bind, obeys_ask. intros n.
  destruct (match LANOnly with Some f => f n | None => false end); [apply obeys_ret; left; auto|].
  apply obeys_bind. unfold claim. apply obeys_bind, obeys_post. intros tok ans.
  eexists. split.
  { cbn [advance]. rewrite at_self. unfold says. rewrite bool_decide_eq_true_2 by done. done. }
  apply obeys_ret. destruct (decoded decode_job ans) as [[job|]|e].
  - intros s. destruct (job_obeys job s) as (ev & ph & H1 & H2 & H3). exists ev, ph. unfold run_end. auto.
  - apply obeys_ret. left. auto.
  - apply obeys_ret. left. auto.
Qed.
End Runs.

(** C6: every poll follows the exchange protocol, whatever the network, the
    local checks and the disk do.  In LAN-only mode nothing is sent and no check
    or collection is started.  Otherwise the poll claims at most one job;
    evidence is collected only for the target of that job, after the readiness
    check passed; what is uploaded is the content of the produced file; and
    completion is reported only for an accepted upload, with its SHA-256.  All
    failures are reported under public codes.  A poll that took a job ends with
    exactly one final report, the completion being acknowledged exactly when the
    poll returns no error, unless rewinding the bundle file failed. *)
Theorem evidence_protocol {S} {ops : EvidenceOps S} sha256 network decode_job decode_intent file_io LANOnly
    audited c s :
  let '(r, s') := Run sha256 network decode_job decode_intent file_io LANOnly audited c s in
  exists ev ph, hs_trace s' = hs_trace s ++ ev
    /\ follow sha256 decode_job decode_intent (ac_BaseURL c) (ac_AgentVersion c) Idle ev = Some ph
    /\ Forall (public_report (ac_BaseURL c)) ev
    /\ (forall lan, LANOnly = Some lan -> lan (hs_tick s) = true -> ev = [] /\ r = (false, None))
    /\ (if fst r then
          (exists job, ph = Settled job (bool_decide (snd r = None)))
          \/ (exists job b v u, ph = Granted job b v u) /\ snd r <> None /\ exists n, file_io n = false
        else ph = Idle /\ snd r = None \/ ph = NoJob).
Proof.
  pose proof (run_obeys sha256 network decode_job decode_intent file_io LANOnly audited c s)
    as (ev & ph & H1 & H2 & H3).
  revert H1 H3. unfold exec. destruct (Run _ _ _ _ _ _ _ _ s) as [r s'] eqn:E. cbn. intros H1 H3.
  exists ev, ph.
  split; [done|]. split; [done|]. split; [exact (proj2 (follow_public _ _ _ _ _ Idle ev ph I H2))|]. split.
  - intros lan -> Hlan. unfold Run, ask, mbind, M_bind in E. rewrite Hlan in E. injection E as <- <-. cbn in H1.
    split; [|done]. by apply (app_inv_head (hs_trace s)); rewrite <- H1, app_nil_r.
  - destruct H3 as [[-> H]|[-> H]]; exact H.
Qed.
