(* ===== verification/EvidenceWiring.v ===== *)
(** What the evidence handler runs on ([src/agent_evidence_wiring.go]): the
    readiness check and the producer over the target store and the exporter, the
    advertised capability, and the runner that polls with at most one collection
    at a time. *)
From S2P Require Import Prelude GoStrings GoPath GoTime Types Readiness Interfaces Store.
From S2P Require Import EvidenceBundle BrocadeCli BrocadeExport TargetConfig AgentEvidence.

Local Open Scope Z_scope.

Definition newCodedErr (code msg : string) : herror := {| he_code := Some code; he_msg := msg |}.

(** The texts of the errors of the target store. *)
Definition tc_Error (e : tc_error) : string :=
  match e with
  | ErrTargetIDMissing => "target_id_missing" | ErrInvalidTargetID => "invalid_target_id"
  | ErrTargetNotConfigured => "target_not_configured"
  | ErrTargetConfigMissing => "target_configuration_missing"
  | ErrTargetConfigUnreadable => "target_configuration_unreadable"
  | ErrDuplicateTargetID => "duplicate_target_id" | ErrProbeLockFailed => "probe_lock_failed"
  | ErrConfigDirRequired => "config_dir_required"
  | ErrRuntimeStateUnwritable => "runtime_state_unwritable"
  | ErrRuntimeStateLockFailed => "runtime_state_lock_failed"
  | ErrSSHSetupPending => "ssh_setup_pending" | ErrSSHProbeStale => "ssh_probe_stale"
  | ErrSSHNotReady => "ssh_not_ready"
  | ECode code => code
  | EContext => "context canceled"
  | EOther e => e
  end.

Definition codedFromReadinessErr (err : tc_error) : herror :=
  match err with
  | ErrTargetConfigMissing =>
      newCodedErr "target_configuration_missing" "connector has no targets.json — run `target configure`"
  | ErrTargetConfigUnreadable => newCodedErr "target_configuration_invalid" "connector cannot read targets.json"
  | ErrTargetNotConfigured =>
      newCodedErr "target_not_configured" "no local target maps to this target_profile_id"
  | ErrDuplicateTargetID =>
      newCodedErr "target_not_configured" "multiple local targets share this target_profile_id"
  | ErrInvalidTargetID => newCodedErr "target_configuration_invalid" "target_profile_id is not a valid UUID"
  | ErrSSHSetupPending =>
      newCodedErr "ssh_setup_pending" "SSH has never been proven for this target — run `target probe`"
  | ErrSSHProbeStale =>
      newCodedErr "ssh_probe_stale" "last successful SSH probe is older than the freshness window"
  | ErrSSHNotReady =>
      newCodedErr "ssh_not_ready" "connector has not reported fresh SSH readiness for this target"
  | _ =>
      let msg := tc_Error err in
      if String.eqb msg "ssh_key_missing" || String.eqb msg "ssh_key_unreadable"
         || String.eqb msg "known_hosts_missing" then newCodedErr msg msg
      else newCodedErr "target_configuration_invalid" msg
  end.

Definition ArtifactDirNotWritableCode : string := "artifact_dir_not_writable".

Definition nonEmpty (a b : string) : string := if negb (String.eqb (TrimSpace a) "") then a else b.

(** The host with its target store, and the world of the exporter: artifact
    directory and SSH.  The two directories are disjoint trees. *)
Record Agent : Type := {
  ag_host : Host;
  ag_world : World dispatchRunner;
}.

Definition on_host {A} (m : M Host A) : M Agent A := fun a =>
  let '(x, h) := m (ag_host a) in (x, {| ag_host := h; ag_world := ag_world a |}).
Definition on_world {A} (m : M (World dispatchRunner) A) : M Agent A := fun a =>
  let '(x, w) := m (ag_world a) in (x, {| ag_host := ag_host a; ag_world := w |}).

(** [brocadeReadiness] and [brocadeProducer] hold the same directories. *)
Record Directories : Type := {
  d_targets : string;
  d_runtime : string;
  d_artifact : string;
}.

Section Wiring.
Context (EvalSymlinks : string -> symlink_result).
Context (unmarshal_targets : buf -> option targetsDoc).
Context (parse_authorized : string -> option buf) (sha256 : buf -> buf) (b64 : buf -> string).
Context (unmarshal_runtime : buf -> option runtimeReadinessDoc).
(** The SSH library and the encoders of the exporter. *)
Context (ReadKey : string -> nat -> string -> result string buf) (ParsePrivateKey : buf -> bool).
Context (Dial : string -> nat -> BrocadeCli.Client -> option string)
        (open_session : string -> nat -> BrocadeCli.Client -> string -> session)
        (close_client : nat -> BrocadeCli.Client -> option string) (clock : nat -> GoTime).
Context (knownhosts_New : string -> option string).
Context (marshal_manifest : Manifest -> result string buf)
        (marshal_summary : Summary -> result string buf) (zip_write : list zip_entry -> result string buf)
        (marshal_audit : AuditRecord -> result string buf).
(** The name of the probe file, the text of an export error with what the
    operating system says, and the LAN-only mode at a step. *)
Context (probe_name : string -> nat -> string) (export_Error : ExportError -> string)
        (lanOnly : option (nat -> bool)).

Abbreviation load_resolved :=
  (LoadResolvedBrocadeTarget EvalSymlinks unmarshal_targets parse_authorized sha256 b64 unmarshal_runtime).

(** [brocadeReadiness.Check]. *)
Definition readiness_Check (d : Directories) (targetProfileID : string) : M Agent (option herror) :=
  lan ← gets (fun a => match lanOnly with Some f => f (h_tick (ag_host a)) | None => false end);
  if (lan : bool) then
    mret (Some (newCodedErr "lan_only_mode" "connector is in LAN-only mode; server-initiated collection refused"))
  else
  loaded ← on_host (load_resolved (d_targets d) (d_runtime d) targetProfileID);
  match loaded with
  | Err e => mret (Some (codedFromReadinessErr e))
  | Ok (_, readiness) =>
      match ReadinessGateError readiness with
      | Some e => mret (Some (codedFromReadinessErr e))
      | None =>
          if negb (String.eqb (d_artifact d) "") then
            probe ← gets (fun a => probe_name (d_artifact d) (fs_tick (w_fs (ag_world a))));
            writable ← on_world (VerifyWritableDirectory (d_artifact d) probe);
            mret match writable with
                 | Err _ => Some (newCodedErr ArtifactDirNotWritableCode
                     "connector cannot write its evidence artifact directory; recreate the container so /etc/filterrex is mounted read-write")
                 | Ok _ => None
                 end
          else mret None
      end
  end.

(** The configuration of an export of exactly one target. *)
Definition scoped_config (d : Directories) (resolved : ResolvedBrocadeTarget) : ExportConfig :=
  {| xc_Enabled := true; xc_ArtifactDir := d_artifact d; xc_KnownHostsPath := rb_KnownHostsPath resolved;
     xc_ConnectTimeoutSeconds := 0; xc_CommandTimeoutSeconds := 0; xc_SSHPort := rb_SSHPort resolved;
     xc_Targets :=
       [{| tc_SwitchName := nonEmpty (rb_ProfileName resolved) (rb_TargetID resolved);
           tc_Host := rb_Host resolved; tc_Username := rb_SSHUsername resolved;
           tc_SSHKeyPath := rb_PrivateKeyPath resolved; tc_TargetProfileID := ""; tc_KnownHostsPath := "";
           tc_FabricRole := ""; tc_FID := None; tc_PortRange := ""; tc_Notes := ""; tc_REST := None |}];
     xc_AllowInsecureArtifactDir := false; xc_ConfigPath := "" |}.

Definition evidence_request : RequestMeta :=
  {| rq_RequesterType := "agent_evidence"; rq_Requester := "agent-evidence-dispatch"; rq_ConfigPath := "" |}.

(** The error of an export as a public code.  No export error wraps
    [ErrArtifactDirNotWritable], so its text decides. *)
Definition export_coded (err : ExportError) : herror :=
  let msg := export_Error err in
  if Contains msg "read-only file system" then
    newCodedErr ArtifactDirNotWritableCode "connector cannot write its evidence artifact directory"
  else if Contains msg "known_hosts" then
    newCodedErr "host_key_verification_failed" "host-key verification failed"
  else if Contains msg "ssh: handshake failed" || Contains msg "authentication" then
    newCodedErr "ssh_auth_failed" "ssh authentication failed"
  else newCodedErr "bundle_generation_failed" msg.

(** [brocadeProducer.Produce]. *)
Definition producer_Produce (d : Directories) (targetProfileID : string)
    : M Agent (result herror (string * string)) :=
  loaded ← on_host (load_resolved (d_targets d) (d_runtime d) targetProfileID);
  match loaded with
  | Err e => mret (Err (codedFromReadinessErr e))
  | Ok (resolved, readiness) =>
      match ReadinessGateError readiness with
      | Some e => mret (Err (codedFromReadinessErr e))
      | None =>
          exported ← on_world (RunExportWithSSH ReadKey ParsePrivateKey Dial open_session close_client clock
            knownhosts_New sha256 marshal_manifest marshal_summary zip_write marshal_audit
            (scoped_config d resolved) evidence_request);
          mret match exported with
               | (_, Some err) => Err (export_coded err)
               | (Some res, None) => Ok (er_Path res, ProfileVersion)
               | (None, None) => Err (plainErr "nil result")
               end
      end
  end.

#[global] Instance brocade_ops (d : Directories) : EvidenceOps Agent := {|
  ev_Check := readiness_Check d;
  ev_Produce := producer_Produce d;
  ev_Open path a := match ReadFile path (w_fs (ag_world a)) with
                    | ReadOk b => Ok b
                    | ReadMissing => Err "no such file"
                    | ReadError => Err "open"
                    end;
|}.

(** ** The advertised capability *)

Record CapabilityStatusInfo : Type := {
  cs_Enabled : bool;
  cs_ConfigurationState : string;
  cs_ReadyTargetProfileIDs : list string;
  cs_PerTarget : gmap string PerTargetReadiness;
  cs_Reason : string;
}.

Definition ready_entry (now : GoTime) (r : SSHReadinessSnapshot) : bool :=
  sn_SSHReady r && negb (String.eqb (TrimSpace (sn_LastSuccessfulProbeAt r)) "")
  && match ParseRFC3339 (sn_LastSuccessfulProbeAt r) with
     | None => false
     | Some t => negb (ReadinessFreshWindow <? Sub now t)
     end.

Definition collectReadyBrocadeTargetIDs (targetsDir runtimeStateDir : string) (now : GoTime) (h : Host)
    : list string :=
  match LoadSSHReadinessSnapshotWithRuntime EvalSymlinks unmarshal_targets parse_authorized sha256 b64
          unmarshal_runtime targetsDir runtimeStateDir h with
  | Err _ => []
  | Ok (snap, _) => map fst (filter (fun e => ready_entry now (snd e) = true) (map_to_list snap))
  end.

Definition evaluateBrocadeCapabilityStatus (targetsDir runtimeStateDir : string) (lanOnly : bool)
    (now : GoTime) (h : Host) : CapabilityStatusInfo :=
  let status enabled state ids reason :=
    {| cs_Enabled := enabled; cs_ConfigurationState := state; cs_ReadyTargetProfileIDs := ids;
       cs_PerTarget := ∅; cs_Reason := reason |} in
  if lanOnly then status false "lan_only" [] "LAN-only mode refuses server-initiated collection"
  else
  let inv := InspectTargetConfigDir unmarshal_targets targetsDir h in
  if negb (ci_FileReadable inv) then
    status false "not_configured" []
      ("no targets.json at " +:+ ci_File inv +:+ " — run `target configure` on the connector host")
  else if negb (ci_ParseSuccessful inv) then status false "invalid" [] "targets.json failed to parse"
  else match collectReadyBrocadeTargetIDs targetsDir runtimeStateDir now h with
       | [] => status true "not_configured" [] "no Brocade target has a fresh successful SSH probe on this host"
       | ready => status true "ready" ready ""
       end.

(** ** The runner *)

(** The handler of a wired runner: its client and its directories. *)
Record WiredHandler : Type := {
  wh_Client : AgentEvidence.Client;
  wh_dirs : Directories;
}.

Record agentEvidenceRunner : Type := {
  ae_handler : option WiredHandler;
  ae_inFlight : bool;
  ae_lastPoll : GoTime;
}.

(** [initAgentEvidenceRunner]; [env] is the override of the artifact directory.
    The directory is probed, but the runner is wired whatever comes out. *)
Definition initAgentEvidenceRunner (backendURL : string) (connectorToken : nat -> string)
    (agentVersion targetsDir runtimeStateDir env : string) (r : agentEvidenceRunner)
    : M Agent agentEvidenceRunner :=
  match ae_handler r with
  | Some _ => mret r
  | None =>
      let resolved := ResolveAgentEvidenceArtifactDir env in
      _ ← match resolved with
          | Err _ => mret tt
          | Ok (dir, _) =>
              probe ← gets (fun a => probe_name dir (fs_tick (w_fs (ag_world a))));
              _ ← on_world (VerifyWritableDirectory dir probe);
              mret tt
          end;
      mret {| ae_handler := Some
                {| wh_Client := {| ac_BaseURL := TrimRight backendURL "/"; ac_ConnectorToken := "";
                                   ac_TokenProvider := Some connectorToken; ac_AgentVersion := agentVersion |};
                   wh_dirs := {| d_targets := targetsDir; d_runtime := runtimeStateDir;
                                 d_artifact := match resolved with Ok (dir, _) => dir | Err _ => "" end |} |};
              ae_inFlight := ae_inFlight r; ae_lastPoll := ae_lastPoll r |}
  end.

(** The critical section of [tickAgentEvidence]: the handler to run in a new
    goroutine, if any. *)
Definition tickAgentEvidence (now : GoTime) (r : agentEvidenceRunner)
    : option WiredHandler * agentEvidenceRunner :=
  match ae_handler r with
  | None => (None, r)
  | Some h =>
      if ae_inFlight r then (None, r)
      else (Some h,
            {| ae_handler := ae_handler r; ae_inFlight := true;
               ae_lastPoll := if 5 * Minute <? Since now (ae_lastPoll r) then now else ae_lastPoll r |})
  end.
(** The deferred section of that goroutine. *)
Definition tick_done (r : agentEvidenceRunner) : agentEvidenceRunner :=
  {| ae_handler := ae_handler r; ae_inFlight := false; ae_lastPoll := ae_lastPoll r |}.
End Wiring.
