(* ===== verification/EvidenceWiringProps.v ===== *)
(** Properties of the wired evidence collection: its error codes, the agreement
    of the advertised capability with what is accepted, and single flight. *)
From S2P Require Import Prelude GoStrings GoPath GoTime Types Readiness Interfaces Store.
From S2P Require Import EvidenceBundle BrocadeCli BrocadeExport TargetConfig TargetConfigProps.
From S2P Require Import TargetProbe TargetProbeProps AgentEvidence EvidenceWiring.
From stdpp Require Import relations.

Local Open Scope Z_scope.

(** ** Codes *)

(** The public code of each error of the target store. *)
Definition readiness_code (e : tc_error) : string :=
  match e with
  | ErrTargetConfigMissing => "target_configuration_missing"
  | ErrTargetNotConfigured | ErrDuplicateTargetID => "target_not_configured"
  | ErrSSHSetupPending => "ssh_setup_pending"
  | ErrSSHProbeStale => "ssh_probe_stale"
  | ErrSSHNotReady => "ssh_not_ready"
  | ECode c | EOther c =>
      if bool_decide (c ∈ ["ssh_key_missing"; "ssh_key_unreadable"; "known_hosts_missing"]) then c
      else "target_configuration_invalid"
  | _ => "target_configuration_invalid"
  end.

(** An error whose own code is public, so that no fallback replaces it. *)
Definition coded (e : herror) (c : string) : Prop :=
  he_code e = Some c /\ forall fallback, errorCode e fallback = c.

Lemma coded_intro c msg : public_code c = true -> coded (newCodedErr c msg) c.
Proof. intros H. split; [done|]. intros fb. unfold errorCode. cbn. by rewrite H. Qed.

Lemma bounded_code c :
  (if String.eqb c "ssh_key_missing" || String.eqb c "ssh_key_unreadable" || String.eqb c "known_hosts_missing"
   then newCodedErr c c else newCodedErr "target_configuration_invalid" c)
  = newCodedErr (readiness_code (ECode c)) c /\ public_code (readiness_code (ECode c)) = true.
Proof.
  cbn [readiness_code]. destruct (String.eqb_spec c "ssh_key_missing") as [->|H1]; [done|].
  destruct (String.eqb_spec c "ssh_key_unreadable") as [->|H2]; [done|].
  destruct (String.eqb_spec c "known_hosts_missing") as [->|H3]; [done|].
  cbn. rewrite bool_decide_eq_false_2; [done|]. by rewrite !elem_of_cons, elem_of_nil; intros [|[|[|]]].
Qed.

Lemma readiness_coded e : coded (codedFromReadinessErr e) (readiness_code e).
Proof.
  destruct e as [| | | | | | | | | | | | |c| |c]; cbn [codedFromReadinessErr tc_Error readiness_code];
    try by apply coded_intro.
  - destruct (bounded_code c) as [-> H]. by apply coded_intro.
  - destruct (bounded_code c) as [-> H]. by apply coded_intro.
Qed.

Section Wired.
Context (EvalSymlinks : string -> symlink_result).
Context (unmarshal_targets : buf -> option targetsDoc).
Context (parse_authorized : string -> option buf) (sha256 : buf -> buf) (b64 : buf -> string).
Context (unmarshal_runtime : buf -> option runtimeReadinessDoc).
Context (ReadKey : string -> nat -> string -> result string buf) (ParsePrivateKey : buf -> bool).
Context (Dial : string -> nat -> BrocadeCli.Client -> option string)
        (open_session : string -> nat -> BrocadeCli.Client -> string -> session)
        (close_client : nat -> BrocadeCli.Client -> option string) (clock : nat -> GoTime).
Context (knownhosts_New : string -> option string).
Context (marshal_manifest : Manifest -> result string buf)
        (marshal_summary : Summary -> result string buf) (zip_write : list zip_entry -> result string buf)
        (marshal_audit : AuditRecord -> result string buf).
Context (probe_name : string -> nat -> string) (export_Error : ExportError -> string)
        (lanOnly : option (nat -> bool)).

Abbreviation load_resolved :=
  (LoadResolvedBrocadeTarget EvalSymlinks unmarshal_targets parse_authorized sha256 b64 unmarshal_runtime).
Abbreviation Check_ready := (readiness_Check EvalSymlinks unmarshal_targets parse_authorized sha256 b64
  unmarshal_runtime probe_name lanOnly).
Abbreviation Produce_bundle := (producer_Produce EvalSymlinks unmarshal_targets parse_authorized sha256 b64
  unmarshal_runtime ReadKey ParsePrivateKey Dial open_session close_client clock knownhosts_New
  marshal_manifest marshal_summary zip_write marshal_audit export_Error).
Abbreviation export := (RunExportWithSSH ReadKey ParsePrivateKey Dial open_session close_client clock
  knownhosts_New sha256 marshal_manifest marshal_summary zip_write marshal_audit).

(** A result, an error, or both: never neither. *)
Definition answered {A E} (r : option A * option E) : Prop := fst r <> None \/ snd r <> None.

Lemma artifact_answered {R} cfg req dir started log res (w : World R) :
  answered (fst (write_artifact sha256 marshal_audit cfg req dir started log res w)).
Proof.
  unfold write_artifact, refuse, answered.
  repeat (first [progress (rewrite !fst_bind) | case_match]; cbn [fst snd mret M_ret]; try (by left); try (by right)).
Qed.

Lemma export_answered cfg req w : answered (fst (export cfg req w)).
Proof.
  unfold RunExportWithSSH. destruct (Validate cfg); [|by right].
  destruct (fold_result _ _ _); [|by right]. rewrite !fst_bind. cbn [mret M_ret fst].
  unfold RunExport. destruct (Validate cfg); [|by right]. rewrite !fst_bind.
  destruct (fst (ensureArtifactDir _ _)); [|by right]. rewrite !fst_bind.
  destruct (ga_error _); [by right|]. destruct (BuildEvidenceBundle _ _ _ _ _ _ _); [|by right].
  apply artifact_answered.
Qed.

Lemma on_host_run {A} (m : M Host A) a :
  fst (on_host m a) = fst (m (ag_host a)) /\ ag_world (exec (on_host m) a) = ag_world a.
Proof. unfold exec, on_host. by destruct (m (ag_host a)). Qed.
Lemma on_world_run {A} (m : M (World dispatchRunner) A) a :
  fst (on_world m a) = fst (m (ag_world a)) /\ ag_world (exec (on_world m) a) = exec m (ag_world a).
Proof. unfold exec, on_world. by destruct (m (ag_world a)). Qed.

(** Why the target store or its readiness refuses a collection. *)
Definition refusal (d : Directories) (id : string) (h : Host) (x : tc_error) : Prop :=
  fst (load_resolved (d_targets d) (d_runtime d) id h) = Err x
  \/ exists t r, fst (load_resolved (d_targets d) (d_runtime d) id h) = Ok (t, r)
                /\ ReadinessGateError r = Some x.
(** The target is resolved, its last probe succeeded and is fresh. *)
Definition proven (d : Directories) (id : string) (h : Host) (t : ResolvedBrocadeTarget) : Prop :=
  exists r, fst (load_resolved (d_targets d) (d_runtime d) id h) = Ok (t, r)
            /\ es_Ready r = true /\ es_Fresh r = true.
Definition in_lan_mode (a : Agent) : bool :=
  match lanOnly with Some f => f (h_tick (ag_host a)) | None => false end.
Definition writable (dir : string) (w : World dispatchRunner) : bool :=
  is_ok (fst (VerifyWritableDirectory dir (probe_name dir (fs_tick (w_fs w))) w)).

Lemma gate_passed r : ReadinessGateError r = None -> es_Ready r = true /\ es_Fresh r = true.
Proof.
  unfold ReadinessGateError. destruct (es_Ready r), (es_Fresh r); cbn; try done; by destruct (String.eqb _ _).
Qed.

Lemma check_spec d id a :
  match fst (Check_ready d id a) with
  | None => in_lan_mode a = false /\ (exists t, proven d id (ag_host a) t)
            /\ (d_artifact d <> "" -> writable (d_artifact d) (ag_world a) = true)
  | Some e => exists c, coded e c
      /\ (in_lan_mode a = true /\ c = "lan_only_mode"
          \/ (exists x, refusal d id (ag_host a) x /\ c = readiness_code x)
          \/ c = "artifact_dir_not_writable" /\ writable (d_artifact d) (ag_world a) = false)
  end.
Proof.
  unfold readiness_Check. rewrite fst_bind. cbn [gets fst]. change (exec (gets _) a) with a.
  fold (in_lan_mode a). destruct (in_lan_mode a); [eexists; split; [by apply coded_intro|auto]|].
  rewrite fst_bind. destruct (on_host_run (load_resolved (d_targets d) (d_runtime d) id) a) as [E Ew].
  rewrite E. destruct (fst (load_resolved _ _ _ _)) as [[t r]|x] eqn:El.
  2:{ eexists. split; [apply readiness_coded|]. right. left. exists x. split; [by left|done]. }
  destruct (ReadinessGateError r) as [x|] eqn:Eg.
  { eexists. split; [apply readiness_coded|]. right. left. exists x. split; [right; eauto|done]. }
  apply gate_passed in Eg as [Hr Hf].
  assert (Hp : exists t, proven d id (ag_host a) t) by (exists t, r; auto).
  destruct (String.eqb_spec (d_artifact d) "") as [Hd|Hd]; cbn [negb]; [by split; [done|split]|].
  rewrite !fst_bind. cbn [gets fst mret M_ret]. change (exec (gets _) ?x) with x.
  rewrite Ew, (proj1 (on_world_run _ _)), Ew. unfold writable.
  destruct (fst (VerifyWritableDirectory _ _ _)) eqn:Ev; cbn [is_ok]; [by split; [done|split]|].
  eexists. split; [by apply coded_intro|auto].
Qed.

Lemma export_codes e : exists c, coded (export_coded export_Error e) c
  /\ c ∈ ["artifact_dir_not_writable"; "host_key_verification_failed"; "ssh_auth_failed"; "bundle_generation_failed"].
Proof.
  unfold export_coded. set (msg := export_Error e). clearbody msg.
  repeat case_match; eexists; (split; [by apply coded_intro|]); rewrite !elem_of_cons; auto 10.
Qed.

Lemma produce_spec d id a :
  let a' := exec (Produce_bundle d id) a in
  match fst (Produce_bundle d id a) with
  | Ok (path, ver) => ver = ProfileVersion /\ exists t res, proven d id (ag_host a) t
      /\ fst (export (scoped_config d t) evidence_request (ag_world a)) = (Some res, None)
      /\ er_Path res = path /\ ag_world a' = exec (export (scoped_config d t) evidence_request) (ag_world a)
  | Err e => exists c, coded e c
      /\ ((exists x, refusal d id (ag_host a) x /\ c = readiness_code x) /\ ag_world a' = ag_world a
          \/ (exists t err, proven d id (ag_host a) t
               /\ snd (fst (export (scoped_config d t) evidence_request (ag_world a))) = Some err)
             /\ c ∈ ["artifact_dir_not_writable"; "host_key_verification_failed"; "ssh_auth_failed";
                     "bundle_generation_failed"])
  end.
Proof.
  unfold producer_Produce. rewrite fst_bind, exec_bind.
  destruct (on_host_run (load_resolved (d_targets d) (d_runtime d) id) a) as [E Ew].
  rewrite E. set (a1 := exec (on_host _) a) in *.
  destruct (fst (load_resolved _ _ _ _)) as [[t r]|x] eqn:El.
  2:{ eexists. split; [apply readiness_coded|]. left. split; [|done]. exists x. split; [by left|done]. }
  destruct (ReadinessGateError r) as [x|] eqn:Eg.
  { eexists. split; [apply readiness_coded|]. left. split; [|done]. exists x. split; [right; eauto|done]. }
  apply gate_passed in Eg as [Hr Hf]. assert (Hp : proven d id (ag_host a) t) by (exists r; auto).
  rewrite !fst_bind, !exec_bind. cbn [mret M_ret fst]. change (exec (mret _) ?x) with x.
  destruct (on_world_run (export (scoped_config d t) evidence_request) a1) as [E1 E2].
  rewrite Ew in E1, E2. rewrite E1, E2. clear E1 E2.
  pose proof (export_answered (scoped_config d t) evidence_request (ag_world a)) as Ha.
  destruct (fst (export _ _ (ag_world a))) as [[res|] [err|]] eqn:Ex.
  - destruct (export_codes err) as (c & H1 & H2). exists c. split; [done|]. right. split; [|done].
    exists t, err. split; [done|]. by rewrite Ex.
  - split; [done|]. exists t, res. by repeat split.
  - destruct (export_codes err) as (c & H1 & H2). exists c. split; [done|]. right. split; [|done].
    exists t, err. split; [done|]. by rewrite Ex.
  - by destruct Ha.
Qed.

(** ** The advertised capability *)

Lemma inspect_ok dir h :
  match ci_Status (InspectTargetConfigDir unmarshal_targets dir h) with
  | TargetConfigMissing | TargetConfigUnreadable => True
  | _ => ci_FileReadable (InspectTargetConfigDir unmarshal_targets dir h) = true
         /\ ci_ParseSuccessful (InspectTargetConfigDir unmarshal_targets dir h) = true
  end.
Proof. unfold InspectTargetConfigDir. repeat case_match; simplify_eq; done. Qed.

Lemma resolved_inventory targetsDir runtimeDir id h t r :
  fst (load_resolved targetsDir runtimeDir id h) = Ok (t, r) ->
  ci_FileReadable (InspectTargetConfigDir unmarshal_targets targetsDir h) = true
  /\ ci_ParseSuccessful (InspectTargetConfigDir unmarshal_targets targetsDir h) = true.
Proof.
  unfold LoadResolvedBrocadeTarget. rewrite fst_bind. cbn [gets fst].
  set (inv := InspectTargetConfigForTarget _ _ _ _ _ _ _ _).
  assert (E : ti_Inventory inv = InspectTargetConfigDir unmarshal_targets targetsDir h).
  { subst inv. unfold InspectTargetConfigForTarget, inspect_match. repeat case_match; done. }
  clearbody inv. rewrite <- E. pose proof (inspect_ok targetsDir h) as H. rewrite <- E in H.
  unfold inventory_error. destruct (String.eqb _ _); [done|].
  by destruct (ci_Status (ti_Inventory inv)).
Qed.

Lemma fresh_entry s r now now' :
  sn_SSHReady s = es_Ready r -> sn_LastSuccessfulProbeAt s = es_LastSuccessfulProbeAt r ->
  es_Fresh r = readinessFresh (es_LastSuccessfulProbeAt r) now ReadinessFreshWindow ->
  es_Ready r = true -> es_Fresh r = true -> now' <= now -> ready_entry now' s = true.
Proof.
  intros E1 E2 Ef Hr Hf Hle. unfold ready_entry. rewrite E1, E2, Hr. rewrite Ef in Hf. unfold readinessFresh in Hf.
  destruct (String.eqb _ _); [done|]. destruct (ParseRFC3339 _) as [t|]; [|done]. cbn.
  apply Z.leb_le in Hf. apply negb_true_iff, Z.ltb_ge. unfold Sub in *. lia.
Qed.
End Wired.

(** Whatever a collection accepts has been advertised.  When the readiness
    check passes for a target, a capability report made from the same files, at
    that time or earlier, is enabled, ready, and lists the canonical identity of
    the target. *)
Theorem accepted_is_advertised EvalSymlinks unmarshal_targets parse_authorized sha256 b64 unmarshal_runtime
    probe_name lanOnly d id a now
    (Hdir : d_targets d <> "")
    (Hcheck : fst (readiness_Check EvalSymlinks unmarshal_targets parse_authorized sha256 b64
                unmarshal_runtime probe_name lanOnly d id a) = None)
    (Hnow : now <= fst (TargetConfig.Now (ag_host a))) :
  let status := evaluateBrocadeCapabilityStatus EvalSymlinks unmarshal_targets parse_authorized sha256 b64
    unmarshal_runtime (d_targets d) (d_runtime d) (in_lan_mode lanOnly a) now (ag_host a) in
  cs_Enabled status = true /\ cs_ConfigurationState status = "ready"
  /\ canonicalUUID id ∈ cs_ReadyTargetProfileIDs status.
Proof.
  pose proof (check_spec EvalSymlinks unmarshal_targets parse_authorized sha256 b64 unmarshal_runtime
    probe_name lanOnly d id a) as H. rewrite Hcheck in H.
  destruct H as (-> & (t & r & Hl & Hr & Hf) & _).
  destruct (resolved_published _ _ _ _ _ _ _ _ _ _ _ _ Hdir Hl) as (out & w & rec & ssh & Hs & Ho & _ & ->).
  destruct (resolved_match _ _ _ _ _ _ _ _ _ _ _ _ Hl) as (_ & _ & _ & _ & _ & _ & _ & _ & _ & _ & Hid & _).
  destruct (resolved_inventory _ _ _ _ _ _ _ _ _ _ _ _ Hl) as [Hread Hparse].
  pose proof (overlay_agrees EvalSymlinks parse_authorized sha256 b64 unmarshal_runtime (d_targets d)
    (d_runtime d) (rb_TargetID t) rec ssh (fst (TargetConfig.Now (ag_host a))) (ag_host a))
    as (H1 & _ & _ & _ & H2 & _ & H3).
  assert (Hin : canonicalUUID id ∈ collectReadyBrocadeTargetIDs EvalSymlinks unmarshal_targets parse_authorized
    sha256 b64 unmarshal_runtime (d_targets d) (d_runtime d) now (ag_host a)).
  { unfold collectReadyBrocadeTargetIDs. rewrite Hs, <- Hid. apply list_elem_of_fmap. eexists (_, _).
    split; [reflexivity|]. apply list_elem_of_filter. split; [|apply elem_of_map_to_list; exact Ho].
    by eapply fresh_entry. }
  unfold evaluateBrocadeCapabilityStatus. rewrite Hread, Hparse. cbn [negb].
  destruct (collectReadyBrocadeTargetIDs _ _ _ _ _ _ _ _ _ _) as [|x l]; [by apply elem_of_nil in Hin|].
  by repeat split.
Qed.


(** ** Single flight *)

(** The runner and the number of its goroutines.  Each step is a critical
    section: wiring, a tick, or the end of a goroutine. *)
Inductive runner_step (probe_name : string -> nat -> string)
    : agentEvidenceRunner * nat -> agentEvidenceRunner * nat -> Prop :=
| step_wire url tok ver targetsDir runtimeDir env r n a :
    runner_step probe_name (r, n)
      (fst (initAgentEvidenceRunner probe_name url tok ver targetsDir runtimeDir env r a), n)
| step_tick now r n :
    runner_step probe_name (r, n)
      (snd (tickAgentEvidence now r), match fst (tickAgentEvidence now r) with Some _ => S n | None => n end)
| step_done r n : runner_step probe_name (r, S n) (tick_done r, n).

Definition runner_start : agentEvidenceRunner * nat :=
  ({| ae_handler := None; ae_inFlight := false; ae_lastPoll := 0 |}, O).

Definition flight_inv (st : agentEvidenceRunner * nat) : Prop :=
  snd st = (if ae_inFlight (fst st) then 1 else 0)%nat /\ (ae_inFlight (fst st) = true -> ae_handler (fst st) <> None).

Lemma init_runner probe_name url tok ver targetsDir runtimeDir env r a :
  let r' := fst (initAgentEvidenceRunner probe_name url tok ver targetsDir runtimeDir env r a) in
  ae_inFlight r' = ae_inFlight r /\ ae_handler r' <> None
  /\ forall h, ae_handler r = Some h -> ae_handler r' = Some h.
Proof.
  unfold initAgentEvidenceRunner. destruct (ae_handler r) as [h|] eqn:E; cbn zeta.
  - cbn. rewrite E. by repeat split.
  - rewrite fst_bind. by repeat split.
Qed.

Lemma runner_step_inv probe_name st st' :
  runner_step probe_name st st' -> flight_inv st ->
  flight_inv st' /\ forall h, ae_handler (fst st) = Some h -> ae_handler (fst st') = Some h.
Proof.
  intros Hs [H1 H2]. destruct Hs as [url tok ver td rd env r n a|now r n|r n]; cbn [fst snd] in *.
  - destruct (init_runner probe_name url tok ver td rd env r a) as (E & Hh & Hk).
    split; [|done]. split; cbn [fst snd]; [by rewrite E|done].
  - unfold tickAgentEvidence. destruct (ae_handler r) as [h|] eqn:E; [|by split; [split; cbn; rewrite ?E|]].
    destruct (ae_inFlight r) eqn:Ef; cbn; rewrite ?E.
    + split; [split; cbn; rewrite ?Ef, ?E|]; done.
    + split; [split; cbn; [by rewrite H1|done]|]. done.
  - split; [|done]. split; cbn; [|done]. destruct (ae_inFlight r); [by injection H1|done].
Qed.

(** Polling never overlaps.  In every history of wiring, ticks and finished
    runs there is at most one collection goroutine, the flag is set exactly while
    there is one, none starts before the handler is wired, and the handler is
    wired only once. *)
Theorem single_flight probe_name st (Hr : rtc (runner_step probe_name) runner_start st) :
  snd st = (if ae_inFlight (fst st) then 1 else 0)%nat
  /\ (ae_handler (fst st) = None -> snd st = O)
  /\ forall st' h, rtc (runner_step probe_name) st st' -> ae_handler (fst st) = Some h ->
       ae_handler (fst st') = Some h.
Proof.
  assert (Hrun : forall x y, rtc (runner_step probe_name) x y -> flight_inv x ->
    flight_inv y /\ forall h, ae_handler (fst x) = Some h -> ae_handler (fst y) = Some h).
  { intros x y Hxy. induction Hxy as [|x y z Hs _ IH]; [done|]. intros Hx.
    destruct (runner_step_inv _ _ _ Hs Hx) as [Hy H1]. destruct (IH Hy) as [Hz H2]. auto. }
  assert (H0 : flight_inv runner_start) by done. destruct (Hrun _ _ Hr H0) as [[H1 H2] _].
  split; [exact H1|]. split.
  - intros E. rewrite H1. destruct (ae_inFlight (fst st)); [|done]. by destruct (H2 eq_refl).
  - intros st' h Hst'. by apply (Hrun _ _ Hst').
Qed.

(** ** Instances and consequences *)

Definition probed_record : targetRecord :=
  set_readiness
    {| rd_RESTReady := false; rd_RESTReason := ""; rd_RESTSecurityState := ""; rd_SSHReady := true;
       rd_SSHReason := ""; rd_SSHProbeStage := "command_succeeded";
       rd_LastSSHProbeAt := "1970-01-01T00:00:00Z"; rd_LastSuccessfulSSHProbeAt := "1970-01-01T00:00:00Z" |}
    (toy_record toy_uuid (Some toy_ssh_entry)).
Definition probed_doc : targetsDoc := {| td_Version := 1; td_Targets := {[ "faba" := Some probed_record ]} |}.
Definition toy_agent : Agent :=
  {| ag_host := toy_host;
     ag_world := {| w_fs := Build_FS ∅ true (fun _ => IoOk) (fun _ => []) O; w_dirs := ∅;
                    w_clock := fun _ => UnixEpoch; w_now := O; w_runner := no_runners |} |}.
Definition toy_dirs (artifact : string) : Directories :=
  {| d_targets := "/t"; d_runtime := ""; d_artifact := artifact |}.

Lemma accepted_is_advertised_witness :
  toy_uuid ∈ cs_ReadyTargetProfileIDs (evaluateBrocadeCapabilityStatus (fun _ => SymMissing)
    (fun _ => Some probed_doc) (fun _ => Some []) (fun b => b) (fun _ => "") (fun _ => None) "/t" "" false
    UnixEpoch toy_host).
Proof.
  apply (accepted_is_advertised (fun _ => SymMissing) (fun _ => Some probed_doc) (fun _ => Some []) (fun b => b)
    (fun _ => "") (fun _ => None) (fun dir _ => dir +:+ "/probe") None (toy_dirs "/a") toy_uuid toy_agent UnixEpoch);
    [discriminate|vm_compute; reflexivity|vm_compute; discriminate].
Defined.

Definition wired_runner : agentEvidenceRunner :=
  fst (initAgentEvidenceRunner (fun dir _ => dir) "https://x/" (fun _ => "") "v" "/t" "" "" (fst runner_start) toy_agent).
Definition flying : agentEvidenceRunner * nat := (snd (tickAgentEvidence 1 wired_runner), 1%nat).

Lemma single_flight_witness :
  rtc (runner_step (fun dir _ => dir)) runner_start flying
  /\ snd flying = (if ae_inFlight (fst flying) then 1 else 0)%nat.
Proof.
  assert (H : rtc (runner_step (fun dir _ => dir)) runner_start flying).
  { eapply rtc_l; [apply (step_wire _ "https://x/" (fun _ => "") "v" "/t" "" "" _ _ toy_agent)|].
    eapply rtc_l; [apply (step_tick _ 1)|]. apply rtc_refl. }
  split; [exact H|]. apply (single_flight (fun dir _ => dir) flying H).
Defined.

(** When the override of the artifact directory is refused, the wired handler
    has no directory: nothing is probed, and bundles go to the default of the
    command line tool. *)
Lemma refused_override_uses_default probe_name url tok ver td rd env r a e t :
  ResolveAgentEvidenceArtifactDir env = Err e -> ae_handler r = None ->
  match ae_handler (fst (initAgentEvidenceRunner probe_name url tok ver td rd env r a)) with
  | Some h => EffectiveArtifactDir (scoped_config (wh_dirs h) t) = DefaultArtifactDir
  | None => False
  end.
Proof. intros E Er. unfold initAgentEvidenceRunner. by rewrite Er, E. Qed.

(** No command of a collection fails it: when no connection can be made, a
    bundle without any file is produced all the same. *)
Lemma unreachable_switch_produces :
  let encode_manifest m := Ok (buf_of (pretty (Z.of_nat (length (mjoin (map ms_Files (mn_Switches m))))))) in
  let '(r, a') := producer_Produce (fun _ => SymMissing) (fun _ => Some probed_doc) (fun _ => Some []) (fun b => b)
    (fun _ => "") (fun _ => None) (fun _ _ _ => Ok []) (fun _ => true) (fun _ _ _ => Some "refused")
    (fun _ _ _ _ => SessionError "") (fun _ _ => None) (fun _ => UnixEpoch) (fun _ => None)
    encode_manifest (fun _ => Ok []) (fun es => Ok (mjoin (map ze_content (take 1 es)))) (fun _ => Ok [])
    (fun _ => "") (toy_dirs "/a") toy_uuid toy_agent in
  match r with
  | Ok (path, _) => fs_files (w_fs (ag_world a')) !! path = Some (buf_of (pretty 0) ++ newline)
  | Err _ => False
  end.
Proof. vm_compute. reflexivity. Qed.
