(* ===== verification/NetAddr.v ===== *)
(** The part of Go's [net] package in use: host and port, IP addresses and
    networks. *)
From S2P Require Import Prelude GoStrings.
From Stdlib Require Import Ascii.

Local Open Scope Z_scope.

(** ** Host and port *)

Definition colon : ascii := ":"%char.
Definition is_char (c d : ascii) : bool := Ascii.eqb c d.
Definition has_char (c : ascii) (l : list ascii) : bool := existsb (is_char c) l.

(** Everything before and after the last colon. *)
Fixpoint break_last (l : list ascii) : option (list ascii * list ascii) :=
  match l with
  | [] => None
  | c :: rest =>
      match break_last rest with
      | Some (a, b) => Some (c :: a, b)
      | None => if is_char colon c then Some ([], rest) else None
      end
  end.

(** [net.SplitHostPort]. *)
Definition SplitHostPort (s : string) : option (string * string) :=
  match break_last (bytes s) with
  | None => None
  | Some (h, port) =>
      if has_char "["%char port || has_char "]"%char port then None
      else match h with
      | c :: rest =>
          if is_char "["%char c then
            match reverse rest with
            | d :: inner =>
                if is_char "]"%char d && negb (has_char "["%char inner) && negb (has_char "]"%char inner)
                then Some (str (reverse inner), str port) else None
            | [] => None
            end
          else if has_char colon h || has_char "["%char h || has_char "]"%char h then None
          else Some (str h, str port)
      | [] => Some ("", str port)
      end
  end.

(** ** Addresses *)

(** An address after [To4]: an IPv6 address that maps an IPv4 one is [IP4]. *)
Inductive IP : Type := IP4 (n : Z) | IP6 (n : Z).

Definition normalise (n : Z) : IP :=
  if Z.shiftr n 32 =? 65535 then IP4 (Z.land n 4294967295) else IP6 n.

Definition digit_value (c : ascii) : option Z :=
  let n := byte_of c in if (48 <=? n) && (n <=? 57) then Some (n - 48) else None.
Definition hex_value (c : ascii) : option Z :=
  let n := byte_of c in
  if (48 <=? n) && (n <=? 57) then Some (n - 48)
  else if (97 <=? n) && (n <=? 102) then Some (n - 87)
  else if (65 <=? n) && (n <=? 70) then Some (n - 55)
  else None.
Fixpoint number (base : Z) (digit : ascii -> option Z) (acc : Z) (l : list ascii) : option Z :=
  match l with
  | [] => Some acc
  | c :: rest => match digit c with
                 | Some d => number base digit (acc * base + d) rest
                 | None => None
                 end
  end.

(** A decimal field of an IPv4 address: no leading zero, at most 255. *)
Definition field4 (s : string) : option Z :=
  match bytes s with
  | [] => None
  | (c :: _ :: _) as l =>
      if is_char "0"%char c then None
      else match number 10 digit_value 0 l with Some n => if n <=? 255 then Some n else None | None => None end
  | l => number 10 digit_value 0 l
  end.

Definition parse4 (s : string) : option Z :=
  match mapM field4 (Split s "."%char) with
  | Some [a; b; c; d] => Some (((a * 256 + b) * 256 + c) * 256 + d)
  | _ => None
  end.

(** A group of an IPv6 address: one to four hexadecimal digits. *)
Definition group6 (s : string) : option Z :=
  let l := bytes s in
  if (length l =? 0)%nat || (4 <? length l)%nat then None else number 16 hex_value 0 l.

(** Groups between colons; the last may be an IPv4 address, two groups wide. *)
Fixpoint groups6 (l : list string) : option (list Z) :=
  match l with
  | [] => Some []
  | [s] => if has_char "."%char (bytes s)
           then n ← parse4 s; Some [Z.shiftr n 16; Z.land n 65535]
           else n ← group6 s; Some [n]
  | s :: rest => n ← group6 s; ns ← groups6 rest; Some (n :: ns)
  end.
Definition colon_groups (l : list ascii) : option (list Z) :=
  match l with [] => Some [] | _ => groups6 (Split (str l) colon) end.

(** What is before and after the first double colon. *)
Fixpoint cut_ellipsis (l : list ascii) : option (list ascii * list ascii) :=
  match l with
  | c :: ((d :: rest) as l') =>
      if is_char colon c && is_char colon d then Some ([], rest)
      else match cut_ellipsis l' with Some (a, b) => Some (c :: a, b) | None => None end
  | _ => None
  end.

Definition join_groups (l : list Z) : Z := foldl (fun acc g => acc * 65536 + g) 0 l.
Definition parse6 (s : string) : option Z :=
  match cut_ellipsis (bytes s) with
  | None => match colon_groups (bytes s) with
            | Some l => if (length l =? 8)%nat then Some (join_groups l) else None
            | None => None
            end
  | Some (a, b) =>
      if has_char "."%char a then None
      else match colon_groups a, colon_groups b with
           | Some l, Some r =>
               if (length l + length r <=? 7)%nat
               then Some (join_groups (l ++ replicate (8 - (length l + length r)) 0 ++ r)) else None
           | _, _ => None
           end
  end.

(** [net.ParseIP]; an address with a zone is refused. *)
Definition ParseIP (s : string) : option IP :=
  if has_char colon (bytes s) then normalise <$> parse6 s else IP4 <$> parse4 s.

(** ** Networks *)

(** A network by its first address and the length of its prefix. *)
Inductive IPNet : Type := Net4 (base : Z) (bits : Z) | Net6 (base : Z) (bits : Z).

Definition prefix (width bits n : Z) : Z := Z.shiftr n (width - bits).
Definition masked (width bits n : Z) : Z := Z.shiftl (prefix width bits n) (width - bits).

(** A prefix length: digits only. *)
Definition mask_bits (s : string) (width : Z) : option Z :=
  match bytes s with
  | [] => None
  | l => match number 10 digit_value 0 l with
         | Some n => if n <=? width then Some n else None
         | None => None
         end
  end.

(** [net.ParseCIDR].  A prefix of the IPv4-mapped addresses is an IPv4 network. *)
Definition ParseCIDR (s : string) : option IPNet :=
  match SplitN s "/"%char 2 with
  | [addr; mask] =>
      if has_char colon (bytes addr) then
        n ← parse6 addr; k ← mask_bits mask 128;
        match normalise (masked 128 k n) with
        | IP4 b => Some (Net4 b (k - 96))
        | IP6 b => Some (Net6 b k)
        end
      else n ← parse4 addr; k ← mask_bits mask 32; Some (Net4 (masked 32 k n) k)
  | _ => None
  end.

(** [IPNet.Contains]. *)
Definition NetContains (net : IPNet) (ip : IP) : bool :=
  match net, ip with
  | Net4 b k, IP4 n => prefix 32 k n =? prefix 32 k b
  | Net6 b k, IP6 n => prefix 128 k n =? prefix 128 k b
  | _, _ => false
  end.

(** ** Samples and facts *)

Lemma net_samples :
  SplitHostPort "10.0.0.1:80" = Some ("10.0.0.1", "80") /\ SplitHostPort "[::1]:7070" = Some ("::1", "7070")
  /\ SplitHostPort "::1" = None /\ SplitHostPort "host" = None
  /\ ParseIP "127.0.0.1" = Some (IP4 2130706433) /\ ParseIP "::ffff:127.0.0.1" = Some (IP4 2130706433)
  /\ ParseIP "::1" = Some (IP6 1) /\ ParseIP "fe80::1%eth0" = None /\ ParseIP "01.2.3.4" = None
  /\ ParseIP "1:2:3:4:5:6:7:8:9" = None /\ ParseIP "1::2::3" = None
  /\ ParseCIDR "192.168.7.9/16" = Some (Net4 3232235520 16) /\ ParseCIDR "10.0.0.0/33" = None
  /\ ParseCIDR "::ffff:10.0.0.0/104" = Some (Net4 167772160 8).
Proof. by vm_compute. Qed.

(** A network of full width holds exactly its own address. *)
Lemma full_width width a b : prefix width width a =? prefix width width b = (a =? b).
Proof. unfold prefix. by rewrite Z.sub_diag, !Z.shiftr_0_r. Qed.
