(* ===== verification/LocalAPI.v ===== *)
(** The local HTTP API ([src/local_api.go]): allowed client networks, token
    check, routes and handlers over the supervisor, the local database and the
    relay handler, the certificate and the advertised address. *)
From S2P Require Import Prelude GoStrings GoPath GoTime Types Interfaces Policy Store LocalDB.
From S2P Require Import Supervisor DesiredState Relay NetAddr.
From Stdlib Require Import Ascii.

Local Open Scope Z_scope.

Definition defaultLocalAPIBind : string := "0.0.0.0:7070".

(** ** Allowed networks *)

Definition loopback : IPNet := Net4 2130706433 32.
Definition loopback6 : IPNet := Net6 1 128.

Definition parseAllowedCIDRs (raw : string) : list IPNet :=
  if String.eqb raw "" then [loopback; loopback6]
  else [loopback; loopback6]
       ++ omap (fun cidr => let cidr := TrimSpace cidr in
                            if String.eqb cidr "" then None else ParseCIDR cidr)
            (Split raw ","%char).

(** ** Requests and responses *)

Record HttpRequest : Type := {
  hr_Method : string;
  hr_Path : string;
  hr_Token : string;  (* the X-Local-Token header, empty when missing *)
  hr_RemoteAddr : string;
  hr_Body : buf;
}.

(** Status, whether the cross-origin headers are set, and the JSON body; the
    router itself answers without a body. *)
Record HttpReply : Type := {
  rp_Status : Z;
  rp_CORS : bool;
  rp_JSON : option payload;
}.

Definition realIP (r : HttpRequest) : option IP :=
  let host := match SplitHostPort (hr_RemoteAddr r) with Some (h, _) => h | None => hr_RemoteAddr r end in
  ParseIP host.

Definition error_json (msg : string) : payload := {[ "ok" := VBool false; "error" := VString msg ]}.

(** [Db]: the database handle of the server. *)
Record LocalAPIServer (Db : Type) : Type := {
  la_db : option Db;
  la_relayHandler : option RelayHandler;
  la_token : string;
  la_bind : string;
  la_lanURL : string;
  la_allowedNets : list IPNet;
  la_certFile : string;
  la_keyFile : string;
}.
Arguments la_db {Db}. Arguments la_relayHandler {Db}. Arguments la_token {Db}. Arguments la_bind {Db}.
Arguments la_lanURL {Db}. Arguments la_allowedNets {Db}. Arguments la_certFile {Db}.
Arguments la_keyFile {Db}. Arguments Build_LocalAPIServer {Db}.

(** ** The advertised address *)

(** A network interface: its flags, and its addresses when they can be read. *)
Record Interface : Type := {
  if_up : bool;
  if_loopback : bool;
  if_addrs : option (list (option IP));
}.

Definition IsLoopback (ip : IP) : bool :=
  match ip with IP4 n => Z.shiftr n 24 =? 127 | IP6 n => n =? 1 end.
Definition dotted (n : Z) : string :=
  pretty (Z.shiftr n 24) +:+ "." +:+ pretty (Z.land (Z.shiftr n 16) 255) +:+ "."
  +:+ pretty (Z.land (Z.shiftr n 8) 255) +:+ "." +:+ pretty (Z.land n 255).

(** The first address that is IPv4 and not a loopback one. *)
Fixpoint lan_address (l : list (option IP)) : option Z :=
  match l with
  | [] => None
  | Some ip :: rest =>
      if IsLoopback ip then lan_address rest
      else match ip with IP4 n => Some n | IP6 _ => lan_address rest end
  | None :: rest => lan_address rest
  end.
Fixpoint lan_interface (l : list Interface) : option Z :=
  match l with
  | [] => None
  | i :: rest =>
      if negb (if_up i) || if_loopback i then lan_interface rest
      else match if_addrs i with
           | None => lan_interface rest
           | Some addrs => match lan_address addrs with
                           | Some n => Some n
                           | None => lan_interface rest
                           end
           end
  end.

Definition detectLANURL (bind : string) (interfaces : option (list Interface)) : string :=
  let port := match SplitHostPort bind with Some (_, p) => p | None => "7070" end in
  match interfaces ≫= lan_interface with
  | Some n => "http://" +:+ dotted n +:+ ":" +:+ port
  | None => "http://127.0.0.1:" +:+ port
  end.

(** [strings.Replace(v, "http://", "https://", 1)]. *)
Fixpoint replace_first (old new : string) (l : list ascii) : list ascii :=
  match l with
  | [] => []
  | c :: rest =>
      if HasPrefix (str l) old then bytes new ++ drop (String.length old) l
      else c :: replace_first old new rest
  end.

(** [url_Port] is the port of a URL, [None] when it does not parse. *)
Definition configured_url (url_Port : string -> option string) (bind v : string) : string :=
  let v := str (replace_first "http://" "https://" (bytes v)) in
  match url_Port v with
  | Some "" =>
      let bindPort := match SplitHostPort bind with Some (_, p) => p | None => "" end in
      if String.eqb bindPort "" then v else TrimRight v "/" +:+ ":" +:+ bindPort
  | _ => v
  end.

Definition NewLocalAPIServer {Db} (url_Port : string -> option string) (interfaces : option (list Interface))
    (env_cidr env_url : string) (db : option Db) (token bind certDir : string)
    (relayHandler : option RelayHandler) : LocalAPIServer Db :=
  let bind := if String.eqb bind "" then defaultLocalAPIBind else bind in
  {| la_db := db; la_relayHandler := relayHandler; la_token := token; la_bind := bind;
     la_lanURL := if negb (String.eqb env_url "") then configured_url url_Port bind env_url
                  else detectLANURL bind interfaces;
     la_allowedNets := parseAllowedCIDRs env_cidr;
     la_certFile := JoinPath [certDir; "local-api.crt"]; la_keyFile := JoinPath [certDir; "local-api.key"] |}.

(** ** The certificate *)

(** The addresses of the certificate: the advertised one if it is a literal, and
    the loopback addresses. *)
Definition cert_addresses (lanURL : string) : list IP :=
  let host := TrimPrefix (TrimPrefix lanURL "https://") "http://" in
  let host := match SplitHostPort host with Some (h, _) => h | None => host end in
  (if negb (String.eqb lanURL "") then match ParseIP host with Some ip => [ip] | None => [] end else [])
  ++ [IP4 2130706433; IP6 1].

Definition exists_file (path : string) (f : FS) : bool := bool_decide (is_Some (fs_files f !! path)).

Section Certificate.
(** Key generation and certificate creation of the standard library, and PEM. *)
Context {key : Type} (generate : nat -> option key)
        (create_cert : key -> list IP -> GoTime -> GoTime -> option buf) (marshal_key : key -> option buf)
        (pem : string -> buf -> buf).

Definition ensureCert {Db} (s : LocalAPIServer Db) (now : GoTime) : M FS (result string unit) :=
  cert ← gets (exists_file (la_certFile s));
  have_key ← gets (exists_file (la_keyFile s));
  if (cert : bool) && have_key then mret (Ok tt)
  else
  n ← gets fs_tick;
  _ ← modify tick;
  match generate n with
  | None => mret (Err "generate key")
  | Some priv =>
      match create_cert priv (cert_addresses (la_lanURL s)) (now - 60 * Minute)
              (now + 10 * 365 * 24 * 60 * Minute) with
      | None => mret (Err "create cert")
      | Some der =>
          written ← WriteFile (la_certFile s) (pem "CERTIFICATE" der);
          if negb written then mret (Err "write cert")
          else match marshal_key priv with
               | None =>
                   (* the key file is already open, and so created *)
                   opened ← WriteFile (la_keyFile s) [];
                   mret (Err (if (opened : bool) then "marshal key" else "open key file"))
               | Some k =>
                   written ← WriteFile (la_keyFile s) (pem "EC PRIVATE KEY" k);
                   mret (if negb written then Err "write key" else Ok tt)
               end
      end
  end.

(** How the server listens: with TLS when the certificate is there, in the
    clear otherwise; with TLS the advertised address is one of https. *)
Definition Start {Db} (s : LocalAPIServer Db) (now : GoTime) : M FS (bool * LocalAPIServer Db) :=
  r ← ensureCert s now;
  mret match r with
       | Err _ => (false, s)
       | Ok _ =>
           let url := if HasPrefix (la_lanURL s) "http://" then "https" +:+ str (drop 4 (bytes (la_lanURL s)))
                      else la_lanURL s in
           (true, {| la_db := la_db s; la_relayHandler := la_relayHandler s; la_token := la_token s;
                     la_bind := la_bind s; la_lanURL := url; la_allowedNets := la_allowedNets s;
                     la_certFile := la_certFile s; la_keyFile := la_keyFile s |})
       end.
End Certificate.

(** ** Handlers *)

Section Handlers.
Context {Wk St : Type} `{!WorkerOps Wk, !StoreOps St}.
Context (view : nat -> Supervisor (Wk:=Wk) (St:=St)) (network : nat -> http_outcome)
        (probe : nat -> string -> result ProbeError ProbeOutcome) (adapter_base : nat -> string -> string)
        (marshal : payload -> option buf) (unmarshal : buf -> option (option payload))
        (valid_request : string -> string -> bool) (text : buf -> string).
(** The database over time, the decoder of commands, fresh identifiers. *)
Context {blob : Type} (open_blob : blob -> option payload) (stamp_text : stamp -> string).
Context (decode_command : buf -> option RelayCommand) (generateID : nat -> string) (HostVersion : string).
Abbreviation Server := (LocalAPIServer (nat -> LocalDB.LocalDB blob)).

Definition reply (status : Z) (body : payload) : HttpReply :=
  {| rp_Status := status; rp_CORS := true; rp_JSON := Some body |}.
Definition writeError (status : Z) (msg : string) : HttpReply := reply status (error_json msg).

(** [LocalDB.Stats]; a disabled database has none. *)
Definition Stats (d : LocalDB.LocalDB blob) : value :=
  if negb (ldb_enabled d) then VNil
  else VMap {[ "snapshot_count" := VInt64 (Z.of_nat (length (ldb_snapshots d)));
               "unsynced_count" := VInt64 (Z.of_nat (length (filter is_unsynced (ldb_snapshots d)))) ]}.

Definition handleHealth (s : Server) (r : HttpRequest) : M relay HttpReply :=
  if negb (String.eqb (hr_Method r) "GET") then mret (writeError 405 "method not allowed")
  else
  state ← supervisor view sv_state;
  let label := match state with Some h => hi_Label (hs_Identity h) | None => "" end in
  stats ← match la_db s with Some db => observe (fun n => Stats (db n)) | None => mret VNil end;
  count ← supervisor view TargetCount;
  mret (reply 200 {[ "ok" := VBool true; "version" := VString HostVersion; "hybrid_mode" := VBool true;
                     "label" := VString label; "target_count" := VInt count; "db_stats" := stats ]}).

Definition target_entry (t : TargetProfile) : payload :=
  {[ "target_id" := VString (tp_TargetID t); "name" := VString (tp_Name t);
     "target_type" := VString (tp_TargetType t); "enabled" := VBool (tp_Enabled t);
     "status" := VString (TargetStatus_string (tp_Status t)); "endpoint" := VString (tp_Endpoint t) ]}.

Definition handleTargets (r : HttpRequest) : M relay HttpReply :=
  if negb (String.eqb (hr_Method r) "GET") then mret (writeError 405 "method not allowed")
  else
  state ← supervisor view sv_state;
  mret (reply 200 {[ "targets" := match state with
                                  | None => VList []
                                  | Some h => VMaps (map target_entry (hs_Targets h))
                                  end ]}).

(** The worker of the target, if any, adds its status. *)
Definition with_worker (targetID : string) (states : list WorkerState) (p : payload) : payload :=
  match List.find (fun ws => String.eqb (ws_TargetID ws) targetID) states with
  | None => p
  | Some ws =>
      let p := <["worker_status" := VString (WorkerStatus_string (ws_Status ws))]> p in
      if negb (String.eqb (ws_LastError ws) "") then <["worker_last_error" := VString (ws_LastError ws)]> p
      else p
  end.

Definition handleSnapshot (s : Server) (targetID : string) : M relay HttpReply :=
  match la_db s with
  | None => mret (writeError 503 "local DB not available")
  | Some db =>
      latest ← observe (fun n => LatestSnapshot open_blob targetID (db n));
      match latest with
      | Err _ => mret (writeError 500 "failed to read snapshot")
      | Ok None => mret (writeError 404 "no snapshot found for target")
      | Ok (Some (snapshot, collectedAt)) =>
          states ← supervisor view Status;
          mret (reply 200 (with_worker targetID states
            {[ "ok" := VBool true; "target_id" := VString targetID;
               "collected_at" := VString (stamp_text collectedAt); "snapshot" := VMap snapshot ]}))
      end
  end.

Definition handleTargetRoute (s : Server) (r : HttpRequest) : M relay HttpReply :=
  if negb (String.eqb (hr_Method r) "GET") then mret (writeError 405 "method not allowed")
  else match Split (TrimPrefix (hr_Path r) "/v1/targets/") "/"%char with
       | targetID :: action :: _ =>
           if String.eqb action "snapshot" then handleSnapshot s targetID
           else mret (writeError 404 ("unknown action: " +:+ action))
       | _ => mret (writeError 404 "not found")
       end.

Definition with_id (id : string) (cmd : RelayCommand) : RelayCommand :=
  Build_RelayCommand id (rc_Method cmd) (rc_Path cmd) (rc_Body cmd) (rc_Platform cmd) (rc_OperationID cmd)
    (rc_TargetProfileID cmd) (rc_SafetyLevel cmd).

Definition data_value (p : option payload) : value := match p with Some m => VMap m | None => VNil end.

Definition handleExecute (s : Server) (r : HttpRequest) : M relay HttpReply :=
  if negb (String.eqb (hr_Method r) "POST") then mret (writeError 405 "method not allowed")
  else match la_relayHandler s with
  | None => mret (writeError 503 "execution not available")
  | Some rh =>
      match decode_command (hr_Body r) with
      | None => mret (writeError 400 "invalid request body")
      | Some cmd =>
          cmd ← (if String.eqb (rc_ID cmd) "" then id ← observe generateID; mret (with_id id cmd) else mret cmd);
          if String.eqb (rc_Platform cmd) "" || String.eqb (rc_Method cmd) "" || String.eqb (rc_Path cmd) ""
             || String.eqb (rc_TargetProfileID cmd) "" then
            mret (writeError 400 "platform, method, path, and target_profile_id are required")
          else
          result ← executeCommand view network probe adapter_base marshal unmarshal valid_request text rh cmd;
          mret (reply 200 {[ "ok" := VBool (String.eqb (rr_ErrorMessage result) ""); "id" := VString (rr_ID result);
                             "response_status" := VInt (rr_ResponseStatus result);
                             "response_data" := data_value (rr_ResponseData result);
                             "error_message" := VString (rr_ErrorMessage result);
                             "duration_ms" := VInt64 (rr_DurationMs result) ]})
      end
  end.

(** ** Middleware and routes *)

Definition handler : Type := HttpRequest -> M relay HttpReply.

Definition authMiddleware (s : Server) (next : handler) : handler := fun r =>
  if negb (String.eqb (hr_Token r) (la_token s)) then mret (writeError 401 "invalid or missing X-Local-Token")
  else next r.

Definition ipAllowedMiddleware (s : Server) (next : handler) : handler := fun r =>
  match realIP r with
  | None => mret (writeError 403 "could not determine client IP")
  | Some ip => if existsb (fun net => NetContains net ip) (la_allowedNets s) then next r
               else mret (writeError 403 "client IP not in allowed range")
  end.

Definition preflightMiddleware (next : handler) : handler := fun r =>
  if String.eqb (hr_Method r) "OPTIONS" then mret {| rp_Status := 204; rp_CORS := true; rp_JSON := None |}
  else next r.

(** [http.ServeMux]: the path with a redirect to its clean form, or the handler
    of the longest matching pattern. *)
Definition cleanPath (p : string) : string :=
  let p := if IsAbs p then p else "/" +:+ p in
  let np := Clean p in
  if HasSuffix p "/" && negb (String.eqb np "/") then np +:+ "/" else np.
Definition from_mux (status : Z) : HttpReply := {| rp_Status := status; rp_CORS := false; rp_JSON := None |}.

Definition mux (s : Server) : handler := fun r =>
  let guarded h := preflightMiddleware (ipAllowedMiddleware s (authMiddleware s h)) r in
  let p := hr_Path r in
  if negb (String.eqb (hr_Method r) "CONNECT") && negb (String.eqb (cleanPath p) p) then mret (from_mux 301)
  else if String.eqb p "/v1/health" then preflightMiddleware (ipAllowedMiddleware s (handleHealth s)) r
  else if String.eqb p "/v1/targets" then guarded handleTargets
  else if HasPrefix p "/v1/targets/" then guarded (handleTargetRoute s)
  else if String.eqb p "/v1/execute" then guarded (handleExecute s)
  else mret (from_mux 404).
End Handlers.
