(* ===== verification/LocalAPIProps.v ===== *)
(** Properties of the local HTTP API: who may read data, who may run commands,
    and what they may do. *)
From S2P Require Import Prelude GoStrings GoPath GoTime Types Interfaces Policy Store LocalDB.
From S2P Require Import Supervisor DesiredState Relay RelayProps NetAddr LocalAPI.
From Stdlib Require Import Ascii.

Local Open Scope Z_scope.

(** ** Admission *)

(** The clients that an allowlist admits. *)
Definition listed (raw : string) (ip : IP) : Prop :=
  ip = IP4 2130706433 \/ ip = IP6 1
  \/ exists cidr net, cidr ∈ Split raw ","%char /\ ParseCIDR (TrimSpace cidr) = Some net
                      /\ NetContains net ip = true.

Lemma loopback_parsed :
  ParseCIDR "127.0.0.1/32" = Some loopback /\ ParseCIDR "::1/128" = Some loopback6.
Proof. by vm_compute. Qed.

Lemma loopback_only ip :
  NetContains loopback ip || NetContains loopback6 ip = true <-> ip = IP4 2130706433 \/ ip = IP6 1.
Proof.
  destruct ip as [n|n]; cbn [NetContains loopback loopback6 orb]; rewrite ?orb_false_r, full_width, Z.eqb_eq;
    (split; [intros ->; auto|intros [[=]|[=]]; done]).
Qed.

Lemma allowlist_spec raw ip :
  existsb (fun net => NetContains net ip) (parseAllowedCIDRs raw) = true <-> listed raw ip.
Proof.
  unfold parseAllowedCIDRs, listed. destruct (String.eqb_spec raw "") as [->|Hr].
  - cbn [existsb]. rewrite orb_false_r, loopback_only. split; [naive_solver|].
    intros [|[|(cidr & net & Hc & Hp & _)]]; [auto..|]. cbn in Hc. apply list_elem_of_singleton in Hc as ->. done.
  - rewrite existsb_app. cbn [existsb]. rewrite orb_false_r, orb_true_iff, loopback_only, existsb_exists.
    split.
    + intros [[|]|(net & Hin & Hn)]; [auto..|]. right. right. apply list_elem_of_In, list_elem_of_omap in Hin
        as (cidr & Hc & Hp). exists cidr, net. by destruct (String.eqb (TrimSpace cidr) "").
    + intros [|[|(cidr & net & Hc & Hp & Hn)]]; [auto..|]. right. exists net. split; [|done].
      apply list_elem_of_In, list_elem_of_omap. exists cidr. split; [done|].
      destruct (String.eqb_spec (TrimSpace cidr) "") as [E|]; [by rewrite E in Hp|done].
Qed.

(** ** Handlers *)

Section Api.
Context {Wk St : Type} `{!WorkerOps Wk, !StoreOps St}.
Context (view : nat -> Supervisor (Wk:=Wk) (St:=St)) (network : nat -> http_outcome)
        (probe : nat -> string -> result ProbeError ProbeOutcome) (adapter_base : nat -> string -> string)
        (marshal : payload -> option buf) (unmarshal : buf -> option (option payload))
        (valid_request : string -> string -> bool) (text : buf -> string).
Context {blob : Type} (open_blob : blob -> option payload) (stamp_text : stamp -> string).
Context (decode_command : buf -> option RelayCommand) (generateID : nat -> string) (HostVersion : string).
Context (s : LocalAPIServer (nat -> LocalDB.LocalDB blob)) (q : HttpRequest).

Abbreviation serve := (mux view network probe adapter_base marshal unmarshal valid_request text open_blob
  stamp_text decode_command generateID HostVersion s).
Abbreviation execute := (handleExecute view network probe adapter_base marshal unmarshal valid_request text
  decode_command generateID s).

Definition admitted : Prop :=
  exists ip, realIP q = Some ip /\ existsb (fun net => NetContains net ip) (la_allowedNets s) = true.

(** The command that a request asks for: complete, and decoded from its body up
    to an identifier made up for it. *)
Definition commands_from (rh : RelayHandler) (cmd : RelayCommand) : Prop :=
  la_relayHandler s = Some rh
  /\ (exists c, decode_command (hr_Body q) = Some c /\ (cmd = c \/ exists id, cmd = with_id id c))
  /\ rc_Platform cmd <> "" /\ rc_Method cmd <> "" /\ rc_Path cmd <> "" /\ rc_TargetProfileID cmd <> "".

(** What a reply that is not a success carries. *)
Definition discreet (r : HttpReply) : Prop :=
  rp_JSON r = None \/ exists msg, rp_JSON r = Some (error_json msg).

(** From [t0] on, [m] adds the events [evs], and they and the reply satisfy [Q]. *)
Definition serves (t0 : nat) (m : M relay HttpReply) (Q : HttpReply -> list relay_event -> Prop) : Prop :=
  forall st, (t0 <= rl_tick st)%nat ->
    exists evs, rl_events (exec m st) = rl_events st ++ evs /\ Q (fst (m st)) evs.

Lemma serves_ret t0 r (Q : HttpReply -> list relay_event -> Prop) : Q r [] -> serves t0 (mret r) Q.
Proof. intros H st _. exists []. by rewrite app_nil_r. Qed.

Lemma serves_observe {A} t0 (f : nat -> A) k (Q : HttpReply -> list relay_event -> Prop) :
  (forall a, serves t0 (k a) Q) -> serves t0 (observe f ≫= k) Q.
Proof. intros H st Hst. apply (H (f (rl_tick st)) (tick_relay st)). cbn. lia. Qed.

Lemma serves_weaken t0 m (Q Q' : HttpReply -> list relay_event -> Prop) :
  serves t0 m Q -> (forall r evs, Q r evs -> Q' r evs) -> serves t0 m Q'.
Proof. intros H HQ st Hst. destruct (H st Hst) as (evs & H1 & H2). eauto. Qed.

(** A handler that only reads. *)
Definition reads (r : HttpReply) (evs : list relay_event) : Prop := evs = [] /\ (rp_Status r <> 200 -> discreet r).

Lemma reads_error status msg : reads (writeError status msg) [].
Proof. split; [done|]. intros _. right. by exists msg. Qed.
Lemma reads_ok body : reads (reply 200 body) [].
Proof. by split. Qed.

Lemma health_reads t0 : serves t0 (handleHealth view HostVersion s q) reads.
Proof.
  unfold handleHealth. destruct (negb _); [apply serves_ret, reads_error|].
  apply serves_observe. intros state. destruct (la_db s) as [db|].
  - apply serves_observe. intros stats. apply serves_observe. intros c. apply serves_ret, reads_ok.
  - change (mret VNil ≫= ?k) with (k VNil). apply serves_observe. intros c. apply serves_ret, reads_ok.
Qed.

Lemma targets_reads t0 : serves t0 (handleTargets view q) reads.
Proof.
  unfold handleTargets. destruct (negb _); [apply serves_ret, reads_error|].
  apply serves_observe. intros state. apply serves_ret, reads_ok.
Qed.

Lemma route_reads t0 : serves t0 (handleTargetRoute view open_blob stamp_text s q) reads.
Proof.
  unfold handleTargetRoute. destruct (negb _); [apply serves_ret, reads_error|].
  destruct (Split _ _) as [|id [|action l]]; [apply serves_ret, reads_error..|].
  destruct (String.eqb _ _); [|apply serves_ret, reads_error].
  unfold handleSnapshot. destruct (la_db s) as [db|]; [|apply serves_ret, reads_error].
  apply serves_observe. intros [[[p at_]|]|e]; [|apply serves_ret, reads_error..].
  apply serves_observe. intros states. apply serves_ret, reads_ok.
Qed.

(** The command endpoint: effects of one command that the relay handler allows. *)
Definition executes (t0 : nat) (r : HttpReply) (evs : list relay_event) : Prop :=
  (rp_Status r <> 200 -> discreet r)
  /\ (evs = [] \/ hr_Method q = "POST" /\ exists rh cmd, commands_from rh cmd
        /\ Forall (allowed view adapter_base rh t0 True [cmd]) evs).

Lemma execute_executes t0 : serves t0 (execute q) (executes t0).
Proof.
  assert (Herr : forall status msg, executes t0 (writeError status msg) []).
  { split; [|by left]. intros _. right. by exists msg. }
  unfold handleExecute. destruct (String.eqb_spec (hr_Method q) "POST") as [Em|]; cbn [negb];
    [|by apply serves_ret].
  destruct (la_relayHandler s) as [rh|] eqn:Erh; [|by apply serves_ret].
  destruct (decode_command (hr_Body q)) as [c|] eqn:Ec; [|by apply serves_ret].
  assert (H : forall cmd, cmd = c \/ (exists id, cmd = with_id id c) ->
    serves t0 (if String.eqb (rc_Platform cmd) "" || String.eqb (rc_Method cmd) "" || String.eqb (rc_Path cmd) ""
        || String.eqb (rc_TargetProfileID cmd) ""
      then mret (writeError 400 "platform, method, path, and target_profile_id are required")
      else
        result ← executeCommand view network probe adapter_base marshal unmarshal valid_request text rh cmd;
        mret (reply 200 {[ "ok" := VBool (String.eqb (rr_ErrorMessage result) ""); "id" := VString (rr_ID result);
                           "response_status" := VInt (rr_ResponseStatus result);
                           "response_data" := data_value (rr_ResponseData result);
                           "error_message" := VString (rr_ErrorMessage result);
                           "duration_ms" := VInt64 (rr_DurationMs result) ]})) (executes t0)).
  { intros cmd Hcmd.
    destruct (String.eqb_spec (rc_Platform cmd) ""); [by apply serves_ret|].
    destruct (String.eqb_spec (rc_Method cmd) ""); [by apply serves_ret|].
    destruct (String.eqb_spec (rc_Path cmd) ""); [by apply serves_ret|].
    destruct (String.eqb_spec (rc_TargetProfileID cmd) ""); [by apply serves_ret|]. cbn [orb].
    intros st Hst. pose proof (executeCommand_safe view network probe adapter_base marshal unmarshal
      valid_request text rh t0 True [cmd] cmd (list_elem_of_here _ _) (or_intror I) st Hst) as (_ & evs & He & Hall).
    exists evs. rewrite exec_bind, fst_bind. split; [exact He|]. split; [done|]. right. split; [done|].
    exists rh, cmd. split; [|done]. split; [done|]. split; [by exists c|done]. }
  destruct (String.eqb (rc_ID c) "").
  - intros st Hst. exact (H (with_id (generateID (rl_tick st)) c) (or_intror (ex_intro _ _ eq_refl))
      (tick_relay st) (Nat.le_trans _ _ _ Hst (Nat.le_succ_diag_r _))).
  - change (mret c ≫= ?k) with (k c). apply H. by left.
Qed.

(** What a reply says about its request. *)
Definition access_ok (t0 : nat) (r : HttpReply) (evs : list relay_event) : Prop :=
  (rp_Status r <> 200 -> discreet r)
  /\ (rp_Status r = 200 -> admitted /\ (hr_Path q = "/v1/health" \/ hr_Token q = la_token s))
  /\ (evs = [] \/ hr_Path q = "/v1/execute" /\ hr_Method q = "POST" /\ admitted /\ hr_Token q = la_token s
        /\ exists rh cmd, commands_from rh cmd /\ Forall (allowed view adapter_base rh t0 True [cmd]) evs).

Lemma refused t0 r : rp_Status r <> 200 -> discreet r -> access_ok t0 r [].
Proof. intros H1 H2. split; [done|]. split; [done|]. by left. Qed.
Lemma refused_error t0 status msg : status <> 200 -> access_ok t0 (writeError status msg) [].
Proof. intros H. apply refused; [done|]. right. by exists msg. Qed.

Lemma admit_serves t0 next :
  (admitted -> serves t0 (next q) (access_ok t0)) ->
  serves t0 (preflightMiddleware (ipAllowedMiddleware s next) q) (access_ok t0).
Proof.
  intros H. unfold preflightMiddleware, ipAllowedMiddleware.
  destruct (String.eqb _ _); [apply serves_ret, refused; [done|by left]|].
  destruct (realIP q) as [ip|] eqn:Ei; [|by apply serves_ret, refused_error].
  destruct (existsb _ _) eqn:Ee; [apply H; by exists ip|by apply serves_ret, refused_error].
Qed.

Lemma guarded_serves t0 next :
  (admitted -> hr_Token q = la_token s -> serves t0 (next q) (access_ok t0)) ->
  serves t0 (preflightMiddleware (ipAllowedMiddleware s (authMiddleware s next)) q) (access_ok t0).
Proof.
  intros H. apply admit_serves. intros Ha. unfold authMiddleware.
  destruct (String.eqb_spec (hr_Token q) (la_token s)) as [E|]; cbn [negb]; [by apply H|by apply serves_ret, refused_error].
Qed.

Lemma mux_serves t0 : serves t0 (serve q) (access_ok t0).
Proof.
  unfold mux. destruct (_ && _); [apply serves_ret, refused; [done|by left]|].
  assert (Hread : forall m, serves t0 m reads -> admitted ->
    (hr_Path q = "/v1/health" \/ hr_Token q = la_token s) -> serves t0 m (access_ok t0)).
  { intros m Hm Ha Hp. apply (serves_weaken _ _ _ _ Hm). intros r evs [-> Hd].
    split; [done|]. split; [done|by left]. }
  destruct (String.eqb_spec (hr_Path q) "/v1/health") as [Ep|].
  { apply admit_serves. intros Ha. apply Hread; [apply health_reads|done|by left]. }
  destruct (String.eqb _ _); [apply guarded_serves; intros Ha Ht; apply Hread; [apply targets_reads|done|by right]|].
  destruct (HasPrefix _ _); [apply guarded_serves; intros Ha Ht; apply Hread; [apply route_reads|done|by right]|].
  destruct (String.eqb_spec (hr_Path q) "/v1/execute") as [Ep|]; [|apply serves_ret, refused; [done|by left]].
  apply guarded_serves. intros Ha Ht. apply (serves_weaken _ _ _ _ (execute_executes t0)).
  intros r evs [Hd He]. split; [done|]. split; [intros _; split; [done|by right]|].
  destruct He as [->|(Hm & rh & cmd & Hc & Hall)]; [by left|right]. eauto 10.
Qed.
End Api.

(** C10: access to the local API.  A request is answered with data only if it
    comes from the local host or from a listed network and, except for the
    health probe, carries the token; other replies carry no data.  Only a POST to
    the command endpoint by such a client has effects, and they are those of one
    complete command from its body which the relay handler allows - the same
    gates as for remote commands, but without the live-query switch. *)
Theorem api_access {Wk St : Type} `{!WorkerOps Wk, !StoreOps St}
    (view : nat -> Supervisor (Wk:=Wk) (St:=St)) network probe adapter_base marshal unmarshal valid_request text
    {blob : Type} (open_blob : blob -> option payload) stamp_text decode_command generateID HostVersion
    url_Port interfaces env_cidr env_url db token bind certDir relayHandler q st :
  let s := NewLocalAPIServer url_Port interfaces env_cidr env_url db token bind certDir relayHandler in
  let '(r, st') := mux view network probe adapter_base marshal unmarshal valid_request text open_blob
    stamp_text decode_command generateID HostVersion s q st in
  let client := exists ip, realIP q = Some ip /\ listed env_cidr ip in
  (rp_Status r = 200 -> client /\ (hr_Path q = "/v1/health" \/ hr_Token q = token))
  /\ (rp_Status r <> 200 -> rp_JSON r = None \/ exists msg, rp_JSON r = Some (error_json msg))
  /\ exists evs, rl_events st' = rl_events st ++ evs
     /\ (evs = [] \/ hr_Path q = "/v1/execute" /\ hr_Method q = "POST" /\ client /\ hr_Token q = token
           /\ exists rh cmd, commands_from decode_command s q rh cmd
                /\ Forall (allowed view adapter_base rh (rl_tick st) True [cmd]) evs).
Proof.
  intros s.
  destruct (mux_serves view network probe adapter_base marshal unmarshal valid_request text open_blob stamp_text
    decode_command generateID HostVersion s q (rl_tick st) st (le_n _)) as (evs & He & Hd & Hok & Hevs).
  revert He Hd Hok Hevs. unfold exec. destruct (mux _ _ _ _ _ _ _ _ _ _ _ _ _ s q st) as [r st'].
  cbn [fst snd]. intros He Hd Hok Hevs.
  assert (Ha : admitted s q -> exists ip, realIP q = Some ip /\ listed env_cidr ip).
  { intros (ip & H1 & H2). exists ip. split; [done|]. by apply allowlist_spec. }
  split; [intros H; destruct (Hok H); auto|]. split; [exact Hd|].
  exists evs. split; [done|]. destruct Hevs as [|(H1 & H2 & H3 & H4 & H5)]; [auto|]. right. auto 10.
Qed.

(** ** A damaged key *)

(** A key file that was only partly written makes the first start fall back to
    HTTP, but is taken for a good one at the next start. *)
Lemma partial_key_reused :
  let s := NewLocalAPIServer (Db:=unit) (fun _ => None) None "" "" None "t" "" "/c" None in
  let cert := ensureCert (key:=unit) (fun _ => Some tt) (fun _ _ _ _ => Some []) (fun _ => Some [])
    (fun t _ => buf_of t) s 0 in
  let f := Build_FS ∅ true (fun n => match n with 2%nat => IoPartial 3 | _ => IoOk end) (fun _ => []) O in
  fst (cert f) = Err "write key" /\ fst (cert (exec cert f)) = Ok tt.
Proof. by vm_compute. Qed.
