(* ===== verification/Backend.v ===== *)
(** The client of the control plane ([src/backend.go]): the base URL, the
    requests of every call with their headers, and what each call makes of the
    answer.  An HTTP client is a number, so that a replaced transport can be
    told from the previous one; [None] is a nil pointer, whose use panics. *)
From S2P Require Import Prelude GoStrings Types DesiredState Relay Updater AgentEvidence.

Local Open Scope Z_scope.

(** ** The base URL *)

Definition defaultBackendBase : string := "https://qugzesfapcdhiyrhegdx.supabase.co".
Definition decommissionedBackendHost : string := "yvtszwgcmgmqylmmybrh.supabase.co".
Definition defaultHeartbeatPath : string := "/functions/v1/connector-heartbeat".
Definition defaultEnrollPath : string := "/functions/v1/connector-enroll".
Definition defaultDesiredStatePath : string := "/functions/v1/connector-desired-state".
Definition defaultUpdateCheckPath : string := "/functions/v1/connector-update-check".
Definition defaultCheckCommandsPath : string := "/functions/v1/connector-check-commands".

Definition resolveBackendBase (envValue : string) : result string string :=
  let base := TrimSpace envValue in
  let base := if String.eqb base "" then defaultBackendBase else base in
  let base := TrimRight base "/" in
  if String.eqb base "" then
    Err "no backend URL configured: set BACKEND_URL to this FilterREX instance"
  else if Contains base decommissionedBackendHost then
    Err ("refusing to use decommissioned backend " +:+ Quote base +:+ "; set BACKEND_URL to the current instance")
  else Ok base.

(** ** Requests and errors *)

Record http_request : Type := {
  hq_method : string;
  hq_url : string;
  hq_headers : gmap string string;
  hq_body : option buf;
}.

(** [*AuthError], or an error of another type with its text. *)
Inductive backend_error : Type := AuthError (Msg : string) | BackendError (msg : string).

Definition connectivity_text (op msg : string) : string :=
  if Contains msg "no such host" || Contains msg "i/o timeout" || Contains msg "lookup" then
    op +:+ ": DNS resolution failed — verify the host's DNS configuration (nameservers in /etc/resolv.conf) and network connectivity: "
    +:+ msg
  else if Contains msg "connection refused" then
    op +:+ ": connection refused — backend may be unreachable from this network: " +:+ msg
  else op +:+ ": " +:+ msg.
Definition wrapConnectivityError (op msg : string) : backend_error :=
  BackendError (connectivity_text op msg).

Record BackendClient : Type := {
  bc_BaseURL : string;
  bc_client : option nat;
  (** The HTTP clients made so far, the steps taken, and the requests handed
      to an HTTP client with the answers they got. *)
  bc_made : nat;
  bc_tick : nat;
  bc_sent : list (http_request * http_answer);
}.

Definition NewBackendClient (baseURL : string) : BackendClient :=
  {| bc_BaseURL := if String.eqb baseURL "" then defaultBackendBase else baseURL;
     bc_client := Some 0%nat; bc_made := 1; bc_tick := 0; bc_sent := [] |}.

Section Calls.
Context {Cmd : Type}.
(** The network by step; [url.Parse] of the base URL and a path; JSON. *)
Context (network : nat -> http_answer) (url_parses : string -> bool).
Context (marshal_payload : payload -> result string buf) (marshal_ack : AckPayload -> result string buf).
Context (parseDesiredState : buf -> result string (DesiredStatePayload Cmd))
        (decode_manifest : buf -> result string SignedUpdateManifest)
        (decode_commands : buf -> result string (list Cmd)).
Context (HostVersion GOOS GOARCH : string).

(** [NewHTTPClient] stored in the client's field. *)
Definition fresh_client : M BackendClient unit := modify (fun b =>
  Build_BackendClient (bc_BaseURL b) (Some (bc_made b)) (S (bc_made b)) (bc_tick b) (bc_sent b)).

Definition ResetTransport : M BackendClient unit := fresh_client.

Definition NewRequest (method url : string) (headers : gmap string string) (body : option buf)
    : result string http_request :=
  if url_parses url then Ok (Build_http_request method url headers body) else Err "parse".

(** [c.Do(req)] with the client read before; a nil client panics. *)
Definition Do (req : http_request) : M BackendClient (option http_answer) := fun b =>
  match bc_client b with
  | None => (None, b)
  | Some _ =>
      let a := network (bc_tick b) in
      (Some a, Build_BackendClient (bc_BaseURL b) (bc_client b) (bc_made b) (S (bc_tick b))
                 (bc_sent b ++ [(req, a)]))
  end.

(** A call returns, or panics. *)
Abbreviation call A := (M BackendClient (option (result backend_error A))).
Definition fails {A} (msg : string) : call A := mret (Some (Err (BackendError msg))).

(** Handing over a request, with the error of [NewRequest] and of [Do]. *)
Definition exchange {A} (ctx : string) (req : result string http_request)
    (onError : string -> result backend_error A) (onAnswer : Z -> buf -> result backend_error A) : call A :=
  match req with
  | Err e => fails (ctx +:+ ": " +:+ e)
  | Ok r =>
      a ← Do r;
      mret match a with
           | None => None
           | Some (HttpError e) => Some (onError e)
           | Some (HttpStatus status body) => Some (onAnswer status body)
           end
  end.

Definition http_text (status : Z) (body : buf) : string := "HTTP " +:+ pretty status +:+ ": " +:+ text_of body.

Definition json_headers (token : string) : gmap string string :=
  {[ "Content-Type" := "application/json"; "X-Connector-Token" := token;
     "X-Agent-Version" := HostVersion ]}.
Definition get_headers (token : string) : gmap string string :=
  {[ "X-Connector-Token" := token; "X-Agent-Version" := HostVersion; "Accept" := "application/json" ]}.

(** *** Heartbeats and snapshots *)

Definition post_status (status : Z) (body : buf) : result backend_error unit :=
  if bool_decide (status ∈ [200; 201; 202]) then Ok tt
  else if status =? 401 then Err (AuthError "authentication failed — token may be invalid or revoked")
  else if status =? 403 then Err (AuthError "connector has been revoked by administrator")
  else Err (BackendError (http_text status body)).

Definition Post (token : string) (p : payload) : call unit :=
  base ← gets bc_BaseURL;
  match marshal_payload p with
  | Err e => fails ("marshal: " +:+ e)
  | Ok body =>
      match NewRequest "POST" (base +:+ defaultHeartbeatPath) (json_headers token) (Some body) with
      | Err e => fails ("request: " +:+ e)
      | Ok req =>
          c ← gets bc_client;
          when (bool_decide (c = None)) fresh_client ;;
          exchange "request" (Ok req) (fun e => Err (wrapConnectivityError "post" e)) post_status
      end
  end.

Definition probe_payload : payload :=
  {[ "type" := VString "probe"; "agentVersion" := VString HostVersion ]}.
Definition Probe (token : string) : call unit := Post token probe_payload.

(** *** Desired state *)

(** A header that is set when its value is not empty. *)
Definition set_nonempty (name value : string) (h : gmap string string) : gmap string string :=
  if String.eqb value "" then h else <[name := value]> h.

Definition desired_status (status : Z) (body : buf)
    : result backend_error (option (DesiredStatePayload Cmd)) :=
  if status =? 200 then
    match parseDesiredState body with Ok p => Ok (Some p) | Err e => Err (BackendError e) end
  else if status =? 204 then Ok None
  else if status =? 401 then Err (BackendError "authentication failed — token invalid or revoked")
  else if status =? 403 then Err (BackendError "host has been revoked")
  else if status =? 404 then Ok None
  else if status =? 429 then Err (BackendError "rate limited — will retry next cycle")
  else Err (BackendError (http_text status body)).

Definition FetchDesiredState (token capManifestJSON hostPublicKey : string)
    : call (option (DesiredStatePayload Cmd)) :=
  base ← gets bc_BaseURL;
  let headers := set_nonempty "X-Host-Public-Key" hostPublicKey
                   (set_nonempty "X-Host-Capabilities" capManifestJSON (get_headers token)) in
  exchange "create request" (NewRequest "GET" (base +:+ defaultDesiredStatePath) headers None)
    (fun e => Err (wrapConnectivityError "fetch desired state" e)) desired_status.

(** Every failure after the request was made is only logged. *)
Definition SendAcknowledgement (token : string) (ack : AckPayload) : call unit :=
  base ← gets bc_BaseURL;
  match marshal_ack ack with
  | Err e => fails ("marshal ack: " +:+ e)
  | Ok body =>
      exchange "create ack request"
        (NewRequest "POST" (base +:+ defaultDesiredStatePath) (json_headers token) (Some body))
        (fun _ => Ok tt) (fun _ _ => Ok tt)
  end.

(** *** Updates and relay commands *)

Definition manifest_status (status : Z) (body : buf)
    : result backend_error (option SignedUpdateManifest) :=
  if status =? 200 then
    match decode_manifest body with
    | Ok m => Ok (Some m)
    | Err e => Err (BackendError ("parse update manifest: " +:+ e))
    end
  else if status =? 204 then Ok None
  else if status =? 404 then Ok None
  else Err (BackendError ("update check " +:+ http_text status body)).

Definition FetchUpdateManifest (token : string) : call (option SignedUpdateManifest) :=
  base ← gets bc_BaseURL;
  let headers := <["X-Agent-Platform" := GOOS +:+ "/" +:+ GOARCH]> (get_headers token) in
  exchange "create update check request" (NewRequest "GET" (base +:+ defaultUpdateCheckPath) headers None)
    (fun e => Err (BackendError ("fetch update manifest: " +:+ e))) manifest_status.

Definition commands_status (status : Z) (body : buf) : result backend_error (list Cmd) :=
  if status =? 200 then
    match decode_commands body with
    | Ok cmds => Ok cmds
    | Err e => Err (BackendError ("parse check-commands response: " +:+ e))
    end
  else if status =? 204 then Ok []
  else if status =? 401 then Err (BackendError "check-commands: token invalid or revoked")
  else if status =? 404 then Ok []
  else Err (BackendError ("check-commands " +:+ http_text status body)).

Definition CheckCommands (token : string) : call (list Cmd) :=
  base ← gets bc_BaseURL;
  exchange "create check-commands request"
    (NewRequest "GET" (base +:+ defaultCheckCommandsPath) (get_headers token) None)
    (fun e => Err (wrapConnectivityError "check-commands" e)) commands_status.
End Calls.
