(* ===== verification/BackendProps.v ===== *)
(** Properties of the control-plane client. *)
From S2P Require Import Prelude GoStrings Types DesiredState Relay Updater AgentEvidence UploadSystem Backend.
From Stdlib Require Import Ascii.

Local Open Scope Z_scope.

(** ** Where a needle without a slash can be *)

Lemma HasPrefix_app_slash s t needle :
  ("/"%char ∈ bytes needle -> False) -> HasPrefix (s +:+ String "/" t) needle = true ->
  HasPrefix s needle = true.
Proof.
  revert s. induction needle as [|c needle IH]; intros s Hn; [by destruct s|].
  destruct s as [|d s]; simpl.
  - rewrite andb_true_iff. intros [Hc _]. exfalso. apply Hn. simpl.
    apply Ascii.eqb_eq in Hc as ->. apply list_elem_of_here.
  - rewrite !andb_true_iff. intros [Hd Hp]. split; [done|]. apply IH; [|done].
    intros Hin. apply Hn. simpl. by right.
Qed.

Lemma Contains_app_slash s t needle :
  ("/"%char ∈ bytes needle -> False) -> Contains s needle = false ->
  Contains (String "/" t) needle = false -> Contains (s +:+ String "/" t) needle = false.
Proof.
  intros Hn. induction s as [|c s IH]; intros Hs Ht; [done|].
  change (HasPrefix (String c s) needle || Contains s needle = false) in Hs.
  change (HasPrefix (String c s +:+ String "/" t) needle || Contains (s +:+ String "/" t) needle = false).
  apply orb_false_iff in Hs as [Hp Hs]. apply orb_false_iff. split; [|auto].
  destruct (HasPrefix (String c s +:+ String "/" t) needle) eqn:E; [|done].
  apply HasPrefix_app_slash in E; [congruence|done].
Qed.

(** ** Calls in sequence *)

Inductive backend_call : Type :=
| CallProbe (token : string)
| CallPost (token : string) (p : payload)
| CallFetchDesiredState (token capManifestJSON hostPublicKey : string)
| CallSendAcknowledgement (token : string) (a : AckPayload)
| CallFetchUpdateManifest (token : string)
| CallCheckCommands (token : string)
| CallResetTransport.

(** What a call may send: method, path and token. *)
Definition sends (c : backend_call) : option (string * string * string) :=
  match c with
  | CallProbe t | CallPost t _ => Some ("POST", defaultHeartbeatPath, t)
  | CallFetchDesiredState t _ _ => Some ("GET", defaultDesiredStatePath, t)
  | CallSendAcknowledgement t _ => Some ("POST", defaultDesiredStatePath, t)
  | CallFetchUpdateManifest t => Some ("GET", defaultUpdateCheckPath, t)
  | CallCheckCommands t => Some ("GET", defaultCheckCommandsPath, t)
  | CallResetTransport => None
  end.

(** The request of a call: to the base URL, with its token and no other
    content than the call's own. *)
Definition request_of (base : string) (c : backend_call) (sent : http_request * http_answer) : Prop :=
  exists method path token, sends c = Some (method, path, token)
    /\ hq_method (fst sent) = method /\ hq_url (fst sent) = base +:+ path
    /\ hq_headers (fst sent) !! "X-Connector-Token" = Some token.

Section Confined.
Context {Cmd : Type} (network : nat -> http_answer) (url_parses : string -> bool).
Context (marshal_payload : payload -> result string buf) (marshal_ack : AckPayload -> result string buf).
Context (parseDesiredState : buf -> result string (DesiredStatePayload Cmd))
        (decode_manifest : buf -> result string SignedUpdateManifest)
        (decode_commands : buf -> result string (list Cmd)).
Context (HostVersion GOOS GOARCH : string).

(** Whether the call returned, that is, did not panic. *)
Definition returned {A} (m : M BackendClient (option (result backend_error A))) : M BackendClient bool :=
  r ← m; mret (bool_decide (is_Some r)).

Definition run_call (c : backend_call) : M BackendClient bool :=
  match c with
  | CallProbe t => returned (Probe network url_parses marshal_payload HostVersion t)
  | CallPost t p => returned (Post network url_parses marshal_payload HostVersion t p)
  | CallFetchDesiredState t m k =>
      returned (FetchDesiredState network url_parses parseDesiredState HostVersion t m k)
  | CallSendAcknowledgement t a =>
      returned (SendAcknowledgement network url_parses marshal_ack HostVersion t a)
  | CallFetchUpdateManifest t =>
      returned (FetchUpdateManifest network url_parses decode_manifest HostVersion GOOS GOARCH t)
  | CallCheckCommands t => returned (CheckCommands network url_parses decode_commands HostVersion t)
  | CallResetTransport => ResetTransport ;; mret true
  end.

Fixpoint run_calls (cs : list backend_call) : M BackendClient bool :=
  match cs with
  | [] => mret true
  | c :: rest => ok ← run_call c; if (ok : bool) then run_calls rest else mret false
  end.

(** One call with a live HTTP client. *)
Definition one_request (base : string) (c : backend_call) (b : BackendClient) (r : bool * BackendClient) : Prop :=
  r.1 = true /\ bc_BaseURL (r.2) = bc_BaseURL b /\ is_Some (bc_client (r.2))
  /\ (bc_sent (r.2) = bc_sent b \/ exists x, bc_sent (r.2) = bc_sent b ++ [x] /\ request_of base c x).

Lemma exchange_one {A} c ctx req (onError : string -> result backend_error A) onAnswer b :
  is_Some (bc_client b) ->
  match req with Ok q => forall a, request_of (bc_BaseURL b) c (q, a) | Err _ => True end ->
  one_request (bc_BaseURL b) c b (returned (exchange network ctx req onError onAnswer) b).
Proof.
  intros [n Hn] Hreq. unfold one_request, returned, exchange, fails, Do, mbind, M_bind, mret, M_ret.
  destruct req as [q|e]; simpl; [rewrite Hn; simpl|by eauto 6].
  split_and!; [by destruct (network (bc_tick b))|done|by eexists|].
  right. eexists. split; [done|apply Hreq].
Qed.

(** The requests of the calls are made as [request_of] demands. *)
Lemma NewRequest_of c method url headers body base :
  (forall a, request_of base c (Build_http_request method url headers body, a)) ->
  match NewRequest url_parses method url headers body with
  | Ok q => forall a, request_of base c (q, a) | Err _ => True end.
Proof. intros H. unfold NewRequest. by destruct (url_parses url). Qed.

Lemma set_nonempty_other k v h :
  k <> "X-Connector-Token" -> set_nonempty k v h !! "X-Connector-Token" = h !! "X-Connector-Token".
Proof. intros Hk. unfold set_nonempty. destruct (String.eqb v ""); [done|]. by rewrite lookup_insert_ne. Qed.

Ltac request_facts :=
  intros; do 3 eexists; split; [reflexivity|]; split_and!; [reflexivity..|];
  unfold json_headers, get_headers; cbn [hq_headers fst]; rewrite ?set_nonempty_other by discriminate;
  rewrite ?lookup_insert_ne by discriminate; first [reflexivity|simplify_map_eq; reflexivity].

Lemma Post_one c t p b :
  sends c = Some ("POST", defaultHeartbeatPath, t) -> is_Some (bc_client b) ->
  one_request (bc_BaseURL b) c b (returned (Post network url_parses marshal_payload HostVersion t p) b).
Proof.
  intros Hc Hb. unfold Post, returned, mbind, M_bind, gets.
  destruct (marshal_payload p) as [body|e]; [|by repeat split; [|left]].
  unfold NewRequest. destruct (url_parses _); [|by repeat split; [|left]]. cbn [fst snd].
  rewrite bool_decide_eq_false_2; [|by intros E; rewrite E in Hb; destruct Hb]. cbn [when mret M_ret].
  pose proof (exchange_one c "request" (Ok (Build_http_request "POST" (bc_BaseURL b +:+ defaultHeartbeatPath)
    (json_headers HostVersion t) (Some body))) (fun e => Err (wrapConnectivityError "post" e)) post_status b Hb) as H.
  unfold returned, mbind, M_bind in H. apply H. intros a. exists "POST", defaultHeartbeatPath, t.
  split_and!; [done..|]. unfold json_headers. by simplify_map_eq.
Qed.

Lemma run_call_one c b :
  is_Some (bc_client b) -> one_request (bc_BaseURL b) c b (run_call c b).
Proof.
  intros Hb. destruct c; cbn [run_call].
  - by apply Post_one.
  - by apply Post_one.
  - apply exchange_one; [done|]. apply NewRequest_of. request_facts.
  - unfold SendAcknowledgement, mbind, M_bind, gets.
    destruct (marshal_ack a); [|by repeat split; [|left]].
    apply exchange_one; [done|]. apply NewRequest_of. request_facts.
  - apply exchange_one; [done|]. apply NewRequest_of. request_facts.
  - apply exchange_one; [done|]. apply NewRequest_of. request_facts.
  - split_and!; [done..|by eexists|by left].
Qed.

Lemma run_calls_confined cs b :
  is_Some (bc_client b) ->
  let r := run_calls cs b in
  r.1 = true
  /\ exists sub sent, bc_sent (r.2) = bc_sent b ++ sent /\ sub `sublist_of` cs
     /\ Forall2 (request_of (bc_BaseURL b)) sub sent.
Proof.
  revert b. induction cs as [|c cs IH]; intros b Hb; cbn [run_calls].
  - split; [done|]. exists [], []. by rewrite app_nil_r.
  - destruct (run_call_one c b Hb) as (H1 & H2 & H3 & H4). unfold mbind, M_bind.
    destruct (run_call c b) as [ok b1]. cbn [fst snd] in *. subst ok.
    destruct (IH b1 H3) as (Hok & sub & sent & Hs & Hsub & Hf). split; [exact Hok|].
    rewrite Hs. rewrite H2 in Hf. destruct H4 as [->|(x & -> & Hx)].
    + exists sub, sent. split_and!; [done|by apply sublist_cons|done].
    + exists (c :: sub), (x :: sent). rewrite <- app_assoc. split_and!; [done|by apply sublist_skip|].
      by constructor.
Qed.
End Confined.

Lemma sends_path c method path token :
  sends c = Some (method, path, token) ->
  exists t, path = String "/" t /\ Contains path decommissionedBackendHost = false.
Proof. destruct c; simpl; intros [= _ <- _]; eexists; by split. Qed.

(** A request to a base URL that passed [resolveBackendBase] does not go to the
    decommissioned host. *)
Lemma request_of_current base c x :
  Contains base decommissionedBackendHost = false -> request_of base c x ->
  Contains (hq_url (fst x)) decommissionedBackendHost = false.
Proof.
  intros Hb (method & path & token & Hs & _ & -> & _).
  destruct (sends_path _ _ _ _ Hs) as (t & -> & Hp). apply Contains_app_slash; [|done..].
  intros Hin. revert Hin. apply (bool_decide_eq_false_1 ("/"%char ∈ bytes decommissionedBackendHost)). vm_compute. reflexivity.
Qed.

Lemma resolveBackendBase_spec env base :
  resolveBackendBase env = Ok base -> base <> "" /\ Contains base decommissionedBackendHost = false.
Proof.
  unfold resolveBackendBase. destruct (String.eqb (TrimRight _ _) "") eqn:E1; [done|].
  destruct (Contains _ _) eqn:E2; [done|]. intros [= <-]. split; [|done]. by apply String.eqb_neq.
Qed.


(** ** What the upload workers see *)

(** The outcome of a delivery as [errors.As(err, &authErr)] sorts it. *)
Definition outcome_of (r : result backend_error unit) : post_outcome :=
  match r with Ok _ => PostOk | Err (AuthError _) => PostAuth | Err (BackendError _) => PostFail end.

(** An authentication error is exactly an answer 401 or 403 of a reachable
    backend. *)
Lemma post_outcome_spec status body :
  outcome_of (post_status status body)
  = if decide (status = 200 \/ status = 201 \/ status = 202) then PostOk
    else if decide (status = 401 \/ status = 403) then PostAuth else PostFail.
Proof.
  unfold post_status. repeat case_decide; repeat case_bool_decide; try done;
    destruct (Z.eqb_spec status 401), (Z.eqb_spec status 403); simpl; try done; try lia; set_solver by lia.
Qed.

(** An acknowledgement that reached an HTTP client counts as delivered,
    whatever the answer. *)
Lemma acknowledgement_always_delivered network url_parses marshal_ack HostVersion token a body b :
  marshal_ack a = Ok body -> url_parses (bc_BaseURL b +:+ defaultDesiredStatePath) = true ->
  is_Some (bc_client b) ->
  fst (SendAcknowledgement network url_parses marshal_ack HostVersion token a b) = Some (Ok tt).
Proof.
  intros Hm Hu [n Hn]. unfold SendAcknowledgement, mbind, M_bind, gets. rewrite Hm.
  unfold exchange, NewRequest. rewrite Hu. unfold Do, mbind, M_bind. rewrite Hn. simpl.
  by destruct (network (bc_tick b)).
Qed.

(** The check of the decommissioned host distinguishes letter case, which host
    names do not. *)
Lemma decommissioned_upper_case :
  resolveBackendBase "https://YVTSZWGCMGMQYLMMYBRH.supabase.co/" = Ok "https://YVTSZWGCMGMQYLMMYBRH.supabase.co"
  /\ is_ok (resolveBackendBase "https://yvtszwgcmgmqylmmybrh.supabase.co/") = false
  /\ is_ok (resolveBackendBase " / ") = false.
Proof. vm_compute. auto. Qed.
