(* ===== verification/Enrollment.v ===== *)
(** Host enrollment ([src/enrollment.go]): the exchange of a bootstrap token
    for a host identity, over the encrypted store.  [None] is a panic: the
    source takes the first twelve bytes of the host id without looking at its
    length. *)
From S2P Require Import Prelude GoStrings Types Interfaces Store AgentEvidence Backend.

Local Open Scope Z_scope.

Record EnrollmentRequest : Type := {
  eq_BootstrapToken : string;
  eq_Label : string;
  eq_AgentVersion : string;
  eq_OS : string;
  eq_Arch : string;
  eq_Capabilities : list string;
  eq_HostPublicKey : string;
}.

Record EnrollmentResponse : Type := {
  ep_HostID : string;
  ep_ConnectorToken : string;
  ep_Label : string;
  ep_BackendURL : string;
  ep_SyncIntervalS : Z;
}.

(** [s[:n]], which panics on a shorter string. *)
Definition slice_to (n : nat) (s : string) : option string :=
  if (n <=? String.length s)%nat then Some (String.substring 0 n s) else None.

Definition registeredAdapterTypes : list string := SupportedTargetTypes.

Section Enroll.
Context (gcm_seal : buf -> buf -> buf -> buf) (gcm_open : buf -> buf -> buf -> option buf).
Context (marshal_state : HostState -> buf) (unmarshal_state : buf -> option HostState).
Context (b64_encode : buf -> string).
(** The key generator, [url.Parse], the answer of the backend and its decoding,
    the clock, the environment and the host name. *)
Context (GenerateHostKeyPair : result string HostKeyPair) (url_parses : string -> bool).
Context (answer : string -> EnrollmentRequest -> http_answer)
        (decode_response : buf -> result string EnrollmentResponse).
Context (now : GoTime) (HostVersion GOOS GOARCH : string).
Context (Getenv : string -> string) (Hostname : string).

(** The store, and the enrollment requests made. *)
Record Env : Type := {
  en_store : Store;
  en_sent : list (string * EnrollmentRequest);
}.

(** A call returns a value or an error, or panics. *)
Abbreviation enroll A := (M Env (option (result string A))).
Definition refused {A} (msg : string) : enroll A := mret (Some (Err msg)).
Definition on_store {A} (m : M Store A) : M Env A := fun e =>
  let '(a, s) := m (en_store e) in (a, Build_Env s (en_sent e)).
Definition request (url : string) (r : EnrollmentRequest) : M Env http_answer := fun e =>
  (answer url r, Build_Env (en_store e) (en_sent e ++ [(url, r)])).

Definition enroll_status (status : Z) (body : buf) : result string EnrollmentResponse :=
  if bool_decide (status ∈ [200; 201]) then
    match decode_response body with
    | Err e => Err ("parse enrollment response: " +:+ e)
    | Ok r => if String.eqb (ep_ConnectorToken r) "" then Err "enrollment response missing connector_token"
              else Ok r
    end
  else if status =? 401 then Err "enrollment failed: invalid or expired bootstrap token"
  else if status =? 409 then Err "enrollment failed: bootstrap token already used"
  else if status =? 429 then Err "enrollment failed: rate limited, try again later"
  else Err ("enrollment failed (HTTP " +:+ pretty status +:+ "): " +:+ text_of body).

Definition PublicKeyBase64 (kp : HostKeyPair) : string := b64_encode (kp_PublicKey kp).

Definition initial_config (r : EnrollmentResponse) : HostConfig :=
  let c := DefaultHostConfig in
  Build_HostConfig (hc_LogLevel c) (hc_MaxConcurrentWorkers c) (hc_WatchdogTimeoutSecs c)
    (hc_AutoUpdatePolicy c) (hc_PinnedPublicKey c) (hc_InsecureSkipVerify c)
    (if 0 <? ep_SyncIntervalS r then ep_SyncIntervalS r else hc_SyncIntervalSecs c)
    (hc_LocalRetentionDays c) (hc_LanOnly c) (hc_RemoteLiveQueryEnabled c) (hc_RemoteRestartEnabled c).

Definition initial_state (r : EnrollmentResponse) (kp : HostKeyPair) : HostState :=
  {| hs_Identity := {| hi_HostID := ep_HostID r; hi_Label := ep_Label r; hi_EnrolledAt := now;
                       hi_ConnectorToken := ep_ConnectorToken r; hi_BackendURL := ep_BackendURL r;
                       hi_PublicKey := PublicKeyBase64 kp |};
     hs_Config := initial_config r; hs_Targets := []; hs_Update := zeroUpdate; hs_Version := 1;
     hs_LastSyncRevision := 0; hs_LastSyncAt := 0; hs_LastAckStatus := "" |}.

(** What [EnrollHost] does with the response: key pair first, then the state. *)
Definition persist_enrollment (kp : HostKeyPair) (r : EnrollmentResponse) : enroll HostState :=
  saved ← on_store (SaveKeyPair gcm_seal kp);
  match saved with
  | Err e => refused ("persist host keypair: " +:+ e)
  | Ok _ =>
      let state := initial_state r kp in
      stored ← on_store (store_SaveState gcm_seal marshal_state state);
      match stored with
      | Err e => refused ("persist enrollment state: " +:+ e)
      | Ok _ => mret match slice_to 12 (ep_HostID r) with Some _ => Some (Ok state) | None => None end
      end
  end.

Definition enrollment_request (kp : HostKeyPair) (bootstrapToken label : string) : EnrollmentRequest :=
  {| eq_BootstrapToken := bootstrapToken; eq_Label := label; eq_AgentVersion := HostVersion;
     eq_OS := GOOS; eq_Arch := GOARCH; eq_Capabilities := registeredAdapterTypes;
     eq_HostPublicKey := PublicKeyBase64 kp |}.

(** A stored state that counts as an enrollment. *)
Definition enrolled_state (s : Store) : option HostState :=
  match store_LoadState gcm_open unmarshal_state s with
  | Ok (Some h) => if String.eqb (hi_ConnectorToken (hs_Identity h)) "" then None else Some h
  | _ => None
  end.

Definition EnrollHost (backendURL bootstrapToken label : string) : enroll HostState :=
  s ← gets en_store;
  match enrolled_state s with
  | Some h =>
      mret match slice_to 12 (hi_HostID (hs_Identity h)) with
           | Some id => Some (Err ("host already enrolled as " +:+ hi_Label (hs_Identity h) +:+ " (ID: " +:+ id
                                   +:+ "). Use --force-enroll to re-enroll"))
           | None => None
           end
  | None =>
      if String.eqb bootstrapToken "" then refused "bootstrap token is required for enrollment"
      else
        let base := if String.eqb backendURL "" then defaultBackendBase else backendURL in
        match GenerateHostKeyPair with
        | Err e => refused ("generate host keypair: " +:+ e)
        | Ok kp =>
            let enrollURL := base +:+ defaultEnrollPath in
            if negb (url_parses enrollURL) then refused "create request"
            else
              a ← request enrollURL (enrollment_request kp bootstrapToken label);
              match a with
              | HttpError e => refused ("enrollment request failed: " +:+ e)
              | HttpStatus status body =>
                  match enroll_status status body with
                  | Err e => refused e
                  | Ok r => persist_enrollment kp r
                  end
              end
        end
  end.

Definition IsEnrolled (s : Store) : bool :=
  match store_LoadState gcm_open unmarshal_state s with
  | Ok (Some h) => negb (String.eqb (hi_ConnectorToken (hs_Identity h)) "")
                   && negb (String.eqb (hi_HostID (hs_Identity h)) "")
  | _ => false
  end.

Definition host_label : string :=
  let label := Getenv "HOST_LABEL" in
  if negb (String.eqb label "") then label
  else if negb (String.eqb Hostname "") then "filterrex-connector-" +:+ Hostname
  else "filterrex-connector".

Definition MustEnroll (backendURL : string) : enroll HostState :=
  s ← gets en_store;
  match enrolled_state s with
  | Some h => mret match slice_to 12 (hi_HostID (hs_Identity h)) with
                   | Some _ => Some (Ok h)
                   | None => None
                   end
  | None =>
      let first := Getenv "FILTERREX_ENROLLMENT_TOKEN" in
      let bootstrapToken := if String.eqb first "" then Getenv "CONNECTOR_TOKEN" else first in
      if String.eqb bootstrapToken "" then 
        refused "host not enrolled and no enrollment token provided. Set FILTERREX_ENROLLMENT_TOKEN or run with --enroll-token"
      else EnrollHost backendURL bootstrapToken host_label
  end.
End Enroll.
