(* ===== verification/EnrollmentProps.v ===== *)
(** Properties of host enrollment. *)
From S2P Require Import Prelude GoStrings Types Interfaces Store AgentEvidence Backend Enrollment.
From Stdlib Require Import Strings.Byte.

Local Open Scope Z_scope.

(** Host key pairs of the size of the NaCl box. *)
Definition key_sized (kp : HostKeyPair) : Prop :=
  length (kp_PublicKey kp) = naclKeySize /\ length (kp_PrivateKey kp) = naclKeySize.

Section Facts.
Context (gcm_seal : buf -> buf -> buf -> buf) (gcm_open : buf -> buf -> buf -> option buf).
Context (marshal_state : HostState -> buf) (unmarshal_state : buf -> option HostState).
Context (b64_encode : buf -> string).
Hypothesis Hgcm : forall k n p, gcm_open k n (gcm_seal k n p) = Some p.
(** A fresh enrollment has no targets. *)
Hypothesis Hcodec : forall h, hs_Targets h = [] -> unmarshal_state (marshal_state h) = Some h.
Context (now : GoTime).

Abbreviation load_state := (store_LoadState gcm_open unmarshal_state).
Abbreviation load_keys := (LoadKeyPair gcm_open).

(** Saving one of the two files leaves the other as it was. *)
Lemma SaveKeyPair_spec kp s :
  fs_ok s -> key_sized kp ->
  let '(r, s') := SaveKeyPair gcm_seal kp s in
  fs_ok s' /\ load_state s' = load_state s
  /\ load_keys s' = (if is_ok r then Ok (Some kp) else load_keys s).
Proof.
  intros Hok [H1 H2]. pose proof (keypair_roundtrip gcm_seal gcm_open Hgcm s kp Hok H1 H2) as Hk.
  pose proof (save_file_ok gcm_seal hostKeyPairFile (kp_PublicKey kp ++ kp_PrivateKey kp) s Hok keyPair_final) as Hs.
  pose proof (save_other gcm_seal gcm_open unmarshal_state hostKeyPairFile (kp_PublicKey kp ++ kp_PrivateKey kp)
    stateFileName s Hok keyPair_final stateFile_final ltac:(discriminate)) as Ho.
  unfold SaveKeyPair in *. destruct (save_file _ _ _ _) as [r s']. by split_and!.
Qed.

Lemma SaveState_spec h s :
  fs_ok s -> hs_Targets h = [] ->
  let '(r, s') := store_SaveState gcm_seal marshal_state h s in
  fs_ok s' /\ load_keys s' = load_keys s
  /\ load_state s' = (if is_ok r then Ok (Some h) else load_state s).
Proof.
  intros Hok Hh. pose proof (save_load gcm_seal gcm_open Hgcm unmarshal_state stateFileName (marshal_state h) h s
    Hok stateFile_final (Hcodec h Hh)) as Hl.
  pose proof (save_file_spec gcm_seal stateFileName (marshal_state h) s Hok stateFile_final) as Hs.
  unfold store_SaveState, store_LoadState in *. destruct (save_file _ _ _ _) as [r s'].
  destruct Hs as (Hok' & Hk & _ & Ho). split_and!; [done| |by destruct r].
  unfold LoadKeyPair, ReadFile. rewrite (Ho hostKeyPairFile keyPair_final ltac:(discriminate)).
  rewrite (proj1 Hok), (proj1 Hok'). destruct (fs_files _ !! _); [|done]. simpl.
  by rewrite (decrypt_ext gcm_open _ _ _ Hk).
Qed.

(** A host whose identity, key pair and state are on disk. *)
Definition enrolled_with (kp : HostKeyPair) (h : HostState) (s : Store) : Prop :=
  load_state s = Ok (Some h) /\ load_keys s = Ok (Some kp)
  /\ hi_ConnectorToken (hs_Identity h) <> "" /\ hi_PublicKey (hs_Identity h) = b64_encode (kp_PublicKey kp).

Lemma enrolled_with_state kp h s :
  enrolled_with kp h s -> enrolled_state gcm_open unmarshal_state s = Some h.
Proof.
  intros (Hl & _ & Ht & _). unfold enrolled_state. rewrite Hl. apply String.eqb_neq in Ht. by rewrite Ht.
Qed.

Lemma persist_enrollment_spec kp r e :
  fs_ok (en_store e) -> key_sized kp -> ep_ConnectorToken r <> "" ->
  let '(out, e') := persist_enrollment gcm_seal marshal_state b64_encode now kp r e in
  fs_ok (en_store e') /\ en_sent e' = en_sent e
  /\ match out with
     | Some (Ok h) => h = initial_state b64_encode now r kp /\ enrolled_with kp h (en_store e')
                      /\ (12 <= String.length (hi_HostID (hs_Identity h)))%nat
     | Some (Err _) => load_state (en_store e') = load_state (en_store e)
     | None => enrolled_with kp (initial_state b64_encode now r kp) (en_store e')
               /\ (String.length (ep_HostID r) < 12)%nat
     end.
Proof.
  intros Hok Hkp Htok. unfold persist_enrollment, on_store, refused, mbind, M_bind, mret, M_ret.
  pose proof (SaveKeyPair_spec kp (en_store e) Hok Hkp) as H1.
  destruct (SaveKeyPair _ _ _) as [[[]|m] s1]; destruct H1 as (H1 & H2 & H3); simpl; [|by split_and!].
  pose proof (SaveState_spec (initial_state b64_encode now r kp) s1 H1 eq_refl) as H4.
  destruct (store_SaveState _ _ _ _) as [[[]|m] s2]; destruct H4 as (H4 & H5 & H6); simpl in *.
  - split_and!; [done..|]. assert (enrolled_with kp (initial_state b64_encode now r kp) s2) as He.
    { split_and!; [done|by rewrite H5|done|done]. }
    unfold slice_to. destruct (Nat.leb_spec 12 (String.length (ep_HostID r))); [by split_and!|done].
  - split_and!; [done..|]. by rewrite H6.
Qed.

Section Runs.
Context (Generate : result string HostKeyPair) (url_parses : string -> bool)
        (answer : string -> EnrollmentRequest -> http_answer)
        (decode_response : buf -> result string EnrollmentResponse) (HostVersion GOOS GOARCH : string)
        (Getenv : string -> string) (Hostname : string).

(** The start of an enrolled host. *)
Lemma MustEnroll_enrolled url e h :
  enrolled_state gcm_open unmarshal_state (en_store e) = Some h ->
  MustEnroll gcm_seal gcm_open marshal_state unmarshal_state b64_encode Generate url_parses answer
    decode_response now HostVersion GOOS GOARCH Getenv Hostname url e
  = (if (12 <=? String.length (hi_HostID (hs_Identity h)))%nat then Some (Ok h) else None, e).
Proof.
  intros He. unfold MustEnroll, gets, mbind, M_bind. rewrite He. unfold slice_to.
  by destruct (12 <=? _)%nat.
Qed.

Lemma enroll_status_token status body r :
  enroll_status decode_response status body = Ok r -> ep_ConnectorToken r <> "".
Proof.
  unfold enroll_status. repeat case_match; intros [=]; subst. by apply String.eqb_neq.
Qed.

(** A run that is not enrolled: what the outcomes say. *)
Definition enroll_outcome (url : string) (e : Env) (r : option (result string HostState) * Env) : Prop :=
  fs_ok (en_store r.2)
  /\ match r.1 with
     | Some (Ok h) =>
         (12 <= String.length (hi_HostID (hs_Identity h)))%nat
         /\ exists kp q, Generate = Ok kp
            /\ en_sent r.2 = en_sent e ++ [((if String.eqb url "" then defaultBackendBase else url)
                                             +:+ defaultEnrollPath, q)]
            /\ eq_BootstrapToken q <> "" /\ eq_HostPublicKey q = hi_PublicKey (hs_Identity h)
            /\ enrolled_with kp h (en_store r.2)
     | Some (Err _) => load_state (en_store r.2) = load_state (en_store e)
                       /\ (length (en_sent r.2) <= S (length (en_sent e)))%nat
     | None => exists kp h, enrolled_with kp h (en_store r.2)
                 /\ (String.length (hi_HostID (hs_Identity h)) < 12)%nat
     end.

Lemma refused_outcome url e sent msg :
  fs_ok (en_store e) -> (length sent <= 1)%nat ->
  enroll_outcome url e (Some (Err msg), Build_Env (en_store e) (en_sent e ++ sent)).
Proof. intros Hok Hs. split; [done|]. simpl. rewrite length_app. split; [done|lia]. Qed.
Lemma refused_silent url e msg : fs_ok (en_store e) -> enroll_outcome url e (Some (Err msg), e).
Proof. intros Hok. split; [done|]. simpl. split; [done|lia]. Qed.

Lemma EnrollHost_fresh url tok label e :
  (forall kp, Generate = Ok kp -> key_sized kp) -> fs_ok (en_store e) ->
  enrolled_state gcm_open unmarshal_state (en_store e) = None ->
  enroll_outcome url e (EnrollHost gcm_seal gcm_open marshal_state unmarshal_state b64_encode Generate url_parses
    answer decode_response now HostVersion GOOS GOARCH url tok label e).
Proof.
  intros Hkey Hok He. unfold EnrollHost, gets, mbind, M_bind. rewrite He.
  destruct (String.eqb_spec tok ""); [by apply refused_silent|].
  destruct Generate as [kp|] eqn:Hg; [|by apply refused_silent].
  destruct (url_parses _); simpl; [|by apply refused_silent].
  destruct (answer _ _) as [m|status body]; [by apply refused_outcome|].
  destruct (enroll_status decode_response status body) as [r|m] eqn:Hr;
    [|by apply refused_outcome].
  match goal with |- enroll_outcome _ _ (persist_enrollment _ _ _ _ _ _ ?e1) => set (e1' := e1) end.
  pose proof (persist_enrollment_spec kp r e1' Hok (Hkey kp eq_refl) (enroll_status_token _ _ _ Hr)) as H.
  destruct (persist_enrollment _ _ _ _ _ _ _) as [out e']. destruct H as (H1 & H2 & H3).
  split; [done|]. cbn [fst snd]. rewrite H2. destruct out as [[h|m]|].
  - destruct H3 as (-> & H3 & H4). split; [done|]. do 2 eexists. by split_and!.
  - split; [done|]. simpl. rewrite length_app. simpl. lia.
  - destruct H3 as [H3 H4]. eauto.
Qed.

Lemma MustEnroll_fresh url e :
  (forall kp, Generate = Ok kp -> key_sized kp) -> fs_ok (en_store e) ->
  enrolled_state gcm_open unmarshal_state (en_store e) = None ->
  enroll_outcome url e (MustEnroll gcm_seal gcm_open marshal_state unmarshal_state b64_encode Generate url_parses
    answer decode_response now HostVersion GOOS GOARCH Getenv Hostname url e).
Proof.
  intros Hkey Hok He. unfold MustEnroll. unfold mbind at 1, M_bind at 1, gets at 1. rewrite He.
  destruct (String.eqb (if _ : bool then _ else _) ""); [by apply refused_silent|]. by apply EnrollHost_fresh.
Qed.
End Runs.
End Facts.

(** C15: enrollment happens once and is complete.  An enrolled host sends
    nothing and keeps its store: it gets its stored state back, or panics if
    its host id is shorter than twelve bytes.  Otherwise, if enrollment
    succeeds, one request was made, with the public key of the stored key pair
    and to the given backend; state and key pair read back from disk, the
    connector token is not empty, and every later start returns the same state
    without a request.  If it fails, the stored state is as before.  If it
    panics, the state is nevertheless on disk and every later start panics. *)
Theorem enrollment_once gcm_seal gcm_open marshal_state unmarshal_state b64_encode
    (Hgcm : forall k n p, gcm_open k n (gcm_seal k n p) = Some p)
    (Hcodec : forall h, hs_Targets h = [] -> unmarshal_state (marshal_state h) = Some h)
    Generate url_parses answer decode_response now HostVersion GOOS GOARCH Getenv Hostname
    (backendURL : string) (e : Env)
    (Hkey : forall kp, Generate = Ok kp -> key_sized kp) (Hok : fs_ok (en_store e)) :
  let start Generate url_parses answer decode_response now Getenv Hostname :=
    MustEnroll gcm_seal gcm_open marshal_state unmarshal_state b64_encode Generate url_parses answer
      decode_response now HostVersion GOOS GOARCH Getenv Hostname backendURL in
  let load := store_LoadState gcm_open unmarshal_state in
  let '(out, e') := start Generate url_parses answer decode_response now Getenv Hostname e in
  match enrolled_state gcm_open unmarshal_state (en_store e) with
  | Some h => e' = e /\ out = (if (12 <=? String.length (hi_HostID (hs_Identity h)))%nat
                               then Some (Ok h) else None)
  | None =>
      fs_ok (en_store e')
      /\ match out with
         | Some (Ok h) =>
             (exists kp q, Generate = Ok kp
                /\ en_sent e' = en_sent e
                     ++ [((if String.eqb backendURL "" then defaultBackendBase else backendURL)
                          +:+ defaultEnrollPath, q)]
                /\ eq_BootstrapToken q <> "" /\ eq_HostPublicKey q = hi_PublicKey (hs_Identity h)
                /\ enrolled_with gcm_open unmarshal_state b64_encode kp h (en_store e'))
             /\ forall Generate' url' answer' decode' now' Getenv' Hostname',
                  start Generate' url' answer' decode' now' Getenv' Hostname' e' = (Some (Ok h), e')
         | Some (Err _) => load (en_store e') = load (en_store e)
                           /\ (length (en_sent e') <= S (length (en_sent e)))%nat
         | None =>
             (exists h, load (en_store e') = Ok (Some h)
                /\ (String.length (hi_HostID (hs_Identity h)) < 12)%nat)
             /\ forall Generate' url' answer' decode' now' Getenv' Hostname',
                  start Generate' url' answer' decode' now' Getenv' Hostname' e' = (None, e')
         end
  end.
Proof.
  intros start load. destruct (enrolled_state _ _ (en_store e)) as [h|] eqn:He.
  - unfold start. by rewrite (MustEnroll_enrolled _ _ _ _ _ _ _ _ _ _ _ _ _ _ _ _ _ h He).
  - pose proof (MustEnroll_fresh gcm_seal gcm_open marshal_state unmarshal_state b64_encode Hgcm Hcodec now
      Generate url_parses answer decode_response HostVersion GOOS GOARCH Getenv Hostname backendURL e Hkey Hok He) as H.
    fold (start Generate url_parses answer decode_response now Getenv Hostname) in H.
    destruct (start Generate url_parses answer decode_response now Getenv Hostname e) as [out e'].
    destruct H as (H1 & H2). split; [done|]. cbn [fst snd] in H2. destruct out as [[h|m]|].
    + destruct H2 as (Hlen & kp & q & H2). split; [by exists kp, q|]. intros. unfold start.
      rewrite (MustEnroll_enrolled _ _ _ _ _ _ _ _ _ _ _ _ _ _ _ _ _ h); [|by eapply enrolled_with_state, H2].
      by destruct (Nat.leb_spec 12 (String.length (hi_HostID (hs_Identity h)))); [|lia].
    + done.
    + destruct H2 as (kp & h & H2 & Hlen). split; [exists h; by destruct H2|]. intros. unfold start.
      rewrite (MustEnroll_enrolled _ _ _ _ _ _ _ _ _ _ _ _ _ _ _ _ _ h); [|by eapply enrolled_with_state].
      by destruct (Nat.leb_spec 12 (String.length (hi_HostID (hs_Identity h)))); [lia|].
Qed.

(** ** A concrete enrollment *)

Definition state_fields (h : HostState) :=
  (hi_HostID (hs_Identity h), hi_Label (hs_Identity h), hi_EnrolledAt (hs_Identity h),
   hi_ConnectorToken (hs_Identity h), hi_BackendURL (hs_Identity h), hi_PublicKey (hs_Identity h),
   (hc_LogLevel (hs_Config h), hc_MaxConcurrentWorkers (hs_Config h), hc_WatchdogTimeoutSecs (hs_Config h),
    hc_AutoUpdatePolicy (hs_Config h), hc_PinnedPublicKey (hs_Config h), hc_InsecureSkipVerify (hs_Config h),
    hc_SyncIntervalSecs (hs_Config h), hc_LocalRetentionDays (hs_Config h), hc_LanOnly (hs_Config h),
    hc_RemoteLiveQueryEnabled (hs_Config h), hc_RemoteRestartEnabled (hs_Config h)),
   (us_CurrentVersion (hs_Update h), us_AvailableVersion (hs_Update h), us_LastCheckedAt (hs_Update h),
    us_LastUpdateAt (hs_Update h), us_RollbackVersion (hs_Update h), us_UpdatePolicy (hs_Update h)),
   hs_Version h, hs_LastSyncRevision h, hs_LastSyncAt h, hs_LastAckStatus h).

Definition of_fields (f : string * string * Z * string * string * string
    * (string * Z * Z * string * string * bool * Z * Z * bool * bool * bool)
    * (string * string * string * string * string * string) * Z * Z * Z * string) : HostState :=
  let '(a, b, c, d, e, g, (h, i, j, k, l, m, n, o, p, q, r), (s, t, u, v, w, x), y, z, z1, z2) := f in
  Build_HostState (Build_HostIdentity a b c d e g) (Build_HostConfig h i j k l m n o p q r) []
    (Build_UpdateState s t u v w x) y z z1 z2.

Definition toy_marshal_state (h : HostState) : buf := bits (encode (state_fields h)).
Definition toy_unmarshal_state (b : buf) : option HostState := of_fields <$> decode (unbits b).
Lemma toy_state_codec h : hs_Targets h = [] -> toy_unmarshal_state (toy_marshal_state h) = Some h.
Proof.
  intros Hh. unfold toy_unmarshal_state, toy_marshal_state. rewrite unbits_bits, decode_encode.
  by destruct h as [[] [] ts []]; simpl in *; subst.
Qed.

(** An empty directory without faults. *)
Definition blank_store : Store := Build_Store [] (Build_FS ∅ true (fun _ => IoOk) (fun _ => replicate materialSize x00) 0).

Definition toy_enroll (id : string) : Env -> option (result string HostState) * Env :=
  MustEnroll toy_seal toy_open toy_marshal_state toy_unmarshal_state (fun _ => "key")
    (Ok (Build_HostKeyPair (replicate 32 x01) (replicate 32 x02))) (fun _ => true)
    (fun _ _ => HttpStatus 201 []) (fun _ => Ok (Build_EnrollmentResponse id "frc_1" "lab" "" 30))
    7 "1.0.0" "linux" "amd64" (fun k => if String.eqb k "FILTERREX_ENROLLMENT_TOKEN" then "boot" else "") "h"
    "https://b".

(** The host id that the control plane sends decides whether the host can ever
    start again. *)
Lemma enrollment_once_witness :
  (exists h e', toy_enroll "0123456789abcdef" (Build_Env blank_store []) = (Some (Ok h), e')
     /\ toy_enroll "0123456789abcdef" e' = (Some (Ok h), e') /\ length (en_sent e') = 1%nat)
  /\ exists e', toy_enroll "short" (Build_Env blank_store []) = (None, e') /\ toy_enroll "short" e' = (None, e').
Proof.
  assert (Hkey : forall kp, Ok (E:=string) (Build_HostKeyPair (replicate 32 x01) (replicate 32 x02)) = Ok kp -> key_sized kp).
  { intros kp [= <-]. split; reflexivity. }
  assert (Hok : fs_ok (en_store (Build_Env blank_store []))) by (split; reflexivity).
  pose proof (fun decode => enrollment_once toy_seal toy_open toy_marshal_state toy_unmarshal_state (fun _ => "key")
    ltac:(reflexivity) toy_state_codec (Ok (Build_HostKeyPair (replicate 32 x01) (replicate 32 x02)))
    (fun _ => true) (fun _ _ => HttpStatus 201 []) decode
    7 "1.0.0" "linux" "amd64" (fun k => if String.eqb k "FILTERREX_ENROLLMENT_TOKEN" then "boot" else "") "h"
    "https://b" (Build_Env blank_store []) Hkey Hok) as H. cbv zeta beta in H. split.
  - specialize (H (fun _ => Ok (Build_EnrollmentResponse "0123456789abcdef" "frc_1" "lab" "" 30))).
    change (MustEnroll _ _ _ _ _ _ _ _ _ _ _ _ _ _ _ _ (Build_Env _ _)) with
      (toy_enroll "0123456789abcdef" (Build_Env blank_store [])) in H.
    assert (Hout : exists h, fst (toy_enroll "0123456789abcdef" (Build_Env blank_store [])) = Some (Ok h))
      by (eexists; vm_compute; reflexivity).
    destruct (toy_enroll "0123456789abcdef" (Build_Env blank_store [])) as [out e'] eqn:E.
    destruct Hout as [h Hh]. cbn [fst] in Hh. rewrite Hh in H |- *.
    destruct H as [_ [(kp & q & _ & Hs & _) H]]. exists h, e'. split; [reflexivity|]. split; [apply H|].
    rewrite Hs. reflexivity.
  - specialize (H (fun _ => Ok (Build_EnrollmentResponse "short" "frc_1" "lab" "" 30))).
    change (MustEnroll _ _ _ _ _ _ _ _ _ _ _ _ _ _ _ _ (Build_Env _ _)) with
      (toy_enroll "short" (Build_Env blank_store [])) in H.
    assert (Hout : fst (toy_enroll "short" (Build_Env blank_store [])) = None) by (vm_compute; reflexivity).
    destruct (toy_enroll "short" (Build_Env blank_store [])) as [out e'] eqn:E.
    cbn [fst] in Hout. rewrite Hout in H |- *. destruct H as [_ [_ H]]. exists e'. split; [reflexivity|apply H].
Defined.
