(* ===== verification/Bootstrap.v ===== *)
(** Process start ([src/main.go]): local subcommands, flags from the
    environment, the token of the local API, the state reset, the legacy
    configuration, and the way to an initialised supervisor.  The configuration
    directory is the file system of [Store]. *)
From S2P Require Import Prelude GoStrings GoPath Types Interfaces Policy Store Supervisor.
From S2P Require Import AgentEvidence Backend Enrollment.

From Stdlib Require Import QArith.

Local Open Scope Z_scope.

(** The process ends, panics, or goes on with a value. *)
Inductive outcome (A : Type) : Type := Exits (code : Z) | Panics | Continues (a : A).
Arguments Exits {A}. Arguments Panics {A}. Arguments Continues {A}.
#[global] Instance outcome_bind : MBind outcome := fun A B f o =>
  match o with Exits c => Exits c | Panics => Panics | Continues a => f a end.
#[global] Instance outcome_ret : MRet outcome := fun A a => Continues a.

(** ** Subcommands *)

Definition displayVersion (HostVersion : string) : string :=
  let v := TrimSpace HostVersion in
  if String.eqb v "" then "unknown" else if HasPrefix v "v" then v else "v" +:+ v.

Definition is_version_flag (arg : string) : bool := String.eqb arg "--version" || String.eqb arg "-v".

(** The exit code of a subcommand that was handled. *)
Definition dispatch (runTargetConfigure RunProbe RunDoctor : list string -> Z) (args : list string)
    : option Z :=
  if existsb is_version_flag args then Some 0
  else match args with
  | cmd :: rest =>
      if String.eqb cmd "target" then
        match rest with
        | sub :: args' =>
            if String.eqb sub "configure" then Some (runTargetConfigure args')
            else if String.eqb sub "probe" then Some (RunProbe args')
            else if String.eqb sub "doctor" then Some (RunDoctor args')
            else Some 2
        | [] => Some 2
        end
      else None
  | [] => None
  end.

(** ** Settings from the environment *)

Definition envTrue (v : string) : bool := String.eqb v "true" || String.eqb v "1".

Definition targetConfigVisibilityHint (directoryPresent targetsPresent : bool) : string :=
  if directoryPresent && negb targetsPresent then "targets_directory_empty_or_bind_mount_missing" else "".

Section Start.
Context (Getenv : string -> string).

Definition envBool (name : string) : bool := envTrue (Getenv name).

(** [remoteLiveQuery] and [remoteRestart]. *)
Definition remote_flags : bool * bool :=
  let both := envBool "FILTERREX_REMOTE_ACTIONS" in
  (envBool "FILTERREX_REMOTE_LIVE_QUERY" || both, envBool "FILTERREX_REMOTE_RESTART" || both).

Definition brocadeRuntimeStateDir (configDir : string) : string :=
  let dir := TrimSpace (Getenv "FILTERREX_BROCADE_RUNTIME_STATE_DIR") in
  if String.eqb dir "" then JoinPath [configDir; "state"] else dir.

(** *** The token of the local API *)

Definition tokenFile : string := "local_api_token".

(** [localAPIToken[:8]] is logged on both paths. *)
Definition logged_token (token : string) (f : FS) : outcome (string * FS) :=
  match slice_to 8 token with Some _ => Continues (token, f) | None => Panics end.

Definition local_api_token (generateID : string) (hybridMode : bool) (f : FS) : outcome (string * FS) :=
  let token := Getenv "FILTERREX_LOCAL_API_TOKEN" in
  if negb (String.eqb token "") || negb hybridMode then Continues (token, f)
  else match ReadFile tokenFile f with
       | ReadOk (b :: stored) => logged_token (TrimSpace (text_of (b :: stored))) (tick f)
       | _ => logged_token generateID (snd (WriteFile tokenFile (buf_of generateID) (tick f)))
       end.

(** *** The reset of the state *)

(** [os.ReadDir] of the secrets directory, as paths. *)
Definition secret_files (f : FS) : list string :=
  sort_Strings (filter (fun p => HasPrefix p "secrets/" = true) (map fst (map_to_list (fs_files f)))).

Fixpoint remove_all (paths : list string) (f : FS) : FS :=
  match paths with
  | [] => f
  | p :: rest => remove_all rest (snd (Remove p f))
  end.

Definition force_reset (f : FS) : FS :=
  let f1 := remove_all [stateFileName; keyFileName] f in
  remove_all (secret_files f1) f1.

(** *** The legacy configuration *)

Definition poll_interval (v : string) : Z :=
  match Atoi v with
  | Some n => if negb (String.eqb v "") && (10 <=? n) then n else 30
  | None => 30
  end.

Definition legacy_config (token targetType backend : string) : LegacyConfig :=
  {| lc_ConnectorToken := token; lc_BackendURL := backend; lc_TargetType := targetType;
     lc_ProxmoxBaseURL := TrimRight (Getenv "PROXMOX_BASE_URL") "/";
     lc_ProxmoxUsername := Getenv "PROXMOX_USERNAME"; lc_ProxmoxPassword := Getenv "PROXMOX_PASSWORD";
     lc_ProxmoxTokenID := Getenv "PROXMOX_TOKEN_ID"; lc_ProxmoxTokenSecret := Getenv "PROXMOX_TOKEN_SECRET";
     lc_ProxmoxNode := Getenv "PROXMOX_NODE"; lc_TrueNASURL := TrimRight (Getenv "TRUENAS_URL") "/";
     lc_TrueNASAPIKey := Getenv "TRUENAS_API_KEY";
     lc_PollIntervalSecs := poll_interval (Getenv "POLL_INTERVAL_SECONDS");
     lc_InsecureSkipVerify := envTrue (Getenv "INSECURE_SKIP_VERIFY") |}.

Definition detectLegacyEnvConfig : outcome (option LegacyConfig) :=
  let token := Getenv "CONNECTOR_TOKEN" in
  let targetType := ToLower (Getenv "TARGET_TYPE") in
  if String.eqb token "" then Continues None
  else if negb (String.eqb (Getenv "FILTERREX_ENROLLMENT_TOKEN") "") then Continues None
  else if String.eqb targetType "" then Continues None
  else match resolveBackendBase (Getenv "BACKEND_URL") with
  | Err _ => Exits 1
  | Ok base =>
      let url := Getenv "BACKEND_URL" in
      let c := legacy_config token targetType
                 (if String.eqb url "" then base +:+ defaultHeartbeatPath else url) in
      if String.eqb targetType "proxmox" then
        Continues (if String.eqb (lc_ProxmoxBaseURL c) "" then None else Some c)
      else if String.eqb targetType "truenas" then
        Continues (if String.eqb (lc_TrueNASURL c) "" || String.eqb (lc_TrueNASAPIKey c) "" then None
                   else Some c)
      else Continues (if IsValidTargetType targetType then Some c else None)
  end.

(** ** The supervisor *)

Context {Wk : Type} `{!WorkerOps Wk}.
Context (gcm_seal : buf -> buf -> buf -> buf) (gcm_open : buf -> buf -> buf -> option buf).
Context (sha256 : buf -> buf).
Context (marshal_state : HostState -> buf) (unmarshal_state : buf -> option HostState).
Context (marshal_creds : Creds -> buf) (unmarshal_creds : buf -> option Creds).
Context (b64_encode : buf -> string).
Context (GenerateHostKeyPair : result string HostKeyPair) (url_parses : string -> bool).
Context (answer : string -> EnrollmentRequest -> http_answer)
        (decode_response : buf -> result string EnrollmentResponse).
Context (now : GoTime) (HostVersion GOOS GOARCH Hostname : string).
(** Fresh ids: for the local API, a new host, and the legacy import. *)
Context (tokenID hostID : string) (legacyIDs : string * string).
(** Whether the directories can be created ([NewStore]). *)
Context (dirs_ok : bool) (adapters : gmap string (TargetProfile -> bool)).
Context (clock : nat -> GoTime) (rnd : nat -> Q).
(** The subcommands, by their exit codes. *)
Context (runTargetConfigure RunProbe RunDoctor runExportBrocadeBundleCLI : list string -> Z).

#[local] Instance hostStore : StoreOps Store :=
  fileStoreOps gcm_seal gcm_open marshal_state unmarshal_state marshal_creds unmarshal_creds.

Definition NewStore (f : FS) : result string Store :=
  if negb dirs_ok then Err "create dir"
  else match checkWritable f with
       | (Err e, _) => Err ("config dir not writable: " +:+ e)
       | (Ok _, f1) => wrap_err (fun e => "key init: " +:+ e) (loadOrCreateKey sha256 f1)
       end.

Definition NewSupervisor (st : Store) : Supervisor (Wk:=Wk) (St:=Store) :=
  {| sv_store := st; sv_state := None; sv_workers := ∅; sv_adapters := adapters; sv_failedRetryAt := ∅;
     sv_failedRetries := ∅; sv_rest := ∅; sv_pending := []; sv_clock := clock; sv_rand := rnd; sv_tick := 0 |}.

(** [InitializeWithState]. *)
Definition InitializeWithState (h : HostState) (s : Supervisor (Wk:=Wk) (St:=Store)) : Supervisor :=
  set_sv_state (Some h) s.

(** The two ways to a host state. *)
Definition load_host (backendURL : string) (legacy : option LegacyConfig) (s : Supervisor (Wk:=Wk) (St:=Store))
    : outcome (Supervisor (Wk:=Wk) (St:=Store)) :=
  if negb (String.eqb (Getenv "FILTERREX_ENROLLMENT_TOKEN") "") then
    let '(r, e) := MustEnroll gcm_seal gcm_open marshal_state unmarshal_state b64_encode GenerateHostKeyPair
                     url_parses answer decode_response now HostVersion GOOS GOARCH Getenv Hostname backendURL
                     (Build_Env (sv_store s) []) in
    match r with
    | None => Panics
    | Some (Err _) => Exits 1
    | Some (Ok h) =>
        match slice_to 12 (hi_HostID (hs_Identity h)) with
        | None => Panics
        | Some _ => Continues (InitializeWithState h (set_sv_store (en_store e) s))
        end
    end
  else
    match Initialize legacy hostID legacyIDs s with
    | (Err _, _) => Exits 1
    | (Ok _, s') => Continues s'
    end.

(** The remote action flags, set in the host configuration. *)
Definition with_remote (flags : bool * bool) (h : HostState) : HostState :=
  let c := hs_Config h in
  let c' := Build_HostConfig (hc_LogLevel c) (hc_MaxConcurrentWorkers c) (hc_WatchdogTimeoutSecs c)
    (hc_AutoUpdatePolicy c) (hc_PinnedPublicKey c) (hc_InsecureSkipVerify c) (hc_SyncIntervalSecs c)
    (hc_LocalRetentionDays c) (hc_LanOnly c)
    (if fst flags then true else hc_RemoteLiveQueryEnabled c)
    (if snd flags then true else hc_RemoteRestartEnabled c) in
  Build_HostState (hs_Identity h) c' (hs_Targets h) (hs_Update h) (hs_Version h) (hs_LastSyncRevision h)
    (hs_LastSyncAt h) (hs_LastAckStatus h).

Definition apply_remote (flags : bool * bool) (s : Supervisor (Wk:=Wk) (St:=Store)) : Supervisor :=
  match sv_state s with Some h => set_sv_state (Some (with_remote flags h)) s | None => s end.

(** Everything until the workers are started: the backend URL, the token of
    the local API and the supervisor. *)
Definition run_daemon (args : list string) (f : FS)
    : outcome (string * string * Supervisor (Wk:=Wk) (St:=Store)) :=
  '(token, f1) ← local_api_token tokenID (envBool "FILTERREX_HYBRID_MODE") f;
  let f2 := if bool_decide ("--force-reset-state" ∈ args) then force_reset f1 else f1 in
  match NewStore f2 with
  | Err _ => Exits 1
  | Ok st =>
      match resolveBackendBase (Getenv "BACKEND_URL") with
      | Err _ => Exits 1
      | Ok backendURL =>
          legacy ← detectLegacyEnvConfig;
          s ← load_host backendURL legacy (NewSupervisor st);
          mret (backendURL, token, apply_remote remote_flags s)
      end
  end.

Definition startup (args : list string) (f : FS)
    : outcome (string * string * Supervisor (Wk:=Wk) (St:=Store)) :=
  match dispatch runTargetConfigure RunProbe RunDoctor args with
  | Some code => Exits code
  | None =>
      match args with
      | cmd :: rest =>
          if String.eqb cmd "export-brocade-bundle" then Exits (runExportBrocadeBundleCLI rest)
          else run_daemon args f
      | [] => run_daemon args f
      end
  end.

(** The start of the workers. *)
Definition start_workers (s : Supervisor (Wk:=Wk) (St:=Store)) : option (outcome (Supervisor (Wk:=Wk) (St:=Store))) :=
  match Reconcile s with
  | None => None
  | Some (Err _, _) => Some (Exits 1)
  | Some (Ok _, s') => Some (Continues s')
  end.

(** Days that the retention goroutine keeps, and the interval of the
    synchronisation. *)
Definition retention_days (st : option HostState) : Z :=
  match st with
  | Some h => if 0 <? hc_LocalRetentionDays (hs_Config h) then hc_LocalRetentionDays (hs_Config h) else 7
  | None => 7
  end.
Definition sync_interval (st : option HostState) : Duration :=
  match st with
  | Some h => if 0 <? hc_SyncIntervalSecs (hs_Config h)
              then wrap64 (hc_SyncIntervalSecs (hs_Config h) * Second) else 60 * Second
  | None => 60 * Second
  end.
End Start.
