(* ===== verification/BootstrapProps.v ===== *)
(** Properties of the process start. *)
From S2P Require Import Prelude GoStrings GoPath Types Interfaces Policy Store Supervisor.
From S2P Require Import AgentEvidence Backend BackendProps Enrollment EnrollmentProps Bootstrap.
From Stdlib Require Import QArith Strings.Byte.

Local Open Scope Z_scope.

(** ** The file system during the start *)

(** Same readability, faults and random source. *)
Definition same_host (f g : FS) : Prop :=
  fs_readable g = fs_readable f /\ fs_io g = fs_io f /\ fs_rand g = fs_rand f.
#[local] Instance same_host_preorder : PreOrder same_host.
Proof. unfold same_host. split; [done|]. intros f g h (A & B & C) (D & E & F). by rewrite D, E, F. Qed.

Lemma WriteFile_host p d f : same_host f (snd (WriteFile p d f)).
Proof. unfold WriteFile. by destruct (next_io f). Qed.
Lemma Remove_host p f : same_host f (snd (Remove p f)).
Proof. unfold Remove. destruct (next_io f); [destruct (_ !! _)|..]; done. Qed.
Lemma checkWritable_host f : same_host f (snd (checkWritable f)).
Proof.
  unfold checkWritable. pose proof (WriteFile_host writeProbe [] f) as H.
  destruct (WriteFile _ _ f) as [[] f1]; [|exact H]. etransitivity; [exact H|apply Remove_host].
Qed.
(** The probe leaves every other file as it is. *)
Lemma checkWritable_files f p : p <> writeProbe -> fs_files (snd (checkWritable f)) !! p = fs_files f !! p.
Proof.
  intros Hp. unfold checkWritable, WriteFile, Remove, next_io.
  repeat (case_match; simplify_eq/=); by rewrite ?lookup_delete_ne, ?lookup_insert_ne.
Qed.
Lemma remove_all_host ps f : same_host f (remove_all ps f).
Proof.
  revert f. induction ps as [|p ps IH]; intros f; simpl; [done|].
  etransitivity; [apply (Remove_host p)|apply IH].
Qed.
Lemma force_reset_host f : same_host f (force_reset f).
Proof. unfold force_reset. etransitivity; apply remove_all_host. Qed.

Lemma logged_token_spec t f token f' :
  logged_token t f = Continues (token, f') -> token <> "" /\ f' = f.
Proof.
  unfold logged_token, slice_to. destruct (Nat.leb_spec 8 (String.length t)); [|done].
  intros [= <- <-]. split; [|done]. intros ->. simpl in *. lia.
Qed.

Lemma local_api_token_spec Getenv generateID hybrid f token f' :
  local_api_token Getenv generateID hybrid f = Continues (token, f') ->
  same_host f f' /\ (hybrid = true -> token <> "").
Proof.
  unfold local_api_token.
  destruct (String.eqb_spec (Getenv "FILTERREX_LOCAL_API_TOKEN") "") as [E|E].
  - destruct hybrid; simpl; [|by intros [= <- <-]].
    assert (same_host f (snd (WriteFile tokenFile (buf_of generateID) (tick f)))) as Hw
      by (etransitivity; [|apply WriteFile_host]; done).
    destruct (ReadFile tokenFile f) as [[|b l]| |]; intros [H ->]%logged_token_spec; done.
  - simpl. by intros [= <- <-].
Qed.

Lemma NewStore_ok sha256 dirs f st :
  NewStore sha256 dirs f = Ok st -> fs_readable f = true ->
  (forall n, (materialSize <= length (fs_rand f n))%nat) -> fs_ok st.
Proof.
  unfold NewStore. destruct dirs; [|done]. cbn [negb]. intros H Hr0 Hn0.
  pose proof (checkWritable_host f) as (Hr & _ & Hn). destruct (checkWritable f) as [[[]|e] f1]; [|done].
  cbn [snd] in Hr, Hn. rewrite Hr0 in Hr. rewrite <- Hn in Hn0. clear Hn Hr0. rename Hn0 into Hn. clear f. rename f1 into f.
  destruct (loadOrCreateKey sha256 f) as [st'|e] eqn:E; [|done]. injection H as <-. revert E.
  unfold loadOrCreateKey, ReadFile. intros H. rewrite Hr in H.
  assert (forall d f', WriteFile keyFileName d (tick f) = (true, f') -> fs_ok (Build_Store (sha256 d) f')) as Hw.
  { intros d f' E. pose proof (WriteFile_host keyFileName d (tick f)) as Hh. rewrite E in Hh.
    destruct Hh as (H1 & _ & H3). cbn [snd] in H1, H3. split; simpl; [by rewrite H1|by rewrite H3]. }
  destruct (fs_files f !! keyFileName) as [d|]; [destruct (keySize <=? length d)%nat|].
  - injection H as <-. by split.
  - destruct (WriteFile _ _ _) as [[] f'] eqn:E in H; [|done]. injection H as <-. by apply Hw.
  - destruct (WriteFile _ _ _) as [[] f'] eqn:E in H; [|done]. injection H as <-. by apply Hw.
Qed.

(** ** The reset *)

Lemma remove_all_spec ps f :
  (forall n, fs_io f n = IoOk) ->
  forall p, fs_files (remove_all ps f) !! p = if decide (p ∈ ps) then None else fs_files f !! p.
Proof.
  revert f. induction ps as [|q ps IH]; intros f Hio p; cbn [remove_all].
  - by destruct (decide (p ∈ [])) as [?%elem_of_nil|].
  - destruct (Remove_host q f) as (_ & Hi & _).
    rewrite IH by (intros n; rewrite Hi; apply Hio).
    assert (Hq : fs_files (snd (Remove q f)) !! p = if decide (p = q) then None else fs_files f !! p).
    { unfold Remove, next_io. rewrite Hio. destruct (fs_files f !! q) eqn:E; simpl; case_decide; subst;
        rewrite ?lookup_delete_eq, ?lookup_delete_ne by done; done. }
    rewrite Hq. repeat case_decide; set_solver.
Qed.

(** With a working disk, a reset leaves no stored state, no key and no secret,
    and keeps every other file. *)
Lemma force_reset_forgets f :
  (forall n, fs_io f n = IoOk) ->
  forall p, fs_files (force_reset f) !! p
    = if decide (p = stateFileName \/ p = keyFileName \/ HasPrefix p "secrets/" = true) then None
      else fs_files f !! p.
Proof.
  intros Hio p. unfold force_reset. destruct (remove_all_host [stateFileName; keyFileName] f) as (_ & Hi & _).
  rewrite (remove_all_spec (secret_files _)) by (intros n; rewrite Hi; apply Hio).
  pose proof (remove_all_spec [stateFileName; keyFileName] f Hio) as Hf.
  set (f1 := remove_all [stateFileName; keyFileName] f) in *.
  assert (Hin : p ∈ secret_files f1 <-> HasPrefix p "secrets/" = true /\ is_Some (fs_files f1 !! p)).
  { unfold secret_files. rewrite (sort_Strings_perm _), list_elem_of_filter, list_elem_of_fmap. split.
    - intros (Hp & [q b] & -> & Hq%elem_of_map_to_list). split; [done|by eexists].
    - intros [Hp [b Hb]]. split; [done|]. exists (p, b). split; [done|by apply elem_of_map_to_list]. }
  rewrite Hf in *. destruct (decide (p ∈ secret_files f1)) as [Hs|Hs].
  - rewrite decide_True; [done|]. naive_solver.
  - rewrite Hin in Hs. destruct (decide (p ∈ [stateFileName; keyFileName])) as [Hp|Hp].
    + rewrite decide_True; [done|]. set_solver.
    + destruct (decide (_ \/ _)) as [Hd|]; [|done]. destruct (fs_files f !! p) eqn:E; [|done].
      destruct Hd as [->|[->|Hd]]; [set_solver..|]. exfalso. apply Hs. by split; [|eexists].
Qed.

(** ** The start *)

Section Start.
Context (Getenv : string -> string) {Wk : Type}.
Context (gcm_seal : buf -> buf -> buf -> buf) (gcm_open : buf -> buf -> buf -> option buf).
Context (marshal_state : HostState -> buf) (unmarshal_state : buf -> option HostState).
Context (marshal_creds : Creds -> buf) (unmarshal_creds : buf -> option Creds) (b64_encode : buf -> string).
Context (Generate : result string HostKeyPair) (url_parses : string -> bool).
Context (answer : string -> EnrollmentRequest -> http_answer)
        (decode_response : buf -> result string EnrollmentResponse).
Context (now : GoTime) (HostVersion GOOS GOARCH Hostname hostID : string) (legacyIDs : string * string).
Hypothesis Hgcm : forall k n p, gcm_open k n (gcm_seal k n p) = Some p.
Hypothesis Hcodec : forall h, hs_Targets h = [] -> unmarshal_state (marshal_state h) = Some h.
Hypothesis Hkey : forall kp, Generate = Ok kp -> key_sized kp.

(** The stored file decodes to a state, or is the encryption of its JSON. *)
Definition on_disk (h : HostState) (s : Store) : Prop :=
  store_LoadState gcm_open unmarshal_state s = Ok (Some h)
  \/ load_file gcm_open Some stateFileName s = Ok (Some (marshal_state h)).

Abbreviation store_ops :=
  (fileStoreOps gcm_seal gcm_open marshal_state unmarshal_state marshal_creds unmarshal_creds).

Lemma persist_on_disk h (s s' : Supervisor (Wk:=Wk) (St:=Store)) :
  fs_ok (sv_store s) -> sv_state s = Some h -> persist (StoreOps0:=store_ops) h s = (Ok tt, s') ->
  sv_state s' = Some h /\ on_disk h (sv_store s') /\ sv_workers s' = sv_workers s.
Proof.
  intros Hok Hs. unfold persist. simpl.
  pose proof (save_load gcm_seal gcm_open Hgcm Some stateFileName (marshal_state h) (marshal_state h)
    (sv_store s) Hok stateFile_final eq_refl) as Hl.
  unfold store_SaveState. destruct (save_file _ _ _ _) as [[[]|m] st]; intros [= <-].
  split_and!; [done|by right|done].
Qed.

Lemma Initialize_on_disk legacy (s s' : Supervisor (Wk:=Wk) (St:=Store)) :
  fs_ok (sv_store s) -> Initialize (StoreOps0:=store_ops) legacy hostID legacyIDs s = (Ok tt, s') ->
  sv_workers s' = sv_workers s /\ exists h, sv_state s' = Some h /\ on_disk h (sv_store s').
Proof.
  intros Hok. unfold Initialize. cbn [LoadState fileStoreOps].
  assert (Hp : forall h s0 s', fs_ok (sv_store s0) -> sv_workers s0 = sv_workers s -> sv_state s0 = Some h ->
    persist (StoreOps0:=store_ops) h s0 = (Ok tt, s') ->
    sv_workers s' = sv_workers s /\ exists h, sv_state s' = Some h /\ on_disk h (sv_store s')).
  { intros h s0 s1 H1 H2 H3 H4. destruct (persist_on_disk h s0 s1 H1 H3 H4) as (A & B & C).
    split; [congruence|eauto]. }
  destruct (store_LoadState _ _ _) as [[h|]|m] eqn:E;
    [intros [= <-]; split; [done|]; exists h; split; [done|by left]|..];
    (destruct legacy as [cfg|]; [destruct (String.eqb _ "");
      [|destruct (ImportLegacyEnvConfig _ _ cfg) as [h creds]; destruct (hs_Targets h) as [|t ts] eqn:Ht]|]);
    cbn [sv_store set_sv_state SaveSecret fileStoreOps]; try (apply Hp; [exact Hok|done|done]).
  all: pose proof (save_file_ok gcm_seal (secret_path (tp_TargetID t)) (marshal_creds creds) (sv_store s) Hok
         (secret_path_final _)) as Hs; unfold store_SaveSecret;
       destruct (save_file _ _ _ _) as [[[]|e] st]; [apply Hp; [exact Hs|done|done]|done].
Qed.

Lemma load_host_on_disk url legacy (s s' : Supervisor (Wk:=Wk) (St:=Store)) :
  fs_ok (sv_store s) ->
  load_host Getenv gcm_seal gcm_open marshal_state unmarshal_state marshal_creds unmarshal_creds b64_encode
    Generate url_parses answer decode_response now HostVersion GOOS GOARCH Hostname hostID legacyIDs
    url legacy s = Continues s' ->
  sv_workers s' = sv_workers s
  /\ exists h, sv_state s' = Some h /\ on_disk h (sv_store s')
     /\ (Getenv "FILTERREX_ENROLLMENT_TOKEN" <> "" -> hi_ConnectorToken (hs_Identity h) <> "").
Proof.
  intros Hok. unfold load_host.
  destruct (String.eqb_spec (Getenv "FILTERREX_ENROLLMENT_TOKEN") "") as [Et|Et]; cbn [negb].
  - unfold hostStore. destruct (Initialize _ _ _ _) as [[[]|e] s1] eqn:Ei; intros [= <-].
    destruct (Initialize_on_disk legacy s s1 Hok Ei) as (A & h & B & C). naive_solver.
  - set (e := Build_Env (sv_store s) []). destruct (enrolled_state gcm_open unmarshal_state (en_store e)) as [h|] eqn:He.
    + rewrite (MustEnroll_enrolled _ _ _ _ _ _ _ _ _ _ _ _ _ _ _ _ _ h He). unfold slice_to.
      destruct (12 <=? String.length (hi_HostID (hs_Identity h)))%nat; [|done]. cbv beta iota zeta. case_match; [|done]. intros [= <-]. split; [done|]. exists h.
      unfold enrolled_state in He. destruct (store_LoadState _ _ _) as [[h'|]|] eqn:El in He; [|done..].
      destruct (String.eqb_spec (hi_ConnectorToken (hs_Identity h')) ""); [done|]. injection He as ->.
      split_and!; [done|by left|done].
    + pose proof (MustEnroll_fresh gcm_seal gcm_open marshal_state unmarshal_state b64_encode Hgcm Hcodec now
        Generate url_parses answer decode_response HostVersion GOOS GOARCH Getenv Hostname url e Hkey Hok He) as H.
      destruct (MustEnroll _ _ _ _ _ _ _ _ _ _ _ _ _ _ _ _ _) as [[[h|]|] e']; [|done..].
      destruct (slice_to _ _); [|done]. intros [= <-]. split; [done|]. exists h.
      destruct H as (_ & _ & kp & q & _ & _ & _ & _ & (Hl & _ & Ht & _)). split_and!; [done|by left|done].
Qed.
End Start.

Lemma dispatch_daemon rc rp rd args :
  dispatch rc rp rd args = None ->
  Forall (fun a => is_version_flag a = false) args /\ head args <> Some "target".
Proof.
  unfold dispatch. destruct (existsb is_version_flag args) eqn:E; [done|]. intros H. split.
  - apply Forall_forall. intros a Ha. destruct (is_version_flag a) eqn:Ea; [|done].
    assert (existsb is_version_flag args = true); [|congruence].
    apply existsb_exists. exists a. by rewrite <- list_elem_of_In.
  - destruct args as [|a args]; [done|]. intros [= ->]. by repeat case_match.
Qed.

(** C20: a start that reaches the workers is complete.  The arguments asked
    for no local subcommand; the backend is a resolved base URL that is not the
    decommissioned one; in hybrid mode the local API has a token; no worker
    runs yet; and the supervisor's state is the one on disk, with the remote
    actions that the environment asks for switched on, whose connector token
    is not empty if an enrollment token was given.  Every other start ends
    with an exit code or a panic. *)
Theorem startup_complete Getenv {Wk : Type} gcm_seal gcm_open sha256 marshal_state unmarshal_state
    marshal_creds unmarshal_creds b64_encode Generate url_parses answer decode_response now HostVersion GOOS GOARCH
    Hostname tokenID hostID legacyIDs dirs_ok adapters clock rnd rc rp rd re
    (Hgcm : forall k n p, gcm_open k n (gcm_seal k n p) = Some p)
    (Hcodec : forall h, hs_Targets h = [] -> unmarshal_state (marshal_state h) = Some h)
    (Hkey : forall kp, Generate = Ok kp -> key_sized kp)
    (args : list string) (f : FS) (Hread : fs_readable f = true)
    (Hrand : forall n, (materialSize <= length (fs_rand f n))%nat) :
  match startup Getenv (Wk:=Wk) gcm_seal gcm_open sha256 marshal_state unmarshal_state marshal_creds unmarshal_creds
          b64_encode Generate url_parses answer decode_response now HostVersion GOOS GOARCH Hostname
          tokenID hostID legacyIDs dirs_ok adapters clock rnd rc rp rd re args f with
  | Exits _ | Panics => True
  | Continues (base, token, sv) =>
      Forall (fun a => is_version_flag a = false) args
      /\ head args <> Some "target" /\ head args <> Some "export-brocade-bundle"
      /\ base <> "" /\ Contains base decommissionedBackendHost = false
      /\ (envBool Getenv "FILTERREX_HYBRID_MODE" = true -> token <> "")
      /\ sv_workers sv = ∅
      /\ exists h, sv_state sv = Some (with_remote (remote_flags Getenv) h)
         /\ on_disk gcm_open marshal_state unmarshal_state h (sv_store sv)
         /\ (Getenv "FILTERREX_ENROLLMENT_TOKEN" <> "" -> hi_ConnectorToken (hs_Identity h) <> "")
  end.
Proof.
  unfold startup. destruct (dispatch rc rp rd args) eqn:Ed; [done|].
  destruct (dispatch_daemon _ _ _ _ Ed) as [Hv Ht].
  set (run := run_daemon _ _ _ _ _ _ _ _ _ _ _ _ _ _ _ _ _ _ _ _ _ _ _ _ _ args f).
  assert (Hrun : match run with
    | Exits _ | Panics => True
    | Continues (base, token, sv) =>
      base <> "" /\ Contains base decommissionedBackendHost = false
      /\ (envBool Getenv "FILTERREX_HYBRID_MODE" = true -> token <> "")
      /\ sv_workers sv = ∅
      /\ exists h, sv_state sv = Some (with_remote (remote_flags Getenv) h)
         /\ on_disk gcm_open marshal_state unmarshal_state h (sv_store sv)
         /\ (Getenv "FILTERREX_ENROLLMENT_TOKEN" <> "" -> hi_ConnectorToken (hs_Identity h) <> "")
    end).
  { unfold run, run_daemon, mbind, outcome_bind.
    destruct (local_api_token _ _ _ f) as [| |[token f1]] eqn:Etok; [done..|].
    destruct (local_api_token_spec _ _ _ _ _ _ Etok) as [Hf1 Htok].
    set (f2 := if _ : bool then _ else _). assert (Hf2 : same_host f f2).
    { unfold f2. case_bool_decide; [|done]. etransitivity; [exact Hf1|apply force_reset_host]. }
    destruct Hf2 as (H1 & _ & H3). destruct (NewStore sha256 dirs_ok f2) as [st|] eqn:Est; [|done].
    assert (Hst : fs_ok st). { eapply NewStore_ok; [exact Est|by rewrite H1|by rewrite H3]. }
    destruct (resolveBackendBase _) as [base|] eqn:Eb; [|done].
    destruct (resolveBackendBase_spec _ _ Eb) as [Hb1 Hb2].
    destruct (detectLegacyEnvConfig Getenv) as [| |legacy]; [done..|].
    destruct (load_host _ _ _ _ _ _ _ _ _ _ _ _ _ _ _ _ _ _ _ _ _ _) as [| |s'] eqn:El; [done..|].
    apply load_host_on_disk in El as (A & h & B & C & D); [|done..].
    cbn [mret outcome_ret]. split_and!; [done..| |].
    - unfold apply_remote. by rewrite B.
    - exists h. unfold apply_remote. rewrite B. by split_and!. }
  destruct args as [|a args].
  - destruct run as [| |[[base token] sv]]; [done..|].
    split; [done|]. split; [done|]. split; [done|exact Hrun].
  - destruct (String.eqb_spec a "export-brocade-bundle"); [done|].
    destruct run as [| |[[base token] sv]]; [done..|].
    split; [done|]. split; [done|]. split; [by intros [= ->]|exact Hrun].
Qed.

(** A first start in hybrid mode with an enrollment token. *)
Definition demo_env (k : string) : string :=
  if String.eqb k "FILTERREX_ENROLLMENT_TOKEN" then "boot"
  else if String.eqb k "FILTERREX_HYBRID_MODE" then "1"
  else if String.eqb k "FILTERREX_REMOTE_RESTART" then "true" else "".
Definition demo_startup (env : string -> string) (f : FS) :=
  startup env (Wk:=unit) toy_seal toy_open (fun b => b) toy_marshal_state toy_unmarshal_state toy_marshal toy_unmarshal
    (fun _ => "key") (Ok (Build_HostKeyPair (replicate 32 x01) (replicate 32 x02))) (fun _ => true)
    (fun _ _ => HttpStatus 201 []) (fun _ => Ok (Build_EnrollmentResponse "0123456789abcdef" "frc_1" "lab" "" 30))
    7 "1.0.0" "linux" "amd64" "h" "0123456789" "new-host" ("a", "b") true ∅ (fun _ => 7) (fun _ => 0%Q)
    (fun _ => 0) (fun _ => 0) (fun _ => 0) (fun _ => 0) [] f.

Lemma startup_complete_witness :
  match demo_startup demo_env (so_fs blank_store) with
  | Continues (base, token, sv) => base <> "" /\ token <> "" /\ sv_workers sv = ∅
  | _ => False
  end.
Proof.
  pose proof (startup_complete demo_env (Wk:=unit) toy_seal toy_open (fun b => b) toy_marshal_state toy_unmarshal_state
    toy_marshal toy_unmarshal (fun _ => "key") (Ok (Build_HostKeyPair (replicate 32 x01) (replicate 32 x02)))
    (fun _ => true) (fun _ _ => HttpStatus 201 [])
    (fun _ => Ok (Build_EnrollmentResponse "0123456789abcdef" "frc_1" "lab" "" 30))
    7 "1.0.0" "linux" "amd64" "h" "0123456789" "new-host" ("a", "b") true ∅ (fun _ => 7) (fun _ => 0%Q)
    (fun _ => 0) (fun _ => 0) (fun _ => 0) (fun _ => 0) ltac:(reflexivity) toy_state_codec
    ltac:(intros kp [= <-]; split; reflexivity) [] (so_fs blank_store) eq_refl ltac:(reflexivity)) as H.
  change (startup demo_env _ _ _ _ _ _ _ _ _ _ _ _ _ _ _ _ _ _ _ _ _ _ _ _ _ _ _ _ _ _) with
    (demo_startup demo_env (so_fs blank_store)) in H.
  assert (Hc : match demo_startup demo_env (so_fs blank_store) with Continues _ => true | _ => false end = true)
    by (vm_compute; reflexivity).
  destruct (demo_startup demo_env (so_fs blank_store)) as [| |[[base token] sv]]; [discriminate Hc..|].
  destruct H as (_ & _ & _ & H1 & _ & H2 & H3 & _). split; [exact H1|]. split; [apply H2; reflexivity|exact H3].
Defined.

(** Switching a remote action off in the environment does not switch it off
    in the host: the state of an earlier start keeps it. *)
Lemma remote_flags_stick h flags :
  hc_RemoteRestartEnabled (hs_Config (with_remote (false, false) (with_remote (flags, true) h))) = true.
Proof. reflexivity. Qed.

(** A token file of fewer than eight bytes stops every start. *)
Lemma short_token_file_panics Getenv generateID f b stored :
  Getenv "FILTERREX_LOCAL_API_TOKEN" = "" -> ReadFile tokenFile f = ReadOk (b :: stored) ->
  (String.length (TrimSpace (text_of (b :: stored))) < 8)%nat ->
  local_api_token Getenv generateID true f = Panics.
Proof.
  intros He Hr Hl. unfold local_api_token. rewrite He, Hr. cbn [String.eqb negb orb]. unfold logged_token, slice_to.
  destruct (Nat.leb_spec 8 (String.length (TrimSpace (text_of (b :: stored))))) as [H|H]; [lia|done].
Qed.
