(* ===== verification/BrocadeRest.v ===== *)
(** The read-only REST client of Brocade switches ([src/brocaderest]): the
    fixed operations, validation of parameters, the password file, the
    transport policy and one call with its audit record. *)
From S2P Require Import Prelude GoStrings Types BrocadeCli.
From Stdlib Require Import QArith Strings.Byte Ascii.

Local Open Scope Z_scope.

(** ** Errors ([errors.go]) *)

Inductive ErrCode : Type :=
| ErrCodeUnknownOperation | ErrCodeInvalidParameter | ErrCodeTransportUnsupported
| ErrCodeLabModeRequired | ErrCodeTLSUntrusted | ErrCodeRESTAuthFailed | ErrCodeRESTConnectionFailed
| ErrCodeRESTTimeout | ErrCodeRESTHTTPError | ErrCodeResponseTooLarge | ErrCodeRedirectRefused
| ErrCodeMissingPassword | ErrCodeReadOnlyProbeFailed.
#[global] Instance ErrCode_eq_dec : EqDecision ErrCode.
Proof. solve_decision. Defined.

Definition ErrCode_string (c : ErrCode) : string :=
  match c with
  | ErrCodeUnknownOperation => "unknown_operation"
  | ErrCodeInvalidParameter => "invalid_parameter"
  | ErrCodeTransportUnsupported => "transport_unsupported"
  | ErrCodeLabModeRequired => "lab_mode_required"
  | ErrCodeTLSUntrusted => "tls_untrusted"
  | ErrCodeRESTAuthFailed => "rest_auth_failed"
  | ErrCodeRESTConnectionFailed => "rest_connection_failed"
  | ErrCodeRESTTimeout => "rest_timeout"
  | ErrCodeRESTHTTPError => "rest_http_error"
  | ErrCodeResponseTooLarge => "response_too_large"
  | ErrCodeRedirectRefused => "redirect_refused"
  | ErrCodeMissingPassword => "missing_rest_password"
  | ErrCodeReadOnlyProbeFailed => "read_only_probe_failed"
  end.

Record RestError : Type := newErr { er_Code : ErrCode; er_Detail : string }.
Definition RestError_text (e : RestError) : string :=
  if String.eqb (er_Detail e) "" then ErrCode_string (er_Code e)
  else ErrCode_string (er_Code e) +:+ ": " +:+ er_Detail e.

(** ** Operations ([resolver.go]) *)

Record ParamSchema : Type := {
  ps_Type : string;
  ps_Required : bool;
  ps_Pattern : string;
  ps_Max : Z;
}.
(** The parameters in the order in which the map is ranged over. *)
Record Operation : Type := {
  op_ID : string;
  op_Method : string;
  op_PathTemplate : string;
  op_AllowedParams : list (string * ParamSchema);
}.

Definition operations : list (string * Operation) :=
  [("brocade.switch.status",
    {| op_ID := "brocade.switch.status"; op_Method := "GET";
       op_PathTemplate := "/rest/running/brocade-fibrechannel-switch/fibrechannel-switch";
       op_AllowedParams := [] |});
   ("brocade.fabric.show",
    {| op_ID := "brocade.fabric.show"; op_Method := "GET";
       op_PathTemplate := "/rest/running/brocade-fabric/fabric-switch"; op_AllowedParams := [] |})].

Definition Resolve (id : string) : option Operation :=
  (list_to_map operations : gmap string Operation) !! id.
(** In the order of ranging over the map. *)
Definition KnownOperationIDs (range_order : list string -> list string) : list string :=
  range_order (map fst operations).

(** ** Parameters ([params.go]) *)

(** [int64(n) == n] for a [float64]. *)
Definition float_integer (q : Q) : option Z :=
  let r := Qred q in
  if bool_decide (Qden r = 1%positive /\ int64_min <= Qnum r <= int64_max) then Some (Qnum r) else None.

Definition coerce (v : value) (s : ParamSchema) : result string string :=
  if String.eqb (ps_Type s) "string" then
    match v with VString str => Ok str | _ => Err "expected string" end
  else if String.eqb (ps_Type s) "int" then
    match v with
    | VInt n | VInt64 n => Ok (pretty n)
    | VFloat q => match float_integer q with Some n => Ok (pretty n) | None => Err "expected integer" end
    | VString str => match Atoi str with Some _ => Ok str | None => Err "expected integer" end
    | _ => Err "expected integer"
    end
  else if String.eqb (ps_Type s) "bool" then
    match v with VBool b => Ok (if b then "true" else "false") | _ => Err "expected bool" end
  else Err "unsupported schema type".

Definition invalid {A} (detail : string) : result RestError A := Err (newErr ErrCodeInvalidParameter detail).

(** ** The client ([client.go]) *)

Inductive TransportMode : Type := TransportHTTPSVerified | TransportHTTPLabOnly.

Record Config : Type := {
  rc_TargetProfileID : string;
  rc_Host : string;
  rc_Port : Z;
  rc_TransportMode : string;
  rc_Username : string;
  rc_PasswordFile : string;
  rc_CAFile : string;
}.

Definition MaxResponseBytes : Z := Z.shiftl 8 20.

(** What [os.Lstat] tells about a path. *)
Inductive lstat_result : Type :=
| LstatError
| LstatSymlink
| LstatRegular (perm : Z)
| LstatOther.

(** A failed exchange: its text and whether it was a timeout or a passed
    deadline; or an answer, whose body may fail to be read. *)
Inductive rest_answer : Type :=
| RestFailure (msg : string) (timeout : bool)
| RestAnswer (status : Z) (contentType : string) (body : option buf).

Record rest_request : Type := {
  rq_Method : string;
  rq_URL : string;
  rq_User : string;
  rq_Password : buf;
}.

Record Response : Type := {
  rp_HTTPStatus : Z;
  rp_RawJSON : option buf;
  rp_Text : string;
  rp_OperationID : string;
}.
Record AuditRecord : Type := {
  au_OperationID : string;
  au_TargetProfileID : string;
  au_HTTPStatus : Z;
  au_ErrorCode : option ErrCode;
}.

(** A client is its configuration with a known transport; [rc_RootCAs] holds
    the content of the additional CA file. *)
Record Client : Type := {
  cl_cfg : Config;
  cl_mode : TransportMode;
  cl_RootCAs : option buf;
}.

(** A percent-encoded byte, and the host part of [url.URL.String]. *)
Definition hex_upper (n : Z) : ascii := upper_byte (hex_digit n).
Definition host_byte (c : ascii) : bool :=
  is_upper c || is_lower c || is_digit c
  || in_cutset "-_.~!$&'()*+,;=:[]<>" c || (byte_of c =? 34).
Definition escape_host_byte (c : ascii) : list ascii :=
  if host_byte c then [c]
  else [chr 37; hex_upper (byte_of c / 16); hex_upper (byte_of c mod 16)].
Definition escape_host (s : string) : string := str (flat_map escape_host_byte (bytes s)).

Definition classifyTransportError (msg : string) (timeout : bool) : ErrCode :=
  if Contains msg "x509:" || Contains msg "certificate signed by unknown authority"
     || Contains msg "tls: failed to verify" || Contains msg "hostname does not match" then
    ErrCodeTLSUntrusted
  else if timeout then ErrCodeRESTTimeout
  else ErrCodeRESTConnectionFailed.

Definition isJSONContentType (ct : string) : bool :=
  let ct := TrimSpace (default "" (head (Split (ToLower ct) (chr 59)))) in
  String.eqb ct "application/json" || String.eqb ct "application/yang-data+json" || HasSuffix ct "+json".

Section Calls.
(** The regular expressions of the schemas ([None] if one does not compile),
    the file system by step, the certificates in a file, [url.Parse], the
    environment and the network. *)
Context (match_pattern : string -> string -> option bool).
Context (Lstat : nat -> string -> lstat_result) (ReadFile : nat -> string -> option buf).
Context (valid_pem : buf -> bool) (url_parses : string -> bool) (Getenv : string -> string).
Context (network : nat -> rest_request -> rest_answer).

(** One parameter of the schema. *)
Definition check_param (params : gmap string value) (out : gmap string string) (p : string * ParamSchema)
    : result RestError (gmap string string) :=
  let '(name, schema) := p in
  match params !! name with
  | None => if ps_Required schema then invalid ("missing required parameter " +:+ name) else Ok out
  | Some raw =>
      match coerce raw schema with
      | Err e => invalid ("parameter " +:+ name +:+ ": " +:+ e)
      | Ok v =>
          if (0 <? ps_Max schema) && (ps_Max schema <? Z.of_nat (String.length v)) then
            invalid ("parameter " +:+ name +:+ " exceeds max length")
          else if String.eqb (ps_Pattern schema) "" then Ok (<[name := v]> out)
          else match match_pattern (ps_Pattern schema) v with
               | None => invalid ("parameter " +:+ name +:+ ": bad schema")
               | Some false => invalid ("parameter " +:+ name +:+ ": value not permitted")
               | Some true => Ok (<[name := v]> out)
               end
      end
  end.

Definition validateParams (op : Operation) (params : gmap string value)
    : result RestError (gmap string string) :=
  match filter (fun name => name ∉ map fst (op_AllowedParams op)) (map fst (map_to_list params)) with
  | name :: _ => invalid ("unknown parameter " +:+ name)
  | [] => fold_result (check_param params) ∅ (op_AllowedParams op)
  end.

(** [readPassword], at step [n]. *)
Definition missing {A} (detail : string) : result RestError A := Err (newErr ErrCodeMissingPassword detail).
Definition trim_newline (b : buf) : buf :=
  match last b with Some x0a => removelast b | _ => b end.
Definition readPassword (n : nat) (path : string) : result RestError buf :=
  if String.eqb path "" then missing "password_file not configured"
  else match Lstat n path with
  | LstatError => missing "password_file unreadable"
  | LstatSymlink => missing "password_file must not be a symlink"
  | LstatOther => missing "password_file must be a regular file"
  | LstatRegular perm =>
      if negb (Z.land perm 63 =? 0) then missing "password_file permissions are too permissive"
      else match ReadFile n path with
           | None => missing "password_file read failed"
           | Some b => match trim_newline b with
                       | [] => missing "password_file is empty"
                       | pw => Ok pw
                       end
           end
  end.

Definition transport_of (mode : string) : result RestError TransportMode :=
  if String.eqb mode "" || String.eqb mode "https-verified" then Ok TransportHTTPSVerified
  else if String.eqb mode "http-lab-only" then
    if String.eqb (Getenv "FILTERREX_LAB_MODE") "1" then Ok TransportHTTPLabOnly
    else Err (newErr ErrCodeLabModeRequired "http-lab-only requires FILTERREX_LAB_MODE=1")
  else Err (newErr ErrCodeTransportUnsupported mode).

Definition New (n : nat) (cfg : Config) : result RestError Client :=
  if String.eqb (rc_Host cfg) "" then invalid "host is required"
  else
    mode ← transport_of (rc_TransportMode cfg);
    if negb (String.eqb (rc_CAFile cfg) "")
       && match mode with TransportHTTPSVerified => true | TransportHTTPLabOnly => false end then
      match ReadFile n (rc_CAFile cfg) with
      | None => Err (newErr ErrCodeTLSUntrusted "unable to read ca_file")
      | Some pem => if valid_pem pem then Ok (Build_Client cfg mode (Some pem))
                    else Err (newErr ErrCodeTLSUntrusted "ca_file contains no valid PEM certificates")
      end
    else Ok (Build_Client cfg mode None).

Definition scheme_of (m : TransportMode) : string :=
  match m with TransportHTTPSVerified => "https" | TransportHTTPLabOnly => "http" end.
Definition port_of (c : Client) : Z :=
  if rc_Port (cl_cfg c) =? 0
  then match cl_mode c with TransportHTTPSVerified => 443 | TransportHTTPLabOnly => 80 end
  else rc_Port (cl_cfg c).

Definition base_url (c : Client) : string :=
  scheme_of (cl_mode c) +:+ "://" +:+ escape_host (JoinHostPort (rc_Host (cl_cfg c)) (port_of c)).

(** The paths of the operations contain no byte that needs escaping. *)
Definition buildURL (c : Client) (op : Operation) : result RestError string :=
  if negb (HasPrefix (op_PathTemplate op) "/") then invalid "operation path template must be absolute"
  else Ok (base_url c +:+ op_PathTemplate op).

(** The requests sent so far, and the steps taken. *)
Record Wire : Type := { wi_tick : nat; wi_sent : list rest_request }.
Definition send_request (r : rest_request) : M Wire rest_answer := fun w =>
  (network (wi_tick w) r, Build_Wire (S (wi_tick w)) (wi_sent w ++ [r])).

Definition audit_of (c : Client) (id : string) (status : Z) (code : option ErrCode) : AuditRecord :=
  {| au_OperationID := id; au_TargetProfileID := rc_TargetProfileID (cl_cfg c);
     au_HTTPStatus := status; au_ErrorCode := code |}.

(** The outcome of a call: a response or an error, with the audit record. *)
Abbreviation outcome := (result RestError Response * AuditRecord)%type.
Definition fail (c : Client) (id : string) (status : Z) (e : RestError) : outcome :=
  (Err e, audit_of c id status (Some (er_Code e))).

(** What [Do] makes of an answer. *)
Definition read_answer (c : Client) (id : string) (a : rest_answer) : outcome :=
  match a with
  | RestFailure msg timeout => fail c id 0 (newErr (classifyTransportError msg timeout) "")
  | RestAnswer status ct body =>
      if (300 <=? status) && (status <? 400) then fail c id status (newErr ErrCodeRedirectRefused "")
      else if (status =? 401) || (status =? 403) then fail c id status (newErr ErrCodeRESTAuthFailed "")
      else match body with
      | None => fail c id status (newErr ErrCodeRESTConnectionFailed "response read failed")
      | Some b =>
          if MaxResponseBytes <? Z.of_nat (length b) then fail c id status (newErr ErrCodeResponseTooLarge "")
          else if 400 <=? status then
            fail c id status (newErr ErrCodeRESTHTTPError ("http " +:+ pretty status))
          else
            (Ok (if isJSONContentType ct then Build_Response status (Some b) "" id
                 else Build_Response status None (text_of b) id),
             audit_of c id status None)
      end
  end.

Definition Do (c : Client) (operationID : string) (params : gmap string value) : M Wire outcome :=
  match Resolve operationID with
  | None => mret (fail c operationID 0 (newErr ErrCodeUnknownOperation ""))
  | Some op =>
      match validateParams op params with
      | Err e => mret (fail c operationID 0 e)
      | Ok _ =>
          match buildURL c op with
          | Err e => mret (fail c operationID 0 e)
          | Ok u =>
              if negb (url_parses u) then
                mret (fail c operationID 0 (newErr ErrCodeRESTConnectionFailed "request build failed"))
              else
                n ← gets wi_tick;
                match readPassword n (rc_PasswordFile (cl_cfg c)) with
                | Err e => mret (fail c operationID 0 e)
                | Ok pw =>
                    a ← send_request {| rq_Method := op_Method op; rq_URL := u;
                                        rq_User := rc_Username (cl_cfg c); rq_Password := pw |};
                    mret (read_answer c operationID a)
                end
          end
      end
  end.

Definition ProbeSwitchStatus (c : Client) : M Wire (option RestError) :=
  r ← Do c "brocade.switch.status" ∅;
  mret match fst r with Ok _ => None | Err e => Some e end.
End Calls.
