(* ===== verification/BrocadeRestProps.v ===== *)
(** Properties of the read-only REST client. *)
From S2P Require Import Prelude GoStrings Types BrocadeCli BrocadeRest.
From Stdlib Require Import QArith Strings.Byte Ascii.

Local Open Scope Z_scope.

(** ** Operations *)

Definition read_paths : list string :=
  ["/rest/running/brocade-fibrechannel-switch/fibrechannel-switch"; "/rest/running/brocade-fabric/fabric-switch"].

Lemma Resolve_spec id op :
  Resolve id = Some op ->
  op_Method op = "GET" /\ op_PathTemplate op ∈ read_paths /\ op_AllowedParams op = [].
Proof.
  unfold Resolve. intros H%elem_of_list_to_map_2. unfold operations in H.
  rewrite !elem_of_cons in H. destruct H as [H|[H|H%elem_of_nil]]; [..|done];
    injection H as -> ->; simpl; (split; [done|split; [|done]]); unfold read_paths; set_solver.
Qed.

(** An operation without parameters accepts none. *)
Lemma validateParams_none match_pattern op ps out :
  op_AllowedParams op = [] -> validateParams match_pattern op ps = Ok out -> ps = ∅.
Proof.
  unfold validateParams. intros -> H. destruct (filter _ _) as [|name l] eqn:E; [|done].
  apply map_eq. intros k. rewrite lookup_empty. destruct (ps !! k) as [v|] eqn:Ek; [|done].
  assert (k ∈ filter (fun name => name ∉ map (fst (A:=string) (B:=ParamSchema)) []) (map fst (map_to_list ps))) as Hk.
  { apply list_elem_of_filter. split; [set_solver|]. apply list_elem_of_fmap.
    exists (k, v). split; [done|by apply elem_of_map_to_list]. }
  rewrite E in Hk. by apply elem_of_nil in Hk.
Qed.

(** ** The password *)

Lemma trim_newline_spec b : trim_newline b = b \/ b = trim_newline b ++ [x0a].
Proof.
  unfold trim_newline. destruct (last b) as [c|] eqn:E; [|by left].
  destruct c; try by left. right. destruct b as [|y b] using rev_ind; [done|].
  rewrite last_snoc in E. injection E as ->. by rewrite removelast_last.
Qed.

(** A file that only its owner can read and write, and its content without a
    final newline. *)
Definition private_content (lstat : lstat_result) (content : option buf) (pw : buf) : Prop :=
  (exists perm, lstat = LstatRegular perm /\ Z.land perm 63 = 0)
  /\ (content = Some pw \/ content = Some (pw ++ [x0a])) /\ pw <> [].

Lemma readPassword_spec Lstat ReadFile n path pw :
  readPassword Lstat ReadFile n path = Ok pw ->
  private_content (Lstat n path) (ReadFile n path) pw.
Proof.
  unfold readPassword. destruct (String.eqb path ""); [done|].
  destruct (Lstat n path) as [| |perm|] eqn:El; try done.
  destruct (Z.eqb_spec (Z.land perm 63) 0); [|done]. simpl.
  destruct (ReadFile n path) as [b|] eqn:Er; [|done].
  destruct (trim_newline b) as [|x l] eqn:Et; [done|]. intros [= <-].
  split; [by exists perm|]. split; [|done].
  destruct (trim_newline_spec b) as [H|H]; rewrite Et in H; subst; auto.
Qed.

(** ** The transport *)

Lemma New_transport ReadFile valid_pem Getenv n cfg c :
  New ReadFile valid_pem Getenv n cfg = Ok c ->
  cl_cfg c = cfg /\ transport_of Getenv (rc_TransportMode cfg) = Ok (cl_mode c).
Proof.
  unfold New, mbind, result_bind. destruct (String.eqb _ ""); [done|].
  destruct (transport_of _ _) as [m|]; [|done].
  destruct (_ && _); [|by intros [= <-]].
  destruct (ReadFile _ _) as [pem|]; [|done]. destruct (valid_pem pem); [|done]. by intros [= <-].
Qed.

Lemma scheme_secure Getenv mode m :
  transport_of Getenv mode = Ok m ->
  scheme_of m = "https"
  \/ scheme_of m = "http" /\ mode = "http-lab-only" /\ Getenv "FILTERREX_LAB_MODE" = "1".
Proof.
  unfold transport_of. destruct (_ || _); [intros [= <-]; by left|].
  destruct (String.eqb_spec mode "http-lab-only"); [|done].
  destruct (String.eqb_spec (Getenv "FILTERREX_LAB_MODE") "1"); [|done]. intros [= <-]. by right.
Qed.

Lemma append_assoc (s t u : string) : (s +:+ t) +:+ u = s +:+ t +:+ u.
Proof. induction s as [|c s IH]; [done|]. change (String c ((s +:+ t) +:+ u) = String c (s +:+ t +:+ u)). by rewrite IH. Qed.

(** ** One call *)

Section Call.
Context (match_pattern : string -> string -> option bool).
Context (Lstat : nat -> string -> lstat_result) (ReadFile : nat -> string -> option buf).
Context (url_parses : string -> bool) (network : nat -> rest_request -> rest_answer).

(** The answer of a successful call. *)
Definition good_answer (a : rest_answer) (r : Response) : Prop :=
  exists status ct b, a = RestAnswer status ct (Some b) /\ rp_HTTPStatus r = status
    /\ status < 300 /\ Z.of_nat (length b) <= MaxResponseBytes
    /\ (rp_RawJSON r = if isJSONContentType ct then Some b else None).

Lemma read_answer_spec c id a :
  let '(o, au) := read_answer c id a in
  au_ErrorCode au = match o with Ok _ => None | Err e => Some (er_Code e) end
  /\ au_OperationID au = id /\ au_TargetProfileID au = rc_TargetProfileID (cl_cfg c)
  /\ match o with Ok r => good_answer a r | Err _ => True end.
Proof.
  unfold read_answer, fail. destruct a as [msg t|status ct [b|]]; simpl.
  - done.
  - destruct (Z.leb_spec 300 status); destruct (Z.ltb_spec status 400); simpl; try done;
      destruct (Z.eqb_spec status 401); destruct (Z.eqb_spec status 403); simpl; try done;
      destruct (Z.ltb_spec MaxResponseBytes (Z.of_nat (length b))); try done;
      destruct (Z.leb_spec 400 status); try done; try lia;
      (split_and!; [done..|]; exists status, ct, b; destruct (isJSONContentType ct); split_and!; done).
  - destruct (_ && _); [done|]. by destruct (_ || _).
Qed.

(** A call that sends nothing, or one request with its answer. *)
Lemma Do_spec c id ps w :
  let '((o, au), w') := Do match_pattern Lstat ReadFile url_parses network c id ps w in
  (au_ErrorCode au = match o with Ok _ => None | Err e => Some (er_Code e) end
   /\ au_OperationID au = id /\ au_TargetProfileID au = rc_TargetProfileID (cl_cfg c))
  /\ ((w' = w /\ exists e, o = Err e)
      \/ exists r path, ps = ∅ /\ path ∈ read_paths
           /\ wi_sent w' = wi_sent w ++ [r] /\ rq_Method r = "GET" /\ rq_URL r = base_url c +:+ path
           /\ rq_User r = rc_Username (cl_cfg c)
           /\ private_content (Lstat (wi_tick w) (rc_PasswordFile (cl_cfg c)))
                (ReadFile (wi_tick w) (rc_PasswordFile (cl_cfg c))) (rq_Password r)
           /\ match o with Ok resp => good_answer (network (wi_tick w) r) resp | Err _ => True end).
Proof.
  unfold Do. destruct (Resolve id) as [op|] eqn:Er; [|cbn; eauto 8].
  destruct (Resolve_spec _ _ Er) as (Hm & Hp & Hnone).
  destruct (validateParams _ op ps) as [out|e] eqn:Ev; [|cbn; eauto 8].
  pose proof (validateParams_none _ _ _ _ Hnone Ev) as Hps.
  unfold buildURL. destruct (negb (HasPrefix _ _)); [cbn; eauto 8|].
  destruct (negb (url_parses _)); [cbn; eauto 8|].
  unfold mbind, M_bind, gets, send_request.
  destruct (readPassword _ _ _ _) as [pw|e] eqn:Ep; [|cbn; eauto 8].
  pose proof (readPassword_spec _ _ _ _ _ Ep) as Hpw. cbn [fst snd mret M_ret].
  match goal with |- context [read_answer c id ?a] => pose proof (read_answer_spec c id a) as Ha;
    destruct (read_answer c id a) as [o au] end.
  destruct Ha as (H1 & H2 & H3 & H4). split; [done|]. right.
  eexists _, (op_PathTemplate op). by split_and!.
Qed.
End Call.


(** The list of operations is promised to be sorted, and is in the order of
    ranging over a map. *)
Lemma known_operations_unsorted :
  exists range_order, (forall l, range_order l ≡ₚ l)
    /\ KnownOperationIDs range_order = ["brocade.switch.status"; "brocade.fabric.show"].
Proof. exists (fun l => l). split; [reflexivity|reflexivity]. Qed.
