(* ===== verification/BrocadeSnapshot.v ===== *)
(** The pure part of the Brocade adapter ([src/adapter_brocade.go]): reading
    the envelopes of the FOS REST interface, the normalised snapshot, and the
    signals derived from it.  A nil map of the source is the empty map where it
    is only read.  Numbers of JSON are finite [float64]s, here rationals; their
    texts, [fmt.Sscanf] with [%f] and the decimal logarithm are parameters. *)
From S2P Require Import Prelude GoStrings GoPath Types LocalDB.
From Stdlib Require Import QArith Qround Ascii.

Local Open Scope Z_scope.

(** ** Envelopes *)

(** Ranging over a slice with [m, _ := x.(map[string]interface{})], nil
    skipped: the maps among the items. *)
Definition item_map (v : value) : option payload := match v with VMap m => Some m | _ => None end.
Definition item_maps (l : list value) : list payload := omap item_map l.

Definition normalizeToSlice (v : option value) : list value :=
  match v with
  | None | Some VNil => []
  | Some (VList l) => l
  | Some x => [x]
  end.

(** [nil] and an empty array are the same list. *)
Definition array_at (m : payload) (key : string) : option (list value) :=
  match m !! key with
  | Some (VList l) => Some l
  | Some (VMap o) => Some [VMap o]
  | _ => None
  end.
Definition brocadeExtractArray (resp : payload) (key : string) : list value :=
  match array_at resp key with
  | Some l => l
  | None => match resp !! "Response" with
            | Some (VMap r) => default [] (array_at r key)
            | _ => []
            end
  end.

Definition first_at (m : payload) (key : string) : option payload :=
  match m !! key with
  | Some (VMap o) => Some o
  | Some (VList (VMap o :: _)) => Some o
  | _ => None
  end.
Definition brocadeExtractFirst (resp : payload) (key : string) : option payload :=
  match first_at resp key with
  | Some o => Some o
  | None => match resp !! "Response" with
            | Some (VMap r) => first_at r key
            | _ => None
            end
  end.

(** [int(f)], for values in range. *)
Definition trunc (q : Q) : Z := Z.quot (Qnum q) (Zpos (Qden q)).
Definition is_trunc (q : Q) : bool := bool_decide (Qden (Qred q) = 1%positive).

Definition toInt (v : option value) : Z :=
  match v with
  | Some (VInt n) | Some (VInt64 n) => n
  | Some (VFloat q) => trunc q
  | _ => 0
  end.

Section Snapshot.
(** [%v] and [strconv.FormatFloat(f, 'f', -1, 64)] of a float, [%.1f],
    [fmt.Sscanf(s, "%f", &n)], and ten times the decimal logarithm. *)
Context (fmt_v fmt_f fmt_1f : Q -> string) (Sscanf_f : string -> option Q) (log10_10 : Q -> Q).

Fixpoint brocadeStr (m : payload) (keys : list string) : string :=
  match keys with
  | [] => ""
  | k :: rest =>
      match m !! k with
      | Some (VString s) => s
      | Some (VFloat q) => fmt_v q
      | _ => brocadeStr m rest
      end
  end.

Fixpoint brocadeNum (m : payload) (keys : list string) : Q :=
  match keys with
  | [] => 0%Q
  | k :: rest =>
      match m !! k with
      | Some (VFloat q) => q
      | Some (VBool b) => if b then 1%Q else 0%Q
      | Some (VString s) => match Sscanf_f s with Some q => q | None => brocadeNum m rest end
      | _ => brocadeNum m rest
      end
  end.

(** ** The state of the switch *)

Definition integerValue (raw : value) : option Z :=
  match raw with
  | VFloat q => if is_trunc q then Some (trunc q) else None
  | VInt n | VInt64 n => Some n
  | VString s => if String.eqb (TrimSpace s) "" then None else Atoi (TrimSpace s)
  | _ => None
  end.

Definition stringValue (raw : value) : option string :=
  match raw with
  | VString s => Some s
  | VFloat q => Some (fmt_f q)
  | VBool b => Some (if b then "true" else "false")
  | _ => None
  end.

Definition one_of (s : string) (l : list string) : bool := existsb (String.eqb s) l.

Definition canonicalizeSwitchStateString (s : string) : option string :=
  let trimmed := TrimSpace s in
  let lower := ToLower trimmed in
  if String.eqb trimmed "" then None
  else if one_of lower ["online"; "enabled"; "up"; "operational"] then Some "Online"
  else if one_of lower ["offline"; "disabled"; "down"] then Some "Offline"
  else if one_of lower ["testing"; "test"] then Some "Testing"
  else if one_of lower ["faulty"; "fault"; "failed"] then Some "Faulty"
  else if one_of lower ["unknown"; "undefined"] then Some "Unknown"
  else Some trimmed.

(** A number by a table of its names, or a string. *)
Definition state_name (table : list (Z * string)) (v : Z) : string :=
  match find (fun '(n, _) => n =? v) table with
  | Some (_, name) => name
  | None => "state-" +:+ pretty v
  end.
Definition named_state (table : list (Z * string)) (raw : value) : option string :=
  match integerValue raw with
  | Some v => Some (state_name table v)
  | None => match stringValue raw with
            | Some s => canonicalizeSwitchStateString s
            | None => None
            end
  end.

Definition normalizeLegacySwitchState : value -> option string :=
  named_state [(0, "Unknown"); (1, "Offline"); (2, "Online"); (3, "Testing"); (4, "Faulty")].
Definition normalizeSwitchOperationalStatus : value -> option string :=
  named_state [(0, "Unknown"); (2, "Online"); (3, "Offline"); (5, "Faulty"); (7, "Testing")].

Definition normalizeSwitchEnabledState (raw : value) : option string :=
  match raw with
  | VBool b => Some (if b then "Online" else "Disabled")
  | VFloat q => Some (if Qeq_bool q 0 then "Disabled" else "Online")
  | VString tv =>
      let s := ToLower (TrimSpace tv) in
      if one_of s ["true"; "1"; "enabled"; "yes"] then Some "Online"
      else if one_of s ["false"; "0"; "disabled"; "no"] then Some "Disabled"
      else None
  | _ => None
  end.

Record derivedSwitchState : Type := { sd_State : string; sd_Source : string; sd_Raw : value }.

Definition derive_from (sw : payload) (key : string) (normalize : value -> option string)
    : option derivedSwitchState :=
  match sw !! key with
  | Some raw => match normalize raw with
                | Some s => Some (Build_derivedSwitchState s key raw)
                | None => None
                end
  | None => None
  end.
Definition deriveBrocadeSwitchState (sw : payload) : derivedSwitchState :=
  match derive_from sw "switch-state" normalizeLegacySwitchState with
  | Some d => d
  | None =>
      match derive_from sw "operational-status" normalizeSwitchOperationalStatus with
      | Some d => d
      | None =>
          match derive_from sw "is-enabled-state" normalizeSwitchEnabledState with
          | Some d => d
          | None => Build_derivedSwitchState "Unknown" "" VNil
          end
      end
  end.

(** ** Media *)

Definition brocadeStringValue (v : option value) : string :=
  match v with
  | Some (VString s) => s
  | Some (VFloat q) => fmt_v q
  | Some (VInt n) | Some (VInt64 n) => pretty n
  | _ => ""
  end.

Definition absent_reading (s : string) : bool :=
  String.eqb s "" || String.eqb s "—" || EqualFold s "n/a".

Definition positive_reading (s : string) (f : Q -> Q) : option Q :=
  match Sscanf_f s with
  | Some n => if negb (Qle_bool n 0) then Some (f n) else None
  | None => None
  end.

Definition parseBrocadePowerDbm (v : option value) : option Q :=
  let s := TrimSpace (brocadeStringValue v) in
  let lower := ToLower s in
  let milli n := log10_10 (n / 1000)%Q in
  if absent_reading s then None
  else if HasSuffix lower "dbm" then Sscanf_f s
  else if HasSuffix lower "mw" then positive_reading s log10_10
  else if HasSuffix lower "uw" || HasSuffix lower "µw" then
    positive_reading (ReplaceAll lower "µw" "uw") milli
  else positive_reading s milli.

Definition parseBrocadeTemperatureC (v : option value) : option Q :=
  let s := TrimSpace (brocadeStringValue v) in
  if absent_reading s then None else Sscanf_f s.

Inductive media_status : Type := MediaOk | MediaWarning | MediaAlarm.
#[global] Instance media_status_eq_dec : EqDecision media_status.
Proof. solve_decision. Defined.

Definition Qltb (x y : Q) : bool := negb (Qle_bool y x).

Definition brocadeClassifyMetric (value : option Q) (warnLow warnHigh alarmLow alarmHigh : Q) (label : string)
    : media_status * string :=
  match value with
  | None => (MediaOk, "")
  | Some v =>
      if Qltb v alarmLow then (MediaAlarm, label +:+ " critically low (" +:+ fmt_1f v +:+ ")")
      else if Qltb alarmHigh v then (MediaAlarm, label +:+ " critically high (" +:+ fmt_1f v +:+ ")")
      else if Qltb v warnLow then (MediaWarning, label +:+ " low (" +:+ fmt_1f v +:+ ")")
      else if Qltb warnHigh v then (MediaWarning, label +:+ " high (" +:+ fmt_1f v +:+ ")")
      else (MediaOk, "")
  end.

(** A port without a link may receive no light. *)
Definition rx_status (linkUp : bool) (rx : option Q) : media_status * string :=
  let '(st, reason) := brocadeClassifyMetric rx (-14) 3 (-17) 5 "RX power" in
  match rx with
  | Some p => if negb linkUp && negb (bool_decide (st = MediaOk)) && Qltb p 3 then (MediaOk, "") else (st, reason)
  | None => (st, reason)
  end.

Definition worst (l : list media_status) : media_status :=
  if bool_decide (MediaAlarm ∈ l) then MediaAlarm
  else if bool_decide (MediaWarning ∈ l) then MediaWarning else MediaOk.

Definition classifyBrocadeMedia (m : payload) (linkUp : bool) : media_status * list string :=
  let rx := rx_status linkUp (parseBrocadePowerDbm (m !! "rx-power")) in
  let tx := brocadeClassifyMetric (parseBrocadePowerDbm (m !! "tx-power")) (-8) 1 (-10) 3 "TX power" in
  let temp := brocadeClassifyMetric (parseBrocadeTemperatureC (m !! "temperature")) 0 70 (-5) 80 "Temperature" in
  (worst [fst rx; fst tx; fst temp],
   filter (fun r => negb (String.eqb r "") = true) [snd rx; snd tx; snd temp]).

Definition hasBrocadeMediaWarning (m : payload) : bool :=
  existsb (fun k => match m !! k with Some (VFloat q) => negb (Qeq_bool q 0) | _ => false end)
    ["remote-media-tx-power-alert-type"; "remote-media-rx-power-alert-type";
     "remote-media-temperature-alert-type"].

(** ** Field replaceable units *)

Definition first_nonempty (m : payload) (keys : list string) : list value :=
  default [] (head (filter (fun l => l <> []) (map (brocadeExtractArray m) keys))).

(** [nil] arguments and results are [None]. *)
Definition mergeBrocadeFru (blade ps : option payload) : option payload :=
  let part (m : option payload) keys := match m with Some m => first_nonempty m keys | None => [] end in
  match part blade ["blade"; "fru"] ++ part ps ["power-supply"; "fru"] with
  | [] => None
  | all => Some {[ "Response" := VMap {[ "fru" := VList all ]} ]}
  end.

Definition brocadeExtractFruItems (m : payload) : list value :=
  first_nonempty m ["fru"; "blade"; "power-supply"].

Definition brocadeFruStateFailed (state : string) : bool :=
  let s := ToLower (TrimSpace state) in
  negb (String.eqb s "") && negb (String.eqb s "enabled") && negb (String.eqb s "ok")
  && negb (String.eqb s "online").

Definition fru_name (m : payload) : string := ToUpper (brocadeStr m ["name"]).
Definition fru_state (m : payload) : string := ToLower (TrimSpace (brocadeStr m ["operational-state"])).
Definition is_psu (m : payload) : bool := Contains (fru_name m) "PS" || Contains (fru_name m) "POWER".
Definition is_fan (m : payload) : bool := negb (is_psu m) && Contains (fru_name m) "FAN".
Definition fru_failed (m : payload) : bool := brocadeFruStateFailed (fru_state m).

Definition count {A} (f : A -> bool) (l : list A) : Z := Z.of_nat (length (filter (fun x => f x = true) l)).

(** ** The normalised snapshot *)

Definition set_text (key text : string) (out : payload) : payload :=
  if String.eqb text "" then out else <[key := VString text]> out.

Definition switch_role (sw : payload) : option string :=
  let roleNum := brocadeNum sw ["switch-role"] in
  let text := brocadeStr sw ["switch-role"] in
  if negb (Qle_bool roleNum 0) || negb (String.eqb text "") then
    Some (if trunc roleNum =? 0 then "Subordinate"
          else if trunc roleNum =? 1 then "Disabled"
          else if trunc roleNum =? 2 then "Principal"
          else if negb (String.eqb text "") then text
          else "role-" +:+ pretty (trunc roleNum))
  else None.

Definition add_switch (sw : payload) (out : payload) : payload :=
  let out := set_text "switchName" (brocadeStr sw ["name"; "switch-name"; "user-friendly-name"]) out in
  let out := set_text "switchWwn" (brocadeStr sw ["switch-wwn"; "wwn"]) out in
  let out := match switch_role sw with Some r => <["switchRole" := VString r]> out | None => out end in
  let out := <["domainId" := VFloat (brocadeNum sw ["domain-id"])]> out in
  let out := set_text "firmwareVersion" (brocadeStr sw ["firmware-version"; "firmware-Version"; "fw-version"]) out in
  let out := set_text "_switchModelRaw" (brocadeStr sw ["model"]) out in
  let d := deriveBrocadeSwitchState sw in
  <["_switchStateRaw" := sd_Raw d]> (<["_switchStateSource" := VString (sd_Source d)]>
    (<["switchState" := VString (sd_State d)]> out)).

Definition value_at (m : payload) (k : string) : value := default VNil (m !! k).

Definition add_chassis (ch : payload) (out : payload) : payload :=
  let out := set_text "model" (brocadeStr ch ["product-name"]) out in
  let out := match out !! "model", out !! "_switchModelRaw" with
             | None, Some raw => <["model" := raw]> out
             | _, _ => out
             end in
  let out := set_text "serialNumber" (brocadeStr ch ["serial-number"]) out in
  <["productName" := value_at ch "product-name"]>
    (<["chassisName" := value_at ch "chassis-user-friendly-name"]> out).

(** *** Ports *)

Definition op_status (p : payload) : Z := trunc (brocadeNum p ["operational-status"]).
Definition port_online (p : payload) : bool := op_status p =? 2.
Definition port_faulty (p : payload) : bool := op_status p =? 5.
Definition port_offline (p : payload) : bool := negb (port_online p) && negb (port_faulty p).
Definition enabled_state (p : payload) : Q := brocadeNum p ["is-enabled-state"].
Definition port_disabled (p : payload) : bool := trunc (enabled_state p) =? 6.
Definition port_licensed (p : payload) : bool :=
  negb (port_disabled p) && ((trunc (enabled_state p) =? 2) || Qeq_bool (enabled_state p) 1).
Definition port_type (p : payload) : Z := trunc (brocadeNum p ["port-type"]).
Definition is_ePort (p : payload) : bool := port_type p =? 7.
Definition is_fPort (p : payload) : bool := (port_type p =? 10) || (port_type p =? 17).

Definition add_ports (portItems mediaItems : list value) (out : payload) : payload :=
  let ps := item_maps portItems in
  let total := VInt (Z.of_nat (length portItems)) in
  let summary : payload :=
    {[ "total" := total; "online" := VInt (count port_online ps); "offline" := VInt (count port_offline ps);
       "faulty" := VInt (count port_faulty ps); "disabled" := VInt (count port_disabled ps);
       "withErrors" := VInt (count port_faulty ps); "fPort" := VInt (count is_fPort ps);
       "ePort" := VInt (count is_ePort ps); "licensed" := VInt (count port_licensed ps);
       "sfpInserted" := VInt (Z.of_nat (length mediaItems)) ]} in
  <["sfpWarnings" := VInt (count hasBrocadeMediaWarning (item_maps mediaItems))]>
  (<["portsFaulty" := VInt (count port_faulty ps)]> (<["portsOffline" := VInt (count port_offline ps)]>
  (<["portsOnline" := VInt (count port_online ps)]> (<["portTotal" := total]> (<["ports" := VMap summary]> out))))).

(** *** Zoning *)

(** The name and zones of the effective configuration: how many, their names
    when they come from the defined configuration, and whether the count is
    known. *)
Record zoning : Type := {
  zn_activeCfgName : string;
  zn_count : Z;
  zn_names : list value;
  zn_resolved : bool;
}.

Definition has_cfg_name (name : string) (cfg : payload) : bool :=
  match cfg !! "cfg-name" with Some (VString s) => String.eqb s name | _ => false end.

Definition effective_zones (ec : payload) (definedCfgs : list value) : zoning :=
  let name := match ec !! "cfg-name" with Some (VString s) => s | _ => "" end in
  let explicit := normalizeToSlice (ec !! "zone") in
  match explicit with
  | _ :: _ => {| zn_activeCfgName := name; zn_count := Z.of_nat (length explicit); zn_names := []; zn_resolved := true |}
  | [] =>
      if String.eqb name "" then {| zn_activeCfgName := name; zn_count := 0; zn_names := []; zn_resolved := false |}
      else match find (has_cfg_name name) (item_maps definedCfgs) with
           | None => {| zn_activeCfgName := name; zn_count := 0; zn_names := []; zn_resolved := false |}
           | Some cfg =>
               let names := match cfg !! "member-zone" with
                            | Some (VMap mz) => normalizeToSlice (mz !! "zone-name")
                            | _ => []
                            end in
               {| zn_activeCfgName := name; zn_count := Z.of_nat (length names); zn_names := names; zn_resolved := true |}
           end
  end.
Definition no_zones : zoning :=
  {| zn_activeCfgName := ""; zn_count := 0; zn_names := []; zn_resolved := false |}.

Definition defined_part (definedConfig : payload) (key : string) : list value :=
  match brocadeExtractFirst definedConfig "defined-configuration" with
  | Some dc => normalizeToSlice (dc !! key)
  | None => []
  end.
Definition zoning_of (zoneConfig definedConfig : payload) : zoning :=
  match brocadeExtractFirst zoneConfig "effective-configuration" with
  | Some ec => effective_zones ec (defined_part definedConfig "cfg")
  | None => no_zones
  end.

Definition add_zoning (zoneConfig definedConfig : payload) (out : payload) : payload :=
  let n key := VInt (Z.of_nat (length (defined_part definedConfig key))) in
  let z := zoning_of zoneConfig definedConfig in
  <["zoningActiveCfg" := VString (zn_activeCfgName z)]>
  (<["effectiveZoneCountResolved" := VBool (zn_resolved z)]> (<["effectiveZoneNames" := VList (zn_names z)]>
  (<["effectiveZoneCount" := VInt (zn_count z)]> (<["activeCfgName" := VString (zn_activeCfgName z)]>
  (<["definedCfgCount" := n "cfg"]> (<["definedAliasCount" := n "alias"]> (<["definedZoneCount" := n "zone"]> out))))))).

(** The eight answers of the switch. *)
Record Raw : Type := {
  raw_chassis : payload; raw_switchInfo : payload; raw_ports : payload; raw_media : payload;
  raw_zoneConfig : payload; raw_definedConfig : payload; raw_fabric : payload; raw_fru : payload;
}.
Definition raw_data (r : Raw) : payload :=
  {[ "chassis" := VMap (raw_chassis r); "switchInfo" := VMap (raw_switchInfo r); "ports" := VMap (raw_ports r);
     "media" := VMap (raw_media r); "zoneConfig" := VMap (raw_zoneConfig r);
     "definedConfig" := VMap (raw_definedConfig r); "fabric" := VMap (raw_fabric r); "fru" := VMap (raw_fru r) ]}.

Definition normalizeBrocadeSnapshot (r : Raw) : payload :=
  let out := match brocadeExtractFirst (raw_switchInfo r) "fibrechannel-switch" with
             | Some sw => add_switch sw ∅
             | None => ∅
             end in
  let out := match brocadeExtractFirst (raw_chassis r) "chassis" with
             | Some ch => add_chassis ch out
             | None => out
             end in
  let out := add_ports (brocadeExtractArray (raw_ports r) "fibrechannel")
               (brocadeExtractArray (raw_media r) "media-rdp") out in
  let out := <["fabricSwitchCount" :=
                 VInt (Z.of_nat (length (brocadeExtractArray (raw_fabric r) "fabric-switch")))]> out in
  let out := add_zoning (raw_zoneConfig r) (raw_definedConfig r) out in
  <["_raw" := VMap (raw_data r)]> out.

(** ** Signals *)

Definition signal (key severity label entity value : string) : SnapshotSignal :=
  Build_SnapshotSignal key severity label entity value.
Definition signal_if (b : bool) (s : SnapshotSignal) : list SnapshotSignal := if b then [s] else [].
Definition text_at (m : payload) (k : string) : option string :=
  match m !! k with Some (VString s) => Some s | _ => None end.

Definition switch_signals (data : payload) : list SnapshotSignal :=
  let unknown := [signal "switch.unknown" "warning" "Switch state not reported" "" "unknown"] in
  match text_at data "switchState" with
  | None => unknown
  | Some st =>
      if String.eqb st "" || EqualFold st "unknown" then unknown
      else signal_if (negb (EqualFold st "online"))
             (signal "switch.unhealthy" "error" ("Switch state: " +:+ st) "" st)
  end.

(** The number of ports with errors: the first of three counters that is not
    zero. *)
Definition error_ports (data ports : payload) : Z :=
  let n := toInt (ports !! "withErrors") in
  let n := if n =? 0 then toInt (ports !! "faulty") else n in
  if n =? 0 then toInt (data !! "portsFaulty") else n.

Definition port_signals (data : payload) : list SnapshotSignal :=
  match data !! "ports" with
  | Some (VMap ports) =>
      let disabled := toInt (ports !! "disabled") in
      let errPorts := error_ports data ports in
      signal_if (0 <? disabled)
        (signal "port.disabled" "warning" (pretty disabled +:+ " port(s) disabled") "" (pretty disabled))
      ++ signal_if (0 <? errPorts)
           (signal "port.errors" (if 3 <? errPorts then "error" else "warning")
              (pretty errPorts +:+ " port(s) with errors") "" (pretty errPorts))
  | _ => []
  end.
Definition ePortCount (data : payload) : Z :=
  match data !! "ports" with Some (VMap ports) => toInt (ports !! "ePort") | _ => 0 end.

(** The operational status of every named port; the last entry of a name
    counts. *)
Definition port_states (raw : payload) : gmap string Z :=
  match raw !! "ports" with
  | Some (VMap p) =>
      foldl (fun m pm => let name := brocadeStr pm ["name"] in
                         if String.eqb name "" then m else <[name := op_status pm]> m)
        ∅ (item_maps (brocadeExtractArray p "fibrechannel"))
  | _ => ∅
  end.

Definition media_signal (states : gmap string Z) (mm : payload) : list SnapshotSignal :=
  let port := brocadeStr mm ["name"] in
  let '(status, reasons) := classifyBrocadeMedia mm (bool_decide (states !! port = Some 2)) in
  let label := "SFP " +:+ port +:+ ": " +:+ Join reasons ", " in
  match status with
  | MediaAlarm => [signal "sfp.alarm" "critical" label port ""]
  | MediaWarning => [signal "sfp.out_of_range" "warning" label port ""]
  | MediaOk => []
  end.
Definition media_signals (raw : payload) : list SnapshotSignal :=
  match raw !! "media" with
  | Some (VMap m) => flat_map (media_signal (port_states raw)) (item_maps (brocadeExtractArray m "media-rdp"))
  | _ => []
  end.

(** Power supplies, failed power supplies and failed fans. *)
Definition fru_counts (items : list payload) : Z * Z * Z :=
  (count is_psu items, count (fun m => is_psu m && fru_failed m) items,
   count (fun m => is_fan m && fru_failed m) items).
Definition fru_signals (raw : payload) : list SnapshotSignal :=
  match raw !! "fru" with
  | Some (VMap f) =>
      let '(psus, failedPsus, failedFans) := fru_counts (item_maps (brocadeExtractFruItems f)) in
      (if 0 <? failedPsus then
         [signal "hardware.psu.failed" "critical" (pretty failedPsus +:+ " PSU(s) not operational") ""
            (pretty failedPsus)]
       else signal_if (psus =? 1)
              (signal "hardware.psu.missing" "warning" "Single PSU — no power redundancy" "" "1"))
      ++ signal_if (0 <? failedFans)
           (signal "hardware.fan.failed" "critical" (pretty failedFans +:+ " fan(s) not operational") ""
              (pretty failedFans))
  | _ => []
  end.

Definition raw_signals (data : payload) : list SnapshotSignal * list SnapshotSignal :=
  match data !! "_raw" with
  | Some (VMap raw) => (media_signals raw, fru_signals raw)
  | _ => ([], [])
  end.

Definition sfp_summary (data : payload) (detailed : list SnapshotSignal) : list SnapshotSignal :=
  let n := toInt (data !! "sfpWarnings") in
  match detailed with
  | [] => signal_if (0 <? n) (signal "sfp.warning" "warning" (pretty n +:+ " SFP warning(s)") "" (pretty n))
  | _ => []
  end.

Definition zoning_signals (data : payload) : list SnapshotSignal :=
  signal_if (String.eqb (TrimSpace (default "" (text_at data "zoningActiveCfg"))) "")
    (signal "zoning.no_active_cfg" "warning" "No active zone configuration" "" "true").

Definition fabric_signals (data : payload) : list SnapshotSignal :=
  signal_if ((0 <? ePortCount data) && (toInt (data !! "fabricSwitchCount") =? 0)
             && EqualFold (default "" (text_at data "switchState")) "online")
    (signal "fabric.segmented" "error" "Fabric segmentation detected" "" "true").

Definition extractBrocadeSignals (data : payload) : list SnapshotSignal :=
  let '(media, frus) := raw_signals data in
  switch_signals data ++ port_signals data ++ media ++ frus
  ++ sfp_summary data media ++ zoning_signals data ++ fabric_signals data.

(** ** Alerts and the result of a collection *)

Definition alert (severity message : string) : payload :=
  {[ "severity" := VString severity; "source" := VString "brocade"; "message" := VString message ]}.

Definition port_alerts (data : payload) : list payload :=
  match data !! "portsFaulty" with
  | Some (VInt pf) => if 0 <? pf then [alert "critical" (pretty pf +:+ " port(s) in faulty state")] else []
  | _ => []
  end.
Definition psu_alerts (data : payload) : list payload :=
  match data !! "_raw" with
  | Some (VMap raw) =>
      match raw !! "fru" with
      | Some (VMap f) =>
          let '(psus, failedPsus, _) := fru_counts (item_maps (brocadeExtractFruItems f)) in
          if 0 <? failedPsus then [alert "critical" (pretty failedPsus +:+ " PSU(s) not operational")]
          else if psus =? 1 then [alert "warning" "Single PSU detected — no power redundancy"] else []
      | _ => []
      end
  | _ => []
  end.

Definition Capabilities : list string :=
  ["brocade.read.health"; "brocade.read.chassis"; "brocade.read.ports"; "brocade.read.media";
   "brocade.read.zoning"; "brocade.read.fabric"; "brocade.read.fru"].

(** The payload and the typed signals that [Collect] returns. *)
Definition collect_result (collectedAt : string) (r : Raw) : payload * list SnapshotSignal :=
  let data := delete "_switchStateRaw" (delete "_switchStateSource" (normalizeBrocadeSnapshot r)) in
  ({[ "capabilities" := VStrings Capabilities; "snapshotData" := VMap data;
      "alerts" := VMaps (port_alerts data ++ psu_alerts data); "collectedAt" := VString collectedAt ]},
   extractBrocadeSignals data).
End Snapshot.
