(* ===== verification/BrocadeAdapter.v ===== *)
(** The stateful part of the Brocade adapter ([src/adapter_brocade.go]):
    requests to the switch, the verification with its fallback to HTTP, the
    readiness registry, and a collection. *)
From S2P Require Import Prelude GoStrings GoTime Types Policy Readiness LocalDB BrocadeSnapshot.
From Stdlib Require Import QArith Strings.Byte.

Local Open Scope Z_scope.

(** ** Requests *)

Inductive auth : Type :=
| NoAuth
| Bearer (token : string)
| Basic (user pass : string).

Record get_request : Type := { gr_URL : string; gr_Auth : auth }.

(** An error with its text; for a [*net.OpError], its operation and the text
    of the error it wraps. *)
Record get_error : Type := { ge_Msg : string; ge_Op : option (string * string) }.
Definition plain_error (msg : string) : get_error := {| ge_Msg := msg; ge_Op := None |}.

(** What the network answers: an error, or a status and a body, whose reading
    may fail. *)
Inductive get_answer : Type :=
| GetError (e : get_error)
| GetAnswer (status : Z) (body : option buf).

Definition isConnRefused (e : get_error) : bool :=
  match ge_Op e with
  | Some (op, inner) => String.eqb op "dial" && Contains inner "connection refused"
  | None => Contains (ge_Msg e) "connection refused"
  end.

(** The classes in order, each with the texts it is recognised by. *)
Definition error_classes : list (string * list string) :=
  [("rest_connection_failed", ["connection refused"]);
   ("rest_connection_failed", ["no such host"; "dns"]);
   ("rest_timeout", ["timeout"; "deadline exceeded"]);
   ("rest_certificate_untrusted", ["x509"; "certificate"]);
   ("rest_tls_handshake_failed", ["tls: handshake failure"; "tls:"]);
   ("rest_auth_failed", ["401"; "unauthorized"]);
   ("rest_permission_denied", ["403"; "forbidden"]);
   ("rest_invalid_uri", ["400"; "invalid rest uri"])].
Definition classifyBrocadeRESTError (e : get_error) : string :=
  let msg := ToLower (ge_Msg e) in
  match find (fun '(_, texts) => existsb (Contains msg) texts) error_classes with
  | Some (code, _) => code
  | None => "rest_response_invalid"
  end.

(** ** The adapter *)

Record BrocadeAdapter : Type := {
  ba_profile : TargetProfile;
  ba_client : option Duration;  (* the timeout of the HTTP client; [None] after [Close] *)
  ba_baseURL : string;
  ba_user : string;
  ba_pass : string;
  ba_token : string;
}.

(** The adapter with the readiness registry, the steps taken and the requests
    handed to the HTTP client. *)
Record Env : Type := {
  en_adapter : BrocadeAdapter;
  en_registry : Registry;
  en_tick : nat;
  en_sent : list get_request;
}.

(** Code that may panic: the use of a nil HTTP client. *)
Definition P (A : Type) : Type := Env -> option (A * Env).
#[global] Instance P_ret : MRet P := fun A a e => Some (a, e).
#[global] Instance P_bind : MBind P := fun A B f m e =>
  match m e with Some (a, e') => f a e' | None => None end.

Definition getP {A} (f : Env -> A) : P A := fun e => Some (f e, e).
Definition on_adapter (f : BrocadeAdapter -> BrocadeAdapter) : P unit := fun e =>
  Some (tt, Build_Env (f (en_adapter e)) (en_registry e) (en_tick e) (en_sent e)).
Definition on_registry (f : Registry -> Registry) : P unit := fun e =>
  Some (tt, Build_Env (en_adapter e) (f (en_registry e)) (en_tick e) (en_sent e)).

Definition set_baseURL (u : string) (a : BrocadeAdapter) : BrocadeAdapter :=
  Build_BrocadeAdapter (ba_profile a) (ba_client a) u (ba_user a) (ba_pass a) (ba_token a).

Section Adapter.
(** The network by step, [url.Parse], the decoder of a JSON object ([Ok None]
    for the text null), the clock by step, and the texts of numbers. *)
Context (network : nat -> get_request -> get_answer) (url_parses : string -> bool).
Context (decode : buf -> result string (option payload)) (clock : nat -> GoTime).
Context (fmt_v fmt_f fmt_1f : Q -> string) (Sscanf_f : string -> option Q) (log10_10 : Q -> Q).

Definition now : P GoTime := fun e =>
  Some (clock (en_tick e), Build_Env (en_adapter e) (en_registry e) (S (en_tick e)) (en_sent e)).

Definition credentials (a : BrocadeAdapter) : auth :=
  if negb (String.eqb (ba_token a) "") then Bearer (ba_token a)
  else if negb (String.eqb (ba_user a) "") && negb (String.eqb (ba_pass a) "") then Basic (ba_user a) (ba_pass a)
  else NoAuth.

(** [a.client.Do(req)]. *)
Definition client_do (r : get_request) : P get_answer := fun e =>
  match ba_client (en_adapter e) with
  | None => None
  | Some _ => Some (network (en_tick e) r,
                    Build_Env (en_adapter e) (en_registry e) (S (en_tick e)) (en_sent e ++ [r]))
  end.

(** [io.LimitReader] cuts the body at five megabytes. *)
Definition body_limit : nat := N.to_nat (5 * 1024 * 1024).
Definition read_body (status : Z) (body : option buf) : result get_error (option payload) :=
  match body with
  | None => Err (plain_error "read body")
  | Some b =>
      let b := take body_limit b in
      if 400 <=? status then
        Err (plain_error ("HTTP " +:+ pretty status +:+ ": " +:+ text_of (take 200 b)))
      else match decode b with Ok m => Ok m | Err e => Err (plain_error e) end
  end.

Definition brocadeGet (path : string) : P (result get_error (option payload)) :=
  a ← getP en_adapter;
  let url := ba_baseURL a +:+ path in
  if negb (url_parses url) then mret (Err (plain_error ("parse " +:+ url)))
  else
    answer ← client_do {| gr_URL := url; gr_Auth := credentials a |};
    mret match answer with
         | GetError e => Err e
         | GetAnswer status body => read_body status body
         end.

(** ** Verification *)

Definition chassis_path : string := "/rest/running/brocade-chassis/chassis".

Definition record_failure (code reason : string) : P unit :=
  a ← getP en_adapter; t ← now;
  on_registry (RecordFailure t (tp_TargetID (ba_profile a)) code reason).
Definition record_success : P unit :=
  a ← getP en_adapter; t ← now;
  on_registry (RecordSuccess t (tp_TargetID (ba_profile a))
    (brocadeRESTSecurityState (ba_baseURL a) (tls_InsecureSkipVerify (tp_TLS (ba_profile a))))
    (NormalizeTLSPolicy (tls_Policy (tp_TLS (ba_profile a))))).

Definition init_timeout (profile : TargetProfile) : Duration :=
  let secs := rl_TimeoutSecs (tp_ResourceLimits profile) in
  let timeout := if 0 <? secs then wrap64 (secs * Second) else 15 * Second in
  if 30 * Second <? timeout then 30 * Second else timeout.

Definition cred (creds : Creds) (k : string) : string := default "" (creds !! k).

(** The fields that [Init] sets; an empty token leaves the previous one. *)
Definition configured (profile : TargetProfile) (creds : Creds) (a : BrocadeAdapter) : BrocadeAdapter :=
  {| ba_profile := profile; ba_client := Some (init_timeout profile); ba_baseURL := tp_Endpoint profile;
     ba_user := cred creds "username"; ba_pass := cred creds "password";
     ba_token := if negb (String.eqb (cred creds "token") "") then cred creds "token"
                 else if negb (String.eqb (cred creds "api_token") "") then cred creds "api_token"
                 else ba_token a |}.

Definition NewBrocadeAdapter (profile : TargetProfile) : BrocadeAdapter :=
  Build_BrocadeAdapter profile None "" "" "" "".

Definition http_fallback : P (result string unit) :=
  a ← getP en_adapter;
  on_adapter (set_baseURL ("http://" +:+ TrimPrefix (ba_baseURL a) "https://")) ;;
  r ← brocadeGet chassis_path;
  match r with
  | Err e =>
      record_failure (classifyBrocadeRESTError e) "rest verification failed on https and http" ;;
      mret (Err ("Brocade FOS REST verification failed (tried HTTPS and HTTP): " +:+ ge_Msg e))
  | Ok _ => record_success ;; mret (Ok tt)
  end.

Definition Init (profile : TargetProfile) (creds : Creds) : P (result string unit) :=
  on_adapter (configured profile creds) ;;
  r ← brocadeGet chassis_path;
  match r with
  | Err e =>
      a ← getP en_adapter;
      if HasPrefix (ba_baseURL a) "https://" && isConnRefused e then http_fallback
      else
        record_failure (classifyBrocadeRESTError e) "rest verification failed" ;;
        mret (Err ("Brocade FOS REST verification failed: " +:+ ge_Msg e))
  | Ok _ => record_success ;; mret (Ok tt)
  end.

(** ** Collection *)

Definition fetch (path : string) : P (option payload) :=
  r ← brocadeGet path; mret match r with Ok m => m | Err _ => None end.
Definition fetched (path : string) : P payload := m ← fetch path; mret (default ∅ m).

Definition collect_chassis : P payload :=
  r ← brocadeGet chassis_path;
  match r with
  | Err e => record_failure (classifyBrocadeRESTError e) "chassis fetch failed" ;; mret ∅
  | Ok m => record_success ;; mret (default ∅ m)
  end.

(** Power supplies first: the single endpoint of older versions is the
    fallback. *)
Definition collect_fru : P payload :=
  blade ← fetch "/rest/running/brocade-fru/blade";
  ps ← fetch "/rest/running/brocade-fru/power-supply";
  match mergeBrocadeFru blade ps with
  | Some fru => mret fru
  | None => fetched "/rest/running/brocade-fru/fru"
  end.

Definition collect_raw : P Raw :=
  chassis ← collect_chassis;
  switchInfo ← fetched "/rest/running/brocade-fibrechannel-switch/fibrechannel-switch";
  ports ← fetched "/rest/running/brocade-interface/fibrechannel";
  media ← fetched "/rest/running/brocade-media/media-rdp";
  zoneConfig ← fetched "/rest/running/brocade-zone/effective-configuration";
  definedConfig ← fetched "/rest/running/brocade-zone/defined-configuration";
  fabricInfo ← fetched "/rest/running/brocade-fabric/fabric-switch";
  fru ← collect_fru;
  mret (Build_Raw chassis switchInfo ports media zoneConfig definedConfig fabricInfo fru).

(** [Collect] never reports an error. *)
Definition Collect : P (payload * list SnapshotSignal) :=
  t ← now;
  r ← collect_raw;
  mret (collect_result fmt_v fmt_f fmt_1f Sscanf_f log10_10 (FormatRFC3339 t) r).

Definition HealthCheck : P (result get_error unit) :=
  r ← brocadeGet chassis_path; mret match r with Ok _ => Ok tt | Err e => Err e end.

Definition Close : P unit := on_adapter (fun a =>
  Build_BrocadeAdapter (ba_profile a) None (ba_baseURL a) (ba_user a) (ba_pass a) (ba_token a)).
End Adapter.
