(* ===== verification/BrocadeAdapterProps.v ===== *)
(** Properties of the Brocade adapter. *)
From S2P Require Import Prelude GoStrings GoTime Types Policy Readiness LocalDB.
From S2P Require Import BrocadeSnapshot BrocadeAdapter.
From Stdlib Require Import QArith Strings.Byte.

Local Open Scope Z_scope.

(** ** Requests *)

Definition brocade_paths : list string :=
  [chassis_path; "/rest/running/brocade-fibrechannel-switch/fibrechannel-switch";
   "/rest/running/brocade-interface/fibrechannel"; "/rest/running/brocade-media/media-rdp";
   "/rest/running/brocade-zone/effective-configuration"; "/rest/running/brocade-zone/defined-configuration";
   "/rest/running/brocade-fabric/fabric-switch"; "/rest/running/brocade-fru/blade";
   "/rest/running/brocade-fru/power-supply"; "/rest/running/brocade-fru/fru"].

(** A request of this adapter: a known path of its base URL with its
    credentials. *)
Definition own (a : BrocadeAdapter) (r : get_request) : Prop :=
  gr_Auth r = credentials a /\ exists path, path ∈ brocade_paths /\ gr_URL r = ba_baseURL a +:+ path.

(** With an HTTP client, the code does not panic, leaves the adapter alone and
    sends requests of its own only. *)
Definition quiet {A} (m : P A) : Prop := forall e,
  is_Some (ba_client (en_adapter e)) ->
  exists a e', m e = Some (a, e') /\ en_adapter e' = en_adapter e
    /\ exists l, en_sent e' = en_sent e ++ l /\ Forall (own (en_adapter e)) l.

Lemma quiet_ret {A} (a : A) : quiet (mret a).
Proof. intros e _. exists a, e. split; [done|]. split; [done|]. exists []. by rewrite app_nil_r. Qed.
Lemma quiet_getP {A} (f : Env -> A) : quiet (getP f).
Proof. intros e _. exists (f e), e. split; [done|]. split; [done|]. exists []. by rewrite app_nil_r. Qed.
Lemma quiet_on_registry f : quiet (on_registry f).
Proof. intros e _. eexists _, _. split; [done|]. split; [done|]. exists []. by rewrite app_nil_r. Qed.
Lemma quiet_bind {A B} (m : P A) (f : A -> P B) : quiet m -> (forall a, quiet (f a)) -> quiet (m ≫= f).
Proof.
  intros Hm Hf e He. destruct (Hm e He) as (a & e1 & E1 & Ha1 & l1 & L1 & F1).
  destruct (Hf a e1) as (b & e2 & E2 & Ha2 & l2 & L2 & F2); [by rewrite Ha1|].
  exists b, e2. unfold mbind, P_bind. rewrite E1. split; [done|]. split; [congruence|].
  exists (l1 ++ l2). rewrite L2, L1, app_assoc. split; [done|]. rewrite Ha1 in F2. by apply Forall_app.
Qed.

Section Calls.
Context (network : nat -> get_request -> get_answer) (url_parses : string -> bool).
Context (decode : buf -> result string (option payload)) (clock : nat -> GoTime).
Context (fmt_v fmt_f fmt_1f : Q -> string) (Sscanf_f : string -> option Q) (log10_10 : Q -> Q).

Abbreviation get := (brocadeGet network url_parses decode).
Abbreviation failure := (record_failure clock).
Abbreviation success := (record_success clock).

Lemma quiet_now : quiet (now clock).
Proof. intros e _. eexists _, _. split; [done|]. split; [done|]. exists []. by rewrite app_nil_r. Qed.

Lemma quiet_get path : path ∈ brocade_paths -> quiet (get path).
Proof.
  intros Hp e [t Ht]. unfold brocadeGet, getP, mbind, P_bind.
  destruct (negb (url_parses _)); [by apply quiet_ret|]. unfold client_do. rewrite Ht.
  eexists _, _. split; [done|]. split; [done|]. eexists [_]. split; [done|].
  constructor; [|done]. split; [done|]. by exists path.
Qed.

Lemma quiet_failure code reason : quiet (failure code reason).
Proof. repeat first [apply quiet_bind; intros | apply quiet_getP | apply quiet_now | apply quiet_on_registry]. Qed.
Lemma quiet_success : quiet success.
Proof. repeat first [apply quiet_bind; intros | apply quiet_getP | apply quiet_now | apply quiet_on_registry]. Qed.

Create HintDb quiet.
#[local] Hint Resolve quiet_ret quiet_getP quiet_now quiet_failure quiet_success : quiet.

Ltac quiet_steps :=
  repeat first [ apply quiet_get; set_solver | solve [eauto with quiet] | apply quiet_bind; intros | case_match ].

Lemma quiet_fetch path : path ∈ brocade_paths -> quiet (fetch network url_parses decode path).
Proof. intros Hp. apply quiet_bind; [by apply quiet_get|intros; apply quiet_ret]. Qed.

Lemma quiet_Collect : quiet (Collect network url_parses decode clock fmt_v fmt_f fmt_1f Sscanf_f log10_10).
Proof.
  assert (Hp : forall path, path ∈ brocade_paths -> quiet (fetched network url_parses decode path)).
  { intros path H. apply quiet_bind; [by apply quiet_fetch|intros; apply quiet_ret]. }
  unfold Collect, collect_raw, collect_chassis, collect_fru.
  repeat first [ apply quiet_get; set_solver | apply Hp; set_solver | apply quiet_fetch; set_solver
               | solve [eauto with quiet] | apply quiet_bind; intros | case_match ].
Qed.

Lemma quiet_HealthCheck : quiet (HealthCheck network url_parses decode).
Proof. unfold HealthCheck. quiet_steps. Qed.

(** ** Verification *)

(** The registry's entry of the adapter's target says what was found. *)
Definition recorded (ready : bool) (e : Env) : Prop :=
  let a := en_adapter e in
  tp_TargetID (ba_profile a) <> "" ->
  exists ob, en_registry e !! tp_TargetID (ba_profile a) = Some ob
    /\ rf_RESTReady (ob_Readiness ob) = ready
    /\ (ready = true -> rf_RESTSecurityState (ob_Readiness ob)
          = brocadeRESTSecurityState (ba_baseURL a) (tls_InsecureSkipVerify (tp_TLS (ba_profile a)))).

Lemma failure_recorded code reason e :
  exists e', failure code reason e = Some (tt, e') /\ recorded false e' /\ en_adapter e' = en_adapter e
    /\ en_sent e' = en_sent e.
Proof.
  eexists. split; [done|]. split; [|done]. intros Hid. cbn in *. unfold RecordFailure.
  apply String.eqb_neq in Hid. rewrite Hid. eexists. rewrite lookup_insert_eq. by split_and!.
Qed.

Lemma success_recorded e :
  exists e', success e = Some (tt, e') /\ recorded true e' /\ en_adapter e' = en_adapter e
    /\ en_sent e' = en_sent e.
Proof.
  eexists. split; [done|]. split; [|done]. intros Hid. cbn in *. unfold RecordSuccess.
  apply String.eqb_neq in Hid. rewrite Hid. eexists. rewrite lookup_insert_eq. by split_and!.
Qed.

Lemma get_quiet e path r e' :
  is_Some (ba_client (en_adapter e)) -> path ∈ brocade_paths -> get path e = Some (r, e') ->
  en_adapter e' = en_adapter e /\ exists l, en_sent e' = en_sent e ++ l /\ Forall (own (en_adapter e)) l.
Proof. intros He Hp E. destruct (quiet_get path Hp e He) as (? & ? & E' & H). rewrite E in E'. by injection E' as <- <-. Qed.

(** Where a verified adapter talks to: its endpoint, or the same over HTTP
    when the first request was refused. *)
Definition verified_base (profile : TargetProfile) (first : result get_error (option payload)) (base : string) : Prop :=
  base = tp_Endpoint profile
  \/ HasPrefix (tp_Endpoint profile) "https://" = true
     /\ base = "http://" +:+ TrimPrefix (tp_Endpoint profile) "https://"
     /\ exists err, first = Err err /\ isConnRefused err = true.

Lemma Init_spec profile creds e :
  exists r e1 first e0,
    Init network url_parses decode clock profile creds e = Some (r, e1)
    /\ get chassis_path (Build_Env (configured profile creds (en_adapter e)) (en_registry e) (en_tick e) (en_sent e))
       = Some (first, e0)
    /\ en_adapter e1 = set_baseURL (ba_baseURL (en_adapter e1)) (configured profile creds (en_adapter e))
    /\ verified_base profile first (ba_baseURL (en_adapter e1))
    /\ recorded (is_ok r) e1
    /\ exists l, en_sent e1 = en_sent e ++ l
         /\ Forall (fun q => own (configured profile creds (en_adapter e)) q \/ own (en_adapter e1) q) l.
Proof.
  unfold Init, on_adapter. unfold mbind at 1, P_bind at 1.
  set (a0 := configured profile creds (en_adapter e)).
  set (e00 := Build_Env a0 (en_registry e) (en_tick e) (en_sent e)).
  assert (Hc : is_Some (ba_client a0)) by (by eexists).
  destruct (quiet_get chassis_path ltac:(set_solver) e00 Hc) as (first & e0 & E0 & Ha & l & Hl & Hf).
  unfold mbind at 1, P_bind at 1. rewrite E0. cbn [en_adapter e00] in Ha, Hf.
  assert (Hf' : forall a1, Forall (fun q => own a0 q \/ own a1 q) l).
  { intros a1. eapply Forall_impl; [exact Hf|]. by left. }
  assert (Ha0 : a0 = set_baseURL (ba_baseURL a0) a0) by done.
  destruct first as [m|err].
  - destruct (success_recorded e0) as (e1 & E1 & Hr & Ha1 & Hs1).
    exists (Ok tt), e1, (Ok m), e0. unfold mbind, P_bind. rewrite E1. rewrite Ha1, Ha.
    split_and!; [done|done|done|by left|done|]. exists l. by rewrite Hs1, Hl.
  - unfold mbind at 1, P_bind at 1, getP at 1.
    destruct (HasPrefix (ba_baseURL (en_adapter e0)) "https://" && isConnRefused err) eqn:Eh.
    + apply andb_true_iff in Eh as [Eh1 Eh2]. rewrite Ha in Eh1.
      unfold http_fallback. unfold mbind at 1, P_bind at 1, getP at 1.
      unfold mbind at 1, P_bind at 1, on_adapter at 1. rewrite Ha.
      set (a1 := set_baseURL ("http://" +:+ TrimPrefix (ba_baseURL a0) "https://") a0).
      set (e01 := Build_Env a1 (en_registry e0) (en_tick e0) (en_sent e0)).
      destruct (quiet_get chassis_path ltac:(set_solver) e01 Hc) as (second & e2 & E2 & Ha2 & l2 & Hl2 & Hf2).
      unfold mbind at 1, P_bind at 1. rewrite E2. cbn [en_adapter e01] in Ha2, Hf2.
      assert (Hb : verified_base profile (Err err) (ba_baseURL a1)).
      { right. split; [done|]. split; [done|]. by exists err. }
      assert (Hll : en_sent e2 = en_sent e ++ (l ++ l2)
        /\ Forall (fun q => own a0 q \/ own a1 q) (l ++ l2)).
      { split; [by rewrite Hl2, app_assoc; f_equal|]. apply Forall_app. split; [apply Hf'|].
        eapply Forall_impl; [exact Hf2|]. by right. }
      destruct second as [m|err2].
      * destruct (success_recorded e2) as (e3 & E3 & Hr & Ha3 & Hs3).
        exists (Ok tt), e3, (Err err), e0. unfold mbind, P_bind. rewrite E3, Ha3, Ha2.
        split_and!; [done..|]. exists (l ++ l2). by rewrite Hs3.
      * destruct (failure_recorded (classifyBrocadeRESTError err2) "rest verification failed on https and http" e2)
          as (e3 & E3 & Hr & Ha3 & Hs3).
        eexists _, e3, (Err err), e0. unfold mbind, P_bind. rewrite E3. split; [done|].
        rewrite Ha3, Ha2. split_and!; [done..|]. exists (l ++ l2). by rewrite Hs3.
    + destruct (failure_recorded (classifyBrocadeRESTError err) "rest verification failed" e0)
        as (e1 & E1 & Hr & Ha1 & Hs1).
      eexists _, e1, (Err err), e0. unfold mbind, P_bind. rewrite E1. split; [done|].
      rewrite Ha1, Ha. split_and!; [done|done|by left|done|]. exists l. by rewrite Hs1, Hl.
Qed.
End Calls.

(** What a worker does with a verified adapter. *)
Inductive adapter_call : Type := CallCollect | CallHealthCheck.

Section Runs.
Context (network : nat -> get_request -> get_answer) (url_parses : string -> bool).
Context (decode : buf -> result string (option payload)) (clock : nat -> GoTime).
Context (fmt_v fmt_f fmt_1f : Q -> string) (Sscanf_f : string -> option Q) (log10_10 : Q -> Q).

Definition run_adapter_call (c : adapter_call) : P unit :=
  match c with
  | CallCollect =>
      _ ← Collect network url_parses decode clock fmt_v fmt_f fmt_1f Sscanf_f log10_10; mret tt
  | CallHealthCheck => _ ← HealthCheck network url_parses decode; mret tt
  end.
Fixpoint run_adapter_calls (cs : list adapter_call) : P unit :=
  match cs with
  | [] => mret tt
  | c :: rest => run_adapter_call c ;; run_adapter_calls rest
  end.

Lemma quiet_calls cs : quiet (run_adapter_calls cs).
Proof.
  induction cs as [|c cs IH]; [apply quiet_ret|]. apply quiet_bind; [|intros _; exact IH].
  destruct c; apply quiet_bind; [apply quiet_Collect|..|apply quiet_HealthCheck|]; intros; apply quiet_ret.
Qed.
End Runs.


(** ** Codes *)

Definition rest_codes : list string :=
  ["rest_connection_failed"; "rest_timeout"; "rest_certificate_untrusted"; "rest_tls_handshake_failed";
   "rest_auth_failed"; "rest_permission_denied"; "rest_invalid_uri"; "rest_response_invalid"].

(** No raw error text reaches the registry. *)
Lemma classify_code e : classifyBrocadeRESTError e ∈ rest_codes.
Proof.
  unfold classifyBrocadeRESTError.
  destruct (find _ error_classes) as [[code texts]|] eqn:E; [|unfold rest_codes; set_solver].
  apply find_some in E as [E _]. unfold error_classes in E. simpl in E.
  repeat (destruct E as [[= <- _]|E]; [unfold rest_codes; set_solver|]). done.
Qed.

(** Any text that mentions a refused connection counts as one, also the body
    of an error answer, which may have come over a verified connection. *)
Lemma answer_text_refuses decode :
  match read_body decode 502 (Some (buf_of "upstream connection refused")) with
  | Err e => isConnRefused e = true
  | Ok _ => False
  end.
Proof. vm_compute. reflexivity. Qed.
