(* ===== verification/BrocadeSnapshotProps.v ===== *)
(** Properties of the normalised Brocade snapshot and its signals. *)
From S2P Require Import Prelude GoStrings GoPath Types LocalDB BrocadeSnapshot.
From Stdlib Require Import QArith Ascii.

Local Open Scope Z_scope.

(** ** Counting *)

Lemma count_cons {A} (f : A -> bool) x l : count f (x :: l) = (if f x then 1 else 0) + count f l.
Proof. unfold count. rewrite filter_cons. destruct (f x); case_decide; simpl; try done; lia. Qed.

Lemma count_nonneg {A} (f : A -> bool) l : 0 <= count f l.
Proof. unfold count. lia. Qed.

Lemma count_pos {A} (f : A -> bool) (l : list A) : 0 < count f l <-> Exists (fun x => f x = true) l.
Proof.
  induction l as [|x l IH]; [split; [done|by intros ?%Exists_nil]|].
  rewrite count_cons, Exists_cons, <- IH. pose proof (count_nonneg f l). destruct (f x); [|naive_solver lia].
  split; [by left|lia].
Qed.

(** Every port is online, faulty or offline. *)
Lemma ports_partition Sscanf_f ps :
  count (port_online Sscanf_f) ps + count (port_faulty Sscanf_f) ps + count (port_offline Sscanf_f) ps
  = Z.of_nat (length ps).
Proof.
  induction ps as [|p ps IH]; [done|]. rewrite !count_cons. cbn [length]. unfold port_offline at 1.
  destruct (port_online Sscanf_f p) eqn:E1, (port_faulty Sscanf_f p) eqn:E2; cbn [negb andb]; try lia.
  unfold port_online, port_faulty in *. lia.
Qed.

(** ** Keys of signals *)

Definition has (k : string) (l : list SnapshotSignal) : Prop := k ∈ map sig_Key l.

Lemma has_nil k : has k [] <-> False.
Proof. unfold has. simpl. by rewrite elem_of_nil. Qed.
Lemma has_one k s : has k [s] <-> k = sig_Key s.
Proof. unfold has. simpl. by rewrite list_elem_of_singleton. Qed.
Lemma has_app k l l' : has k (l ++ l') <-> has k l \/ has k l'.
Proof. unfold has. by rewrite map_app, elem_of_app. Qed.
Lemma has_if k b s : has k (signal_if b s) <-> b = true /\ k = sig_Key s.
Proof. unfold signal_if. destruct b; rewrite ?has_one, ?has_nil; naive_solver. Qed.
Lemma has_flat_map {A} k (f : A -> list SnapshotSignal) l :
  has k (flat_map f l) <-> Exists (fun x => has k (f x)) l.
Proof.
  induction l as [|x l IH]; simpl; [rewrite has_nil; split; [done|by intros ?%Exists_nil]|].
  by rewrite has_app, Exists_cons, IH.
Qed.

Section Signals.
Context (fmt_v fmt_f fmt_1f : Q -> string) (Sscanf_f : string -> option Q) (log10_10 : Q -> Q).

Abbreviation normalize := (normalizeBrocadeSnapshot fmt_v fmt_f Sscanf_f).
Abbreviation signals := (extractBrocadeSignals fmt_v fmt_1f Sscanf_f log10_10).

(** ** Fields of the snapshot *)

(** The payload after the two internal fields are removed. *)
Definition published (r : Raw) : payload :=
  delete "_switchStateRaw" (delete "_switchStateSource" (normalize r)).

Ltac lookup_field := unfold published, normalizeBrocadeSnapshot, add_zoning, add_ports;
  rewrite ?lookup_delete_ne by discriminate;
  repeat first [rewrite lookup_insert_eq | rewrite lookup_insert_ne by discriminate]; reflexivity.

Definition port_items (r : Raw) : list payload := item_maps (brocadeExtractArray (raw_ports r) "fibrechannel").
Definition media_items (r : Raw) : list payload := item_maps (brocadeExtractArray (raw_media r) "media-rdp").
Definition fru_items (r : Raw) : list payload := item_maps (brocadeExtractFruItems (raw_fru r)).

Lemma published_ports r :
  exists ports, published r !! "ports" = Some (VMap ports)
    /\ ports !! "disabled" = Some (VInt (count (port_disabled Sscanf_f) (port_items r)))
    /\ ports !! "withErrors" = Some (VInt (count (port_faulty Sscanf_f) (port_items r)))
    /\ ports !! "faulty" = Some (VInt (count (port_faulty Sscanf_f) (port_items r)))
    /\ ports !! "ePort" = Some (VInt (count (is_ePort Sscanf_f) (port_items r))).
Proof. eexists. split; [lookup_field|]. by split_and!. Qed.
Lemma published_faulty r :
  published r !! "portsFaulty" = Some (VInt (count (port_faulty Sscanf_f) (port_items r))).
Proof. lookup_field. Qed.
Lemma published_sfp r :
  published r !! "sfpWarnings" = Some (VInt (count hasBrocadeMediaWarning (media_items r))).
Proof. lookup_field. Qed.
Lemma published_raw r : published r !! "_raw" = Some (VMap (raw_data r)).
Proof. lookup_field. Qed.
Lemma published_fabric r :
  published r !! "fabricSwitchCount"
  = Some (VInt (Z.of_nat (length (brocadeExtractArray (raw_fabric r) "fabric-switch")))).
Proof. lookup_field. Qed.
Lemma published_zoning r :
  published r !! "zoningActiveCfg"
  = Some (VString (zn_activeCfgName (zoning_of (raw_zoneConfig r) (raw_definedConfig r)))).
Proof. lookup_field. Qed.

(** The state of the switch, if it answered. *)
Definition switch_state (r : Raw) : option string :=
  sd_State ∘ deriveBrocadeSwitchState fmt_f <$> brocadeExtractFirst (raw_switchInfo r) "fibrechannel-switch".

Lemma set_text_other key text k out : k <> key -> set_text key text out !! k = out !! k.
Proof. intros H. unfold set_text. destruct (String.eqb text ""); [done|]. by rewrite lookup_insert_ne. Qed.

Lemma add_chassis_other ch out k :
  k ∉ ["model"; "serialNumber"; "productName"; "chassisName"] -> add_chassis fmt_v ch out !! k = out !! k.
Proof.
  intros H. unfold add_chassis. rewrite !lookup_insert_ne by set_solver. rewrite set_text_other by set_solver.
  repeat case_match; rewrite ?lookup_insert_ne by set_solver; apply set_text_other; set_solver.
Qed.

Lemma published_state r : text_at (published r) "switchState" = switch_state r.
Proof.
  unfold text_at, published, normalizeBrocadeSnapshot, add_zoning, add_ports.
  rewrite !lookup_delete_ne by discriminate. rewrite !lookup_insert_ne by discriminate.
  set (out := match brocadeExtractFirst (raw_switchInfo r) _ with Some sw => _ | None => _ end).
  assert (Hout : out !! "switchState" = VString <$> switch_state r).
  { unfold out, switch_state. destruct (brocadeExtractFirst _ _) as [sw|]; [|done]. unfold add_switch.
    by rewrite !lookup_insert_ne, lookup_insert_eq by discriminate. }
  destruct (brocadeExtractFirst (raw_chassis r) "chassis"); [rewrite add_chassis_other by set_solver|];
    rewrite Hout; by destruct (switch_state r).
Qed.

(** ** The signals of a published snapshot *)

Definition media_class (r : Raw) (m : payload) : media_status :=
  fst (classifyBrocadeMedia fmt_v fmt_1f Sscanf_f log10_10 m
         (bool_decide (port_states fmt_v Sscanf_f (raw_data r) !! brocadeStr fmt_v m ["name"] = Some 2))).

Lemma media_signal_keys states m k :
  has k (media_signal fmt_v fmt_1f Sscanf_f log10_10 states m)
  <-> let c := fst (classifyBrocadeMedia fmt_v fmt_1f Sscanf_f log10_10 m
                     (bool_decide (states !! brocadeStr fmt_v m ["name"] = Some 2))) in
      c = MediaAlarm /\ k = "sfp.alarm" \/ c = MediaWarning /\ k = "sfp.out_of_range".
Proof.
  unfold media_signal. destruct (classifyBrocadeMedia _ _ _ _ _ _) as [[] reasons]; simpl;
    rewrite ?has_nil, ?has_one; simpl; naive_solver.
Qed.

Definition psu_failed (m : payload) : bool := is_psu fmt_v m && fru_failed fmt_v m.
Definition fan_failed (m : payload) : bool := is_fan fmt_v m && fru_failed fmt_v m.

Definition is_unknown (st : option string) : Prop :=
  match st with None => True | Some s => s = "" \/ EqualFold s "unknown" = true end.

Lemma switch_keys r k :
  has k (switch_signals (published r))
  <-> is_unknown (switch_state r) /\ k = "switch.unknown"
      \/ ~ is_unknown (switch_state r) /\ EqualFold (default "" (switch_state r)) "online" = false
         /\ k = "switch.unhealthy".
Proof.
  unfold switch_signals. rewrite published_state. unfold is_unknown. destruct (switch_state r) as [s|]; simpl.
  - destruct (String.eqb_spec s ""), (EqualFold s "unknown"); simpl; rewrite ?has_one, ?has_if, ?negb_true_iff;
      simpl; naive_solver.
  - rewrite has_one. naive_solver.
Qed.

Lemma error_ports_eq r ports :
  published r !! "ports" = Some (VMap ports) ->
  error_ports (published r) ports = count (port_faulty Sscanf_f) (port_items r).
Proof.
  intros H. destruct (published_ports r) as (ports' & H' & _ & H1 & H2 & _). rewrite H in H'. injection H' as <-.
  unfold error_ports. rewrite H1, H2, published_faulty. cbn [toInt].
  by destruct (count _ _ =? 0) eqn:E; rewrite E.
Qed.

Lemma port_keys r k :
  has k (port_signals (published r))
  <-> Exists (fun p => port_disabled Sscanf_f p = true) (port_items r) /\ k = "port.disabled"
      \/ Exists (fun p => port_faulty Sscanf_f p = true) (port_items r) /\ k = "port.errors".
Proof.
  destruct (published_ports r) as (ports & H & H1 & _). unfold port_signals. rewrite H, H1, (error_ports_eq r ports H).
  cbn [toInt]. rewrite has_app, !has_if, !Z.ltb_lt, !count_pos. done.
Qed.

Lemma media_keys r k :
  has k (media_signals fmt_v fmt_1f Sscanf_f log10_10 (raw_data r))
  <-> Exists (fun m => media_class r m = MediaAlarm) (media_items r) /\ k = "sfp.alarm"
      \/ Exists (fun m => media_class r m = MediaWarning) (media_items r) /\ k = "sfp.out_of_range".
Proof.
  unfold media_signals. change (raw_data r !! "media") with (Some (VMap (raw_media r))).
  rewrite has_flat_map. fold (media_items r).
  split.
  - intros (m & Hm & H)%Exists_exists. apply media_signal_keys in H as [[Hc ->]|[Hc ->]]; [left|right];
      (split; [|done]); apply Exists_exists; by exists m.
  - intros [[(m & Hm & Hc)%Exists_exists ->]|[(m & Hm & Hc)%Exists_exists ->]]; apply Exists_exists; exists m;
      (split; [done|]); apply media_signal_keys; [by left|by right].
Qed.

Lemma fru_keys r k :
  has k (fru_signals fmt_v (raw_data r))
  <-> Exists (fun m => psu_failed m = true) (fru_items r) /\ k = "hardware.psu.failed"
      \/ (~ Exists (fun m => psu_failed m = true) (fru_items r) /\ count (is_psu fmt_v) (fru_items r) = 1
          /\ k = "hardware.psu.missing")
      \/ Exists (fun m => fan_failed m = true) (fru_items r) /\ k = "hardware.fan.failed".
Proof.
  unfold fru_signals. change (raw_data r !! "fru") with (Some (VMap (raw_fru r))). unfold fru_counts.
  fold (fru_items r). rewrite has_app, has_if, Z.ltb_lt. fold psu_failed fan_failed. rewrite (count_pos fan_failed).
  destruct (Z.ltb_spec 0 (count psu_failed (fru_items r))) as [Hp|Hp].
  - rewrite has_one. apply count_pos in Hp. simpl. naive_solver.
  - rewrite has_if, Z.eqb_eq. assert (~ Exists (fun m => psu_failed m = true) (fru_items r)).
    { rewrite <- count_pos. lia. } simpl. naive_solver.
Qed.

Lemma sfp_keys r k :
  has k (sfp_summary (published r) (media_signals fmt_v fmt_1f Sscanf_f log10_10 (raw_data r)))
  <-> Forall (fun m => media_class r m = MediaOk) (media_items r)
      /\ Exists (fun m => hasBrocadeMediaWarning m = true) (media_items r) /\ k = "sfp.warning".
Proof.
  unfold sfp_summary. rewrite published_sfp. simpl toInt.
  assert (Hnil : media_signals fmt_v fmt_1f Sscanf_f log10_10 (raw_data r) = []
    <-> Forall (fun m => media_class r m = MediaOk) (media_items r)).
  { split.
    - intros E. apply Forall_forall. intros m Hm. destruct (media_class r m) eqn:Ec; [done|exfalso..];
        [apply (has_nil "sfp.out_of_range")|apply (has_nil "sfp.alarm")]; rewrite <- E; apply media_keys;
        rewrite !Exists_exists; naive_solver.
    - intros Hf. destruct (media_signals _ _ _ _ _) as [|x l] eqn:E; [done|].
      assert (Hx : has (sig_Key x) (media_signals fmt_v fmt_1f Sscanf_f log10_10 (raw_data r)))
        by (rewrite E; apply list_elem_of_here).
      apply media_keys in Hx. rewrite !Exists_exists in Hx. rewrite Forall_forall in Hf.
      destruct Hx as [[(m & Hm & Hc) _]|[(m & Hm & Hc) _]]; rewrite (Hf m Hm) in Hc; discriminate. }
  destruct (media_signals _ _ _ _ _) as [|x l].
  - rewrite has_if, Z.ltb_lt, count_pos. simpl. naive_solver.
  - rewrite has_nil. naive_solver.
Qed.

Lemma zoning_keys r k :
  has k (zoning_signals (published r))
  <-> TrimSpace (zn_activeCfgName (zoning_of (raw_zoneConfig r) (raw_definedConfig r))) = ""
      /\ k = "zoning.no_active_cfg".
Proof.
  unfold zoning_signals, text_at. rewrite published_zoning. simpl default.
  by rewrite has_if, String.eqb_eq.
Qed.

Definition segmented (r : Raw) : Prop :=
  Exists (fun p => is_ePort Sscanf_f p = true) (port_items r)
  /\ brocadeExtractArray (raw_fabric r) "fabric-switch" = []
  /\ EqualFold (default "" (switch_state r)) "online" = true.

Lemma fabric_keys r k : has k (fabric_signals (published r)) <-> segmented r /\ k = "fabric.segmented".
Proof.
  destruct (published_ports r) as (ports & H & _ & _ & _ & H1).
  unfold fabric_signals, ePortCount, segmented. rewrite H, H1, published_fabric, published_state. simpl toInt.
  rewrite has_if, !andb_true_iff, Z.ltb_lt, Z.eqb_eq, count_pos.
  assert (Hl : Z.of_nat (length (brocadeExtractArray (raw_fabric r) "fabric-switch")) = 0
    <-> brocadeExtractArray (raw_fabric r) "fabric-switch" = []).
  { destruct (brocadeExtractArray _ _); simpl; split; try done; lia. }
  rewrite Hl. tauto.
Qed.

(** The key of a signal tells its segment. *)
Lemma signal_keys r k :
  has k (signals (published r))
  <-> has k (switch_signals (published r)) \/ has k (port_signals (published r))
      \/ has k (media_signals fmt_v fmt_1f Sscanf_f log10_10 (raw_data r)) \/ has k (fru_signals fmt_v (raw_data r))
      \/ has k (sfp_summary (published r) (media_signals fmt_v fmt_1f Sscanf_f log10_10 (raw_data r)))
      \/ has k (zoning_signals (published r)) \/ has k (fabric_signals (published r)).
Proof. unfold extractBrocadeSignals, raw_signals. rewrite published_raw. by rewrite !has_app. Qed.
End Signals.


(** A role that is sent as a text and not as a number is reported as
    subordinate, also "Principal". *)
Lemma text_role_is_subordinate (fmt_v : Q -> string) (Sscanf_f : string -> option Q) (sw : payload) (s : string) :
  sw !! "switch-role" = Some (VString s) -> s <> "" -> Sscanf_f s = None ->
  switch_role fmt_v Sscanf_f sw = Some "Subordinate".
Proof.
  intros Hs Hne Hp. unfold switch_role. cbn [brocadeNum brocadeStr]. rewrite Hs, Hp.
  apply String.eqb_neq in Hne. by rewrite Hne.
Qed.

(** Answers that could not be fetched look like an empty switch: no ports and
    no active zoning. *)
Lemma no_answer_is_empty_switch fmt_v fmt_f fmt_1f Sscanf_f log10_10 collectedAt :
  let r := Build_Raw ∅ ∅ ∅ ∅ ∅ ∅ ∅ ∅ in
  published fmt_v fmt_f Sscanf_f r !! "portTotal" = Some (VInt 0)
  /\ has "zoning.no_active_cfg" (snd (collect_result fmt_v fmt_f fmt_1f Sscanf_f log10_10 collectedAt r)).
Proof.
  intros r. split; [reflexivity|]. apply (signal_keys fmt_v fmt_f fmt_1f Sscanf_f log10_10 r).
  do 5 right. left. apply (zoning_keys fmt_v fmt_f Sscanf_f). split; [reflexivity|done].
Qed.
