(* ===== verification/WizardTerminal.v ===== *)
(** The terminal of the target wizard and its prompts
    ([src/targetconfigure/run.go], flags, prompt helpers and the validation of
    addresses, ports and profile names).

    Standard input is the sequence of bytes still to be read; what is printed
    and asked is a log.  A step that the program leaves with an error is
    [Failed]; [Diverges] is a prompt loop that never ends. *)
From S2P Require Import Prelude GoStrings GoPath NetAddr LocalAPI TargetConfig.
From Stdlib Require Import Strings.Byte Ascii.

Local Open Scope Z_scope.

Inductive event : Type :=
| Printed (text : string)
| Warned (text : string)
| Asked (label answer : string)
| AskedHidden (label : string).

Record World : Type := {
  wo_host : Host;
  wo_input : list ascii;
  wo_log : list event;
}.

Inductive step_result (A : Type) : Type :=
| Done (a : A)
| Failed (e : tc_error)
| Diverges.
Arguments Done {A}. Arguments Failed {A}. Arguments Diverges {A}.

Definition W (A : Type) : Type := World -> step_result A * World.
#[global] Instance W_ret : MRet W := fun A a w => (Done a, w).
#[global] Instance W_bind : MBind W := fun A B f m w =>
  match m w with
  | (Done a, w') => f a w'
  | (Failed e, w') => (Failed e, w')
  | (Diverges, w') => (Diverges, w')
  end.
Definition abort {A} (e : tc_error) : W A := fun w => (Failed e, w).
Definition lift {A} (m : M Host A) : W A := fun w =>
  let '(a, h) := m (wo_host w) in
  (Done a, {| wo_host := h; wo_input := wo_input w; wo_log := wo_log w |}).
Definition liftE {A} (m : M Host (result tc_error A)) : W A :=
  r ← lift m; match r with Ok a => mret a | Err e => abort e end.
Definition looked {A} (f : Host -> A) : W A := fun w => (Done (f (wo_host w)), w).
Definition log (e : event) : W unit := fun w =>
  (Done tt, {| wo_host := wo_host w; wo_input := wo_input w; wo_log := wo_log w ++ [e] |}).
Definition say (s : string) : W unit := log (Printed s).
Definition warn (s : string) : W unit := log (Warned s).
Definition says (l : list string) : W unit := foldr (fun s m => _ ← say s; m) (mret tt) l.

(** ** Reading a line ([fmt.Fscanln] into one string, on input without
    multi-byte spaces) *)

Definition is_newline (c : ascii) : bool := byte_of c =? 10.
Definition is_blank (c : ascii) : bool := is_space c && negb (is_newline c).
Fixpoint skip_blanks (l : list ascii) : list ascii :=
  match l with
  | c :: rest => if is_blank c then skip_blanks rest else l
  | [] => []
  end.
Fixpoint take_word (l : list ascii) : list ascii * list ascii :=
  match l with
  | c :: rest => if is_space c then ([], l)
                 else let '(word, after) := take_word rest in (c :: word, after)
  | [] => ([], [])
  end.

(** The word that was read, whether the line held nothing else, and the input
    that is left: after a second word only its first byte is consumed. *)
Definition Fscanln (l : list ascii) : string * bool * list ascii :=
  let start := skip_blanks l in
  match start with
  | [] => ("", false, [])
  | c :: rest =>
      if is_newline c then ("", false, rest)
      else
      let '(word, after) := take_word start in
      match skip_blanks after with
      | [] => (str word, true, [])
      | d :: rest' => (str word, is_newline d, rest')
      end
  end.

Definition read_line : W (string * bool) := fun w =>
  let '(line, ok, rest) := Fscanln (wo_input w) in
  (Done (line, ok), {| wo_host := wo_host w; wo_input := rest; wo_log := wo_log w |}).

Definition prompt (label def : string) : W string :=
  '(word, ok) ← read_line;
  let line := TrimSpace (if ok : bool then word else "") in
  let answer := if String.eqb line "" then def else line in
  _ ← log (Asked label answer);
  mret answer.

Definition confirmYesNo (label : string) (def : bool) : W bool :=
  '(word, _) ← read_line;
  let line := ToLower (TrimSpace word) in
  _ ← log (Asked label line);
  mret (if String.eqb line "" then def else String.eqb line "y" || String.eqb line "yes").

Definition confirmChoice (label def : string) : W string :=
  '(word, _) ← read_line;
  let line := ToLower (TrimSpace word) in
  let answer := if String.eqb line "" then def else line in
  _ ← log (Asked label answer);
  mret answer.

(** ** Defaults *)

Definition firstNonEmpty (a b : string) : string :=
  if negb (String.eqb (TrimSpace a) "") then a else b.
Definition firstNonZero (a b : Z) : Z := if a =? 0 then b else a.

Definition existingUser (rec : option targetRecord) (kind : string) : string :=
  match rec with
  | None => ""
  | Some rec =>
      if String.eqb kind "rest" then match tr_REST rec with Some r => re_Username r | None => "" end
      else if String.eqb kind "ssh" then match tr_SSH rec with Some s => se_Username s | None => "" end
      else ""
  end.

(** ** Names *)

(** [[A-Za-z0-9._-]]. *)
Definition name_byte (c : ascii) : bool :=
  is_upper c || is_lower c || is_digit c || in_cutset "._-" c.
Definition named_within (n : Z) (s : string) : bool :=
  let len := Z.of_nat (String.length s) in
  (1 <=? len) && (len <=? n) && forallb name_byte (bytes s).

Definition isSafeProfileName (s : string) : bool := named_within 128 (TrimSpace s).
Definition isProfileUUID (s : string) : bool := is_uuid (TrimSpace s).

Definition profileSlug (id : string) : string :=
  let safe := squeeze_from (fun c => negb (name_byte c)) "-" false id in
  if String.eqb safe "" then "target" else safe.

Definition resolveTargetIDArgs (profile targetIDFlag : string) : result tc_error string :=
  let tid := TrimSpace targetIDFlag in
  if negb (String.eqb tid "") then
    let id := canonicalUUID tid in
    if String.eqb id "" then Err (ECode "--target-id must be a valid target-profile UUID (v4)") else Ok id
  else
    let id := canonicalUUID profile in
    if negb (String.eqb id "") then Ok id
    else Err (ECode "--target-id is required when --profile is not a UUID (target_id_required)").

Record keyChoice : Type := {
  kc_GenerateAlgorithm : string;
  kc_ImportPath : string;
  kc_FromFlag : bool;
}.

Definition parseKeyChoice (keyAlgo importPath : string) : result tc_error keyChoice :=
  let keyAlgo := TrimSpace (ToLower keyAlgo) in
  let importPath := TrimSpace importPath in
  if negb (String.eqb importPath "") then
    Ok {| kc_GenerateAlgorithm := ""; kc_ImportPath := importPath; kc_FromFlag := true |}
  else if String.eqb keyAlgo "" then
    Ok {| kc_GenerateAlgorithm := "rsa-3072"; kc_ImportPath := ""; kc_FromFlag := false |}
  else if String.eqb keyAlgo "rsa-3072" || String.eqb keyAlgo "rsa" then
    Ok {| kc_GenerateAlgorithm := "rsa-3072"; kc_ImportPath := ""; kc_FromFlag := true |}
  else if String.eqb keyAlgo "ed25519" then
    Ok {| kc_GenerateAlgorithm := "ed25519"; kc_ImportPath := ""; kc_FromFlag := true |}
  else Err (ECode ("--key-algo " +:+ keyAlgo +:+ " not supported (use rsa-3072 or ed25519)")).

(** ** Addresses and ports *)

Definition IsLinkLocalUnicast (ip : IP) : bool :=
  match ip with IP4 n => Z.shiftr n 16 =? 43518 | IP6 n => Z.shiftr n 118 =? 1018 end.

(** [s[1 : len(s)-1]]. *)
Definition inside_brackets (s : string) : string := str (removelast (tail (bytes s))).

(** [None] accepts.  A host name that passes the last test also passes
    [url.Parse], whose error is never returned. *)
Definition validateHost (labMode s : string) : option string :=
  let s := TrimSpace s in
  if String.eqb s "" then Some "required"
  else if Contains s "://" || Contains s "/" || Contains s "?" || Contains s "@" then
    Some "enter a bare hostname or address; no scheme, path, query, or user@"
  else if HasPrefix s "[" then
    if negb (HasSuffix s "]") then Some "malformed IPv6 literal"
    else match ParseIP (inside_brackets s) with
         | None => Some "malformed IPv6 literal"
         | Some _ => None
         end
  else match ParseIP s with
       | Some ip =>
           if (IsLoopback ip || IsLinkLocalUnicast ip) && negb (String.eqb labMode "1") then
             Some "loopback/link-local requires FILTERREX_LAB_MODE=1"
           else None
       | None => if named_within 253 s then None else Some "hostname contains disallowed characters"
       end.

(** One round of a prompt that is repeated until it is answered well. *)
Fixpoint retry {A} (fuel : nat) (attempt : W (option A)) : W A :=
  match fuel with
  | O => fun w => (Diverges, w)
  | S n => r ← attempt; match r with Some a => mret a | None => retry n attempt end
  end.
(** A round consumes input unless the input has ended, and after the end of the
    input every round is like the last. *)
Definition rounds (w : World) : nat := S (S (length (wo_input w))).

Definition valid_port (n : Z) : bool := (0 <? n) && (n <? 65536).
Definition port_attempt (label : string) (def : Z) : W (option Z) :=
  v ← prompt label (pretty def);
  match Atoi v with
  | Some n => if valid_port n then mret (Some n)
              else _ ← warn "port must be 1..65535"; mret None
  | None => _ ← warn "port must be 1..65535"; mret None
  end.
Definition promptPort (label : string) (def : Z) : W Z := fun w =>
  retry (rounds w) (port_attempt label def) w.

Definition address_attempt (labMode defAddr : string) : W (option string) :=
  addr ← prompt "Management hostname or address" defAddr;
  match validateHost labMode addr with
  | Some e => _ ← warn ("invalid: " +:+ e); mret None
  | None => mret (Some addr)
  end.
Definition promptAddress (labMode defAddr : string) : W string := fun w =>
  retry (rounds w) (address_attempt labMode defAddr) w.
Definition promptAddressAndPorts (labMode : string) (existing : targetRecord) : W (string * Z * Z) :=
  addr ← promptAddress labMode (tr_Address existing);
  restPort ← promptPort "REST port" (firstNonZero (tr_RESTPort existing) 443);
  sshPort ← promptPort "SSH port" (firstNonZero (tr_SSHPort existing) 22);
  mret (addr, restPort, sshPort).

(** ** Printed forms *)

Definition describeKey (s : option sshEntry) : string :=
  match s with
  | None => "unknown"
  | Some s =>
      if String.eqb (se_KeyAlgorithm s) "" then "unknown"
      else if 0 <? se_KeyBits s then ToUpper (se_KeyAlgorithm s) +:+ " " +:+ pretty (se_KeyBits s)
      else ToUpper (se_KeyAlgorithm s)
  end.
Definition stateLine (ready : bool) (reason : string) : string :=
  if ready then "Ready"
  else "Setup required: " +:+ (if String.eqb reason "" then "setup_required" else reason).

Definition printStatusBlock (rec : targetRecord) : W unit :=
  let r := tr_Readiness rec in
  says (["Saved.";
         "  Live Workbench queries        " +:+ stateLine (rd_RESTReady r) (rd_RESTReason r);
         "  SSH evidence collection       " +:+ stateLine (rd_SSHReady r) (rd_SSHReason r)]
        ++ match tr_SSH rec with
           | Some s => ["  Key                           " +:+ describeKey (Some s) +:+ " · " +:+ se_KeyOrigin s;
                        "  Key fingerprint               " +:+ se_KeyFingerprintSHA256 s]
           | None => []
           end).
