(* ===== verification/WizardTerminalProps.v ===== *)
(** The terminal of the wizard: what reading a line consumes, when the prompt
    loops end, and the properties that every step built from the primitives of
    the terminal has. *)
From S2P Require Import Prelude GoStrings GoPath NetAddr LocalAPI TargetConfig WizardTerminal.
From Stdlib Require Import Strings.Byte Ascii.

Local Open Scope Z_scope.

(** ** Reading *)

Lemma skip_blanks_length l : (length (skip_blanks l) <= length l)%nat.
Proof. induction l as [|c l IH]; simpl; [lia|]. destruct (is_blank c); simpl; lia. Qed.

Lemma take_word_length l : (length (snd (take_word l)) <= length l)%nat.
Proof.
  induction l as [|c l IH]; simpl; [lia|]. destruct (is_space c); simpl; [lia|].
  destruct (take_word l). simpl in *. lia.
Qed.

(** Reading a line consumes something, or the input ends. *)
Lemma Fscanln_consumes l : (length (snd (Fscanln l)) <= length l - 1)%nat.
Proof.
  unfold Fscanln. pose proof (skip_blanks_length l) as H1. destruct (skip_blanks l) as [|c r]; simpl in *; [lia|].
  destruct (is_newline c); simpl; [lia|]. destruct (is_space c) eqn:Es.
  - pose proof (skip_blanks_length (c :: r)) as H3. destruct (skip_blanks (c :: r)); simpl in *; lia.
  - pose proof (take_word_length r) as H2. destruct (take_word r) as [wd af]. simpl in *.
    pose proof (skip_blanks_length af) as H3. destruct (skip_blanks af); simpl in *; lia.
Qed.

Lemma Fscanln_eof : Fscanln [] = ("", false, []).
Proof. done. Qed.

(** An answer with two words: the second one, without its first byte, is left
    for the next question. *)
Lemma second_word_left :
  Fscanln (bytes ("yes please" +:+ String (chr 10) "reuse"))
  = ("yes", false, bytes ("lease" +:+ String (chr 10) "reuse")).
Proof. by vm_compute. Qed.

(** ** Sequencing *)

Lemma bind_Done {A B} (m : W A) (f : A -> W B) w b w' :
  (m ≫= f) w = (Done b, w') -> exists a w1, m w = (Done a, w1) /\ f a w1 = (Done b, w').
Proof. unfold mbind, W_bind. destruct (m w) as [[a|e|] w1]; try discriminate. eauto. Qed.

Lemma bind_eq {A B} (m : W A) (f : A -> W B) w a w1 :
  m w = (Done a, w1) -> (m ≫= f) w = f a w1.
Proof. unfold mbind, W_bind. by intros ->. Qed.

(** ** Properties of steps *)

(** A property that the primitives have and that sequencing keeps. *)
Class Closed (P : forall A, W A -> Prop) : Prop := {
  closed_ret A (a : A) : P A (mret a);
  closed_abort A e : P A (abort e);
  closed_bind A B (m : W A) (f : A -> W B) : P A m -> (forall a, P B (f a)) -> P B (m ≫= f);
  closed_looked A (f : Host -> A) : P A (looked f);
  closed_log e : P unit (log e);
  closed_read : P (string * bool)%type read_line;
}.

(** Looping forever happens at the end of the input only. *)
Definition dry (A : Type) (m : W A) : Prop := forall w, fst (m w) = Diverges -> wo_input (snd (m w)) = [].
(** Never looping. *)
Definition total (A : Type) (m : W A) : Prop := forall w, fst (m w) <> Diverges.
(** The worlds before and after are related. *)
Definition moves (R : relation World) (A : Type) (m : W A) : Prop := forall w, R w (snd (m w)).

#[global] Instance dry_closed : Closed dry.
Proof.
  split; try (intros; intros w H; discriminate H).
  - intros A B m f Hm Hf w. unfold mbind, W_bind. specialize (Hm w).
    destruct (m w) as [[a|e|] w1]; simpl in *; [apply Hf|done|intros _; by apply Hm].
  - intros w. unfold read_line. destruct (Fscanln _) as [[? ?] ?]. simpl. discriminate.
Qed.
#[global] Instance total_closed : Closed total.
Proof.
  split; try (intros; intros w H; discriminate H).
  - intros A B m f Hm Hf w. unfold mbind, W_bind. specialize (Hm w).
    destruct (m w) as [[a|e|] w1]; simpl in *; [apply Hf|done|done].
  - intros w. unfold read_line. destruct (Fscanln _) as [[? ?] ?]. simpl. discriminate.
Qed.
Lemma moves_closed R `{!PreOrder R} :
  (forall w e, R w (snd (log e w))) -> (forall w, R w (snd (read_line w))) -> Closed (moves R).
Proof.
  intros Hl Hr. split; try (intros; intros w; simpl; reflexivity); try done.
  2: { intros e w. apply Hl. }
  intros A B m f Hm Hf w. unfold mbind, W_bind. specialize (Hm w).
  destruct (m w) as [[a|e|] w1]; simpl in *; try done. etransitivity; [exact Hm|apply Hf].
Qed.

Create HintDb closed.
(** The case analysis of a step, down to its primitives and the steps that the
    hints know. *)
Ltac close_with tac :=
  repeat (intros; unfold say, warn; first
    [ assumption | tac
    | match goal with |- ?P _ _ =>
        first [ apply (@closed_ret P _) | apply (@closed_abort P _) | apply (@closed_looked P _)
              | apply (@closed_log P _) | apply (@closed_read P _) ] end
    | solve [eauto 2 with closed nocore]
    | match goal with |- ?P _ _ => apply (@closed_bind P _) end
    | match goal with a : (_ * _)%type |- _ => destruct a end | progress cbv zeta | case_match ]).
Ltac closed := close_with fail.

Section Closure.
Context (P : forall A, W A -> Prop) `{!Closed P}.

Lemma closed_says l : P unit (says l).
Proof. unfold says. induction l as [|s l IH]; simpl; closed. Qed.
Lemma closed_prompt label def : P string (prompt label def).
Proof. unfold prompt. closed. Qed.
Lemma closed_yes label def : P bool (confirmYesNo label def).
Proof. unfold confirmYesNo. closed. Qed.
Lemma closed_choice label def : P string (confirmChoice label def).
Proof. unfold confirmChoice. closed. Qed.
Lemma closed_status rec : P unit (printStatusBlock rec).
Proof. apply closed_says. Qed.
Lemma closed_liftE {A} (m : M Host (result tc_error A)) : P _ (lift m) -> P A (liftE m).
Proof. intros H. unfold liftE. closed. Qed.
Lemma closed_port label def : P (option Z) (port_attempt label def).
Proof. unfold port_attempt. close_with ltac:(apply closed_prompt). Qed.
Lemma closed_address lab def : P (option string) (address_attempt lab def).
Proof. unfold address_attempt. close_with ltac:(apply closed_prompt). Qed.
End Closure.
Ltac closed_more := idtac; match goal with |- ?P _ _ => first
  [ apply (closed_says P) | apply (closed_prompt P) | apply (closed_yes P) | apply (closed_choice P)
  | apply (closed_status P) | apply (closed_port P) | apply (closed_address P) | apply (closed_liftE P) ] end.
Ltac close_all := close_with closed_more.

Lemma total_lift A (m : M Host A) : total A (lift m).
Proof. intros w. unfold lift. destruct (m (wo_host w)). simpl. discriminate. Qed.
Lemma total_dry A m : total A m -> dry A m.
Proof. intros H w E. by destruct (H w). Qed.
#[export] Hint Resolve total_lift total_dry : closed.
Lemma moves_retry R `{!PreOrder R} {A} fuel (m : W (option A)) :
  moves R _ m -> moves R A (retry fuel m).
Proof.
  intros Hm. induction fuel as [|n IH]; intros w; [simpl; reflexivity|]. simpl. unfold mbind, W_bind.
  specialize (Hm w). destruct (m w) as [[[a|]|e|] w1]; simpl in *; try done. etransitivity; [exact Hm|apply IH].
Qed.

(** ** Loops *)

(** A round that asks one question: it never loops itself, and after it there
    is less input or none. *)
Definition asks {A} (m : W (option A)) : Prop :=
  total _ m /\ forall w, (length (wo_input (snd (m w))) <= length (wo_input w) - 1)%nat.

Lemma retry_dry {A} (m : W (option A)) : asks m ->
  forall fuel w, (length (wo_input w) <= fuel)%nat ->
  fst (retry fuel m w) = Diverges -> wo_input (snd (retry fuel m w)) = [].
Proof.
  intros [Ht Hc]. induction fuel as [|n IH]; intros w Hw; simpl.
  { intros _. by destruct (wo_input w); [|simpl in Hw; lia]. }
  unfold mbind, W_bind. specialize (Hc w). destruct (m w) as [[[a|]|e|] w1] eqn:E; simpl in *; try done.
  - intros H. apply IH; [lia|done].
  - by destruct (Ht w); rewrite E.
Qed.

Lemma retry_total {A} (m : W (option A)) : asks m ->
  (forall w, wo_input w = [] -> fst (m w) <> Done None) ->
  forall fuel w, (length (wo_input w) < fuel)%nat -> fst (retry fuel m w) <> Diverges.
Proof.
  intros [Ht Hc] Heof. induction fuel as [|n IH]; intros w Hw; [lia|]. simpl.
  unfold mbind, W_bind. pose proof (Hc w) as Hlen.
  destruct (m w) as [[[a|]|e|] w1] eqn:E; simpl in *; try done; [|by destruct (Ht w); rewrite E].
  destruct (wo_input w) as [|c l] eqn:Ew; [|apply IH; simpl in *; lia].
  specialize (Heof w Ew). by rewrite E in Heof.
Qed.

(** A round that asks again at the end of the input does so forever. *)
Lemma retry_forever {A} (m : W (option A)) : asks m ->
  (forall w, wo_input w = [] -> fst (m w) = Done None) ->
  forall fuel w, wo_input w = [] -> fst (retry fuel m w) = Diverges.
Proof.
  intros [_ Hc] Heof. induction fuel as [|n IH]; intros w Hw; [done|]. simpl. unfold mbind, W_bind.
  specialize (Heof w Hw). specialize (Hc w). rewrite Hw in Hc.
  destruct (m w) as [r w1]; simpl in *. rewrite Heof. apply IH.
  by destruct (wo_input w1); [|simpl in Hc; lia].
Qed.

Lemma prompt_consumes label def w :
  (length (wo_input (snd (prompt label def w))) <= length (wo_input w) - 1)%nat
  /\ exists s, fst (prompt label def w) = Done s.
Proof.
  unfold prompt, mbind, W_bind, read_line. pose proof (Fscanln_consumes (wo_input w)) as H.
  destruct (Fscanln (wo_input w)) as [[word ok] rest]. simpl in *. eauto.
Qed.
(** At the end of the input a question is answered by its default. *)
Lemma prompt_eof label def w : wo_input w = [] -> fst (prompt label def w) = Done def.
Proof. intros H. unfold prompt, mbind, W_bind, read_line. by rewrite H. Qed.

(** The input never grows. *)
Definition shrinks (w w' : World) : Prop := (length (wo_input w') <= length (wo_input w))%nat.
#[global] Instance shrinks_pre : PreOrder shrinks.
Proof. split; unfold shrinks; [intros w|intros a b c]; lia. Qed.
#[global] Instance shrinks_closed : Closed (moves shrinks).
Proof.
  apply moves_closed; [apply _|intros w e; unfold shrinks; simpl; lia|]. intros w. unfold shrinks, read_line.
  pose proof (Fscanln_consumes (wo_input w)). destruct (Fscanln _) as [[? ?] ?]. simpl in *. lia.
Qed.
Lemma shrinks_lift A (m : M Host A) : moves shrinks A (lift m).
Proof. intros w. unfold lift, shrinks. destruct (m (wo_host w)). simpl. lia. Qed.
#[export] Hint Resolve shrinks_lift : closed.

(** A round that asks and then acts on the answer. *)
Lemma asks_intro {A} label def (f : string -> W (option A)) :
  (forall s, moves shrinks _ (f s)) -> (forall s, total _ (f s)) ->
  asks (s ← prompt label def; f s).
Proof.
  intros Hk Ht. split; [apply (@closed_bind total _); [apply (closed_prompt total)|done]|].
  intros w. destruct (prompt_consumes label def w) as [Hlen [s Hs]].
  unfold mbind, W_bind. destruct (prompt label def w) as [r w1]. simpl in *. subst r.
  specialize (Hk s w1). unfold shrinks in Hk. lia.
Qed.
Lemma asks_after {A} (m0 : W unit) (m : W (option A)) :
  moves shrinks _ m0 -> total _ m0 -> (forall w, exists w', m0 w = (Done tt, w')) -> asks m ->
  asks (_ ← m0; m).
Proof.
  intros Hs Ht Hd [Hmt Hmc]. split; [by apply (@closed_bind total _)|]. intros w. specialize (Hs w).
  destruct (Hd w) as [w1 E]. rewrite (bind_eq _ _ _ _ _ E). rewrite E in Hs. simpl in Hs.
  specialize (Hmc w1). unfold shrinks in Hs. lia.
Qed.

(** Printing, and what questions leave in the log. *)
Definition logged (l : list event) (w : World) : World :=
  {| wo_host := wo_host w; wo_input := wo_input w; wo_log := wo_log w ++ l |}.
Lemma says_run l w : says l w = (Done tt, logged (map Printed l) w).
Proof.
  revert w. induction l as [|s l IH]; intros w; simpl.
  - unfold logged. rewrite app_nil_r. by destruct w.
  - unfold mbind, W_bind, say, log. unfold says in IH. rewrite IH. unfold logged. simpl. by rewrite <- app_assoc.
Qed.
Lemma yes_run label def w : exists line rest,
  confirmYesNo label def w
  = (Done (if String.eqb line "" then def else String.eqb line "y" || String.eqb line "yes"),
     {| wo_host := wo_host w; wo_input := rest; wo_log := wo_log w ++ [Asked label line] |}).
Proof.
  unfold confirmYesNo, mbind, W_bind, read_line. destruct (Fscanln (wo_input w)) as [[word ok] rest]. simpl. eauto.
Qed.
Lemma prompt_run label def w : exists answer rest,
  prompt label def w
  = (Done answer, {| wo_host := wo_host w; wo_input := rest; wo_log := wo_log w ++ [Asked label answer] |}).
Proof.
  unfold prompt, mbind, W_bind, read_line. destruct (Fscanln (wo_input w)) as [[word ok] rest]. simpl. eauto.
Qed.

Lemma port_asks label def : asks (port_attempt label def).
Proof.
  apply asks_intro; intros s; cbv beta; close_all.
Qed.
Lemma address_asks lab def : asks (address_attempt lab def).
Proof.
  apply asks_intro; intros s; cbv beta; close_all.
Qed.

Lemma address_forever lab def : validateHost lab def <> None ->
  forall fuel w, wo_input w = [] -> fst (retry fuel (address_attempt lab def) w) = Diverges.
Proof.
  intros Hv. apply retry_forever; [apply address_asks|]. intros w Hw. unfold address_attempt.
  pose proof (prompt_eof "Management hostname or address" def w Hw) as E.
  destruct (prompt _ def w) as [r w1] eqn:Ep. simpl in E. subst r.
  rewrite (bind_eq _ _ _ _ _ Ep). by destruct (validateHost lab def).
Qed.

(** A first run on an ended input never ends. *)
Lemma first_run_forever lab fuel w : wo_input w = [] ->
  fst (retry fuel (address_attempt lab "") w) = Diverges.
Proof. by apply address_forever. Qed.

(** ** The prompts of the wizard *)

Lemma Atoi_digit c s : is_digit c = true ->
  Atoi (String c s) = z ← digits 0 (bytes (String c s));
                      if (int64_min <=? z) && (z <=? int64_max) then Some z else None.
Proof. intros H. destruct c as [[] [] [] [] [] [] [] []]; try discriminate H; reflexivity. Qed.

Lemma Atoi_port n : valid_port n = true -> Atoi (pretty n) = Some n.
Proof.
  unfold valid_port. intros [Hp Hn]%andb_true_iff. apply Z.ltb_lt in Hp, Hn.
  destruct n as [|p|p]; [lia| |lia].
  assert (E : digits 0 (bytes (pretty (Z.pos p))) = Some (Z.pos p)).
  { change (pretty (Z.pos p)) with (pretty_N (N.pos p)). unfold pretty_N.
    destruct (decide (N.pos p = 0)%N) as [H|_]; [discriminate H|].
    destruct (digits_pretty_go (N.pos p) "") as (k & _ & ->). done. }
  destruct (pretty (Z.pos p)) as [|c s]; [done|].
  rewrite Atoi_digit by (simpl in E; by destruct (is_digit c)). rewrite E. unfold mbind, option_bind. cbv beta iota.
  rewrite (proj2 (andb_true_iff _ _)); [done|].
  rewrite !Z.leb_le. unfold int64_min, int64_max. lia.
Qed.

Lemma promptPort_dry label def : dry _ (promptPort label def).
Proof. intros w. apply (retry_dry _ (port_asks label def)). unfold rounds. lia. Qed.

Lemma promptPort_total label def : valid_port def = true -> total _ (promptPort label def).
Proof.
  intros Hd w. apply (retry_total _ (port_asks label def)); [|unfold rounds; lia].
  intros w1 Hw. unfold port_attempt. pose proof (prompt_eof label (pretty def) w1 Hw) as E.
  destruct (prompt label (pretty def) w1) as [r w2] eqn:Ep. simpl in E. subst r.
  rewrite (bind_eq _ _ _ _ _ Ep), Atoi_port by done. by rewrite Hd.
Qed.

(** A record whose address and ports can be kept. *)
Definition keepable (lab : string) (rec : targetRecord) : Prop :=
  validateHost lab (tr_Address rec) = None
  /\ valid_port (firstNonZero (tr_RESTPort rec) 443) = true
  /\ valid_port (firstNonZero (tr_SSHPort rec) 22) = true.


Lemma promptAddress_dry lab def : dry _ (promptAddress lab def).
Proof. intros w. apply (retry_dry _ (address_asks lab def)). unfold rounds. lia. Qed.
Lemma promptAddress_total lab def : validateHost lab def = None -> total _ (promptAddress lab def).
Proof.
  intros Hd w. apply (retry_total _ (address_asks lab def)); [|unfold rounds; lia].
  intros w1 Hw. unfold address_attempt. pose proof (prompt_eof "Management hostname or address" def w1 Hw) as E.
  destruct (prompt _ def w1) as [r w2] eqn:Ep. simpl in E. subst r.
  rewrite (bind_eq _ _ _ _ _ Ep). by rewrite Hd.
Qed.

Lemma address_dry lab rec : dry _ (promptAddressAndPorts lab rec).
Proof. unfold promptAddressAndPorts. close_with ltac:(first [apply promptAddress_dry|apply promptPort_dry]). Qed.
Lemma address_total lab rec : keepable lab rec -> total _ (promptAddressAndPorts lab rec).
Proof.
  intros (H1 & H2 & H3). unfold promptAddressAndPorts.
  close_with ltac:(first [by apply promptAddress_total|by apply promptPort_total]).
Qed.
