(* ===== verification/Wizard.v ===== *)
(** The target wizard ([src/targetconfigure/run.go] and the paths of
    [managed_artifact.go] that it stores): secrets, SSH keys, host-key
    enrollment, the two probes, the saved record, the menu after it, and the
    [target probe] command. *)
From S2P Require Import Prelude GoStrings GoPath GoTime TargetConfig TargetProbe BrocadeRest WizardTerminal.
From Stdlib Require Import Strings.Byte Ascii.

Local Open Scope Z_scope.

(** ** Relative paths *)

Fixpoint strip_common (a b : list string) : list string * list string :=
  match a, b with
  | x :: a', y :: b' => if String.eqb x y then strip_common a' b' else (a, b)
  | _, _ => (a, b)
  end.
(** The elements of a clean path; the first element of an absolute one is empty. *)
Definition elements (p : string) : list string :=
  if String.eqb p "" then [] else if String.eqb p "/" then [""] else Split p slash.
(** [filepath.Rel]. *)
Definition Rel (basepath targpath : string) : option string :=
  let base := Clean basepath in
  let targ := Clean targpath in
  if String.eqb targ base then Some "."
  else
  let base := if String.eqb base "." then "" else base in
  if negb (Bool.eqb (IsAbs base) (IsAbs targ)) then None
  else
  let '(b, t) := strip_common (elements base) (elements targ) in
  match b with
  | [] => Some (Join t "/")
  | x :: _ => if String.eqb x ".." then None
              else Some (Join (replicate (length b) ".." ++ t) "/")
  end.

Definition error_text (e : tc_error) : string :=
  match e with ECode s | EOther s => s | _ => "error" end.

(** The description of a private key on disk. *)
Record keyMetadata : Type := {
  km_KeyPath : string;
  km_PublicKeyPath : string;
  km_Algorithm : string;
  km_Bits : Z;
  km_Origin : string;
  km_FingerprintSHA256 : string;
}.

(** What was verified before this run. *)
Record previous : Type := {
  pv_hasSSH : bool;
  pv_wasSSHReady : bool;
  pv_address : string;
  pv_sshPort : Z;
  pv_sshUsername : string;
  pv_sshKeyPath : string;
  pv_sshFingerprint : string;
}.

(** What the wizard runs on and does not define. *)
Class Outside : Type := {
  (** The host, the terminal and the environment. *)
  EvalSymlinks : string -> symlink_result;
  Lstat : string -> Host -> lstat_result;
  is_terminal : bool;
  ReadPassword : list ascii -> result string buf * list ascii;
  Getenv : string -> string;
  euid : Z;
  egid : Z;
  WizardVersion : string;
  (** The codecs. *)
  unmarshal_targets : buf -> option targetsDoc;
  marshal_targets : targetsDoc -> buf;
  sha256 : buf -> buf;
  b64 : buf -> string;
  b64_decode : string -> option buf;
  (** [golang.org/x/crypto/ssh] on marshalled public keys: parsing a private key
      yields its public key or the text of an error. *)
  ParsePrivateKey : buf -> result string buf;
  ParsePublicKey : buf -> bool;
  key_Type : buf -> string;
  rsa_BitLen : buf -> option Z;
  MarshalAuthorizedKey : buf -> buf;
  MarshalPrivateKey : buf -> string -> result string (string * buf);
  NewPublicKey : buf -> result string buf;
  (** The generators of the standard library, by step, and its encoders. *)
  ed25519_GenerateKey : nat -> result string (buf * buf);
  rsa_GenerateKey : nat -> Z -> result string (buf * buf);
  MarshalPKCS8PrivateKey : buf -> result string buf;
  pem_EncodeToMemory : string * buf -> buf;
  (** The network: SSH peers, and what the REST client uses. *)
  peer : nat -> string -> string -> buf -> ssh_peer;
  match_pattern : string -> string -> option bool;
  valid_pem : buf -> bool;
  url_parses : string -> bool;
  network : nat -> rest_request -> rest_answer;
}.

Section Wizard.
Context `{Outside}.

(** ** Stored paths *)

Definition managedArtifactPathForRecord (targetsDir absolutePath : string) (kind : ArtifactKind) : string :=
  match ResolveManagedTargetArtifact EvalSymlinks targetsDir absolutePath kind with
  | Err _ => absolutePath
  | Ok resolved =>
      match Rel (Clean targetsDir) resolved with
      | Some rel => if HasPrefix rel ".." then absolutePath else rel
      | None => absolutePath
      end
  end.

(** ** Directories and files *)

(** [os.Chmod], which the host may refuse. *)
Definition chmod (path : string) : M Host bool := fun h =>
  (match h_write h (h_tick h) with WriteFails => false | _ => true end, h_step h).
Definition make_private (dir : string) : W unit :=
  made ← lift (ensure_dir dir);
  if negb made then abort (EOther ("mkdir " +:+ dir))
  else
  ok ← lift (chmod dir);
  if negb ok then abort (EOther ("chmod " +:+ dir)) else mret tt.
Definition ensureDirs (configDir : string) : W unit :=
  foldr (fun d m => _ ← make_private d; m) (mret tt)
    [configDir; JoinPath [configDir; restSecretDir]; JoinPath [configDir; sshKeyDir]; JoinPath [configDir; tlsDir]].

Definition verifyConnectorIdentity (stateDir : string) (h : Host) : option string :=
  if existsb (fun p => match h_nodes h !! p with Some _ => true | None => false end)
       [JoinPath [stateDir; "identity.json"]; JoinPath [stateDir; "connector.json"]]
  then None else Some "no connector identity found in state-dir".

Definition existsRegularSecret (p : string) (h : Host) : bool :=
  match Lstat p h with LstatRegular _ => true | _ => false end.

(** [atomicWriteFile] with a mode that others may read (0640, 0644): the final
    check of the permissions does not apply. *)
Definition write_shared (path : string) (data : buf) : M Host (result tc_error unit) := fun h =>
  match h_write h (h_tick h) with
  | WriteFails => (Err (EOther "write"), h_step h)
  | WriteDone | WritePerms => (Ok tt, set_nodes (<[path := NFile data true]> (h_nodes h)) h)
  end.

(** The error of reading the old content is dropped. *)
Definition appendLineAtomic (path line : string) : M Host (result tc_error unit) :=
  read ← gets (read_file path);
  let existing := match read with FileOk b => b | _ => [] end in
  let existing := match existing with [] => [] | _ => with_newline existing end in
  write_shared path (existing ++ buf_of line).

(** ** The REST password *)

Definition read_password : W buf := fun w =>
  let '(r, rest) := ReadPassword (wo_input w) in
  (match r with Ok b => Done b | Err e => Failed (EOther ("read password: " +:+ e)) end,
   {| wo_host := wo_host w; wo_input := rest; wo_log := wo_log w |}).
Definition readSecretNoEcho (label : string) : W buf :=
  if negb is_terminal then
    abort (ECode "stdin is not a terminal; refusing to read secret from a pipe or redirect")
  else _ ← log (AskedHidden label); read_password.

Definition ask_password (path : string) (rec : targetRecord) : W (string * string) :=
  pw ← readSecretNoEcho ("REST password for " +:+ tr_Address rec +:+ " (input hidden): ");
  match pw with
  | [] => abort (ECode "password is empty")
  | _ => _ ← liftE (atomicWriteFile path pw); mret (path, "production_verified")
  end.

(** The password file and the security state. *)
Definition configureRESTPassword (configDir profile : string) (rec : targetRecord) : W (string * string) :=
  let path := JoinPath [configDir; restSecretDir; profileSlug profile] in
  found ← looked (existsRegularSecret path);
  if found : bool then
    choice ← confirmChoice "REST password file exists. Reuse / Replace / Abort" "reuse";
    if String.eqb choice "reuse" then mret (path, "production_verified")
    else if String.eqb choice "abort" then abort (ECode "aborted by operator")
    else ask_password path rec
  else ask_password path rec.

(** ** SSH keys *)

Definition deriveAlgoBits (pub : buf) : string * Z :=
  let t := key_Type pub in
  if String.eqb t "ssh-ed25519" then ("ed25519", 0)
  else if bool_decide (t ∈ ["ssh-rsa"; "rsa-sha2-256"; "rsa-sha2-512"]) then ("rsa", default 0 (rsa_BitLen pub))
  else ("unknown", 0).

Abbreviation fingerprint := (sshFingerprintSHA256 sha256 b64).

Definition metadata (keyPath pubPath algo : string) (bits : Z) (origin : string) (pub : buf) : keyMetadata :=
  {| km_KeyPath := keyPath; km_PublicKeyPath := pubPath; km_Algorithm := algo; km_Bits := bits;
     km_Origin := origin; km_FingerprintSHA256 := fingerprint pub |}.

Definition orE {A} (what : string) (r : result string A) : W A :=
  match r with Ok a => mret a | Err e => abort (EOther (what +:+ e)) end.
(** A step of the random source. *)
Definition generated {A} (f : nat -> A) : W A :=
  n ← looked h_tick; _ ← lift (modify h_step); mret (f n).

Definition generateEd25519 (keyPath pubPath : string) : W keyMetadata :=
  r ← generated ed25519_GenerateKey;
  '(pub, priv) ← orE "ed25519 generate: " r;
  block ← orE "marshal private key: " (MarshalPrivateKey priv "filterrex-ro");
  _ ← liftE (atomicWriteFile keyPath (pem_EncodeToMemory block));
  sshPub ← orE "" (NewPublicKey pub);
  _ ← liftE (write_shared pubPath (MarshalAuthorizedKey sshPub));
  mret (metadata keyPath pubPath "ed25519" 0 "generated" sshPub).

Definition generateRSA3072 (keyPath pubPath : string) : W keyMetadata :=
  r ← generated (fun n => rsa_GenerateKey n 3072);
  '(pub, priv) ← orE "rsa generate: " r;
  pkcs8 ← orE "marshal rsa private key: " (MarshalPKCS8PrivateKey priv);
  _ ← liftE (atomicWriteFile keyPath (pem_EncodeToMemory ("PRIVATE KEY", pkcs8)));
  sshPub ← orE "" (NewPublicKey pub);
  _ ← liftE (write_shared pubPath (MarshalAuthorizedKey sshPub));
  mret (metadata keyPath pubPath "rsa" 3072 "generated" sshPub).

Definition import_bytes (keyPath pubPath : string) (b : buf) : W keyMetadata :=
  match ParsePrivateKey b with
  | Err e => if Contains (ToLower e) "passphrase" then abort (ECode "encrypted_private_key_unsupported")
             else abort (ECode "import source is not a valid SSH private key")
  | Ok pub =>
      _ ← liftE (atomicWriteFile keyPath b);
      _ ← liftE (write_shared pubPath (MarshalAuthorizedKey pub));
      let '(algo, bits) := deriveAlgoBits pub in
      mret (metadata keyPath pubPath algo bits "imported" pub)
  end.
Definition importSSHKeyFrom (src keyPath pubPath : string) : W keyMetadata :=
  fi ← looked (Lstat src);
  match fi with
  | LstatError => abort (ECode "import source unreadable")
  | LstatSymlink => abort (ECode "import source is a symlink; refusing")
  | LstatOther => abort (ECode "import source is not a regular file")
  | LstatRegular perm =>
      if negb (Z.land perm 63 =? 0) then
        abort (ECode "import source permissions are too permissive; use 0600 or 0400")
      else
      read ← looked (read_file src);
      match read with
      | FileOk b => import_bytes keyPath pubPath b
      | _ => abort (ECode "import source read failed")
      end
  end.
Definition importSSHKey (keyPath pubPath : string) : W keyMetadata :=
  src ← prompt "Path to existing private key on the setup host" "";
  if String.eqb src "" then abort (ECode "import path is required")
  else importSSHKeyFrom src keyPath pubPath.

Definition deriveKeyMetadata (keyPath pubPath defaultOrigin : string) : W keyMetadata :=
  read ← looked (read_file keyPath);
  match read with
  | FileOk b =>
      match ParsePrivateKey b with
      | Err _ => abort (ECode "stored key is not a valid SSH private key")
      | Ok pub => let '(algo, bits) := deriveAlgoBits pub in
                  mret (metadata keyPath pubPath algo bits defaultOrigin pub)
      end
  | _ => abort (EOther "read stored key")
  end.

Definition with_origin (origin : string) (m : keyMetadata) : keyMetadata :=
  {| km_KeyPath := km_KeyPath m; km_PublicKeyPath := km_PublicKeyPath m; km_Algorithm := km_Algorithm m;
     km_Bits := km_Bits m; km_Origin := origin; km_FingerprintSHA256 := km_FingerprintSHA256 m |}.

Definition generate (algo keyPath pubPath : string) : W keyMetadata :=
  if String.eqb algo "ed25519" then generateEd25519 keyPath pubPath
  else if String.eqb algo "rsa-3072" || String.eqb algo "rsa" then generateRSA3072 keyPath pubPath
  else abort (ECode ("unsupported generator algorithm " +:+ algo)).

(** A new key: the flags first, then the operator's choice. *)
Definition new_key (kc : keyChoice) (keyPath pubPath : string) : W keyMetadata :=
  if negb (String.eqb (kc_ImportPath kc) "") then importSSHKeyFrom (kc_ImportPath kc) keyPath pubPath
  else if negb (kc_FromFlag kc) then
    choice ← confirmChoice "Generate RSA-3072 (recommended for FOS 7.x/8.x), Ed25519, or Import an existing key" "rsa-3072";
    if String.eqb choice "import" then importSSHKey keyPath pubPath
    else generate (if String.eqb choice "ed25519" then "ed25519" else "rsa-3072") keyPath pubPath
  else generate (kc_GenerateAlgorithm kc) keyPath pubPath.

Definition configureSSHKey (configDir profile : string) (rec : targetRecord) (kc : keyChoice) : W keyMetadata :=
  let keyPath := JoinPath [configDir; sshKeyDir; profileSlug profile] in
  let pubPath := keyPath +:+ ".pub" in
  found ← looked (existsRegularSecret keyPath);
  if found : bool then
    choice ← confirmChoice "SSH key exists. Reuse / Regenerate / Import" "reuse";
    if String.eqb choice "reuse" then
      meta ← deriveKeyMetadata keyPath pubPath "generated";
      mret match tr_SSH rec with
           | Some s => if String.eqb (se_KeyOrigin s) "" then meta else with_origin (se_KeyOrigin s) meta
           | None => meta
           end
    else if String.eqb choice "import" then importSSHKey keyPath pubPath
    else new_key kc keyPath pubPath
  else new_key kc keyPath pubPath.

(** ** Host keys *)

Definition hasKnownHostEntry (path host : string) (h : Host) : bool :=
  match read_file path h with
  | FileOk b => existsb (fun line => HasPrefix line (host +:+ " ") || HasPrefix line ("[" +:+ host +:+ "]:"))
                  (Split (text_of b) (chr 10))
  | _ => false
  end.

(** The key that the peer presents before the handshake is broken off. *)
Definition fetchHostKey (host : string) (port : Z) : W (result tc_error buf) :=
  n ← looked h_tick;
  _ ← lift (modify h_step);
  mret match sp_presents (peer n (host_port host port) "filterrex-hostkey-probe" []) with
       | Ok key => Ok key
       | Err _ => Err (ECode "no host key returned (connection failed)")
       end.

Definition knownHostsLine (host : string) (port : Z) (wire : buf) : string :=
  let hostPart := if port =? 22 then host else "[" +:+ host +:+ "]:" +:+ pretty port in
  if ParsePublicKey wire
  then hostPart +:+ " " +:+ key_Type wire +:+ " " +:+ b64 wire +:+ String (chr 10) ""
  else "".

(** The part of a fingerprint that the operator has to type. *)
Definition challenge (fpNoPad : string) : string :=
  if 12 <=? Z.of_nat (String.length fpNoPad)
  then str (drop (length (bytes fpNoPad) - 12) (bytes fpNoPad))
  else fpNoPad.
Definition unpadded (pub : buf) : string := TrimRight (b64 (sha256 pub)) "=".

Definition compared_label : string := "I have compared the fingerprint against a trusted source".
Definition challenge_label : string :=
  "Type the final 12 characters of the fingerprint (excluding trailing '=')".

(** A presented key is shown, confirmed and challenged, and then enrolled:
    whether it was, or why not. *)
Definition trust_key (khPath host : string) (sshPort : Z) (pub : buf) : W (result tc_error unit) :=
  let fpNoPad := unpadded pub in
  _ ← says ["Switch presented SSH host key:"; "  type:        " +:+ key_Type pub;
            "  SHA256 fp:   SHA256:" +:+ fpNoPad;
            "This key was received over the network and is NOT yet trusted.";
            "Compare the fingerprint above with the switch console, an existing";
            "trusted SSH session, or an approved inventory record."];
  sure ← confirmYesNo compared_label false;
  if negb sure then mret (Err (ECode "host key not confirmed out-of-band"))
  else
  got ← prompt challenge_label "";
  if negb (String.eqb (TrimSpace got) (challenge fpNoPad)) then
    mret (Err (ECode "fingerprint challenge failed"))
  else lift (appendLineAtomic khPath (knownHostsLine host sshPort pub)).

(** The path, whether a key was enrolled in this run, and the error. *)
Definition refresh_key (khPath host : string) (sshPort : Z) : W (string * bool * option tc_error) :=
  fetched ← fetchHostKey host sshPort;
  match fetched with
  | Err e => mret (khPath, false, Some e)
  | Ok pub =>
      r ← trust_key khPath host sshPort pub;
      mret match r with Ok _ => (khPath, true, None) | Err e => (khPath, false, Some e) end
  end.
Definition enrollHostKey (configDir host : string) (sshPort : Z) : W (string * bool * option tc_error) :=
  let khPath := JoinPath [configDir; knownHostsFn] in
  found ← looked (hasKnownHostEntry khPath host);
  if found : bool then
    choice ← confirmChoice ("known_hosts already has an entry for " +:+ host +:+ ". Reuse or Refresh") "reuse";
    if String.eqb choice "reuse" then mret (khPath, false, None) else refresh_key khPath host sshPort
  else refresh_key khPath host sshPort.

(** ** The probes *)

(** Symbolic links and permissions are looked at in the current host. *)
Definition read_bytes (h : Host) (_ : nat) (p : string) : option buf :=
  match read_file p h with FileOk b => Some b | _ => None end.

(** A stored path is resolved when there is one. *)
Definition resolve_stored (dir path : string) (kind : ArtifactKind) : option string :=
  if String.eqb path "" then Some ""
  else match ResolveManagedTargetArtifact EvalSymlinks dir path kind with Ok p => Some p | Err _ => None end.

Definition rest_config (rec : targetRecord) (rest : restEntry) (passwordFile caFile : string) : Config :=
  {| rc_TargetProfileID := "wizard-probe"; rc_Host := tr_Address rec; rc_Port := tr_RESTPort rec;
     rc_TransportMode := re_TransportMode rest; rc_Username := re_Username rest;
     rc_PasswordFile := passwordFile; rc_CAFile := caFile |}.
Definition probeREST (targetsDir : string) (rec : targetRecord) (rest : restEntry) (h : Host) : bool * string :=
  match resolve_stored targetsDir (re_PasswordFile rest) ArtifactRESTSecret with
  | None => (false, "unmanaged_artifact_path")
  | Some passwordFile =>
      match resolve_stored targetsDir (re_CAFile rest) ArtifactTLSMaterial with
      | None => (false, "unmanaged_artifact_path")
      | Some caFile =>
          let n := h_tick h in
          match New (read_bytes h) valid_pem Getenv n (rest_config rec rest passwordFile caFile) with
          | Err e => (false, ErrCode_string (er_Code e))
          | Ok client =>
              match fst (ProbeSwitchStatus match_pattern (fun _ p => Lstat p h) (read_bytes h) url_parses network
                           client {| wi_tick := n; wi_sent := [] |}) with
              | Some e => (false, ErrCode_string (er_Code e))
              | None => (true, "")
              end
          end
      end
  end.

Definition ssh_probe (targetsDir : string) (rec : targetRecord) (ssh : sshEntry) (h : Host) : bool * string :=
  probeSSH EvalSymlinks b64_decode (fun b => is_ok (ParsePrivateKey b)) peer targetsDir rec ssh h.
(** A probe and the time at which it has ended. *)
Definition timed_probe (configDir : string) (rec : targetRecord) (ssh : sshEntry) : W (bool * string * string) :=
  '(ready, reason) ← looked (ssh_probe configDir rec ssh);
  _ ← lift (modify h_step);
  now ← lift Now;
  mret (ready, reason, FormatRFC3339 now).

(** ** The record of a run *)

Definition stamp (resolved : string) (mappingChanged : bool) (rec : targetRecord) : targetRecord :=
  {| tr_TargetID := resolved; tr_Address := tr_Address rec; tr_RESTPort := tr_RESTPort rec;
     tr_SSHPort := tr_SSHPort rec; tr_REST := tr_REST rec; tr_SSH := tr_SSH rec;
     tr_LastWizard := tr_LastWizard rec;
     tr_Readiness :=
       if mappingChanged then
         {| rd_RESTReady := false; rd_RESTReason := ""; rd_RESTSecurityState := "";
            rd_SSHReady := false; rd_SSHReason := "setup_pending"; rd_SSHProbeStage := "not_run";
            rd_LastSSHProbeAt := ""; rd_LastSuccessfulSSHProbeAt := "" |}
       else tr_Readiness rec |}.
Definition empty_readiness : readiness :=
  {| rd_RESTReady := false; rd_RESTReason := ""; rd_RESTSecurityState := ""; rd_SSHReady := false;
     rd_SSHReason := ""; rd_SSHProbeStage := ""; rd_LastSSHProbeAt := ""; rd_LastSuccessfulSSHProbeAt := "" |}.
Definition empty_record : targetRecord :=
  {| tr_TargetID := ""; tr_Address := ""; tr_RESTPort := 0; tr_SSHPort := 0; tr_REST := None; tr_SSH := None;
     tr_LastWizard := ""; tr_Readiness := empty_readiness |}.

Definition snapshot (existing : option targetRecord) (mappingChanged : bool) : previous :=
  let ssh := match existing with Some e => tr_SSH e | None => None end in
  let ssh_field {A} (f : sshEntry -> A) (d : A) := match ssh with Some s => f s | None => d end in
  {| pv_hasSSH := ssh_field (fun _ => negb mappingChanged) false;
     pv_wasSSHReady := match existing with
                       | Some e => rd_SSHReady (tr_Readiness e) && negb mappingChanged
                       | None => false
                       end;
     pv_address := match existing with Some e => tr_Address e | None => "" end;
     pv_sshPort := match existing with Some e => tr_SSHPort e | None => 0 end;
     pv_sshUsername := ssh_field se_Username "";
     pv_sshKeyPath := ssh_field se_KeyPath "";
     pv_sshFingerprint := ssh_field se_KeyFingerprintSHA256 "" |}.

(** Whether the run maps the profile to another target, once confirmed. *)
Definition confirm_remap (profile resolved : string) (existing : option targetRecord) : W bool :=
  match existing with
  | None => mret false
  | Some _ =>
      match EffectiveTargetID profile existing with
      | Err _ => mret false
      | Ok prev =>
          if negb (String.eqb prev "") && negb (String.eqb prev resolved) then
            _ ← says ["Local profile:         " +:+ profile; "Previous target ID:    " +:+ prev;
                      "Requested target ID:   " +:+ resolved;
                      "This changes the application target associated with this local profile";
                      "and will reset SSH readiness. An explicit `target probe` will be required";
                      "before the connector can publish ssh_ready=true under the new UUID."];
            sure ← confirmYesNo "Continue with remap" false;
            if negb sure then abort (ECode "aborted by operator (target-id remap not confirmed)")
            else mret true
          else mret false
      end
  end.

Definition set_address (addr : string) (restPort sshPort : Z) (rec : targetRecord) : targetRecord :=
  {| tr_TargetID := tr_TargetID rec; tr_Address := addr; tr_RESTPort := restPort; tr_SSHPort := sshPort;
     tr_REST := tr_REST rec; tr_SSH := tr_SSH rec; tr_LastWizard := tr_LastWizard rec;
     tr_Readiness := tr_Readiness rec |}.
Definition set_rest (rest : restEntry) (rec : targetRecord) : targetRecord :=
  {| tr_TargetID := tr_TargetID rec; tr_Address := tr_Address rec; tr_RESTPort := tr_RESTPort rec;
     tr_SSHPort := tr_SSHPort rec; tr_REST := Some rest; tr_SSH := tr_SSH rec;
     tr_LastWizard := tr_LastWizard rec; tr_Readiness := tr_Readiness rec |}.
Definition set_ssh (ssh : sshEntry) (rec : targetRecord) : targetRecord :=
  {| tr_TargetID := tr_TargetID rec; tr_Address := tr_Address rec; tr_RESTPort := tr_RESTPort rec;
     tr_SSHPort := tr_SSHPort rec; tr_REST := tr_REST rec; tr_SSH := Some ssh;
     tr_LastWizard := tr_LastWizard rec; tr_Readiness := tr_Readiness rec |}.
Definition set_last_wizard (t : string) (rec : targetRecord) : targetRecord :=
  {| tr_TargetID := tr_TargetID rec; tr_Address := tr_Address rec; tr_RESTPort := tr_RESTPort rec;
     tr_SSHPort := tr_SSHPort rec; tr_REST := tr_REST rec; tr_SSH := tr_SSH rec; tr_LastWizard := t;
     tr_Readiness := tr_Readiness rec |}.

(** The REST entry of the record.  A CA file is looked for in [existing], which
    is the same object as [rec] when the profile was there before. *)
Definition rest_entry (configDir restUser restPasswordFile : string) (existed : bool) (rec : targetRecord)
    : targetRecord * restEntry :=
  let entry := {| re_TransportMode := "https-verified"; re_Username := restUser;
                  re_PasswordFile := managedArtifactPathForRecord configDir restPasswordFile ArtifactRESTSecret;
                  re_CAFile := "" |} in
  let rec := set_rest entry rec in
  let existing := if existed then Some rec else None in
  match existing with
  | Some e =>
      match tr_REST e with
      | Some r =>
          if negb (String.eqb (re_CAFile r) "") then
            let entry' := {| re_TransportMode := re_TransportMode entry; re_Username := re_Username entry;
                             re_PasswordFile := re_PasswordFile entry;
                             re_CAFile := managedArtifactPathForRecord configDir (re_CAFile r) ArtifactTLSMaterial |} in
            (set_rest entry' rec, entry')
          else (rec, entry)
      | None => (rec, entry)
      end
  | None => (rec, entry)
  end.

Definition ssh_entry (configDir sshUser knownHosts : string) (m : keyMetadata) : sshEntry :=
  {| se_Username := sshUser;
     se_KeyPath := managedArtifactPathForRecord configDir (km_KeyPath m) ArtifactSSHPrivateKey;
     se_PublicKeyPath := managedArtifactPathForRecord configDir (km_PublicKeyPath m) ArtifactSSHPublicKey;
     se_KnownHostsPath := managedArtifactPathForRecord configDir knownHosts ArtifactKnownHosts;
     se_KeyAlgorithm := km_Algorithm m; se_KeyBits := km_Bits m; se_KeyOrigin := km_Origin m;
     se_KeyFingerprintSHA256 := km_FingerprintSHA256 m |}.

(** ** SSH readiness after a run *)

Definition canRegressionProbe (hkErr : option tc_error) (hostKeyRefreshed : bool) (prev : previous)
    (rec : targetRecord) (ssh : sshEntry) : bool :=
  let keyReused := pv_hasSSH prev && negb (String.eqb (se_KeyFingerprintSHA256 ssh) "")
    && String.eqb (se_KeyFingerprintSHA256 ssh) (pv_sshFingerprint prev)
    && String.eqb (se_KeyPath ssh) (pv_sshKeyPath prev) in
  let identityUnchanged := pv_hasSSH prev && String.eqb (se_Username ssh) (pv_sshUsername prev)
    && String.eqb (tr_Address rec) (pv_address prev) && (tr_SSHPort rec =? pv_sshPort prev) in
  match hkErr with None => true | Some _ => false end && negb hostKeyRefreshed && pv_hasSSH prev
  && pv_wasSSHReady prev && keyReused && identityUnchanged.

Definition with_rest_state (ready : bool) (reason state : string) (r : readiness) : readiness :=
  {| rd_RESTReady := ready; rd_RESTReason := reason; rd_RESTSecurityState := state;
     rd_SSHReady := rd_SSHReady r; rd_SSHReason := rd_SSHReason r; rd_SSHProbeStage := rd_SSHProbeStage r;
     rd_LastSSHProbeAt := rd_LastSSHProbeAt r; rd_LastSuccessfulSSHProbeAt := rd_LastSuccessfulSSHProbeAt r |}.
Definition pending (r : readiness) : readiness :=
  {| rd_RESTReady := rd_RESTReady r; rd_RESTReason := rd_RESTReason r;
     rd_RESTSecurityState := rd_RESTSecurityState r; rd_SSHReady := false;
     rd_SSHReason := "setup_pending"; rd_SSHProbeStage := "not_run";
     rd_LastSSHProbeAt := rd_LastSSHProbeAt r; rd_LastSuccessfulSSHProbeAt := rd_LastSuccessfulSSHProbeAt r |}.

Definition ssh_state (configDir : string) (probe : bool) (rec : targetRecord) (ssh : sshEntry) : W readiness :=
  if probe then
    '(ready, reason, nowStr) ← timed_probe configDir rec ssh;
    mret (probed ready reason (if ready : bool then "command_succeeded" else "auth_succeeded") nowStr (tr_Readiness rec))
  else mret (pending (tr_Readiness rec)).

(** ** The menu *)

Definition import_instructions (sshPubPath : string) : list string :=
  ["On Brocade Fabric OS, install the collector public key with:"; "  sshutil importpubkey"]
  ++ (if String.eqb sshPubPath "" then []
      else ["Public key file (stage it on an SCP/SFTP server the switch can reach):"; "  " +:+ sshPubPath])
  ++ ["Use the read-only switch account (e.g. filterrex_ro). `sshutil allowuser` is for";
      "switch-initiated outgoing SSH and is NOT required for connector login."].

Definition put_record (profile : string) (rec : targetRecord) (doc : targetsDoc) : targetsDoc :=
  {| td_Version := td_Version doc; td_Targets := <[profile := Some rec]> (td_Targets doc) |}.

Definition test_now (configDir : string) (doc : targetsDoc) (profile : string) (rec : targetRecord)
    (ssh : sshEntry) : W unit :=
  '(ready, reason, nowStr) ← timed_probe configDir rec ssh;
  let rec := set_readiness (probed ready reason (stage_of ready reason) nowStr (tr_Readiness rec)) rec in
  saved ← lift (writeTargets marshal_targets configDir (put_record profile rec doc));
  _ ← match saved with
      | Ok _ => mret tt
      | Err e => warn ("warning: could not persist probe result: " +:+ error_text e)
      end;
  _ ← printStatusBlock rec;
  if ready : bool then mret tt
  else says ["SSH probe did not authenticate. Verify `sshutil importpubkey`";
             "on the switch loaded the correct public key for this account, then";
             "re-run `connector-agent target probe --profile <uuid>`."].

Definition menu_attempt (configDir : string) (doc : targetsDoc) (profile : string) (rec : targetRecord)
    (ssh : sshEntry) (sshPubPath : string) : W (option unit) :=
  _ ← says ["Has the displayed public key been imported on the switch?"; "  1) Yes — test SSH now";
            "  2) Show import instructions"; "  3) Finish setup and test later"];
  choice ← prompt "Choice" "3";
  let choice := TrimSpace choice in
  if String.eqb choice "1" then _ ← test_now configDir doc profile rec ssh; mret (Some tt)
  else if String.eqb choice "2" then _ ← says (import_instructions sshPubPath); mret None
  else if String.eqb choice "" || String.eqb choice "3" then mret (Some tt)
  else _ ← say "Please enter 1, 2, or 3."; mret None.
Definition postConfigureMenu (configDir : string) (doc : targetsDoc) (profile : string) (rec : targetRecord)
    (ssh : sshEntry) (sshPubPath : string) : W unit := fun w =>
  retry (rounds w) (menu_attempt configDir doc profile rec ssh sshPubPath) w.

(** ** A run *)

(** What the operator is asked before the record is assembled. *)
Record answers : Type := {
  an_rec : targetRecord;
  an_restUser : string;
  an_sshUser : string;
  an_restPasswordFile : string;
  an_restSecState : string;
  an_keyMeta : keyMetadata;
  an_knownHosts : string;
  an_refreshed : bool;
  an_hkErr : option tc_error;
}.

Definition ask_all (configDir profile : string) (kc : keyChoice) (rec : targetRecord) : W answers :=
  '(addr, restPort, sshPort) ← promptAddressAndPorts (Getenv "FILTERREX_LAB_MODE") rec;
  let rec := set_address addr restPort sshPort rec in
  restUser ← prompt "REST username" (firstNonEmpty (existingUser (Some rec) "rest") "filterrex_ro");
  sshUser ← prompt "SSH username" (firstNonEmpty (existingUser (Some rec) "ssh") restUser);
  '(passwordFile, secState) ← configureRESTPassword configDir profile rec;
  keyMeta ← configureSSHKey configDir profile rec kc;
  '(knownHosts, refreshed, hkErr) ← enrollHostKey configDir addr sshPort;
  _ ← match hkErr with
      | Some e => warn ("host-key enrollment failed: " +:+ error_text e)
      | None => mret tt
      end;
  mret {| an_rec := rec; an_restUser := restUser; an_sshUser := sshUser; an_restPasswordFile := passwordFile;
          an_restSecState := secState; an_keyMeta := keyMeta; an_knownHosts := knownHosts;
          an_refreshed := refreshed; an_hkErr := hkErr |}.

(** The record from the answers and the two probes. *)
Definition assemble (configDir : string) (prev : previous) (existed : bool) (a : answers)
    : W (targetRecord * sshEntry) :=
  let '(rec, rest) := rest_entry configDir (an_restUser a) (an_restPasswordFile a) existed (an_rec a) in
  let ssh := ssh_entry configDir (an_sshUser a) (an_knownHosts a) (an_keyMeta a) in
  let rec := set_ssh ssh rec in
  '(restReady, restReason) ← looked (probeREST configDir rec rest);
  _ ← lift (modify h_step);
  let rec := set_readiness (with_rest_state restReady restReason (an_restSecState a) (tr_Readiness rec)) rec in
  r ← ssh_state configDir (canRegressionProbe (an_hkErr a) (an_refreshed a) prev rec ssh) rec ssh;
  now ← lift Now;
  mret (set_last_wizard (FormatRFC3339 now) (set_readiness r rec), ssh).

Definition versioned (doc : targetsDoc) : targetsDoc :=
  {| td_Version := if td_Version doc =? 0 then 1 else td_Version doc; td_Targets := td_Targets doc |}.

(** From the loaded document to the saved one. *)
Definition configure (configDir profile resolved : string) (kc : keyChoice) (doc : targetsDoc)
    : W (targetsDoc * targetRecord * sshEntry * keyMetadata) :=
  let existing := mjoin (td_Targets doc !! profile) in
  _ ← match existing with
      | Some _ => say "Existing configuration detected for this profile — you will be prompted to reuse or replace each artifact."
      | None => mret tt
      end;
  changed ← confirm_remap profile resolved existing;
  let prev := snapshot existing changed in
  a ← ask_all configDir profile kc (stamp resolved changed (default empty_record existing));
  '(rec, ssh) ← assemble configDir prev (match existing with Some _ => true | None => false end) a;
  let doc := put_record profile rec (versioned doc) in
  _ ← liftE (writeTargets marshal_targets configDir doc);
  mret (doc, rec, ssh, an_keyMeta a).

Definition next_steps (rec : targetRecord) (ssh : sshEntry) (m : keyMetadata) : list string :=
  (if negb (rd_RESTReady (tr_Readiness rec)) || negb (rd_SSHReady (tr_Readiness rec)) then
     ["Next step: after installing the public key on the switch (`sshutil importpubkey`),";
      "run `connector-agent target probe --profile <uuid>` to prove end-to-end SSH readiness."]
   else [])
  ++ (if String.eqb (se_PublicKeyPath ssh) "" then []
      else ["SSH public key to install on the switch (read-only account):"; "  " +:+ km_PublicKeyPath m]).

Definition banner (configDir stateDir profile resolved : string) : list string :=
  let version := TrimSpace WizardVersion in
  ["target configure (" +:+ (if String.eqb version "" then "dev" else version) +:+ ")";
   "  config-dir: " +:+ configDir; "  state-dir:  " +:+ stateDir; "  profile:    " +:+ profile;
   "  target-id:  " +:+ resolved; "  euid/egid:  " +:+ pretty euid +:+ "/" +:+ pretty egid].

Definition run (configDir stateDir profile resolved : string) (kc : keyChoice) : W unit :=
  _ ← says (banner configDir stateDir profile resolved);
  _ ← ensureDirs configDir;
  identity ← looked (verifyConnectorIdentity stateDir);
  _ ← match identity with
      | Some e => warn ("warning: " +:+ e +:+ " (proceeding with local-only configuration)")
      | None => mret tt
      end;
  loaded ← looked (loadTargets unmarshal_targets configDir);
  match loaded with
  | Err e => abort e
  | Ok doc =>
      '(doc, rec, ssh, meta) ← configure configDir profile resolved kc doc;
      _ ← printStatusBlock rec;
      _ ← says (next_steps rec ssh meta);
      if rd_SSHReady (tr_Readiness rec) then mret tt
      else postConfigureMenu configDir doc profile rec ssh (km_PublicKeyPath meta)
  end.

(** ** The commands.  [parsed] holds the flags, unless parsing them failed. *)

Record Flags : Type := {
  fl_configDir : string;
  fl_profile : string;
  fl_targetID : string;
  fl_stateDir : string;
  fl_nonInteractive : bool;
  fl_keyAlgo : string;
  fl_importExisting : string;
}.

(** A refusal is an exit code of 2 and a message. *)
Definition check_flags (f : Flags) : result string (string * keyChoice) :=
  if fl_nonInteractive f then
    Err "target configure: -y is not supported: the wizard requires interactive out-of-band fingerprint verification."
  else if String.eqb (TrimSpace (fl_profile f)) "" then Err "target configure: --profile is required."
  else if String.eqb (TrimSpace (fl_configDir f)) "" then Err "target configure: --config-dir is required."
  else if negb (isSafeProfileName (fl_profile f)) then
    Err "target configure: --profile must be a safe identifier (letters, digits, dot, dash, underscore)."
  else
  match resolveTargetIDArgs (fl_profile f) (fl_targetID f) with
  | Err e => Err ("target configure: " +:+ error_text e)
  | Ok resolved =>
      if negb (String.eqb (TrimSpace (fl_keyAlgo f)) "") && negb (String.eqb (TrimSpace (fl_importExisting f)) "") then
        Err "target configure: --key-algo and --import-existing are mutually exclusive."
      else match parseKeyChoice (fl_keyAlgo f) (fl_importExisting f) with
           | Err e => Err ("target configure: " +:+ error_text e)
           | Ok kc => Ok (resolved, kc)
           end
  end.

Definition Run (parsed : option Flags) : W Z := fun w =>
  match parsed with
  | None => (Done 2, w)
  | Some f =>
      match check_flags f with
      | Err msg => (_ ← warn msg; mret 2) w
      | Ok (resolved, kc) =>
          match run (fl_configDir f) (fl_stateDir f) (fl_profile f) resolved kc w with
          | (Done _, w') => (Done 0, w')
          | (Failed e, w') => (_ ← warn ("target configure: " +:+ error_text e); mret 1) w'
          | (Diverges, w') => (Diverges, w')
          end
      end
  end.

Definition refuse (code : Z) (msg : string) : W Z := _ ← warn ("target probe: " +:+ msg); mret code.

(** After the flags: the record, its identity, the probe and the save. *)
Definition probe_profile (configDir profile targetID : string) (doc : targetsDoc) : W Z :=
  let none := "no SSH configuration exists for this profile — run `target configure` first." in
  match mjoin (td_Targets doc !! profile) with
  | None => refuse 1 none
  | Some rec =>
      match tr_SSH rec with
      | None => refuse 1 none
      | Some ssh =>
          match EffectiveTargetID profile (Some rec) with
          | Err e => refuse 1 (error_text e)
          | Ok resolved =>
              let asserted := canonicalUUID targetID in
              if negb (String.eqb asserted "") && negb (String.eqb asserted resolved) then
                refuse 1 ("target_id_mismatch (record resolves to " +:+ resolved +:+ ", asserted " +:+ asserted
                          +:+ "). Refusing to probe without reconfiguration.")
              else
              '(ready, reason, nowStr) ← timed_probe configDir rec ssh;
              let rec := set_readiness (probed ready reason (stage_of ready reason) nowStr (tr_Readiness rec)) rec in
              saved ← lift (writeTargets marshal_targets configDir (put_record profile rec doc));
              match saved with
              | Err e => refuse 1 ("write failed: " +:+ error_text e)
              | Ok _ => _ ← printStatusBlock rec; mret 0
              end
          end
      end
  end.

Definition RunProbe (parsed : option (string * string * string)) : W Z :=
  match parsed with
  | None => mret 2
  | Some (configDir, profile, targetID) =>
      if String.eqb (TrimSpace profile) "" then refuse 2 "--profile is required."
      else if negb (isSafeProfileName profile) then
        refuse 2 "--profile must be a safe identifier (letters, digits, dot, dash, underscore)."
      else if String.eqb (TrimSpace configDir) "" then refuse 2 "--config-dir is required."
      else if negb (String.eqb (TrimSpace targetID) "") && String.eqb (canonicalUUID targetID) "" then
        refuse 2 "--target-id must be a valid target-profile UUID (v4)."
      else
      loaded ← looked (loadTargets unmarshal_targets configDir);
      match loaded with
      | Err e => refuse 1 (error_text e)
      | Ok doc => probe_profile configDir profile targetID doc
      end
  end.
End Wizard.
