(* ===== verification/WizardProps.v ===== *)
(** The wizard: it loops only when its input has ended, a host key is enrolled
    only after it was confirmed and its challenge answered, and the saved record
    claims no SSH readiness that was not probed. *)
From S2P Require Import Prelude GoStrings GoPath GoTime TargetConfig TargetProbe BrocadeRest.
From S2P Require Import WizardTerminal WizardTerminalProps Wizard.
From Stdlib Require Import Strings.Byte Ascii.

Local Open Scope Z_scope.

(** ** Every operation is built from the primitives *)

(** The files that a run of the wizard writes, without the host keys. *)
Definition run_files (configDir profile : string) : list string :=
  let key := JoinPath [configDir; sshKeyDir; profileSlug profile] in
  [configDir; JoinPath [configDir; restSecretDir]; JoinPath [configDir; sshKeyDir]; JoinPath [configDir; tlsDir];
   JoinPath [configDir; targetsFile]; JoinPath [configDir; restSecretDir; profileSlug profile];
   key; key +:+ ".pub"].

Section Built.
Context `{Outside} (P : forall A, W A -> Prop) `{!Closed P} (allowed : string -> Prop).
Context (P_step : P unit (lift (modify h_step))) (P_now : P GoTime (lift Now)) (P_password : P buf read_password).
Context (P_chmod : forall d, P bool (lift (chmod d))).
Context (P_dir : forall d, allowed d -> P bool (lift (ensure_dir d))).
Context (P_write : forall p b, allowed p -> P _ (lift (atomicWriteFile p b))).
Context (P_shared : forall p b, allowed p -> P _ (lift (write_shared p b))).

Ltac built := close_with ltac:(first [closed_more | apply P_step | apply P_now | apply P_password | apply P_chmod
  | by apply P_dir | by apply P_write | by apply P_shared ]).

Lemma built_dirs l : Forall allowed l -> P unit (foldr (fun d m => _ ← make_private d; m) (mret tt) l).
Proof. induction 1 as [|d l Hd Hl IH]; simpl; unfold make_private; built. Qed.
Lemma built_timed dir rec ssh : P _ (timed_probe dir rec ssh).
Proof. unfold timed_probe. built. Qed.
Lemma built_ask path rec : allowed path -> P _ (ask_password path rec).
Proof. intros Ha. unfold ask_password, readSecretNoEcho. built. Qed.
Lemma built_generate algo k p : allowed k -> allowed p -> P _ (generate algo k p).
Proof.
  intros Hk Hp. unfold generate, generateEd25519, generateRSA3072, generated, orE. built.
Qed.
Lemma built_import src k p : allowed k -> allowed p -> P _ (importSSHKeyFrom src k p).
Proof. intros Hk Hp. unfold importSSHKeyFrom, import_bytes. built. Qed.
Lemma built_import_prompt k p : allowed k -> allowed p -> P _ (importSSHKey k p).
Proof. intros Hk Hp. unfold importSSHKey. close_with ltac:(first [closed_more|by apply built_import]). Qed.
Lemma built_new kc k p : allowed k -> allowed p -> P _ (new_key kc k p).
Proof.
  intros Hk Hp. unfold new_key.
  close_with ltac:(first [closed_more|by apply built_import|by apply built_import_prompt|by apply built_generate]).
Qed.
Lemma built_key dir profile rec kc :
  (let k := JoinPath [dir; sshKeyDir; profileSlug profile] in allowed k /\ allowed (k +:+ ".pub")) ->
  P _ (configureSSHKey dir profile rec kc).
Proof.
  intros [Hk Hp]. unfold configureSSHKey, deriveKeyMetadata.
  close_with ltac:(first [closed_more|by apply built_import_prompt|by apply built_new]).
Qed.
Lemma built_password dir profile rec : allowed (JoinPath [dir; restSecretDir; profileSlug profile]) ->
  P _ (configureRESTPassword dir profile rec).
Proof.
  intros Ha. unfold configureRESTPassword. close_with ltac:(first [closed_more|by apply built_ask]).
Qed.
Lemma built_save dir doc : allowed (JoinPath [dir; targetsFile]) -> P _ (lift (writeTargets marshal_targets dir doc)).
Proof. apply P_write. Qed.
Lemma built_assemble dir prev existed a : P _ (assemble dir prev existed a).
Proof. unfold assemble, ssh_state. close_with ltac:(first [closed_more|apply P_step|apply P_now|apply built_timed]). Qed.
Lemma built_menu dir doc profile rec ssh pub : allowed (JoinPath [dir; targetsFile]) ->
  P _ (menu_attempt dir doc profile rec ssh pub).
Proof.
  intros Ha. unfold menu_attempt, test_now.
  close_with ltac:(first [closed_more|apply built_timed|by apply built_save]).
Qed.

Lemma built_ask_all dir profile kc rec :
  Forall allowed (run_files dir profile) ->
  (forall host port, P _ (enrollHostKey dir host port)) ->
  P _ (promptAddressAndPorts (Getenv "FILTERREX_LAB_MODE") rec) ->
  P _ (ask_all dir profile kc rec).
Proof.
  intros Ha He Hp. unfold run_files in Ha. rewrite !Forall_cons in Ha.
  destruct Ha as (_ & _ & _ & _ & Ht & Hs & Hk & Hpub & _). unfold ask_all.
  close_with ltac:(first [closed_more|apply He|apply Hp|by apply built_password|by apply built_key]).
Qed.
Lemma built_configure dir profile resolved kc doc :
  Forall allowed (run_files dir profile) ->
  (forall host port, P _ (enrollHostKey dir host port)) ->
  (forall changed, P _ (promptAddressAndPorts (Getenv "FILTERREX_LAB_MODE")
     (stamp resolved changed (default empty_record (mjoin (td_Targets doc !! profile)))))) ->
  P _ (configure dir profile resolved kc doc).
Proof.
  intros Ha He Hp.
  assert (Ht : allowed (JoinPath [dir; targetsFile])) by (unfold run_files in Ha; rewrite !Forall_cons in Ha; tauto).
  unfold configure, confirm_remap.
  close_with ltac:(first [closed_more|by apply built_ask_all|apply built_assemble|by apply built_save]).
Qed.

(** A run, when its loops are known to have the property. *)
Lemma built_run dir state profile resolved kc :
  Forall allowed (run_files dir profile) ->
  (forall doc, P _ (configure dir profile resolved kc doc)) ->
  (forall doc rec ssh pub, P _ (postConfigureMenu dir doc profile rec ssh pub)) ->
  P _ (run dir state profile resolved kc).
Proof.
  intros Ha Hc Hm. unfold run, ensureDirs.
  assert (Hd : Forall allowed [dir; JoinPath [dir; restSecretDir]; JoinPath [dir; sshKeyDir]; JoinPath [dir; tlsDir]]).
  { unfold run_files in Ha. rewrite !Forall_cons in *. tauto. }
  close_with ltac:(first [closed_more|by apply built_dirs|apply Hc|apply Hm]).
Qed.
End Built.

(** ** The loops end *)

Lemma total_password `{Outside} : total _ read_password.
Proof. intros w. unfold read_password. destruct (ReadPassword (wo_input w)) as [[]]; discriminate. Qed.

Lemma menu_asks `{Outside} dir doc profile rec ssh pub : asks (menu_attempt dir doc profile rec ssh pub).
Proof.
  unfold menu_attempt. apply asks_after.
  - apply (closed_says (moves shrinks)).
  - apply (closed_says total).
  - intros w. rewrite says_run. eauto.
  - apply asks_intro; intros s; unfold test_now, timed_probe; close_all.
Qed.
Lemma menu_total `{Outside} dir doc profile rec ssh pub : total _ (postConfigureMenu dir doc profile rec ssh pub).
Proof.
  intros w. apply (retry_total _ (menu_asks dir doc profile rec ssh pub)); [|unfold rounds; lia].
  intros w1 Hw. unfold menu_attempt. rewrite (bind_eq _ _ _ _ _ (says_run _ w1)).
  set (w2 := logged _ w1). assert (H2 : wo_input w2 = []) by exact Hw.
  pose proof (prompt_eof "Choice" "3" w2 H2) as E. destruct (prompt "Choice" "3" w2) as [r w3] eqn:Ep.
  simpl in E. subst r. rewrite (bind_eq _ _ _ _ _ Ep). simpl. done.
Qed.

Lemma enroll_total `{Outside} dir host port : total _ (enrollHostKey dir host port).
Proof. unfold enrollHostKey, refresh_key, fetchHostKey, trust_key. close_all. Qed.

Lemma configure_prop `{Outside} (P : forall A, W A -> Prop) `{!Closed P} dir profile resolved kc doc :
  (forall A m, total A m -> P A m) ->
  (forall changed, P _ (promptAddressAndPorts (Getenv "FILTERREX_LAB_MODE")
     (stamp resolved changed (default empty_record (mjoin (td_Targets doc !! profile)))))) ->
  P _ (configure dir profile resolved kc doc).
Proof.
  intros Ht Hp. apply (built_configure P (fun _ => True)); try (intros; apply Ht; apply total_lift); try done.
  - apply Ht, total_password.
  - by repeat constructor.
  - intros. apply Ht, enroll_total.
Qed.

Lemma run_dry `{Outside} dir state profile resolved kc : dry _ (run dir state profile resolved kc).
Proof.
  apply (built_run dry (fun _ => True)); try (intros; apply total_dry, total_lift).
  - by repeat constructor.
  - intros doc. apply (configure_prop dry); [apply total_dry|]. intros. apply address_dry.
  - intros. apply total_dry, menu_total.
Qed.

(** C32: the wizard ends.  Whatever is on the host, on the network and on the
    terminal, the command can loop only in a question that it repeats after its
    input has ended; the menu never loops; and a profile whose stored address
    and ports are acceptable is configured without looping, since every
    question then has a default that ends it. *)
Theorem wizard_ends `{Outside} (parsed : option Flags) (w : World) :
  (let '(r, w') := Run parsed w in r = Diverges -> wo_input w' = [])
  /\ (forall dir doc profile rec ssh pub, fst (postConfigureMenu dir doc profile rec ssh pub w) <> Diverges)
  /\ (forall dir profile resolved kc doc rec,
        td_Targets doc !! profile = Some (Some rec) ->
        keepable (Getenv "FILTERREX_LAB_MODE") rec ->
        fst (configure dir profile resolved kc doc w) <> Diverges).
Proof.
  split_and!.
  - unfold Run. destruct parsed as [f|]; [|done]. destruct (check_flags f) as [[resolved kc]|msg]; [|done].
    pose proof (run_dry (fl_configDir f) (fl_stateDir f) (fl_profile f) resolved kc w) as Hd.
    destruct (run _ _ _ _ _ w) as [[[]|e|] w1]; simpl in *; try done. intros _. by apply Hd.
  - intros. apply menu_total.
  - intros dir profile resolved kc doc rec E Hk. apply (configure_prop total); [done|].
    intros changed. rewrite E. apply address_total. exact Hk.
Qed.

(** ** Host keys *)

(** The operator confirmed and typed what [key] asks for, and the line of the
    key is the last one of the file. *)
Definition vouched `{Outside} (l : list event) (node' : option node) : Prop :=
  exists host port key n a c old,
    sp_presents (peer n (host_port host port) "filterrex-hostkey-probe" []) = Ok key
    /\ Printed ("  SHA256 fp:   SHA256:" +:+ unpadded key) ∈ l
    /\ Asked compared_label a ∈ l /\ a ∈ ["y"; "yes"]
    /\ Asked challenge_label c ∈ l /\ TrimSpace c = challenge (unpadded key)
    /\ node' = Some (NFile (old ++ buf_of (knownHostsLine host port key)) true).

(** The file [kh] changes only with a vouched key. *)
Definition trusting `{Outside} (kh : string) (w w' : World) : Prop :=
  exists l, wo_log w' = wo_log w ++ l
    /\ (h_nodes (wo_host w') !! kh = h_nodes (wo_host w) !! kh \/ vouched l (h_nodes (wo_host w') !! kh)).

Lemma vouched_more `{Outside} l1 l2 n : vouched l1 n \/ vouched l2 n -> vouched (l1 ++ l2) n.
Proof.
  intros [V|V]; destruct V as (host & port & key & k & a & c & old & H1 & H2 & H3 & H4 & H5 & H6 & H7);
    exists host, port, key, k, a, c, old; rewrite !elem_of_app; tauto.
Qed.
#[global] Instance trusting_pre `{Outside} kh : PreOrder (trusting kh).
Proof.
  split.
  - intros w. exists []. by rewrite app_nil_r; auto.
  - intros w1 w2 w3 (l1 & E1 & H1) (l2 & E2 & H2). exists (l1 ++ l2). split; [by rewrite E2, E1, app_assoc|].
    destruct H2 as [H2|H2]; [rewrite H2; destruct H1 as [H1|H1]; [by left|]|];
      right; apply vouched_more; auto.
Qed.
#[global] Instance trusting_closed `{Outside} kh : Closed (moves (trusting kh)).
Proof.
  apply moves_closed; [apply _|intros w e; exists [e]; auto|].
  intros w. unfold read_line. destruct (Fscanln _) as [[? ?] ?]. exists []. simpl. rewrite app_nil_r. auto.
Qed.

Lemma trusting_lift `{Outside} kh A (m : M Host A) :
  (forall h, h_nodes (exec m h) !! kh = h_nodes h !! kh) -> moves (trusting kh) A (lift m).
Proof.
  intros Hm w. exists []. unfold lift. specialize (Hm (wo_host w)). unfold exec in Hm.
  destruct (m (wo_host w)) as [a h]. simpl in *. rewrite app_nil_r. auto.
Qed.

Lemma write_elsewhere kh p b h : p <> kh ->
  h_nodes (exec (atomicWriteFile p b) h) !! kh = h_nodes h !! kh
  /\ h_nodes (exec (write_shared p b) h) !! kh = h_nodes h !! kh
  /\ h_nodes (exec (ensure_dir p) h) !! kh = h_nodes h !! kh.
Proof.
  intros Hp. unfold exec, atomicWriteFile, write_shared, ensure_dir.
  split_and!; [destruct (h_write h _)|destruct (h_write h _)
    |destruct (h_nodes h !! p) as [[]|]; [..|destruct (h_write h _)]]; simpl; by rewrite ?lookup_insert_ne.
Qed.

(** Showing, confirming, challenging and enrolling a presented key. *)
Lemma trust_key_run `{Outside} kh host port key w :
  let '(r, w') := trust_key kh host port key w in
  exists line c,
    let asked := map Printed ["Switch presented SSH host key:"; "  type:        " +:+ key_Type key;
                      "  SHA256 fp:   SHA256:" +:+ unpadded key;
                      "This key was received over the network and is NOT yet trusted.";
                      "Compare the fingerprint above with the switch console, an existing";
                      "trusted SSH session, or an approved inventory record."]
                 ++ [Asked compared_label line] in
    (wo_log w' = wo_log w ++ asked /\ h_nodes (wo_host w') = h_nodes (wo_host w) /\ exists e, r = Done (Err e))
    \/ (wo_log w' = wo_log w ++ asked ++ [Asked challenge_label c] /\ line ∈ ["y"; "yes"]
        /\ (h_nodes (wo_host w') = h_nodes (wo_host w) /\ (exists e, r = Done (Err e))
            \/ TrimSpace c = challenge (unpadded key) /\ r = Done (Ok tt)
               /\ exists old, h_nodes (wo_host w')
                    = <[kh := NFile (old ++ buf_of (knownHostsLine host port key)) true]> (h_nodes (wo_host w)))).
Proof.
  unfold trust_key. rewrite (bind_eq _ _ _ _ _ (says_run _ w)).
  match goal with |- context [logged ?l w] => set (l0 := l); set (w1 := logged l w) end.
  destruct (yes_run compared_label false w1) as (line & rest & E). rewrite (bind_eq _ _ _ _ _ E). clear E.
  destruct (prompt_run challenge_label ""
    {| wo_host := wo_host w1; wo_input := rest; wo_log := wo_log w1 ++ [Asked compared_label line] |})
    as (c & rest' & E).
  destruct (negb _) eqn:Eyes.
  { exists line, c. left. simpl. split_and!; [by rewrite <- app_assoc|done|eauto]. }
  rewrite (bind_eq _ _ _ _ _ E). clear E.
  assert (Hline : line ∈ ["y"; "yes"]).
  { destruct (String.eqb_spec line ""); [done|]. destruct (String.eqb_spec line "y") as [->|]; [set_solver|].
    destruct (String.eqb_spec line "yes") as [->|]; [set_solver|done]. }
  destruct (String.eqb_spec (TrimSpace c) (challenge (unpadded key))) as [Ec|]; simpl.
  2: { exists line, c. right. split_and!; [by rewrite <- !app_assoc|done|left; eauto]. }
  unfold lift, appendLineAtomic, write_shared, mbind, M_bind, gets. simpl.
  destruct (h_write (wo_host w) _); simpl; exists line, c; right; (split_and!; [by rewrite <- !app_assoc|done|]);
    try (left; split; [done|by eexists]); right; (split_and!; [done|done|by eexists]).
Qed.

Lemma trust_key_trusting `{Outside} kh host port key n :
  sp_presents (peer n (host_port host port) "filterrex-hostkey-probe" []) = Ok key ->
  moves (trusting kh) _ (trust_key kh host port key).
Proof.
  intros Hkey w. pose proof (trust_key_run kh host port key w) as Hr.
  destruct (trust_key kh host port key w) as [r w']. destruct Hr as (line & c & Hr). cbv zeta in Hr. simpl.
  destruct Hr as [(El & En & _)|(El & Hline & [[En _]|(Ec & _ & old & En)])];
    eexists; (split; [exact El|]); [left; by rewrite En|left; by rewrite En|right].
  exists host, port, key, n, line, c, old. rewrite En, lookup_insert_eq.
  rewrite !elem_of_app. split_and!; try done; set_solver.
Qed.

Lemma enroll_trusting `{Outside} dir host port :
  moves (trusting (JoinPath [dir; knownHostsFn])) _ (enrollHostKey dir host port).
Proof.
  unfold enrollHostKey, refresh_key.
  assert (Hf : forall w, exists n w', fetchHostKey host port w
    = (Done match sp_presents (peer n (host_port host port) "filterrex-hostkey-probe" []) with
       | Ok key => Ok key | Err _ => Err (ECode "no host key returned (connection failed)") end, w')
    /\ trusting (JoinPath [dir; knownHostsFn]) w w').
  { intros w. eexists _, _. split; [reflexivity|]. exists []. simpl. rewrite app_nil_r. auto. }
  assert (Hr : moves (trusting (JoinPath [dir; knownHostsFn])) _ (refresh_key (JoinPath [dir; knownHostsFn]) host port)).
  { intros w. unfold refresh_key. destruct (Hf w) as (n & w' & E & T). rewrite (bind_eq _ _ _ _ _ E).
    destruct (sp_presents _) as [key|] eqn:Ek; [|exact T]. etransitivity; [exact T|].
    apply (@closed_bind (moves (trusting (JoinPath [dir; knownHostsFn]))) _);
      [by eapply trust_key_trusting|]. intros []; close_all. }
  fold (refresh_key (JoinPath [dir; knownHostsFn]) host port). close_all.
Qed.

Lemma password_trusting `{Outside} kh : moves (trusting kh) _ read_password.
Proof.
  intros w. unfold read_password. destruct (ReadPassword _) as [r rest]. exists []. simpl.
  rewrite app_nil_r. auto.
Qed.

Lemma run_trusting `{Outside} dir state profile resolved kc :
  JoinPath [dir; knownHostsFn] ∉ run_files dir profile ->
  moves (trusting (JoinPath [dir; knownHostsFn])) _ (run dir state profile resolved kc).
Proof.
  intros Hapart. set (kh := JoinPath [dir; knownHostsFn]) in *.
  assert (Ha : Forall (fun p => p <> kh) (run_files dir profile)).
  { apply Forall_forall. intros p Hp ->. done. }
  assert (Ht : JoinPath [dir; targetsFile] <> kh).
  { rewrite Forall_forall in Ha. apply Ha. unfold run_files. set_solver. }
  assert (Hs : moves (trusting kh) _ (lift (modify h_step))) by by apply trusting_lift.
  assert (Hn : moves (trusting kh) _ (lift Now)) by by apply trusting_lift.
  assert (Hc : forall d, moves (trusting kh) _ (lift (chmod d))) by (intros d; by apply trusting_lift).
  assert (Hd : forall d, d <> kh -> moves (trusting kh) _ (lift (ensure_dir d))).
  { intros d Hne. apply trusting_lift. intros h. by apply (write_elsewhere kh d []). }
  assert (Hw : forall p b, p <> kh -> moves (trusting kh) _ (lift (atomicWriteFile p b))).
  { intros p b Hne. apply trusting_lift. intros h. by apply write_elsewhere. }
  assert (Hw' : forall p b, p <> kh -> moves (trusting kh) _ (lift (write_shared p b))).
  { intros p b Hne. apply trusting_lift. intros h. by apply write_elsewhere. }
  apply (built_run (moves (trusting kh)) (fun p => p <> kh)); try done; try apply password_trusting.
  - intros doc. apply (built_configure (moves (trusting kh)) (fun p => p <> kh)); try done; try apply password_trusting;
      [intros; apply enroll_trusting|intros changed].
    unfold promptAddressAndPorts, promptAddress, promptPort.
    assert (Hretry : forall A (m : W (option A)), moves (trusting kh) _ m ->
      moves (trusting kh) _ (fun w => retry (rounds w) m w)).
    { intros A m Hm w. by apply moves_retry; [apply _|]. }
    close_with ltac:(first [apply Hretry|closed_more]).
  - intros doc rec ssh pub w. unfold postConfigureMenu. apply moves_retry; [apply _|].
    by apply (built_menu (moves (trusting kh)) (fun p => p <> kh)).
Qed.

(** C11: no host key is trusted on first sight.  Whatever the flags, the host,
    the network and the terminal do, a run of the wizard leaves [known_hosts] as
    it was, or the last line of the file is that of a key that a peer presented,
    whose fingerprint was printed, which the operator confirmed with yes, and
    whose last 12 characters the operator typed; all of this is in the log of
    this run. *)
Theorem host_key_vouched `{Outside} (f : Flags) (w : World) (kh : string)
    (Hkh : kh = JoinPath [fl_configDir f; knownHostsFn])
    (Hapart : kh ∉ run_files (fl_configDir f) (fl_profile f)) :
  let w' := snd (Run (Some f) w) in
  exists l, wo_log w' = wo_log w ++ l
    /\ (h_nodes (wo_host w') !! kh = h_nodes (wo_host w) !! kh \/ vouched l (h_nodes (wo_host w') !! kh)).
Proof.
  subst kh. set (kh := JoinPath [fl_configDir f; knownHostsFn]) in *. unfold Run.
  destruct (check_flags f) as [[resolved kc]|msg].
  2: { exists [Warned msg]. simpl. auto. }
  pose proof (run_trusting (fl_configDir f) (fl_stateDir f) (fl_profile f) resolved kc Hapart w) as Hrun.
  destruct (run _ _ _ _ _ w) as [[[]|e|] w1]; simpl in *; try exact Hrun.
  destruct Hrun as (l & El & Hn). exists (l ++ [Warned ("target configure: " +:+ error_text e)]).
  split; [by rewrite El, <- app_assoc|]. destruct Hn as [Hn|Hn]; [by left|right; by apply vouched_more; left].
Qed.

(** ** The saved record *)

Lemma liftE_Done {A} (m : M Host (result tc_error A)) w a w' :
  liftE m w = (Done a, w') -> exists h, m (wo_host w) = (Ok a, h) /\ wo_host w' = h /\ wo_log w' = wo_log w.
Proof.
  unfold liftE. intros (r & w1 & E & E2)%bind_Done. unfold lift in E. destruct (m (wo_host w)) as [r' h].
  injection E as <- <-. destruct r'; [|done]. injection E2 as <- <-. eauto.
Qed.
Lemma looked_Done {A} (f : Host -> A) w a w' : looked f w = (Done a, w') -> a = f (wo_host w) /\ w' = w.
Proof. by intros [= <- <-]. Qed.

(** A stored identity is not empty. *)
Lemma EffectiveTargetID_nonempty name rec id : EffectiveTargetID name rec = Ok id -> String.eqb id "" = false.
Proof.
  unfold EffectiveTargetID. destruct rec as [rec|]; [|done]. destruct (negb (String.eqb (TrimSpace _) "")).
  - destruct (String.eqb (canonicalUUID (tr_TargetID rec)) "") eqn:E; [done|]. by intros [= <-].
  - destruct (String.eqb (canonicalUUID name) "") eqn:E; [done|]. by intros [= <-].
Qed.

(** Whether a run maps the profile to another target. *)
Definition remaps (profile resolved : string) (existing : option targetRecord) : bool :=
  match EffectiveTargetID profile existing with
  | Ok prev => negb (String.eqb prev resolved)
  | Err _ => false
  end.

Lemma confirm_remap_spec profile resolved existing w b w' :
  confirm_remap profile resolved existing w = (Done b, w') ->
  b = remaps profile resolved existing
  /\ (b = true -> exists a, Asked "Continue with remap" a ∈ wo_log w' /\ a ∈ ["y"; "yes"]).
Proof.
  unfold confirm_remap, remaps. destruct existing as [e|]; [|by intros [= <- <-]].
  destruct (EffectiveTargetID profile (Some e)) as [prev|] eqn:Ep; [|by intros [= <- <-]].
  rewrite (EffectiveTargetID_nonempty _ _ _ Ep). destruct (String.eqb prev resolved); cbn [negb andb]; [by intros [= <- <-]|].
  match goal with |- context [says ?l] => rewrite (bind_eq _ _ _ _ _ (says_run l w)); set (w1 := logged _ w) end.
  destruct (yes_run "Continue with remap" false w1) as (line & rest & E). rewrite (bind_eq _ _ _ _ _ E).
  destruct (String.eqb_spec line ""); [done|].
  destruct (String.eqb_spec line "y") as [->|]; [|destruct (String.eqb_spec line "yes") as [->|]; [|done]];
    simpl; intros [= <- <-]; (split; [done|]); intros _; eexists; (split; [apply elem_of_app; right; by apply list_elem_of_singleton|set_solver]).
Qed.

(** The log only grows. *)
Definition grows (w w' : World) : Prop := forall e, e ∈ wo_log w -> e ∈ wo_log w'.
#[global] Instance grows_pre : PreOrder grows.
Proof. split; unfold grows; [by intros w e|]. intros a b c H1 H2 e He. auto. Qed.
#[global] Instance grows_closed : Closed (moves grows).
Proof.
  apply moves_closed; [apply _|intros w e e' He; by apply elem_of_app; left|].
  intros w e He. unfold read_line. by destruct (Fscanln _) as [[? ?] ?].
Qed.
Lemma grows_lift A (m : M Host A) : moves grows A (lift m).
Proof. intros w e He. unfold lift. by destruct (m (wo_host w)). Qed.
Lemma grows_retry A (m : W (option A)) : moves grows _ m -> moves grows A (fun w => retry (rounds w) m w).
Proof. intros Hm w. by apply moves_retry; [apply _|]. Qed.
Lemma grows_ask_all `{Outside} dir profile kc rec : moves grows _ (ask_all dir profile kc rec).
Proof.
  apply (built_ask_all (moves grows) (fun _ => True)); try (intros; apply grows_lift).
  - intros w e He. unfold read_password. by destruct (ReadPassword _).
  - by repeat constructor.
  - intros. unfold enrollHostKey, refresh_key, fetchHostKey, trust_key.
    close_with ltac:(first [apply grows_lift|closed_more]).
  - unfold promptAddressAndPorts, promptAddress, promptPort.
    close_with ltac:(first [apply grows_retry|closed_more]).
Qed.
Lemma grows_assemble `{Outside} dir prev existed a : moves grows _ (assemble dir prev existed a).
Proof. apply (built_assemble (moves grows)); intros; apply grows_lift. Qed.

(** The answers keep what the record was stamped with. *)
Lemma ask_all_spec `{Outside} dir profile kc rec w a w' :
  ask_all dir profile kc rec w = (Done a, w') ->
  exists addr restPort sshPort, an_rec a = set_address addr restPort sshPort rec.
Proof.
  unfold ask_all. intros ([[addr restPort] sshPort] & w1 & _ & E)%bind_Done.
  apply bind_Done in E as (restUser & w2 & _ & E). apply bind_Done in E as (sshUser & w3 & _ & E).
  apply bind_Done in E as ([pf st] & w4 & _ & E). apply bind_Done in E as (km & w5 & _ & E).
  apply bind_Done in E as ([[kh rf] he] & w6 & _ & E). apply bind_Done in E as (u & w7 & _ & E).
  injection E as <- <-. by eexists _, _, _.
Qed.

Lemma rest_entry_spec `{Outside} dir user pf existed rec :
  exists rest, rest_entry dir user pf existed rec = (set_rest rest rec, rest)
    /\ re_TransportMode rest = "https-verified" /\ re_Username rest = user /\ re_CAFile rest = "".
Proof. unfold rest_entry. destruct existed; simpl; eexists; by split_and!. Qed.

(** What a probe in this run says about the readiness. *)
Definition probed_now `{Outside} (dir : string) (rec : targetRecord) (ssh : sshEntry) (r : readiness) : Prop :=
  exists h reason now, ssh_probe dir rec ssh h = (rd_SSHReady r, reason)
    /\ rd_LastSSHProbeAt r = FormatRFC3339 now
    /\ (if rd_SSHReady r then rd_SSHReason r = "" /\ rd_SSHProbeStage r = "command_succeeded"
                            /\ rd_LastSuccessfulSSHProbeAt r = FormatRFC3339 now
        else rd_SSHReason r = reason).

Lemma assemble_spec `{Outside} dir prev existed a w rec ssh w' :
  assemble dir prev existed a w = (Done (rec, ssh), w') ->
  ssh = ssh_entry dir (an_sshUser a) (an_knownHosts a) (an_keyMeta a)
  /\ tr_SSH rec = Some ssh /\ tr_TargetID rec = tr_TargetID (an_rec a)
  /\ tr_Address rec = tr_Address (an_rec a) /\ tr_SSHPort rec = tr_SSHPort (an_rec a)
  /\ (exists rest, tr_REST rec = Some rest /\ re_TransportMode rest = "https-verified" /\ re_CAFile rest = "")
  /\ (if canRegressionProbe (an_hkErr a) (an_refreshed a) prev rec ssh
      then probed_now dir rec ssh (tr_Readiness rec)
      else rd_SSHReady (tr_Readiness rec) = false /\ rd_SSHReason (tr_Readiness rec) = "setup_pending"
           /\ rd_SSHProbeStage (tr_Readiness rec) = "not_run"
           /\ rd_LastSSHProbeAt (tr_Readiness rec) = rd_LastSSHProbeAt (tr_Readiness (an_rec a))
           /\ rd_LastSuccessfulSSHProbeAt (tr_Readiness rec)
              = rd_LastSuccessfulSSHProbeAt (tr_Readiness (an_rec a))).
Proof.
  unfold assemble. destruct (rest_entry_spec dir (an_restUser a) (an_restPasswordFile a) existed (an_rec a))
    as (rest & -> & H1 & H2 & H3). cbv zeta beta iota.
  intros ([rr reason] & w1 & _ & E)%bind_Done. apply bind_Done in E as ([] & w2 & _ & E).
  apply bind_Done in E as (r & w3 & Er & E). apply bind_Done in E as (now & w4 & _ & E).
  injection E as <- <- <-. simpl.
  split_and!; try done; [by exists rest|].
  match type of Er with context [canRegressionProbe _ _ _ ?x ?y] =>
    change (canRegressionProbe (an_hkErr a) (an_refreshed a) prev _ _) with (canRegressionProbe (an_hkErr a) (an_refreshed a) prev x y);
    destruct (canRegressionProbe (an_hkErr a) (an_refreshed a) prev x y) end.
  - unfold ssh_state in Er. apply bind_Done in Er as ([[ready rs] nowStr] & w5 & Et & Er). injection Er as <- <-.
    unfold timed_probe in Et. apply bind_Done in Et as ([ready' rs'] & w6 & El & Et).
    apply bind_Done in Et as ([] & w7 & _ & Et). apply bind_Done in Et as (now' & w8 & _ & Et).
    injection Et as <- <- <- <-. apply looked_Done in El as [El _].
    exists (wo_host w2), rs', now'. split; [symmetry; exact El|]. split; [done|]. by destruct ready'.
  - unfold ssh_state in Er. injection Er as <- <-. done.
Qed.

(** The guard of the automatic probe: nothing that was verified has changed. *)
Definition unchanged (existing : option targetRecord) (rec : targetRecord) (ssh : sshEntry) : Prop :=
  exists e s, existing = Some e /\ tr_SSH e = Some s /\ rd_SSHReady (tr_Readiness e) = true
    /\ se_KeyFingerprintSHA256 ssh = se_KeyFingerprintSHA256 s /\ se_KeyFingerprintSHA256 s <> ""
    /\ se_KeyPath ssh = se_KeyPath s /\ se_Username ssh = se_Username s
    /\ tr_Address rec = tr_Address e /\ tr_SSHPort rec = tr_SSHPort e.

Lemma guard_spec hkErr refreshed existing changed rec ssh :
  canRegressionProbe hkErr refreshed (snapshot existing changed) rec ssh = true ->
  hkErr = None /\ refreshed = false /\ changed = false /\ unchanged existing rec ssh.
Proof.
  unfold canRegressionProbe, snapshot. cbn [pv_hasSSH pv_wasSSHReady pv_sshFingerprint pv_sshKeyPath
    pv_sshUsername pv_address pv_sshPort].
  destruct hkErr; [done|]. destruct refreshed; [done|]. destruct existing as [e|]; [|done].
  destruct (tr_SSH e) as [s|] eqn:Es; [|done]. destruct changed; [by rewrite !andb_false_r|].
  rewrite !andb_true_iff, !negb_true_iff, Z.eqb_eq, !String.eqb_eq, String.eqb_neq.
  intros H. split_and!; [done..|]. exists e, s. split_and!; try tauto; try congruence.
  destruct H as ((_ & ((_ & Hne) & Hf) & _) & _). by rewrite <- Hf.
Qed.

