(* ===== verification/WizardKeyProps.v ===== *)
(** The keys and secrets of the wizard: what the metadata of a key says, where
    the password goes, and concrete runs. *)
From S2P Require Import Prelude GoStrings GoPath GoTime TargetConfig TargetProbe BrocadeRest.
From S2P Require Import WizardTerminal WizardTerminalProps Wizard WizardProps.
From Stdlib Require Import Strings.Byte Ascii.

Local Open Scope Z_scope.

(** ** Writes that succeed *)

Lemma write_Done p b w u w' : liftE (atomicWriteFile p b) w = (Done u, w') ->
  h_nodes (wo_host w') = <[p := NFile b true]> (h_nodes (wo_host w)).
Proof.
  intros (h & E & Eh & _)%liftE_Done. rewrite Eh. unfold atomicWriteFile in E.
  by destruct (h_write _ _); [injection E as _ <-|..].
Qed.
Lemma shared_Done p b w u w' : liftE (write_shared p b) w = (Done u, w') ->
  h_nodes (wo_host w') = <[p := NFile b true]> (h_nodes (wo_host w)).
Proof.
  intros (h & E & Eh & _)%liftE_Done. rewrite Eh. unfold write_shared in E.
  destruct (h_write _ _); [injection E as _ <-|done|injection E as _ <-]; done.
Qed.
Lemma append_neq (s : string) c t : s <> s +:+ String c t.
Proof. induction s as [|d s IH]; [done|]. intros [= E]. by apply IH. Qed.

(** ** The metadata of a key *)

(** The documented behaviour of the generators and encoders: a generated key,
    encoded and parsed again, has the public key that was generated with it,
    of the kind that was asked for. *)
Record generators_ok `{Outside} : Prop := {
  ok_ed25519 n pub priv block wire :
    ed25519_GenerateKey n = Ok (pub, priv) -> MarshalPrivateKey priv "filterrex-ro" = Ok block ->
    NewPublicKey pub = Ok wire ->
    ParsePrivateKey (pem_EncodeToMemory block) = Ok wire /\ deriveAlgoBits wire = ("ed25519", 0);
  ok_rsa n pub priv pkcs8 wire :
    rsa_GenerateKey n 3072 = Ok (pub, priv) -> MarshalPKCS8PrivateKey priv = Ok pkcs8 ->
    NewPublicKey pub = Ok wire ->
    ParsePrivateKey (pem_EncodeToMemory ("PRIVATE KEY", pkcs8)) = Ok wire /\ deriveAlgoBits wire = ("rsa", 3072);
}.

(** The metadata describes the key in the file [k]; its public half is in [p],
    unless a stored key is reused. *)
Definition described `{Outside} (k p : string) (meta : keyMetadata) (w w' : World) : Prop :=
  km_KeyPath meta = k /\ km_PublicKeyPath meta = p
  /\ exists b pub, h_nodes (wo_host w') !! k = Some (NFile b true) /\ ParsePrivateKey b = Ok pub
     /\ (km_Algorithm meta, km_Bits meta) = deriveAlgoBits pub
     /\ km_FingerprintSHA256 meta = sshFingerprintSHA256 sha256 b64 pub
     /\ (h_nodes (wo_host w') = h_nodes (wo_host w)
         \/ h_nodes (wo_host w') !! p = Some (NFile (MarshalAuthorizedKey pub) true)
            /\ (km_Origin meta = "generated" \/ km_Origin meta = "imported")).

Lemma orE_Done {A} what (r : result string A) w a w' : orE what r w = (Done a, w') -> r = Ok a /\ w' = w.
Proof. destruct r; [|done]. by intros [= <- <-]. Qed.
Lemma generated_Done {A} (f : nat -> A) w a w' : generated f w = (Done a, w') ->
  (exists n, a = f n) /\ h_nodes (wo_host w') = h_nodes (wo_host w).
Proof. intros [= <- <-]. eauto. Qed.

(** The private key is written, then the public one. *)
Lemma written_described `{Outside} k p b pub meta w0 w u w1 u' w' :
  k <> p ->
  liftE (atomicWriteFile k b) w = (Done u, w1) ->
  liftE (write_shared p (MarshalAuthorizedKey pub)) w1 = (Done u', w') ->
  ParsePrivateKey b = Ok pub ->
  km_KeyPath meta = k -> km_PublicKeyPath meta = p ->
  (km_Algorithm meta, km_Bits meta) = deriveAlgoBits pub ->
  km_FingerprintSHA256 meta = sshFingerprintSHA256 sha256 b64 pub ->
  (km_Origin meta = "generated" \/ km_Origin meta = "imported") ->
  described k p meta w0 w'.
Proof.
  intros Hne E1%write_Done E2%shared_Done Hp Hk Hpub Ha Hf Ho. split_and!; try done.
  exists b, pub. rewrite E2, lookup_insert_eq, lookup_insert_ne by done. rewrite E1, lookup_insert_eq.
  split_and!; try done. by right.
Qed.

Lemma import_described `{Outside} src k p w meta w' : k <> p ->
  importSSHKeyFrom src k p w = (Done meta, w') -> described k p meta w w'.
Proof.
  intros Hne. unfold importSSHKeyFrom. intros (fi & w1 & [_ ->]%looked_Done & E)%bind_Done.
  destruct fi as [| |perm|]; try done. destruct (negb _); [done|].
  apply bind_Done in E as (rd & w1 & [_ ->]%looked_Done & E). destruct rd as [b| |]; try done.
  unfold import_bytes in E. destruct (ParsePrivateKey b) as [pub|e] eqn:Ep; [|by destruct (Contains _ _)].
  apply bind_Done in E as (u1 & w1 & E1 & E). apply bind_Done in E as (u2 & w2 & E2 & E).
  destruct (deriveAlgoBits pub) as [algo bits] eqn:Ed. injection E as <- <-.
  eapply written_described; try eassumption; try reflexivity; [by rewrite Ed|by right].
Qed.

Lemma generate_described `{Outside} algo k p w meta w' : generators_ok -> k <> p ->
  generate algo k p w = (Done meta, w') -> described k p meta w w'.
Proof.
  intros Hg Hne. unfold generate. destruct (String.eqb algo "ed25519"); [|destruct (_ || _); [|done]].
  - unfold generateEd25519. intros (r & w1 & [[n ->] _]%generated_Done & E)%bind_Done.
    apply bind_Done in E as ([pub priv] & w2 & [Eg ->]%orE_Done & E).
    apply bind_Done in E as (block & w2 & [Em ->]%orE_Done & E).
    apply bind_Done in E as (u1 & w2 & E1 & E). apply bind_Done in E as (wire & w3 & [En ->]%orE_Done & E).
    apply bind_Done in E as (u2 & w3 & E2 & E). injection E as <- <-.
    destruct (ok_ed25519 Hg _ _ _ _ _ Eg Em En) as [Hp Hd].
    eapply written_described; try eassumption; try reflexivity; [by rewrite Hd|by left].
  - unfold generateRSA3072. intros (r & w1 & [[n ->] _]%generated_Done & E)%bind_Done.
    apply bind_Done in E as ([pub priv] & w2 & [Eg ->]%orE_Done & E).
    apply bind_Done in E as (block & w2 & [Em ->]%orE_Done & E).
    apply bind_Done in E as (u1 & w2 & E1 & E). apply bind_Done in E as (wire & w3 & [En ->]%orE_Done & E).
    apply bind_Done in E as (u2 & w3 & E2 & E). injection E as <- <-.
    destruct (ok_rsa Hg _ _ _ _ _ Eg Em En) as [Hp Hd].
    eapply written_described; try eassumption; try reflexivity; [by rewrite Hd|by left].
Qed.

(** A question changes no file. *)
Lemma choice_Done label def w a w' : confirmChoice label def w = (Done a, w') -> wo_host w' = wo_host w.
Proof.
  unfold confirmChoice, mbind, W_bind, read_line. destruct (Fscanln _) as [[? ?] ?]. by intros [= <- <-].
Qed.
Lemma described_host `{Outside} k p meta w0 w w' : wo_host w = wo_host w0 ->
  described k p meta w w' -> described k p meta w0 w'.
Proof. unfold described. by intros ->. Qed.

Lemma import_prompt_described `{Outside} k p w meta w' : k <> p ->
  importSSHKey k p w = (Done meta, w') -> described k p meta w w'.
Proof.
  intros Hne. unfold importSSHKey. intros (src & w1 & Ep & E)%bind_Done.
  destruct (prompt_run "Path to existing private key on the setup host" "" w) as (a & rest & Er).
  rewrite Er in Ep. injection Ep as <- <-. destruct (String.eqb a ""); [done|].
  eapply described_host; [|by eapply import_described]. done.
Qed.
Lemma new_described `{Outside} kc k p w meta w' : generators_ok -> k <> p ->
  new_key kc k p w = (Done meta, w') -> described k p meta w w'.
Proof.
  intros Hg Hne. unfold new_key. destruct (negb (String.eqb _ "")); [by apply import_described|].
  destruct (negb _); [|by apply generate_described].
  intros (choice & w1 & Ec%choice_Done & E)%bind_Done. eapply described_host; [exact Ec|].
  destruct (String.eqb choice "import"); [by apply import_prompt_described|by eapply generate_described].
Qed.

(** C31: the metadata of a key is that of the key on disk.  Whatever the
    operator chooses (to reuse, generate or import a key), when the wizard goes
    on, the private key file holds a key whose type, size and fingerprint are
    the recorded ones, and the public key file holds its public half unless a
    stored key is reused. *)
Theorem key_described `{Outside} (dir profile : string) (rec : targetRecord) (kc : keyChoice)
    (w w' : World) (meta : keyMetadata)
    (Hg : generators_ok)
    (Hrun : configureSSHKey dir profile rec kc w = (Done meta, w')) :
  let k := JoinPath [dir; sshKeyDir; profileSlug profile] in
  described k (k +:+ ".pub") meta w w'.
Proof.
  cbv zeta. unfold configureSSHKey in Hrun. set (k := JoinPath _) in *.
  assert (Hne : k <> k +:+ ".pub") by apply append_neq.
  apply bind_Done in Hrun as (found & w1 & [_ ->]%looked_Done & E). destruct found; [|by eapply new_described].
  apply bind_Done in E as (choice & w1 & Ec%choice_Done & E). eapply described_host; [exact Ec|].
  destruct (String.eqb choice "reuse"); [|destruct (String.eqb choice "import");
    [by apply import_prompt_described|by eapply new_described]].
  apply bind_Done in E as (m & w2 & Em & E). injection E as <- <-.
  unfold deriveKeyMetadata in Em. apply bind_Done in Em as (rd & w3 & [Er ->]%looked_Done & Em).
  destruct rd as [b| |]; try done. destruct (ParsePrivateKey b) as [pub|] eqn:Ep; [|done].
  destruct (deriveAlgoBits pub) as [algo bits] eqn:Ed. injection Em as <- <-.
  assert (Hn : h_nodes (wo_host w1) !! k = Some (NFile b true)).
  { unfold read_file in Er. destruct (h_nodes (wo_host w1) !! k) as [[c []|]|]; congruence. }
  assert (Hd : described k (k +:+ ".pub") (metadata k (k +:+ ".pub") algo bits "generated" pub) w1 w1).
  { split_and!; try done. exists b, pub. rewrite Ed. split_and!; try done. by left. }
  destruct (tr_SSH rec) as [s|]; [destruct (String.eqb _ "")|]; try exact Hd.
  destruct Hd as (H1 & H2 & b' & pub' & H3 & H4 & H5 & H6 & H7). split_and!; try done.
  exists b', pub'. split_and!; try done. by left.
Qed.

(** ** The password *)

(** A typed password goes into its file and nowhere else: what is logged and
    returned does not depend on it. *)
Lemma password_unlogged `{Outside} path rec w r w' :
  ask_password path rec w = (Done r, w') ->
  r = (path, "production_verified")
  /\ wo_log w' = wo_log w ++ [AskedHidden ("REST password for " +:+ tr_Address rec +:+ " (input hidden): ")]
  /\ exists pw, pw <> [] /\ h_nodes (wo_host w') = <[path := NFile pw true]> (h_nodes (wo_host w)).
Proof.
  unfold ask_password, readSecretNoEcho. intros (pw & w1 & E1 & E)%bind_Done.
  destruct (negb is_terminal); [done|].
  apply bind_Done in E1 as ([] & w2 & E0 & E1). injection E0 as <-.
  unfold read_password in E1. simpl in E1. destruct (ReadPassword (wo_input w)) as [[b|e] rest]; [|done].
  injection E1 as <- <-. destruct b as [|x b]; [done|].
  apply bind_Done in E as ([] & w3 & E2 & E). injection E as <- <-. split; [done|].
  pose proof (write_Done _ _ _ _ _ E2) as Hn. destruct (liftE_Done _ _ _ _ E2) as (h & _ & _ & El).
  split; [exact El|]. by exists (x :: b).
Qed.
(** No password is read from a pipe. *)
Lemma no_piped_password `{Outside} label w : is_terminal = false ->
  exists e, readSecretNoEcho label w = (Failed e, w).
Proof. intros Ht. unfold readSecretNoEcho. rewrite Ht. eexists. reflexivity. Qed.

(** ** Facts *)

(** A CA file of the old record is never kept: the entry that is looked at is
    already the new one. *)
Lemma ca_file_dropped `{Outside} dir user pf rec :
  re_CAFile (snd (rest_entry dir user pf true rec)) = "".
Proof. by destruct (rest_entry_spec dir user pf true rec) as (rest & -> & _ & _ & ?). Qed.

(** The profile name is validated without its surrounding space, but used with
    it. *)
Lemma padded_profile_name :
  isSafeProfileName " faba " = true /\ profileSlug " faba " = "-faba-" /\ profileSlug "faba" = "faba".
Proof. by vm_compute. Qed.

(** An address in brackets is accepted, and cannot be dialled. *)
Lemma bracketed_address_undialable :
  validateHost "" "[fe80::1]" = None /\ host_port "[fe80::1]" 22 = "[[fe80::1]]:22".
Proof. by vm_compute. Qed.

(** The stage after a failed automatic probe is not one of a probe. *)
Lemma auth_succeeded_is_no_stage reason : mapProbeStage reason <> "auth_succeeded".
Proof. unfold mapProbeStage. by repeat case_match. Qed.

(** The relative path of a managed artifact, and of one outside the store. *)
Lemma rel_samples :
  Rel "/config" "/config/keys/a" = Some "keys/a" /\ Rel "/config" "/data/keys/a" = Some "../data/keys/a"
  /\ Rel "." "a/b" = Some "a/b" /\ Rel "/" "/a" = Some "a" /\ Rel "a" "/a" = None /\ Rel "a/b" "a" = Some "..".
Proof. by vm_compute. Qed.

(** ** Concrete runs *)

Fixpoint take_line (l : list ascii) : list ascii * list ascii :=
  match l with
  | [] => ([], [])
  | c :: rest => if is_newline c then ([], rest) else let '(a, b) := take_line rest in (c :: a, b)
  end.
Definition toy_stat (p : string) (h : Host) : lstat_result :=
  match h_nodes h !! p with Some (NFile _ _) => LstatRegular 384 | Some (NDir _) => LstatOther | None => LstatError end.

(** A terminal, keys that are their own public halves, and a switch that
    presents one host key and accepts every user. *)
Definition toy : Outside := {|
  EvalSymlinks p := SymOk p;
  Lstat := toy_stat;
  is_terminal := true;
  ReadPassword l := let '(a, b) := take_line l in (Ok (map byte_of_ascii a), b);
  Getenv _ := "";
  euid := 0; egid := 0; WizardVersion := "test";
  unmarshal_targets _ := None; marshal_targets _ := [];
  sha256 b := b; b64 _ := "ABCDEFGHIJKLMNOPQRST="; b64_decode _ := Some [x07];
  ParsePrivateKey b := match b with [] => Err "no key" | _ => Ok b end;
  ParsePublicKey _ := true;
  key_Type b := match b with [x02] => "ssh-ed25519" | _ => "ssh-rsa" end;
  rsa_BitLen _ := Some 3072;
  MarshalAuthorizedKey b := b; MarshalPrivateKey b _ := Ok ("KEY", b); NewPublicKey b := Ok b;
  ed25519_GenerateKey _ := Ok ([x02], [x02]); rsa_GenerateKey _ _ := Ok ([x03], [x03]);
  MarshalPKCS8PrivateKey b := Ok b; pem_EncodeToMemory b := snd b;
  peer _ _ _ _ := {| sp_presents := Ok [x07]; sp_accepts := true; sp_session := true |};
  match_pattern _ _ := None; valid_pem _ := true; url_parses _ := true;
  network _ _ := RestAnswer 200 "application/json" (Some []);
|}.

Definition toy_id : string := "0b8f7c1e-1234-4abc-8def-0123456789ab".
Definition toy_host (nodes : gmap string node) : Host :=
  {| h_nodes := nodes; h_write := fun _ => WriteDone; h_flock := fun _ => true; h_delay := fun _ => 0%N;
     h_time := 0; h_tick := 0 |}.
Definition toy_world (nodes : gmap string node) (lines : list string) : World :=
  {| wo_host := toy_host nodes; wo_input := bytes (Join lines (String (chr 10) "")); wo_log := [] |}.

(** A first run: address, ports, users, password, a new key, the host key. *)
Definition toy_flags : Flags :=
  {| fl_configDir := "/config"; fl_profile := toy_id; fl_targetID := ""; fl_stateDir := "/state";
     fl_nonInteractive := false; fl_keyAlgo := "ed25519"; fl_importExisting := "" |}.
Definition toy_first : World :=
  toy_world ∅ ["10.0.0.1"; ""; ""; ""; ""; "secret"; "yes"; "IJKLMNOPQRST"; "3"].

Lemma host_key_vouched_witness :
  h_nodes (wo_host (snd (@Run toy (Some toy_flags) toy_first))) !! "/config/known_hosts"
    = Some (NFile (buf_of ("10.0.0.1 ssh-rsa ABCDEFGHIJKLMNOPQRST=" +:+ String (chr 10) "")) true)
  /\ exists l, wo_log (snd (@Run toy (Some toy_flags) toy_first)) = [] ++ l
    /\ (h_nodes (wo_host (snd (@Run toy (Some toy_flags) toy_first))) !! "/config/known_hosts"
        = h_nodes (wo_host toy_first) !! "/config/known_hosts"
        \/ @vouched toy l (h_nodes (wo_host (snd (@Run toy (Some toy_flags) toy_first))) !! "/config/known_hosts")).
Proof.
  split; [by vm_compute|].
  refine (@host_key_vouched toy toy_flags toy_first "/config/known_hosts" _ _); [by vm_compute|].
  apply (bool_decide_unpack _). by vm_compute.
Defined.

(** A later run on a profile that was ready: every default is taken. *)
Definition toy_ready : readiness :=
  {| rd_RESTReady := true; rd_RESTReason := ""; rd_RESTSecurityState := "production_verified"; rd_SSHReady := true;
     rd_SSHReason := ""; rd_SSHProbeStage := "command_succeeded"; rd_LastSSHProbeAt := "t"; rd_LastSuccessfulSSHProbeAt := "t" |}.
Definition toy_record : targetRecord :=
  {| tr_TargetID := toy_id; tr_Address := "10.0.0.1"; tr_RESTPort := 443; tr_SSHPort := 22; tr_REST := None;
     tr_SSH := Some {| se_Username := "ro"; se_KeyPath := "keys/" +:+ toy_id; se_PublicKeyPath := ""; se_KnownHostsPath := "known_hosts";
                       se_KeyAlgorithm := "rsa"; se_KeyBits := 3072; se_KeyOrigin := "generated";
                       se_KeyFingerprintSHA256 := "SHA256:ABCDEFGHIJKLMNOPQRST" |};
     tr_LastWizard := ""; tr_Readiness := toy_ready |}.
Definition toy_doc : targetsDoc := {| td_Version := 1; td_Targets := {[ toy_id := Some toy_record ]} |}.
Definition toy_again : World :=
  toy_world {[ "/config/keys/" +:+ toy_id := NFile [x05] true; "/config/secrets/rest/" +:+ toy_id := NFile [x41] true;
               "/config/known_hosts" := NFile (buf_of "10.0.0.1 ssh-rsa KEY") true ]} [].
Definition toy_choice : keyChoice :=
  {| kc_GenerateAlgorithm := "rsa-3072"; kc_ImportPath := ""; kc_FromFlag := false |}.
Definition is_done {A} (r : step_result A) : bool := match r with Done _ => true | _ => false end.


Lemma wizard_ends_witness :
  keepable "" toy_record
  /\ fst (@configure toy "/config" toy_id toy_id toy_choice toy_doc toy_again) <> Diverges.
Proof.
  assert (K : keepable "" toy_record) by by vm_compute. split; [exact K|].
  apply (proj2 (proj2 (@wizard_ends toy None toy_again)) "/config" toy_id toy_id toy_choice toy_doc toy_record);
    [by vm_compute|exact K].
Defined.

Lemma key_described_witness :
  exists meta w', @configureSSHKey toy "/config" toy_id empty_record
      {| kc_GenerateAlgorithm := "ed25519"; kc_ImportPath := ""; kc_FromFlag := true |} toy_first = (Done meta, w')
    /\ @described toy ("/config/keys/" +:+ toy_id) ("/config/keys/" +:+ toy_id +:+ ".pub") meta toy_first w'.
Proof.
  eexists _, _. split; [vm_compute; reflexivity|].
  refine (@key_described toy "/config" toy_id empty_record
    {| kc_GenerateAlgorithm := "ed25519"; kc_ImportPath := ""; kc_FromFlag := true |} toy_first _ _ _ _).
  - split.
    + intros n pub priv block wire [= <- <-] [= <-] [= <-]. by split.
    + intros n pub priv block wire [= <- <-] [= <-] [= <-]. by split.
  - vm_compute. reflexivity.
Defined.

(** A refreshed host key is added: the line of the old one stays, and with it
    the trust in the old key. *)
Lemma refresh_keeps_old_key :
  h_nodes (wo_host (snd (@enrollHostKey toy "/config" "10.0.0.1" 22
    (toy_world {[ "/config/known_hosts" := NFile (buf_of "10.0.0.1 ssh-rsa OLD") true ]}
       ["refresh"; "yes"; "IJKLMNOPQRST"])))) !! "/config/known_hosts"
  = Some (NFile (buf_of ("10.0.0.1 ssh-rsa OLD" +:+ String (chr 10) ""
                         +:+ "10.0.0.1 ssh-rsa ABCDEFGHIJKLMNOPQRST=" +:+ String (chr 10) "")) true).
Proof. by vm_compute. Qed.
