(* ===== verification/Capabilities.v ===== *)
(** The capability manifest of the heartbeat ([src/supervisor.go],
    [BuildCapabilityManifest]): what the binary supports, what is configured on
    this host, and the readiness of every target, put together from the
    supervisor, the REST registry, the target store and the evidence wiring. *)
From S2P Require Import Prelude GoStrings GoPath GoTime Types Interfaces Readiness Store Supervisor.
From S2P Require Import TargetConfig EvidenceWiring.

Local Open Scope Z_scope.

Definition CapabilityCollectBrocadeEvidenceBundleV1 : string := "collect_brocade_evidence_bundle_v1".
Definition CapabilityProbeBrocadeSshReadinessV1 : string := "probe_brocade_ssh_readiness_v1".

Record AdapterCapabilityInfo : Type := {
  ac_TargetType : string;
  ac_Capabilities : list string;
  ac_OpsSupported : bool;
}.

Record HostCapabilityManifest : Type := {
  hm_AgentVersion : string;
  hm_SupportedAdapters : list AdapterCapabilityInfo;
  hm_UpdatePolicy : string;
  hm_OpsEnabledRuntime : bool;
  hm_Capabilities : list string;
  hm_CapabilityStatus : gmap string CapabilityStatusInfo;
}.

(** ** The supervisor's wiring *)

(** What the start of the process sets: the queue is registered, the address and
    token of the local API, the directories, and the readiness of the probe
    handler, once it is registered. *)
Record Wiring : Type := {
  wr_uploadQueue : bool;
  wr_localAPIURL : string;
  wr_localAPIToken : string;
  wr_targetConfigDir : string;
  wr_targetConfigSource : string;
  wr_runtimeStateDir : string;
  wr_probeReady : option bool;
}.
Definition unwired : Wiring :=
  {| wr_uploadQueue := false; wr_localAPIURL := ""; wr_localAPIToken := ""; wr_targetConfigDir := "";
     wr_targetConfigSource := ""; wr_runtimeStateDir := ""; wr_probeReady := None |}.

Definition SetUploadQueue (w : Wiring) : Wiring :=
  {| wr_uploadQueue := true; wr_localAPIURL := wr_localAPIURL w; wr_localAPIToken := wr_localAPIToken w;
     wr_targetConfigDir := wr_targetConfigDir w; wr_targetConfigSource := wr_targetConfigSource w;
     wr_runtimeStateDir := wr_runtimeStateDir w; wr_probeReady := wr_probeReady w |}.
Definition SetLocalAPIURL (url : string) (w : Wiring) : Wiring :=
  {| wr_uploadQueue := wr_uploadQueue w; wr_localAPIURL := url; wr_localAPIToken := wr_localAPIToken w;
     wr_targetConfigDir := wr_targetConfigDir w; wr_targetConfigSource := wr_targetConfigSource w;
     wr_runtimeStateDir := wr_runtimeStateDir w; wr_probeReady := wr_probeReady w |}.
Definition SetLocalAPIToken (token : string) (w : Wiring) : Wiring :=
  {| wr_uploadQueue := wr_uploadQueue w; wr_localAPIURL := wr_localAPIURL w; wr_localAPIToken := token;
     wr_targetConfigDir := wr_targetConfigDir w; wr_targetConfigSource := wr_targetConfigSource w;
     wr_runtimeStateDir := wr_runtimeStateDir w; wr_probeReady := wr_probeReady w |}.
Definition SetTargetConfigDir (dir : string) (w : Wiring) : Wiring :=
  {| wr_uploadQueue := wr_uploadQueue w; wr_localAPIURL := wr_localAPIURL w; wr_localAPIToken := wr_localAPIToken w;
     wr_targetConfigDir := dir; wr_targetConfigSource := wr_targetConfigSource w;
     wr_runtimeStateDir := wr_runtimeStateDir w; wr_probeReady := wr_probeReady w |}.
Definition SetTargetConfigSource (source : string) (w : Wiring) : Wiring :=
  {| wr_uploadQueue := wr_uploadQueue w; wr_localAPIURL := wr_localAPIURL w; wr_localAPIToken := wr_localAPIToken w;
     wr_targetConfigDir := wr_targetConfigDir w; wr_targetConfigSource := source;
     wr_runtimeStateDir := wr_runtimeStateDir w; wr_probeReady := wr_probeReady w |}.
Definition SetRuntimeStateDir (dir : string) (w : Wiring) : Wiring :=
  {| wr_uploadQueue := wr_uploadQueue w; wr_localAPIURL := wr_localAPIURL w; wr_localAPIToken := wr_localAPIToken w;
     wr_targetConfigDir := wr_targetConfigDir w; wr_targetConfigSource := wr_targetConfigSource w;
     wr_runtimeStateDir := dir; wr_probeReady := wr_probeReady w |}.
Definition SetProbeCapabilityReadyFunc (ready : bool) (w : Wiring) : Wiring :=
  {| wr_uploadQueue := wr_uploadQueue w; wr_localAPIURL := wr_localAPIURL w; wr_localAPIToken := wr_localAPIToken w;
     wr_targetConfigDir := wr_targetConfigDir w; wr_targetConfigSource := wr_targetConfigSource w;
     wr_runtimeStateDir := wr_runtimeStateDir w; wr_probeReady := Some ready |}.

(** ** The manifest *)

Definition pretty_bool (b : bool) : string := if b then "true" else "false".

Definition warning_text (w : SnapshotLoadWarning) : string :=
  match sw_Reason w with
  | ErrDuplicateTargetID =>
      "target.readiness.skipped reason=duplicate_target_id target_id=" +:+ sw_TargetID w +:+ " record_count="
      +:+ pretty (sw_Count w)
  | r => "target.readiness.skipped reason=" +:+ tc_Error r +:+ " profile=" +:+ sw_ProfileName w
  end.

(** The fields of the loader's snapshot as the published ones. *)
Definition ssh_fields (r : SSHReadinessSnapshot) : SSHFields :=
  {| sf_SSHReady := sn_SSHReady r; sf_SSHReason := sn_SSHReason r; sf_SSHProbeStage := sn_SSHProbeStage r;
     sf_SSHKeyAlgorithm := sn_SSHKeyAlgorithm r; sf_SSHKeyBits := sn_SSHKeyBits r;
     sf_SSHKeyOrigin := sn_SSHKeyOrigin r; sf_SSHKeyFingerprintSHA256 := sn_SSHKeyFingerprintSHA256 r;
     sf_SSHUsername := sn_SSHUsername r; sf_SwitchHostKeyFingerprint := sn_SwitchHostKeyFingerprint r;
     sf_LastProbeAt := sn_LastProbeAt r; sf_LastSuccessfulProbeAt := sn_LastSuccessfulProbeAt r |}.

Definition is_brocade (t : TargetProfile) : bool :=
  let tt := ToLower (tp_TargetType t) in String.eqb tt "brocade" || String.eqb tt "brocade-fos".
Definition blocked_entry : PerTargetReadiness :=
  Build_PerTargetReadiness (Build_RESTFields false "lan_only_mode" "" "" "" "") zeroSSH.
(** In LAN-only mode every Brocade target is published as blocked. *)
Definition blocked_targets (state : option HostState) : gmap string PerTargetReadiness :=
  match state with
  | None => ∅
  | Some h => foldl (fun m t => if is_brocade t then <[tp_TargetID t := blocked_entry]> m else m) ∅ (hs_Targets h)
  end.

Section Manifest.
Context {Wk St : Type}.
Context (EvalSymlinks : string -> symlink_result) (unmarshal_targets : buf -> option targetsDoc).
Context (parse_authorized : string -> option buf) (sha256 : buf -> buf) (b64 : buf -> string).
Context (unmarshal_runtime : buf -> option runtimeReadinessDoc).
(** The capabilities of the adapters of a type, and the version of the build. *)
Context (adapter_Capabilities : string -> list string) (HostVersion : string).

Abbreviation load_ssh := (LoadSSHReadinessSnapshotWithRuntime EvalSymlinks unmarshal_targets parse_authorized
  sha256 b64 unmarshal_runtime).

(** In the order of ranging over the map. *)
Definition SupportedAdapterTypes (s : Supervisor (Wk:=Wk) (St:=St)) : list string :=
  map fst (map_to_list (sv_adapters s)).

(** [&TargetProfile{TargetType: targetType, Name: "probe"}]. *)
Definition dummyProfile (targetType : string) : TargetProfile :=
  {| tp_TargetID := ""; tp_Name := "probe"; tp_TargetType := targetType; tp_Mode := ""; tp_Enabled := false;
     tp_Status := TargetStatusUnset; tp_Endpoint := ""; tp_TLS := zeroTLS; tp_Proxy := zeroProxy; tp_AuthType := "";
     tp_Labels := ∅; tp_Capabilities := []; tp_PollIntervalSecs := 0; tp_ResourceLimits := zeroLimits;
     tp_Paused := false; tp_MaintenanceReason := ""; tp_CredentialRef := ""; tp_CredentialRotationDays := 0;
     tp_ConfigVersion := 0; tp_UpdatedAt := 0; tp_TargetConfig := ∅ |}.

Definition adapter_info (e : string * (TargetProfile -> bool)) : AdapterCapabilityInfo :=
  {| ac_TargetType := fst e;
     ac_Capabilities := if snd e (dummyProfile (fst e)) then adapter_Capabilities (fst e) else [];
     ac_OpsSupported := false |}.

Definition lan_only (state : option HostState) : bool :=
  match state with Some h => hc_LanOnly (hs_Config h) | None => false end.
Definition update_policy (state : option HostState) : string :=
  match state with
  | Some h => if String.eqb (us_UpdatePolicy (hs_Update h)) "" then "none" else us_UpdatePolicy (hs_Update h)
  | None => "none"
  end.

(** The SSH side of the manifest, with what is printed about it. *)
Definition ssh_side (w : Wiring) (h : Host) : gmap string SSHFields * list string :=
  if String.eqb (wr_targetConfigDir w) "" then
    (∅, ["[supervisor] brocade ssh snapshot: targets_dir=<unset> targets_present=false runtime_dir="
         +:+ wr_runtimeStateDir w +:+ " runtime_present=false published=0 warnings=0"])
  else
  let loaded := load_ssh (wr_targetConfigDir w) (wr_runtimeStateDir w) h in
  let '(snap, warns) := match loaded with Ok r => r | Err _ => (∅, []) end in
  let inv := InspectTargetConfigDir unmarshal_targets (wr_targetConfigDir w) h in
  let runtimePresent := negb (String.eqb (wr_runtimeStateDir w) "")
    && match h_nodes h !! JoinPath [wr_runtimeStateDir w; runtimeReadinessFile] with Some _ => true | None => false end in
  (ssh_fields <$> snap,
   match loaded with Ok _ => [] | Err e => ["[supervisor] warn: load ssh readiness: " +:+ tc_Error e] end
   ++ map (fun x => "[supervisor] warn: " +:+ warning_text x) warns
   ++ ["[supervisor] brocade ssh snapshot: source=" +:+ wr_targetConfigSource w +:+ " targets_dir=" +:+ ci_Dir inv
       +:+ " targets_present=" +:+ pretty_bool (ci_FilePresent inv) +:+ " targets_readable="
       +:+ pretty_bool (ci_FileReadable inv) +:+ " records_loaded=" +:+ pretty (ci_RecordsLoaded inv)
       +:+ " runtime_dir=" +:+ wr_runtimeStateDir w +:+ " runtime_present=" +:+ pretty_bool runtimePresent
       +:+ " published=" +:+ pretty (Z.of_nat (size snap)) +:+ " warnings=" +:+ pretty (Z.of_nat (length warns))]).

Definition set_per_target (m : gmap string PerTargetReadiness) (c : CapabilityStatusInfo) : CapabilityStatusInfo :=
  {| cs_Enabled := cs_Enabled c; cs_ConfigurationState := cs_ConfigurationState c;
     cs_ReadyTargetProfileIDs := cs_ReadyTargetProfileIDs c; cs_PerTarget := m; cs_Reason := cs_Reason c |}.

(** The clock is read for the ready targets, for the REST snapshot and for the
    merge, at [t1], [t2] and [t3]. *)
Definition brocade_status (t1 t2 t3 : GoTime) (s : Supervisor (Wk:=Wk) (St:=St)) (w : Wiring) (h : Host)
    : CapabilityStatusInfo * list string :=
  let lanOnly := lan_only (sv_state s) in
  let brocade := evaluateBrocadeCapabilityStatus EvalSymlinks unmarshal_targets parse_authorized sha256 b64
    unmarshal_runtime (wr_targetConfigDir w) (wr_runtimeStateDir w) lanOnly t1 h in
  if lanOnly then (set_per_target (blocked_targets (sv_state s)) brocade, [])
  else
  let restSnap := Snapshot t2 (sv_rest s) in
  let '(sshSnap, lines) := ssh_side w h in
  (set_per_target (mergeBrocadePerTargetReadiness restSnap sshSnap t3) brocade, lines).

Definition BuildCapabilityManifest (t1 t2 t3 : GoTime) (s : Supervisor (Wk:=Wk) (St:=St)) (w : Wiring) (h : Host)
    : HostCapabilityManifest * list string :=
  let probe := match wr_probeReady w with Some ready => ready && negb (lan_only (sv_state s)) | None => false end in
  let '(brocade, lines) := brocade_status t1 t2 t3 s w h in
  ({| hm_AgentVersion := HostVersion;
      hm_SupportedAdapters := map adapter_info (map_to_list (sv_adapters s));
      hm_UpdatePolicy := update_policy (sv_state s);
      hm_OpsEnabledRuntime := false;
      hm_Capabilities := [CapabilityCollectBrocadeEvidenceBundleV1]
        ++ (if probe then [CapabilityProbeBrocadeSshReadinessV1] else []);
      hm_CapabilityStatus := {[ CapabilityCollectBrocadeEvidenceBundleV1 := brocade ]} |}, lines).
End Manifest.
