(* ===== verification/CapabilitiesProps.v ===== *)
(** The capability manifest: LAN-only mode blocks everything, and the two places
    in which a target is reported as ready for SSH agree. *)
From S2P Require Import Prelude GoStrings GoPath GoTime Types Interfaces Readiness Store Supervisor.
From S2P Require Import TargetConfig TargetProbe TargetProbeProps EvidenceWiring EvidenceWiringProps Capabilities.
From Stdlib Require Import QArith.

Local Open Scope Z_scope.

(** ** LAN-only mode *)

Lemma blocked_lookup l (m : gmap string PerTargetReadiness) id :
  (forall p, m !! id = Some p -> p = blocked_entry) ->
  let out := foldl (fun m t => if is_brocade t then <[tp_TargetID t := blocked_entry]> m else m) m l in
  (forall p, out !! id = Some p -> p = blocked_entry)
  /\ (is_Some (out !! id) <-> is_Some (m !! id) \/ Exists (fun t => is_brocade t = true /\ tp_TargetID t = id) l).
Proof.
  revert m. induction l as [|t l IH]; intros m Hm; simpl.
  - split; [done|]. rewrite Exists_nil. tauto.
  - destruct (is_brocade t) eqn:Et.
    + destruct (IH (<[tp_TargetID t := blocked_entry]> m)) as [H1 H2].
      { intros p. destruct (decide (tp_TargetID t = id)) as [->|Hne].
        - rewrite lookup_insert_eq. by intros [= <-].
        - rewrite lookup_insert_ne by done. apply Hm. }
      split; [exact H1|]. rewrite H2, Exists_cons.
      destruct (decide (tp_TargetID t = id)) as [<-|Hne].
      * rewrite lookup_insert_eq. split; [|intros _; left; by eexists]. intros _. right. left. done.
      * rewrite lookup_insert_ne by done. intuition congruence.
    + destruct (IH m Hm) as [H1 H2]. split; [exact H1|]. rewrite H2, Exists_cons. intuition congruence.
Qed.

Lemma blocked_targets_spec state id :
  (forall p, blocked_targets state !! id = Some p -> p = blocked_entry)
  /\ (is_Some (blocked_targets state !! id)
      <-> exists h t, state = Some h /\ t ∈ hs_Targets h /\ is_brocade t = true /\ tp_TargetID t = id).
Proof.
  destruct state as [h|]; simpl.
  - destruct (blocked_lookup (hs_Targets h) ∅ id) as [H1 H2]; [by intros p; rewrite lookup_empty|].
    split; [exact H1|]. rewrite H2, lookup_empty, Exists_exists. split.
    + intros [[? ?]|(t & Ht & Hb & Hid)]; [done|]. exists h, t. done.
    + intros (h' & t & [= <-] & Ht & Hb & Hid). right. exists t. done.
  - split; [by intros p; rewrite lookup_empty|]. rewrite lookup_empty.
    split; [by intros [? ?]|by intros (h & t & ? & _)].
Qed.

(** ** The two readiness reports *)

Section Coherence.
Context {Wk St : Type}.
Context (EvalSymlinks : string -> symlink_result) (unmarshal_targets : buf -> option targetsDoc).
Context (parse_authorized : string -> option buf) (sha256 : buf -> buf) (b64 : buf -> string).
Context (unmarshal_runtime : buf -> option runtimeReadinessDoc).

Abbreviation load_ssh := (LoadSSHReadinessSnapshotWithRuntime EvalSymlinks unmarshal_targets parse_authorized
  sha256 b64 unmarshal_runtime).
Abbreviation evaluate := (evaluateBrocadeCapabilityStatus EvalSymlinks unmarshal_targets parse_authorized
  sha256 b64 unmarshal_runtime).

(** A store that has records to publish is a readable one. *)
Lemma loaded_inventory dir rt h snap warns id r :
  TrimSpace dir = dir -> load_ssh dir rt h = Ok (snap, warns) -> snap !! id = Some r ->
  let inv := InspectTargetConfigDir unmarshal_targets dir h in
  ci_FileReadable inv = true /\ ci_ParseSuccessful inv = true.
Proof.
  intros Ht. unfold LoadSSHReadinessSnapshotWithRuntime. destruct (String.eqb_spec dir "") as [->|Hne].
  { intros [= <- <-]. by rewrite lookup_empty. }
  destruct (h_nodes h !! JoinPath [dir; targetsFile]) as [n|] eqn:En.
  2: { intros [= <- <-]. by rewrite lookup_empty. }
  unfold loadTargets, read_file. rewrite En.
  destruct n as [b [|]|b]; unfold mbind, result_bind; [|done..].
  destruct (unmarshal_targets b) as [d|] eqn:Ed; [|done]. intros _ _.
  unfold InspectTargetConfigDir. rewrite Ht, (proj2 (String.eqb_neq _ _) Hne). unfold read_file. rewrite En, Ed.
  by destruct (match h_nodes h !! dir with Some (NDir r0) => _ | _ => _ end).
Qed.

(** The advertised targets are those of the snapshot with a recent success. *)
Lemma advertised_spec dir rt now h id : TrimSpace dir = dir ->
  id ∈ cs_ReadyTargetProfileIDs (evaluate dir rt false now h)
  <-> exists snap warns r, load_ssh dir rt h = Ok (snap, warns) /\ snap !! id = Some r /\ ready_entry now r = true.
Proof.
  intros Ht. unfold evaluateBrocadeCapabilityStatus. cbv beta iota zeta.
  pose proof (fun snap warns r => loaded_inventory dir rt h snap warns id r Ht) as Hinv. cbv zeta in Hinv.
  set (inv := InspectTargetConfigDir unmarshal_targets dir h) in *.
  assert (Hids : id ∈ collectReadyBrocadeTargetIDs EvalSymlinks unmarshal_targets parse_authorized sha256 b64
      unmarshal_runtime dir rt now h
    <-> exists snap warns r, load_ssh dir rt h = Ok (snap, warns) /\ snap !! id = Some r /\ ready_entry now r = true).
  { unfold collectReadyBrocadeTargetIDs. destruct (load_ssh dir rt h) as [[snap warns]|e].
    - rewrite list_elem_of_fmap. split.
      + intros ([i r] & -> & [Hr Hi]%list_elem_of_filter). apply elem_of_map_to_list in Hi.
        by exists snap, warns, r.
      + intros (snap' & warns' & r & [= <- <-] & Hi & Hr). exists (id, r). split; [done|].
        apply list_elem_of_filter. split; [done|]. by apply elem_of_map_to_list.
    - split; [by intros ?%elem_of_nil|by intros (? & ? & ? & ? & _)]. }
  destruct (negb (ci_FileReadable inv)) eqn:E1; [|destruct (negb (ci_ParseSuccessful inv)) eqn:E2].
  - split; [by intros ?%elem_of_nil|]. intros (snap & warns & r & Hl & Hi & _).
    destruct (Hinv _ _ _ Hl Hi) as [H _]. by rewrite H in E1.
  - split; [by intros ?%elem_of_nil|]. intros (snap & warns & r & Hl & Hi & _).
    destruct (Hinv _ _ _ Hl Hi) as [_ H]. by rewrite H in E2.
  - rewrite <- Hids. by destruct (collectReadyBrocadeTargetIDs _ _ _ _ _ _ _ _ _ _).
Qed.
End Coherence.

(** ** Times *)

Lemma TrimLeft_empty f s : TrimLeftFunc f s = "" -> Forall (fun c => f c = true) (bytes s).
Proof.
  induction s as [|c s IH]; simpl; [constructor|]. destruct (f c) eqn:Ef; [|done]. intros H. by constructor; auto.
Qed.
Lemma rev_string_empty s : rev_string s = "" -> s = "".
Proof.
  unfold rev_string. intros H. assert (E : reverse (bytes s) = []).
  { rewrite <- (bytes_str (reverse (bytes s))), H. done. }
  apply (f_equal reverse) in E. rewrite reverse_involutive in E. rewrite <- (str_bytes s), E. done.
Qed.
(** A text that starts with something else than space is not blank. *)
Lemma TrimSpace_visible c s : is_space c = false -> TrimSpace (String c s) <> "".
Proof.
  intros Hc. unfold TrimSpace, TrimFunc. simpl. rewrite Hc. unfold TrimRightFunc.
  intros H%rev_string_empty%TrimLeft_empty. unfold rev_string in H. rewrite bytes_str in H.
  rewrite Forall_forall in H. specialize (H c). rewrite elem_of_reverse in H.
  rewrite H in Hc; [done|]. simpl. apply elem_of_cons. by left.
Qed.

Lemma parsed_visible s t : ParseRFC3339 s = Some t -> TrimSpace s <> "".
Proof.
  destruct s as [|c s]; [done|]. intros H. apply TrimSpace_visible.
  unfold ParseRFC3339 in H. cbn [bytes String.list_ascii_of_string take_digits] in H.
  unfold mbind at 1, option_bind at 1 in H.
  destruct (_ && _) eqn:Ed in H; [|done]. clear H.
  apply andb_true_iff in Ed as [H1 H2]. apply Z.leb_le in H1, H2.
  unfold is_space, in_range, byte_of. destruct (_ && _) eqn:E1.
  { apply andb_true_iff in E1 as [E1 E2]. apply Z.leb_le in E2. lia. }
  simpl. apply Z.eqb_neq. lia.
Qed.

Lemma parse_text s t : parseRFC3339 s = Some t -> ParseRFC3339 s = Some t.
Proof. unfold parseRFC3339. by destruct (String.eqb s ""). Qed.

Lemma Sub_later a b t : a <= b -> Sub a t <= Sub b t.
Proof. unfold Sub. lia. Qed.

(** A target published as ready after a completed probe is advertised. *)
Lemma published_advertised t1 t3 r : t1 <= t3 ->
  sf_SSHReady (ssh_publish t3 (ssh_fields r)) = true ->
  sf_SSHProbeStage (ssh_publish t3 (ssh_fields r)) = "command_succeeded" ->
  ready_entry t1 r = true
  /\ exists t, parseRFC3339 (sn_LastSuccessfulProbeAt r) = Some t /\ Sub t3 t <= sshFreshnessTTL.
Proof.
  intros Ht. unfold ssh_publish, ready_entry.
  destruct (sf_SSHReady (ssh_fields r)) eqn:Er; cbn [andb]; [|by rewrite Er].
  destruct (String.eqb_spec (sf_SSHProbeStage (ssh_fields r)) "command_succeeded") as [Es|]; [|done].
  simpl in Er, Es. cbn [ssh_fields sf_LastSuccessfulProbeAt].
  destruct (parseRFC3339 (sn_LastSuccessfulProbeAt r)) as [t|] eqn:Ep; [|done].
  destruct (Z.ltb_spec sshFreshnessTTL (Sub t3 t)); [done|]. intros _ _.
  apply parse_text in Ep. pose proof (parsed_visible _ _ Ep) as Hv. rewrite Er, Ep.
  rewrite (proj2 (String.eqb_neq _ _) Hv). split; [|by exists t].
  cbn [negb andb]. apply negb_true_iff, Z.ltb_ge. pose proof (Sub_later t1 t3 t Ht).
  unfold ReadinessFreshWindow, sshFreshnessTTL in *. unfold Minute, Second, Millisecond in *. lia.
Qed.

(** An advertised target is published as ready, or with a reason. *)
Lemma advertised_published t1 t3 r : ready_entry t1 r = true ->
  sf_SSHReady (ssh_publish t3 (ssh_fields r)) = true \/ sf_SSHReason (ssh_publish t3 (ssh_fields r)) <> "".
Proof.
  unfold ready_entry, ssh_publish. intros [[Hr _]%andb_true_iff _]%andb_true_iff.
  cbn [ssh_fields sf_SSHReady sf_SSHProbeStage sf_LastSuccessfulProbeAt sf_SSHReason]. rewrite Hr. cbn [andb].
  destruct (String.eqb (sn_SSHProbeStage r) _); [|by left].
  destruct (match parseRFC3339 _ with Some _ => _ | None => _ end); [right|by left].
  simpl. by destruct (String.eqb_spec (sn_SSHReason r) "").
Qed.

Lemma probe_listed (b : bool) :
  CapabilityProbeBrocadeSshReadinessV1 ∈ [CapabilityCollectBrocadeEvidenceBundleV1]
    ++ (if b then [CapabilityProbeBrocadeSshReadinessV1] else []) <-> b = true.
Proof. destruct b; rewrite elem_of_app, list_elem_of_singleton; [|rewrite elem_of_nil; naive_solver].
  split; [done|]. intros _. right. by apply list_elem_of_singleton. Qed.

(** The SSH side holds what the loader delivers for a directory that is set. *)
Lemma ssh_side_lookup EvalSymlinks unmarshal_targets parse_authorized sha256 b64 unmarshal_runtime w h id f :
  fst (ssh_side EvalSymlinks unmarshal_targets parse_authorized sha256 b64 unmarshal_runtime w h) !! id = Some f
  <-> exists snap warns r,
        LoadSSHReadinessSnapshotWithRuntime EvalSymlinks unmarshal_targets parse_authorized sha256 b64 unmarshal_runtime
          (wr_targetConfigDir w) (wr_runtimeStateDir w) h = Ok (snap, warns)
        /\ snap !! id = Some r /\ f = ssh_fields r.
Proof.
  unfold ssh_side. destruct (String.eqb (wr_targetConfigDir w) "") eqn:Ed.
  - cbn [fst]. rewrite lookup_empty. split; [done|]. unfold LoadSSHReadinessSnapshotWithRuntime. rewrite Ed.
    intros (snap & warns & r & [= <- _] & Hi & _). by rewrite lookup_empty in Hi.
  - destruct (LoadSSHReadinessSnapshotWithRuntime _ _ _ _ _ _ _ _ h) as [[snap warns]|e]; cbn [fst].
    + rewrite lookup_fmap, fmap_Some. split.
      * intros (r & Hr & ->). by exists snap, warns, r.
      * intros (snap' & warns' & r & [= <- <-] & Hr & ->). by exists r.
    + rewrite fmap_empty, lookup_empty. split; [done|]. by intros (? & ? & ? & ? & _).
Qed.

Lemma rest_entry_fresh t2 t3 reg ssh id p :
  mergeBrocadePerTargetReadiness (Snapshot t2 reg) ssh t3 !! id = Some p ->
  rf_RESTReady (ptr_rest p) = true ->
  exists obs, reg !! id = Some obs /\ rf_RESTReady (ob_Readiness obs) = true
    /\ Sub t2 (ob_LastOKAt obs) <= brocadeRESTReadinessTTL.
Proof.
  rewrite merge_lookup. unfold Snapshot. rewrite lookup_fmap.
  destruct (reg !! id) as [obs|]; cbn [fmap option_fmap option_map]; destruct (ssh !! id) as [f|]; try done.
  - intros [= <-] Hr. exists obs. cbn in Hr. apply expire_ready in Hr. tauto.
  - intros [= <-] Hr. exists obs. cbn in Hr. apply expire_ready in Hr. tauto.
  - by intros [= <-].
Qed.

Lemma ssh_entry_source t2 t3 reg ssh id p :
  mergeBrocadePerTargetReadiness (Snapshot t2 reg) ssh t3 !! id = Some p ->
  sf_SSHReady (ptr_ssh p) = true ->
  exists f, ssh !! id = Some f /\ ptr_ssh p = ssh_publish t3 f.
Proof.
  rewrite merge_lookup. destruct (ssh !! id) as [f|]; [intros [= <-] _; by exists f|].
  unfold Snapshot. rewrite lookup_fmap. destruct (reg !! id); [|done]. by intros [= <-].
Qed.


(** ** Instances *)

Definition toy_sv : Supervisor (Wk:=unit) (St:=unit) :=
  {| sv_store := tt; sv_state := None; sv_workers := ∅; sv_adapters := ∅; sv_failedRetryAt := ∅; sv_failedRetries := ∅;
     sv_rest := ∅; sv_pending := []; sv_clock := fun _ => UnixEpoch; sv_rand := fun _ => 0%Q; sv_tick := 0 |}.
Definition toy_wiring : Wiring := SetTargetConfigDir "/t" (SetProbeCapabilityReadyFunc true unwired).
(** The probe of the toy target succeeded at the epoch; the manifest is built
    at that time, or twelve minutes later. *)
Definition toy_manifest (now : GoTime) : HostCapabilityManifest :=
  fst (BuildCapabilityManifest (fun _ => SymMissing) (fun _ => Some probed_doc) (fun _ => Some []) (fun b => b)
         (fun _ => "") (fun _ => None) (fun _ => []) "v" now now now toy_sv toy_wiring toy_host).
Definition toy_status (now : GoTime) : option CapabilityStatusInfo :=
  hm_CapabilityStatus (toy_manifest now) !! CapabilityCollectBrocadeEvidenceBundleV1.

Definition toy_ready (c : CapabilityStatusInfo) : bool :=
  match cs_PerTarget c !! toy_uuid with
  | Some p => sf_SSHReady (ptr_ssh p) && String.eqb (sf_SSHProbeStage (ptr_ssh p)) "command_succeeded"
  | None => false
  end.
Lemma toy_published : (toy_ready <$> toy_status UnixEpoch) = Some true.
Proof. by vm_compute. Qed.


(** Twelve minutes after a probe its target is still advertised, and published
    as not ready. *)
Lemma advertised_but_stale :
  match toy_status (UnixEpoch + 12 * Minute) with
  | Some c => cs_ReadyTargetProfileIDs c = [toy_uuid]
      /\ (sf_SSHReady ∘ ptr_ssh <$> cs_PerTarget c !! toy_uuid) = Some false
  | None => False
  end.
Proof. by vm_compute. Qed.
