(* ===== verification/Daemon.v ===== *)
(** The running process ([src/main.go] after the start, and the loops of
    [src/desired_state.go] and [src/supervisor.go]): the synchronisation loop
    with its trigger, the command poll loop, the local reconcile loop, what
    reconnecting sets off, and the order of starting and stopping. *)
From S2P Require Import Prelude GoStrings Types Interfaces Readiness Store Supervisor Policy DesiredState.
From S2P Require Import LocalDB Bootstrap Updater TargetConfig Capabilities.

Local Open Scope Z_scope.

(** ** The synchronisation loop *)

(** [run] waits, synchronises, or has returned. *)
Inductive sync_phase : Type := SyncWaiting | SyncFetching | SyncExited.

(** The loop: its phase, whether the trigger channel (of capacity one) is full,
    whether its context is cancelled and whether [Stop] has returned.  The
    manager [sl_manager] is what it works on; [sl_requests] and [sl_fetches]
    hold the times of the requests and of the synchronisations begun. *)
Record SyncLoop (M : Type) : Type := {
  sl_manager : M;
  sl_phase : sync_phase;
  sl_trigger : bool;
  sl_cancelled : bool;
  sl_stopReturned : bool;
  sl_now : nat;
  sl_requests : list nat;
  sl_fetches : list nat;
}.
Arguments sl_manager {M}. Arguments sl_phase {M}. Arguments sl_trigger {M}. Arguments sl_cancelled {M}.
Arguments sl_stopReturned {M}. Arguments sl_now {M}. Arguments sl_requests {M}. Arguments sl_fetches {M}.
Arguments Build_SyncLoop {M}.

(** [Start]: the loop begins with a synchronisation. *)
Definition Start {M} (m : M) : SyncLoop M :=
  {| sl_manager := m; sl_phase := SyncFetching; sl_trigger := false; sl_cancelled := false;
     sl_stopReturned := false; sl_now := 1; sl_requests := []; sl_fetches := [O] |}.

(** [TriggerSync]: a full channel is left as it is. *)
Definition TriggerSync {M} (l : SyncLoop M) : SyncLoop M :=
  {| sl_manager := sl_manager l; sl_phase := sl_phase l; sl_trigger := true; sl_cancelled := sl_cancelled l;
     sl_stopReturned := sl_stopReturned l; sl_now := S (sl_now l); sl_requests := sl_now l :: sl_requests l;
     sl_fetches := sl_fetches l |}.
(** The loop takes the trigger, or its timer fires. *)
Definition begin_fetch {M} (triggered : bool) (l : SyncLoop M) : SyncLoop M :=
  {| sl_manager := sl_manager l; sl_phase := SyncFetching; sl_trigger := if triggered then false else sl_trigger l;
     sl_cancelled := sl_cancelled l; sl_stopReturned := sl_stopReturned l; sl_now := S (sl_now l);
     sl_requests := sl_requests l; sl_fetches := sl_now l :: sl_fetches l |}.
Definition end_fetch {M} (m : M) (l : SyncLoop M) : SyncLoop M :=
  {| sl_manager := m; sl_phase := SyncWaiting; sl_trigger := sl_trigger l; sl_cancelled := sl_cancelled l;
     sl_stopReturned := sl_stopReturned l; sl_now := S (sl_now l); sl_requests := sl_requests l;
     sl_fetches := sl_fetches l |}.
(** [Stop] cancels the context, and returns when the loop has. *)
Definition cancel {M} (l : SyncLoop M) : SyncLoop M :=
  {| sl_manager := sl_manager l; sl_phase := sl_phase l; sl_trigger := sl_trigger l; sl_cancelled := true;
     sl_stopReturned := sl_stopReturned l; sl_now := S (sl_now l); sl_requests := sl_requests l;
     sl_fetches := sl_fetches l |}.
Definition exit_loop {M} (l : SyncLoop M) : SyncLoop M :=
  {| sl_manager := sl_manager l; sl_phase := SyncExited; sl_trigger := sl_trigger l; sl_cancelled := sl_cancelled l;
     sl_stopReturned := sl_stopReturned l; sl_now := S (sl_now l); sl_requests := sl_requests l;
     sl_fetches := sl_fetches l |}.
Definition stop_returns {M} (l : SyncLoop M) : SyncLoop M :=
  {| sl_manager := sl_manager l; sl_phase := sl_phase l; sl_trigger := sl_trigger l; sl_cancelled := sl_cancelled l;
     sl_stopReturned := true; sl_now := S (sl_now l); sl_requests := sl_requests l; sl_fetches := sl_fetches l |}.

(** The steps of the loop and of its callers.  When several cases of the
    [select] are ready, any of them may be taken. *)
Inductive sync_step {M} (fetch : M -> M -> Prop) : SyncLoop M -> SyncLoop M -> Prop :=
| step_request l : sync_step fetch l (TriggerSync l)
| step_triggered l : sl_phase l = SyncWaiting -> sl_trigger l = true -> sync_step fetch l (begin_fetch true l)
| step_timer l : sl_phase l = SyncWaiting -> sync_step fetch l (begin_fetch false l)
| step_fetched l m : sl_phase l = SyncFetching -> fetch (sl_manager l) m -> sync_step fetch l (end_fetch m l)
| step_cancel l : sync_step fetch l (cancel l)
| step_exit l : sl_phase l = SyncWaiting -> sl_cancelled l = true -> sync_step fetch l (exit_loop l)
| step_stopped l : sl_phase l = SyncExited -> sl_cancelled l = true -> sync_step fetch l (stop_returns l).

(** The delay before the next synchronisation. *)
Definition fastInterval : Duration := 5 * Second.
Definition started_interval (interval : Duration) : Duration := if 0 <? interval then interval else 60 * Second.
Definition sync_delay (now fastPollUntil : GoTime) (interval : Duration) : Duration :=
  if Before now fastPollUntil then fastInterval else interval.

(** ** The command poll loop *)

Definition idlePoll : Duration := 3 * Second.
Definition fastPoll : Duration := 1 * Second.
Definition fastDuration : Duration := 15 * Second.

Record CmdLoop : Type := {
  cl_pollInterval : Duration;
  cl_fastUntil : GoTime;
  cl_lastErrLog : GoTime;
}.
Definition cmd_start : CmdLoop := {| cl_pollInterval := idlePoll; cl_fastUntil := 0; cl_lastErrLog := 0 |}.

Inductive cmd_effect (Cmd : Type) : Type :=
| CheckedCommands (token : string)
| LoggedError (e : string)
| ProcessedCommands (cmds : list Cmd)
| TickedEvidence.
Arguments CheckedCommands {Cmd}. Arguments LoggedError {Cmd}. Arguments ProcessedCommands {Cmd}.
Arguments TickedEvidence {Cmd}.

(** One round, after the wait; [t] is the time of the answer, [t'] the time
    after the commands were processed. *)
Definition poll_round {Cmd} (token : string) (answer : result string (list Cmd)) (t t' : GoTime) (c : CmdLoop)
    : list (cmd_effect Cmd) * CmdLoop :=
  if String.eqb token "" then ([], c)
  else match answer with
  | Err e =>
      if 30 * Second <? Since t (cl_lastErrLog c) then
        ([CheckedCommands token; LoggedError e],
         {| cl_pollInterval := cl_pollInterval c; cl_fastUntil := cl_fastUntil c; cl_lastErrLog := t |})
      else ([CheckedCommands token], c)
  | Ok cmds =>
      let fastUntil := match cmds with [] => cl_fastUntil c | _ => t' + fastDuration end in
      ([CheckedCommands token] ++ match cmds with [] => [] | _ => [ProcessedCommands cmds] end ++ [TickedEvidence],
       {| cl_pollInterval := if Before t' fastUntil then fastPoll else idlePoll;
          cl_fastUntil := fastUntil; cl_lastErrLog := cl_lastErrLog c |})
  end.

(** ** The supervisor's loops *)

Section Loops.
Context {Wk St : Type} `{!WorkerOps Wk, !StoreOps St}.

(** [BroadcastHeartbeat]: the targets whose workers send a heartbeat. *)
Definition BroadcastHeartbeat (s : Supervisor (Wk:=Wk) (St:=St)) : list string := map fst (map_to_list (sv_workers s)).

(** A tick of [RunLocalReconcile]: the targets that send a heartbeat after it. *)
Definition local_reconcile (s : Supervisor (Wk:=Wk) (St:=St)) : option (list string * Supervisor (Wk:=Wk) (St:=St)) :=
  if existsb (fun e => bool_decide (ws_Status (w_State (snd e)) = WorkerStatusFailed)) (map_to_list (sv_workers s)) then
    match Reconcile s with
    | None => None
    | Some (Err _, s') => Some ([], s')
    | Some (Ok _, s') => Some (BroadcastHeartbeat s', s')
    end
  else Some ([], s).

Definition FindAdapter (id : string) (s : Supervisor (Wk:=Wk) (St:=St)) : option Wk := sv_workers s !! id.

Record AgentHealth : Type := {
  ah_total : Z;
  ah_byStatus : list (WorkerStatus * Z);
  ah_restarts : Z;
}.
(** [counts[status]++] on an association list. *)
Fixpoint bump (st : WorkerStatus) (l : list (WorkerStatus * Z)) : list (WorkerStatus * Z) :=
  match l with
  | [] => [(st, 1)]
  | (x, n) :: rest => if bool_decide (x = st) then (x, n + 1) :: rest else (x, n) :: bump st rest
  end.
Definition AgentHealthSummary (s : Supervisor (Wk:=Wk) (St:=St)) : AgentHealth :=
  let states := map (fun e => w_State (snd e)) (map_to_list (sv_workers s)) in
  {| ah_total := Z.of_nat (size (sv_workers s));
     ah_byStatus := foldl (fun l ws => bump (ws_Status ws) l) [] states;
     ah_restarts := foldl (fun n ws => n + ws_RestartCount ws) 0 states |}.
End Loops.

(** ** The start of the process *)

Definition defaultConfigDir : string := "/etc/filterrex".
Definition config_dir (env : string) : string := if String.eqb env "" then defaultConfigDir else env.

(** The warnings about the target store. *)
Definition store_warnings (r : TargetConfigResolution) : list string :=
  let inv := cr_Inventory r in
  (if String.eqb (cr_Warning r) "" then [] else ["Brocade target configuration resolution warning"])
  ++ (if negb (ci_FilePresent inv) then
        ["Brocade targets.json not found — SSH readiness will be empty until the secure directory is mounted and target configure is run"]
      else if negb (ci_FileReadable inv) then
        ["Brocade targets.json is present but not readable — SSH readiness cannot be published"]
      else []).

(** What a restored connection sets off: the sync manager is known to the
    callback only after it has been started. *)
Inductive reconnect_effect : Type :=
| ReplayedUnsynced
| Heartbeats (ids : list string)
| TriggeredSync.
Definition on_reconnect {Wk St : Type} `{!WorkerOps Wk, !StoreOps St} (syncKnown : bool)
    (s : Supervisor (Wk:=Wk) (St:=St)) : list reconnect_effect :=
  [ReplayedUnsynced; Heartbeats (BroadcastHeartbeat s)] ++ (if syncKnown then [TriggeredSync] else []).

(** A tick of the retention goroutine, an hour after the one before. *)
Definition retention_tick {blob} (now : GoTime) (state : option HostState) (d : LocalDB blob) : LocalDB blob :=
  snd (RunRetention now (retention_days state) d).

(** ** Starting and stopping *)

Inductive component : Type :=
| CUploadQueue | CMetricsLogger | CRetention | CLocalAPI | CWorkers | CWatchdog | CLocalReconcile
| CSyncLoop | CUpdateChecks | CLocalDB.
#[global] Instance component_eq_dec : EqDecision component.
Proof. solve_decision. Defined.

Inductive process_event : Type :=
| Started (c : component)
| RolledBack
| ConfirmedHealth
| Signalled
| DumpedMetrics
| Stopped (c : component).

(** What decides which parts run: the local database, a connector token, an
    update manager with a pending rollback or not, and the update policy of the
    host state (empty when it has none). *)
Record Setup : Type := {
  su_localDB : bool;
  su_token : bool;
  su_updater : option bool;
  su_updatePolicy : string;
}.
Definition update_checks (u : Setup) : bool :=
  match su_updater u with
  | None => false
  | Some _ =>
      let updatePolicy := if String.eqb (su_updatePolicy u) "" then UpdatePolicyNone else su_updatePolicy u in
      negb (String.eqb updatePolicy UpdatePolicyNone)
  end.
Definition if_so {A} (b : bool) (l : list A) : list A := if b then l else [].

(** The database is open before [main] gets here. *)
Definition start_all (u : Setup) : list process_event :=
  if_so (su_localDB u) [Started CLocalDB]
  ++ [Started CUploadQueue; Started CMetricsLogger]
  ++ if_so (su_localDB u) [Started CRetention; Started CLocalAPI]
  ++ [Started CWorkers; Started CWatchdog; Started CLocalReconcile]
  ++ if_so (su_token u) [Started CSyncLoop]
  ++ match su_updater u with
     | None => []
     | Some true => [RolledBack]
     | Some false => [ConfirmedHealth]
     end
  ++ if_so (update_checks u) [Started CUpdateChecks].

(** After the signal; the deferred cancellations run last, in reverse order. *)
Definition stop_all (u : Setup) : list process_event :=
  [Signalled; Stopped CMetricsLogger; DumpedMetrics]
  ++ if_so (su_token u) [Stopped CSyncLoop]
  ++ [Stopped CWorkers; Stopped CUploadQueue]
  ++ if_so (su_localDB u) [Stopped CLocalAPI; Stopped CRetention; Stopped CLocalDB]
  ++ if_so (update_checks u) [Stopped CUpdateChecks]
  ++ [Stopped CWatchdog; Stopped CLocalReconcile].

(** What the supervisor is told on the way: the target store, the queue, the
    local API, and the readiness of the probe handler. *)
Definition wire (u : Setup) (dir source runtimeDir lanURL token : string) (probeReady : bool) : Wiring :=
  let w := SetRuntimeStateDir runtimeDir (SetTargetConfigSource source (SetTargetConfigDir dir unwired)) in
  let w := SetUploadQueue w in
  let w := if su_localDB u then SetLocalAPIToken token (SetLocalAPIURL lanURL w) else w in
  if su_token u then SetProbeCapabilityReadyFunc probeReady w else w.

Definition process (u : Setup) : list process_event := start_all u ++ stop_all u.
