(* ===== verification/DaemonProps.v ===== *)
(** The running process: a requested synchronisation takes place, polling keeps
    its pace, and what was started is stopped in order. *)
From S2P Require Import Prelude GoStrings Types Interfaces Readiness Store Supervisor Policy DesiredState.
From S2P Require Import Updater TargetConfig Capabilities Daemon.

Local Open Scope Z_scope.

(** ** The synchronisation loop *)

Section Sync.
Context {M : Type} (fetch : M -> M -> Prop).

(** Every request is in the channel or was followed by a synchronisation; times
    are in the past; [Stop] returns only after the loop has. *)
Record loop_inv (m0 : M) (l : SyncLoop M) : Prop := {
  li_served t : t ∈ sl_requests l -> sl_trigger l = true \/ exists f, f ∈ sl_fetches l /\ (t < f)%nat;
  li_requests t : t ∈ sl_requests l -> (t < sl_now l)%nat;
  li_stopped : sl_stopReturned l = true -> sl_phase l = SyncExited;
  li_cancelled : sl_phase l = SyncExited -> sl_cancelled l = true;
  li_manager : rtc fetch m0 (sl_manager l);
}.

Lemma inv_start m0 : loop_inv m0 (Start m0).
Proof. split; try done; by intros t ?%elem_of_nil. Qed.

Lemma inv_step m0 l l' : loop_inv m0 l -> sync_step fetch l l' -> loop_inv m0 l'.
Proof.
  intros [H1 H2 H3 H4 H5] Hs. destruct Hs as [l|l Hp Ht|l Hp|l m Hp Hf|l|l Hp Hc|l Hp Hc]; split; simpl; try done;
    try (intros t Ht'; pose proof (H2 t Ht'); lia); try (intros t Ht'; by apply H1).
  - intros t _. by left.
  - intros t [->|Ht]%elem_of_cons; [lia|]. pose proof (H2 t Ht). lia.
  - intros t Ht'. right. exists (sl_now l). split; [apply elem_of_cons; by left|by apply H2].
  - intros Hst. rewrite (H3 Hst) in Hp. done.
  - intros t Ht'. destruct (H1 t Ht') as [E|(f & Hf & Hlt)]; [by left|right].
    exists f. split; [apply elem_of_cons; by right|done].
  - intros Hst. rewrite (H3 Hst) in Hp. done.
  - intros Hst. rewrite (H3 Hst) in Hp. done.
  - eapply rtc_r; eassumption.
Qed.

Lemma inv_reachable m0 l : rtc (sync_step fetch) (Start m0) l -> loop_inv m0 l.
Proof.
  assert (H : forall l1 l2, rtc (sync_step fetch) l1 l2 -> loop_inv m0 l1 -> loop_inv m0 l2).
  { intros l1 l2 Hr. induction Hr; [done|]. intros Hi. eauto using inv_step. }
  intros Hr. eapply H; [exact Hr|apply inv_start].
Qed.

(** Once [Stop] has returned no synchronisation begins. *)
Lemma stopped_quiet m0 l l' : loop_inv m0 l -> sl_stopReturned l = true ->
  rtc (sync_step fetch) l l' -> sl_fetches l' = sl_fetches l /\ sl_manager l' = sl_manager l.
Proof.
  intros Hi Hs Hr. induction Hr as [|l l1 l2 Hs1 _ IH]; [done|].
  pose proof (inv_step _ _ _ Hi Hs1) as Hi1. pose proof (li_stopped _ _ Hi Hs) as Hp.
  assert (H : sl_fetches l1 = sl_fetches l /\ sl_manager l1 = sl_manager l /\ sl_stopReturned l1 = true).
  { destruct Hs1; simpl; try done; congruence. }
  destruct H as (E1 & E2 & E3). destruct (IH Hi1 E3) as [-> ->]. done.
Qed.
End Sync.



(** ** The pace of polling *)

Lemma sync_delay_fast now until interval :
  sync_delay now until interval = fastInterval \/ sync_delay now until interval = interval /\ until <= now.
Proof. unfold sync_delay, Before. destruct (Z.ltb_spec now until); auto. Qed.

(** The rounds of a run, with their tokens, answers and times. *)
Abbreviation round Cmd := (string * result string (list Cmd) * GoTime * GoTime)%type.
Fixpoint poll_rounds {Cmd} (rs : list (round Cmd)) (c : CmdLoop) : CmdLoop :=
  match rs with
  | [] => c
  | (token, answer, t, t') :: rest => poll_rounds rest (snd (poll_round token answer t t' c))
  end.
Lemma poll_interval_known {Cmd} (rs : list (round Cmd)) :
  cl_pollInterval (poll_rounds rs cmd_start) ∈ [idlePoll; fastPoll].
Proof.
  assert (H : forall c, cl_pollInterval c ∈ [idlePoll; fastPoll] -> cl_pollInterval (poll_rounds rs c) ∈ [idlePoll; fastPoll]).
  { induction rs as [|[[[token answer] t] t'] rs IH]; intros c Hc; simpl; [done|]. apply IH.
    unfold poll_round. destruct (String.eqb token ""); [done|]. destruct answer as [cmds|e].
    - simpl. destruct (Before _ _); set_solver.
    - by destruct (30 * Second <? _). }
  apply H. simpl. set_solver.
Qed.
(** Commands are processed, and evidence is polled for, only on an answer; after
    commands the next round comes in a second, and idle rounds return to the
    slow pace after fifteen. *)
Lemma poll_round_effects {Cmd} token (answer : result string (list Cmd)) t t' c :
  let '(effects, c') := poll_round token answer t t' c in
  (TickedEvidence ∈ effects <-> token <> "" /\ is_ok answer = true)
  /\ (forall cmds, ProcessedCommands cmds ∈ effects -> answer = Ok cmds /\ cl_pollInterval c' = fastPoll)
  /\ (answer = Ok [] -> token <> "" -> cl_fastUntil c <= t' -> cl_pollInterval c' = idlePoll)
  /\ (forall e, LoggedError e ∈ effects -> 30 * Second < Since t (cl_lastErrLog c) /\ cl_lastErrLog c' = t).
Proof.
  unfold poll_round. destruct (String.eqb_spec token "") as [->|Hne].
  { split_and!; intros; try done; try (by destruct (elem_of_nil (A:=cmd_effect Cmd) TickedEvidence)); set_solver. }
  destruct answer as [cmds|e].
  - assert (Hb : cmds <> [] -> Before t' (t' + fastDuration) = true).
    { intros _. unfold Before. apply Z.ltb_lt. unfold fastDuration, Second, Millisecond. lia. }
    destruct cmds as [|cmd cmds]; simpl; split_and!; try (intros; set_solver).
    + intros _ _ Hf. unfold Before. by rewrite (proj2 (Z.ltb_ge _ _)) by lia.
    + intros cs Hin. rewrite Hb by done. split; [|done].
      rewrite !elem_of_cons, elem_of_nil in Hin. destruct Hin as [?|[[= ->]|[?|[]]]]; done.
  - destruct (Z.ltb_spec (30 * Second) (Since t (cl_lastErrLog c))); simpl; split_and!; try (intros; set_solver).
Qed.
(** After a fast round, failing rounds keep the fast pace. *)
Lemma failing_polls_stay_fast {Cmd} (rs : list (round Cmd)) c :
  Forall (fun r => exists e, snd (fst (fst r)) = Err e) rs ->
  cl_pollInterval (poll_rounds rs c) = cl_pollInterval c.
Proof.
  intros H. revert c. induction H as [|[[[token answer] t] t'] rs [e He] _ IH]; intros c; [done|].
  simpl in *. subst answer. rewrite IH. unfold poll_round. destruct (String.eqb token ""); [done|].
  by destruct (30 * Second <? _).
Qed.

(** ** The supervisor's loops *)

Section Loops.
Context {Wk St : Type} `{!WorkerOps Wk, !StoreOps St}.

(** Without a failed worker the local reconcile loop does nothing. *)
Lemma local_reconcile_idle (s : Supervisor (Wk:=Wk) (St:=St)) :
  (forall id w, sv_workers s !! id = Some w -> ws_Status (w_State w) <> WorkerStatusFailed) ->
  local_reconcile s = Some ([], s).
Proof.
  intros H. unfold local_reconcile. destruct (existsb _ _) eqn:E; [|done].
  apply existsb_exists in E as ([id w] & Hin & Hb). apply bool_decide_eq_true in Hb.
  apply list_elem_of_In, elem_of_map_to_list in Hin. by destruct (H id w Hin).
Qed.

Definition total_of (l : list (WorkerStatus * Z)) : Z := foldr (fun e n => snd e + n) 0 l.
Lemma bump_total st l : total_of (bump st l) = total_of l + 1.
Proof.
  induction l as [|[x n] l IH]; [done|]. simpl. destruct (bool_decide (x = st)); simpl; [lia|]. rewrite IH. lia.
Qed.
(** The counts by status add up to the number of workers. *)
Lemma health_adds_up (s : Supervisor (Wk:=Wk) (St:=St)) :
  total_of (ah_byStatus (AgentHealthSummary s)) = ah_total (AgentHealthSummary s).
Proof.
  unfold AgentHealthSummary. cbn [ah_byStatus ah_total]. rewrite <- length_map_to_list.
  generalize (map_to_list (sv_workers s)). intros ws.
  assert (H : forall l, total_of (foldl (fun l ws => bump (ws_Status ws) l) l (map (fun e => w_State (snd e)) ws))
              = total_of l + Z.of_nat (length ws)).
  { induction ws as [|w ws IH]; intros l; cbn [map foldl length]; [lia|]. rewrite IH, bump_total. lia. }
  rewrite H. simpl. lia.
Qed.
End Loops.

(** ** Starting and stopping *)

Definition event_eqb (a b : process_event) : bool :=
  match a, b with
  | Started x, Started y | Stopped x, Stopped y => bool_decide (x = y)
  | RolledBack, RolledBack | ConfirmedHealth, ConfirmedHealth | Signalled, Signalled
  | DumpedMetrics, DumpedMetrics => true
  | _, _ => false
  end.
Definition occurrences (e : process_event) (l : list process_event) : nat := length (List.filter (event_eqb e) l).
(** Where an event is first seen. *)
Fixpoint index_of (e : process_event) (l : list process_event) : nat :=
  match l with
  | [] => O
  | x :: rest => if event_eqb e x then O else S (index_of e rest)
  end.
Definition before (a b : process_event) (l : list process_event) : Prop :=
  occurrences a l = 1%nat -> occurrences b l = 1%nat -> (index_of a l < index_of b l)%nat.


(** The watchdog and the local reconcile loop outlive the workers and the
    database. *)
Lemma watchdog_outlives u : su_localDB u = true ->
  before (Stopped CLocalDB) (Stopped CWatchdog) (process u)
  /\ before (Stopped CWorkers) (Stopped CLocalReconcile) (process u).
Proof.
  unfold process, start_all, stop_all. generalize (update_checks u). destruct u as [db tok up pol].
  cbn [su_localDB su_token su_updater]. intros b ->.
  destruct tok, b; destruct up as [[]|]; vm_compute; split_and!; intros; lia.
Qed.

(** The probe capability is wired only on an enrolled host. *)
Lemma wired_probe u dir source runtimeDir lanURL token ready :
  wr_probeReady (wire u dir source runtimeDir lanURL token ready) = (if su_token u then Some ready else None).
Proof. unfold wire. by destruct (su_token u), (su_localDB u). Qed.
