(* ===== verification/AuditLog.v ===== *)
(** The audit logger ([src/audit.go]): levels, fields, the two output formats,
    and the logger's settings.  An event gives the list of texts written for it. *)
From S2P Require Import Prelude GoStrings GoTime GoJson LocalDB.
From Stdlib Require Import Ascii.

Local Open Scope Z_scope.

(** ** Levels *)

Abbreviation LogLevel := Z.
Definition LevelDebug : LogLevel := 0.
Definition LevelInfo : LogLevel := 1.
Definition LevelWarn : LogLevel := 2.
Definition LevelError : LogLevel := 3.
Definition LevelCritical : LogLevel := 4.

Definition levelNames : gmap Z string :=
  {[ LevelDebug := "debug"; LevelInfo := "info"; LevelWarn := "warn"; LevelError := "error"; LevelCritical := "critical" ]}.

Definition parseLogLevel (s : string) : LogLevel :=
  let s := ToLower s in
  if String.eqb s "debug" then LevelDebug
  else if String.eqb s "info" then LevelInfo
  else if String.eqb s "warn" || String.eqb s "warning" then LevelWarn
  else if String.eqb s "error" then LevelError
  else if String.eqb s "critical" then LevelCritical
  else LevelInfo.

(** ** Fields *)

(** The dynamic types of the values the program logs; [FStrings None] is a nil
    slice. *)
Inductive FieldValue : Type :=
| FNil
| FString (s : string)
| FInt (z : Z)
| FBool (b : bool)
| FStrings (l : option (list string))
| FDuration (d : Duration).

Record Field : Type := { fd_Key : string; fd_Value : FieldValue }.
Definition F (key : string) (val : FieldValue) : Field := {| fd_Key := key; fd_Value := val |}.
(** [Err]: the text of the error, or nothing for a nil error. *)
Definition Err_ (err : option string) : Field :=
  match err with
  | None => {| fd_Key := "error"; fd_Value := FNil |}
  | Some e => {| fd_Key := "error"; fd_Value := FString e |}
  end.
Definition Target (id typ name : string) : list Field :=
  [{| fd_Key := "target_id"; fd_Value := FString id |};
   {| fd_Key := "target_type"; fd_Value := FString typ |};
   {| fd_Key := "target_name"; fd_Value := FString name |}].

(** The value under [encoding/json]. *)
Definition json_of (v : FieldValue) : option jvalue :=
  match v with
  | FNil => None
  | FString s => Some (JString s)
  | FInt z => Some (JInt z)
  | FBool b => Some (JBool b)
  | FStrings None => Some JNull
  | FStrings (Some l) => Some (JStrings l)
  | FDuration d => Some (JInt d)
  end.

(** [Duration.String]. *)
Definition frac_digits (prec : nat) (v : Z) : string :=
  if v =? 0 then "" else let '(z, w) := strip_zeros prec prec v in "." +:+ pad_digits w z.
Definition Duration_String (d : Duration) : string :=
  let u := Z.abs d in
  let micro := str [chr 194; chr 181] in
  (if d <? 0 then "-" else "") +:+
  (if u =? 0 then "0s"
   else if u <? 1000 then pretty u +:+ "ns"
   else if u <? 1000000 then pretty (u / 1000) +:+ frac_digits 3 (u mod 1000) +:+ micro +:+ "s"
   else if u <? 1000000000 then pretty (u / 1000000) +:+ frac_digits 6 (u mod 1000000) +:+ "ms"
   else
     let secs := u / 1000000000 in
     let mins := secs / 60 in
     (if 60 <=? mins then pretty (mins / 60) +:+ "h" else "")
     +:+ (if 1 <=? mins then pretty (mins mod 60) +:+ "m" else "")
     +:+ pretty (secs mod 60) +:+ frac_digits 9 (u mod 1000000000) +:+ "s").

(** The value under the verb [%v]. *)
Definition text_of_value (v : FieldValue) : option string :=
  match v with
  | FNil => None
  | FString s => Some s
  | FInt z => Some (pretty z)
  | FBool b => Some (if b then "true" else "false")
  | FStrings None => Some "[]"
  | FStrings (Some l) => Some ("[" +:+ Join l " " +:+ "]")
  | FDuration d => Some (Duration_String d)
  end.

(** ** The logger *)

Record AuditLogger : Type := {
  al_minLevel : LogLevel;
  al_jsonMode : bool;
  al_hostID : string;
  al_agentVersion : string;
}.

Section Logger.
(** The version of the build. *)
Context (HostVersion : string).

Definition NewAuditLogger (minLevel : LogLevel) (jsonMode : bool) : AuditLogger :=
  {| al_minLevel := minLevel; al_jsonMode := jsonMode; al_hostID := ""; al_agentVersion := HostVersion |}.
(** [logFormat] is the variable LOG_FORMAT. *)
Definition InitAuditLogger (logFormat configLevel : string) : AuditLogger :=
  NewAuditLogger (parseLogLevel configLevel) (String.eqb logFormat "json").
(** The level of [main] and of the export command, from the variable LOG_LEVEL. *)
Definition configLevel (env : string) : string := if String.eqb env "" then "info" else env.
End Logger.

Definition SetHostID (id : string) (a : AuditLogger) : AuditLogger :=
  {| al_minLevel := al_minLevel a; al_jsonMode := al_jsonMode a; al_hostID := id; al_agentVersion := al_agentVersion a |}.
Definition SetLevel (level : LogLevel) (a : AuditLogger) : AuditLogger :=
  {| al_minLevel := level; al_jsonMode := al_jsonMode a; al_hostID := al_hostID a; al_agentVersion := al_agentVersion a |}.

(** ** Output *)

Definition newline : string := str [chr 10].

(** [Format(time.RFC3339Nano)] in UTC. *)
Definition FormatRFC3339Nano (t : GoTime) : string :=
  String.substring 0 19 (FormatRFC3339 t) +:+ frac_text (t mod Second).

Definition set_field (m : gmap string jvalue) (f : Field) : gmap string jvalue :=
  match json_of (fd_Value f) with Some v => <[fd_Key f := v]> m | None => m end.
Definition base_entry (t : GoTime) (a : AuditLogger) (level : LogLevel) (event msg : string) : gmap string jvalue :=
  let entry := {[ "ts" := JString (FormatRFC3339Nano t); "level" := JString (default "" (levelNames !! level));
                  "event" := JString event; "msg" := JString msg; "agent_version" := JString (al_agentVersion a) ]} in
  if String.eqb (al_hostID a) "" then entry else <["host_id" := JString (al_hostID a)]> entry.
(** The encoding of the values the program logs never fails. *)
Definition emitJSON (t : GoTime) (a : AuditLogger) (level : LogLevel) (event msg : string) (fields : list Field)
    : list string :=
  [Marshal (foldl set_field (base_entry t a level event msg) fields) +:+ newline].

Definition text_field (f : Field) : string :=
  match text_of_value (fd_Value f) with Some v => " " +:+ fd_Key f +:+ "=" +:+ v | None => "" end.
(** The stamp of package [log] with the flags of [main]. *)
Definition log_stamp (t : GoTime) : string :=
  let s := FormatRFC3339 t in
  String.substring 0 4 s +:+ "/" +:+ String.substring 5 2 s +:+ "/" +:+ String.substring 8 2 s
  +:+ " " +:+ String.substring 11 8 s +:+ " ".
Definition emitText (t : GoTime) (level : LogLevel) (event msg : string) (fields : list Field) : list string :=
  [log_stamp t +:+ "[" +:+ event +:+ "] " +:+ msg +:+ Join (map text_field fields) "" +:+ newline].

Definition emit (t : GoTime) (a : AuditLogger) (level : LogLevel) (event msg : string) (fields : list Field)
    : list string :=
  if level <? al_minLevel a then []
  else if al_jsonMode a then emitJSON t a level event msg fields
  else emitText t level event msg fields.

Definition Debug (t : GoTime) (a : AuditLogger) (event msg : string) (fields : list Field) : list string :=
  emit t a LevelDebug event msg fields.
Definition Info (t : GoTime) (a : AuditLogger) (event msg : string) (fields : list Field) : list string :=
  emit t a LevelInfo event msg fields.
Definition Warn (t : GoTime) (a : AuditLogger) (event msg : string) (fields : list Field) : list string :=
  emit t a LevelWarn event msg fields.
Definition Error (t : GoTime) (a : AuditLogger) (event msg : string) (fields : list Field) : list string :=
  emit t a LevelError event msg fields.
Definition Critical (t : GoTime) (a : AuditLogger) (event msg : string) (fields : list Field) : list string :=
  emit t a LevelCritical event msg fields.

Example duration_texts :
  map Duration_String [0; 1500; 1500 * 1000 * 1000; 90 * 1000 * 1000 * 1000; 3600 * 1000 * 1000 * 1000]
  = ["0s"; "1.5" +:+ str [chr 194; chr 181] +:+ "s"; "1.5s"; "1m30s"; "1h0m0s"].
Proof. vm_compute. reflexivity. Qed.
