(* ===== verification/AuditLogProps.v ===== *)
(** Properties of the audit logger: an event at or above the level is one line
    that reads back as the event; the text format does not have this property. *)
From S2P Require Import Prelude GoStrings GoTime GoJson GoJsonProps LocalDB AuditLog.
From Stdlib Require Import Ascii.

Local Open Scope Z_scope.

(** The value of the last field with a key that is not nil. *)
Definition last_field (k : string) (fields : list Field) : option jvalue :=
  foldr (fun f found => match found with
                        | Some v => Some v
                        | None => if String.eqb (fd_Key f) k then json_of (fd_Value f) else None
                        end) None fields.

Lemma set_fields_lookup fields m k :
  foldl set_field m fields !! k = match last_field k fields with Some v => Some v | None => m !! k end.
Proof.
  revert m. induction fields as [|f fields IH]; intros m; [done|]. simpl. rewrite IH.
  destruct (last_field k fields); [done|]. unfold set_field.
  destruct (String.eqb_spec (fd_Key f) k) as [<-|Hk]; destruct (json_of (fd_Value f)); try done.
  - by rewrite lookup_insert_eq.
  - by rewrite lookup_insert_ne.
Qed.

(** What an event says besides its fields. *)
Definition reserved (t : GoTime) (a : AuditLogger) (level : LogLevel) (event msg k : string) : option jvalue :=
  if String.eqb k "ts" then Some (JString (FormatRFC3339Nano t))
  else if String.eqb k "level" then Some (JString (default "" (levelNames !! level)))
  else if String.eqb k "event" then Some (JString event)
  else if String.eqb k "msg" then Some (JString msg)
  else if String.eqb k "agent_version" then Some (JString (al_agentVersion a))
  else if String.eqb k "host_id" && negb (String.eqb (al_hostID a) "") then Some (JString (al_hostID a))
  else None.

Lemma base_lookup t a level event msg k : base_entry t a level event msg !! k = reserved t a level event msg k.
Proof.
  unfold base_entry, reserved.
  repeat match goal with |- context [String.eqb k ?x] =>
           destruct (String.eqb_spec k x) as [->|?]; simpl; [by destruct (String.eqb (al_hostID a) "")|] end.
  destruct (String.eqb_spec k "host_id") as [->|Hk]; simpl; destruct (String.eqb (al_hostID a) ""); simpl.
  - done.
  - by rewrite lookup_insert_eq.
  - by rewrite !lookup_insert_ne, lookup_singleton_ne by congruence.
  - by rewrite !lookup_insert_ne, lookup_singleton_ne by congruence.
Qed.

(** C40: an audit event is one faithful line.  Below the minimum level nothing is
    written.  In JSON mode an event at or above it is written as exactly one line,
    whatever bytes the event, its message, its fields and the host identifier
    hold, so that no event can be split or forged; a reader of the line gets each
    name once, with the value of the last field of that name that is not nil, or
    else with the time, level, event, message, version and host of the event;
    only invalid UTF-8 is replaced. *)
Theorem audit_line_faithful (t : GoTime) (a : AuditLogger) (level : LogLevel) (event msg : string) (fields : list Field)
    (Hjson : al_jsonMode a = true) :
  (level < al_minLevel a -> emit t a level event msg fields = [])
  /\ (al_minLevel a <= level -> exists line ms,
        emit t a level event msg fields = [line +:+ newline]
        /\ Forall (fun c => byte_of c <? 32 = false) (bytes line)
        /\ read_object line = Some (map (fun e => (valid_text (fst e), read_back (snd e))) ms)
        /\ NoDup (map fst ms)
        /\ forall k v, (k, v) ∈ ms <->
             match last_field k fields with
             | Some v' => v' = v
             | None => reserved t a level event msg k = Some v
             end).
Proof.
  unfold emit. rewrite Hjson. split.
  { intros H. by rewrite (proj2 (Z.ltb_lt _ _) H). }
  intros H. rewrite (proj2 (Z.ltb_ge _ _) H). unfold emitJSON. set (m := foldl _ _ _).
  exists (Marshal m), (members m). split; [done|]. split; [apply Marshal_printable|]. split; [apply read_Marshal|].
  split; [apply members_nodup|]. intros k v. rewrite members_spec. subst m. rewrite set_fields_lookup, base_lookup.
  destruct (last_field k fields); [split; congruence|done].
Qed.

(** A message of a remote system with a line break and quotes in it. *)
Lemma audit_line_faithful_witness :
  let a := SetHostID "h1" (InitAuditLogger "0.7.0" "json" "warn") in
  let e := str [chr 10; chr 34] +:+ "level" in
  exists line ms, emit UnixEpoch a LevelError "x" "refused" [Err_ (Some e)] = [line +:+ newline]
    /\ read_object line = Some (map (fun e => (valid_text (fst e), read_back (snd e))) ms)
    /\ ("error", JString e) ∈ ms /\ ("level", JString "error") ∈ ms.
Proof.
  intros a e. destruct (audit_line_faithful UnixEpoch a LevelError "x" "refused" [Err_ (Some e)]) as [_ H].
  - reflexivity.
  - destruct H as (line & ms & E & _ & Hr & _ & Hm); [vm_compute; discriminate|].
    exists line, ms. split; [exact E|]. split; [exact Hr|]. split; apply Hm; vm_compute; reflexivity.
Defined.

(** The text format: a line break in a value starts a line of its own, so that a
    field can hold what the logger writes for another event. *)
Lemma text_line_forged t level event msg level' event' msg' :
  let a := InitAuditLogger "0.7.0" "text" "debug" in
  0 <= level -> 0 <= level' ->
  exists e, Join (emit t a level event msg [Err_ (Some e)]) ""
            = Join (emit t a level event msg [Err_ (Some "")] ++ emit t a level' event' msg' []) "".
Proof.
  intros a H H'. exists (newline +:+ log_stamp t +:+ "[" +:+ event' +:+ "] " +:+ msg').
  unfold emit. simpl al_minLevel. change (parseLogLevel "debug") with 0.
  rewrite (proj2 (Z.ltb_ge _ _) H), (proj2 (Z.ltb_ge _ _) H'). simpl al_jsonMode. cbv iota.
  unfold emitText, text_field, Err_. generalize (log_stamp t). intros st.
  cbn [map Join app fd_Value fd_Key text_of_value]. apply bytes_inj. rewrite !bytes_app.
  cbn [bytes String.list_ascii_of_string]. rewrite <- !app_assoc, !app_nil_l. reflexivity.
Qed.

(** Each method has its level, and a level lets through the ones above it. *)
Lemma levels_nested t a event msg fields l l' : l <= l' ->
  emit t (SetLevel l a) LevelCritical event msg fields = [] ->
  emit t (SetLevel l' a) LevelCritical event msg fields = [].
Proof.
  intros Hl. unfold emit. simpl. destruct (Z.ltb_spec LevelCritical l); [|by destruct (al_jsonMode a)].
  by rewrite (proj2 (Z.ltb_lt _ _)) by lia.
Qed.

(** A field may take the place of what the event says. *)
Lemma reserved_overwritten :
  let a := InitAuditLogger "0.7.0" "json" "info" in
  exists line, Info UnixEpoch a "x" "m" [F "level" (FString "critical")] = [line]
    /\ Contains line (str [chr 34] +:+ "info") = false.
Proof. eexists. split; [reflexivity|]. vm_compute. reflexivity. Qed.
