(* ===== verification/CommandLine.v ===== *)
(** The command lines of the agent: the flags of [target configure], [target
    probe] and [target doctor], and the whole of [export-brocade-bundle]
    ([src/cli_export.go], [src/brocadeexport/metadata.go]). *)
From S2P Require Import Prelude GoStrings GoPath GoFlag GoJson Store TargetConfig TargetProbe BrocadeRest WizardTerminal.
From S2P Require Import Wizard EvidenceBundle BrocadeCli BrocadeExport LocalDB AuditLog.
From Stdlib Require Import Ascii.

Local Open Scope Z_scope.

(** ** The target commands *)

Definition configure_flag_set : FlagSet :=
  {[ "config-dir" := StringFlag; "profile" := StringFlag; "target-id" := StringFlag; "state-dir" := StringFlag;
     "y" := BoolFlag; "key-algo" := StringFlag; "import-existing" := StringFlag ]}.
Definition configure_flags (args : list string) : option Flags :=
  match Parse configure_flag_set args with
  | Err _ => None
  | Ok (vals, _) => Some
      {| fl_configDir := string_flag vals "config-dir" "/config"; fl_profile := string_flag vals "profile" "";
         fl_targetID := string_flag vals "target-id" "";
         fl_stateDir := string_flag vals "state-dir" "/var/lib/filterrex"; fl_nonInteractive := bool_flag vals "y";
         fl_keyAlgo := string_flag vals "key-algo" ""; fl_importExisting := string_flag vals "import-existing" "" |}
  end.

Definition probe_flag_set : FlagSet :=
  {[ "config-dir" := StringFlag; "profile" := StringFlag; "target-id" := StringFlag ]}.
Definition probe_flags (args : list string) : option (string * string * string) :=
  match Parse probe_flag_set args with
  | Err _ => None
  | Ok (vals, _) => Some (string_flag vals "config-dir" "/config", string_flag vals "profile" "",
                          string_flag vals "target-id" "")
  end.

Definition doctor_flag_set : FlagSet :=
  {[ "config-dir" := StringFlag; "targets-dir" := StringFlag; "target-id" := StringFlag ]}.
Definition doctor_flags (args : list string) : option (string * string * string) :=
  match Parse doctor_flag_set args with
  | Err _ => None
  | Ok (vals, _) => Some (string_flag vals "config-dir" "/etc/filterrex", string_flag vals "targets-dir" "",
                          string_flag vals "target-id" "")
  end.
(** [printDoctorHint]: the advice for a status. *)
Definition printDoctorHint (s : config_status) : option string :=
  match s with
  | TargetConfigMissing => Some "Next: recreate the daemon container with /opt/filterrex/secure mounted read-only at /etc/filterrex/targets, then run target configure if targets.json is still absent."
  | TargetConfigUnreadable => Some "Next: fix filesystem permissions so the daemon container can read targets.json and its parent directory."
  | TargetConfigNoTarget => Some "Next: rerun target configure with --target-id set to the application target UUID shown above, then recreate or restart the daemon container."
  | TargetConfigDuplicate => Some "Next: remove duplicate records that resolve to the same application target UUID; the agent drops ambiguous readiness."
  | TargetConfigKeyMissing => Some "Next: rerun target configure for this target and verify the key and known_hosts files are on the same mounted secure directory."
  | TargetConfigKeyUnreadable => Some "Next: fix permissions so the daemon container can read the managed private key file."
  | TargetConfigKnownHostsMissing => Some "Next: rerun target configure and complete host-key enrollment so known_hosts is written into the secure directory."
  | TargetConfigHostKeyMissing => Some "Next: rerun target configure and confirm the switch host-key fingerprint for this target address."
  | TargetConfigUnmanagedArtifact => Some "Next: upgrade to the path-resolution release, then rerun target configure so managed artifact paths are relative to the secure directory."
  | TargetConfigOK | TargetConfigInvalidID => None
  end.

(** ** What the export prints *)

(** [json.MarshalIndent] of a struct with two spaces. *)
Definition indented_member (e : string * jvalue) : list ascii :=
  [chr 10] ++ bytes "  " ++ json_string (fst e) ++ bytes ": " ++ json_value (snd e).
Definition MarshalIndent (l : list (string * jvalue)) : string :=
  str (["{"%char] ++ comma_separated (map indented_member l) ++ [chr 10; "}"%char]).
Definition ErrorJSON (err : string) : string :=
  MarshalIndent [("ok", JBool false); ("error", JString err)].
Definition ResultJSON (r : ExportResult) : string :=
  MarshalIndent
    [("ok", JBool (er_OK r)); ("artifact_type", JString (er_ArtifactType r)); ("vendor", JString (er_Vendor r));
     ("collection_method", JString (er_CollectionMethod r)); ("path", JString (er_Path r));
     ("switches", JInt (er_Switches r)); ("parsed_files", JInt (er_ParsedFiles r));
     ("supporting_files", JInt (er_SupportingFiles r)); ("warnings", JInt (er_Warnings r));
     ("sha256", JString (er_SHA256 r)); ("started_at", JString (er_StartedAt r));
     ("finished_at", JString (er_FinishedAt r))].

(** ** The export command *)

Record CliRun : Type := {
  cl_code : Z;
  cl_stdout : string;
  cl_log : list string;
}.

Definition export_flag_set : FlagSet := {[ "config" := StringFlag; "out" := StringFlag ]}.
Definition with_out (outDir : string) (c : ExportConfig) : ExportConfig :=
  if String.eqb outDir "" then c
  else {| xc_Enabled := xc_Enabled c; xc_ArtifactDir := outDir; xc_KnownHostsPath := xc_KnownHostsPath c;
          xc_ConnectTimeoutSeconds := xc_ConnectTimeoutSeconds c;
          xc_CommandTimeoutSeconds := xc_CommandTimeoutSeconds c; xc_SSHPort := xc_SSHPort c;
          xc_Targets := xc_Targets c; xc_AllowInsecureArtifactDir := xc_AllowInsecureArtifactDir c;
          xc_ConfigPath := xc_ConfigPath c |}.
Definition cli_request (configPath : string) : RequestMeta :=
  {| rq_RequesterType := "local_cli"; rq_Requester := "connector-agent export-brocade-bundle";
     rq_ConfigPath := configPath |}.
Definition success_fields (res : ExportResult) : list Field :=
  [F "requester_type" (FString (from_option au_RequesterType "" (er_Audit res)));
   F "requester" (FString (from_option au_Requester "" (er_Audit res)));
   F "switches" (FInt (er_Switches res)); F "parsed_files" (FInt (er_ParsedFiles res));
   F "supporting_files" (FInt (er_SupportingFiles res)); F "warnings" (FInt (er_Warnings res));
   F "output_path" (FString (er_Path res)); F "sha256" (FString (er_SHA256 res))].

Section ExportCommand.
(** The SSH library, keys, encoders and clock of the export. *)
Context (ReadKey : string -> nat -> string -> result string buf) (ParsePrivateKey : buf -> bool).
Context (Dial : string -> nat -> Client -> option string)
        (open_session : string -> nat -> Client -> string -> session)
        (close_client : nat -> Client -> option string) (clock : nat -> GoTime).
Context (knownhosts_New : string -> option string).
Context (sha256 : buf -> buf) (marshal_manifest : Manifest -> result string buf)
        (marshal_summary : Summary -> result string buf) (zip_write : list zip_entry -> result string buf)
        (marshal_audit : AuditRecord -> result string buf).
Context (decode : buf -> result string ExportConfig).
(** The texts of errors, and [strconv.Quote]. *)
Context (Error : ExportError -> string) (Quote : string -> string).
(** The version of the build, the environment, and the time of the log lines. *)
Context (HostVersion : string) (Getenv : string -> string) (t : GoTime).

Definition flag_error (e : FlagError) : string :=
  match e with
  | BadSyntax arg => "bad flag syntax: " +:+ arg
  | NotDefined name => "flag provided but not defined: -" +:+ name
  | HelpRequested => "flag: help requested"
  | NeedsArgument name => "flag needs an argument: -" +:+ name
  | InvalidBool value name => "invalid boolean value " +:+ Quote value +:+ " for -" +:+ name +:+ ": parse error"
  end.

Abbreviation run_export := (RunExportWithSSH ReadKey ParsePrivateKey Dial open_session close_client clock
  knownhosts_New sha256 marshal_manifest marshal_summary zip_write marshal_audit).

Definition exit_with (code : Z) (err : string) (log : list string) : CliRun :=
  {| cl_code := code; cl_stdout := ErrorJSON err; cl_log := log |}.

(** Without a result and without an error the command would panic, whose exit
    code is 2. *)
Definition runExportBrocadeBundleCLI (args : list string) : M (World dispatchRunner) CliRun :=
  let audit := InitAuditLogger HostVersion (Getenv "LOG_FORMAT") (configLevel (Getenv "LOG_LEVEL")) in
  match Parse export_flag_set args with
  | Err e => mret (exit_with 2 (flag_error e) [])
  | Ok (vals, _) =>
      let configPath := string_flag vals "config" "" in
      let outDir := string_flag vals "out" "" in
      if String.eqb configPath "" then mret (exit_with 2 "--config is required" [])
      else
      loaded ← gets (fun w => LoadConfig decode configPath (w_fs w));
      match loaded with
      | Err e => mret (exit_with 1 (Error e) [])
      | Ok cfg =>
          r ← run_export (with_out outDir cfg) (cli_request configPath);
          mret match r with
          | (_, Some e) =>
              exit_with 1 (Error e)
                (AuditLog.Error t audit "brocade.export" "Local Brocade evidence-bundle export failed" [Err_ (Some (Error e))])
          | (Some res, None) =>
              {| cl_code := 0; cl_stdout := ResultJSON res;
                 cl_log := Info t audit "brocade.export" "Local Brocade evidence-bundle export completed"
                             (success_fields res) |}
          | (None, None) => {| cl_code := 2; cl_stdout := ""; cl_log := [] |}
          end
      end
  end.
End ExportCommand.
