(* ===== verification/CommandLineProps.v ===== *)
(** Properties of the command lines: every setting of the target commands can be
    given on the command line, and the export command keeps the contract of its
    exit codes. *)
From S2P Require Import Prelude GoStrings GoPath GoFlag GoJson GoJsonProps Store TargetConfig TargetProbe BrocadeRest.
From S2P Require Import WizardTerminal Wizard EvidenceBundle BrocadeCli BrocadeExport BrocadeExportProps LocalDB AuditLog CommandLine.
From Stdlib Require Import Ascii.

Local Open Scope Z_scope.

(** ** Flags *)

(** The flags as arguments. *)
Definition flag_arguments (f : Flags) : list string :=
  map given
    [("config-dir", fl_configDir f); ("profile", fl_profile f); ("target-id", fl_targetID f);
     ("state-dir", fl_stateDir f); ("y", if fl_nonInteractive f then "true" else "false");
     ("key-algo", fl_keyAlgo f); ("import-existing", fl_importExisting f)].

Ltac plain_names :=
  repeat match goal with
         | |- Forall _ _ => constructor
         | |- _ /\ _ => split
         | |- plain_name _ => apply plain_checked; reflexivity
         | |- exists k, _ => eexists
         | |- _ !! _ = Some _ => reflexivity
         end; try exact I.

(** Any flags can be given, whatever bytes their values hold. *)
Lemma configure_flags_given f : configure_flags (flag_arguments f) = Some f.
Proof.
  unfold configure_flags, flag_arguments, Parse. rewrite parse_given.
  - destruct f as [a b c d [] e g]; reflexivity.
  - plain_names. simpl. destruct (fl_nonInteractive f); auto.
Qed.

Lemma probe_flags_given configDir profile targetID :
  probe_flags (map given [("config-dir", configDir); ("profile", profile); ("target-id", targetID)])
  = Some (configDir, profile, targetID).
Proof. unfold probe_flags, Parse. rewrite parse_given; [reflexivity|plain_names]. Qed.

(** A flag that does not exist is an error, so nothing is run. *)
Lemma unknown_flag_refused : configure_flags ["--profile"; "p"; "--force"] = None.
Proof. reflexivity. Qed.

(** A hint is printed for every status but the good one. *)
Lemma hint_for_every_problem s : s <> TargetConfigInvalidID -> (printDoctorHint s = None <-> s = TargetConfigOK).
Proof. by destruct s. Qed.

(** ** The printed objects *)

(** The error text of the printed object is the error. *)
Lemma error_json_read e :
  exists start, String.length start = 28%nat
    /\ ErrorJSON e = start +:+ str (json_string e) +:+ newline +:+ "}"
    /\ read_string (json_string e ++ bytes (newline +:+ "}")) = Some (valid_text e, bytes (newline +:+ "}")).
Proof.
  eexists (str (["{"%char] ++ indented_member ("ok", JBool false) ++ [","%char; chr 10] ++ bytes "  "
                ++ json_string "error" ++ bytes ": ")).
  split; [vm_compute; reflexivity|]. split; [|apply read_json_string].
  unfold ErrorJSON, MarshalIndent. apply bytes_inj. rewrite !bytes_app, !bytes_str. cbn [map comma_separated].
  unfold indented_member at 2. cbn [fst snd json_value]. rewrite <- !app_assoc. reflexivity.
Qed.

(** ** The export command *)

Section ExportCommand.
Context (ReadKey : string -> nat -> string -> result string buf) (ParsePrivateKey : buf -> bool).
Context (Dial : string -> nat -> Client -> option string)
        (open_session : string -> nat -> Client -> string -> session)
        (close_client : nat -> Client -> option string) (clock : nat -> GoTime).
Context (knownhosts_New : string -> option string).
Context (sha256 : buf -> buf) (marshal_manifest : Manifest -> result string buf)
        (marshal_summary : Summary -> result string buf) (zip_write : list zip_entry -> result string buf)
        (marshal_audit : AuditRecord -> result string buf).

Abbreviation run_export := (RunExportWithSSH ReadKey ParsePrivateKey Dial open_session close_client clock
  knownhosts_New sha256 marshal_manifest marshal_summary zip_write marshal_audit).

(** [RunExport] over the runners of the configuration. *)
Lemma RunExportWithSSH_spec cfg req (w : World dispatchRunner) : fs_readable (w_fs w) = true ->
  (forall e, Validate cfg = Err e -> run_export cfg req w = ((None, Some e), w))
  /\ artifact_written sha256 marshal_audit (EffectiveArtifactDir cfg) (fs_files (w_fs w))
       (fs_files (w_fs (exec (run_export cfg req) w))) (fst (run_export cfg req w))
  /\ (forall res, fst (fst (run_export cfg req w)) = Some res ->
        exists mode, w_dirs (exec (run_export cfg req) w) !! EffectiveArtifactDir cfg = Some mode
                     /\ world_writable mode = false).
Proof.
  intros Hread. unfold RunExportWithSSH. destruct (Validate cfg) as [u|e0] eqn:Ev.
  2:{ split; [by intros e [= ->]|]. split; [by apply artifact_refused|done]. }
  split; [done|]. destruct (fold_result _ _ _) as [d|e]; [|split; [by apply artifact_refused|done]].
  rewrite exec_bind, fst_bind. destruct (on_runner_run (fun _ => (tt, d)) w) as [A1 A2].
  set (w1 := exec (on_runner _) w) in *. rewrite <- A1. rewrite <- A1 in Hread. clearbody w1. clear A1 A2 w.
  rewrite exec_bind, fst_bind.
  set (m := RunExport _ _ _ _ _ _ _ _).
  destruct (export_safe sha256 marshal_manifest marshal_summary zip_write marshal_audit cfg
    (Some (dispatch_Run ReadKey ParsePrivateKey Dial open_session clock)) req w1 Hread) as (_ & B & C).
  fold m in B, C. set (w2 := exec m w1) in *. set (r := fst (m w1)) in *. clearbody w2 r.
  rewrite exec_bind, fst_bind. destruct (on_runner_run (modify (closeAll close_client)) w2) as [D1 D2].
  set (w3 := exec (on_runner _) w2) in *. cbn [mret M_ret exec fst snd].
  change (snd (r, w3)) with w3. by rewrite D1, D2.
Qed.

Context (decode : buf -> result string ExportConfig) (Error : ExportError -> string) (Quote : string -> string).
Context (HostVersion : string) (Getenv : string -> string) (t : GoTime).

Abbreviation cli := (runExportBrocadeBundleCLI ReadKey ParsePrivateKey Dial open_session close_client clock
  knownhosts_New sha256 marshal_manifest marshal_summary zip_write marshal_audit decode Error Quote HostVersion Getenv t).

(** The configuration that a command line names. *)
Definition configured (args : list string) (f : FS) : option (result ExportError ExportConfig) :=
  match Parse export_flag_set args with
  | Err _ => None
  | Ok (vals, _) =>
      if String.eqb (string_flag vals "config" "") "" then None
      else Some (match LoadConfig decode (string_flag vals "config" "") f with
                 | Err e => Err e
                 | Ok c => Ok (with_out (string_flag vals "out" "") c)
                 end)
  end.

(** The four ways in which the command ends. *)
Lemma cli_cases args (w : World dispatchRunner) :
  match configured args (w_fs w) with
  | None => exists msg, cli args w = (exit_with 2 msg [], w)
  | Some (Err e) => cli args w = (exit_with 1 (Error e) [], w)
  | Some (Ok cfg) => exists req,
      exec (cli args) w = exec (run_export cfg req) w
      /\ match fst (run_export cfg req w) with
         | (_, Some e) => exists log, fst (cli args w) = exit_with 1 (Error e) log
         | (Some res, None) => exists log,
             fst (cli args w) = {| cl_code := 0; cl_stdout := ResultJSON res; cl_log := log |}
         | (None, None) => fst (cli args w) = {| cl_code := 2; cl_stdout := ""; cl_log := [] |}
         end
  end.
Proof.
  unfold configured, runExportBrocadeBundleCLI. destruct (Parse export_flag_set args) as [[vals rest]|e]; [|by eexists].
  destruct (String.eqb _ ""); [by eexists|]. set (path := string_flag vals "config" "").
  destruct (LoadConfig decode path (w_fs w)) as [c|e] eqn:El.
  2:{ unfold mbind, M_bind, gets. by rewrite El. }
  set (cfg := with_out _ c). set (req := cli_request path).
  exists req. unfold exec, mbind, M_bind, gets. rewrite El. fold cfg. fold req.
  destruct (run_export cfg req w) as [[[res|] [e|]] w']; cbn [fst snd]; split; try done; by eexists.
Qed.

(** C25: the export command keeps the contract of its exit codes.  It ends with 2
    exactly for an unusable command line and then touches nothing; a
    configuration that can not be loaded or does not pass the checks, in
    particular one that does not enable exports, gives 1 and touches nothing.
    With 0 it prints the result of a bundle that is on disk under the printed
    path with the printed hash, in the directory the command line or the
    configuration names, which is not world-writable, and recorded in the audit
    log.  With 1 it prints the error.  No file that was there before is lost or
    changed, the audit log apart. *)
Theorem export_command args (w : World dispatchRunner) (Hread : fs_readable (w_fs w) = true) :
  let r := fst (cli args w) in
  let w' := exec (cli args) w in
  (cl_code r = 2 <-> configured args (w_fs w) = None)
  /\ (cl_code r = 2 -> w' = w)
  /\ (forall e, configured args (w_fs w) = Some (Err e) -> r = exit_with 1 (Error e) [] /\ w' = w)
  /\ (forall cfg, configured args (w_fs w) = Some (Ok cfg) ->
        (forall e, Validate cfg = Err e -> cl_code r = 1 /\ cl_stdout r = ErrorJSON (Error e) /\ w' = w)
        /\ (cl_code r = 1 -> exists e, cl_stdout r = ErrorJSON (Error e))
        /\ (cl_code r = 0 -> exists res, cl_stdout r = ResultJSON res
              /\ artifact_written sha256 marshal_audit (EffectiveArtifactDir cfg) (fs_files (w_fs w))
                   (fs_files (w_fs w')) (Some res, None)
              /\ exists mode, w_dirs w' !! EffectiveArtifactDir cfg = Some mode /\ world_writable mode = false)
        /\ (forall p x, fs_files (w_fs w) !! p = Some x -> p <> audit_path (EffectiveArtifactDir cfg) ->
              fs_files (w_fs w') !! p = Some x)).
Proof.
  cbv zeta. pose proof (cli_cases args w) as H. destruct (configured args (w_fs w)) as [[cfg|e]|].
  - destruct H as (req & -> & H). destruct (RunExportWithSSH_spec cfg req w Hread) as (Hv & Ha & Hd).
    assert (Hv' : forall e, Validate cfg = Err e ->
      fst (run_export cfg req w) = (None, Some e) /\ exec (run_export cfg req) w = w).
    { intros e He. unfold exec. by rewrite (Hv e He). }
    clear Hv. set (r0 := fst (run_export cfg req w)) in *. set (w0 := exec (run_export cfg req) w) in *.
    clearbody r0 w0. destruct r0 as [[res|] [e|]]; [| | |destruct (aw_answers _ _ _ _ _ _ Ha) as [E|E]; by destruct E];
      destruct H as [log ->]; (split; [split; discriminate|]); (split; [discriminate|]); (split; [discriminate|]);
      intros cfg' [= <-]; (split; [|split; [|split; [|apply Ha]]]);
      try (intros e' He; destruct (Hv' e' He) as [[= ->] ->]; by split_and!); try discriminate; eauto.
  - unfold exec. rewrite H. split; [split; discriminate|]. split; [discriminate|].
    split; [by intros e' [= ->]|discriminate].
  - destruct H as [msg H]. unfold exec. rewrite H. split; [by split|]. split; [done|]. split; discriminate.
Qed.
End ExportCommand.

(** A switch that refuses every session, with exports enabled or not. *)
Definition toy_cli (enabled : bool) : M (World dispatchRunner) CliRun :=
  runExportBrocadeBundleCLI (fun _ _ _ => Ok []) (fun _ => true) (fun _ _ _ => None)
    (fun _ _ _ _ => SessionError "refused") (fun _ _ => None) (fun _ => Second) (fun _ => None) (fun b => b)
    (fun _ => Ok []) (fun _ => Ok []) (fun _ => Ok []) (fun _ => Ok [])
    (fun _ => Ok (toy_config enabled)) (fun e => match e with ErrCapabilityDisabled => "disabled" | _ => "other" end)
    (fun s => s) "0.7.0" (fun _ => "") Second ["--config"; "c.json"; "-out=/b"].
Definition toy_disk : World dispatchRunner :=
  Build_World (Build_FS {[ "c.json" := [] ]} true (fun _ => IoOk) (fun _ => []) 0) ∅ (fun _ => Second) 0 no_runners.

Lemma export_command_witness :
  cl_code (fst (toy_cli false toy_disk)) = 1 /\ exec (toy_cli false) toy_disk = toy_disk
  /\ exists res, cl_stdout (fst (toy_cli true toy_disk)) = ResultJSON res
       /\ fs_files (w_fs (exec (toy_cli true) toy_disk)) !! er_Path res <> None.
Proof.
  pose proof (fun en => export_command (fun _ _ _ => Ok []) (fun _ => true) (fun _ _ _ => None)
    (fun _ _ _ _ => SessionError "refused") (fun _ _ => None) (fun _ => Second) (fun _ => None) (fun b => b)
    (fun _ => Ok []) (fun _ => Ok []) (fun _ => Ok []) (fun _ => Ok [])
    (fun _ => Ok (toy_config en)) (fun e => match e with ErrCapabilityDisabled => "disabled" | _ => "other" end)
    (fun s => s) "0.7.0" (fun _ => "") Second ["--config"; "c.json"; "-out=/b"] toy_disk eq_refl) as H.
  destruct (H false) as (_ & _ & _ & H0). destruct (H true) as (_ & _ & _ & H1).
  specialize (H0 _ eq_refl). specialize (H1 _ eq_refl).
  destruct H0 as [H0 _]. destruct (H0 ErrCapabilityDisabled eq_refl) as (A & _ & B).
  split; [exact A|]. split; [exact B|]. destruct H1 as (_ & _ & H1 & _).
  destruct H1 as (res & E & Hw & _); [vm_compute; reflexivity|]. exists res. split; [exact E|].
  destruct (aw_artifact _ _ _ _ _ _ Hw res eq_refl) as (_ & zip & Hz & _). intros Hn.
  pose proof (eq_trans (eq_sym Hn) Hz) as Hc. discriminate Hc.
Defined.
