(* ===== verification/Diagnostics.v ===== *)
(** What the agent reports about itself: the permission diagnostics of the store
    ([src/store.go]), the metrics summary and its log lines ([src/metrics.go]),
    and the description of a TLS policy ([src/httputil.go]). *)
From S2P Require Import Prelude GoStrings GoPath GoTime Types Policy Metrics LocalDB AuditLog.
From Stdlib Require Import Ascii QArith.

Local Open Scope Z_scope.

(** ** Mounts *)

(** [strings.Fields] on ASCII text. *)
Fixpoint fields_from (word : string) (s : string) : list string :=
  match s with
  | EmptyString => if String.eqb word "" then [] else [word]
  | String c rest =>
      if is_space c then (if String.eqb word "" then [] else [word]) ++ fields_from "" rest
      else fields_from (word +:+ String c "") rest
  end.
Definition Fields (s : string) : list string := fields_from "" s.

(** The longest mount point that is a prefix of the path, with its type. *)
Definition best_mount (path : string) (best : string * string) (line : string) : string * string :=
  match Fields line with
  | _ :: mountPoint :: fsType :: _ =>
      if HasPrefix path mountPoint && (String.length (fst best) <? String.length mountPoint)%nat
      then (mountPoint, fsType) else best
  | _ => best
  end.

(** [mounts] is the content of [/proc/mounts], when it can be read. *)
Definition detectMountType (mounts : option string) (path : string) : string :=
  match mounts with
  | None => "unknown (cannot read /proc/mounts)"
  | Some data =>
      let '(bestMount, bestFsType) := foldl (best_mount path) ("", "") (Split data (chr 10)) in
      if String.eqb bestMount "" then "unknown"
      else if String.eqb bestFsType "overlay" then "named volume (overlay)"
      else if String.eqb bestMount path || HasPrefix path (bestMount +:+ "/") then "bind mount (" +:+ bestFsType +:+ ")"
      else bestFsType
  end.

(** The events, or the lines of package [log] while there is no audit logger. *)
Inductive diagnostic : Type :=
| AuditError (msg : string) (fields : list Field)
| LogLine (text : string).
Definition logMountDiagnostics (hasAudit : bool) (uid gid : Z) (configDir : string) (mounts : option string)
    (failPath : string) : list diagnostic :=
  let mountType := detectMountType mounts failPath in
  if hasAudit then
    [AuditError "Permission diagnostics"
       [F "uid" (FInt uid); F "gid" (FInt gid); F "path" (FString failPath); F "mount_type" (FString mountType)];
     if String.eqb mountType "bind mount" then
       AuditError "Fix: chown or switch to named volume"
         [F "suggested_cmd" (FString ("sudo chown -R " +:+ pretty uid +:+ ":" +:+ pretty gid +:+ " " +:+ configDir))]
     else
       AuditError "Fix: recreate named volume"
         [F "suggested_cmd" (FString "docker volume rm filterrex-config && docker compose up -d")]]
  else
    [LogLine "[store] ── Permission diagnostics ──";
     LogLine ("[store]   Process UID: " +:+ pretty uid +:+ "  GID: " +:+ pretty gid);
     LogLine ("[store]   Path tested: " +:+ failPath);
     LogLine ("[store]   Mount type:  " +:+ mountType)].

(** ** Metrics *)

Record MetricsSummary : Type := {
  sm_Uptime : string;
  sm_UploadsTotal : Z;
  sm_UploadsSuccess : Z;
  sm_UploadsFailed : Z;
  sm_UploadsDropped : Z;
  sm_UploadBytesMB : Q;
  sm_QueueDepth : Z;
  sm_Targets : gmap string CollectionMetrics;
}.

(** [Duration.Round] for a positive unit, half away from zero; a result beyond
    the largest duration is the largest one. *)
Definition Round (d m : Duration) : Duration :=
  let r := Z.rem d m in
  if d <? 0 then
    let r := - r in
    if 2 * r <? m then d + r
    else let d1 := wrap64 (d - m + r) in if d1 <? d then d1 else int64_min
  else
    if 2 * r <? m then d - r
    else let d1 := wrap64 (d + m - r) in if d <? d1 then d1 else int64_max.

(** [float64(n)/d] for a power of two [d] is exact below 2^53. *)
Definition per (n : Z) (d : positive) : Q := n # d.
Definition Summary (now bootTime : GoTime) (m : MetricsRegistry) : MetricsSummary :=
  {| sm_Uptime := Duration_String (Round (Sub now bootTime) Second);
     sm_UploadsTotal := mr_uploadsTotal m; sm_UploadsSuccess := mr_uploadsSuccess m;
     sm_UploadsFailed := mr_uploadsFailed m; sm_UploadsDropped := mr_uploadsDropped m;
     sm_UploadBytesMB := per (mr_uploadBytesTotal m) 1048576;
     sm_QueueDepth := mr_queueDepth m; sm_Targets := mr_collections m |}.

(** The verb [%.1f] of a rational that is not negative: one digit after the
    point, rounded to even. *)
Definition one_decimal (q : Q) : string :=
  let n := 10 * Qnum q in
  let d := Zpos (Qden q) in
  let lo := n / d in
  let twice := 2 * (n mod d) in
  let tenths := if (d <? twice) || ((twice =? d) && Z.odd lo) then lo + 1 else lo in
  pretty (tenths / 10) +:+ "." +:+ pretty (tenths mod 10).

(** The line of a tick of the metrics logger. *)
Definition summary_line (s : MetricsSummary) : string :=
  "[metrics] uptime=" +:+ sm_Uptime s +:+ " uploads=" +:+ pretty (sm_UploadsSuccess s) +:+ "/"
  +:+ pretty (sm_UploadsFailed s) +:+ "/" +:+ pretty (sm_UploadsDropped s) +:+ " (ok/fail/drop) queue="
  +:+ pretty (sm_QueueDepth s) +:+ " bytes=" +:+ one_decimal (sm_UploadBytesMB s) +:+ "MB".
Definition target_line (cm : CollectionMetrics) : string :=
  "[metrics] target=" +:+ cm_TargetName cm +:+ " type=" +:+ cm_TargetType cm +:+ " status=" +:+ cm_LastStatus cm
  +:+ " cycles=" +:+ pretty (cm_TotalCycles cm) +:+ " errors=" +:+ pretty (cm_TotalErrors cm)
  +:+ " partial=" +:+ pretty (cm_TotalPartial cm)
  +:+ " avg=" +:+ Duration_String (Round (cm_AvgDuration cm) Millisecond)
  +:+ " last=" +:+ Duration_String (Round (cm_LastDuration cm) Millisecond)
  +:+ " payload=" +:+ one_decimal (per (cm_LastPayloadBytes cm) 1024) +:+ "KB subcalls="
  +:+ pretty (Z.of_nat (length (cm_SubCalls cm))).
(** In the order of ranging over the map. *)
Definition DumpTargetSummary (m : MetricsRegistry) : list string :=
  map (fun e => target_line (snd e)) (map_to_list (mr_collections m)).
Definition metrics_tick (now bootTime : GoTime) (m : MetricsRegistry) : list string :=
  summary_line (Summary now bootTime m) :: DumpTargetSummary m.
(** The dump at the end; [marshal] is the JSON encoder. *)
Definition DumpToLog (marshal : MetricsSummary -> result string string) (now bootTime : GoTime) (m : MetricsRegistry)
    : list string :=
  match marshal (Summary now bootTime m) with
  | Err e => ["[metrics] Failed to marshal summary: " +:+ e]
  | Ok data => ["[metrics] " +:+ data]
  end.

(** ** TLS policies in words *)

Definition tlsMaxVersionLabel (policy : string) : string :=
  if String.eqb (NormalizeTLSPolicy policy) TLSPolicyFOS82Legacy then "TLS1.2" else "TLS1.3".

(** [tls.CipherSuiteName] on the suites of the policies. *)
Definition CipherSuiteName (id : Z) : string :=
  if id =? 0xc013 then "TLS_ECDHE_RSA_WITH_AES_128_CBC_SHA"
  else if id =? 0xc014 then "TLS_ECDHE_RSA_WITH_AES_256_CBC_SHA"
  else if id =? 0xc027 then "TLS_ECDHE_RSA_WITH_AES_128_CBC_SHA256"
  else if id =? 0x003c then "TLS_RSA_WITH_AES_128_CBC_SHA256"
  else if id =? 0x002f then "TLS_RSA_WITH_AES_128_CBC_SHA"
  else if id =? 0x0035 then "TLS_RSA_WITH_AES_256_CBC_SHA"
  else "0x" +:+ str (hex_byte (id / 256) ++ hex_byte (id mod 256)).
Definition describeCipherSuites (policy : string) : string :=
  match tlsConfigForPolicy (NormalizeTLSPolicy policy) false with
  | Err _ => "(go defaults)"
  | Ok cfg =>
      match tc_CipherSuites cfg with
      | [] => "(go defaults)"
      | ids => Join (map CipherSuiteName ids) ","
      end
  end.
Definition describeUnsupportedLegacyCipherSuites (policy : string) : string :=
  if negb (String.eqb (NormalizeTLSPolicy policy) TLSPolicyFOS82Legacy) then ""
  else "TLS_RSA_WITH_AES_256_CBC_SHA256 (0x003D; not implemented by Go crypto/tls)".

(** The client of a target: TLS, proxy ([None]: from the environment) and
    timeout. *)
Record HTTPClient : Type := {
  hc_TLS : tls_config;
  hc_ProxyURL : option string;
  hc_Timeout : Duration;
}.
(** [valid_url]: the URL parser accepts the text. *)
Definition NewHTTPClient (valid_url : string -> bool) (tlsCfg : option TLSConfig) (proxy : option ProxyConfig)
    (timeout : Duration) : HTTPClient :=
  {| hc_TLS := client_tls tlsCfg;
     hc_ProxyURL := match client_proxy proxy with Some u => if valid_url u then Some u else None | None => None end;
     hc_Timeout := timeout |}.
Definition NewHTTPClientFromProfile (valid_url : string -> bool) (profile : TargetProfile) (timeout : Duration)
    : HTTPClient :=
  NewHTTPClient valid_url (Some (tp_TLS profile)) (Some (tp_Proxy profile)) timeout.

(** ** Facts *)

(** Text without white space. *)
Definition solid (s : string) : Prop := Forall (fun c => is_space c = false) (bytes s).

Lemma fields_solid s : forall word, solid word -> Forall solid (fields_from word s).
Proof.
  induction s as [|c s IH]; intros word Hw; simpl.
  - destruct (String.eqb word ""); by repeat constructor.
  - destruct (is_space c) eqn:Ec.
    + apply Forall_app. split; [destruct (String.eqb word ""); by repeat constructor|]. by apply IH; constructor.
    + apply IH. unfold solid. rewrite bytes_app, Forall_app. split; [done|]. by repeat constructor.
Qed.

Lemma best_mount_solid path best line : solid (snd best) -> solid (snd (best_mount path best line)).
Proof.
  intros H. unfold best_mount. pose proof (fields_solid line "" ltac:(constructor)) as Hf. fold (Fields line) in Hf.
  destruct (Fields line) as [|x [|m [|f rest]]]; try done. case_match; [|done].
  inversion Hf as [|? ? _ Hf1]. inversion Hf1 as [|? ? _ Hf2]. by inversion Hf2.
Qed.

(** The type of a mount is never the text "bind mount" alone, so the advice to
    change the owner is never given. *)
Lemma chown_never_suggested uid gid configDir mounts failPath fields :
  AuditError "Fix: chown or switch to named volume" fields
  ∉ logMountDiagnostics true uid gid configDir mounts failPath.
Proof.
  assert (Hm : String.eqb (detectMountType mounts failPath) "bind mount" = false).
  { apply String.eqb_neq. unfold detectMountType. destruct mounts as [data|]; [|done].
    assert (Hs : forall l best, solid (snd best) -> solid (snd (foldl (best_mount failPath) best l))).
    { induction l as [|x l IH]; intros best Hb; [done|]. simpl. by apply IH, best_mount_solid. }
    specialize (Hs (Split data (chr 10)) ("", "") ltac:(constructor)).
    destruct (foldl _ _ _) as [m f]. simpl in Hs. destruct (String.eqb m ""); [done|].
    destruct (String.eqb f "overlay"); [done|]. destruct (_ || _); [discriminate|]. intros ->.
    unfold solid in Hs. rewrite Forall_forall in Hs. specialize (Hs " "%char ltac:(by do 4 right; left)). done. }
  unfold logMountDiagnostics. rewrite Hm. rewrite !elem_of_cons, elem_of_nil. by intros [|[|]].
Qed.

(** A mount of the directory itself. *)
Example mount_types :
  let mounts := Some ("overlay / overlay rw 0 0" +:+ newline +:+ "/dev/sda1 /etc/filterrex ext4 rw 0 0" +:+ newline) in
  detectMountType mounts "/etc/filterrex" = "bind mount (ext4)"
  /\ detectMountType mounts "/var/lib" = "named volume (overlay)"
  /\ detectMountType mounts "/etc/filterrex-other" = "ext4".
Proof. vm_compute. split_and!; reflexivity. Qed.

(** Rounding moves a duration by at most half a unit. *)
Lemma Round_near d m : 0 < m -> 0 <= d -> d + m <= int64_max ->
  (m | Round d m) /\ 2 * Z.abs (Round d m - d) <= m.
Proof.
  intros Hm Hd Hmax. unfold Round. rewrite (proj2 (Z.ltb_ge d 0)) by lia.
  rewrite Z.rem_mod_nonneg by lia. pose proof (Z.mod_pos_bound d m Hm) as Hr. pose proof (Z.div_mod d m ltac:(lia)) as E.
  set (r := d mod m) in *. destruct (Z.ltb_spec (2 * r) m) as [H|H].
  - split; [exists (d / m); lia|lia].
  - unfold int64_max in Hmax. assert (Ew : wrap64 (d + m - r) = d + m - r) by (apply wrap64_id; unfold in_int64, int64_min, int64_max; lia).
    rewrite Ew, (proj2 (Z.ltb_lt d (d + m - r))) by lia. split; [exists (d / m + 1); lia|lia].
Qed.

(** Connections are reused between equal effective configurations: equal ones
    give the same TLS settings. *)
Lemma equal_configs_same_tls server_name p p' :
  effectiveTLSConfigsEqual (effectiveTLSConfigFromProfile server_name p) (effectiveTLSConfigFromProfile server_name p') = true ->
  client_tls (Some (tp_TLS p)) = client_tls (Some (tp_TLS p')).
Proof.
  unfold effectiveTLSConfigsEqual. rewrite bool_decide_eq_true. unfold effectiveTLSConfigFromProfile.
  unfold client_tls. intros [= E1 _ _ _ _ _ E2]. rewrite E1 in E2 |- *. f_equal. revert E2.
  unfold tlsConfigForPolicy, NormalizeTLSPolicy. destruct (String.eqb (tls_Policy (tp_TLS p')) TLSPolicyFOS82Legacy); simpl;
    intros ->; done.
Qed.

(** The certificate files of a target have no effect on its client. *)
Lemma client_ignores_certificates c c' :
  tls_Policy c = tls_Policy c' -> tls_InsecureSkipVerify c = tls_InsecureSkipVerify c' ->
  client_tls (Some c) = client_tls (Some c').
Proof. unfold client_tls. by intros -> ->. Qed.
