(* ===== verification/LanOnly.v ===== *)
(** LAN-only mode across the components: the flag of every worker is the
    setting of the host, in every history of the supervisor and of the desired
    state; what a LAN-only host then sends; and what still leaves it. *)
From S2P Require Import Prelude GoStrings Types Metrics UploadQueue UploadSystem LocalDB Interfaces Readiness Store.
From S2P Require Import Worker WorkerProps SupervisorWorkers Supervisor SupervisorProps Policy DesiredState DesiredStateProps EvidenceWiring Capabilities CapabilitiesProps.

Local Open Scope Z_scope.

(** What the operations of a worker do to its flag. *)
Class WorkerFlags (Wk : Type) `{!WorkerOps Wk} : Prop := {
  Launch_flag p c tok b : w_LanOnly (w_Launch p c tok b) = b;
  Pause_flag w w' : w_Pause w = Some w' -> w_LanOnly w' = w_LanOnly w;
  Restart_flag w w' : w_Restart w = Some w' -> w_LanOnly w' = w_LanOnly w;
  setStatus_flag st w : w_LanOnly (w_setStatus st w) = w_LanOnly w;
  SetLanOnly_flag b w : w_LanOnly (w_SetLanOnly b w) = b;
}.

Section Flags.
Context {Wk St Cmd : Type} `{!WorkerOps Wk, !StoreOps St, HWF : !WorkerFlags Wk}.
Implicit Types s : Supervisor (Wk:=Wk) (St:=St).
Implicit Types m : SyncManager (Wk:=Wk) (St:=St) (Cmd:=Cmd).

(** Every worker has the flag of the host. *)
Definition flags_agree s : Prop :=
  forall id w, sv_workers s !! id = Some w -> w_LanOnly w = lan_only (sv_state s).

(** An operation that leaves the setting alone and keeps the agreement. *)
Record keep s s' : Prop := {
  kp_setting : lan_only (sv_state s') = lan_only (sv_state s);
  kp_flags : flags_agree s -> flags_agree s';
}.
#[local] Instance keep_preorder : PreOrder keep.
Proof. split; [by split|]. intros a b c [H1 H2] [H3 H4]. split; [congruence|auto]. Qed.

(** The workers stay or go. *)
Lemma keep_sub s s' : lan_only (sv_state s') = lan_only (sv_state s) -> sv_workers s' ⊆ sv_workers s -> keep s s'.
Proof. intros E H. split; [done|]. intros Ha id w Hw. rewrite E. apply (Ha id). by eapply lookup_weaken. Qed.

Lemma keep_same s s' : lan_only (sv_state s') = lan_only (sv_state s) -> sv_workers s' = sv_workers s -> keep s s'.
Proof. intros E H. apply keep_sub; [done|]. by rewrite H. Qed.

(** One worker is put into the table with the right flag. *)
Lemma keep_put s s' id w : lan_only (sv_state s') = lan_only (sv_state s) ->
  sv_workers s' = <[id := w]> (sv_workers s) -> (flags_agree s -> w_LanOnly w = lan_only (sv_state s)) -> keep s s'.
Proof.
  intros E H Hw. split; [done|]. intros Ha i v. rewrite H, E.
  intros [[<- <-]|[_ Hl]]%lookup_insert_Some; [by apply Hw|by apply (Ha i)].
Qed.

Lemma stop_worker_keep id s s' : stop_worker id s = Some s' -> keep s s'.
Proof.
  unfold stop_worker. destruct (sv_workers s !! id); [|by intros [= <-]].
  destruct (w_Stop _); [|done]. intros [= <-]. apply keep_sub; [done|]. apply delete_subseteq.
Qed.

Lemma pause_worker_keep id s s' : pause_worker id s = Some s' -> keep s s'.
Proof.
  unfold pause_worker. destruct (sv_workers s !! id) as [w|] eqn:Ew; [|by intros [= <-]].
  case_bool_decide; [|by intros [= <-]]. destruct (w_Pause w) as [w'|] eqn:Ep; [|done]. intros [= <-].
  eapply keep_put; [done..|]. intros Ha. rewrite (Pause_flag _ _ Ep). by apply (Ha id).
Qed.

Lemma try_start_keep h t s : hc_LanOnly (hs_Config h) = lan_only (sv_state s) -> keep s (snd (try_start t h s)).
Proof.
  intros Hh. unfold try_start, startWorkerLocked. destruct (_ && _); [done|].
  destruct (sv_adapters s !! _) as [factory|]; [|done]. destruct (negb _); [done|].
  destruct (LoadSecret _ _) as [creds|]; [|done]. simpl. eapply keep_put; [done..|].
  intros _. by rewrite Launch_flag.
Qed.

Lemma reconcile_target_keep h t s t' s' : hc_LanOnly (hs_Config h) = lan_only (sv_state s) ->
  reconcile_target h t s = Some (t', s') -> keep s s'.
Proof.
  intros Hh. unfold reconcile_target. destruct (_ || _).
  { destruct (stop_worker _ s) as [s1|] eqn:E; [|done]. intros [= <- <-].
    etransitivity; [by eapply stop_worker_keep|]. by apply keep_same. }
  destruct (tp_Paused t).
  { destruct (pause_worker _ s) as [s1|] eqn:E; [|done]. intros [= <- <-]. by eapply pause_worker_keep. }
  assert (Hstart : forall s1, keep s s1 -> try_start t h s1 = (t', s') -> keep s s').
  { intros s1 Hk E. etransitivity; [exact Hk|]. change s' with (snd (t', s')). rewrite <- E.
    apply try_start_keep. by rewrite (kp_setting _ _ Hk). }
  destruct (sv_workers s !! _) as [w|]; [|intros [= E]; by eapply (Hstart s)].
  case_bool_decide; [|intros [= <- <-]; by apply keep_same].
  destruct (match sv_failedRetryAt s !! _ with Some _ => _ | None => _ end);
    [intros [= <- <-]; by apply keep_same|].
  destruct (stop_worker _ (tick_sv s)) as [s1|] eqn:E; [|done]. intros [= Et].
  eapply Hstart; [|exact Et]. transitivity (tick_sv s); [by apply keep_same|].
  etransitivity; [by eapply stop_worker_keep|]. by apply keep_same.
Qed.

Lemma reconcile_loop_keep h ts : forall s ts' s', hc_LanOnly (hs_Config h) = lan_only (sv_state s) ->
  reconcile_loop h ts s = Some (ts', s') -> keep s s'.
Proof.
  induction ts as [|t ts IH]; intros s ts' s' Hh; simpl; [by intros [= <- <-]|].
  destruct (reconcile_target h t s) as [[t1 s1]|] eqn:E1; [|done].
  destruct (reconcile_loop h ts s1) as [[ts2 s2]|] eqn:E2; [|done]. intros [= <- <-].
  pose proof (reconcile_target_keep _ _ _ _ _ Hh E1) as Hk. etransitivity; [exact Hk|].
  eapply IH; [|exact E2]. by rewrite (kp_setting _ _ Hk).
Qed.

Lemma stop_orphans_keep ids desired : forall s s', stop_orphans ids desired s = Some s' -> keep s s'.
Proof.
  induction ids as [|id ids IH]; intros s s'; simpl; [by intros [= <-]|]. case_bool_decide; [apply IH|].
  destruct (stop_worker id s) as [s1|] eqn:E; [|done]. intros Hs%IH.
  etransitivity; [by eapply stop_worker_keep|]. transitivity (set_sv_rest (Readiness.Delete id (sv_rest s1)) s1);
    [by apply keep_same|exact Hs].
Qed.

Lemma persist_keep h s : keep s (snd (persist h s)).
Proof. unfold persist. destruct (SaveState _ _). by apply keep_same. Qed.

(** A new list of targets in the host state. *)
Lemma targets_keep h ts s s1 : sv_state s = Some h -> sv_workers s1 = sv_workers s ->
  sv_state s1 = Some (set_hs_Targets ts h) -> keep s s1.
Proof. intros E W E1. apply keep_same; [|done]. by rewrite E, E1. Qed.

Lemma Reconcile_keep s r s' : Reconcile s = Some (r, s') -> keep s s'.
Proof.
  unfold Reconcile. destruct (sv_state s) as [h|] eqn:Eh; [|by intros [= <- <-]].
  destruct (reconcile_loop _ _ s) as [[ts s1]|] eqn:E1; [|done].
  destruct (stop_orphans _ _ s1) as [s2|] eqn:E2; [|done].
  assert (K1 : keep s s1) by (eapply reconcile_loop_keep; [|exact E1]; by rewrite Eh).
  pose proof (stop_orphans_keep _ _ _ _ E2) as K2. set (h1 := set_hs_Targets ts h).
  assert (K3 : keep s2 (set_sv_state (Some h1) s2)).
  { apply keep_same; [|done]. rewrite (kp_setting _ _ K2), (kp_setting _ _ K1), Eh. done. }
  intros [= E]. change s' with (snd (r, s')). rewrite <- E.
  etransitivity; [exact K1|]. etransitivity; [exact K2|]. etransitivity; [exact K3|]. apply persist_keep.
Qed.

Lemma onWorkerStateChange_keep id st s : keep s (onWorkerStateChange id st s).
Proof.
  unfold onWorkerStateChange. destruct (sv_state s) as [h|] eqn:E; [|done].
  destruct (_ && _); by eapply targets_keep.
Qed.

Lemma deliver_keep i s : keep s (deliver i s).
Proof.
  unfold deliver. destruct (sv_pending s !! i) as [[id st]|]; [|done].
  etransitivity; [|apply onWorkerStateChange_keep]. by apply keep_same.
Qed.

Lemma AddTarget_keep p c s r s' : AddTarget p c s = Some (r, s') -> keep s s'.
Proof.
  unfold AddTarget. destruct (sv_state s) as [h|] eqn:E; [|done]. destruct (has_target _ _); [by intros [= <- <-]|].
  destruct (if bool_decide (c = ∅) then _ else _) as [[u|e] st]; [|intros [= <- <-]; by apply keep_same].
  intros H%Reconcile_keep. etransitivity; [|exact H]. by eapply targets_keep.
Qed.

Lemma UpdateTarget_keep p s r s' : UpdateTarget p s = Some (r, s') -> keep s s'.
Proof.
  unfold UpdateTarget. destruct (sv_state s) as [h|] eqn:E; [|done].
  destruct (find_target _ _) as [old|]; [|by intros [= <- <-]].
  destruct (stop_worker _ s) as [s1|] eqn:E1; [|done]. intros H%Reconcile_keep.
  pose proof (stop_worker_keep _ _ _ E1) as K1. etransitivity; [exact K1|]. etransitivity; [|exact H].
  apply keep_same; [|done]. rewrite (kp_setting _ _ K1), E. done.
Qed.

Lemma RemoveTarget_keep id s r s' : RemoveTarget id s = Some (r, s') -> keep s s'.
Proof.
  unfold RemoveTarget. destruct (sv_state s) as [h|] eqn:E; [|done].
  destruct (stop_worker _ s) as [s1|] eqn:E1; [|done]. pose proof (stop_worker_keep _ _ _ E1) as K1.
  destruct (find_target _ _) as [t|]; [|by intros [= <- <-]]. intros [= H].
  change s' with (snd (r, s')). rewrite <- H. etransitivity; [exact K1|]. etransitivity; [|apply persist_keep].
  apply keep_same; [|done]. rewrite (kp_setting _ _ K1), E. done.
Qed.

Lemma stop_all_keep ids : forall s s', stop_all ids s = Some s' -> keep s s'.
Proof.
  induction ids as [|id ids IH]; intros s s'; simpl; [by intros [= <-]|].
  destruct (stop_worker id s) as [s1|] eqn:E; [|done]. intros H%IH.
  etransitivity; [by eapply stop_worker_keep|exact H].
Qed.

Lemma Shutdown_keep s s' : Shutdown s = Some s' -> keep s s'.
Proof.
  unfold Shutdown. destruct (stop_all _ s) as [s1|] eqn:E; [|done]. apply stop_all_keep in E.
  destruct (sv_state s1); intros [= <-]; [|done]. etransitivity; [exact E|apply persist_keep].
Qed.

Lemma watchdog_apply_flag now w w' l : watchdog_apply now w = Some (w', l) -> w_LanOnly w' = w_LanOnly w.
Proof.
  unfold watchdog_apply. destruct (watchdog_verdict _ _).
  - by intros [= <- <-].
  - case_bool_decide; intros [= <- <-]; [apply setStatus_flag|done].
  - destruct (w_Restart _) as [w1|] eqn:E; [|done]. intros [= <- <-].
    by rewrite (Restart_flag _ _ E), setStatus_flag.
  - intros [= <- <-]. apply setStatus_flag.
Qed.

Lemma notify_all_keep id l s : keep s (foldl (fun s st => notify id st s) s l).
Proof.
  revert s. induction l as [|st l IH]; intros s; [done|]. simpl. etransitivity; [|apply IH]. by apply keep_same.
Qed.

Lemma watchdog_scan_keep now ids : forall s s', watchdog_scan now ids s = Some s' -> keep s s'.
Proof.
  induction ids as [|id ids IH]; intros s s'; simpl; [by intros [= <-]|].
  destruct (sv_workers s !! id) as [w|] eqn:Ew; [|apply IH].
  destruct (watchdog_apply now w) as [[w' l]|] eqn:E; [|done]. intros H%IH.
  etransitivity; [|exact H]. etransitivity; [|apply notify_all_keep]. eapply keep_put; [done..|].
  intros Ha. rewrite (watchdog_apply_flag _ _ _ _ E). by apply (Ha id).
Qed.

Lemma watchdogScan_keep s s' : watchdogScan s = Some s' -> keep s s'.
Proof. intros H%watchdog_scan_keep. etransitivity; [|exact H]. by apply keep_same. Qed.

(** A new setting reaches every worker at once. *)
Lemma applyHostConfig_flags o s : flags_agree s -> flags_agree (applyHostConfig o s).
Proof.
  intros Ha. unfold applyHostConfig. destruct (sv_state s) as [h|] eqn:E; [|done].
  destruct (_ || _) eqn:Ed; intros id w; simpl.
  - rewrite lookup_fmap, fmap_Some. intros (v & Hv & ->). unfold override_config. rewrite Ed. simpl.
    apply SetLanOnly_flag.
  - intros Hw. unfold override_config. rewrite Ed. simpl. rewrite (Ha id w Hw), E. done.
Qed.

Lemma applyHostPolicy_keep p s : keep s (applyHostPolicy p s).
Proof.
  unfold applyHostPolicy. destruct (sv_state s) as [h|] eqn:E; [|done]. destruct (String.eqb _ _); [done|].
  apply keep_same; [|done]. by rewrite E.
Qed.
End Flags.

(** ** The synchronisation *)

Section Sync.
Context {Wk St Cmd : Type} `{!WorkerOps Wk, !StoreOps St, HWF : !WorkerFlags Wk}.
Context (box_open : buf -> buf -> buf -> buf -> option buf).
Context (b64_encode : buf -> string) (b64_decode : string -> option buf).
Context (unmarshal_creds : buf -> option Creds).
Context (server_name : string -> string) (range_order : list string -> list string).
Implicit Types s : Supervisor (Wk:=Wk) (St:=St).
Implicit Types m : SyncManager (Wk:=Wk) (St:=St) (Cmd:=Cmd).

#[local] Existing Instance keep_preorder.

Lemma process_all_keep kp ds s :
  keep s (process_all box_open b64_encode b64_decode unmarshal_creds kp ds s).
Proof.
  revert s. induction ds as [|d ds IH]; intros s; [done|]. simpl. etransitivity; [|apply IH].
  destruct (processCredentials_frame box_open b64_encode b64_decode unmarshal_creds kp d s) as [st ->].
  by apply keep_same.
Qed.

Lemma apply_target_keep current d c s c' s' :
  apply_target server_name current d c s = Some (c', s') -> keep s s'.
Proof.
  assert (Ht : keep s (tick_sv s)) by by apply keep_same.
  unfold apply_target. destruct (find_target _ _) as [cur|].
  - destruct (_ || _); [|intros [= <- <-]; exact Ht].
    destruct (UpdateTarget _ _) as [[r s1]|] eqn:E; [|done]. intros [= <- <-].
    etransitivity; [exact Ht|]. by eapply UpdateTarget_keep.
  - destruct (AddTarget _ _ _) as [[r s1]|] eqn:E; [|done]. intros [= <- <-].
    etransitivity; [exact Ht|]. by eapply AddTarget_keep.
Qed.

Lemma apply_targets_keep current ds : forall c s c' s',
  apply_targets server_name current ds c s = Some (c', s') -> keep s s'.
Proof.
  induction ds as [|d ds IH]; intros c s c' s'; simpl; [by intros [= <- <-]|].
  destruct (apply_target _ _ d c s) as [[c1 s1]|] eqn:E; [|done]. intros Hs%IH.
  etransitivity; [by eapply apply_target_keep|exact Hs].
Qed.

Lemma remove_targets_keep ids desired : forall c s c' s',
  remove_targets ids desired c s = Some (c', s') -> keep s s'.
Proof.
  induction ids as [|id ids IH]; intros c s c' s'; simpl; [by intros [= <- <-]|]. case_bool_decide; [apply IH|].
  destruct (RemoveTarget id s) as [[r s1]|] eqn:E; [|done]. intros Hs%IH.
  etransitivity; [by eapply RemoveTarget_keep|exact Hs].
Qed.

Lemma applyDesiredTargets_keep ds s st s' :
  applyDesiredTargets server_name range_order ds s = Some (st, s') -> keep s s'.
Proof.
  unfold applyDesiredTargets. destruct (apply_targets _ _ ds _ s) as [[c1 s1]|] eqn:E1; [|done].
  destruct (remove_targets _ _ c1 s1) as [[c2 s2]|] eqn:E2; [|done]. intros [= <- <-].
  etransitivity; [by eapply apply_targets_keep|by eapply remove_targets_keep].
Qed.

Lemma sendAck_keep rev st m : keep (sm_sv m) (sm_sv (sendAck rev st m)).
Proof.
  unfold sendAck, send. destruct (String.eqb _ _); [done|]. destruct (sv_state (sm_sv m)) as [h|] eqn:E; [|done].
  simpl. etransitivity; [|apply persist_keep]. apply keep_same; [|done]. by rewrite E.
Qed.

Lemma delete_secrets_keep ts s : keep s (snd (delete_secrets ts s)).
Proof.
  revert s. induction ts as [|t ts IH]; intros s; [done|]. simpl.
  destruct (DeleteSecret _ _) as [r st]. specialize (IH (set_sv_store st s)).
  destruct (delete_secrets ts _) as [n s']. simpl in *. etransitivity; [|exact IH]. by apply keep_same.
Qed.

Lemma executeLocalWipe_keep s w s' : executeLocalWipe s = Some (w, s') -> keep s s'.
Proof.
  unfold executeLocalWipe. destruct (Shutdown s) as [s1|] eqn:E1; [|done]. apply Shutdown_keep in E1.
  pose proof (delete_secrets_keep (GetTargets s) s1) as K. destruct (delete_secrets _ s1) as [n s2]. simpl in K.
  destruct (sv_state s2) as [h|] eqn:E2; [|intros [= <- <-]; by etransitivity].
  pose proof (persist_keep (set_hs_Targets [] h) (set_sv_state (Some (set_hs_Targets [] h)) s2)) as P.
  destruct (persist _ _) as [[u|e] s3]; intros [= <- <-]; (etransitivity; [exact E1|]); (etransitivity; [exact K|]);
    (etransitivity; [|exact P]); (apply keep_same; [by rewrite E2|done]).
Qed.

Abbreviation fetch := (fetchAndReconcile box_open b64_encode b64_decode unmarshal_creds server_name range_order).

Lemma apply_payload_flags p m m' :
  apply_payload box_open b64_encode b64_decode unmarshal_creds server_name range_order p m = Some m' ->
  flags_agree (sm_sv m) -> flags_agree (sm_sv m').
Proof.
  unfold apply_payload. destruct (validateProfiles _) as [valid rejected].
  set (s1 := match ds_HostConfig p with Some o => _ | None => _ end).
  set (s2 := match ds_Policy p with Some hp => _ | None => _ end).
  destruct (applyDesiredTargets _ _ _ _) as [[st s4]|] eqn:E; [|done]. intros [= <-] Ha.
  assert (H1 : flags_agree s1) by (unfold s1; destruct (ds_HostConfig p); [by apply applyHostConfig_flags|done]).
  assert (H2 : flags_agree s2) by (unfold s2; destruct (ds_Policy p); [by apply applyHostPolicy_keep|done]).
  eapply kp_flags; [apply sendAck_keep|]. simpl.
  eapply kp_flags; [by eapply applyDesiredTargets_keep|]. eapply kp_flags; [apply process_all_keep|done].
Qed.

Lemma fetch_flags r m m' : fetch r m = Some m' -> flags_agree (sm_sv m) -> flags_agree (sm_sv m').
Proof.
  unfold fetchAndReconcile. destruct (String.eqb _ _); [by intros [= <-]|].
  destruct r as [e| |p]; [by intros [= <-]| |].
  - unfold maybeStatusPush, send. intros [= <-]. destruct (_ <? _); [done|]. destruct (String.eqb _ _); [done|].
    destruct (GetTargets _); [done|]. by destruct (sm_backend _ _).
  - destruct (match ds_WipeInstruction p with Some w => _ | None => _ end).
    + destruct (executeLocalWipe _) as [[w s1]|] eqn:E; [|done]. intros [= <-] Ha.
      eapply kp_flags; [apply sendAck_keep|]. unfold sendWipeAck, send.
      apply executeLocalWipe_keep in E as [_ E]. by destruct (String.eqb _ _); apply E.
    + intros H Ha. eapply apply_payload_flags; [exact H|]. by destruct (ds_PendingCommands p).
Qed.

(** ** Histories of a host *)

(** [runs] is what a worker does on its own. *)
Context (runs : Wk -> Wk -> Prop).

(** One thing that happens on the host. *)
Inductive host_step : relation (Supervisor (Wk:=Wk) (St:=St)) :=
| H_reconcile s r s' : Reconcile s = Some (r, s') -> host_step s s'
| H_add p c s r s' : AddTarget p c s = Some (r, s') -> host_step s s'
| H_update p s r s' : UpdateTarget p s = Some (r, s') -> host_step s s'
| H_remove id s r s' : RemoveTarget id s = Some (r, s') -> host_step s s'
| H_deliver i s : host_step s (deliver i s)
| H_watchdog s s' : watchdogScan s = Some s' -> host_step s s'
| H_shutdown s s' : Shutdown s = Some s' -> host_step s s'
| H_sync m r m' : fetch r m = Some m' -> host_step (sm_sv m) (sm_sv m')
| H_worker id w w' s : sv_workers s !! id = Some w -> runs w w' ->
    host_step s (set_sv_workers (<[id := w']> (sv_workers s)) s).

Lemma host_step_flags s s' : (forall w w', runs w w' -> w_LanOnly w' = w_LanOnly w) ->
  host_step s s' -> flags_agree s -> flags_agree s'.
Proof.
  intros Hr [s1 r s2 H|p c s1 r s2 H|p s1 r s2 H|id s1 r s2 H|i s1|s1 s2 H|s1 s2 H|m r m' H|id w w' s1 Hw H].
  - by eapply kp_flags, Reconcile_keep.
  - by eapply kp_flags, AddTarget_keep.
  - by eapply kp_flags, UpdateTarget_keep.
  - by eapply kp_flags, RemoveTarget_keep.
  - apply kp_flags, deliver_keep.
  - by eapply kp_flags, watchdogScan_keep.
  - by eapply kp_flags, Shutdown_keep.
  - by eapply fetch_flags.
  - eapply kp_flags. eapply keep_put; [done..|]. intros Ha. rewrite (Hr _ _ H). by apply (Ha id).
Qed.

Lemma host_steps_flags s s' : (forall w w', runs w w' -> w_LanOnly w' = w_LanOnly w) ->
  rtc host_step s s' -> flags_agree s -> flags_agree s'.
Proof. intros Hr. induction 1; [done|]. intros Ha. eauto using host_step_flags. Qed.
End Sync.

(** ** The workers *)

Section Workers.
Context {blob : Type} (seal : payload -> option blob) (json_len : payload -> option Z) (e : env) (policy : RetryPolicy).
Implicit Types d : world blob.

#[local] Instance worker_ops : WorkerOps (world blob) := workerOps e policy.

Lemma await_done_flag d : wk_lanOnly (wd_worker (snd (await_done d))) = wk_lanOnly (wd_worker d).
Proof.
  unfold await_done, gets, mbind, M_bind. simpl. destruct (wk_done _); [done|]. by destruct (wk_runs _).
Qed.

Lemma Stop_flag d d' : Stop e d = Some d' -> wk_lanOnly (wd_worker d') = wk_lanOnly (wd_worker d).
Proof.
  unfold Stop. set (p := if wk_stopped _ then _ else _).
  assert (Hp : wk_lanOnly (wd_worker (snd p)) = wk_lanOnly (wd_worker d)).
  { unfold p. destruct (wk_stopped _); [done|]. by rewrite await_done_flag. }
  destruct p as [[] d2]; [|done]. intros [= <-]. rewrite exec_bind.
  by rewrite (proj1 (keeps_setStatus e WorkerStatusStopped (exec (emit EvAdapterClose) d2))).
Qed.

#[local] Instance worker_flags : WorkerFlags (world blob).
Proof.
  split; simpl; try done.
  - intros d d'. unfold Pause. pose proof (await_done_flag (exec cancel d)) as H.
    destruct (await_done (exec cancel d)) as [[] d1]; [|done]. intros [= <-].
    by rewrite (proj1 (keeps_setStatus e WorkerStatusPaused d1)).
  - intros d d'. unfold Restart. destruct (Stop e _) as [d1|] eqn:E; [|done]. apply Stop_flag in E.
    simpl. unfold Start, gets, mbind, M_bind. simpl. intros [= <-].
    change (wk_lanOnly (wd_worker (exec (now e ≫= λ t : Z, upd_state (st_restart t)) d))) with (wk_lanOnly (wd_worker d)) in E.
    by case_bool_decide.
  - intros st d. by rewrite (proj1 (keeps_setStatus e st d)).
Qed.

(** What a worker does between the operations of the supervisor. *)
Inductive worker_runs : relation (world blob) :=
| R_init d : worker_runs d (exec (run_init e) d)
| R_initial o d : worker_runs d (exec (run_initial seal json_len e o) d)
| R_tick o d : worker_runs d (exec (run_tick seal json_len e o) d)
| R_heartbeat d : worker_runs d (exec (sendHeartbeat e) d).

Lemma worker_runs_discreet d d' : worker_runs d d' -> discreet d d'.
Proof.
  intros []; [apply keeps_run_init|apply keeps_run_initial|apply keeps_run_tick|apply keeps_sendHeartbeat].
Qed.

(** An event that takes no snapshot off the host. *)
Definition no_snapshot (ev : event) : Prop :=
  match ev with EvPost _ p _ => heartbeat_rule p | _ => True end.

End Workers.

(** ** A LAN-only host *)

(** The two targets of the demonstration supervisor on a LAN-only host, before
    and after the first reconciliation, which launches the enabled one. *)
Definition lan_host : HostState := set_hs_Config
  (Build_HostConfig "info" 2 300 "disabled" "" false 60 0 true false false) demo_host.
Definition lan_sv : Supervisor (Wk:=world payload) (St:=MemStore) :=
  Build_Supervisor (Build_MemStore {["t1" := {["password" := "x"]}]} None true) (Some lan_host)
    ∅ {["brocade" := fun _ => true]} ∅ ∅ ∅ [] (fun n => Z.of_nat n) (sv_rand demo_sv) 0.
Definition lan_reconciled : Supervisor (Wk:=world payload) (St:=MemStore) :=
  match Reconcile (WorkerOps0:=demo_ops) lan_sv with Some (_, s) => s | None => lan_sv end.

Lemma lan_launched : (wk_lanOnly ∘ wd_worker <$> sv_workers lan_reconciled !! "t1") = Some true.
Proof. by vm_compute. Qed.
Lemma lan_reconcile_step : option_map snd (Reconcile (WorkerOps0:=demo_ops) lan_sv) = Some lan_reconciled.
Proof. by vm_compute. Qed.


(** ** What still leaves the host *)

(** A LAN-only worker stores its snapshots in the local database and never
    uploads them, so their rows stay unsynced. *)
Definition lan_world : world payload :=
  {| wd_worker := set_wk_lanOnly true demo_worker; wd_metrics := NewMetricsRegistry;
     wd_db := Some demo_db; wd_queue := None; wd_next := 1; wd_tick := 0; wd_events := [] |}.
Definition lan_stored : world payload :=
  exec (store_and_upload Some (fun _ => Some 1) demo_env demo_worker [] {["type" := VString "snapshot"]}) lan_world.

Lemma lan_rows_unsynced :
  option_map (fun db => map un_ID (UnsyncedSnapshots Some 50 db)) (wd_db lan_stored) = Some ["id"]
  /\ wd_queue lan_stored = wd_queue lan_world /\ wd_events lan_stored = wd_events lan_world.
Proof. by vm_compute. Qed.

(** The uploader of that host: nothing is ever offered to it, the back end
    answers the first probe, and the reconnect callback replays. *)
Definition lan_upload : sys payload :=
  UploadSystem.Start demo_cfg (default demo_db (wd_db lan_stored)).
Definition lan_uploaded : option (sys payload) :=
  run Some Some (fun _ => 1)
    [ASetOnReconnect; AProbe true 6; AReplayStart; AReplayOne 0 7; ATop 0; ADequeue 0; APost 0 PostOk 9] lan_upload.

(** The snapshot the LAN-only worker stored is posted to the cloud by the
    replay that the first successful probe triggers. *)
Lemma lan_only_replay_leaks :
  (fun s => (h_fired (s_hist s), map (fun it => local_id (qs_Payload it)) (h_delivered (s_hist s)))) <$> lan_uploaded
  = Some (1%nat, [Some "id"]).
Proof. by vm_compute. Qed.
