(* ===== verification/Lifecycle.v ===== *)
(** What outlives a run of the process: the file of the local database
    ([src/local_db.go], [src/store.go]) over successive runs, each of which ends
    anywhere, and the draining of the workers when a run ends
    ([src/updater.go]). *)
From S2P Require Import Prelude GoStrings GoPath Types Metrics UploadQueue LocalDB UploadSystem Interfaces Supervisor SupervisorProps DesiredStateProps AuditLog.

Local Open Scope Z_scope.

(** ** The database file *)

Section File.
Context {blob : Type}.

(** The tables of the file. *)
Record DbFile : Type := {
  df_snapshots : list (snapshot_row blob);
  df_signals : list signal_row;
  df_meta : gmap string string;
}.

(** The schema: tables that exist are kept, and so is the version recorded. *)
Definition localDBSchema (f : option DbFile) : DbFile :=
  match f with
  | None => {| df_snapshots := []; df_signals := []; df_meta := {["schema_version" := "1"]} |}
  | Some f =>
      {| df_snapshots := df_snapshots f; df_signals := df_signals f;
         df_meta := match df_meta f !! "schema_version" with
                    | Some _ => df_meta f
                    | None => <["schema_version" := "1"]> (df_meta f)
                    end |}
  end.

Definition localDBFileName : string := "local.db".
Definition dsn (dir : string) : string :=
  "file:" +:+ JoinPath [dir; localDBFileName] +:+ "?_journal_mode=WAL&_foreign_keys=ON&_busy_timeout=5000".

(** How the operations on the file end: nothing for success. *)
Record OpenOutcome : Type := {
  oo_mkdir : option string;
  oo_open : option string;
  oo_schema : option string;
}.

(** [foreign_keys]: whether the driver enforces them for a data source name. *)
Definition NewLocalDB (foreign_keys : string -> bool) (o : OpenOutcome) (dir : string) (f : option DbFile)
    : result string (LocalDB blob * DbFile) :=
  match oo_mkdir o with
  | Some e => Err ("local_db: create dir: " +:+ e)
  | None =>
      match oo_open o with
      | Some e => Err ("local_db: open: " +:+ e)
      | None =>
          match oo_schema o with
          | Some e => Err ("local_db: schema init: " +:+ e)
          | None =>
              let f' := localDBSchema f in
              Ok ({| ldb_snapshots := df_snapshots f'; ldb_signals := df_signals f';
                     ldb_enabled := true; ldb_cascade := foreign_keys (dsn dir) |}, f')
          end
      end
  end.

(** The file below an open database: every statement is a transaction of its
    own, so the rows are those of the last one committed. *)
Definition file_of (f : DbFile) (d : LocalDB blob) : DbFile :=
  {| df_snapshots := ldb_snapshots d; df_signals := ldb_signals d; df_meta := df_meta f |}.

(** [Close] of a pointer that may be nil; [answer] is what the driver says. *)
Definition Close (answer : option string) (d : option (LocalDB blob)) : option string :=
  match d with
  | None => None
  | Some d => if negb (ldb_enabled d) then None else answer
  end.

(** One call of the audit logger. *)
Record LogCall : Type := { lc_Level : LogLevel; lc_Event : string; lc_Msg : string; lc_Fields : list Field }.

(** [NewStore] in hybrid mode: a database that does not open is left out. *)
Definition open_hybrid (hybridMode hasAudit : bool) (opened : result string (LocalDB blob * DbFile))
    : option (LocalDB blob) * list LogCall :=
  if negb hybridMode then (None, [])
  else match opened with
  | Err e =>
      (None, if hasAudit then
               [Build_LogCall LevelWarn "local_db.open" "Failed to open local DB — hybrid mode disabled" [Err_ (Some e)]]
             else [])
  | Ok (d, _) =>
      (Some d,
       if hasAudit then
         Build_LogCall LevelInfo "local_db.open" "Hybrid Mode enabled — local DB active" []
         :: (if 0 <? UnsyncedCount d then
               [Build_LogCall LevelInfo "local_db.open" "Unsynced snapshots pending replay on reconnect"
                  [F "count" (FInt (UnsyncedCount d))]]
             else [])
       else [])
  end.
End File.
Arguments DbFile : clear implicits.

(** ** Draining *)

Section Drain.
Context {Wk St : Type} `{!WorkerOps Wk, !StoreOps St}.
Implicit Types s : Supervisor (Wk:=Wk) (St:=St).

Inductive drain_outcome : Type := Drained | DrainTimedOut.

(** [timeout]: how many workers have stopped when the time is up, or nothing
    when the shutdown is done before.  The shutdown itself goes on. *)
Definition DrainWorkers (timeout : option nat) s : option (drain_outcome * Supervisor (Wk:=Wk) (St:=St)) :=
  match timeout with
  | None => match Shutdown s with Some s' => Some (Drained, s') | None => None end
  | Some k =>
      match stop_all (take k (fst <$> map_to_list (sv_workers s))) s with
      | Some s' => Some (DrainTimedOut, s')
      | None => None
      end
  end.

(** A drain ends: with no worker left and the state written, or at the timeout
    with the workers that had not stopped by then. *)
Lemma DrainWorkers_spec `{!WorkerLaws Wk} timeout s h : sv_wf s h ->
  exists o s', DrainWorkers timeout s = Some (o, s') /\ sv_state s' = Some h
    /\ match o with
       | Drained => sv_workers s' = ∅ /\ sv_store s' = snd (SaveState h (sv_store s))
       | DrainTimedOut => sv_store s' = sv_store s /\ sv_workers s' ⊆ sv_workers s
       end.
Proof.
  intros Hwf. destruct timeout as [k|]; simpl.
  - destruct Hwf as (Hs & _ & Hok).
    destruct (stop_all_workers (take k (fst <$> map_to_list (sv_workers s))) s Hok) as (s' & -> & (F1 & F2 & _) & L).
    exists DrainTimedOut, s'. split_and!; [done|congruence|done|].
    apply map_subseteq_spec. intros id w. rewrite L. by destruct (decide _).
  - destruct (Shutdown_spec s h Hwf) as (s' & -> & H1 & H2 & H3). by exists Drained, s'.
Qed.

(** *** A requested restart *)

Inductive restart_effect : Type :=
| RestartWaited (d : Duration)
| RestartLogged (msg : string)
| RestartTerminated.

Definition restartDrain : Duration := 15 * Second.
Definition restartFlush : Duration := 2 * Second.

(** The goroutine of [handleAgentRestart]: [timeout] as for [DrainWorkers],
    [took] the time of a drain that ends before it. *)
Definition restart_sequence (timeout : option nat) (took : Duration) s
    : option (list restart_effect * Supervisor (Wk:=Wk) (St:=St)) :=
  match DrainWorkers timeout s with
  | None => None
  | Some (o, s') =>
      Some (match o with
            | Drained => [RestartWaited took; RestartLogged "All workers stopped cleanly"]
            | DrainTimedOut =>
                [RestartWaited restartDrain;
                 RestartLogged "Worker drain timed out after 15s — proceeding with restart"]
            end ++ [RestartWaited restartFlush; RestartTerminated], s')
  end.

Definition waited (l : list restart_effect) : Duration :=
  foldr (fun e n => match e with RestartWaited d => d + n | _ => n end) 0 l.

Lemma workers_ok_submap `{!WorkerLaws Wk} s s' : workers_ok s -> sv_workers s' ⊆ sv_workers s -> workers_ok s'.
Proof. intros H Hsub id w Hw. apply (H id). by eapply lookup_weaken. Qed.

(** A restart signals the process within 17 seconds whether or not the workers
    stop, with the state kept; the shutdown that the signal sets off drains what
    is left, again within its timeout. *)
Lemma restart_ends `{!WorkerLaws Wk} timeout took timeout' s h :
  sv_wf s h -> 0 <= took <= restartDrain ->
  exists effects s1 o s2, restart_sequence timeout took s = Some (effects, s1)
    /\ last effects = Some RestartTerminated /\ waited effects <= 17 * Second
    /\ DrainWorkers timeout' s1 = Some (o, s2) /\ sv_state s2 = Some h
    /\ (o = Drained -> sv_workers s2 = ∅ /\ sv_store s2 = snd (SaveState h (sv_store s1))).
Proof.
  intros Hwf Ht. destruct (DrainWorkers_spec timeout s h Hwf) as (o & s1 & E & Hs & H).
  assert (Hwf1 : sv_wf s1 h).
  { destruct Hwf as (_ & Hn & Hok). split_and!; [done|done|].
    apply (workers_ok_submap s); [done|]. destruct o; [|by destruct H].
    destruct H as [-> _]. apply map_empty_subseteq. }
  destruct (DrainWorkers_spec timeout' s1 h Hwf1) as (o2 & s2 & E2 & Hs2 & H2).
  unfold restart_sequence. rewrite E. eexists _, s1, o2, s2. split; [reflexivity|].
  unfold restartDrain, restartFlush, Second in *.
  split_and!; [by destruct o|destruct o; cbn; lia|done|done|by intros ->].
Qed.
End Drain.

(** ** Successive runs *)

Section Runs.
Context {blob : Type} (seal : payload -> option blob) (open_blob : blob -> option payload).
Context (json_len : payload -> Z) (foreign_keys : string -> bool) (dir : string).

(** One run of the process over the file: hybrid mode is off or the database
    does not open, or it opens, the uploader takes any steps, and the process
    ends wherever it is.  [sent] is what the run delivered to the back end. *)
Inductive process_run : option (DbFile blob) -> list QueuedSnapshot -> option (DbFile blob) -> Prop :=
| run_without f : process_run f [] f
| run_with cfg o f d f1 s :
    NewLocalDB foreign_keys o dir f = Ok (d, f1) ->
    reachable seal open_blob json_len cfg d s ->
    process_run f (h_delivered (s_hist s)) (Some (file_of f1 (s_db s))).

Inductive runs : option (DbFile blob) -> list QueuedSnapshot -> option (DbFile blob) -> Prop :=
| runs_none f : runs f [] f
| runs_next f1 sent1 f2 sent2 f3 : runs f1 sent1 f2 -> process_run f2 sent2 f3 -> runs f1 (sent1 ++ sent2) f3.

Definition sent_id (sent : list QueuedSnapshot) (id : string) : Prop :=
  exists it, it ∈ sent /\ local_id (qs_Payload it) = Some id.
Definition file_rows (f : option (DbFile blob)) : list (snapshot_row blob) :=
  match f with Some f => df_snapshots f | None => [] end.

Lemma NewLocalDB_rows o f d f1 : NewLocalDB foreign_keys o dir f = Ok (d, f1) ->
  ldb_snapshots d = file_rows f /\ ldb_enabled d = true /\ df_snapshots f1 = file_rows f.
Proof. unfold NewLocalDB. repeat case_match; try done. intros [= <- <-]. by destruct f. Qed.

Lemma process_run_rows f sent f' r : process_run f sent f' -> r ∈ file_rows f' ->
  is_unsynced r \/ sent_id sent (row_id r)
  \/ exists r0, r0 ∈ file_rows f /\ row_id r0 = row_id r /\ ~ is_unsynced r0.
Proof.
  intros [f0|cfg o f0 d f1 s Hn Hr] Hin.
  - destruct (decide (is_unsynced r)); [by left|]. right. right. by exists r.
  - apply NewLocalDB_rows in Hn as (Hd & _ & _). simpl in Hin.
    pose proof (si_rows _ _ (reachable_sync _ _ _ _ _ _ Hr)) as Hs. rewrite Forall_forall in Hs.
    destruct (Hs r Hin) as [H|[H|H]]; [by left| |right; left; exact H].
    right. right. rewrite Hd in H. apply list_elem_of_fmap in H as (r0 & E & H).
    apply list_elem_of_filter in H as [H1 H2]. by exists r0.
Qed.

Lemma runs_rows sent f r : runs None sent f -> r ∈ file_rows f -> is_unsynced r \/ sent_id sent (row_id r).
Proof.
  remember None as f0 eqn:E0. intros H. revert r. induction H as [f|f1 sent1 f2 sent2 f3 _ IH Hp]; intros r Hin.
  - subst f. by apply elem_of_nil in Hin.
  - destruct (process_run_rows _ _ _ _ Hp Hin) as [?|[(it & Hi & Hl)|(r0 & Hr0 & E & Hu)]]; [by left| |].
    + right. exists it. split; [|done]. apply elem_of_app. by right.
    + destruct (IH E0 r0 Hr0) as [?|(it & Hi & Hl)]; [done|]. right. exists it. rewrite <- E. split; [|done].
      apply elem_of_app. by left.
Qed.

(** The replay of a database whose unsynced rows fit and decrypt has them all. *)
Lemma UnsyncedSnapshots_all (d : LocalDB blob) r p : ldb_enabled d = true -> UnsyncedCount d <= 50 ->
  r ∈ ldb_snapshots d -> is_unsynced r -> open_blob (row_payload_enc r) = Some p ->
  exists u, u ∈ UnsyncedSnapshots open_blob 50 d /\ un_ID u = row_id r /\ un_Payload u = p.
Proof.
  intros He Hc Hr Hu Ho. unfold UnsyncedSnapshots, UnsyncedCount in *. rewrite He in *. simpl in *.
  exists (Build_UnsyncedSnapshot (row_id r) (row_target_id r) (row_target_type r) (row_collected_at r) p).
  split_and!; [|reflexivity|reflexivity]. apply list_elem_of_omap. exists r. split.
  - rewrite take_ge.
    + rewrite (merge_sort_Permutation row_le). by apply list_elem_of_filter.
    + rewrite (Permutation_length (merge_sort_Permutation row_le _)). lia.
  - unfold unsynced_of_row. by rewrite Ho.
Qed.

End Runs.

(** ** Instances *)

(** The run of [UploadSystem.demo] on a new file, and a second run over it. *)
Definition demo_open (f : option (DbFile payload)) : result string (LocalDB payload * DbFile payload) :=
  NewLocalDB (fun _ => true) (Build_OpenOutcome None None None) "/etc/filterrex" f.
Definition demo_file : DbFile payload :=
  match demo_open None with Ok (_, f) => file_of f (s_db demo) | Err _ => Build_DbFile [] [] ∅ end.

Definition demo_reopened : LocalDB payload :=
  match demo_open (Some demo_file) with Ok (d, _) => d | Err _ => demo_db end.
Lemma demo_replay :
  (map (map un_ID) ∘ s_replays <$> step Some Some (fun _ => 1) AReplayStart (Start demo_cfg demo_reopened)) = Some [["s2"]].
Proof. by vm_compute. Qed.


(** Where the driver ignores the setting of the data source name, a retention
    run leaves the signals of the snapshots it removes behind. *)
Lemma orphaned_signals :
  match NewLocalDB (blob:=payload) (fun _ => false) (Build_OpenOutcome None None None) "/etc/filterrex" None with
  | Err _ => False
  | Ok (d, _) =>
      match WriteSnapshot Some true "s1" "t1" "brocade" 5 ∅ [Build_SnapshotSignal "k" "error" "" "" ""] d with
      | Err _ => False
      | Ok d1 =>
          let d2 := snd (RunRetention (5 + 8 * Day) 7 d1) in
          ldb_snapshots d2 = [] /\ map sr_snapshot_id (ldb_signals d2) = ["s1"]
      end
  end.
Proof. by vm_compute. Qed.
