(* ===== verification/HostReport.v ===== *)
(** What a start of the host reports and fixes: the resolved target store and
    runtime directory ([src/main.go]), the change policy
    ([src/change_policy.go]), the server name a TLS configuration is compared
    by ([src/httputil.go]), and the sync manager as it is built
    ([src/desired_state.go]). *)
From S2P Require Import Prelude GoStrings Types Interfaces Store Supervisor Policy NetAddr DesiredState.
From S2P Require Import TargetConfig Bootstrap AuditLog Lifecycle.
From Stdlib Require Import Ascii.

Local Open Scope Z_scope.

(** ** The target store *)

Definition targets_report (r : TargetConfigResolution) : list LogCall :=
  let inv := cr_Inventory r in
  let hint := targetConfigVisibilityHint (ci_DirectoryPresent inv) (ci_FilePresent inv) in
  [Build_LogCall LevelInfo "host.startup" "Brocade targets directory resolved"
     [F "source" (FString (cr_Source r)); F "path" (FString (ci_Dir inv)); F "file" (FString (ci_File inv));
      F "directory_present" (FBool (ci_DirectoryPresent inv)); F "directory_readable" (FBool (ci_DirectoryReadable inv));
      F "targets_present" (FBool (ci_FilePresent inv)); F "targets_readable" (FBool (ci_FileReadable inv));
      F "parse_successful" (FBool (ci_ParseSuccessful inv)); F "records_loaded" (FInt (ci_RecordsLoaded inv));
      F "hint" (FString hint)];
   Build_LogCall LevelInfo "brocade.targets.inventory" "Brocade target configuration inventory"
     [F "targets_dir" (FString (ci_Dir inv)); F "directory_present" (FBool (ci_DirectoryPresent inv));
      F "directory_readable" (FBool (ci_DirectoryReadable inv)); F "targets_present" (FBool (ci_FilePresent inv));
      F "targets_readable" (FBool (ci_FileReadable inv)); F "records_loaded" (FInt (ci_RecordsLoaded inv));
      F "hint" (FString hint)]]
  ++ (if String.eqb (cr_Warning r) "" then [] else
        [Build_LogCall LevelWarn "host.startup" "Brocade target configuration resolution warning"
           [F "reason" (FString (cr_Warning r)); F "selected" (FString (ci_Dir inv))]])
  ++ (if negb (ci_FilePresent inv) then
        [Build_LogCall LevelWarn "host.startup"
           "Brocade targets.json not found — SSH readiness will be empty until the secure directory is mounted and target configure is run"
           [F "path" (FString (ci_File inv)); F "source" (FString (cr_Source r)); F "hint" (FString hint)]]
      else if negb (ci_FileReadable inv) then
        [Build_LogCall LevelWarn "host.startup"
           "Brocade targets.json is present but not readable — SSH readiness cannot be published"
           [F "path" (FString (ci_File inv)); F "source" (FString (cr_Source r))]]
      else []).

(** [mkdirErr]: why the directory could not be made. *)
Definition state_dir_report (dir : string) (mkdirErr : option string) : LogCall :=
  match mkdirErr with
  | Some e =>
      Build_LogCall LevelWarn "host.startup"
        "Brocade runtime-state directory not writable — remote SSH readiness probes will fail with runtime_state_unwritable"
        [F "path" (FString dir); F "error" (FString e)]
  | None => Build_LogCall LevelInfo "host.startup" "Brocade runtime-state directory resolved" [F "path" (FString dir)]
  end.

(** The allowlist is a nil slice unless an operation was appended. *)
Definition go_slice (l : list string) : option (list string) := match l with [] => None | _ => Some l end.
Definition LogStartupSummary (c : ChangePolicyConfig) : list LogCall :=
  match cp_Policy c with
  | ChangePolicyDeny =>
      [Build_LogCall LevelInfo "change_policy.startup" "Remote change operations: DISABLED (default deny)" []]
  | ChangePolicyExplicit =>
      [Build_LogCall LevelInfo "change_policy.startup" "Remote change operations: EXPLICIT allowlist"
         [F "allowed_ops" (FStrings (go_slice (cp_AllowedOpsSlice c)));
          F "allowed_count" (FInt (Z.of_nat (length (cp_AllowedOpsSlice c))))]]
  | ChangePolicyAll =>
      [Build_LogCall LevelWarn "change_policy.startup"
         "Remote change operations: ALL ENABLED (advanced mode — use with caution)" []]
  | ChangePolicyOther _ => []
  end.

(** ** Server names *)

(** [IP.String]: dotted decimals, or the groups of an IPv6 address in lower-case
    hexadecimal with the first longest run of at least two zero groups cut. *)
Definition octets (n : Z) : list Z := map (fun i => Z.land (Z.shiftr n (8 * i)) 255) [3; 2; 1; 0].
Definition groups (n : Z) : list Z := map (fun i => Z.land (Z.shiftr n (16 * i)) 65535) [7; 6; 5; 4; 3; 2; 1; 0].
Fixpoint hex_trim (l : list ascii) : list ascii :=
  match l with
  | c :: ((_ :: _) as rest) => if is_char "0"%char c then hex_trim rest else l
  | _ => l
  end.
Definition group_text (g : Z) : string := str (hex_trim (hex_byte (g / 256) ++ hex_byte (g mod 256))).
Fixpoint zeros (l : list Z) : nat := match l with 0 :: rest => S (zeros rest) | _ => O end.
(** The run as its first group and its length, [(0, 0)] for none. *)
Definition zero_run (l : list Z) : nat * nat :=
  foldl (fun best i => let n := zeros (drop i l) in
                       if (2 <=? n)%nat && (snd best <? n)%nat then (i, n) else best)
    (O, O) (seq 0 (length l)).
Definition IP_String (ip : IP) : string :=
  match ip with
  | IP4 n => Join (map pretty (octets n)) "."
  | IP6 n =>
      let gs := groups n in
      let '(i, k) := zero_run gs in
      if (k =? 0)%nat then Join (map group_text gs) ":"
      else Join (map group_text (take i gs)) ":" +:+ "::" +:+ Join (map group_text (drop (i + k) gs)) ":"
  end.

(** [parse_url]: scheme and [Hostname] of an endpoint, when it parses. *)
Definition tlsServerNameFromEndpoint (parse_url : string -> option (string * string)) (endpoint : string) : string :=
  match parse_url endpoint with
  | None => ""
  | Some (scheme, host) =>
      if negb (String.eqb scheme "https") then ""
      else match ParseIP host with
      | Some ip => IP_String ip
      | None => ToLower host
      end
  end.

(** ** The sync manager *)

(** A key pair that cannot be read is a missing one; [backend] says which
    acknowledgements get through. *)
Definition NewSyncManager {Wk St Cmd} (load : result string (option HostKeyPair)) (s : Supervisor (Wk:=Wk) (St:=St))
    (backend : nat -> bool) : SyncManager (Wk:=Wk) (St:=St) (Cmd:=Cmd) :=
  Build_SyncManager s (match load with Ok kp => kp | Err _ => None end) [] 0 0 backend [].

(** ** Facts *)

(** Every warning of the report names the file or the directory it is about. *)
Lemma targets_report_warnings r c : c ∈ targets_report r -> lc_Level c = LevelWarn ->
  F "path" (FString (ci_File (cr_Inventory r))) ∈ lc_Fields c
  \/ F "selected" (FString (ci_Dir (cr_Inventory r))) ∈ lc_Fields c.
Proof.
  unfold targets_report. rewrite !elem_of_app, !elem_of_cons, elem_of_nil.
  intros [[->|[->|[]]]|[H|H]] Hl; [discriminate Hl..| |]; revert H.
  - destruct (String.eqb _ _); [by intros ?%elem_of_nil|]. intros ->%list_elem_of_singleton. right. set_solver.
  - destruct (ci_FilePresent _); simpl; [destruct (ci_FileReadable _); simpl; [by intros ?%elem_of_nil|]|];
      intros ->%list_elem_of_singleton; left; set_solver.
Qed.

(** Splitting at a byte that a text does not have. *)
Lemma Split_byte (c : ascii) s t : c ∉ bytes s -> Split (s +:+ String c t) c = s :: Split t c.
Proof.
  induction s as [|a s IH]; simpl; [by rewrite Ascii.eqb_refl|]. intros [Ha Hs]%not_elem_of_cons.
  destruct (Ascii.eqb_spec a c) as [->|_]; [done|]. by rewrite IH.
Qed.
Lemma Split_whole (c : ascii) s : c ∉ bytes s -> Split s c = [s].
Proof.
  induction s as [|a s IH]; simpl; [done|]. intros [Ha Hs]%not_elem_of_cons.
  destruct (Ascii.eqb_spec a c) as [->|_]; [done|]. by rewrite IH.
Qed.
Lemma Split_joined (c : ascii) l : l <> [] -> Forall (fun s => c ∉ bytes s) l -> Split (Join l (String c "")) c = l.
Proof.
  intros Hne Hl. induction Hl as [|s l Hs Hl IH]; [done|]. destruct l as [|t l]; [by apply Split_whole|].
  change (Join (s :: t :: l) (String c "")) with (s +:+ String c (Join (t :: l) (String c ""))).
  rewrite Split_byte by done. f_equal. by apply IH.
Qed.

(** The text of an octet: it parses, and has no separator. *)
Definition octet_text (b : Z) : bool :=
  bool_decide (field4 (pretty b) = Some b) && negb (has_char "."%char (bytes (pretty b)))
  && negb (has_char colon (bytes (pretty b))).
Lemma octet_texts b : 0 <= b < 256 -> octet_text b = true.
Proof.
  intros Hb. assert (H : forallb (fun n => octet_text (Z.of_nat n)) (seq 0 256) = true) by (vm_compute; reflexivity).
  rewrite forallb_forall in H. specialize (H (Z.to_nat b)). rewrite Z2Nat.id in H by lia.
  apply H, in_seq. lia.
Qed.
Lemma has_char_false c l : has_char c l = false <-> c ∉ l.
Proof.
  unfold has_char. rewrite <- not_true_iff_false, existsb_exists. apply not_iff_compat.
  setoid_rewrite <- list_elem_of_In. split.
  - intros (x & Hx & ->%Ascii.eqb_eq). done.
  - intros H. exists c. split; [done|]. apply Ascii.eqb_refl.
Qed.
Lemma octet_spec b : 0 <= b < 256 ->
  field4 (pretty b) = Some b /\ "."%char ∉ bytes (pretty b) /\ colon ∉ bytes (pretty b).
Proof.
  intros H%octet_texts. unfold octet_text in H. rewrite !andb_true_iff, bool_decide_eq_true, !negb_true_iff in H.
  destruct H as [[H1 H2] H3]. by rewrite <- !has_char_false.
Qed.

Lemma octets_join n : 0 <= n < 2 ^ 32 ->
  exists a b c d, octets n = [a; b; c; d] /\ ((a * 256 + b) * 256 + c) * 256 + d = n
    /\ 0 <= a < 256 /\ 0 <= b < 256 /\ 0 <= c < 256 /\ 0 <= d < 256.
Proof.
  intros Hn. unfold octets, map.
  assert (E : forall i, Z.land (Z.shiftr n i) 255 = Z.shiftr n i mod 256) by (intros i; exact (Z.land_ones _ 8 ltac:(lia))).
  rewrite !E, !Z.shiftr_div_pow2 by lia. change (8 * 3) with 24. change (8 * 2) with 16. change (8 * 1) with 8. change (8 * 0) with 0.
  eexists _, _, _, _. split; [reflexivity|].
  change (2 ^ 24) with 16777216. change (2 ^ 16) with 65536. change (2 ^ 8) with 256. change (2 ^ 0) with 1. change (2 ^ 32) with 4294967296 in Hn.
  split_and!; Z.div_mod_to_equations; lia.
Qed.

(** The text of an IPv4 address parses to the address. *)
Lemma IP4_roundtrip n : 0 <= n < 2 ^ 32 -> ParseIP (IP_String (IP4 n)) = Some (IP4 n).
Proof.
  intros Hn. destruct (octets_join n Hn) as (a & b & c & d & E & Hj & Ha & Hb & Hc & Hd).
  destruct (octet_spec a Ha) as (A1 & A2 & A3), (octet_spec b Hb) as (B1 & B2 & B3),
    (octet_spec c Hc) as (C1 & C2 & C3), (octet_spec d Hd) as (D1 & D2 & D3).
  unfold IP_String. rewrite E. unfold ParseIP. rewrite (proj2 (has_char_false colon _)).
  - unfold parse4. rewrite Split_joined; [|done|by repeat constructor]. cbn. rewrite A1, B1, C1, D1. cbn. by rewrite Hj.
  - cbn [map Join]. rewrite !bytes_app. change (bytes ".") with ["."%char]. rewrite !elem_of_app, !list_elem_of_singleton.
    intros [?|[?|[?|[?|[?|[?|?]]]]]]; done.
Qed.

(** Endpoints that differ only in the spelling of their host have one name. *)
Lemma server_name_of_address parse_url e e' host host' ip :
  parse_url e = Some ("https", host) -> parse_url e' = Some ("https", host') ->
  ParseIP host = Some ip -> ParseIP host' = Some ip ->
  tlsServerNameFromEndpoint parse_url e = tlsServerNameFromEndpoint parse_url e'.
Proof. unfold tlsServerNameFromEndpoint. intros -> -> H H'. simpl. by rewrite H, H'. Qed.

Example address_texts :
  map (fun s => IP_String <$> ParseIP s)
    ["192.168.1.10"; "::ffff:10.0.0.1"; "2001:DB8:0:0:1:0:0:1"; "0:0:0:0:0:0:0:1"; "fe80:0:0:0:0:0:0:0"; "1:0:2:3:4:5:6:7"]
  = map Some ["192.168.1.10"; "10.0.0.1"; "2001:db8::1:0:0:1"; "::1"; "fe80::"; "1:0:2:3:4:5:6:7"].
Proof. vm_compute. reflexivity. Qed.
