(* ===== verification/UploadBounds.v ===== *)
(** Bounds of the uploader ([src/upload_queue.go]): what it holds in memory, how
    often it tries, and how long it waits, in every interleaving of its
    goroutines. *)
From S2P Require Import Prelude Types Metrics UploadQueue LocalDB UploadSystem.

Local Open Scope Z_scope.

(** The settings of a queue, fixed by its construction. *)
Definition settings (q : UploadQueue) : Z * Z * Z * Duration * Duration :=
  (uq_maxSize q, uq_maxRetries q, uq_workerCount q, uq_retryBackoff q, uq_maxBackoff q).

Lemma backoff_settings q q' n : settings q' = settings q -> calculateRetryBackoff q' n = calculateRetryBackoff q n.
Proof. unfold settings, calculateRetryBackoff. by intros [= _ _ _ -> ->]. Qed.

(** A wait never exceeds the maximum, even where the doubled delay wraps. *)
Lemma backoff_le_max q n : calculateRetryBackoff q n <= uq_maxBackoff q.
Proof. unfold calculateRetryBackoff. case_match; lia. Qed.

Lemma backoff_positive q n : 1 <= n -> 0 < uq_retryBackoff q -> 0 < uq_maxBackoff q ->
  uq_retryBackoff q * 2 ^ (n - 1) <= int64_max -> 0 < calculateRetryBackoff q n.
Proof.
  intros Hn Hr Hm Hfit. unfold calculateRetryBackoff. pose proof (Z.pow_pos_nonneg 2 (n - 1) ltac:(lia) ltac:(lia)).
  rewrite double_n_exact; rewrite ?Z2Nat.id by lia; [|lia..]. case_match; nia.
Qed.

(** ** The invariant *)

Record bound_inv {blob} (q0 : UploadQueue) (s : sys blob) : Prop := {
  bi_settings : settings (s_queue s) = settings q0;
  bi_workers : length (s_workers s) = Z.to_nat (uq_workerCount q0);
  bi_waits : forall i it d, s_workers s !! i = Some (WBackoff it d) ->
    d = calculateRetryBackoff q0 (qs_Retries it) /\ 1 <= qs_Retries it;
  bi_deferred : Forall (fun it => qs_Retries it = uq_maxRetries q0) (h_deferred (s_hist s));
  bi_probe : probeInitialBackoff <= s_probe s <= maxProbeBackoff;
}.

Section Bounds.
Context {blob : Type} (seal : payload -> option blob) (open_blob : blob -> option payload) (json_len : payload -> Z).
Implicit Types s : sys blob.

(** Steps that leave the workers and the pace of the probes alone. *)
Lemma bound_frame q0 s s' : settings (s_queue s') = settings (s_queue s) -> s_workers s' = s_workers s ->
  h_deferred (s_hist s') = h_deferred (s_hist s) -> s_probe s' = s_probe s -> bound_inv q0 s -> bound_inv q0 s'.
Proof. intros Hq Hw Hd Hp [H1 H2 H3 H4 H5]. split; rewrite ?Hq, ?Hw, ?Hd, ?Hp; done. Qed.

(** A worker moves to a program counter that does not wait. *)
Lemma bound_move q0 i pc s : match pc with WBackoff _ _ => False | _ => True end ->
  bound_inv q0 s -> bound_inv q0 (set_worker i pc s).
Proof.
  intros Hpc [H1 H2 H3 H4 H5]. split; simpl; [done|by rewrite length_insert| |done..].
  intros j it d [(-> & E & _)|[_ Hl]]%list_lookup_insert_Some; [by subst pc|by eapply H3].
Qed.

Lemma Enqueue_settings ptr token p pri now q m out q' m' :
  Enqueue json_len ptr token p pri now q m = (out, q', m') -> settings q' = settings q.
Proof.
  unfold Enqueue, evictLowestPriority. intros H. repeat case_match; simplify_eq; done.
Qed.

Lemma do_enqueue_bound q0 token p pri now s : bound_inv q0 s -> bound_inv q0 (do_enqueue json_len token p pri now s).
Proof.
  unfold do_enqueue. destruct (Enqueue _ _ _ _ _ _ _ _) as [[out q'] m'] eqn:E. apply Enqueue_settings in E.
  apply bound_frame; [done..|by destruct out as [|[]]|done].
Qed.

Lemma post_failed_bound q0 i auth now item s : live_inv s -> s_workers s !! i = Some (WPost item) ->
  bound_inv q0 s -> bound_inv q0 (post_failed i auth now item s).
Proof.
  intros HL Hi Hb. unfold post_failed. set (q := if auth then s_queue s else markOffline now (s_queue s)).
  assert (Hq : settings q = settings (s_queue s)) by (unfold q; by destruct auth).
  assert (Hr : 0 <= qs_Retries item < uq_maxRetries (s_queue s)).
  { pose proof (li_retries _ HL) as H. rewrite (inflight_split _ _ _ Hi) in H. simpl in H.
    by apply Forall_app in H as [_ [? _]%Forall_cons]. }
  pose proof (bi_settings _ _ Hb) as Hs. assert (Hm : uq_maxRetries q = uq_maxRetries (s_queue s)) by (unfold q; by destruct auth).
  destruct (Z.leb_spec (uq_maxRetries q) (qs_Retries (incr_Retries item))) as [Hge|_]; destruct Hb as [H1 H2 H3 H4 H5].
  - apply bound_move; [done|]. split; simpl; [by rewrite Hq|done..| |done]. constructor; [|done].
    simpl in *. unfold settings in Hs. injection Hs as _ Hs _ _ _. lia.
  - split; simpl; [by rewrite Hq|by rewrite length_insert| |done..].
    intros j it d [(-> & E & _)|[_ Hl]]%list_lookup_insert_Some; [|by eapply H3].
    injection E as <- <-. simpl. split; [|lia]. apply backoff_settings. by rewrite Hq.
Qed.

Lemma requeue_bound q0 i item s : bound_inv q0 s -> bound_inv q0 (requeue i item s).
Proof. intros H. unfold requeue. case_match; (apply bound_move; [done|]); by eapply bound_frame; [..|exact H]. Qed.

Lemma mark_synced_frame db_ok now item s :
  s_queue (mark_synced db_ok now item s) = s_queue s /\ s_workers (mark_synced db_ok now item s) = s_workers s
  /\ s_hist (mark_synced db_ok now item s) = s_hist s /\ s_probe (mark_synced db_ok now item s) = s_probe s.
Proof. unfold mark_synced. by repeat case_match. Qed.

Lemma probe_next_bounds b : probeInitialBackoff <= b <= maxProbeBackoff ->
  probeInitialBackoff <= probe_backoff_next b <= maxProbeBackoff.
Proof.
  unfold probe_backoff_next. intros [H1 H2].
  assert (Hc : 0 < probeInitialBackoff /\ maxProbeBackoff * 2 <= int64_max) by (vm_compute; split; congruence).
  assert (E : wrap64 (b * 2) = b * 2) by (apply wrap64_id; unfold in_int64, int64_min; lia).
  rewrite E. destruct (Z.ltb_spec b maxProbeBackoff); [|lia]. destruct (Z.ltb_spec maxProbeBackoff (b * 2)); lia.
Qed.

Lemma probe_settings now ok b q : settings (pt_queue (probeLoop_turn now ok b q)) = settings q.
Proof. unfold probeLoop_turn. by destruct (uq_backendOnline q), ok. Qed.
Lemma probe_pace now ok b q : probeInitialBackoff <= b <= maxProbeBackoff ->
  probeInitialBackoff <= pt_backoff (probeLoop_turn now ok b q) <= maxProbeBackoff.
Proof.
  intros Hb. unfold probeLoop_turn. destruct (uq_backendOnline q), ok; simpl;
    try (by apply probe_next_bounds); by vm_compute.
Qed.

Lemma dequeue_settings q m it q' m' : dequeue q m = Some (it, q', m') -> settings q' = settings q.
Proof. intros (_ & _ & -> & _)%dequeue_spec. done. Qed.

Lemma step_bound q0 a s s' : step seal open_blob json_len a s = Some s' -> live_inv s ->
  bound_inv q0 s -> bound_inv q0 s'.
Proof.
  destruct a; cbn [step markOnline]; intros H HL Hb; repeat case_match; simplify_eq;
    try (by apply do_enqueue_bound); try (by apply post_failed_bound); try (by apply requeue_bound);
    try (by eapply bound_frame; [..|exact Hb]); try (by apply bound_move); try done.
  - apply bound_move; [done|]. eapply bound_frame; [..|exact Hb]; simpl; [by eapply dequeue_settings|done..].
  - apply bound_move; [done|]. by eapply bound_frame; [..|exact Hb].
  - apply bound_move; [done|]. by eapply bound_frame; [..|exact Hb].
  - apply bound_move; [done|]. destruct (mark_synced_frame db_ok now item s) as (E1 & E2 & E3 & E4).
    eapply bound_frame; [..|exact Hb]; congruence.
  - apply bound_move; [done|]. by eapply bound_frame; [..|exact Hb].
  - destruct Hb as [H1 H2 H3 H4 H5]. split; simpl; [by rewrite probe_settings|done..|by apply probe_pace].
  - eapply bound_frame; [..|exact (do_enqueue_bound q0 (uq_connectorToken (s_queue s)) (replay_payload u) PriorityLow now s Hb)]; done.
Qed.

Lemma reachable_bound cfg d s : reachable seal open_blob json_len cfg d s -> bound_inv (NewUploadQueue cfg) s.
Proof.
  induction 1 as [|s a s' Hr IH Hs].
  - split; simpl; [done|by rewrite length_replicate| |done|by vm_compute].
    by intros i it w [? _]%lookup_replicate.
  - eapply step_bound; [done| |done]. by eapply reachable_inv.
Qed.

Lemma inflight_length ws : (length (inflight ws) <= length ws)%nat.
Proof. induction ws as [|pc ws IH]; simpl; [done|]. rewrite length_app. destruct pc; simpl; lia. Qed.

Lemma or_default_pos z d : 0 < d -> 0 < or_default z d.
Proof. unfold or_default. case_match; lia. Qed.

(** C4: The uploader stays within its settings in every interleaving, whatever
    the settings: it holds at most the queue size plus one snapshot per worker,
    the number of workers never changes, a snapshot is posted at most the
    configured number of times and given up exactly then, a wait is never longer
    than the maximum, and never zero or negative as long as the doubled delay of
    the last try fits a 64-bit duration; the pause between two probes lies
    between thirty seconds and five minutes. *)
Theorem upload_bounded cfg d s (Hr : reachable seal open_blob json_len cfg d s) :
  let q0 := NewUploadQueue cfg in
  let live := uq_items (s_queue s) ++ inflight (s_workers s) in
  Depth (s_queue s) <= uq_maxSize q0
  /\ Z.of_nat (length live) <= uq_maxSize q0 + uq_workerCount q0
  /\ Z.of_nat (length (s_workers s)) = uq_workerCount q0
  /\ Forall (fun it => 0 <= qs_Retries it < uq_maxRetries q0) live
  /\ Forall (fun it => qs_Retries it = uq_maxRetries q0) (h_deferred (s_hist s))
  /\ (forall i it w, s_workers s !! i = Some (WBackoff it w) ->
        w <= uq_maxBackoff q0
        /\ (uq_retryBackoff q0 * 2 ^ (uq_maxRetries q0 - 2) <= int64_max -> 0 < w))
  /\ probeInitialBackoff <= s_probe s <= maxProbeBackoff.
Proof.
  intros q0 live. destruct (reachable_inv _ _ _ _ _ _ Hr) as [_ HL].
  destruct (reachable_bound _ _ _ Hr) as [HS HW HB HD HP]. fold q0 in HS, HW, HB, HD.
  assert (uq_maxSize (s_queue s) = uq_maxSize q0 /\ uq_maxRetries (s_queue s) = uq_maxRetries q0) as [E1 E2]
    by (split; congruence || by injection HS).
  pose proof (li_depth _ HL) as Hd. pose proof (li_retries _ HL) as Ht. rewrite E1 in Hd. rewrite E2 in Ht.
  assert (Hw : Z.of_nat (length (s_workers s)) = uq_workerCount q0).
  { rewrite HW, Z2Nat.id; [done|]. pose proof (or_default_pos (cfg_WorkerCount cfg) 2 ltac:(lia)). simpl. lia. }
  split_and!; try done; try apply HP.
  - unfold live. rewrite length_app. unfold Depth in Hd. pose proof (inflight_length (s_workers s)). lia.
  - intros i it w Hi. destruct (HB i it w Hi) as [-> Hn]. split; [apply backoff_le_max|]. intros Hfit.
    assert (Hlt : qs_Retries it < uq_maxRetries q0).
    { rewrite (inflight_split _ _ _ Hi) in Ht. apply Forall_app in Ht as [_ [? _]%Forall_cons]. lia. }
    assert (Hp : 0 < uq_retryBackoff q0) by (apply or_default_pos; done).
    apply backoff_positive; [done|done|apply or_default_pos; done|].
    etransitivity; [|exact Hfit]. apply Z.mul_le_mono_nonneg_l; [lia|]. apply Z.pow_le_mono_r; lia.
Qed.
End Bounds.

(** ** Instance *)

(** The run of [UploadSystem.demo]: one worker, a queue of two, three tries. *)
Lemma upload_bounded_witness :
  Z.of_nat (length (uq_items (s_queue demo) ++ inflight (s_workers demo))) <= 2 + 1
  /\ probeInitialBackoff <= s_probe demo <= maxProbeBackoff.
Proof.
  destruct (upload_bounded Some Some (fun _ => 1) demo_cfg demo_db demo demo_reachable) as (_ & H & _ & _ & _ & _ & Hp).
  split; [exact H|exact Hp].
Defined.

(** With the default settings: at most 102 snapshots in memory, three tries
    each, and the doubled delay fits. *)
Lemma default_settings : let q := NewUploadQueue DefaultUploadQueueConfig in
  settings q = (100, 3, 2, 5 * Second, 60 * Second)
  /\ uq_retryBackoff q * 2 ^ (uq_maxRetries q - 2) <= int64_max.
Proof. vm_compute. split; [done|discriminate]. Qed.
